(* ===== verification/_CoqProject ===== *)
-Q . S2P
Prelude.v
Dict.v
JsString.v
JsNum.v
Html.v
Types.v
Host.v
Async.v
Design.v
Theme.v
Ui.v
ControlPlane.v
Retention.v
Heartbeat.v
Workers.v
Recovery.v
KeyValue.v
Persistence.v
RunsPage.v
RunDetail.v
Console.v
Simulation.v
SimulationInv.v
SimulationProps.v
SimulationView.v
Hooks.v
Regex.v
LogParser.v
StorageBrowser.v
Checkpointing.v
ObjectStorage.v
ShardWriter.v
Retry.v
DataPlane.v
DataPlaneProps.v
Transfer.v
Trainer.v
TrainerProps.v
CheckpointBrowser.v
LogStream.v
LossChart.v
HealthPage.v
PerformancePage.v
Panels.v
Visitors.v
Kill.v
Walkthrough.v
Architecture.v
Landing.v
HowItWorks.v
TryLocally.v
Benchmarks.v
App.v
Motion.v
Site.v
