(* ===== verification/Prelude.v ===== *)
(** * Checkpoint Runtime operator console: verification library

    The console is the React application under [frontend/src]: a browser simulation of a
    training run with checkpoint recovery ([pages/DemoPage.tsx]), an operator console for
    the control plane (runs, run details, checkpoints, health, performance), panels that
    read the workers' logs, the object storage and the visitors, and static pages. Its
    operator pages talk to the Python control plane ([python-controlplane]). Of it are
    modelled the run state machine and the action endpoints, and the part that the console
    is there to show: heartbeats, the registry of workers, recovery from a worker's
    failure, upload, commit and download of checkpoints, retention and the visitor
    endpoints. The control plane hands the bytes of a checkpoint to the data plane
    ([rust-dataplane]), a gRPC service over an object store, which is modelled down to its
    calls of the store. What all of it is for, a training that survives the death of its
    process, is the trainer ([training-harness]) with the client of the control plane,
    modelled on top of both.

    ** How the code is modelled

    A page is a record of its state, a type of messages (clicks, timers, settled requests,
    events of a stream) and an [update] that maps a message and a state to the next state
    and the requests, alerts and navigations it issues. An asynchronous handler is cut at
    its awaits: the part up to the first [await] and each part after it are messages of
    their own, so every interleaving of overlapping requests is a sequence of messages.
    The [try]/[catch]/[finally] of a handler is the state-and-exception monad of [Async];
    the response of a server is an argument. What a component returns is an element tree
    ([Html]) with the messages of its handlers, from which the offers, the text, the class
    names, the dispatch of a click and the sibling keys are computed. Numbers are IEEE
    doubles ([JsNum]) where the code computes with them and integers where it only counts;
    strings are sequences of code units ([JsString]).

    The control plane is modelled as state passing over the stores it keeps: the persisted
    records (maps by key), the in-memory indexes (ordered maps, [Dict], as Python's
    dictionaries are iterated in insertion order) and the leases, which are objects shared
    by the lease table and a running scan and therefore live in a store of their own. The
    components are plugged together in [Recovery.Lifespan] as [lifespan] in [api/rest.py]
    does it: the scan takes what follows a declared death as an argument, the recovery
    manager takes the supervisor's callback, and the laws each needs of the other (what a
    callback may do to the leases, what it leaves alone) are hypotheses that the composed
    definitions discharge. Clocks, fresh identifiers, Docker and the restart thread are
    arguments or steps. That the persisted records may be taken for maps is a refinement:
    [Persistence] has the coordinator as it is written, over a key-value store that is an
    interface ([KeyValue.KVStore] with [KVLaws]), with its keys, its serialized records and
    the exceptions of a store that fails, and [coordinator_refines_maps] relates it to the
    maps; both stores of the program satisfy the interface, the one over etcd given what
    etcd documents of its requests ([KeyValue.EtcdLaws]).

    The data plane is an asynchronous program: between two of its calls of the object
    store, of the atomic counters or of the clock another request may run. Its functions
    are programs over these calls ([ObjectStorage.prog]), trees whose nodes are the calls
    and whose branches are the answers; [?] is the [bind] of a fallible one. A program is
    run alone ([exec]) or as one of a pool whose requests advance a call at a time and can
    be dropped between two calls ([DataPlane.turn]). The object store is a class ([Cloud])
    with the documented behaviour of S3 as its laws: what a successful call did, that a
    failed one did that or nothing, that the parts of a multipart upload but the last have
    at least 5 MiB and are at most 10,000, that a copy is limited to 5 GiB, that its source
    is taken for URL-encoded (a plain one names itself), that listings come in pages, and,
    for a store that is up, that what is admissible succeeds. A
    calculus of postconditions ([wp]) carries these laws through the programs, and a
    reference store in memory with scheduled failures ([ObjectStorage.Memory]) satisfies
    them.

    The trainer is a program over its requests ([Trainer.sdk], state and exceptions over the
    world of both programs). A request first lets the rest of the system move on, by a
    function of which is only known that it keeps the run's state, checkpoints and objects
    ([TrainerProps.quiet], which heartbeats satisfy), and then answers, or the process is
    killed, before the server has seen the request or after. What holds of a program at
    each of these points is carried by a second calculus ([TrainerProps.goes]): either it
    returns with its postcondition, or it is killed in a world that satisfies the crash
    condition. PyTorch is a class with the round trip of its serialization as the law.

    ** Files

    - [Prelude]: lists, slices and the bounded buffers, strictly increasing lists, the
      last writer of a state, stable sorting by a key, tactics and the hint base [console];
      [Dict]: ordered maps and grouping by a key;
      [JsString], [JsNum]: strings, integers in a radix, doubles with correct rounding,
      [toFixed], [toString], [parseInt], [parseFloat]; [Regex]: the patterns of the
      console with the backtracking matcher; [Html], [Async], [Host]: element trees,
      handlers, and the browser functions that are not computable here ([Math.log], dates,
      locales) as classes with the laws relied on;
    - [Types], [Design], [Ui]: [types.ts], [design.ts], [components/ui.tsx]; [Theme]: the
      tokens of [tailwind.config.js] with the variables of [index.css];
    - [ControlPlane]: [state_machine.py], the run records of [coordinator.py] and the
      action endpoints of [api/rest.py] (start, cancel, complete, fail, checkpoint, resume);
    - [Retention]: [retention.py], the plan and the pass over an object store;
      [Heartbeat]: [heartbeat.py], leases and the scan; [Workers]: [worker_manager.py] with
      the worker records of [coordinator.py]; [Recovery]: [recovery.py], the group restart
      and the reconciliation of [api/rest.py], the wiring of [lifespan] and the steps of the
      plane besides the transfers; [Checkpointing]: upload and commit of a checkpoint's
      shards, the handlers of [api/rest.py] cut at their calls of the data plane, and the
      histories of the whole plane, with retention and restarts;
    - [KeyValue]: the stores of [coordinator.py], in memory and over etcd's HTTP gateway, with
      base64 and the ranges of keys; [Persistence]: the operations of its [Coordinator] over
      a store; [Kill]: the kill endpoint of the demonstration in [api/rest.py], with what the
      trainer finds after it (its part in the histories is [Recovery.demo_kill]);
    - [ObjectStorage]: [storage/s3.rs], the client's operations, the store, programs and
      their postconditions; [ShardWriter]: [checkpoint/writer.rs] and
      [storage/checksum.rs], the multipart upload and the promotion to the content key;
      [Retry]: [retry.rs]; [DataPlane]: [checkpoint/manifest.rs], [reader.rs], [gc.rs],
      [backpressure.rs] and the handlers of [grpc_service.rs] with the pool of requests;
      [DataPlaneProps]: aborts, the orphan collection, commits and reads; [Transfer]: the
      handlers of [api/rest.py] composed with the data plane they call
      ([api/grpc_client.py]), from the trigger of a checkpoint to its download;
    - [Trainer]: [training-harness/train.py] for rank 0, from the choice of the run over the
      restore, the loop and its checkpoints to the completion, a turn of its heartbeat
      thread, and [sdk/client.py]; [TrainerProps]: trainings across kills;
    - [RunsPage], [RunDetail]: [pages/RunsPage.tsx] and [pages/RunDetailPage.tsx];
      [Console]: these pages against the control plane;
    - [Simulation]: state, effects, timers and handlers of [pages/DemoPage.tsx] as a step
      relation with React's update queue, commits and passive effects; [SimulationInv] its
      invariants; [SimulationProps] the properties; [SimulationView] the view;
    - [Hooks]: [hooks/usePolling.ts], [useEventStream.ts], [useReveal.ts]; [LogParser]:
      [hooks/useLogParser.ts] with the log formats of [training-harness/train.py];
    - [StorageBrowser], [LogStream], [LossChart]: the panels of [components/];
      [CheckpointBrowser], [HealthPage], [PerformancePage]: the pages of that name;
    - [Panels]: [ContainerStatus.tsx], [SystemInfo.tsx], [CheckpointProof.tsx],
      [TrainingInfo.tsx] and [ThemeToggle.tsx]; [Visitors]: [VisitorStats.tsx] and
      [ActivityFeed.tsx] with their endpoints in [api/rest.py]; [Walkthrough]:
      [DemoWalkthrough.tsx];
    - [Architecture], [Landing], [HowItWorks], [TryLocally], [Benchmarks]: the static pages,
      with the accordion of the landing page and the copy buttons of [TryLocallyPage.tsx];
    - [App]: [App.tsx], navigation, routes and scroll positions; [Motion]: the poses of its
      menu's animations; [Site]: what holds of all
      public pages together, and the documented state table against [ControlPlane].

    ** What the theorems show

    - The simulation ([SimulationProps], [SimulationView]): in every reachable state the
      checkpoints are at increasing multiples of 50 with distinct hashes, a restored step is
      one of theirs, timers match the phase and the buffers are bounded; a kill leads to
      recovery on time and loses less than 50 steps; restart resets, except for the race
      stated; buttons act exactly when they are offered; keys are distinct.
    - The operator pages ([RunsPage], [RunDetail], [CheckpointBrowser], [HealthPage],
      [Console], [ControlPlane]): the state after any history of messages; the actions
      offered for each run state; what each action does to the control plane and what the
      page does with the reply; that no form is submitted twice at a time; the endpoints
      refine the action table.
    - The data ([LogParser], [Hooks], [StorageBrowser], [LossChart], [LogStream]): printed
      logs are read back exactly, buffers are bounded and equal to the last part of the
      history, files are grouped without loss, the closest point is found.
    - The control plane ([Heartbeat], [Workers], [Recovery], [Checkpointing], [Retention]):
      a worker declared dead has been silent for the threshold, and a silent one is declared
      once, within a period of the scan, unless another worker's failure took it out of the
      table; a registration retires the one that held its rank, and a reboot loses no
      heartbeat; after every history over a store that does not fail records, indexes,
      ranks, leases and state machines agree; a failure of a run has the outcome its state
      demands, with the newest committed checkpoint as the target; a scan restarts a group
      once, however many of its workers have expired, and the resumed run is running again;
      a checkpoint is committed only when the data plane has written its manifest with the
      acknowledged shards, one that meets no failure is, and a failed transfer fails it and
      its run; a shard is sent whole and found again by its key; retention keeps what a
      resumable run and the runs written last need, bounds the bucket and reports exactly
      what it deleted.
    - Persistence ([KeyValue], [Persistence]): the two stores are interchangeable, the range
      sent for a prefix selects the keys with that prefix, and every sequence of operations
      of the coordinator over a store that does not fail has the answers and the effects
      that the maps of the other components give; what a failed write leaves.
    - The kill of the demonstration ([Kill]): what the endpoint does on every branch; after
      it the run is FAILED, nothing of it is active or watched, and no scan reports it; the
      trainer resumes it from a checkpoint at most an interval back, whether or not an
      upload was open, and trains to the end when none was; an open upload stays open.
    - The data plane ([ShardWriter], [DataPlane], [DataPlaneProps], [Retry], [Transfer]): a
      write that succeeds has the whole body under its content key, given names that are
      their own URL encoding, and whatever the store answers every other object is left
      alone; in every interleaving of requests, with failing calls and clients that hang up,
      a manifest stays until its checkpoint is committed again, and the backpressure counter
      is the number of handlers in progress that hold a place and of those dropped while
      they held one; an abort deletes the objects of its checkpoint, the orphan collection
      those of checkpoints without a manifest, and nothing else; commits are idempotent;
      retries end, with bounded delays; and a checkpoint that is triggered, uploaded and
      committed through both programs is committed, its run goes on, and what is read back
      is what was uploaded.
    - The trainer ([TrainerProps]): a training that is not killed restores the newest
      checkpoint, leaves one at every interval and at its last step, each with the
      parameters of as many steps of the optimizer, and completes its run; killed at any
      request, it leaves a complete checkpoint at most an interval old and a run that can be
      started from once the monitor has declared the worker dead; however the processes are
      killed, when the kills stop and enough processes are started one after the other, the
      run is completed with exactly its number of steps; a worker that the control plane has
      forgotten is registered again.
    - The public site ([Site], [TryLocally], [Landing], [Panels], [Visitors]): links lead to
      public pages, keys are distinct, sections are numbered through, the documented state
      table is the one implemented; the copy button's confirmation ends, the accordion has
      one open answer, the theme survives a reload; visitors are counted and announced once.
    - Divergences: theorems that state what the code does where that is not what it means to
      do (refused actions on offer, transitions that [ARCHITECTURE.md] and the header of
      [api/rest.py] do not list, copies whose source is not URL-encoded, events that are not
      listened to, stale responses, a manifest under another file's row, the color of the
      success rate, colliding keys, toggles out of step, the retry window at start, uploads
      deleted within the grace period, late uploads that reopen a checkpoint, uploads that a
      kill leaves open and a later commit takes, a failed write that blocks its run,
      abandoned writes that block the service, shards that are stored but too large for the
      channel they are read on).

    ** Bounds and fuel

    [JsNum] and [JsString] print and parse with fuel that is a bound on the number of
    digits ([radix_fuel_enough], [to_string_of_Z]); every other recursion is structural.
    The regular expression matcher is total: each quantifier tries finitely many lengths.
    Statements about exact integers ask for less than [2 ^ 53]. The simulation's clock is
    a number of milliseconds; a timer fires at or after its due time. The clocks of the
    control plane are integers of milliseconds; its intervals (5, 10, 15 and 3 seconds, a
    retry window of 30) are those [lifespan] configures, and the theorems about the scan
    hold for any threshold and period. The deletion of a pass goes in batches of 1000. The
    loop over the chunks of a body has its length as fuel, which is more than the number
    of chunks ([chunks_from_spec]). In the data plane, the loop over full parts has the
    number of parts in the buffer as fuel, the cutting of a part the number of buffered
    chunks and one, the cutting of a body into pieces its length, and each is shown to be
    enough ([take_part_spec], [upload_parts_wp], [chunks_spec]); a listing has a bound on
    its pages, and the theorems that promise success ask for more than there are objects.
    Machine integers wrap where the code counts in them ([usize], [u32], [u64]). The outer
    loop of the trainer has a bound on its epochs; the number of steps is enough of it when
    no epoch is empty ([TrainerProps.training_completes]). The loop of
    base64 and the key order are structural. Identifiers of a bounded length
    repeat in the end, so the theorems on the trainer ask for distinct ones among as many
    requests as the training can make ([horizon]).

    ** Not modelled

    React's concurrent rendering and the double invocation of StrictMode; animation and
    chart drawing (the elements are kept, their libraries are not); route matching; CSS
    beyond the variables of the theme, and how Tailwind makes rules of class names;
    [main.tsx] and [config/api.ts], which mount the application and name a constant. Of the
    control plane: etcd behind its gateway and the JSON of the records, which are parameters
    with laws; the fields that the maps do not keep (names, metadata, host names and the
    shard totals of a record, which [Checkpointing] keeps beside it), the choice of the store
    at startup; a store that fails under the other components, which work on the maps (what
    it does to a transition is in [Persistence]); the gRPC channel (its limit on messages is
    kept), metrics and simulated data, the listings of Docker, the lookup of a visitor's
    country. Of the data plane: process start and
    configuration, metrics and tracing, the dataset streamer, which the service does not
    use; the bounded channel between the receiving and the writing task of an upload is
    the list of what goes through it, so how far the one is ahead of the other is not
    visible, only what a dropped sender leaves behind. SHA-256, JSON, protobuf and the
    object store are parameters with laws. Of the trainer: its checkpoints on the local
    disk, which it writes without a control plane, the other ranks (they save nothing; they
    wait for the run and load the shard of rank 0) with their barriers, and its log beyond
    the messages that the console reads. Deployment and tests are configuration.

    This file holds the automation and the generic lemmas the components share. *)

From stdpp Require Export base tactics option list list_numbers strings gmap.
From Stdlib Require Export ZArith Lia Sorted.

#[global] Open Scope string_scope.
#[global] Open Scope list_scope.
#[global] Open Scope Z_scope.
#[export] Set Default Goal Selector "!".

(** ** Automation shared by the development *)

Create HintDb console discriminated.

(** Case analysis on every boolean test and [match] of the goal, then closing by
    computation; the decision tables of the console are proved with it. *)
Ltac break_match :=
  match goal with
  | |- context [match ?x with _ => _ end] =>
      lazymatch x with
      | context [match _ with _ => _ end] => fail
      | _ => let E := fresh "E" in destruct x eqn:E
      end
  end.

Ltac break_match_in H :=
  match type of H with
  | context [match ?x with _ => _ end] =>
      lazymatch x with
      | context [match _ with _ => _ end] => fail
      | _ => let E := fresh "E" in destruct x eqn:E
      end
  end.

(** Turns boolean comparisons of [Z] in the context into propositions. *)
Ltac bool_hyps :=
  repeat match goal with
  | H : (_ && _)%bool = true |- _ => apply andb_prop in H; destruct H
  | H : (_ || _)%bool = false |- _ => apply orb_false_elim in H; destruct H
  | H : (_ <? _) = true |- _ => apply Z.ltb_lt in H
  | H : (_ <? _) = false |- _ => apply Z.ltb_ge in H
  | H : (_ <=? _) = true |- _ => apply Z.leb_le in H
  | H : (_ <=? _) = false |- _ => apply Z.leb_gt in H
  | H : (_ =? _) = true |- _ => apply Z.eqb_eq in H
  | H : (_ =? _) = false |- _ => apply Z.eqb_neq in H
  | H : (_ =? _)%string = true |- _ => apply String.eqb_eq in H
  | H : (_ =? _)%string = false |- _ => apply String.eqb_neq in H
  | H : negb _ = true |- _ => apply negb_true_iff in H
  | H : negb _ = false |- _ => apply negb_false_iff in H
  | H : bool_decide _ = true |- _ => apply bool_decide_eq_true in H
  | H : bool_decide _ = false |- _ => apply bool_decide_eq_false in H
  end.

(** ** Array slices

    [Array.prototype.slice(start, end)]: a negative index counts from the end
    and both ends are clamped to the array. *)
Module Slice.

(** The clamped absolute index of a relative one, for an array of length [len]. *)
Definition rel_index (len i : Z) : Z :=
  if i <? 0 then Z.max (len + i) 0 else Z.min i len.

Definition slice {A} (start : Z) (stop : option Z) (l : list A) : list A :=
  let len := Z.of_nat (length l) in
  let k := rel_index len start in
  let f := match stop with None => len | Some e => rel_index len e end in
  take (Z.to_nat (f - k)) (drop (Z.to_nat k) l).

(** The last [n] elements, the specification of [slice(-n)] for [n > 0]. *)
Definition last_n {A} (n : nat) (l : list A) : list A := drop (length l - n) l.

Lemma slice_neg {A} (n : Z) (l : list A) :
  0 < n -> slice (- n) None l = last_n (Z.to_nat n) l.
Proof.
  intros Hn. unfold slice, last_n, rel_index.
  destruct (Z.ltb_spec (- n) 0); [|lia].
  rewrite take_ge.
  - f_equal. lia.
  - rewrite length_drop. lia.
Qed.

(** [slice(-0)] is [slice(0)]: the whole array. *)
Lemma slice_zero {A} (l : list A) : slice 0 None l = l.
Proof.
  unfold slice, rel_index. cbn [Z.ltb Z.compare].
  rewrite Z.min_l by lia. cbn [Z.to_nat drop]. apply take_ge. lia.
Qed.

Lemma slice_prefix {A} (n : Z) (l : list A) :
  0 <= n -> slice 0 (Some n) l = take (Z.to_nat n) l.
Proof.
  intros Hn. unfold slice, rel_index.
  destruct (Z.ltb_spec 0 0); [lia|]. destruct (Z.ltb_spec n 0); [lia|].
  rewrite (Z.min_l 0) by lia. cbn [Z.to_nat drop].
  destruct (Z.le_gt_cases n (Z.of_nat (length l))).
  - f_equal. lia.
  - rewrite (take_ge l) by lia. rewrite take_ge; [done|]. lia.
Qed.

Lemma slice_from {A} (n : Z) (l : list A) :
  0 <= n -> slice n None l = drop (Z.to_nat n) l.
Proof.
  intros Hn. unfold slice, rel_index. destruct (Z.ltb_spec n 0); [lia|].
  destruct (Z.le_gt_cases n (Z.of_nat (length l))).
  - rewrite Z.min_l by lia. apply take_ge. rewrite length_drop. lia.
  - rewrite Z.min_r by lia. rewrite !drop_ge by lia. by rewrite take_nil.
Qed.

Lemma last_n_length {A} (n : nat) (l : list A) :
  (length (last_n n l) = Nat.min n (length l))%nat.
Proof. unfold last_n. rewrite length_drop. lia. Qed.

Lemma last_n_all {A} (n : nat) (l : list A) :
  (length l <= n)%nat -> last_n n l = l.
Proof. intros H. unfold last_n. by replace (length l - n)%nat with 0%nat by lia. Qed.

Lemma last_n_suffix {A} (n : nat) (l : list A) :
  exists dropped, l = dropped ++ last_n n l.
Proof. exists (take (length l - n) l). symmetry. apply take_drop. Qed.

Lemma last_n_snoc {A} (n : nat) (l : list A) (x : A) :
  last_n (S n) (l ++ [x]) = last_n n l ++ [x].
Proof.
  unfold last_n. rewrite length_app. cbn [length].
  replace (length l + 1 - S n)%nat with (length l - n)%nat by lia.
  rewrite drop_app_le by lia. done.
Qed.

Lemma last_n_last_n {A} (m n : nat) (l : list A) :
  (m <= n)%nat -> last_n m (last_n n l) = last_n m l.
Proof.
  intros H. unfold last_n at 1 3. rewrite last_n_length. unfold last_n.
  rewrite drop_drop. f_equal. lia.
Qed.

(** [[...prev.slice(-(max - 1)), x]], the bounded append of the event and log
    buffers. *)
Definition push_capped {A} (max : Z) (prev : list A) (x : A) : list A :=
  slice (- (max - 1)) None prev ++ [x].

(** [[...prev, x].slice(-max)], the other spelling of the same buffer. *)
Definition push_then_slice {A} (max : Z) (prev : list A) (x : A) : list A :=
  slice (- max) None (prev ++ [x]).

Lemma push_capped_last_n {A} (max : Z) (prev : list A) (x : A) :
  2 <= max -> push_capped max prev x = last_n (Z.to_nat max) (prev ++ [x]).
Proof.
  intros H. unfold push_capped. rewrite slice_neg by lia.
  replace (Z.to_nat max) with (S (Z.to_nat (max - 1))) by lia.
  by rewrite last_n_snoc.
Qed.

Lemma push_capped_then_slice {A} (max : Z) (prev : list A) (x : A) :
  2 <= max -> push_capped max prev x = push_then_slice max prev x.
Proof.
  intros H. rewrite push_capped_last_n by done.
  unfold push_then_slice. rewrite slice_neg by lia. done.
Qed.

Lemma push_capped_length {A} (max : Z) (prev : list A) (x : A) :
  2 <= max -> Z.of_nat (length (push_capped max prev x)) <= max.
Proof. intros H. rewrite push_capped_last_n, last_n_length by done. lia. Qed.

Lemma push_then_slice_length {A} (max : Z) (prev : list A) (x : A) :
  0 < max -> Z.of_nat (length (push_then_slice max prev x)) <= max.
Proof.
  intros H. unfold push_then_slice. rewrite slice_neg, last_n_length by done. lia.
Qed.

Lemma push_capped_snoc {A} (max : Z) (l : list A) (x : A) :
  2 <= max ->
  push_capped max (last_n (Z.to_nat max) l) x = last_n (Z.to_nat max) (l ++ [x]).
Proof.
  intros H. rewrite push_capped_last_n by done. rewrite <- last_n_snoc, last_n_last_n by lia. done.
Qed.

(** Pushing a whole history one element at a time keeps exactly its last [max]
    elements. *)
Lemma push_capped_history {A} (max : Z) (xs init : list A) :
  2 <= max ->
  foldl (push_capped max) (last_n (Z.to_nat max) init) xs
    = last_n (Z.to_nat max) (init ++ xs).
Proof.
  intros H. revert init. induction xs as [|x xs IH]; intros init; cbn [foldl].
  - by rewrite app_nil_r.
  - rewrite push_capped_last_n by done.
    replace (last_n (Z.to_nat max) init ++ [x]) with (last_n (S (Z.to_nat max)) (init ++ [x]))
      by apply last_n_snoc.
    rewrite last_n_last_n by lia. rewrite IH, <- app_assoc. done.
Qed.

End Slice.
#[export] Hint Resolve Slice.push_capped_length Slice.push_then_slice_length : console.

(** ** Lists in strict order *)

(** Strictly increasing integer lists, the shape of checkpoint steps and ids. *)
Fixpoint increasing (l : list Z) : bool :=
  match l with
  | x :: (y :: _) as t => (x <? y) && increasing t
  | _ => true
  end.

Lemma increasing_cons x y l :
  increasing (x :: y :: l) = ((x <? y) && increasing (y :: l))%bool.
Proof. done. Qed.

Lemma increasing_tail x l : increasing (x :: l) = true -> increasing l = true.
Proof. destruct l as [|y l]; [done|]. rewrite increasing_cons. intros H. by bool_hyps. Qed.

Lemma increasing_lower x l :
  increasing (x :: l) = true -> Forall (fun y => x < y) l.
Proof.
  revert x. induction l as [|y l IH]; intros x H; [constructor|].
  rewrite increasing_cons in H. bool_hyps.
  constructor; [done|]. eapply Forall_impl; [by apply IH|]. cbn. lia.
Qed.

Lemma increasing_nodup l : increasing l = true -> NoDup l.
Proof.
  induction l as [|x l IH]; intros H; [constructor|].
  constructor; [|by eapply IH, increasing_tail].
  intros Hin. apply increasing_lower in H. rewrite Forall_forall in H.
  specialize (H x Hin). lia.
Qed.

Lemma increasing_drop n l : increasing l = true -> increasing (drop n l) = true.
Proof.
  revert l. induction n as [|n IH]; intros [|x l] H; cbn [drop]; try done.
  apply IH. by eapply increasing_tail.
Qed.

Lemma increasing_last_n n l :
  increasing l = true -> increasing (Slice.last_n n l) = true.
Proof. apply increasing_drop. Qed.

(** Appending an element above every other keeps the order. *)
Lemma increasing_snoc l x :
  increasing l = true -> Forall (fun y => y < x) l -> increasing (l ++ [x]) = true.
Proof.
  induction l as [|y l IH]; intros H F; [done|].
  inversion F as [|? ? Hy Fl]; subst.
  destruct l as [|z l].
  - cbn. destruct (Z.ltb_spec y x); [done|lia].
  - rewrite increasing_cons in H. bool_hyps.
    change ((y :: z :: l) ++ [x]) with (y :: (z :: l) ++ [x]).
    cbn [app]. rewrite increasing_cons.
    destruct (Z.ltb_spec y z); [|lia]. by apply IH.
Qed.

Lemma increasing_app_lt l x :
  increasing (l ++ [x]) = true -> Forall (fun y => y < x) l.
Proof.
  induction l as [|y l IH]; intros H; [constructor|].
  cbn [app] in H. pose proof (increasing_lower _ _ H) as Hl.
  constructor.
  - rewrite Forall_app in Hl. destruct Hl as [_ Hx]. by inversion Hx.
  - apply IH. by eapply increasing_tail.
Qed.
#[export] Hint Resolve increasing_nodup increasing_last_n increasing_snoc : console.

(** In a sorted list everything that is kept comes before everything that is dropped. *)
Lemma sorted_take_drop {A} (R : A -> A -> Prop) n l x y :
  StronglySorted R l -> x ∈ take n l -> y ∈ drop n l -> R x y.
Proof.
  intros S. revert n. induction S as [|a l S IH F]; intros n Hx Hy.
  - rewrite take_nil in Hx. by apply elem_of_nil in Hx.
  - destruct n as [|n]; [by apply elem_of_nil in Hx|]. cbn [take drop] in *.
    apply elem_of_cons in Hx as [->|Hx]; [|by eapply IH].
    rewrite Forall_forall in F. apply F. eapply elem_of_submseteq; [exact Hy|].
    apply sublist_submseteq, sublist_drop.
Qed.

(** ** Last writer

    A part of a state that every message either sets or leaves alone holds, after any
    sequence of messages, what the last of them that sets it wrote. *)
Lemma last_write {Msg S V} (step : Msg -> S -> S) (get : S -> V) (writes : Msg -> option V) :
  (forall m s, get (step m s) = default (get s) (writes m)) ->
  forall ms s, get (foldl (fun s m => step m s) s ms) = default (get s) (last (omap writes ms)).
Proof.
  intros H ms s. induction ms as [|m ms IH] using rev_ind; [done|].
  rewrite foldl_app, omap_app. cbn [foldl]. rewrite H, IH. cbn [omap list_omap].
  destruct (writes m); [by rewrite last_snoc|by rewrite app_nil_r].
Qed.

Lemma last_omap_map {Msg V W} (f : V -> W) (w : Msg -> option V) ms :
  last (omap (fun m => f <$> w m) ms) = f <$> last (omap w ms).
Proof.
  induction ms as [|m ms IH] using rev_ind; [done|].
  rewrite !omap_app. cbn [omap list_omap]. destruct (w m); cbn [fmap option_fmap option_map].
  - by rewrite !last_snoc.
  - by rewrite !app_nil_r.
Qed.

(** A flag that the first such message lowers. *)
Lemma last_write_flag {V} (l : list V) :
  default true ((fun _ => false) <$> last l) = bool_decide (l = []).
Proof.
  destruct l as [|v l] using rev_ind; [done|]. rewrite last_snoc.
  by rewrite bool_decide_eq_false_2 by by destruct l.
Qed.

(** ** Lists of distinct images *)
Lemma NoDup_map_inj {A B} (f : A -> B) l x y : NoDup (map f l) -> x ∈ l -> y ∈ l -> f x = f y -> x = y.
Proof.
  induction l as [|z l IH]; cbn [map]; [by intros _ ?%elem_of_nil|].
  intros [Nz N]%NoDup_cons [->|Ix]%elem_of_cons [->|Iy]%elem_of_cons E; [done| | |by apply IH]; destruct Nz.
  - rewrite E. by apply list_elem_of_fmap_2.
  - rewrite <- E. by apply list_elem_of_fmap_2.
Qed.

(** ** The first of the largest, as Python's [max] finds it *)
Lemma foldl_max {A} (f : A -> Z) (l : list A) best :
  let m := foldl (fun best y => if f best <? f y then y else best) best l in
  (m = best \/ m ∈ l) /\ f best <= f m /\ forall y, y ∈ l -> f y <= f m.
Proof.
  revert best. induction l as [|z l IH]; intros best; cbn [foldl]; cbn zeta.
  { split_and!; [by left|lia|by intros ? ?%elem_of_nil]. }
  destruct (IH (if f best <? f z then z else best)) as (M & B & U).
  destruct (Z.ltb_spec (f best) (f z)) as [L|L].
  - split_and!; [right; destruct M as [->|M]; [by left|by right]|lia|].
    intros y [->|Hy]%elem_of_cons; [done|by apply U].
  - split_and!; [destruct M as [->|M]; [by left|right; by right]|done|].
    intros y [->|Hy]%elem_of_cons; [lia|by apply U].
Qed.

(** ** Filtering *)
Section Filter.
Context {A : Type}.

Lemma filter_none (Q : A -> Prop) `{forall a, Decision (Q a)} l :
  Forall (fun a => ~ Q a) l -> filter Q l = [].
Proof.
  intros F. induction F as [|a l Ha F IH]; [done|]. by rewrite filter_cons_False.
Qed.

Lemma filter_every (Q : A -> Prop) `{forall a, Decision (Q a)} l :
  Forall Q l -> filter Q l = l.
Proof. intros F. induction F as [|a l Ha F IH]; [done|]. by rewrite filter_cons_True, IH. Qed.

Lemma filter_ext_in (P Q : A -> Prop) `{forall a, Decision (P a)} `{forall a, Decision (Q a)} (l : list A) :
  (forall a, a ∈ l -> P a <-> Q a) -> filter P l = filter Q l.
Proof.
  intros E. induction l as [|a l IH]; [done|]. rewrite !filter_cons.
  rewrite (IH (fun x Hx => E x (list_elem_of_further _ _ _ Hx))).
  pose proof (E a (list_elem_of_here _ _)) as Ea. do 2 case_decide; tauto.
Qed.

End Filter.

(** ** Stable sorting with a comparison function

    [Array.prototype.sort(cmp)] is stable; insertion of each element after the
    ones not greater than it is the stable reference. [gt a b] is [cmp(a, b) > 0]. *)
Section StableSort.
Context {A : Type} (gt : A -> A -> bool).

Fixpoint insert_sorted (x : A) (l : list A) : list A :=
  match l with
  | [] => [x]
  | y :: t => if gt y x then x :: l else y :: insert_sorted x t
  end.

Definition stable_sort (l : list A) : list A := foldl (fun acc x => insert_sorted x acc) [] l.

Lemma insert_sorted_perm x l : Permutation (insert_sorted x l) (x :: l).
Proof.
  induction l as [|y l IH]; cbn; [done|].
  destruct (gt y x); [done|]. rewrite IH. constructor.
Qed.

Lemma stable_sort_acc l acc :
  Permutation (foldl (fun a x => insert_sorted x a) acc l) (acc ++ l).
Proof.
  revert acc. induction l as [|x l IH]; intros acc; cbn; [by rewrite app_nil_r|].
  rewrite IH, insert_sorted_perm. apply Permutation_middle.
Qed.

Lemma stable_sort_perm l : Permutation (stable_sort l) l.
Proof. apply stable_sort_acc. Qed.

(** On elements that are compared by a key, the largest first, the result is ordered
    and elements of equal keys keep their order; with [stable_sort_perm] this
    determines it. *)
Section ByKey.
Context (key : A -> Z) (P : A -> Prop).
Context (gt_key : forall a b, P a -> P b -> gt a b = (key a <? key b)).

Definition descending : list A -> Prop := StronglySorted (fun a b => key b <= key a).

Lemma insert_sorted_spec x l z :
  P x -> Forall P l -> descending l ->
  descending (insert_sorted x l) /\
  filter (fun a => key a = z) (insert_sorted x l)
  = filter (fun a => key a = z) l ++ filter (fun a => key a = z) [x].
Proof.
  intros Px Pl S. induction S as [|y l S IH Fy]; [split; [repeat constructor|done]|].
  apply Forall_cons in Pl as [Py Pl]. destruct (IH Pl) as [D E]. cbn [insert_sorted].
  rewrite gt_key by done. destruct (Z.ltb_spec (key y) (key x)) as [L|L].
  - assert (Fx : Forall (fun b => key b <= key x) (y :: l)).
    { constructor; [lia|]. eapply Forall_impl; [exact Fy|]. cbn. lia. }
    split; [constructor; [by constructor|done]|].
    rewrite !(filter_cons _ x), filter_nil. case_decide as Dx; [|by rewrite app_nil_r].
    rewrite (filter_none _ (y :: l)); [done|].
    constructor; [lia|]. eapply Forall_impl; [exact Fy|]. cbn. lia.
  - split.
    + constructor; [done|]. rewrite insert_sorted_perm. by constructor.
    + rewrite !(filter_cons _ y). case_decide; [|done]. cbn [app]. by f_equal.
Qed.

Lemma stable_sort_spec l z :
  Forall P l ->
  descending (stable_sort l) /\
  filter (fun a => key a = z) (stable_sort l) = filter (fun a => key a = z) l.
Proof.
  intros Pl. unfold stable_sort.
  enough (G : forall acc, Forall P acc -> descending acc ->
    let r := foldl (fun a x => insert_sorted x a) acc l in
    descending r /\ filter (fun a => key a = z) r
                    = filter (fun a => key a = z) acc ++ filter (fun a => key a = z) l)
    by (apply (G []); constructor).
  induction Pl as [|x l Px Pl IH]; intros acc Pa Da; cbn [foldl].
  - by rewrite filter_nil, app_nil_r.
  - destruct (insert_sorted_spec x acc z Px Pa Da) as [D E].
    destruct (IH (insert_sorted x acc)) as [D' E'].
    { rewrite insert_sorted_perm. by constructor. }
    { done. }
    split; [done|]. cbv zeta in E'. rewrite E', E, <- app_assoc.
    rewrite !(filter_cons _ x), filter_nil. by case_decide.
Qed.
End ByKey.
End StableSort.
