(* ===== verification/Dict.v ===== *)
(** * Insertion-ordered maps

    A JavaScript [Map] and a Python [dict] keep their entries in the order in which the
    keys were first set. They are association lists whose keys are distinct; setting a key
    that is present keeps its place. Grouping by a key, the one loop the console and the
    control plane both build such maps with, has its laws at the end. *)

From S2P Require Import Prelude.

Abbreviation dict K V := (list (K * V)).

Section Dict.
Context {K : Type} `{EqDecision K} {V : Type}.
Implicit Types (k : K) (v : V) (l : dict K V).

Fixpoint map_get k l : option V :=
  match l with
  | [] => None
  | (k', v) :: l' => if decide (k' = k) then Some v else map_get k l'
  end.
Definition map_has k l : bool :=
  match map_get k l with Some _ => true | None => false end.
Fixpoint map_set k v l : dict K V :=
  match l with
  | [] => [(k, v)]
  | (k', v') :: l' => if decide (k' = k) then (k', v) :: l' else (k', v') :: map_set k v l'
  end.
(** [if (!m.has(k)) m.set(k, v0)] *)
Definition ensure k v0 l : dict K V := if map_has k l then l else map_set k v0 l.
(** [m.pop(k, None)] *)
Definition map_delete k l : dict K V := filter (fun e => e.1 <> k) l.

Lemma map_get_set k k' v l :
  map_get k' (map_set k v l) = if decide (k = k') then Some v else map_get k' l.
Proof.
  induction l as [|[k0 v0] l IH]; [done|]. cbn [map_set].
  destruct (decide (k0 = k)) as [->|N]; cbn [map_get].
  - by destruct (decide (k = k')).
  - rewrite IH. destruct (decide (k0 = k')) as [->|]; [|done].
    by destruct (decide (k = k')) as [->|].
Qed.

Lemma map_get_set_eq k v l : map_get k (map_set k v l) = Some v.
Proof. rewrite map_get_set. by destruct (decide (k = k)). Qed.

Lemma map_set_keys k v l :
  map fst (map_set k v l) = if map_has k l then map fst l else map fst l ++ [k].
Proof.
  induction l as [|[k0 v0] l IH]; [done|]. unfold map_has in *. cbn [map_set map_get].
  destruct (decide (k0 = k)); [done|]. cbn [map fst]. rewrite IH. by destruct (map_get k l).
Qed.

Lemma map_has_keys k l : map_has k l = bool_decide (k ∈ map fst l).
Proof.
  symmetry. unfold map_has. induction l as [|[k0 v0] l IH]; [done|]. cbn [map_get map fst].
  destruct (decide (k0 = k)) as [->|N].
  - apply bool_decide_eq_true. by left.
  - rewrite <- IH. apply bool_decide_ext. rewrite elem_of_cons.
    split; [by intros [->|?]|by right].
Qed.

Lemma map_set_nodup k v l : NoDup (map fst l) -> NoDup (map fst (map_set k v l)).
Proof.
  intros N. rewrite map_set_keys, map_has_keys. case_bool_decide as D; [done|].
  apply NoDup_app. split; [done|]. split; [|apply NoDup_singleton].
  intros x Hx. rewrite list_elem_of_singleton. by intros ->.
Qed.

Lemma map_set_set k v v' l : map_set k v (map_set k v' l) = map_set k v l.
Proof.
  induction l as [|[k0 v0] l IH]; cbn [map_set].
  - by destruct (decide (k = k)).
  - destruct (decide (k0 = k)) eqn:E; cbn [map_set]; rewrite E; [done|by rewrite IH].
Qed.

Lemma map_set_ne k v l : map_set k v l <> [].
Proof. destruct l as [|[k0 v0] l]; cbn; [done|]. by destruct (decide (k0 = k)). Qed.

Lemma map_set_Forall (P : K * V -> Prop) k v l :
  Forall P l -> P (k, v) -> Forall P (map_set k v l).
Proof.
  intros F Hv. induction F as [|[k0 v0] l H0 F IH]; cbn [map_set]; [by constructor|].
  destruct (decide (k0 = k)) as [->|]; by constructor.
Qed.

Lemma map_get_elem k v l : map_get k l = Some v -> (k, v) ∈ l.
Proof.
  induction l as [|[k0 v0] l IH]; cbn [map_get]; [done|].
  destruct (decide (k0 = k)) as [->|]; [intros [= <-]; by left|]. intros E. right. by apply IH.
Qed.

Lemma elem_map_get k v l : NoDup (map fst l) -> (k, v) ∈ l -> map_get k l = Some v.
Proof.
  induction l as [|[k0 v0] l IH]; intros N I; [by apply elem_of_nil in I|].
  apply NoDup_cons in N as [Hk N]. cbn [map_get]. apply elem_of_cons in I as [[= <- <-]|I].
  - by destruct (decide (k = k)).
  - destruct (decide (k0 = k)) as [->|]; [|by apply IH].
    exfalso. apply Hk. apply list_elem_of_fmap. by exists (k, v).
Qed.

Lemma map_get_Forall (P : K * V -> Prop) k v l :
  Forall P l -> map_get k l = Some v -> P (k, v).
Proof. intros F E. rewrite Forall_forall in F. by apply F, map_get_elem. Qed.

(** Creating a missing entry before it is set changes nothing. *)
Lemma ensure_get k v0 l : map_get k (ensure k v0 l) = Some (default v0 (map_get k l)).
Proof.
  unfold ensure, map_has. destruct (map_get k l) as [v|] eqn:E; [done|]. apply map_get_set_eq.
Qed.
Lemma ensure_set k v v0 l : map_set k v (ensure k v0 l) = map_set k v l.
Proof. unfold ensure. destruct (map_has k l); [done|]. apply map_set_set. Qed.

Lemma map_get_delete k k' l :
  map_get k' (map_delete k l) = if decide (k = k') then None else map_get k' l.
Proof.
  unfold map_delete. induction l as [|[k0 v0] l IH]; [by destruct (decide (k = k'))|].
  rewrite filter_cons. cbn [fst]. destruct (decide (k0 <> k)) as [N|E].
  - cbn [map_get]. rewrite IH.
    destruct (decide (k0 = k')) as [->|]; [|done]. destruct (decide (k = k')); congruence.
  - assert (k0 = k) as -> by (by destruct (decide (k0 = k))). rewrite IH. cbn [map_get].
    by destruct (decide (k = k')).
Qed.

Lemma map_delete_nodup k l : NoDup (map fst l) -> NoDup (map fst (map_delete k l)).
Proof.
  unfold map_delete. induction l as [|e l IH]; intros N; [done|].
  apply NoDup_cons in N as [He N]. rewrite filter_cons. destruct (decide _); [|by apply IH].
  apply NoDup_cons. split; [|by apply IH]. intros I. apply He.
  apply list_elem_of_fmap in I as (e' & -> & I%list_elem_of_filter). apply list_elem_of_fmap.
  exists e'. tauto.
Qed.
End Dict.

(** ** Grouping

    [for x in xs: m[f(x)].append(x)], with a missing entry created empty. *)
Section GroupBy.
Context {K A : Type} `{EqDecision K} (f : A -> K).

Definition group_add (d : dict K (list A)) (x : A) : dict K (list A) :=
  map_set (f x) (default [] (map_get (f x) d) ++ [x]) d.
Definition group_by (xs : list A) : dict K (list A) := foldl group_add [] xs.

Lemma group_by_snoc xs x : group_by (xs ++ [x]) = group_add (group_by xs) x.
Proof. unfold group_by. by rewrite foldl_app. Qed.

(** A group holds the elements of its key, in order. *)
Lemma group_by_get k xs :
  default [] (map_get k (group_by xs)) = filter (fun x => f x = k) xs.
Proof.
  induction xs as [|x xs IH] using rev_ind; [done|].
  rewrite group_by_snoc, filter_app, filter_cons, filter_nil. unfold group_add.
  rewrite map_get_set. destruct (decide (f x = k)) as [->|].
  - cbn [default from_option id]. by rewrite IH.
  - by rewrite IH, app_nil_r.
Qed.

Lemma group_by_nodup xs : NoDup (map fst (group_by xs)).
Proof.
  induction xs as [|x xs IH] using rev_ind; [constructor|].
  rewrite group_by_snoc. by apply map_set_nodup.
Qed.

Lemma group_by_nonempty xs : Forall (fun g => g.2 <> []) (group_by xs).
Proof.
  induction xs as [|x xs IH] using rev_ind; [constructor|].
  rewrite group_by_snoc. apply map_set_Forall; [done|]. cbn. intros E. by apply app_nil in E as [_ ?].
Qed.

(** What a group is. *)
Lemma group_by_elem k g xs :
  (k, g) ∈ group_by xs <-> g = filter (fun x => f x = k) xs /\ g <> [].
Proof.
  split.
  - intros I. pose proof (group_by_nonempty xs) as N. rewrite Forall_forall in N.
    specialize (N _ I). split; [|done].
    rewrite <- group_by_get, (elem_map_get k g); [done|apply group_by_nodup|done].
  - intros [-> N]. rewrite <- group_by_get in *.
    destruct (map_get k (group_by xs)) as [g|] eqn:E; [|done]. by apply map_get_elem.
Qed.

Lemma group_by_keys k xs : k ∈ map fst (group_by xs) <-> exists x, x ∈ xs /\ f x = k.
Proof.
  rewrite list_elem_of_fmap. split.
  - intros [[k' g] [-> I]]. apply group_by_elem in I as [-> N]. cbn [fst].
    destruct (filter (fun x => f x = k') xs) as [|x g] eqn:E; [done|]. exists x.
    assert (I : x ∈ filter (fun x => f x = k') xs) by (rewrite E; by left).
    by apply list_elem_of_filter in I as [? ?].
  - intros (x & Hx & <-). exists (f x, filter (fun y => f y = f x) xs). split; [done|].
    apply group_by_elem. split; [done|]. intros E.
    assert (I : x ∈ filter (fun y => f y = f x) xs) by (by apply list_elem_of_filter).
    rewrite E in I. by apply elem_of_nil in I.
Qed.

(** The groups together are the elements. *)
Lemma map_set_concat k (x : A) (d : dict K (list A)) :
  (map_set k (default [] (map_get k d) ++ [x]) d ≫= snd) ≡ₚ (d ≫= snd) ++ [x].
Proof.
  induction d as [|[k0 g] d IH]; [done|]. cbn [map_set map_get].
  destruct (decide (k0 = k)) as [->|].
  - cbn. by rewrite <- !app_assoc, (Permutation_app_comm [x]).
  - cbn. by rewrite IH, <- app_assoc.
Qed.
Lemma group_by_perm xs : (group_by xs ≫= snd) ≡ₚ xs.
Proof.
  induction xs as [|x xs IH] using rev_ind; [done|].
  rewrite group_by_snoc. unfold group_add. by rewrite map_set_concat, IH.
Qed.

Lemma group_by_key g x xs : g ∈ group_by xs -> x ∈ g.2 -> f x = g.1.
Proof.
  destruct g as [k g]. intros I Hx. apply group_by_elem in I as [-> _].
  by apply list_elem_of_filter in Hx as [? _].
Qed.

Lemma group_by_nodup_groups xs : NoDup (group_by xs).
Proof. eapply NoDup_fmap_1, (group_by_nodup xs). Qed.

Lemma filter_bind_groups (D : K -> Prop) `{forall k, Decision (D k)} (gs : dict K (list A)) :
  Forall (fun g => forall x, x ∈ g.2 -> f x = g.1) gs ->
  (filter (fun g => D g.1) gs ≫= snd) = filter (fun x => D (f x)) (gs ≫= snd).
Proof.
  intros F. induction F as [|[k g] gs Hg F IH]; [done|].
  change (((k, g) :: gs) ≫= snd) with (g ++ (gs ≫= snd)). cbn [fst snd] in Hg.
  rewrite filter_app, filter_cons. cbn [fst]. destruct (decide (D k)) as [Dk|Dk].
  - change (((k, g) :: filter (fun g => D g.1) gs) ≫= snd) with (g ++ (filter (fun g => D g.1) gs ≫= snd)).
    rewrite IH. f_equal. symmetry. apply filter_every. rewrite Forall_forall.
    intros x Hx. by rewrite (Hg x Hx).
  - rewrite IH. rewrite (filter_none _ g); [done|]. rewrite Forall_forall.
    intros x Hx. by rewrite (Hg x Hx).
Qed.

(** The elements of some of the groups are those whose key is one of theirs. *)
Lemma group_pick (gs : dict K (list A)) xs :
  gs ⊆+ group_by xs -> (gs ≫= snd) ≡ₚ filter (fun x => f x ∈ map fst gs) xs.
Proof.
  intros S.
  assert (N : NoDup gs).
  { apply submseteq_Permutation in S as [k E]. pose proof (group_by_nodup_groups xs) as N.
    rewrite E in N. by apply NoDup_app in N as [? _]. }
  assert (P : gs ≡ₚ filter (fun g => g.1 ∈ map fst gs) (group_by xs)).
  { apply NoDup_Permutation; [done|apply NoDup_filter, group_by_nodup_groups|].
    intros [k g]. rewrite list_elem_of_filter. split.
    - intros I. split; [apply list_elem_of_fmap; by exists (k, g)|].
      by eapply elem_of_submseteq.
    - intros [I G]. apply list_elem_of_fmap in I as ([k' g'] & E & I). cbn [fst] in E. subst k'.
      pose proof (elem_of_submseteq _ _ _ I S) as I'.
      apply group_by_elem in G as [-> _]. apply group_by_elem in I' as [-> _]. done. }
  transitivity (filter (fun g => g.1 ∈ map fst gs) (group_by xs) ≫= snd).
  { by apply bind_Permutation. }
  pose proof (filter_bind_groups (fun k => k ∈ map fst gs) (group_by xs)) as E.
  etrans; [apply reflexive_eq, E; rewrite Forall_forall; intros g Hg x Hx; by eapply group_by_key|].
  apply filter_Permutation, group_by_perm.
Qed.

(** Removing every element of some groups removes these groups and no other. *)
Lemma group_by_filter (D : K -> Prop) `{forall x, Decision (D (f x))}
    `{HG : forall g : K * list A, Decision (D g.1)} xs :
  group_by (filter (fun x => D (f x)) xs) ≡ₚ filter (fun g => D g.1) (group_by xs).
Proof.
  apply NoDup_Permutation; [apply group_by_nodup_groups|apply NoDup_filter, group_by_nodup_groups|].
  intros [k g]. rewrite list_elem_of_filter, !group_by_elem. cbn [fst].
  assert (E : D k -> filter (fun x => f x = k) (filter (fun x => D (f x)) xs) = filter (fun x => f x = k) xs).
  { intros Dk. induction xs as [|x xs IH]; [done|]. rewrite !filter_cons.
    destruct (decide (f x = k)) as [<-|N].
    - rewrite decide_True by done. rewrite filter_cons, decide_True by done. by rewrite IH.
    - destruct (decide (D (f x))); [rewrite filter_cons, decide_False by done|]; done. }
  split.
  - intros [-> N].
    destruct (HG (k, [])) as [Dk|Dk]; cbn [fst] in Dk; [rewrite E in * by done; done|].
    exfalso. apply N. apply filter_none. rewrite Forall_forall. intros x Hx <-.
    apply list_elem_of_filter in Hx as [? _]. done.
  - intros (Dk & -> & N). by rewrite E.
Qed.
End GroupBy.
