(* ===== verification/JsString.v ===== *)
(** * JavaScript strings

    The string operations the console uses, on Rocq [string]s read as sequences of
    code units: [slice], [split], [startsWith], [endsWith], [trim], [padStart],
    [repeat], [replace] of a literal, and integers in a radix. The data that is cut,
    split or measured (ids, object keys, log lines, paths) is ASCII; the literals
    that are only displayed may hold other characters, as their UTF-8 bytes. *)

From S2P Require Import Prelude.
From Stdlib Require Import Ascii.

Abbreviation chr := Ascii.ascii.

Definition code (c : chr) : Z := Z.of_N (Ascii.N_of_ascii c).
Definition chr_of (z : Z) : chr := Ascii.ascii_of_N (Z.to_N z).

Lemma code_chr_of z : 0 <= z < 256 -> code (chr_of z) = z.
Proof.
  intros H. unfold code, chr_of. rewrite Ascii.N_ascii_embedding by lia. lia.
Qed.

(** Strings as lists of code units. *)
Fixpoint units (s : string) : list chr :=
  match s with EmptyString => [] | String c t => c :: units t end.
Fixpoint of_units (l : list chr) : string :=
  match l with [] => EmptyString | c :: t => String c (of_units t) end.

Lemma of_units_units s : of_units (units s) = s.
Proof. induction s as [|c s IH]; cbn; congruence. Qed.
Lemma units_of_units l : units (of_units l) = l.
Proof. induction l as [|c l IH]; cbn; congruence. Qed.
Lemma units_app s t : units (s +:+ t) = units s ++ units t.
Proof.
  induction s as [|c s IH]; [done|].
  change (String c s +:+ t) with (String c (s +:+ t)). cbn [units app]. by rewrite IH.
Qed.
Lemma units_inj s t : units s = units t -> s = t.
Proof. intros H. rewrite <- (of_units_units s), <- (of_units_units t). by f_equal. Qed.
Lemma of_units_app l k : of_units (l ++ k) = of_units l +:+ of_units k.
Proof. apply units_inj. by rewrite units_app, !units_of_units. Qed.

Lemma app_assoc_str (a b c : string) : (a +:+ b) +:+ c = a +:+ (b +:+ c).
Proof. apply units_inj. by rewrite !units_app, app_assoc. Qed.

(** The two characters that string literals of this development do not hold. *)
Definition newline : string := of_units [chr_of 10].
Definition dquote : string := of_units [chr_of 34].

(** [s.length] *)
Definition str_length (s : string) : Z := Z.of_nat (length (units s)).

(** [s.slice(start, stop)] *)
Definition str_slice (start : Z) (stop : option Z) (s : string) : string :=
  of_units (Slice.slice start stop (units s)).

Lemma str_slice_prefix n s :
  0 <= n -> str_slice 0 (Some n) s = of_units (take (Z.to_nat n) (units s)).
Proof. intros H. unfold str_slice. by rewrite Slice.slice_prefix. Qed.

(** [s.startsWith(p)] and [s.endsWith(p)] *)
Fixpoint starts_with_units (p s : list chr) : bool :=
  match p, s with
  | [], _ => true
  | c :: p', d :: s' => Ascii.eqb c d && starts_with_units p' s'
  | _ :: _, [] => false
  end.
Definition starts_with (s p : string) : bool := starts_with_units (units p) (units s).
Definition ends_with (s p : string) : bool :=
  starts_with_units (reverse (units p)) (reverse (units s)).

Lemma starts_with_units_spec p s :
  starts_with_units p s = true <-> exists t, s = p ++ t.
Proof.
  revert s. induction p as [|c p IH]; intros s; cbn.
  - split; [by exists s|done].
  - destruct s as [|d s]; [split; [done|intros (t & H); discriminate]|].
    rewrite andb_true_iff, Ascii.eqb_eq, IH. split.
    + intros [-> (t & ->)]. by exists t.
    + intros (t & [= -> ->]). split; [done|]. by exists t.
Qed.

Lemma starts_with_spec s p :
  starts_with s p = true <-> exists t, s = p +:+ t.
Proof.
  unfold starts_with. rewrite starts_with_units_spec. split.
  - intros (t & H). exists (of_units t). apply units_inj.
    by rewrite units_app, units_of_units.
  - intros (t & ->). exists (units t). apply units_app.
Qed.

Lemma starts_with_refl s : starts_with s s = true.
Proof. apply starts_with_spec. exists "". apply units_inj. rewrite units_app. cbn. by rewrite app_nil_r. Qed.

(** [s.split(c)] for a one-character separator. *)
Fixpoint split_units (sep : chr) (s : list chr) : list (list chr) :=
  match s with
  | [] => [[]]
  | c :: t =>
      if Ascii.eqb c sep then [] :: split_units sep t
      else match split_units sep t with
           | [] => [[c]]
           | w :: ws => (c :: w) :: ws
           end
  end.
Definition split (sep : chr) (s : string) : list string :=
  of_units <$> split_units sep (units s).

Fixpoint join_units (sep : chr) (ws : list (list chr)) : list chr :=
  match ws with
  | [] => []
  | [w] => w
  | w :: ws' => w ++ sep :: join_units sep ws'
  end.

Lemma split_units_nonempty sep s : split_units sep s <> [].
Proof.
  induction s as [|c s IH]; cbn; [done|].
  destruct (Ascii.eqb c sep); [done|]. by destruct (split_units sep s).
Qed.

Lemma join_split_units sep s : join_units sep (split_units sep s) = s.
Proof.
  induction s as [|c s IH]; cbn; [done|].
  pose proof (split_units_nonempty sep s) as Hne.
  destruct (Ascii.eqb c sep) eqn:E.
  - apply Ascii.eqb_eq in E as ->. destruct (split_units sep s); [done|]. cbn in *. by f_equal.
  - destruct (split_units sep s) as [|w [|w' ws]]; [done|cbn in *; by f_equal|].
    cbn in *. by f_equal.
Qed.

(** A word without the separator is the first part of its concatenation. *)
Lemma split_units_word sep w t :
  Forall (fun c => c <> sep) w ->
  split_units sep (w ++ sep :: t) = w :: split_units sep t.
Proof.
  induction w as [|c w IH]; intros F; cbn.
  - by rewrite (proj2 (Ascii.eqb_eq sep sep) eq_refl).
  - inversion F as [|? ? Hc Fw]; subst.
    apply Ascii.eqb_neq in Hc as ->. by rewrite IH.
Qed.

Lemma split_units_last sep w :
  Forall (fun c => c <> sep) w -> split_units sep w = [w].
Proof.
  induction w as [|c w IH]; intros F; cbn; [done|].
  inversion F as [|? ? Hc Fw]; subst.
  apply Ascii.eqb_neq in Hc as ->. by rewrite IH.
Qed.

(** [s.replace(pattern, by)] with a string pattern: the first occurrence. *)
Fixpoint replace_units (fuel : nat) (p r s : list chr) : list chr :=
  if starts_with_units p s then r ++ drop (length p) s
  else match fuel, s with
       | S f, c :: t => c :: replace_units f p r t
       | _, _ => s
       end.
Definition replace (p r s : string) : string :=
  of_units (replace_units (length (units s)) (units p) (units r) (units s)).

(** White space of [trim], [parseInt] and the class [\s] within Latin-1. *)
Definition is_space (c : chr) : bool :=
  let k := code c in ((9 <=? k) && (k <=? 13)) || (k =? 32) || (k =? 160).
Fixpoint drop_while (p : chr -> bool) (s : list chr) : list chr :=
  match s with
  | [] => []
  | c :: t => if p c then drop_while p t else s
  end.
(** [s.trim()] *)
Definition trim (s : string) : string :=
  of_units (reverse (drop_while is_space (reverse (drop_while is_space (units s))))).

(** ** Integers in a radix *)

Definition digit_char (d : Z) : chr := if d <? 10 then chr_of (48 + d) else chr_of (87 + d).
Definition is_digit (c : chr) : bool := let k := code c in (48 <=? k) && (k <=? 57).

Definition digit_value (c : chr) : option Z :=
  let k := code c in
  if (48 <=? k) && (k <=? 57) then Some (k - 48)
  else if (97 <=? k) && (k <=? 122) then Some (k - 87)
  else if (65 <=? k) && (k <=? 90) then Some (k - 55)
  else None.

Lemma digit_value_char d : 0 <= d < 36 -> digit_value (digit_char d) = Some d.
Proof.
  intros H. unfold digit_char, digit_value.
  destruct (Z.ltb_spec d 10).
  - rewrite code_chr_of by lia.
    destruct (Z.leb_spec 48 (48 + d)); [|lia]. destruct (Z.leb_spec (48 + d) 57); [|lia].
    cbn. f_equal. lia.
  - rewrite code_chr_of by lia.
    destruct (Z.leb_spec (87 + d) 57); [lia|]. rewrite andb_false_r.
    destruct (Z.leb_spec 97 (87 + d)); [|lia]. destruct (Z.leb_spec (87 + d) 122); [|lia].
    cbn. f_equal. lia.
Qed.

Lemma is_digit_char d : 0 <= d < 10 -> is_digit (digit_char d) = true.
Proof.
  intros H. unfold digit_char, is_digit.
  destruct (Z.ltb_spec d 10); [|lia]. rewrite code_chr_of by lia.
  destruct (Z.leb_spec 48 (48 + d)); [|lia]. by destruct (Z.leb_spec (48 + d) 57); [|lia].
Qed.

(** Digits of a natural number, most significant first; one digit per unit of fuel. *)
Fixpoint radix_units (fuel : nat) (b n : Z) (acc : list chr) : list chr :=
  match fuel with
  | O => acc
  | S f =>
      let acc' := digit_char (n mod b) :: acc in
      if n <? b then acc' else radix_units f b (n / b) acc'
  end.
Definition radix_fuel (n : Z) : nat := S (Z.to_nat (Z.log2 n)).

(** [n.toString(b)] of a non-negative integer *)
Definition to_radix (b n : Z) : string := of_units (radix_units (radix_fuel n) b n []).

(** [String(n)] of an integer *)
Definition dec (n : Z) : string :=
  if n <? 0 then "-" +:+ to_radix 10 (- n) else to_radix 10 n.

(** The number a digit sequence denotes. *)
Definition value_step (b : Z) (acc : option Z) (c : chr) : option Z :=
  match acc, digit_value c with
  | Some v, Some d => if d <? b then Some (v * b + d) else None
  | _, _ => None
  end.
Definition radix_value (b : Z) (l : list chr) : option Z := foldl (value_step b) (Some 0) l.

Lemma radix_units_enough fuel b n :
  2 <= b -> 0 <= n -> n < 2 ^ Z.of_nat fuel -> (0 < fuel)%nat ->
  forall acc, exists ds, radix_units fuel b n acc = ds ++ acc /\ ds <> [] /\
    Forall (fun c => exists d, 0 <= d < b /\ c = digit_char d) ds /\
    forall v0, b <= 36 ->
      foldl (value_step b) (Some v0) ds = Some (v0 * b ^ Z.of_nat (length ds) + n).
Proof.
  intros Hb. revert n. induction fuel as [|f IH]; intros n Hn Hlt Hf acc; [lia|].
  cbn [radix_units].
  assert (Hmod : 0 <= n mod b < b) by (apply Z.mod_pos_bound; lia).
  destruct (Z.ltb_spec n b).
  - exists [digit_char (n mod b)]. split; [done|]. split; [done|]. split.
    + constructor; [by exists (n mod b)|constructor].
    + intros v0 H36. cbn [foldl value_step length].
      rewrite digit_value_char by lia.
      destruct (Z.ltb_spec (n mod b) b); [|lia].
      rewrite Z.mod_small by lia. f_equal. lia.
  - assert (Hq : 0 <= n / b) by (apply Z.div_pos; lia).
    assert (Hq2 : n / b < 2 ^ Z.of_nat f).
    { rewrite Nat2Z.inj_succ, Z.pow_succ_r in Hlt by lia.
      apply Z.div_lt_upper_bound; [lia|]. nia. }
    assert (Hf' : (0 < f)%nat).
    { destruct f; [|lia]. cbn in Hq2.
      assert (1 <= n / b) by (apply Z.div_le_lower_bound; lia). lia. }
    destruct (IH (n / b) Hq Hq2 Hf' (digit_char (n mod b) :: acc)) as (ds & E & Hne & F & V).
    exists (ds ++ [digit_char (n mod b)]). rewrite E, <- app_assoc. split; [done|].
    split; [by destruct ds|]. split.
    + apply Forall_app. split; [done|]. constructor; [by exists (n mod b)|constructor].
    + intros v0 H36. rewrite foldl_app, V by done. cbn [foldl value_step].
      rewrite digit_value_char by lia.
      destruct (Z.ltb_spec (n mod b) b); [|lia].
      rewrite length_app, Nat2Z.inj_add, Z.pow_add_r by lia. cbn [length].
      f_equal. rewrite (Z.div_mod n b) at 3 by lia. rewrite Z.pow_1_r. nia.
Qed.

Lemma radix_fuel_enough n : 0 <= n -> n < 2 ^ Z.of_nat (radix_fuel n).
Proof.
  intros H. unfold radix_fuel. rewrite Nat2Z.inj_succ, Z2Nat.id by apply Z.log2_nonneg.
  destruct (Z.eq_dec n 0) as [->|]; [done|]. apply Z.log2_spec. lia.
Qed.

Lemma to_radix_value b n :
  2 <= b <= 36 -> 0 <= n -> radix_value b (units (to_radix b n)) = Some n.
Proof.
  intros Hb Hn. unfold to_radix, radix_value. rewrite units_of_units.
  destruct (radix_units_enough (radix_fuel n) b n) with (acc := @nil chr)
    as (ds & E & _ & _ & V); [lia|lia|by apply radix_fuel_enough|unfold radix_fuel; lia|].
  rewrite app_nil_r in E. rewrite E, V by lia. done.
Qed.

Lemma to_radix_inj b n m :
  2 <= b <= 36 -> 0 <= n -> 0 <= m -> to_radix b n = to_radix b m -> n = m.
Proof.
  intros Hb Hn Hm E. apply (f_equal (fun s => radix_value b (units s))) in E.
  rewrite !to_radix_value in E by done. congruence.
Qed.

Lemma dec_digits n :
  0 <= n -> units (dec n) <> [] /\ Forall (fun c => is_digit c = true) (units (dec n)).
Proof.
  intros Hn. unfold dec. destruct (Z.ltb_spec n 0); [lia|].
  unfold to_radix. rewrite units_of_units.
  destruct (radix_units_enough (radix_fuel n) 10 n) with (acc := @nil chr)
    as (ds & E & Hne & F & _); [lia|lia|by apply radix_fuel_enough|unfold radix_fuel; lia|].
  rewrite app_nil_r in E. rewrite E. split; [done|].
  eapply Forall_impl; [exact F|]. cbn. intros c (d & Hd & ->). by apply is_digit_char.
Qed.

Lemma dec_value n : 0 <= n -> radix_value 10 (units (dec n)) = Some n.
Proof.
  intros Hn. unfold dec. destruct (Z.ltb_spec n 0); [lia|]. by apply to_radix_value.
Qed.

(** Integers print as distinct strings. *)
Lemma dec_inj n m : dec n = dec m -> n = m.
Proof.
  assert (P : forall k l, 0 <= k -> l < 0 -> dec k <> dec l).
  { intros k l Hk Hl E. destruct (dec_digits k Hk) as [Hne Hd].
    assert (L : units (dec l) = "-"%char :: units (to_radix 10 (- l))).
    { unfold dec. by destruct (Z.ltb_spec l 0); [|lia]. }
    rewrite E, L in Hd. inversion Hd as [|? ? Hc]. discriminate. }
  intros E. destruct (Z.le_gt_cases 0 n), (Z.le_gt_cases 0 m).
  - pose proof (dec_value n ltac:(done)) as V. rewrite E, dec_value in V by done. by injection V.
  - exfalso. by apply (P n m).
  - exfalso. by apply (P m n).
  - unfold dec in E. destruct (Z.ltb_spec n 0); [|lia]. destruct (Z.ltb_spec m 0); [|lia].
    injection E as E. apply to_radix_inj in E; lia.
Qed.

(** A run of digits before a character that is none *)
Lemma digits_prefix_inj (c : chr) (l k u v : list chr) :
  is_digit c = false -> Forall (fun c => is_digit c = true) l -> Forall (fun c => is_digit c = true) k ->
  l ++ c :: u = k ++ c :: v -> l = k.
Proof.
  intros Hc. revert k. induction l as [|x l IH]; intros [|y k] Hl Hk E; [done| | |]; cbn in E; injection E as -> E.
  - inversion Hk. congruence.
  - inversion Hl. congruence.
  - inversion Hl; inversion Hk; subst. f_equal. by apply IH.
Qed.

(** Keys of the form [`${i}-${text}`] or [`${text}-${i}`] with different numbers differ. *)
Lemma dec_dash_inj n m (a b : string) :
  0 <= n -> 0 <= m -> dec n +:+ "-" +:+ a = dec m +:+ "-" +:+ b -> n = m.
Proof.
  intros Hn Hm E. apply (f_equal units) in E. rewrite !units_app in E.
  destruct (dec_digits n Hn) as [_ Dn]. destruct (dec_digits m Hm) as [_ Dm].
  by apply (digits_prefix_inj (chr_of 45)) in E as ?%units_inj%dec_inj.
Qed.
Lemma dash_dec_inj n m (a b : string) :
  0 <= n -> 0 <= m -> a +:+ "-" +:+ dec n = b +:+ "-" +:+ dec m -> n = m.
Proof.
  intros Hn Hm E. apply (f_equal (fun s => rev (units s))) in E. rewrite !units_app, !rev_app_distr in E.
  destruct (dec_digits n Hn) as [_ Dn]. destruct (dec_digits m Hm) as [_ Dm]. cbn [units rev] in E.
  rewrite <- !app_assoc in E. cbn [app] in E.
  apply (digits_prefix_inj (chr_of 45)) in E; [|done|by apply Forall_rev..].
  apply (f_equal (@rev chr)) in E. rewrite !rev_involutive in E. by apply dec_inj, units_inj.
Qed.

(** [s.padStart(n, fill)] for a one-character filler *)
Definition pad_start (n : Z) (fill : chr) (s : string) : string :=
  of_units (replicate (Z.to_nat (n - str_length s)) fill ++ units s).

Lemma radix_value_zeros b k l :
  2 <= b -> radix_value b (replicate k (chr_of 48) ++ l) = radix_value b l.
Proof.
  intros Hb. unfold radix_value. rewrite foldl_app.
  enough (foldl (value_step b) (Some 0) (replicate k (chr_of 48)) = Some 0) as -> by done.
  induction k as [|k IH]; [done|]. cbn [replicate foldl].
  replace (value_step b (Some 0) (chr_of 48)) with (Some 0); [done|].
  unfold value_step. change (digit_value (chr_of 48)) with (Some 0).
  cbv beta iota. destruct (Z.ltb_spec 0 b); [done|lia].
Qed.

(** ** Words between slashes *)

Definition slash_free (s : string) : Prop := Forall (fun c => c <> "/"%char) (units s).

Lemma word_prefix (a b x : list chr) : Forall (fun c => c <> "/"%char) a -> Forall (fun c => c <> "/"%char) b ->
  starts_with_units (b ++ ["/"%char]) (a ++ "/"%char :: x) = true -> a = b.
Proof.
  intros Fa. revert b. induction Fa as [|c a Hc Fa IH]; intros [|d b] Fb; cbn [app starts_with_units]; [done|..].
  - apply Forall_cons in Fb as [Hd _]. by destruct (Ascii.eqb_spec d "/").
  - by destruct (Ascii.eqb_spec "/" c) as [<-|].
  - apply Forall_cons in Fb as [_ Fb]. intros [->%Ascii.eqb_eq H]%andb_true_iff. f_equal. by apply IH.
Qed.
Lemma slash_inj (a b x y : string) : slash_free a -> slash_free b -> a +:+ "/" +:+ x = b +:+ "/" +:+ y -> a = b /\ x = y.
Proof.
  intros Fa Fb E. apply (f_equal units) in E. rewrite !units_app in E. change (units "/") with ["/"%char] in E. cbn [app] in E.
  assert (a = b) as ->.
  { apply units_inj, (word_prefix _ _ (units x) Fa Fb). rewrite E. apply starts_with_units_spec. exists (units y). by rewrite <- app_assoc. }
  split; [done|]. apply app_inv_head in E. injection E as E. by apply units_inj.
Qed.
