(* ===== verification/JsNum.v ===== *)
(** * JavaScript numbers

    A JavaScript number is a binary64 float. A finite value is kept as the exact
    dyadic [m * 2^e]; every arithmetic operation is the exact one followed by [rnd],
    rounding to the nearest multiple of the unit in the last place, ties to even,
    with gradual underflow at [2^-1074] and overflow to infinity. The two zeros are
    one value: no operation the console uses tells them apart. [Math.floor],
    [Math.round], [%] and [toFixed] follow ECMA-262. *)

From Stdlib Require Import Ascii.
From S2P Require Import Prelude JsString.

Inductive num : Type :=
| NaN
| Inf (neg : bool)
| Fin (m e : Z).

#[export] Instance num_eq_dec : EqDecision num.
Proof. solve_decision. Defined.

(** Canonical finite values: an odd mantissa, or zero. *)
Fixpoint strip_pos (p : positive) (e : Z) : Z * Z :=
  match p with xO q => strip_pos q (e + 1) | _ => (Zpos p, e) end.

Definition fin (m e : Z) : num :=
  match m with
  | Z0 => Fin 0 0
  | Zpos p => let '(m', e') := strip_pos p e in Fin m' e'
  | Zneg p => let '(m', e') := strip_pos p e in Fin (- m') e'
  end.

(** The quotient [a / b] rounded to an integer, ties to even. *)
Definition nearest (a b : Z) : Z :=
  let d := a / b in
  let r := a mod b in
  if (b <? 2 * r) || ((2 * r =? b) && Z.odd d) then d + 1 else d.

(** [a / b] and [m * 2^e] written with one integer numerator and denominator. *)
Definition up (e : Z) : Z := 2 ^ Z.max 0 e.

(** The exponent of the last place of the binary64 nearest to [a / q]. *)
Definition ulp_exp (a q : Z) : Z :=
  let e0 := Z.log2 a - Z.log2 q - 53 in
  let e1 := if q * up (e0 + 53) <=? a * up (- (e0 + 53)) then e0 + 1 else e0 in
  Z.max e1 (-1074).

Definition rnd_pos (a q : Z) : Z * Z :=
  let e := ulp_exp a q in (nearest (a * up (- e)) (q * up e), e).

(** The binary64 nearest to the rational [p / q], for [q > 0]. *)
Definition rnd (p q : Z) : num :=
  if p =? 0 then Fin 0 0
  else
    let '(n, e) := rnd_pos (Z.abs p) q in
    if 2 ^ 1024 <=? n * up e / up (- e) then Inf (p <? 0) else fin (Z.sgn p * n) e.

(** Rounding of the exact dyadic [m * 2^e] *)
Definition rnd_dyadic (m e : Z) : num := rnd (m * up e) (up (- e)).

Definition of_Z (z : Z) : num := rnd z 1.

(** A decimal literal [p / 10^k] of the source. *)
Definition lit (p k : Z) : num := rnd p (10 ^ k).

Definition opp (x : num) : num :=
  match x with NaN => NaN | Inf s => Inf (negb s) | Fin m e => Fin (- m) e end.

Definition add (x y : num) : num :=
  match x, y with
  | NaN, _ | _, NaN => NaN
  | Inf s, Inf t => if Bool.eqb s t then Inf s else NaN
  | Inf s, _ | _, Inf s => Inf s
  | Fin m1 e1, Fin m2 e2 =>
      let e := Z.min e1 e2 in rnd_dyadic (m1 * 2 ^ (e1 - e) + m2 * 2 ^ (e2 - e)) e
  end.
Definition sub (x y : num) : num := add x (opp y).

Definition mul (x y : num) : num :=
  match x, y with
  | NaN, _ | _, NaN => NaN
  | Inf s, Inf t => Inf (xorb s t)
  | Inf s, Fin m _ | Fin m _, Inf s => if m =? 0 then NaN else Inf (xorb s (m <? 0))
  | Fin m1 e1, Fin m2 e2 => rnd_dyadic (m1 * m2) (e1 + e2)
  end.

Definition div (x y : num) : num :=
  match x, y with
  | NaN, _ | _, NaN => NaN
  | Inf _, Inf _ => NaN
  | Inf s, Fin m _ => Inf (xorb s (m <? 0))
  | Fin _ _, Inf _ => Fin 0 0
  | Fin m1 e1, Fin m2 e2 =>
      if m2 =? 0 then (if m1 =? 0 then NaN else Inf (m1 <? 0))
      else rnd (Z.sgn m2 * m1 * up (e1 - e2)) (Z.abs m2 * up (e2 - e1))
  end.

(** [x % y] takes the sign of [x]; it is exact. *)
Definition rem (x y : num) : num :=
  match x, y with
  | NaN, _ | _, NaN | Inf _, _ => NaN
  | Fin _ _, Inf _ => x
  | Fin m1 e1, Fin m2 e2 =>
      if m2 =? 0 then NaN
      else let e := Z.min e1 e2 in fin (Z.rem (m1 * 2 ^ (e1 - e)) (m2 * 2 ^ (e2 - e))) e
  end.

(** [Math.floor], and [Math.round]: the floor of [x + 1/2], not rounded. *)
Definition floor (x : num) : num :=
  match x with Fin m e => if e <? 0 then fin (m / 2 ^ (- e)) 0 else x | _ => x end.
Definition round (x : num) : num :=
  match x with
  | Fin m e => if e <? 0 then fin ((2 * m + 2 ^ (- e)) / 2 ^ (1 - e)) 0 else x
  | _ => x
  end.

(** Comparison: [None] when an operand is [NaN]. *)
Definition cmp (x y : num) : option comparison :=
  match x, y with
  | NaN, _ | _, NaN => None
  | Inf s, Inf t => Some (if Bool.eqb s t then Eq else if s then Lt else Gt)
  | Inf s, Fin _ _ => Some (if s then Lt else Gt)
  | Fin _ _, Inf s => Some (if s then Gt else Lt)
  | Fin m1 e1, Fin m2 e2 =>
      let e := Z.min e1 e2 in Some (Z.compare (m1 * 2 ^ (e1 - e)) (m2 * 2 ^ (e2 - e)))
  end.
Definition ltb (x y : num) : bool := match cmp x y with Some Lt => true | _ => false end.
Definition leb (x y : num) : bool := match cmp x y with Some Lt | Some Eq => true | _ => false end.
Definition gtb (x y : num) : bool := ltb y x.
Definition geb (x y : num) : bool := leb y x.
Definition eqb (x y : num) : bool := match cmp x y with Some Eq => true | _ => false end.
Definition abs (x : num) : num :=
  match x with NaN => NaN | Inf _ => Inf false | Fin m e => Fin (Z.abs m) e end.

(** [Math.min] and [Math.max] of two numbers *)
Definition min (x y : num) : num :=
  match cmp x y with None => NaN | Some Gt => y | _ => x end.
Definition max (x y : num) : num :=
  match cmp x y with None => NaN | Some Lt => y | _ => x end.

(** The integer a finite integral number denotes, for array indexing. *)
Definition to_int (x : num) : option Z :=
  match x with
  | Fin m e => if 0 <=? e then Some (m * 2 ^ e) else None
  | _ => None
  end.

(** [Math.pow(b, x)] for an integral base that is a power of two, [b = 2^k]. *)
Definition pow2k (k : Z) (x : num) : num :=
  match x with
  | Fin m e => if 0 <=? e then rnd_dyadic 1 (k * (m * 2 ^ e)) else NaN
  | Inf s => if s then Fin 0 0 else Inf false
  | NaN => NaN
  end.

(** ** Printing *)

(** [x.toFixed(f)] below [10^21]: the closest multiple of [10^-f], the larger one on
    a tie, for the absolute value. *)
Definition fixed_units (f m e : Z) : Z :=
  (2 * Z.abs m * up e * 10 ^ f + up (- e)) / (2 * up (- e)).

Definition fixed_string (f n : Z) : string :=
  if f =? 0 then dec n
  else dec (n / 10 ^ f) +:+ "." +:+ pad_start f (chr_of 48) (dec (n mod 10 ^ f)).

(** The shortest decimal [s * 10^(n-k)] with [k] digits that rounds to the positive
    [a / q]: step 5 of [Number::toString], as [(n, (k, s))]. The nearest [k]-digit
    decimal may be [10^k], which is [10^(k-1)] one decade higher. *)
Fixpoint shortest (fuel : nat) (k n a q : Z) (x : num) : Z * (Z * Z) :=
  let s := nearest (a * 10 ^ Z.max 0 (k - n)) (q * 10 ^ Z.max 0 (n - k)) in
  let found := if s =? 10 ^ k then (n + 1, (k, 10 ^ (k - 1))) else (n, (k, s)) in
  match fuel with
  | O => found
  | S f =>
      if bool_decide (rnd (s * 10 ^ Z.max 0 (n - k)) (10 ^ Z.max 0 (k - n)) = x)
      then found else shortest f (k + 1) n a q x
  end.

(** The [n] with [10^(n-1) <= a/q < 10^n]. *)
Fixpoint decimal_exp (fuel : nat) (n a q : Z) : Z :=
  match fuel with
  | O => n
  | S f =>
      if a * 10 ^ Z.max 0 (- n) <? q * 10 ^ Z.max 0 n
      then if q * 10 ^ Z.max 0 (n - 1) <=? a * 10 ^ Z.max 0 (1 - n) then n
           else decimal_exp f (n - 1) a q
      else decimal_exp f (n + 1) a q
  end.

Definition pos_to_string (m e : Z) : string :=
  let a := m * up e in
  let q := up (- e) in
  let n0 := decimal_exp 700 ((Z.log2 a - Z.log2 q) * 3 / 10) a q in
  let '(n, (k, s)) := shortest 17 1 n0 a q (Fin m e) in
  let ds := units (dec s) in
  let str := of_units in
  if (k <=? n) && (n <=? 21) then str (ds ++ replicate (Z.to_nat (n - k)) (chr_of 48))
  else if (0 <? n) && (n <=? 21)
    then str (take (Z.to_nat n) ds) +:+ "." +:+ str (drop (Z.to_nat n) ds)
  else if (-6 <? n) && (n <=? 0)
    then "0." +:+ str (replicate (Z.to_nat (- n)) (chr_of 48) ++ ds)
  else
    let ex := (if n - 1 <? 0 then "-" else "+") +:+ dec (Z.abs (n - 1)) in
    if k =? 1 then str ds +:+ "e" +:+ ex
    else str (take 1 ds) +:+ "." +:+ str (drop 1 ds) +:+ "e" +:+ ex.

(** [String(x)]; a safe integer prints as its decimal digits. *)
Definition to_string (x : num) : string :=
  match x with
  | NaN => "NaN"
  | Inf s => if s then "-Infinity" else "Infinity"
  | Fin m e =>
      if (0 <=? e) && (Z.abs m * up e <? 2 ^ 53) then dec (m * up e)
      else if m <? 0 then "-" +:+ pos_to_string (- m) e else pos_to_string m e
  end.

Definition to_fixed (f : Z) (x : num) : string :=
  match x with
  | Fin m e =>
      if 10 ^ 21 * up (- e) <=? Z.abs m * up e then to_string x
      else
        let s := fixed_string f (fixed_units f m e) in
        if m <? 0 then "-" +:+ s else s
  | _ => to_string x
  end.

(** ** Parsing *)

(** The longest prefix of [s] whose characters satisfy [p], and the rest. *)
Fixpoint span (p : chr -> bool) (s : list chr) : list chr * list chr :=
  match s with
  | [] => ([], [])
  | c :: t => if p c then let '(w, r) := span p t in (c :: w, r) else ([], s)
  end.

Definition digits_value (ds : list chr) : Z :=
  match radix_value 10 ds with Some v => v | None => 0 end.

(** The integer a number literal of value [v] becomes: exact below [2^53]. *)
Definition as_double (v : Z) : Z := match to_int (of_Z v) with Some z => z | None => v end.

(** The sign of a numeric string, and what follows it. *)
Definition parse_sign (t : list chr) : bool * list chr :=
  match t with
  | c :: r => if Ascii.eqb c "-"%char then (true, r)
              else if Ascii.eqb c "+"%char then (false, r) else (false, t)
  | [] => (false, t)
  end.

Definition is_radix_digit (b : Z) (c : chr) : bool :=
  match digit_value c with Some d => d <? b | None => false end.

(** The value of the longest run of radix-[b] digits; [None] is [NaN]. *)
Definition parse_digits (b : Z) (neg : bool) (t : list chr) : option Z :=
  match fst (span (is_radix_digit b) t) with
  | [] => None
  | ds => let v := as_double (default 0 (radix_value b ds)) in Some (if neg then - v else v)
  end.

(** [parseInt(s, 10)]: white space, a sign, then the longest run of digits. *)
Definition parse_int (s : string) : option Z :=
  let '(neg, t) := parse_sign (drop_while is_space (units s)) in parse_digits 10 neg t.

(** [parseInt(s)]: a [0x] or [0X] prefix selects radix 16. *)
Definition parse_int_auto (s : string) : option Z :=
  let '(neg, t) := parse_sign (drop_while is_space (units s)) in
  if starts_with_units (units "0x") t || starts_with_units (units "0X") t
  then parse_digits 16 neg (drop 2 t) else parse_digits 10 neg t.

(** [parseFloat(s)] of unsigned digits and dots: the longest decimal prefix
    [digits[.digits]] or [.digits], correctly rounded; [NaN] without a digit. *)
Definition parse_float (s : string) : num :=
  let '(ip, r) := span is_digit (units s) in
  let '(fp, _) := match r with
                  | c :: r' => if Ascii.eqb c "."%char then span is_digit r' else ([], r)
                  | [] => ([], r)
                  end in
  match ip, fp with
  | [], [] => NaN
  | _, _ => rnd (digits_value (ip ++ fp)) (10 ^ Z.of_nat (length fp))
  end.

(** ** Exactness *)

Lemma up_pos e : 0 < up e.
Proof. apply Z.pow_pos_nonneg; lia. Qed.
Lemma up_nonneg e : 0 <= e -> up e = 2 ^ e.
Proof. intros. unfold up. f_equal. lia. Qed.
Lemma up_neg e : e <= 0 -> up e = 1.
Proof. intros. unfold up. by replace (Z.max 0 e) with 0 by lia. Qed.
(** [2^(e+k) = 2^e * 2^k] with the negative exponents moved across. *)
Lemma up_shift e k : 0 <= k -> up (e + k) * up (- e) = up e * 2 ^ k * up (- (e + k)).
Proof.
  intros. unfold up. rewrite <- !Z.pow_add_r by lia. f_equal. lia.
Qed.

Lemma strip_pos_spec p e :
  let '(m, e') := strip_pos p e in
  0 < m /\ e <= e' /\ Zpos p = m * 2 ^ (e' - e) /\ Z.odd m = true.
Proof.
  revert e. induction p as [p IH|p IH|]; intros e; cbn [strip_pos].
  - rewrite Z.sub_diag, Z.mul_1_r. split_and!; (done || lia).
  - specialize (IH (e + 1)). destruct (strip_pos p (e + 1)) as [m e'].
    destruct IH as (? & ? & E & ?). split_and!; [lia|lia| |done].
    rewrite Pos2Z.inj_xO, E.
    replace (e' - e) with (1 + (e' - (e + 1))) by lia. rewrite Z.pow_add_r by lia. lia.
  - rewrite Z.sub_diag, Z.mul_1_r. split_and!; (done || lia).
Qed.

Lemma odd_shift_inj m1 m2 k1 k2 :
  0 <= k1 -> 0 <= k2 -> Z.odd m1 = true -> Z.odd m2 = true ->
  m1 * 2 ^ k1 = m2 * 2 ^ k2 -> m1 = m2 /\ k1 = k2.
Proof.
  intros H1 H2 O1 O2 E.
  assert (Hlt : forall a b i j, 0 <= i < j -> Z.odd a = true -> a * 2 ^ i = b * 2 ^ j -> False).
  { clear. intros a b i j Hij Oa E.
    replace j with (i + (1 + (j - i - 1))) in E by lia.
    rewrite !Z.pow_add_r in E by lia.
    assert (0 < 2 ^ i) by (apply Z.pow_pos_nonneg; lia).
    assert (a = 2 * (b * 2 ^ (j - i - 1))) as -> by nia.
    by rewrite Z.odd_mul in Oa. }
  destruct (Z.lt_trichotomy k1 k2) as [L|[->|L]].
  - exfalso. by apply (Hlt m1 m2 k1 k2).
  - split; [|done]. apply Z.mul_cancel_r in E; [done|].
    apply Z.pow_nonzero; lia.
  - exfalso. by apply (Hlt m2 m1 k2 k1).
Qed.

(** [fin] depends only on the value: factors of two move to the exponent. *)
Lemma fin_odd m e : 0 < m -> Z.odd m = true -> fin m e = Fin m e.
Proof.
  intros Hm Ho. unfold fin. destruct m as [|p|p]; [lia| |lia].
  pose proof (strip_pos_spec p e) as S. destruct (strip_pos p e) as [m' e'].
  destruct S as (? & ? & E & ?).
  destruct (odd_shift_inj (Zpos p) m' 0 (e' - e)) as [-> ?]; try lia; try done.
  f_equal. lia.
Qed.

Lemma fin_pos_form m e :
  0 < m -> exists m' k, fin m e = Fin m' (e + k) /\ 0 < m' /\ 0 <= k /\ Z.odd m' = true /\ m = m' * 2 ^ k.
Proof.
  intros Hm. unfold fin. destruct m as [|p|p]; [lia| |lia].
  pose proof (strip_pos_spec p e) as S. destruct (strip_pos p e) as [m' e'].
  destruct S as (? & ? & E & ?). exists m', (e' - e). split_and!; try done; try lia.
  f_equal. lia.
Qed.

Lemma fin_shift m k e : 0 < m -> 0 <= k -> fin (m * 2 ^ k) e = fin m (e + k).
Proof.
  intros Hm Hk.
  assert (0 < 2 ^ k) by (apply Z.pow_pos_nonneg; lia).
  destruct (fin_pos_form (m * 2 ^ k) e) as (m1 & k1 & -> & ? & ? & ? & E1); [nia|].
  destruct (fin_pos_form m (e + k)) as (m2 & k2 & -> & ? & ? & ? & E2); [done|].
  rewrite E2, <- Z.mul_assoc, <- Z.pow_add_r in E1 by lia.
  destruct (odd_shift_inj m2 m1 (k2 + k) k1) as [-> ?]; try lia; try done.
  f_equal. lia.
Qed.

Lemma floor_fin m e : 0 <= m -> e < 0 -> floor (fin m e) = fin (m / 2 ^ (- e)) 0.
Proof.
  intros Hm He. destruct (Z.eq_dec m 0) as [->|]; [by rewrite Zdiv_0_l|].
  destruct (fin_pos_form m e) as (m' & k & -> & ? & ? & ? & ->); [lia|].
  cbn [floor]. destruct (Z.ltb_spec (e + k) 0).
  - f_equal. replace (- e) with (k + - (e + k)) by lia.
    rewrite Z.pow_add_r, (Z.mul_comm m') by lia.
    rewrite Z.div_mul_cancel_l; [done| |]; apply Z.pow_nonzero; lia.
  - replace k with ((e + k) + - e) at 2 by lia.
    rewrite Z.pow_add_r, Z.mul_assoc, Z.div_mul by (try apply Z.pow_nonzero; lia).
    rewrite fin_shift by lia. by rewrite fin_odd.
Qed.

(** The exponent chosen by [rnd]: the quotient has 53 bits in units of [2^e]. *)
Lemma log2_quot a q e0 :
  0 < a -> 0 < q -> e0 = Z.log2 a - Z.log2 q - 53 ->
  q * up (e0 + 52) < a * up (- (e0 + 52)) /\ a * up (- (e0 + 54)) < q * up (e0 + 54).
Proof.
  intros Ha Hq ->.
  pose proof (Z.log2_spec a Ha) as [A1 A2]. pose proof (Z.log2_spec q Hq) as [Q1 Q2].
  pose proof (Z.log2_nonneg a). pose proof (Z.log2_nonneg q).
  set (la := Z.log2 a) in *. set (lq := Z.log2 q) in *.
  rewrite Z.pow_succ_r in A2, Q2 by lia.
  split.
  - replace (la - lq - 53 + 52) with (la - lq - 1) by lia.
    assert (E : 2 ^ lq * 2 * up (la - lq - 1) = 2 ^ la * up (- (la - lq - 1))).
    { replace (2 ^ lq * 2) with (2 ^ (lq + 1)) by (rewrite Z.pow_add_r; lia).
      unfold up. rewrite <- !Z.pow_add_r by lia. f_equal. lia. }
    pose proof (up_pos (la - lq - 1)). pose proof (up_pos (- (la - lq - 1))). nia.
  - replace (la - lq - 53 + 54) with (la - lq + 1) by lia.
    assert (E : 2 ^ lq * up (la - lq + 1) = 2 * 2 ^ la * up (- (la - lq + 1))).
    { replace (2 * 2 ^ la) with (2 ^ (la + 1)) by (rewrite Z.pow_add_r; lia).
      unfold up. rewrite <- !Z.pow_add_r by lia. f_equal. lia. }
    pose proof (up_pos (la - lq + 1)). pose proof (up_pos (- (la - lq + 1))). nia.
Qed.

Lemma ulp_exp_le a q :
  0 < a -> 0 < q -> ulp_exp a q <= Z.max (Z.log2 a - Z.log2 q - 52) (-1074).
Proof. intros Ha Hq. unfold ulp_exp. break_match; lia. Qed.

Lemma nearest_bounds a b :
  0 < b -> 2 * a - b <= 2 * (nearest a b * b) <= 2 * a + b /\ a / b <= nearest a b.
Proof.
  intros Hb. unfold nearest.
  pose proof (Z.div_mod a b ltac:(lia)). pose proof (Z.mod_pos_bound a b Hb).
  destruct (_ || _)%bool eqn:E.
  - apply orb_prop in E as [E|E]; bool_hyps; lia.
  - bool_hyps. lia.
Qed.

(** The floor of a rounded quotient is the integer quotient: rounding never carries a
    quotient of integers below [2^52] over the next integer. *)
Lemma nearest_floor a q E :
  0 <= a -> 0 < q -> q < 2 * E -> nearest (a * E) q / E = a / q.
Proof.
  intros Ha Hq HE.
  destruct (nearest_bounds (a * E) q Hq) as [[L U] F]. set (n := nearest _ _) in *.
  pose proof (Z.div_mod a q ltac:(lia)) as D. pose proof (Z.mod_pos_bound a q Hq) as B.
  set (t := a / q) in *. assert (HtE : t * E <= n).
  { transitivity (a * E / q); [|done].
    apply Z.div_le_lower_bound; [done|]. assert (q * t * E <= a * E) by (apply Z.mul_le_mono_nonneg_r; lia). lia. }
  assert (HU : n * q < (t + 1) * E * q).
  { assert (a * E <= ((t + 1) * q - 1) * E) by (apply Z.mul_le_mono_nonneg_r; lia). lia. }
  apply Z.mul_lt_mono_pos_r in HU; [|done].
  symmetry. apply (Z.div_unique_pos n E t (n - t * E)); lia.
Qed.

Lemma floor_rnd a q :
  0 < a < 2 ^ 52 -> 0 < q < 2 ^ 1000 -> floor (rnd a q) = fin (a / q) 0.
Proof.
  intros Ha Hq. unfold rnd. destruct (Z.eqb_spec a 0); [lia|].
  unfold rnd_pos. rewrite (Z.abs_eq a) by lia.
  pose proof (ulp_exp_le a q ltac:(lia) ltac:(lia)) as He.
  assert (Hla : Z.log2 a < 52) by (apply Z.log2_lt_pow2; lia).
  assert (Hlq : Z.log2 q < 1000) by (apply Z.log2_lt_pow2; lia).
  pose proof (Z.log2_nonneg q). set (e := ulp_exp a q) in *.
  rewrite (up_neg e), Z.mul_1_r, (up_nonneg (- e)) by lia.
  assert (HE : q < 2 * 2 ^ (- e)).
  { pose proof (Z.log2_spec q ltac:(lia)) as [_ Q].
    rewrite <- Z.pow_succ_r by lia. eapply Z.lt_le_trans; [exact Q|].
    apply Z.pow_le_mono_r; lia. }
  pose proof (nearest_floor a q (2 ^ (- e)) ltac:(lia) ltac:(lia) HE) as F.
  rewrite Z.mul_1_r, F.
  assert (a / q <= a) by (apply Z.div_le_upper_bound; nia).
  destruct (Z.leb_spec (2 ^ 1024) (a / q)).
  { assert (2 ^ 52 < 2 ^ 1024) by (apply Z.pow_lt_mono_r; lia). lia. }
  rewrite Z.sgn_pos, Z.mul_1_l by lia.
  rewrite floor_fin by (try lia; destruct (nearest_bounds (a * 2 ^ (- e)) q ltac:(lia)) as [_ ?];
    assert (0 <= a * 2 ^ (- e) / q) by (apply Z.div_pos; nia); lia).
  by rewrite F.
Qed.

(** An odd integer below [2^53] times a power of two is representable. *)
Lemma rnd_dyadic_exact m e :
  0 < m < 2 ^ 53 -> Z.odd m = true -> -1074 <= e <= 900 -> rnd_dyadic m e = Fin m e.
Proof.
  intros Hm Ho He. unfold rnd_dyadic, rnd.
  pose proof (up_pos e). pose proof (up_pos (- e)).
  destruct (Z.eqb_spec (m * up e) 0); [nia|].
  unfold rnd_pos. rewrite Z.abs_eq by nia.
  pose proof (ulp_exp_le (m * up e) (up (- e)) ltac:(nia) ltac:(lia)) as Hu.
  assert (Hl : Z.log2 (m * up e) = Z.log2 m + Z.max 0 e).
  { unfold up. rewrite Z.log2_mul_pow2; lia. }
  assert (Hl2 : Z.log2 (up (- e)) = Z.max 0 (- e)) by (apply Z.log2_pow2; lia).
  assert (Z.log2 m < 53) by (apply Z.log2_lt_pow2; lia).
  rewrite Hl, Hl2 in Hu. set (e' := ulp_exp _ _) in *.
  assert (Hle : e' <= e) by lia.
  assert (N : nearest (m * up e * up (- e')) (up (- e) * up e') = m * 2 ^ (e - e')).
  { replace (m * up e * up (- e')) with (m * 2 ^ (e - e') * (up (- e) * up e')).
    - unfold nearest. pose proof (up_pos e').
      rewrite Z.div_mul, Z.mod_mul by nia.
      destruct (Z.ltb_spec (up (- e) * up e') (2 * 0)); [nia|].
      destruct (Z.eqb_spec (2 * 0) (up (- e) * up e')); [nia|]. done.
    - pose proof (up_shift e' (e - e') ltac:(lia)) as S.
      replace (e' + (e - e')) with e in S by lia. nia. }
  rewrite N. pose proof (up_pos e'). pose proof (up_pos (- e')).
  assert (0 < 2 ^ (e - e')) by (apply Z.pow_pos_nonneg; lia).
  destruct (Z.leb_spec (2 ^ 1024) (m * 2 ^ (e - e') * up e' / up (- e'))) as [B|_].
  { exfalso.
    assert (m * 2 ^ (e - e') * up e' / up (- e') < 2 ^ 1024); [|lia].
    apply Z.div_lt_upper_bound; [lia|].
    pose proof (up_shift e' (e - e') ltac:(lia)) as S.
    replace (e' + (e - e')) with e in S by lia.
    assert (m * up e < 2 ^ 1024).
    { assert (up e <= 2 ^ 900). { unfold up. apply Z.pow_le_mono_r; lia. }
      assert (2 ^ 53 * 2 ^ 900 <= 2 ^ 1024).
      { rewrite <- Z.pow_add_r by lia. apply Z.pow_le_mono_r; lia. } nia. }
    assert (m * 2 ^ (e - e') * up e' * up (- e) = m * up e * up (- e')) by nia.
    nia. }
  rewrite Z.sgn_pos, Z.mul_1_l by nia.
  rewrite fin_shift by lia. replace (e' + (e - e')) with e by lia. apply fin_odd; [lia|done].
Qed.

(** The number of an integer below [2^53] in absolute value is exact. *)
Lemma of_Z_exact z : 0 < z < 2 ^ 53 -> of_Z z = fin z 0.
Proof.
  intros Hz. destruct (fin_pos_form z 0) as (m & k & E & ? & ? & ? & Ez); [lia|].
  rewrite E, Z.add_0_l. unfold of_Z.
  assert (0 < 2 ^ k) by (apply Z.pow_pos_nonneg; lia).
  assert (k < 900).
  { assert (k < 53); [|lia]. apply (Z.pow_lt_mono_r_iff 2); [lia|lia|]. nia. }
  rewrite <- (rnd_dyadic_exact m k); [|nia|done|lia].
  unfold rnd_dyadic. rewrite up_nonneg, (up_neg (- k)) by lia. by rewrite <- Ez.
Qed.

(** [Math.floor(a / b)] of integers is the integer quotient. *)
Lemma floor_div a b :
  0 < a < 2 ^ 52 -> 0 < b < 2 ^ 52 -> floor (div (of_Z a) (of_Z b)) = of_Z (a / b).
Proof.
  intros Ha Hb. rewrite (of_Z_exact a), (of_Z_exact b) by lia.
  destruct (fin_pos_form a 0) as (m1 & k1 & -> & ? & ? & ? & E1); [lia|].
  destruct (fin_pos_form b 0) as (m2 & k2 & -> & ? & ? & ? & E2); [lia|].
  rewrite !Z.add_0_l. cbn [div]. destruct (Z.eqb_spec m2 0); [lia|].
  rewrite Z.sgn_pos, Z.mul_1_l, Z.abs_eq by lia.
  assert (0 < 2 ^ k1) by (apply Z.pow_pos_nonneg; lia).
  assert (0 < 2 ^ k2) by (apply Z.pow_pos_nonneg; lia).
  assert (P : 0 < up (k1 - k2) <= 2 ^ k1).
  { split; [apply up_pos|]. unfold up. apply Z.pow_le_mono_r; lia. }
  assert (Q : 0 < up (k2 - k1) <= 2 ^ k2).
  { split; [apply up_pos|]. unfold up. apply Z.pow_le_mono_r; lia. }
  assert (2 ^ 52 < 2 ^ 1000) by (apply Z.pow_lt_mono_r; lia).
  rewrite floor_rnd; [|nia|nia].
  assert (X : m1 * up (k1 - k2) / (m2 * up (k2 - k1)) = a / b).
  { pose proof (up_shift (k2 - k1) (k1 - k2 + 0)) as _.
    assert (up (k1 - k2) * 2 ^ k2 = 2 ^ k1 * up (k2 - k1)).
    { unfold up. rewrite <- !Z.pow_add_r by lia. f_equal. lia. }
    rewrite E1, E2.
    rewrite <- (Z.div_mul_cancel_r (m1 * up (k1 - k2)) (m2 * up (k2 - k1)) (2 ^ k1 * 2 ^ k2)) by nia.
    rewrite <- (Z.div_mul_cancel_r (m1 * 2 ^ k1) (m2 * 2 ^ k2) (up (k2 - k1) * 2 ^ k1)) by nia.
    f_equal; nia. }
  rewrite X. destruct (Z.eq_dec (a / b) 0) as [->|]; [done|].
  assert (0 <= a / b) by (apply Z.div_pos; lia).
  assert (a / b <= a) by (apply Z.div_le_upper_bound; nia).
  rewrite of_Z_exact; [done|].
  assert (2 ^ 52 < 2 ^ 53) by (apply Z.pow_lt_mono_r; lia). lia.
Qed.

(** [a % b] of integers is exact. *)
Lemma rem_of_Z a b :
  0 < a < 2 ^ 52 -> 0 < b < 2 ^ 52 -> rem (of_Z a) (of_Z b) = of_Z (a mod b).
Proof.
  intros Ha Hb. rewrite (of_Z_exact a), (of_Z_exact b) by lia.
  destruct (fin_pos_form a 0) as (m1 & k1 & -> & ? & ? & ? & E1); [lia|].
  destruct (fin_pos_form b 0) as (m2 & k2 & -> & ? & ? & ? & E2); [lia|].
  rewrite !Z.add_0_l. cbn [rem]. destruct (Z.eqb_spec m2 0); [lia|].
  set (e := Z.min k1 k2).
  set (a' := m1 * 2 ^ (k1 - e)). set (b' := m2 * 2 ^ (k2 - e)).
  assert (He : 0 < 2 ^ e) by (apply Z.pow_pos_nonneg; lia).
  assert (Ea : a = a' * 2 ^ e).
  { unfold a'. rewrite <- Z.mul_assoc, <- Z.pow_add_r by lia.
    by replace (k1 - e + e) with k1 by lia. }
  assert (Eb : b = b' * 2 ^ e).
  { unfold b'. rewrite <- Z.mul_assoc, <- Z.pow_add_r by lia.
    by replace (k2 - e + e) with k2 by lia. }
  assert (0 < a') by nia. assert (0 < b') by nia.
  rewrite Z.rem_mod_nonneg by lia.
  assert (X : a mod b = (a' mod b') * 2 ^ e).
  { rewrite Ea, Eb, Z.mul_mod_distr_r by lia. done. }
  pose proof (Z.mod_pos_bound a b ltac:(lia)).
  assert (2 ^ 52 < 2 ^ 53) by (apply Z.pow_lt_mono_r; lia).
  destruct (Z.eq_dec (a' mod b') 0) as [Z0|NZ].
  - rewrite X, Z0. done.
  - pose proof (Z.mod_pos_bound a' b' ltac:(lia)).
    rewrite of_Z_exact by nia. rewrite X, fin_shift by lia. done.
Qed.

Lemma to_string_of_Z z : 0 <= z < 2 ^ 53 -> to_string (of_Z z) = dec z.
Proof.
  intros Hz. destruct (Z.eq_dec z 0) as [->|]; [done|].
  rewrite of_Z_exact by lia.
  destruct (fin_pos_form z 0) as (m & k & -> & ? & ? & ? & E); [lia|].
  rewrite Z.add_0_l. cbn [to_string].
  rewrite up_nonneg, Z.abs_eq, <- E by lia.
  destruct (Z.leb_spec 0 k); [|lia]. destruct (Z.ltb_spec z (2 ^ 53)); [|lia]. done.
Qed.

(** Comparison with zero, as the console's [d > 0] tests. *)
Lemma gtb_of_Z_0 z : 0 <= z < 2 ^ 53 -> gtb (of_Z z) (of_Z 0) = (0 <? z).
Proof.
  intros Hz. destruct (Z.eq_dec z 0) as [->|]; [done|].
  rewrite of_Z_exact by lia.
  destruct (fin_pos_form z 0) as (m & k & -> & ? & ? & ? & E); [lia|].
  rewrite Z.add_0_l. unfold gtb, ltb. change (of_Z 0) with (Fin 0 0). cbn [cmp].
  rewrite Z.min_l by lia. rewrite !Z.sub_0_r, Z.mul_0_l.
  assert (0 < 2 ^ k) by (apply Z.pow_pos_nonneg; lia).
  destruct (Z.ltb_spec 0 z); [|lia].
  destruct (Z.compare_spec 0 (m * 2 ^ k)); nia || done.
Qed.

Lemma floor_div_nonneg a b :
  0 <= a < 2 ^ 52 -> 0 < b < 2 ^ 52 -> floor (div (of_Z a) (of_Z b)) = of_Z (a / b).
Proof.
  intros Ha Hb. destruct (Z.eq_dec a 0) as [->|]; [|apply floor_div; lia].
  rewrite Zdiv_0_l, (of_Z_exact b) by lia.
  destruct (fin_pos_form b 0) as (m & k & -> & ? & ? & ? & E); [lia|].
  change (of_Z 0) with (Fin 0 0). cbn [div]. destruct (Z.eqb_spec m 0); [lia|].
  by rewrite Z.mul_0_r, Z.mul_0_l.
Qed.

Lemma rem_of_Z_nonneg a b :
  0 <= a < 2 ^ 52 -> 0 < b < 2 ^ 52 -> rem (of_Z a) (of_Z b) = of_Z (a mod b).
Proof.
  intros Ha Hb. destruct (Z.eq_dec a 0) as [->|]; [|apply rem_of_Z; lia].
  rewrite Zmod_0_l, (of_Z_exact b) by lia.
  destruct (fin_pos_form b 0) as (m & k & -> & ? & ? & ? & E); [lia|].
  change (of_Z 0) with (Fin 0 0). cbn [rem]. destruct (Z.eqb_spec m 0); [lia|].
  rewrite Z.mul_0_l, Z.rem_0_l; [done|].
  assert (0 < 2 ^ (0 + k - Z.min 0 (0 + k))) by (apply Z.pow_pos_nonneg; lia). nia.
Qed.

Lemma as_double_id v : 0 <= v < 2 ^ 53 -> as_double v = v.
Proof.
  intros Hv. destruct (Z.eq_dec v 0) as [->|]; [done|].
  unfold as_double. rewrite of_Z_exact by lia.
  destruct (fin_pos_form v 0) as (m & k & -> & ? & ? & ? & E); [lia|].
  rewrite Z.add_0_l. cbn [to_int]. destruct (Z.leb_spec 0 k); [lia|lia].
Qed.

Lemma span_app p w r :
  Forall (fun c => p c = true) w -> (match r with [] => True | c :: _ => p c = false end) ->
  span p (w ++ r) = (w, r).
Proof.
  induction w as [|c w IH]; intros F R; cbn.
  - destruct r as [|c r]; [done|]. cbn. by rewrite R.
  - inversion F as [|? ? Hc Fw]; subst. rewrite Hc, IH by done. done.
Qed.

Lemma is_digit_not_space c : is_digit c = true -> is_space c = false.
Proof.
  unfold is_digit, is_space. intros H. bool_hyps.
  destruct (Z.leb_spec (code c) 13); [lia|]. rewrite andb_false_r.
  destruct (Z.eqb_spec (code c) 32); [lia|]. destruct (Z.eqb_spec (code c) 160); [lia|]. done.
Qed.

Lemma is_digit_radix c : is_digit c = true -> is_radix_digit 10 c = true.
Proof.
  unfold is_digit, is_radix_digit, digit_value. intros H. rewrite H. bool_hyps.
  destruct (Z.ltb_spec (code c - 48) 10); [done|lia].
Qed.

Lemma parse_sign_digit c t :
  is_digit c = true -> parse_sign (c :: t) = (false, c :: t).
Proof.
  intros H. unfold parse_sign.
  destruct (Ascii.eqb c "-"%char) eqn:E1; [apply Ascii.eqb_eq in E1 as ->; discriminate|].
  destruct (Ascii.eqb c "+"%char) eqn:E2; [apply Ascii.eqb_eq in E2 as ->; discriminate|done].
Qed.

(** [parseInt] reads back a printed safe integer. *)
Lemma parse_int_dec n : 0 <= n < 2 ^ 53 -> parse_int (dec n) = Some n.
Proof.
  intros Hn. destruct (dec_digits n ltac:(lia)) as [Hne Hd].
  unfold parse_int. pose proof (dec_value n ltac:(lia)) as V.
  destruct (units (dec n)) as [|c t]; [done|].
  inversion Hd as [|? ? Hc Ht]; subst.
  cbn [drop_while]. rewrite is_digit_not_space, parse_sign_digit by done.
  unfold parse_digits.
  rewrite <- (app_nil_r (c :: t)), span_app; [|eapply Forall_impl; [exact Hd|apply is_digit_radix]|done].
  cbn [fst]. rewrite V. cbn [default]. by rewrite as_double_id.
Qed.
