(* ===== verification/Html.v ===== *)
(** * React element trees

    What a component function returns: a tree of elements with their properties and
    children. Handlers are messages of the component's own type ['M], interpreted by
    the component's [update]; an element of a third-party component (a router [Link],
    a [motion.div], a chart) is kept as an element with that component's name. Below:
    the text shown, the handlers offered to the user, DOM event dispatch with
    bubbling and [stopPropagation], and the rule that sibling keys are distinct. *)

From S2P Require Import Prelude JsString.

(** Indices print as distinct keys. *)
Lemma index_key_inj i j : dec (Z.of_nat i) = dec (Z.of_nat j) -> i = j.
Proof.
  intros E. pose proof (dec_value (Z.of_nat i) ltac:(lia)) as Vi.
  rewrite E, (dec_value (Z.of_nat j)) in Vi by lia. injection Vi as Vi. lia.
Qed.
Lemma index_keys_nodup n : NoDup (map (fun i => dec (Z.of_nat i)) (seq 0 n)).
Proof.
  apply NoDup_fmap_2_strong; [|apply NoDup_seq].
  intros i j _ _. apply index_key_inj.
Qed.

Section Trees.
Context {M : Type}.

Inductive prop : Type :=
| Attr (name value : string)
| Flag (name : string) (b : bool)
| Key (k : string)
| OnClick (m : M)
| StopClick
| OnScroll (m : M)
| OnChange (f : string -> M).

#[local] Unset Elimination Schemes.
Inductive node : Type :=
| Txt (s : string)
| El (tag : string) (ps : list prop) (kids : list node).
#[local] Set Elimination Schemes.

(** Induction with the hypothesis for every child. *)
Section Induction.
Context (P : node -> Prop).
Context (HT : forall s, P (Txt s)).
Context (HE : forall tag ps kids, Forall P kids -> P (El tag ps kids)).
Fixpoint node_ind (n : node) : P n :=
  match n with
  | Txt s => HT s
  | El tag ps kids =>
      HE tag ps kids
        ((fix go l := match l return Forall P l with
                      | [] => Forall_nil_2 P
                      | k :: l' => Forall_cons_2 P k l' (node_ind k) (go l')
                      end) kids)
  end.
End Induction.

(** [{cond && <element/>}] for a boolean condition, and for a nullable value. *)
Definition when (c : bool) (n : node) : list node := if c then [n] else [].
Definition when_some {A} (o : option A) (f : A -> node) : list node :=
  match o with Some a => [f a] | None => [] end.

(** [{text && <element/>}] for an optional string: the empty string shows nothing. *)
Definition when_text (o : option string) (f : string -> node) : list node :=
  match o with Some t => if String.eqb t "" then [] else [f t] | None => [] end.

(** The text of a tree, in document order. *)
Fixpoint text (n : node) : list string :=
  match n with
  | Txt s => [s]
  | El _ _ kids => (fix go l := match l with [] => [] | k :: l' => text k ++ go l' end) kids
  end.

(** The class names of a tree, in document order. *)
Fixpoint classes (n : node) : list string :=
  match n with
  | Txt _ => []
  | El _ ps kids =>
      omap (fun p => match p with Attr nm v => if String.eqb nm "className" then Some v else None | _ => None end) ps ++
      (fix go l := match l with [] => [] | k :: l' => classes k ++ go l' end) kids
  end.

(** A disabled button receives no click. *)
Definition disabled (ps : list prop) : bool :=
  existsb (fun p => match p with Flag nm b => String.eqb nm "disabled" && b | _ => false end) ps.
Definition own_clicks (ps : list prop) : list M :=
  if disabled ps then []
  else omap (fun p => match p with OnClick m => Some m | _ => None end) ps.
Definition stops (ps : list prop) : bool :=
  existsb (fun p => match p with StopClick => true | _ => false end) ps.

(** Every click message the tree offers, in document order. *)
Fixpoint offers (n : node) : list M :=
  match n with
  | Txt _ => []
  | El _ ps kids =>
      own_clicks ps ++ (fix go l := match l with [] => [] | k :: l' => offers k ++ go l' end) kids
  end.

(** The messages sent by a click on the element at [path], innermost first: the
    event bubbles from the target to the root and ends at an element that stops
    its propagation. The flag tells whether it is still propagating. *)
Fixpoint click (path : list nat) (n : node) {struct n} : list M * bool :=
  match n with
  | Txt _ => ([], true)
  | El _ ps kids =>
      let inner :=
        match path with
        | [] => ([], true)
        | i :: path' =>
            (fix nth l j := match l, j with
                            | [], _ => ([], true)
                            | k :: _, O => click path' k
                            | _ :: l', S j' => nth l' j'
                            end) kids i
        end in
      if snd inner then (fst inner ++ own_clicks ps, negb (stops ps)) else inner
  end.

(** React's key rule: among the children of every element, the keys that are given
    are distinct. *)
Definition node_key (n : node) : option string :=
  match n with
  | Txt _ => None
  | El _ ps _ => head (omap (fun p => match p with Key k => Some k | _ => None end) ps)
  end.
Definition sibling_keys (l : list node) : list string := omap node_key l.
Fixpoint keys_ok (n : node) : Prop :=
  match n with
  | Txt _ => True
  | El _ _ kids =>
      NoDup (sibling_keys kids) /\
      (fix go l := match l with [] => True | k :: l' => keys_ok k /\ go l' end) kids
  end.

(** The same rule as a check, for the trees whose keys are known. *)
Fixpoint keys_okb (n : node) : bool :=
  match n with
  | Txt _ => true
  | El _ _ kids =>
      bool_decide (NoDup (sibling_keys kids)) &&
      (fix go l := match l with [] => true | k :: l' => keys_okb k && go l' end) kids
  end.

(** ** List forms *)

Definition texts (l : list node) : list string := l ≫= text.
Definition offers_list (l : list node) : list M := l ≫= offers.

Lemma text_el tag ps kids : text (El tag ps kids) = texts kids.
Proof. unfold texts. cbn. induction kids as [|k l IH]; cbn; [done|]. by rewrite IH. Qed.

Lemma class_in_child tag ps kids k c : In k kids -> c ∈ classes k -> c ∈ classes (El tag ps kids).
Proof.
  intros Hk Hc. cbn [classes]. apply elem_of_app. right.
  induction kids as [|k' kids IH]; [done|]. apply elem_of_app.
  destruct Hk as [->|Hk]; [by left|right; by apply IH].
Qed.

Lemma offers_el tag ps kids : offers (El tag ps kids) = own_clicks ps ++ offers_list kids.
Proof.
  unfold offers_list. cbn [offers]. f_equal.
Qed.

Lemma offers_list_app l k : offers_list (l ++ k) = offers_list l ++ offers_list k.
Proof. unfold offers_list. apply bind_app. Qed.

Lemma offers_list_cons n l : offers_list (n :: l) = offers n ++ offers_list l.
Proof. done. Qed.

Lemma offers_list_when b (n : node) : offers_list (when b n) = if b then offers n else [].
Proof. destruct b; [apply app_nil_r|done]. Qed.

(** Rows without handlers. *)
Lemma offers_list_map_nil {A} (f : A -> node) l :
  (forall a, offers (f a) = []) -> offers_list (map f l) = [].
Proof.
  intros E. unfold offers_list. induction l as [|a l IH]; [done|].
  cbn. by rewrite E.
Qed.
Lemma offers_list_imap_nil {A} (f : nat -> A -> node) l :
  (forall i a, offers (f i a) = []) -> offers_list (imap f l) = [].
Proof.
  intros E. revert f E. induction l as [|a l IH]; intros f E; [done|].
  rewrite imap_cons, offers_list_cons, E. apply IH. intros i. apply E.
Qed.

Lemma keys_ok_el tag ps kids :
  keys_ok (El tag ps kids) <-> NoDup (sibling_keys kids) /\ Forall keys_ok kids.
Proof.
  cbn. enough ((fix go l := match l with [] => True | k :: l' => keys_ok k /\ go l' end) kids
               <-> Forall keys_ok kids) as -> by done.
  induction kids as [|k l IH].
  - split; [constructor|done].
  - rewrite IH, Forall_cons. done.
Qed.

Lemma keys_okb_ok n : keys_okb n = true -> keys_ok n.
Proof.
  induction n as [s|tag ps kids IH] using node_ind; [done|].
  cbn [keys_okb]. intros E. apply andb_prop in E as [E1 E2]. apply bool_decide_eq_true in E1.
  apply keys_ok_el. split; [done|]. clear E1.
  induction kids as [|k kids IHk]; [constructor|].
  apply Forall_cons in IH as [Hk Hks]. apply andb_prop in E2 as [Ek E2].
  constructor; [by apply Hk|by apply IHk].
Qed.

Lemma sibling_keys_app l k : sibling_keys (l ++ k) = sibling_keys l ++ sibling_keys k.
Proof. unfold sibling_keys. by rewrite omap_app. Qed.

Lemma sibling_keys_map {A} (f : A -> node) (key : A -> string) l :
  (forall a, node_key (f a) = Some (key a)) -> sibling_keys (map f l) = map key l.
Proof.
  intros H. unfold sibling_keys. induction l as [|a l IH]; [done|].
  cbn. rewrite H. by f_equal.
Qed.

(** Keys that are the index of the element: [key={i}]. *)
Lemma sibling_keys_imap {A} (f : nat -> A -> node) (key : nat -> string) l :
  (forall i a, node_key (f i a) = Some (key i)) ->
  sibling_keys (imap f l) = map key (seq 0 (length l)).
Proof.
  intros H. unfold sibling_keys.
  enough (G : forall k, omap node_key (imap (fun i => f (k + i)%nat) l) = map key (seq k (length l)))
    by apply (G 0%nat).
  induction l as [|a l IH]; intros k; [done|].
  cbn [imap length seq map]. cbn. rewrite Nat.add_0_r, H. f_equal.
  rewrite <- (IH (S k)). f_equal. apply imap_ext. intros i x _. cbn. f_equal. lia.
Qed.

(** Keys that hold the index of the element *)
Lemma sibling_keys_indexed {A} (f : nat -> A -> node) (key : nat -> A -> string) l :
  (forall i a, node_key (f i a) = Some (key i a)) -> (forall i j a b, key i a = key j b -> i = j) ->
  NoDup (sibling_keys (imap f l)).
Proof.
  intros K Inj. assert (E : sibling_keys (imap f l) = imap key l).
  { unfold sibling_keys. revert f key K Inj. induction l as [|a l IH]; intros f key K Inj; [done|].
    rewrite !imap_cons. cbn. rewrite K. f_equal. apply IH; [intros i b; apply K|].
    intros i j b c E. apply Inj in E. by injection E. }
  rewrite E. apply NoDup_alt. intros i j x Ei Ej. rewrite list_lookup_imap in Ei, Ej.
  apply fmap_Some in Ei as (a & _ & ->). apply fmap_Some in Ej as (b & _ & Eb). by eapply Inj.
Qed.

(** A click only sends messages the tree offers. *)
Lemma click_in_offers n path m : m ∈ fst (click path n) -> m ∈ offers n.
Proof.
  revert path. induction n as [s|tag ps kids IH] using node_ind; intros path; [cbn; intros H; inversion H|].
  rewrite offers_el, elem_of_app. unfold offers_list. cbn [click].
  set (inner := match path with [] => _ | _ => _ end).
  assert (HI : m ∈ fst inner -> m ∈ kids ≫= offers).
  { subst inner. destruct path as [|i path]; [intros H; inversion H|].
    revert i. induction kids as [|k kids IHk]; intros i; [intros H; inversion H|].
    apply Forall_cons in IH as [Hk Hks]. cbn [mbind list_bind]. rewrite elem_of_app.
    destruct i as [|i]; [intros H; left; by eapply Hk|].
    intros H. right. by eapply (IHk Hks i). }
  destruct (snd inner); cbn [fst]; [rewrite elem_of_app; tauto|auto].
Qed.

Lemma click_no_offers n path : offers n = [] -> fst (click path n) = [].
Proof.
  intros E. destruct (fst (click path n)) as [|m l] eqn:C; [done|].
  exfalso. assert (m ∈ offers n) as Hm.
  - apply (click_in_offers n path). rewrite C. by left.
  - rewrite E in Hm. by apply elem_of_nil in Hm.
Qed.

(** An element that stops propagation contains every click inside it. *)
Lemma click_stopped tag ps kids path : stops ps = true -> snd (click path (El tag ps kids)) = false.
Proof.
  intros S. cbn [click]. set (inner := match path with [] => _ | _ => _ end).
  destruct (snd inner) eqn:E; cbn [snd]; [by rewrite S|done].
Qed.

End Trees.
Arguments prop : clear implicits.
Arguments node : clear implicits.

(** Elements whose handlers are mapped to another component's messages: a child
    component's tree inside its parent's. *)
Definition map_prop {M N} (g : M -> N) (p : prop M) : prop N :=
  match p with
  | Attr n v => Attr n v | Flag n b => Flag n b | Key k => Key k
  | OnClick m => OnClick (g m) | StopClick => StopClick
  | OnScroll m => OnScroll (g m) | OnChange f => OnChange (fun s => g (f s))
  end.
Fixpoint map_node {M N} (g : M -> N) (n : node M) : node N :=
  match n with
  | Txt s => Txt s
  | El tag ps kids =>
      El tag (map (map_prop g) ps)
        ((fix go l := match l with [] => [] | k :: l' => map_node g k :: go l' end) kids)
  end.

Abbreviation cls c := (Attr "className" c).
