(* ===== verification/Types.v ===== *)
(** * The console's data model: [frontend/src/types.ts]

    The unions of string literals are inductive types whose [to_string] is the
    literal; a JSON record is a [Record] with the interface's fields. Counters, byte
    totals, steps and ranks are integers; the durations and ratios the API sends as
    fractions are JavaScript numbers. *)

From S2P Require Import Prelude JsString JsNum.

(** ** Run *)

Inductive run_state : Type :=
| CREATED | RUNNING | CHECKPOINTING | COMMITTED | FAILED | RECOVERING | CANCELLED | COMPLETED.

#[export] Instance run_state_eq_dec : EqDecision run_state.
Proof. solve_decision. Defined.

Definition all_run_states : list run_state :=
  [CREATED; RUNNING; CHECKPOINTING; COMMITTED; FAILED; RECOVERING; CANCELLED; COMPLETED].

Lemma all_run_states_complete s : s ∈ all_run_states.
Proof. destruct s; set_solver. Qed.

Definition run_state_string (s : run_state) : string :=
  match s with
  | CREATED => "CREATED" | RUNNING => "RUNNING" | CHECKPOINTING => "CHECKPOINTING"
  | COMMITTED => "COMMITTED" | FAILED => "FAILED" | RECOVERING => "RECOVERING"
  | CANCELLED => "CANCELLED" | COMPLETED => "COMPLETED"
  end.

Record run_status : Type := RunStatus {
  run_id : string;
  run_name : string;
  state : run_state;
  current_step : Z;
  active_workers : Z;
  created_at : string;
  updated_at : string;
  error_message : option string
}.

Record run_config : Type := RunConfig {
  cfg_name : string;
  num_workers : Z;
  checkpoint_interval_steps : Z
}.

(** ** Checkpoint *)

Inductive checkpoint_state : Type := CPENDING | CIN_PROGRESS | CCOMMITTED | CFAILED.

#[export] Instance checkpoint_state_eq_dec : EqDecision checkpoint_state.
Proof. solve_decision. Defined.

Definition checkpoint_state_string (s : checkpoint_state) : string :=
  match s with
  | CPENDING => "PENDING" | CIN_PROGRESS => "IN_PROGRESS"
  | CCOMMITTED => "COMMITTED" | CFAILED => "FAILED"
  end.

Record checkpoint_info : Type := CheckpointInfo {
  checkpoint_id : string;
  ck_run_id : string;
  ck_step : Z;
  ck_state : checkpoint_state;
  num_shards : Z;
  total_bytes : Z;
  ck_created_at : string;
  shard_ids : list string
}.

(** ** Worker *)

Record worker_info : Type := WorkerInfo {
  worker_id : string;
  wk_run_id : string;
  rank : Z;
  status : string;
  last_heartbeat : string;
  wk_current_step : Z
}.

(** ** Health *)

Inductive health_level : Type := HEALTHY | DEGRADED | UNHEALTHY.

Record health_status : Type := HealthStatus {
  hs_status : health_level;
  version : string;
  uptime_seconds : num;
  active_runs : Z;
  etcd_connected : bool
}.

(** ** Metrics *)

Record metrics_summary : Type := MetricsSummary {
  total_runs : Z;
  ms_active_runs : Z;
  total_checkpoints : Z;
  total_checkpoint_bytes : Z;
  total_workers : Z;
  ms_active_workers : Z;
  checkpoint_success_rate : num
}.

(** ** Server-sent event *)

Record run_event : Type := RunEvent {
  evt_type : string;
  evt_data : string;
  evt_timestamp : string
}.
