(* ===== verification/Host.v ===== *)
(** * Host functions

    What the console takes from the browser without being able to compute it here:
    the implementation-approximated [Math.log] and [Math.exp], the parsing and
    locale-dependent printing of dates and numbers. Each is an interface; the laws the
    console relies on are a class of their own, with an instance that satisfies them. *)

From S2P Require Import Prelude JsString JsNum.

Class MathLib : Type := {
  js_log : num -> num;
  js_exp : num -> num
}.

(** ECMA-262 leaves the accuracy of [Math.log] to the implementation. The law states
    what a result within one unit in the last place gives for the quotient
    [Math.log(x) / Math.log(1024)]: its floor is the exact one for integers away from
    [1024^5] from below, and it is negative for [0 < x < 1]. *)
Class MathLibLaws `(ML : MathLib) : Prop := {
  log_1024_floor b :
    1 <= b < 2 ^ 40 \/ 2 ^ 50 <= b < 2 ^ 53 ->
    floor (div (js_log (of_Z b)) (js_log (of_Z 1024))) = of_Z (Z.log2 b / 10);
  log_1024_fraction m e :
    0 < m < 2 ^ 53 -> -1074 <= e -> m * up e < up (- e) ->
    exists k, 0 < k < 200 /\ floor (div (js_log (fin m e)) (js_log (of_Z 1024))) = of_Z (- k)
}.

(** A logarithm with the laws: the integer part of the binary logarithm. *)
Definition log2_floor (x : num) : num :=
  match x with
  | Fin m e => if 0 <? m then of_Z (Z.log2 m + e) else NaN
  | Inf false => Inf false
  | _ => NaN
  end.

#[export] Instance reference_math : MathLib := {| js_log := log2_floor; js_exp := fun _ => of_Z 1 |}.

Lemma log2_floor_fin m e : 0 < m -> log2_floor (fin m e) = of_Z (Z.log2 m + e).
Proof.
  intros Hm. destruct (fin_pos_form m e) as (m' & k & -> & ? & ? & ? & ->); [done|].
  cbn [log2_floor]. destruct (Z.ltb_spec 0 m'); [|lia].
  rewrite Z.log2_mul_pow2 by lia. f_equal. lia.
Qed.

Lemma log2_quotient l :
  -1074 <= l < 0 -> exists k, 0 < k < 200 /\ floor (div (of_Z l) (of_Z 10)) = of_Z (- k).
Proof.
  intros Hl.
  assert (T : forallb (fun i => bool_decide (floor (div (of_Z (- Z.of_nat i)) (of_Z 10))
                         = of_Z (- ((Z.of_nat i + 9) / 10)))) (seq 1 1074) = true)
    by (vm_compute; reflexivity).
  rewrite forallb_forall in T. specialize (T (Z.to_nat (- l))).
  exists ((- l + 9) / 10). split.
  - split; [apply Z.div_str_pos; lia|apply Z.div_lt_upper_bound; lia].
  - assert (I : In (Z.to_nat (- l)) (seq 1 1074)) by (apply in_seq; lia).
    apply T, bool_decide_eq_true in I. rewrite Z2Nat.id in I by lia.
    by rewrite Z.opp_involutive in I.
Qed.

#[export] Instance reference_math_laws : MathLibLaws reference_math.
Proof.
  split; cbn [js_log reference_math]; change (log2_floor (of_Z 1024)) with (of_Z 10).
  - intros b Hb. rewrite (of_Z_exact b) by lia. rewrite log2_floor_fin by lia.
    rewrite Z.add_0_r. pose proof (Z.log2_nonneg b).
    destruct (Z.eq_dec (Z.log2 b) 0) as [->|]; [done|].
    assert (Z.log2 b < 53) by (apply Z.log2_lt_pow2; lia).
    apply floor_div; lia.
  - intros m e Hm He Hlt. rewrite log2_floor_fin by lia.
    apply log2_quotient. pose proof (Z.log2_nonneg m).
    split; [lia|].
    destruct (Z.le_gt_cases 0 e).
    + rewrite (up_neg (- e)) in Hlt by lia. pose proof (up_pos e). nia.
    + rewrite (up_neg e), Z.mul_1_r, (up_nonneg (- e)) in Hlt by lia.
      assert (Z.log2 m < - e) by (apply Z.log2_lt_pow2; lia). lia.
Qed.

(** Dates and locale-dependent printing *)
Class Intl : Type := {
  (** [new Date(s).getTime()], [None] for an invalid date *)
  date_ms : string -> option Z;
  (** [toLocaleString] with month, day, hour and minute *)
  locale_datetime : Z -> string;
  (** [toLocaleTimeString] with hour, minute and second, and without options *)
  locale_hms : Z -> string;
  locale_time : Z -> string;
  (** [Number.prototype.toLocaleString] of an integer *)
  locale_int : Z -> string
}.

(** The [toLocale...String] methods print an invalid date as this text; they do not
    throw (ECMA-402, [Date.prototype.toLocaleString], step 2). *)
Definition invalid_date : string := "Invalid Date".
Definition to_locale {I : Intl} (fmt : Z -> string) (d : option Z) : string :=
  match d with Some t => fmt t | None => invalid_date end.

(** A plain instance, for concrete evaluations. *)
#[export] Instance plain_intl : Intl := {|
  date_ms := parse_int;
  locale_datetime := dec; locale_hms := dec; locale_time := dec; locale_int := dec
|}.
