(* ===== verification/Async.v ===== *)
(** * Asynchronous handlers

    The fetching callbacks of the console are [try { ... } catch { ... } finally { ... }]
    blocks over component state and awaited responses. They are written in a
    state-and-exception monad: a handler maps the component's state to its result or
    to the exception thrown, with the state the [setState] calls made so far have
    produced (a throw does not undo them). The response of the server is an argument. *)

From S2P Require Import Prelude JsString.

(** A thrown value: an [Error] with its message, or anything else. *)
Inductive exn : Type := Error (msg : string) | NotAnError.

(** [e instanceof Error ? e.message : fallback] *)
Definition message_or (fallback : string) (e : exn) : string :=
  match e with Error m => m | NotAnError => fallback end.

(** A fetch response: its status line and what [res.json()] resolves to, or the
    exception it rejects with. *)
Record response (A : Type) : Type := Response {
  res_status : Z;
  res_statusText : string;
  res_json : exn + A
}.
Arguments Response {A}. Arguments res_status {A}. Arguments res_statusText {A}. Arguments res_json {A}.

(** [res.ok]: a status in 200..299 *)
Definition res_ok {A} (r : response A) : bool := (200 <=? res_status r) && (res_status r <=? 299).

(** [await fetch(url)]: a network failure rejects. *)
Definition outcome (A : Type) : Type := exn + response A.

Definition M (S A : Type) : Type := S -> (exn + A) * S.

Section Monad.
Context {S : Type}.

Definition ret {A} (a : A) : M S A := fun s => (inr a, s).
Definition throw {A} (e : exn) : M S A := fun s => (inl e, s).
Definition bind {A B} (m : M S A) (k : A -> M S B) : M S B :=
  fun s => match m s with (inl e, s') => (inl e, s') | (inr a, s') => k a s' end.
(** One or several [setState] calls *)
Definition modify (f : S -> S) : M S unit := fun s => (inr tt, f s).
(** Awaiting a promise that has settled with this value or exception *)
Definition await {A} (o : exn + A) : M S A := fun s => (o, s).
(** [try m catch (e) h] and [try m finally f] *)
Definition catch {A} (m : M S A) (h : exn -> M S A) : M S A :=
  fun s => match m s with (inl e, s') => h e s' | r => r end.
Definition finally {A} (m : M S A) (f : S -> S) : M S A :=
  fun s => let '(r, s') := m s in (r, f s').
Definition run (m : M S unit) (s : S) : S := snd (m s).
End Monad.

Declare Scope async_scope.
Delimit Scope async_scope with async.
Notation "'let*' x := m 'in' k" := (bind m (fun x => k))
  (at level 10, x name, m at level 100, k at level 200) : async_scope.
Notation "'let*' ( x , y ) := m 'in' k" := (bind m (fun '(x, y) => k))
  (at level 10, x name, y name, m at level 100, k at level 200) : async_scope.
Notation "m ;; k" := (bind m (fun _ => k)) (at level 100, k at level 200, right associativity) : async_scope.
Open Scope async_scope.

(** [if (!res.ok) throw new Error(msg)] *)
Definition check_ok {S A} (r : response A) (msg : string) : M S unit :=
  if res_ok r then ret tt else throw (Error msg).

(** [`${res.status} ${res.statusText}`] *)
Definition status_line {A} (r : response A) : string :=
  dec (res_status r) +:+ " " +:+ res_statusText r.

(** A handler that ends with [catch] does not throw. *)
Definition no_throw {S A} (m : M S A) : Prop := forall s, exists a, fst (m s) = inr a.

Lemma catch_no_throw {S A} (m : M S A) h :
  (forall e, no_throw (h e)) -> no_throw (catch m h).
Proof.
  intros H s. unfold catch. destruct (m s) as [[e|a] s'] eqn:E; [apply H|by exists a].
Qed.
Lemma finally_no_throw {S A} (m : M S A) f : no_throw m -> no_throw (finally m f).
Proof.
  intros H s. destruct (H s) as (a & E). exists a. unfold finally.
  by destruct (m s) as [r s'].
Qed.
Lemma modify_no_throw {S} (f : S -> S) : no_throw (modify f).
Proof. intros s. by exists tt. Qed.
#[export] Hint Resolve catch_no_throw finally_no_throw modify_no_throw : console.

(** The outcome of a single fetch as its caller sees it: the decoded value, or the
    message of whatever went wrong. This is what every page's [try] block reduces to. *)
Definition fetch_result {A} (describe : response A -> string) (o : outcome A) : exn + A :=
  match o with
  | inl e => inl e
  | inr r => if res_ok r then res_json r else inl (Error (describe r))
  end.

(** ** Handlers with effects

    A handler also issues requests, alerts and navigations: they are appended to an
    effect list that is part of the state. *)
Section Effects.
Context {S E : Type}.
Definition on (f : S -> S) : M (S * list E) unit := modify (fun '(s, es) => (f s, es)).
Definition emit (e : E) : M (S * list E) unit := modify (fun '(s, es) => (s, es ++ [e])).
Definition finally_on {A} (m : M (S * list E) A) (f : S -> S) : M (S * list E) A :=
  finally m (fun '(s, es) => (f s, es)).
(** Runs a handler from an empty effect list. *)
Definition handle (m : M (S * list E) unit) (s : S) : S * list E := run m (s, []).
End Effects.
