(* ===== verification/Design.v ===== *)
(** * Styling tables and formatters: [frontend/src/design.ts] *)

From Stdlib Require Import Ascii.
From S2P Require Import Prelude JsString JsNum Types Host Async.

(** ** State styling maps *)

Record run_style : Type := RunStyle {
  rs_bg : string; rs_text : string; rs_dot : string; rs_label : string; rs_desc : string
}.

Definition RUN_STATE_CONFIG (s : run_state) : run_style :=
  match s with
  | CREATED => RunStyle "bg-muted-bg" "text-muted" "bg-muted" "Created" "Waiting to start"
  | RUNNING => RunStyle "bg-ok-muted" "text-ok" "bg-ok" "Running" "Training in progress"
  | CHECKPOINTING => RunStyle "bg-warn-muted" "text-warn" "bg-warn" "Saving" "Saving a checkpoint"
  | COMMITTED => RunStyle "bg-info-muted" "text-info" "bg-info" "Saved" "Checkpoint saved successfully"
  | FAILED => RunStyle "bg-err-muted" "text-err" "bg-err" "Failed" "A worker crashed"
  | RECOVERING => RunStyle "bg-recover-muted" "text-recover" "bg-recover" "Recovering" "Loading last save..."
  | CANCELLED => RunStyle "bg-muted-bg" "text-muted" "bg-muted" "Cancelled" "Stopped by user"
  | COMPLETED => RunStyle "bg-info-muted" "text-info" "bg-info" "Done" "Training finished"
  end.

Record ckpt_style : Type := CkptStyle { cs_bg : string; cs_text : string }.

Definition CKPT_STATE_CONFIG (s : checkpoint_state) : ckpt_style :=
  match s with
  | CPENDING => CkptStyle "bg-muted-bg" "text-muted"
  | CIN_PROGRESS => CkptStyle "bg-warn-muted" "text-warn"
  | CCOMMITTED => CkptStyle "bg-ok-muted" "text-ok"
  | CFAILED => CkptStyle "bg-err-muted" "text-err"
  end.

(** A [Record<string, string>]: [None] for a missing key. *)
Definition WORKER_DOT (status : string) : option string :=
  list_to_map (M := gmap string string)
    [("ACTIVE", "bg-ok"); ("active", "bg-ok"); ("DEAD", "bg-err"); ("dead", "bg-err");
     ("DRAINING", "bg-warn"); ("IDLE", "bg-muted"); ("idle", "bg-muted")] !! status.

(** ** Formatters *)

Definition sizes : list string := ["B"; "KB"; "MB"; "GB"; "TB"].

(** [sizes[i]] in a template: an index that is not one of the array's is [undefined]. *)
Definition size_at (i : num) : string :=
  match to_int i with
  | Some z => if z <? 0 then "undefined" else default "undefined" (sizes !! Z.to_nat z)
  | None => "undefined"
  end.

Definition formatBytes `{MathLib} (bytes : num) : string :=
  if eqb bytes (of_Z 0) then "0 B"
  else
    let i := floor (div (js_log bytes) (js_log (of_Z 1024))) in
    to_fixed 1 (div bytes (pow2k 10 i)) +:+ " " +:+ size_at i.

(** [new Date(iso).toLocaleString(...)] inside [try { } catch { return iso }]. *)
Definition try_format (attempt : exn + string) (iso : string) : string :=
  match attempt with inr s => s | inl _ => iso end.
Definition formatDate `{Intl} (iso : string) : string :=
  try_format (inr (to_locale locale_datetime (date_ms iso))) iso.
Definition formatTime `{Intl} (iso : string) : string :=
  try_format (inr (to_locale locale_hms (date_ms iso))) iso.

Definition formatUptime (seconds : num) : string :=
  let d := floor (div seconds (of_Z 86400)) in
  let h := floor (div (rem seconds (of_Z 86400)) (of_Z 3600)) in
  let m := floor (div (rem seconds (of_Z 3600)) (of_Z 60)) in
  if gtb d (of_Z 0)
  then to_string d +:+ "d " +:+ to_string h +:+ "h " +:+ to_string m +:+ "m"
  else if gtb h (of_Z 0)
  then to_string h +:+ "h " +:+ to_string m +:+ "m"
  else to_string m +:+ "m".

(** The character U+2026 *)
Definition ellipsis : string := "…".

Definition shortId (id : string) (len : Z) : string :=
  if len <? str_length id then str_slice 0 (Some len) id +:+ ellipsis else id.
(** [shortId(id)] with the default length *)
Definition shortId_default (id : string) : string := shortId id 12.

(** ** Properties of the formatters *)

Lemma size_at_of_Z i : 0 <= i < 5 -> sizes !! Z.to_nat i = Some (size_at (of_Z i)).
Proof.
  intros Hi.
  assert (i = 0 \/ i = 1 \/ i = 2 \/ i = 3 \/ i = 4) as [->|[->|[->|[->| ->]]]] by lia; reflexivity.
Qed.

Lemma to_int_of_Z i : -200 < i < 200 -> to_int (of_Z i) = Some i.
Proof.
  intros Hi.
  assert (T : forallb (fun n => bool_decide (to_int (of_Z (Z.of_nat n - 200)) = Some (Z.of_nat n - 200)))
                (seq 0 400) = true) by (vm_compute; reflexivity).
  rewrite forallb_forall in T. specialize (T (Z.to_nat (i + 200))).
  assert (I : In (Z.to_nat (i + 200)) (seq 0 400)) by (apply in_seq; lia).
  apply T, bool_decide_eq_true in I. by rewrite Z2Nat.id, Z.add_simpl_r in I by lia.
Qed.

(** Outside [0..4] the unit is printed as [undefined]. *)
Lemma size_at_out i : -200 < i < 0 \/ 5 <= i < 200 -> size_at (of_Z i) = "undefined".
Proof.
  intros Hi. unfold size_at. rewrite to_int_of_Z by lia.
  destruct (Z.ltb_spec i 0); [done|].
  rewrite lookup_ge_None_2; [done|]. cbn. lia.
Qed.

Lemma pow2k_1024 i : 0 <= i < 50 -> pow2k 10 (of_Z i) = Fin 1 (10 * i).
Proof.
  intros Hi. pose proof (to_int_of_Z i ltac:(lia)) as T.
  destruct (of_Z i) as [| |m e]; cbn [to_int] in T; try discriminate.
  cbn [pow2k]. destruct (0 <=? e); [|discriminate]. injection T as ->.
  apply rnd_dyadic_exact; lia || done.
Qed.

(** The quotient by a power of 1024 is exact, and so is its rounding to a decimal. *)
Lemma to_fixed_1024 b i :
  0 < b < 2 ^ 53 -> 0 <= i <= 5 ->
  to_fixed 1 (div (of_Z b) (Fin 1 (10 * i)))
    = fixed_string 1 ((20 * b + 1024 ^ i) / (2 * 1024 ^ i)).
Proof.
  intros Hb Hi. rewrite of_Z_exact by lia.
  destruct (fin_pos_form b 0) as (m & k & -> & ? & ? & ? & E); [lia|].
  rewrite Z.add_0_l. cbn [div].
  change (1 =? 0) with false. change (Z.sgn 1) with 1. change (Z.abs 1) with 1. cbn iota.
  rewrite !Z.mul_1_l.
  assert (Hk : 0 < 2 ^ k) by (apply Z.pow_pos_nonneg; lia).
  assert (k < 53) by (apply (Z.pow_lt_mono_r_iff 2); [lia|lia|nia]).
  replace (rnd _ _) with (rnd_dyadic m (k - 10 * i))
    by (unfold rnd_dyadic; do 2 f_equal; lia).
  rewrite rnd_dyadic_exact; [|nia|done|lia].
  set (e := k - 10 * i). cbn [to_fixed].
  pose proof (up_pos e) as U1. pose proof (up_pos (- e)) as U2.
  assert (P : 1024 ^ i = 2 ^ (10 * i)) by (change 1024 with (2 ^ 10); by rewrite Z.pow_mul_r by lia).
  assert (X : b * up (- e) = m * up e * 1024 ^ i).
  { rewrite E, P. pose proof (up_shift (- (10 * i)) k ltac:(lia)) as S.
    replace (- (10 * i) + k) with e in S by lia.
    rewrite Z.opp_involutive, (up_neg (- (10 * i))), (up_nonneg (10 * i)) in S by lia. nia. }
  assert (H1024 : 0 < 1024 ^ i) by (apply Z.pow_pos_nonneg; lia).
  rewrite Z.abs_eq by lia.
  destruct (Z.leb_spec (10 ^ 21 * up (- e)) (m * up e)) as [B|_].
  { exfalso. assert (2 ^ 53 < 10 ^ 21) by (vm_compute; done). nia. }
  destruct (Z.ltb_spec m 0); [lia|]. f_equal.
  unfold fixed_units. rewrite Z.abs_eq by lia. change (10 ^ 1) with 10.
  rewrite <- (Z.div_mul_cancel_r (2 * m * up e * 10 + up (- e)) (2 * up (- e)) (1024 ^ i)) by lia.
  rewrite <- (Z.div_mul_cancel_r (20 * b + 1024 ^ i) (2 * 1024 ^ i) (up (- e))) by lia.
  f_equal; nia.
Qed.

Lemma log2_1024 b : 0 < b -> 1024 ^ (Z.log2 b / 10) <= b < 1024 ^ (Z.log2 b / 10 + 1).
Proof.
  intros Hb. pose proof (Z.log2_spec b Hb) as [L U]. pose proof (Z.log2_nonneg b).
  change 1024 with (2 ^ 10). rewrite <- !Z.pow_mul_r by (try apply Z.add_nonneg_nonneg; try apply Z.div_pos; lia).
  pose proof (Z.div_mod (Z.log2 b) 10 ltac:(lia)). pose proof (Z.mod_pos_bound (Z.log2 b) 10 ltac:(lia)).
  split.
  - eapply Z.le_trans; [|exact L]. apply Z.pow_le_mono_r; lia.
  - eapply Z.lt_le_trans; [exact U|]. apply Z.pow_le_mono_r; lia.
Qed.

Lemma eqb_of_Z_0 b : 0 < b < 2 ^ 53 -> eqb (of_Z b) (of_Z 0) = false.
Proof.
  intros Hb. rewrite of_Z_exact by lia.
  destruct (fin_pos_form b 0) as (m & k & -> & ? & ? & ? & E); [lia|].
  unfold eqb. change (of_Z 0) with (Fin 0 0). cbn [cmp]. rewrite Z.add_0_l, Z.min_r by lia.
  rewrite !Z.sub_0_r, Z.mul_0_l. assert (0 < 2 ^ k) by (apply Z.pow_pos_nonneg; lia).
  destruct (Z.compare_spec (m * 2 ^ k) 0); nia || done.
Qed.

(** [formatBytes] of a whole number of bytes below 1 TiB picks the unit [1024^i]
    with [1024^i <= b < 1024^(i+1)] and prints [b / 1024^i] rounded half up to one
    decimal, with no other rounding error. *)
Theorem formatBytes_correct `{MathLibLaws} b :
  1 <= b < 2 ^ 40 ->
  let i := Z.log2 b / 10 in
  1024 ^ i <= b < 1024 ^ (i + 1) /\
  exists u, sizes !! Z.to_nat i = Some u /\
    formatBytes (of_Z b) = fixed_string 1 ((20 * b + 1024 ^ i) / (2 * 1024 ^ i)) +:+ " " +:+ u.
Proof.
  intros Hb i. split; [apply log2_1024; lia|].
  assert (Hi : 0 <= i < 4).
  { pose proof (Z.log2_nonneg b). assert (Z.log2 b < 40) by (apply Z.log2_lt_pow2; lia).
    split; [apply Z.div_pos; lia|apply Z.div_lt_upper_bound; lia]. }
  exists (size_at (of_Z i)). split; [apply size_at_of_Z; lia|].
  unfold formatBytes. rewrite eqb_of_Z_0, log_1024_floor by lia. fold i.
  rewrite pow2k_1024, to_fixed_1024 by lia. done.
Qed.

(** from 1 PiB on, and for a positive fraction of a byte, [formatBytes] prints the
    unit [undefined]: the index leaves the table of five units. *)
Theorem formatBytes_undefined_unit `{MathLibLaws} :
  (forall b, 2 ^ 50 <= b < 2 ^ 53 ->
     exists p, formatBytes (of_Z b) = p +:+ " " +:+ "undefined") /\
  (forall m e, 0 < m < 2 ^ 53 -> -1074 <= e -> m * up e < up (- e) ->
     exists p, formatBytes (fin m e) = p +:+ " " +:+ "undefined").
Proof.
  split.
  - intros b Hb. unfold formatBytes. rewrite eqb_of_Z_0, log_1024_floor by lia.
    assert (50 <= Z.log2 b < 53).
    { split; [apply Z.log2_le_pow2; lia|apply Z.log2_lt_pow2; lia]. }
    replace (Z.log2 b / 10) with 5 by (apply Z.div_unique with (Z.log2 b - 50); lia).
    eexists. by rewrite (size_at_out 5) by lia.
  - intros m e Hm He Hlt. destruct (log_1024_fraction m e Hm He Hlt) as (k & Hk & E).
    unfold formatBytes. rewrite E, (size_at_out (- k)) by lia.
    destruct (fin_pos_form m e) as (m' & k' & -> & Hm' & Hk' & _ & _); [lia|].
    replace (eqb (Fin m' (e + k')) (of_Z 0)) with false; [by eexists|].
    symmetry. unfold eqb. change (of_Z 0) with (Fin 0 0). cbn [cmp].
    rewrite Z.mul_0_l.
    assert (0 < 2 ^ (e + k' - Z.min (e + k') 0)) by (apply Z.pow_pos_nonneg; lia).
    destruct (Z.compare_spec (m' * 2 ^ (e + k' - Z.min (e + k') 0)) 0); nia || done.
Qed.

(** [formatUptime] of a whole number of seconds prints its exact days, hours and
    minutes, leaving out leading zero fields: the fields are in range and lose less
    than a minute. *)
Theorem formatUptime_correct s :
  0 <= s < 2 ^ 52 ->
  exists d h m,
    d * 86400 + h * 3600 + m * 60 <= s < d * 86400 + h * 3600 + m * 60 + 60 /\
    0 <= d /\ 0 <= h < 24 /\ 0 <= m < 60 /\
    formatUptime (of_Z s) =
      (if 0 <? d then dec d +:+ "d " +:+ dec h +:+ "h " +:+ dec m +:+ "m"
       else if 0 <? h then dec h +:+ "h " +:+ dec m +:+ "m"
       else dec m +:+ "m").
Proof.
  intros Hs.
  pose proof (Z.div_mod s 86400 ltac:(lia)). pose proof (Z.mod_pos_bound s 86400 ltac:(lia)).
  pose proof (Z.div_mod s 3600 ltac:(lia)). pose proof (Z.mod_pos_bound s 3600 ltac:(lia)).
  exists (s / 86400), (s mod 86400 / 3600), (s mod 3600 / 60).
  assert (E : s mod 86400 mod 3600 = s mod 3600) by (apply Z.mod_mod_divide; by exists 24).
  pose proof (Z.div_mod (s mod 86400) 3600 ltac:(lia)) as D.
  pose proof (Z.div_mod (s mod 3600) 60 ltac:(lia)).
  pose proof (Z.mod_pos_bound (s mod 3600) 60 ltac:(lia)). rewrite E in D.
  assert (0 <= s / 86400) by (apply Z.div_pos; lia).
  assert (0 <= s mod 86400 / 3600) by (apply Z.div_pos; lia).
  assert (0 <= s mod 3600 / 60) by (apply Z.div_pos; lia).
  split_and!; try lia.
  unfold formatUptime. rewrite !rem_of_Z_nonneg, !floor_div_nonneg by lia.
  rewrite !gtb_of_Z_0, !to_string_of_Z by lia. done.
Qed.

(** [shortId] leaves an id of at most [len] units unchanged and otherwise keeps
    exactly its first [len] units before the ellipsis; applying it again changes
    nothing. *)
Theorem shortId_correct id len :
  0 <= len ->
  (str_length id <= len -> shortId id len = id) /\
  (len < str_length id -> exists p t, id = p +:+ t /\ str_length p = len /\
     shortId id len = p +:+ ellipsis) /\
  shortId (shortId id len) len = shortId id len.
Proof.
  intros Hl.
  assert (L : forall p, str_length p = len -> shortId (p +:+ ellipsis) len = p +:+ ellipsis).
  { intros p Hp. unfold shortId.
    assert (str_length (p +:+ ellipsis) = len + 3) as ->.
    { unfold str_length in *. rewrite units_app, length_app. cbn. lia. }
    destruct (Z.ltb_spec len (len + 3)); [|lia].
    rewrite str_slice_prefix, units_app, take_app_le by (unfold str_length in Hp; lia).
    rewrite take_ge by (unfold str_length in Hp; lia). by rewrite of_units_units. }
  assert (C : len < str_length id -> exists p t, id = p +:+ t /\ str_length p = len /\
     shortId id len = p +:+ ellipsis).
  { intros H. unfold shortId. destruct (Z.ltb_spec len (str_length id)); [|lia].
    rewrite str_slice_prefix by done.
    exists (of_units (take (Z.to_nat len) (units id))), (of_units (drop (Z.to_nat len) (units id))).
    unfold str_length in *. rewrite <- of_units_app, take_drop, of_units_units, units_of_units.
    split_and!; [done| |done]. rewrite length_take. lia. }
  split_and!; [|done|].
  - intros H. unfold shortId. destruct (Z.ltb_spec len (str_length id)); [lia|done].
  - destruct (Z.le_gt_cases (str_length id) len) as [H|H].
    + unfold shortId. by destruct (Z.ltb_spec len (str_length id)); [lia|]; destruct (Z.ltb_spec len (str_length id)); [lia|].
    + destruct (C H) as (p & t & _ & Hp & ->). by apply L.
Qed.

(** an unparsable date is shown as [Invalid Date]: the fallback that would show
    the original text is never taken, by [formatDate] or by [formatTime]. *)
Theorem formatDate_invalid `{Intl} iso :
  date_ms iso = None -> formatDate iso = invalid_date /\ formatTime iso = invalid_date.
Proof. intros E. unfold formatDate, formatTime. by rewrite E. Qed.

Lemma formatBytes_correct_witness :
  formatBytes (of_Z 3985408) = "3.8 MB" /\
  exists u, sizes !! Z.to_nat (Z.log2 3985408 / 10) = Some u.
Proof.
  split; [vm_compute; reflexivity|].
  destruct (formatBytes_correct 3985408 ltac:(lia)) as [_ (u & Hu & _)]. by exists u.
Defined.

Lemma formatBytes_undefined_unit_witness :
  exists p, formatBytes (of_Z (2 ^ 50)) = p +:+ " " +:+ "undefined".
Proof. apply (proj1 formatBytes_undefined_unit). lia. Defined.

Lemma formatUptime_correct_witness :
  formatUptime (of_Z 93784) = "1d 2h 3m" /\ exists d h m, 0 <= d /\ 0 <= h < 24 /\ 0 <= m < 60.
Proof.
  split; [vm_compute; reflexivity|].
  destruct (formatUptime_correct 93784 ltac:(lia)) as (d & h & m & ? & ? & ? & ? & _).
  by exists d, h, m.
Defined.

Lemma shortId_correct_witness :
  exists p t, "run-0123456789abcdef" = p +:+ t /\ str_length p = 12 /\
    shortId "run-0123456789abcdef" 12 = p +:+ ellipsis.
Proof. apply (proj1 (proj2 (shortId_correct "run-0123456789abcdef" 12 ltac:(lia)))). reflexivity. Defined.

Lemma formatDate_invalid_witness : formatDate "not a date" = invalid_date.
Proof. apply (formatDate_invalid "not a date"). reflexivity. Defined.
