(* ===== verification/Theme.v ===== *)
(** * The theme: [frontend/tailwind.config.js] with the variables of [frontend/src/index.css]

    The design tokens that the pages' class names refer to: nested tables of colors, fonts,
    animations and shadows, some of them CSS variables with a value for each mode. How
    Tailwind turns a class name into a rule is not modelled; below are the relations
    between the tables: every variable has a value in both modes, the translucent shades
    of a color are shades of that color, and the styles of [design.ts] name colors that
    exist. *)

From Stdlib Require Import Ascii.
From S2P Require Import Prelude JsString Types Design.

Inductive token : Type := Value (s : string) | Values (l : list string) | Table (entries : list (string * token)).

Definition colors : list (string * token) :=
  [("surface", Table
     [("0", Value "rgb(var(--surface-0) / <alpha-value>)");
      ("1", Value "rgb(var(--surface-1) / <alpha-value>)");
      ("2", Value "rgb(var(--surface-2) / <alpha-value>)");
      ("3", Value "rgb(var(--surface-3) / <alpha-value>)");
      ("4", Value "rgb(var(--surface-4) / <alpha-value>)")]);
   ("line", Table
     [("DEFAULT", Value "rgb(var(--line) / <alpha-value>)");
      ("subtle", Value "rgb(var(--line-subtle) / <alpha-value>)");
      ("emphasis", Value "rgb(var(--line-emphasis) / <alpha-value>)")]);
   ("txt", Table
     [("1", Value "rgb(var(--txt-1) / <alpha-value>)");
      ("2", Value "rgb(var(--txt-2) / <alpha-value>)");
      ("3", Value "rgb(var(--txt-3) / <alpha-value>)")]);
   ("brand", Table
     [("blue", Value "#14532d"); ("violet", Value "#166534"); ("pink", Value "#ca8a04"); ("cyan", Value "#22d3ee")]);
   ("ok", Table [("DEFAULT", Value "#10b981"); ("muted", Value "rgba(16,185,129,0.12)"); ("soft", Value "rgba(16,185,129,0.25)")]);
   ("warn", Table [("DEFAULT", Value "#f59e0b"); ("muted", Value "rgba(245,158,11,0.12)"); ("soft", Value "rgba(245,158,11,0.25)")]);
   ("err", Table [("DEFAULT", Value "#ef4444"); ("muted", Value "rgba(239,68,68,0.12)"); ("soft", Value "rgba(239,68,68,0.25)")]);
   ("info", Table [("DEFAULT", Value "#3b82f6"); ("muted", Value "rgba(59,130,246,0.12)"); ("soft", Value "rgba(59,130,246,0.25)")]);
   ("recover", Table [("DEFAULT", Value "#f97316"); ("muted", Value "rgba(249,115,22,0.12)")]);
   ("muted", Table [("DEFAULT", Value "#71717a"); ("bg", Value "rgba(113,113,122,0.10)")])].

Definition theme_extend : list (string * token) :=
  [("colors", Table colors);
   ("fontFamily", Table
     [("sans", Values ["Inter"; "system-ui"; "-apple-system"; "sans-serif"]);
      ("serif", Values ["Playfair Display"; "Georgia"; "Times New Roman"; "serif"]);
      ("mono", Values ["JetBrains Mono"; "Fira Code"; "ui-monospace"; "monospace"])]);
   ("fontSize", Table [("2xs", Table [("size", Value "0.625rem"); ("lineHeight", Value "0.875rem")])]);
   ("borderRadius", Table [("2xl", Value "1rem"); ("3xl", Value "1.5rem")]);
   ("animation", Table
     [("gradient", Value "gradient 8s ease-in-out infinite");
      ("float", Value "float 3s ease-in-out infinite");
      ("pulse-slow", Value "pulse 3s cubic-bezier(0.4, 0, 0.6, 1) infinite")]);
   ("keyframes", Table
     [("gradient", Table
        [("0%, 100%", Table [("backgroundPosition", Value "0% 50%")]);
         ("50%", Table [("backgroundPosition", Value "100% 50%")])]);
      ("float", Table
        [("0%, 100%", Table [("transform", Value "translateY(0px)")]);
         ("50%", Table [("transform", Value "translateY(-6px)")])])]);
   ("backgroundImage", Table [("gradient-radial", Value "radial-gradient(var(--tw-gradient-stops))")]);
   ("boxShadow", Table
     [("glow-sm", Value "var(--shadow-glow-sm)");
      ("glow", Value "var(--shadow-glow)");
      ("glow-lg", Value "var(--shadow-glow-lg)");
      ("glass", Value "var(--shadow-glass)")])].

(** [:root] and [.dark] *)
Definition root_variables : list (string * string) :=
  [("--surface-0", "255 255 255"); ("--surface-1", "249 250 251"); ("--surface-2", "243 244 246");
   ("--surface-3", "229 231 235"); ("--surface-4", "209 213 219");
   ("--line", "229 231 235"); ("--line-subtle", "243 244 246"); ("--line-emphasis", "209 213 219");
   ("--txt-1", "17 24 39"); ("--txt-2", "75 85 99"); ("--txt-3", "156 163 175");
   ("--shadow-glass", "0 8px 32px rgba(0, 0, 0, 0.06)");
   ("--shadow-glow-sm", "0 0 15px rgba(22, 101, 52, 0.08)");
   ("--shadow-glow", "0 0 30px rgba(22, 101, 52, 0.12)");
   ("--shadow-glow-lg", "0 0 60px rgba(22, 101, 52, 0.15)");
   ("--grid-line", "rgba(22, 101, 52, 0.15)")].
Definition dark_variables : list (string * string) :=
  [("--surface-0", "11 11 16"); ("--surface-1", "17 17 24"); ("--surface-2", "25 25 34");
   ("--surface-3", "34 34 46"); ("--surface-4", "44 44 58");
   ("--line", "31 31 46"); ("--line-subtle", "22 22 34"); ("--line-emphasis", "46 46 66");
   ("--txt-1", "238 238 242"); ("--txt-2", "157 157 181"); ("--txt-3", "94 94 120");
   ("--shadow-glass", "0 8px 32px rgba(0, 0, 0, 0.3)");
   ("--shadow-glow-sm", "0 0 15px rgba(22, 101, 52, 0.15)");
   ("--shadow-glow", "0 0 30px rgba(22, 101, 52, 0.2)");
   ("--shadow-glow-lg", "0 0 60px rgba(22, 101, 52, 0.25)");
   ("--grid-line", "rgba(22, 101, 52, 0.12)")].

(** ** Reading the tables *)

Fixpoint assoc {A} (k : string) (l : list (string * A)) : option A :=
  match l with [] => None | (k', x) :: l => if String.eqb k k' then Some x else assoc k l end.

(** A path through the tables *)
Fixpoint lookup_token (path : list string) (t : token) : option string :=
  match path, t with
  | [], Value s => Some s
  | k :: path, Table l => match assoc k l with Some t => lookup_token path t | None => None end
  | _, _ => None
  end.

Fixpoint values (t : token) : list string :=
  match t with
  | Value s => [s]
  | Values l => l
  | Table l => (fix go l := match l with [] => [] | (_, t) :: l => values t ++ go l end) l
  end.

(** The variables that a value refers to: what stands between [var(] and [)] *)
Fixpoint until (stop : chr) (l : list chr) : list chr :=
  match l with [] => [] | c :: l => if Ascii.eqb c stop then [] else c :: until stop l end.
Fixpoint variables (l : list chr) : list string :=
  match l with
  | [] => []
  | c :: t => if starts_with_units (units "var(") l then of_units (until ")"%char (drop 4 l)) :: variables t else variables t
  end.

Definition channels (l : list string) : option (list Z) := mapM (fun w => radix_value 10 (units w)) l.
(** The channels of [#rrggbb], of [rgba(r,g,b,a)] and of a variable *)
Definition hex_channels (s : string) : option (list Z) :=
  match units s with
  | ["#"%char; a; b; c; d; e; f] => mapM (radix_value 16) [[a; b]; [c; d]; [e; f]]
  | _ => None
  end.
Definition rgba_channels (s : string) : option (list Z) :=
  if starts_with s "rgba(" then channels (take 3 (split ","%char (str_slice 5 None s))) else None.
Definition css_channels (s : string) : option (list Z) := channels (split " "%char s).

Definition color (family shade : string) : option string := lookup_token [family; shade] (Table colors).

Definition tokens : list string := values (Table theme_extend).
(** The one variable that Tailwind itself sets *)
Definition own_variables : list string := filter (fun v => v <> "--tw-gradient-stops") (tokens ≫= fun s => variables (units s)).

(** A color that is three bytes *)
Definition is_color (o : option string) : bool :=
  match o ≫= css_channels with
  | Some l => (Z.of_nat (length l) =? 3) && forallb (fun c => (0 <=? c) && (c <=? 255)) l
  | None => false
  end.

(** ** Properties *)

(** Every variable that the theme refers to has a value of its own in the light and in the
    dark mode, the two modes define the same variables, once each, and those of surfaces,
    lines and texts are colors; every animation that is not one of Tailwind's has its
    keyframes. *)
Theorem theme_variables :
  (forall v, v ∈ own_variables -> is_Some (assoc v root_variables) /\ is_Some (assoc v dark_variables)) /\
  map fst dark_variables = map fst root_variables /\ NoDup (map fst root_variables) /\
  (forall v, v ∈ (values (Table (take 3 colors)) ≫= fun s => variables (units s)) ->
     is_color (assoc v root_variables) = true /\ is_color (assoc v dark_variables) = true) /\
  (forall name, name ∈ ["gradient"; "float"] ->
     is_Some (lookup_token ["animation"; name] (Table theme_extend)) /\
     exists frames, lookup_token (["keyframes"; name] ++ frames) (Table theme_extend) <> None).
Proof.
  split_and!.
  - apply Forall_forall, (bool_decide_unpack _). by vm_compute.
  - reflexivity.
  - apply (bool_decide_unpack _). by vm_compute.
  - apply Forall_forall, (bool_decide_unpack _). by vm_compute.
  - intros name [->|[->|[]%not_elem_of_nil]%elem_of_cons]%elem_of_cons; (split; [by eexists|]).
    + by exists ["50%"; "backgroundPosition"].
    + by exists ["50%"; "transform"].
Qed.

(** The translucent shades of the state colors are their colors at less than full opacity. *)
Definition state_families : list (string * list string) :=
  [("ok", ["muted"; "soft"]); ("warn", ["muted"; "soft"]); ("err", ["muted"; "soft"]); ("info", ["muted"; "soft"]);
   ("recover", ["muted"]); ("muted", ["bg"])].
Lemma state_shades family shades shade : (family, shades) ∈ state_families -> shade ∈ shades ->
  exists c, color family "DEFAULT" ≫= hex_channels = Some c /\ color family shade ≫= rgba_channels = Some c.
Proof.
  intros I J. assert (A : Forall (fun e : string * list string => Forall (fun shade =>
      is_Some (color e.1 "DEFAULT" ≫= hex_channels) /\
      color e.1 shade ≫= rgba_channels = color e.1 "DEFAULT" ≫= hex_channels) e.2) state_families)
    by (apply (bool_decide_unpack _); by vm_compute).
  rewrite Forall_forall in A. specialize (A _ I). cbn [fst snd] in A. rewrite Forall_forall in A.
  destruct (A _ J) as [[c E] ->]. by exists c.
Qed.

(** The badges of runs and checkpoints are drawn in the colors of one family each: the text
    and the dot in the color, the background in its translucent shade. *)
Definition shade_of (family : string) : string := if String.eqb family "muted" then "bg" else "muted".
Definition badge_of (family bg text : string) : bool :=
  (bg =? "bg-" +:+ family +:+ "-" +:+ shade_of family)%string && (text =? "text-" +:+ family)%string.
Lemma badges_in_theme :
  (forall s, exists family shades, (family, shades) ∈ state_families /\ shade_of family ∈ shades /\
     badge_of family (rs_bg (RUN_STATE_CONFIG s)) (rs_text (RUN_STATE_CONFIG s)) = true /\
     rs_dot (RUN_STATE_CONFIG s) = "bg-" +:+ family) /\
  (forall s, exists family shades, (family, shades) ∈ state_families /\ shade_of family ∈ shades /\
     badge_of family (cs_bg (CKPT_STATE_CONFIG s)) (cs_text (CKPT_STATE_CONFIG s)) = true).
Proof.
  split; intros s.
  - exists (str_slice 5 None (rs_text (RUN_STATE_CONFIG s))).
    exists (default [] (assoc (str_slice 5 None (rs_text (RUN_STATE_CONFIG s))) state_families)).
    destruct s; split_and!; try (apply (bool_decide_unpack _); vm_compute; done); reflexivity.
  - exists (str_slice 5 None (cs_text (CKPT_STATE_CONFIG s))).
    exists (default [] (assoc (str_slice 5 None (cs_text (CKPT_STATE_CONFIG s))) state_families)).
    destruct s; split_and!; try (apply (bool_decide_unpack _); vm_compute; done); reflexivity.
Qed.
