(* ===== verification/Ui.v ===== *)
(** * Shared UI components: [frontend/src/components/ui.tsx] *)

From S2P Require Import Prelude JsString JsNum Html Types Host Async Design.

Section Ui.
Context {M : Type}.
#[local] Abbreviation node := (node M).

(** [size?: 'sm' | 'md'] *)
Inductive badge_size : Type := Sm | Md.

Definition RunBadge (state : run_state) (size : badge_size) : node :=
  let cfg := RUN_STATE_CONFIG state in
  let sizeClass := match size with
                   | Md => "px-3 py-1 text-sm"
                   | Sm => "px-2.5 py-0.5 text-xs"
                   end in
  El "span" [cls ("badge " +:+ sizeClass +:+ " " +:+ cfg.(rs_bg) +:+ " " +:+ cfg.(rs_text));
             Attr "title" cfg.(rs_desc)]
    [El "span" [cls ("w-1.5 h-1.5 rounded-full " +:+ cfg.(rs_dot))] [];
     Txt cfg.(rs_label)].

Definition CkptBadge (state : checkpoint_state) : node :=
  let cfg := CKPT_STATE_CONFIG state in
  El "span" [cls ("badge " +:+ cfg.(cs_bg) +:+ " " +:+ cfg.(cs_text))]
    [Txt (if bool_decide (state = CIN_PROGRESS) then "Saving..."
          else if bool_decide (state = CCOMMITTED) then "Saved"
          else checkpoint_state_string state)].

(** A numeric [value] is given as its text. *)
Definition MetricCard (label value : string) (hint valueColor : option string) : node :=
  El "div" [cls "card px-4 py-3.5"]
    (El "p" [cls "metric-label"] [Txt label] ::
     El "p" [cls ("metric-value " +:+ default "" valueColor)] [Txt value] ::
     when_text hint (fun hint => El "p" [cls "helper"] [Txt hint])).

(** [action] is a React node: the elements it renders. *)
Definition SectionHeader (title : string) (subtitle : option string) (action : list node) : node :=
  El "div" [cls "flex items-start justify-between mb-6"]
    (El "div" []
       (El "h2" [cls "page-header"] [Txt title] ::
        when_text subtitle (fun subtitle => El "p" [cls "page-subtitle"] [Txt subtitle])) ::
     action).

Definition EmptyState (message : string) (action : list node) : node :=
  El "div" [cls "flex flex-col items-center justify-center py-20 text-txt-3"]
    (El "p" [cls "text-sm"] [Txt message] ::
     match action with [] => [] | _ => [El "div" [cls "mt-3"] action] end).

Definition ErrorBanner (message : string) : node :=
  El "div" [cls "mb-4 text-sm text-err bg-err-muted border border-err/20 rounded-xl px-4 py-3"]
    [Txt message].

Definition Loading (text : string) : node :=
  El "div" [cls "flex items-center justify-center py-20 text-txt-3 text-sm gap-2"]
    [El "svg" [cls "animate-spin h-4 w-4 text-brand-violet";
               Attr "xmlns" "http://www.w3.org/2000/svg"; Attr "fill" "none";
               Attr "viewBox" "0 0 24 24"]
       [El "circle" [cls "opacity-25"; Attr "cx" "12"; Attr "cy" "12"; Attr "r" "10";
                     Attr "stroke" "currentColor"; Attr "strokeWidth" "4"] [];
        El "path" [cls "opacity-75"; Attr "fill" "currentColor";
                   Attr "d" "M4 12a8 8 0 018-8V0C5.373 0 0 5.373 0 12h4z"] []];
     Txt text].

Definition LiveDot : node :=
  El "span" [cls "relative flex h-2 w-2"]
    [El "span" [cls "animate-ping absolute inline-flex h-full w-full rounded-full bg-ok opacity-75"] [];
     El "span" [cls "relative inline-flex rounded-full h-2 w-2 bg-ok"] []].

Definition Explainer (children : list node) : node :=
  El "p" [cls "text-xs text-txt-3 leading-relaxed bg-surface-2 rounded-xl px-3.5 py-2.5 border border-line-subtle"]
    children.

(** The components of this file hold no handler of their own. *)
Lemma offers_RunBadge s z : offers (RunBadge s z) = [].
Proof. reflexivity. Qed.
Lemma offers_CkptBadge s : offers (CkptBadge s) = [].
Proof. reflexivity. Qed.
Lemma offers_MetricCard l v h c : offers (MetricCard l v h c) = [].
Proof. unfold MetricCard. destruct h as [h|]; cbn; [|done]. by destruct (h =? "")%string. Qed.
Lemma offers_ErrorBanner m : offers (ErrorBanner m) = [].
Proof. reflexivity. Qed.
Lemma offers_Loading t : offers (Loading t) = [].
Proof. reflexivity. Qed.
Lemma offers_SectionHeader t s a : offers (SectionHeader t s a) = offers_list a.
Proof.
  unfold SectionHeader. rewrite offers_el, offers_list_cons, offers_el. cbn [own_clicks].
  destruct s as [s|]; [|done]. cbn. by destruct (s =? "")%string.
Qed.
Lemma offers_EmptyState m a : offers (EmptyState m a) = offers_list a.
Proof. destruct a; [done|]. cbn. by rewrite !app_nil_r. Qed.

End Ui.

(** The text of a badge identifies the state it shows. *)
Theorem badge_text_injective (s s' : run_state) (z z' : badge_size) (c c' : checkpoint_state) :
  (text (RunBadge (M := unit) s z) = text (RunBadge (M := unit) s' z') -> s = s') /\
  (text (CkptBadge (M := unit) c) = text (CkptBadge (M := unit) c') -> c = c').
Proof. split; [destruct s, s'|destruct c, c']; try done; discriminate. Qed.

Lemma badge_text_injective_witness :
  text (RunBadge (M := unit) FAILED Sm) = text (RunBadge (M := unit) FAILED Md) /\ FAILED = FAILED.
Proof.
  split; [reflexivity|].
  apply (proj1 (badge_text_injective FAILED FAILED Sm Md CPENDING CPENDING)). reflexivity.
Defined.
