(* ===== verification/ControlPlane.v ===== *)
(** * The control plane the console talks to

    The part of the Python control plane that answers the console's action buttons:
    the run state machine ([state_machine.py]), the coordinator's run and checkpoint
    records ([coordinator.py]) and the action endpoints with the event each publishes
    ([api/rest.py]). The clock and the generated identifiers are arguments. The records
    keep the fields these operations read or write; logging and the read-only health
    call of the data plane in [trigger_checkpoint] are left out. *)

From S2P Require Import Prelude JsString JsNum Types.

(** ** The run state machine *)
Module Fsm.

Definition VALID_TRANSITIONS (s : run_state) : list run_state :=
  match s with
  | CREATED => [RUNNING; CANCELLED]
  | RUNNING => [CHECKPOINTING; FAILED; CANCELLED; COMPLETED]
  | CHECKPOINTING => [COMMITTED; FAILED; RUNNING]
  | COMMITTED => [RUNNING; COMPLETED; FAILED]
  | FAILED => [RECOVERING; CANCELLED]
  | RECOVERING => [RUNNING; FAILED; CANCELLED]
  | CANCELLED => []
  | COMPLETED => []
  end.

Record t : Type := Fsm { fsm_state : run_state; history : list (run_state * run_state) }.

Definition init (s : run_state) : t := Fsm s [].

Definition can_transition (m : t) (target : run_state) : bool :=
  bool_decide (target ∈ VALID_TRANSITIONS (fsm_state m)).

(** [Left (current, target)] is the raised [InvalidTransitionError]. *)
Definition transition (m : t) (target : run_state) : (run_state * run_state) + t :=
  if can_transition m target
  then inr (Fsm target (history m ++ [(fsm_state m, target)]))
  else inl (fsm_state m, target).

Definition is_terminal (m : t) : bool := bool_decide (fsm_state m ∈ [CANCELLED; COMPLETED]).

(** The list of valid transitions of [src/ARCHITECTURE.md], line 156 *)
Definition documented_transitions : list (run_state * run_state) :=
  [(CREATED, RUNNING); (RUNNING, CHECKPOINTING); (CHECKPOINTING, COMMITTED); (COMMITTED, RUNNING); (RUNNING, COMPLETED);
   (COMMITTED, COMPLETED); (RUNNING, FAILED); (CHECKPOINTING, FAILED); (FAILED, RECOVERING); (RECOVERING, RUNNING);
   (CREATED, CANCELLED); (RUNNING, CANCELLED)].
(** Those of the program that it leaves out *)
Definition undocumented : list (run_state * run_state) :=
  [(CHECKPOINTING, RUNNING); (COMMITTED, FAILED); (FAILED, CANCELLED); (RECOVERING, FAILED); (RECOVERING, CANCELLED)].

(** the documented list is that of the program but for five transitions, which it lacks. *)
Theorem transitions_documented s t :
  t ∈ VALID_TRANSITIONS s <-> (s, t) ∈ documented_transitions \/ (s, t) ∈ undocumented.
Proof. destruct s, t; apply (bool_decide_unpack _); by vm_compute. Qed.

(** The history is a path of valid transitions from [s0] to the current state. *)
Fixpoint path (s0 : run_state) (h : list (run_state * run_state)) (s : run_state) : Prop :=
  match h with
  | [] => s0 = s
  | (a, b) :: h' => a = s0 /\ b ∈ VALID_TRANSITIONS a /\ path b h' s
  end.

Lemma path_snoc s0 h s b :
  path s0 h s -> b ∈ VALID_TRANSITIONS s -> path s0 (h ++ [(s, b)]) b.
Proof.
  revert s0. induction h as [|[x y] h IH]; intros s0 P V; cbn in *; [by subst|].
  destruct P as (-> & Vy & P). split_and!; [done|done|]. by apply IH.
Qed.

Lemma transition_path s0 m target m' :
  path s0 (history m) (fsm_state m) -> transition m target = inr m' ->
  path s0 (history m') (fsm_state m') /\ fsm_state m' = target.
Proof.
  unfold transition, can_transition. intros P H.
  case_bool_decide as V; [|discriminate]. injection H as <-. cbn.
  split; [by apply path_snoc|done].
Qed.

End Fsm.

(** ** The coordinator: persisted records and cached state machines *)
Module Coordinator.

Record run : Type := Run {
  r_state : run_state;
  r_step : Z;
  r_updated : Z;
  r_last_checkpoint : option string;
  r_error : option string
}.

Record checkpoint : Type := Checkpoint { c_run : string; c_step : Z; c_state : checkpoint_state; c_created : Z }.

Record t : Type := Coord {
  kv : gmap string run;
  checkpoints : gmap string checkpoint;
  fsms : gmap string Fsm.t
}.

(** What raises, or the updated run record. *)
Inductive result : Type :=
| KeyError
| InvalidTransition (current target : run_state)
| Ok (r : run).

Definition persist_run (c : t) (run_id : string) (r : run) : t :=
  Coord (<[run_id := r]> (kv c)) (checkpoints c) (fsms c).

(** The state machine is an object shared by every later call: its updated value is
    stored back. *)
Definition ensure_fsm (c : t) (run_id : string) (current : run_state) : Fsm.t * t :=
  match fsms c !! run_id with
  | Some m => (m, c)
  | None => let m := Fsm.init current in
            (m, Coord (kv c) (checkpoints c) (<[run_id := m]> (fsms c)))
  end.
Definition store_fsm (c : t) (run_id : string) (m : Fsm.t) : t :=
  Coord (kv c) (checkpoints c) (<[run_id := m]> (fsms c)).

Definition create_run (c : t) (run_id : string) (now : Z) : run * t :=
  let r := Run CREATED 0 now None None in
  (r, persist_run (store_fsm c run_id (Fsm.init CREATED)) run_id r).

(** The common part of [transition_run] and [set_run_error]: a valid transition
    updates the record with [edit] as well. *)
Definition move (c : t) (run_id : string) (target : run_state) (now : Z)
    (edit : run -> run) : result * t :=
  match kv c !! run_id with
  | None => (KeyError, c)
  | Some status =>
      let '(m, c) := ensure_fsm c run_id (r_state status) in
      match Fsm.transition m target with
      | inl (a, b) => (InvalidTransition a b, c)
      | inr m' =>
          let r := edit (Run target (r_step status) now (r_last_checkpoint status) (r_error status)) in
          (Ok r, persist_run (store_fsm c run_id m') run_id r)
      end
  end.

Definition transition_run (c : t) (run_id : string) (target : run_state) (now : Z) : result * t :=
  move c run_id target now (fun r => r).

Definition set_run_error (c : t) (run_id message : string) (now : Z) : result * t :=
  move c run_id FAILED now
    (fun r => Run (r_state r) (r_step r) (r_updated r) (r_last_checkpoint r) (Some message)).

Definition create_checkpoint (c : t) (run_id checkpoint_id : string) (step now : Z) : result * t :=
  match kv c !! run_id with
  | None => (KeyError, c)
  | Some status =>
      let c := Coord (kv c) (<[checkpoint_id := Checkpoint run_id step CPENDING now]> (checkpoints c)) (fsms c) in
      let r := Run (r_state status) (r_step status) now (Some checkpoint_id) (r_error status) in
      (Ok r, persist_run c run_id r)
  end.

Definition state_of (c : t) (run_id : string) : option run_state := r_state <$> kv c !! run_id.

(** Every cached state machine is in the state persisted for its run. *)
Definition agrees (c : t) : Prop :=
  forall id m, fsms c !! id = Some m -> state_of c id = Some (Fsm.fsm_state m).

Lemma agrees_persist c id m r :
  agrees c -> r_state r = Fsm.fsm_state m -> agrees (persist_run (store_fsm c id m) id r).
Proof.
  intros A E id' m'. unfold state_of. cbn.
  destruct (decide (id = id')) as [<-|]; intros; simplify_map_eq; [by f_equal|by apply A].
Qed.

Lemma ensure_fsm_agrees c id r m c' :
  agrees c -> kv c !! id = Some r -> ensure_fsm c id (r_state r) = (m, c') ->
  agrees c' /\ kv c' = kv c /\ checkpoints c' = checkpoints c /\ Fsm.fsm_state m = r_state r.
Proof.
  unfold ensure_fsm. intros A K H. destruct (fsms c !! id) as [m0|] eqn:F.
  - injection H as <- <-. split_and!; try done.
    apply A in F. unfold state_of in F. rewrite K in F. by injection F.
  - injection H as <- <-. split_and!; try done.
    intros id' m'. unfold state_of. cbn.
    destruct (decide (id = id')) as [<-|]; intros; simplify_map_eq; [done|by apply A].
Qed.

(** [move] in a consistent store follows the state machine from the persisted state,
    and only touches the run it is given. *)
Lemma move_spec c id target now edit :
  agrees c -> (forall r, r_state (edit r) = r_state r) ->
  let '(res, c') := move c id target now edit in
  agrees c' /\ checkpoints c' = checkpoints c /\
  (forall id', id' <> id -> kv c' !! id' = kv c !! id') /\
  match kv c !! id with
  | None => res = KeyError /\ c' = c
  | Some r =>
      if bool_decide (target ∈ Fsm.VALID_TRANSITIONS (r_state r))
      then let r' := edit (Run target (r_step r) now (r_last_checkpoint r) (r_error r)) in
           res = Ok r' /\ kv c' !! id = Some r'
      else res = InvalidTransition (r_state r) target /\ kv c' = kv c
  end.
Proof.
  intros A He. unfold move. destruct (kv c !! id) as [r|] eqn:K; [|done].
  destruct (ensure_fsm c id (r_state r)) as [m c1] eqn:E.
  destruct (ensure_fsm_agrees _ _ _ _ _ A K E) as (A1 & K1 & C1 & <-).
  unfold Fsm.transition, Fsm.can_transition. case_bool_decide as V.
  - split_and!; cbn.
    + apply agrees_persist; [done|by rewrite He].
    + done.
    + intros id' Hne. by rewrite lookup_insert_ne, K1.
    + done.
    + by simplify_map_eq.
  - split_and!; try done. intros. by rewrite K1.
Qed.

End Coordinator.

(** ** The action endpoints *)

(** The actions the console posts to [/api/runs/{run_id}/{action}]. *)
Inductive run_action : Type := AStart | ACancel | ACheckpoint | AResume.

#[export] Instance run_action_eq_dec : EqDecision run_action.
Proof. solve_decision. Defined.

Definition action_string (a : run_action) : string :=
  match a with
  | AStart => "start" | ACancel => "cancel" | ACheckpoint => "checkpoint" | AResume => "resume"
  end.

Import Coordinator.

(** The application: the coordinator and the runs with a recorded worker restart
    ([_WORKER_RESTART_LAST_ATTEMPT]). *)
Record service : Type := Service { coord : Coordinator.t; restarts : gmap string Z }.

(** A reply: its status code and the events published, each with its run. *)
Record reply : Type := Reply { status_code : Z; published : list (string * string) }.

(** What the endpoints use of the environment: the clock, and a fresh identifier. *)
Record env : Type := Env { now : Z; fresh_id : string }.

(** The endpoints that only move the run: 404 for an unknown run, 409 for an invalid
    transition, and otherwise the event. *)
Definition answer (r : Coordinator.result) (run_id event : string) : reply :=
  match r with
  | KeyError => Reply 404 []
  | InvalidTransition _ _ => Reply 409 []
  | Ok _ => Reply 200 [(run_id, event)]
  end.
Definition transition_endpoint (a : service) (e : env) (run_id : string) (target : run_state)
    (event : string) : reply * service :=
  let '(r, c) := transition_run (coord a) run_id target (now e) in
  (answer r run_id event, Service c (restarts a)).

Definition start_run (a : service) (e : env) (run_id : string) : reply * service :=
  transition_endpoint a e run_id RUNNING "run_started".
Definition cancel_run (a : service) (e : env) (run_id : string) : reply * service :=
  transition_endpoint a e run_id CANCELLED "run_cancelled".
Definition complete_run (a : service) (e : env) (run_id : string) : reply * service :=
  transition_endpoint a e run_id COMPLETED "run_completed".
Definition fail_run (a : service) (e : env) (run_id reason : string) : reply * service :=
  let '(r, c) := set_run_error (coord a) run_id reason (now e) in
  (answer r run_id "run_failed", Service c (restarts a)).

(** [step] is the optional query parameter. *)
Definition trigger_checkpoint (a : service) (e : env) (run_id : string) (step : option Z) : reply * service :=
  match transition_run (coord a) run_id CHECKPOINTING (now e) with
  | (Ok status, c) =>
      let effective_step := default (r_step status) step in
      let '(r, c) := create_checkpoint c run_id (fresh_id e) effective_step (now e) in
      (answer r run_id "checkpoint_started", Service c (restarts a))
  | (r, c) => (answer r run_id "checkpoint_started", Service c (restarts a))
  end.

Definition resume_run (a : service) (e : env) (run_id : string) : reply * service :=
  match kv (coord a) !! run_id with
  | None => (Reply 404 [], a)
  | Some status =>
      let '(r, c) :=
        match r_state status with
        | FAILED => transition_run (coord a) run_id RECOVERING (now e)
        | RECOVERING => transition_run (coord a) run_id RUNNING (now e)
        | RUNNING => (Ok status, coord a)
        | COMMITTED | CREATED | CHECKPOINTING => transition_run (coord a) run_id RUNNING (now e)
        | CANCELLED | COMPLETED => (InvalidTransition (r_state status) RUNNING, coord a)
        end in
      let restarts' :=
        match r with
        | Ok s => if bool_decide (r_state s = RUNNING) then delete run_id (restarts a) else restarts a
        | _ => restarts a
        end in
      (answer r run_id "run_resumed", Service c restarts')
  end.

Definition post_action (a : service) (e : env) (run_id : string) (action : run_action) : reply * service :=
  match action with
  | AStart => start_run a e run_id
  | ACancel => cancel_run a e run_id
  | ACheckpoint => trigger_checkpoint a e run_id None
  | AResume => resume_run a e run_id
  end.

(** ** The action table *)

(** The state an action takes a run to, where the control plane accepts it: the code's table,
    which is larger than the documented one. *)
Definition action_target (a : run_action) (s : run_state) : option run_state :=
  match a, s with
  | AStart, (CREATED | CHECKPOINTING | COMMITTED | RECOVERING) => Some RUNNING
  | ACancel, (CREATED | RUNNING | FAILED | RECOVERING) => Some CANCELLED
  | ACheckpoint, RUNNING => Some CHECKPOINTING
  | AResume, FAILED => Some RECOVERING
  | AResume, (CREATED | RUNNING | CHECKPOINTING | COMMITTED | RECOVERING) => Some RUNNING
  | _, _ => None
  end.

Definition action_event (a : run_action) : string :=
  match a with
  | AStart => "run_started" | ACancel => "run_cancelled"
  | ACheckpoint => "checkpoint_started" | AResume => "run_resumed"
  end.

(** The event names [_publish_event] is called with. *)
Definition published_events : list string :=
  ["run_created"; "run_started"; "run_cancelled"; "run_completed"; "checkpoint_started";
   "checkpoint_committed"; "run_resumed"; "run_failed"].

Lemma transition_run_spec c id target n r :
  agrees c -> kv c !! id = Some r ->
  let '(res, c') := transition_run c id target n in
  agrees c' /\ checkpoints c' = checkpoints c /\
  (forall id', id' <> id -> kv c' !! id' = kv c !! id') /\
  if bool_decide (target ∈ Fsm.VALID_TRANSITIONS (r_state r))
  then let r' := Run target (r_step r) n (r_last_checkpoint r) (r_error r) in
       res = Ok r' /\ kv c' !! id = Some r'
  else res = InvalidTransition (r_state r) target /\ kv c' = kv c.
Proof.
  intros A K. pose proof (move_spec c id target n (fun r => r) A (fun _ => eq_refl)) as S.
  unfold transition_run. destruct (move c id target n _) as [res c']. by rewrite K in S.
Qed.

(** What a reply may change: the run it names. *)
Definition only_run (id : string) (a a' : service) : Prop :=
  forall id', id' <> id -> kv (coord a') !! id' = kv (coord a) !! id'.

(** The outcome of an action whose target is [o] for a run in state [s]. *)
Definition acted (a a' : service) (id : string) (s : run_state) (o : option run_state) (ev : string)
    (r : reply) : Prop :=
  agrees (coord a') /\ only_run id a a' /\
  match o with
  | Some s' => r = Reply 200 [(id, ev)] /\ state_of (coord a') id = Some s'
  | None => r = Reply 409 [] /\ state_of (coord a') id = Some s
  end.

Lemma transition_endpoint_acted a e id r target ev :
  agrees (coord a) -> kv (coord a) !! id = Some r ->
  let '(rep, a') := transition_endpoint a e id target ev in
  acted a a' id (r_state r)
    (if bool_decide (target ∈ Fsm.VALID_TRANSITIONS (r_state r)) then Some target else None) ev rep.
Proof.
  intros A K. pose proof (transition_run_spec (coord a) id target (now e) r A K) as S.
  unfold transition_endpoint. destruct (transition_run _ _ _ _) as [res c'].
  destruct S as (A' & _ & O & S). unfold acted, only_run, state_of. cbn.
  case_bool_decide; destruct S as [-> S]; (split_and!; [done|done|done|]).
  - by rewrite S.
  - by rewrite S, K.
Qed.

Lemma trigger_checkpoint_acted a e id r :
  agrees (coord a) -> kv (coord a) !! id = Some r ->
  let '(rep, a') := trigger_checkpoint a e id None in
  acted a a' id (r_state r) (action_target ACheckpoint (r_state r)) "checkpoint_started" rep.
Proof.
  intros A K. pose proof (transition_run_spec (coord a) id CHECKPOINTING (now e) r A K) as S.
  unfold trigger_checkpoint. destruct (transition_run _ _ _ _) as [res c'].
  destruct S as (A' & _ & O & S).
  assert (action_target ACheckpoint (r_state r) =
    if bool_decide (CHECKPOINTING ∈ Fsm.VALID_TRANSITIONS (r_state r)) then Some CHECKPOINTING else None) as ->
    by (by destruct (r_state r)).
  unfold acted, only_run, state_of.
  case_bool_decide as V; destruct S as [-> S]; cbn.
  - unfold create_checkpoint. rewrite S. cbn.
    split_and!; [| |done|by simplify_map_eq].
    + intros id' m F. specialize (A' id' m F). unfold state_of in *. cbn.
      destruct (decide (id = id')) as [<-|]; [|by rewrite lookup_insert_ne].
      rewrite lookup_insert_eq. by rewrite S in A'.
    + intros id' Hne. rewrite lookup_insert_ne by done. by apply O.
  - split_and!; [done|done|done|by rewrite S, K].
Qed.

Lemma resume_run_acted a e id r :
  agrees (coord a) -> kv (coord a) !! id = Some r ->
  let '(rep, a') := resume_run a e id in
  acted a a' id (r_state r) (action_target AResume (r_state r)) "run_resumed" rep.
Proof.
  intros A K. unfold resume_run. rewrite K.
  assert (T : forall target, let '(res, c') := transition_run (coord a) id target (now e) in
    forall rs, acted a (Service c' rs) id (r_state r)
    (if bool_decide (target ∈ Fsm.VALID_TRANSITIONS (r_state r)) then Some target else None)
    "run_resumed" (answer res id "run_resumed")).
  { intros target. pose proof (transition_endpoint_acted a e id r target "run_resumed" A K) as T.
    unfold transition_endpoint in T. by destruct (transition_run _ _ _ _). }
  destruct (r_state r) eqn:S.
  - specialize (T RUNNING). destruct (transition_run _ _ _ _). apply T.
  - unfold acted. cbn. split_and!; [done|done|done|]. unfold state_of. by rewrite K, <- S.
  - specialize (T RUNNING). destruct (transition_run _ _ _ _). apply T.
  - specialize (T RUNNING). destruct (transition_run _ _ _ _). apply T.
  - specialize (T RECOVERING). destruct (transition_run _ _ _ _). apply T.
  - specialize (T RUNNING). destruct (transition_run _ _ _ _). apply T.
  - unfold acted. cbn. split_and!; [done|done|done|]. unfold state_of. by rewrite K, <- S.
  - unfold acted. cbn. split_and!; [done|done|done|]. unfold state_of. by rewrite K, <- S.
Qed.

(** Every endpoint acts as the table says. *)
Lemma post_action_table a e id act s :
  agrees (coord a) -> state_of (coord a) id = Some s ->
  let '(r, a') := post_action a e id act in
  agrees (coord a') /\ only_run id a a' /\
  match action_target act s with
  | Some s' => r = Reply 200 [(id, action_event act)] /\ state_of (coord a') id = Some s'
  | None => r = Reply 409 [] /\ state_of (coord a') id = Some s
  end.
Proof.
  intros A K. unfold state_of in K. destruct (kv (coord a) !! id) as [r|] eqn:Kr; [|done].
  injection K as <-. destruct act; cbn [post_action action_event].
  - pose proof (transition_endpoint_acted a e id r RUNNING "run_started" A Kr) as T.
    unfold start_run. destruct (transition_endpoint _ _ _ _ _). unfold acted in T. by destruct (r_state r).
  - pose proof (transition_endpoint_acted a e id r CANCELLED "run_cancelled" A Kr) as T.
    unfold cancel_run. destruct (transition_endpoint _ _ _ _ _). unfold acted in T. by destruct (r_state r).
  - exact (trigger_checkpoint_acted a e id r A Kr).
  - exact (resume_run_acted a e id r A Kr).
Qed.

(** C29: the action endpoints implement the action table: on a consistent store an
    accepted action answers 200, publishes its event and moves the persisted run to the
    table's target; a refused one answers 409, publishes nothing and leaves the run's
    state; the store stays consistent and no other run is touched. The table is that of
    [VALID_TRANSITIONS] and of the resume endpoint, which accept more than the repository
    documents: [ARCHITECTURE.md] does not list Start or Resume on CHECKPOINTING nor Cancel on
    FAILED and RECOVERING ([transitions_documented]), and the header of [rest.py] has Start
    for CREATED and Resume for FAILED and COMMITTED only. *)
Theorem post_action_refines_table a e id act s :
  agrees (coord a) -> state_of (coord a) id = Some s ->
  let '(r, a') := post_action a e id act in
  agrees (coord a') /\ only_run id a a' /\
  match action_target act s with
  | Some s' => r = Reply 200 [(id, action_event act)] /\ state_of (coord a') id = Some s'
  | None => r = Reply 409 [] /\ state_of (coord a') id = Some s
  end.
Proof. apply post_action_table. Qed.

(** A store with one run, created and then moved through the given states. *)
Definition sample_service (s : run_state) : service :=
  Service (Coord {[ "r1" := Run s 150 0 None None ]} ∅ ∅) ∅.

Lemma sample_service_agrees s : agrees (coord (sample_service s)).
Proof. intros id m H. discriminate. Qed.

Lemma post_action_refines_table_witness :
  state_of (coord (sample_service RUNNING)) "r1" = Some RUNNING /\
  (let '(r, a') := post_action (sample_service RUNNING) (Env 7 "c1") "r1" ACheckpoint in
   agrees (coord a') /\ only_run "r1" (sample_service RUNNING) a' /\
   (r = Reply 200 [("r1", "checkpoint_started")] /\ state_of (coord a') "r1" = Some CHECKPOINTING)).
Proof.
  split; [reflexivity|].
  exact (post_action_refines_table (sample_service RUNNING) (Env 7 "c1") "r1" ACheckpoint RUNNING
           (sample_service_agrees RUNNING) eq_refl).
Defined.
