(* ===== verification/Retention.v ===== *)
(** * Checkpoint retention: [python-controlplane/src/controlplane/retention.py]

    One pass of the retention manager over the objects of the bucket: grouping by run and
    checkpoint, the runs that are retained, the checkpoints to delete, the deletion in
    batches and the removal of the coordinator's records. The object store is an
    interface with the documented behaviour of [DeleteObjects]; times are instants of one
    clock. *)

From Stdlib Require Import Ascii.
From S2P Require Import Prelude Dict JsString JsNum Types ControlPlane.

(** ** Configuration *)

Record config : Type := Config {
  keep_committed_per_run : Z; keep_runs : Z; orphan_grace_seconds : Z
}.

(** [from_env], given the integers of the environment *)
Definition from_env (count runs grace : Z) : config :=
  Config (Z.max 1 count) (Z.max 1 runs) (Z.max 0 grace).

(** ** The listing *)

Record s3_object : Type := Obj { key : string; last_modified : Z; obj_size : Z }.

#[export] Instance s3_object_eq_dec : EqDecision s3_object.
Proof. solve_decision. Defined.

(** [item["Key"].split("/", 2)] with three parts: the run and the checkpoint. *)
Definition checkpoint_of_key (k : string) : option (string * string) :=
  match split "/" k with
  | run :: cp :: _ :: _ => Some (run, cp)
  | _ => None
  end.
Definition in_checkpoint (o : s3_object) : Prop := is_Some (checkpoint_of_key o.(key)).
#[export] Instance in_checkpoint_dec o : Decision (in_checkpoint o).
Proof. unfold in_checkpoint. apply _. Defined.
Definition place (o : s3_object) : string * string := default ("", "") (checkpoint_of_key o.(key)).

(** A checkpoint in the bucket: its run, its identifier and its objects. *)
Abbreviation group := (((string * string) * list s3_object)%type).
Definition run_of (g : group) : string := g.1.1.
Definition id_of (g : group) : string := g.1.2.

Definition grouped (objects : list s3_object) : list group := group_by place (filter in_checkpoint objects).
Definition by_run (objects : list s3_object) : dict string (list group) := group_by run_of (grouped objects).

(** [max(obj["LastModified"] for obj in objects)]; no group is empty. *)
Definition latest_of (os : list s3_object) : Z :=
  match os with
  | [] => 0
  | o :: os => foldl Z.max o.(last_modified) (map last_modified os)
  end.
Definition latest (g : group) : Z := latest_of g.2.

(** The manifest is the commit signal. *)
Definition has_manifest (g : group) : bool := existsb (fun o => ends_with o.(key) "/_manifest.json") g.2.

(** ** The runs that are retained *)

Definition active_states : list run_state := [RUNNING; CHECKPOINTING; COMMITTED; RECOVERING].

(** [max(..., default=None)] *)
Definition maximum (l : list Z) : option Z :=
  match l with
  | [] => None
  | x :: l => Some (foldl Z.max x l)
  end.

Section Retained.
Context (c : Coordinator.t).

Definition run_records : list (string * Coordinator.run) := map_to_list (Coordinator.kv c).
Definition active_run_ids : list string :=
  map fst (filter (fun r => Coordinator.r_state r.2 ∈ active_states) run_records).
Definition failed_runs : list (string * Coordinator.run) :=
  filter (fun r => Coordinator.r_state r.2 = FAILED) run_records.
Definition newest_failed_at : option Z := maximum (map (fun r => Coordinator.r_updated r.2) failed_runs).
Definition recoverable_failed_run_ids : list string :=
  map fst (filter (fun r => Some (Coordinator.r_updated r.2) = newest_failed_at) failed_runs).
End Retained.

(** The latest write to a run, and the runs by it, the most recent first. *)
Definition run_written (gs : list group) : Z := latest_of (gs ≫= snd).
Definition run_recency (runs : dict string (list group)) : list string :=
  map fst (stable_sort (fun a b => run_written a.2 <? run_written b.2) runs).

Definition retained_run_ids (cfg : config) (c : Coordinator.t) (runs : dict string (list group)) : list string :=
  active_run_ids c ++ recoverable_failed_run_ids c ++
  Slice.slice 0 (Some cfg.(keep_runs)) (run_recency runs).

(** ** The checkpoints to delete *)

Definition newest_first (gs : list group) : list group :=
  stable_sort (fun a b => latest a <? latest b) gs.

Definition expired_committed (cfg : config) (gs : list group) : list group :=
  Slice.slice cfg.(keep_committed_per_run) None (newest_first (filter (fun g => has_manifest g = true) gs)).
Definition expired_orphans (cutoff : Z) (gs : list group) : list group :=
  filter (fun g => latest g < cutoff) (filter (fun g => has_manifest g = false) gs).

Definition expired (cfg : config) (cutoff : Z) (retained : list string) (e : string * list group) : list group :=
  if bool_decide (e.1 ∈ retained)
  then expired_committed cfg e.2 ++ expired_orphans cutoff e.2
  else e.2.

Definition to_delete (cfg : config) (c : Coordinator.t) (now : Z) (objects : list s3_object) : list group :=
  let runs := by_run objects in
  let cutoff := now - cfg.(orphan_grace_seconds) in
  runs ≫= expired cfg cutoff (retained_run_ids cfg c runs).

(** ** Deletion *)

(** [range(0, n, 1000)] *)
Definition offsets (n : nat) : list nat := map (fun i => 1000 * i)%nat (seq 0 ((n + 999) / 1000)).
Definition batches {A} (items : list A) : list (list A) :=
  map (fun offset => take 1000 (drop offset items)) (offsets (length items)).

(** The bucket: [get_paginator("list_objects_v2")], and [delete_objects], which answers
    with the keys it could not delete. *)
Class ObjectStore : Type := {
  bucket : Type;
  paginate : bucket -> list (list s3_object);
  delete_objects : list string -> bucket -> list string * bucket
}.

(** [DeleteObjects] removes the named objects it reports no error for, and nothing else. *)
Class ObjectStoreLaws (S : ObjectStore) : Prop := {
  delete_objects_spec ks b :
    concat (paginate (delete_objects ks b).2) =
      filter (fun o => o.(key) ∉ ks \/ o.(key) ∈ (delete_objects ks b).1) (concat (paginate b))
}.

Section Pass.
Context `{ObjectStore}.

(** Until a batch has errors, which is raised. *)
Fixpoint delete_batches (bs : list (list s3_object)) (b : bucket) : option string * bucket :=
  match bs with
  | [] => (None, b)
  | batch :: bs =>
      match delete_objects (map key batch) b with
      | ([], b) => delete_batches bs b
      | (e :: _, b) => (Some e, b)
      end
  end.

(** [delete_checkpoint], if the record is of this run *)
Definition forget (c : Coordinator.t) (g : group) : Coordinator.t :=
  match Coordinator.checkpoints c !! id_of g with
  | Some cp =>
      if String.eqb (Coordinator.c_run cp) (run_of g)
      then Coordinator.Coord (Coordinator.kv c) (delete (id_of g) (Coordinator.checkpoints c)) (Coordinator.fsms c)
      else c
  | None => c
  end.

Record pass_result : Type := PassResult { checkpoints_deleted : Z; objects_deleted : Z; bytes_freed : Z }.

(** [inl]: the raised [RuntimeError], with the key of its first error. *)
Definition run_once (cfg : config) (now : Z) (c : Coordinator.t) (b : bucket) :
    (string + pass_result) * Coordinator.t * bucket :=
  let objects := concat (paginate b) in
  let dead := to_delete cfg c now objects in
  let delete_items := dead ≫= snd in
  match delete_batches (batches delete_items) b with
  | (Some e, b) => (inl e, c, b)
  | (None, b) =>
      (inr (PassResult (Z.of_nat (length dead)) (Z.of_nat (length delete_items))
              (foldl Z.add 0 (map obj_size delete_items))),
       foldl forget c dead, b)
  end.
End Pass.

(** ** Batches *)

Lemma batches_take {A} (items : list A) m :
  concat (map (fun offset => take 1000 (drop offset items)) (map (fun i => 1000 * i)%nat (seq 0 m)))
  = take (1000 * m) items.
Proof.
  induction m as [|m IH]; [done|].
  rewrite seq_S, !map_app, concat_app, IH. cbn [map concat]. rewrite app_nil_r, Nat.add_0_l.
  rewrite take_take_drop. f_equal. lia.
Qed.

(** The batches are the items in order, none above a thousand. *)
Lemma batches_concat {A} (items : list A) : concat (batches items) = items.
Proof.
  unfold batches, offsets. rewrite batches_take. apply take_ge.
  pose proof (Nat.div_mod (length items + 999) 1000). pose proof (Nat.mod_upper_bound (length items + 999) 1000).
  lia.
Qed.
Lemma batches_bound {A} (items : list A) : Forall (fun b => length b <= 1000)%nat (batches items).
Proof.
  apply Forall_fmap, Forall_forall. intros offset _. unfold compose. rewrite length_take. lia.
Qed.

Section Deletion.
Context `{ObjectStoreLaws}.
Abbreviation listing b := (concat (paginate b)).

Lemma delete_batches_done bs b b' :
  delete_batches bs b = (None, b') ->
  listing b' = filter (fun o => o.(key) ∉ map key (concat bs)) (listing b).
Proof.
  revert b. induction bs as [|batch bs IH]; intros b E; cbn [delete_batches] in E.
  - injection E as <-. symmetry. apply filter_every, Forall_forall. intros o _ I. by apply elem_of_nil in I.
  - pose proof (delete_objects_spec (map key batch) b) as S.
    destruct (delete_objects (map key batch) b) as [[|e es] b1]; [|discriminate]. cbn [fst snd] in S.
    rewrite (IH _ E), S, list_filter_filter. apply list_filter_iff. intros o. cbn [concat].
    rewrite map_app, elem_of_app. split; [|tauto].
    intros [N [M|M]]; [tauto|by apply elem_of_nil in M].
Qed.

(** Whatever fails, only objects of the batches can go. *)
Lemma delete_batches_only bs b o :
  (o ∈ listing (delete_batches bs b).2 -> o ∈ listing b) /\
  (o ∈ listing b -> o.(key) ∉ map key (concat bs) -> o ∈ listing (delete_batches bs b).2).
Proof.
  revert b. induction bs as [|batch bs IH]; intros b; [by split|]. cbn [delete_batches concat].
  pose proof (delete_objects_spec (map key batch) b) as S.
  destruct (delete_objects (map key batch) b) as [[|e es] b1]; cbn [fst snd] in S.
  - destruct (IH b1) as [I1 I2]. rewrite map_app, elem_of_app. split.
    + intros I. apply I1 in I. rewrite S in I. by apply list_elem_of_filter in I as [_ ?].
    + intros I N. apply I2; [|tauto]. rewrite S. apply list_elem_of_filter. tauto.
  - cbn [snd]. rewrite map_app, elem_of_app, S, list_elem_of_filter. tauto.
Qed.
End Deletion.

(** ** The plan *)

Lemma slice_submseteq {A} i o (l : list A) : Slice.slice i o l ⊆+ l.
Proof. unfold Slice.slice. apply sublist_submseteq. etrans; [apply sublist_take|apply sublist_drop]. Qed.

Lemma expired_submseteq cfg cutoff ret e : expired cfg cutoff ret e ⊆+ e.2.
Proof.
  unfold expired. case_bool_decide; [|done].
  rewrite <- (filter_app_complement (fun g => has_manifest g = true) e.2) at 3.
  apply submseteq_app.
  - unfold expired_committed, newest_first. etrans; [apply slice_submseteq|]. by rewrite stable_sort_perm.
  - unfold expired_orphans. etrans; [apply sublist_submseteq, sublist_filter|]. apply reflexive_eq.
    apply list_filter_iff. intros g. by destruct (has_manifest g).
Qed.

(** What is planned are checkpoints of the listing, each once. *)
Lemma to_delete_submseteq cfg c now objects : to_delete cfg c now objects ⊆+ grouped objects.
Proof.
  unfold to_delete. transitivity (by_run objects ≫= snd).
  - generalize (retained_run_ids cfg c (by_run objects)). intros ret.
    induction (by_run objects) as [|e l IH]; [done|]. cbn [mbind list_bind].
    apply submseteq_app; [apply expired_submseteq|exact IH].
  - unfold by_run. by rewrite group_by_perm.
Qed.

(** The checkpoints of a run. *)
Definition of_run (objects : list s3_object) (r : string) : list group :=
  filter (fun g => run_of g = r) (grouped objects).

Lemma maximum_spec z l : z ∈ l -> (forall y, y ∈ l -> y <= z) -> Some z = maximum l.
Proof.
  assert (G : forall l a, (forall y, y ∈ l -> y <= z) -> a <= z -> z = a \/ z ∈ l -> z = foldl Z.max a l).
  { clear l. intros l. induction l as [|x l IH]; intros a B La D.
    - destruct D as [->|D]; [done|by apply elem_of_nil in D].
    - assert (x <= z) by (apply B; by left). cbn [foldl]. apply IH; [|lia|].
      + intros y Hy. apply B. by right.
      + destruct D as [->|D]; [left; lia|]. apply elem_of_cons in D as [->|D]; [left; lia|by right]. }
  destruct l as [|x l]; intros I B; [by apply elem_of_nil in I|]. cbn [maximum]. f_equal.
  apply G; [|apply B; by left|].
  - intros y Hy. apply B. by right.
  - by apply elem_of_cons in I.
Qed.

Section Plan.
Context (cfg : config) (c : Coordinator.t) (now : Z) (objects : list s3_object).
#[local] Abbreviation runs := (by_run objects).
#[local] Abbreviation retained := (retained_run_ids cfg c runs).
#[local] Abbreviation dead := (to_delete cfg c now objects).
#[local] Abbreviation cutoff := (now - cfg.(orphan_grace_seconds)).

Lemma plan_elem g :
  g ∈ dead <->
  g ∈ grouped objects /\ g ∈ expired cfg cutoff retained (run_of g, of_run objects (run_of g)).
Proof.
  unfold to_delete. rewrite list_elem_of_bind. unfold of_run. split.
  - intros ([r gs] & Hg & Hr). apply group_by_elem in Hr as [-> _].
    pose proof (elem_of_submseteq _ _ _ Hg (expired_submseteq _ _ _ _)) as I.
    apply list_elem_of_filter in I as [<- I]. done.
  - intros [I Hg]. exists (run_of g, filter (fun g' => run_of g' = run_of g) (grouped objects)).
    split; [done|]. apply group_by_elem. split; [done|]. intros E.
    assert (J : g ∈ filter (fun g' => run_of g' = run_of g) (grouped objects)) by (by apply list_elem_of_filter).
    rewrite E in J. by apply elem_of_nil in J.
Qed.

(** The committed checkpoints of a run, the most recent first. *)
Definition committed_of (r : string) : list group :=
  newest_first (filter (fun g => has_manifest g = true) (of_run objects r)).

Lemma committed_of_elem r g :
  g ∈ committed_of r <-> g ∈ grouped objects /\ run_of g = r /\ has_manifest g = true.
Proof.
  unfold committed_of, newest_first. rewrite stable_sort_perm. unfold of_run.
  rewrite !list_elem_of_filter. tauto.
Qed.
Lemma committed_of_nodup r : NoDup (committed_of r).
Proof.
  unfold committed_of, newest_first. rewrite stable_sort_perm.
  do 2 apply NoDup_filter. apply group_by_nodup_groups.
Qed.

(** What a pass deletes: every checkpoint of a run that is not retained, whatever its
    age, and in a retained run the committed checkpoints after the first
    [keep_committed_per_run] and those without a manifest that are old enough. *)
Lemma plan_reasons (Hk : 0 <= cfg.(keep_committed_per_run)) (g : group) :
  g ∈ dead <->
  g ∈ grouped objects /\
  (run_of g ∉ retained \/
   (has_manifest g = true /\ g ∈ drop (Z.to_nat cfg.(keep_committed_per_run)) (committed_of (run_of g))) \/
   (has_manifest g = false /\ latest g < cutoff)).
Proof.
  rewrite plan_elem. unfold expired. cbn [fst snd].
  assert (O : g ∈ grouped objects -> g ∈ of_run objects (run_of g))
    by (intros I; by apply list_elem_of_filter).
  case_bool_decide as R; [|tauto].
  unfold expired_committed. rewrite Slice.slice_from by done. fold (committed_of (run_of g)).
  rewrite elem_of_app. unfold expired_orphans. rewrite !list_elem_of_filter.
  assert (D : g ∈ drop (Z.to_nat cfg.(keep_committed_per_run)) (committed_of (run_of g)) -> has_manifest g = true).
  { intros I. eapply elem_of_submseteq in I; [|apply sublist_submseteq, sublist_drop].
    by apply committed_of_elem in I as (_ & _ & ?). }
  tauto.
Qed.

Lemma committed_of_sorted r : StronglySorted (fun a b => latest b <= latest a) (committed_of r).
Proof.
  unfold committed_of, newest_first.
  by apply (stable_sort_spec _ latest (fun _ => True) (fun a b _ _ => eq_refl) _ 0), Forall_true.
Qed.

(** The runs that may still be resumed are retained: those that are active, and the
    failed ones whose record changed last. *)
Definition resumable (r : string) : Prop :=
  exists rec, Coordinator.kv c !! r = Some rec /\
    (Coordinator.r_state rec ∈ active_states \/
     (Coordinator.r_state rec = FAILED /\
      forall r' rec', Coordinator.kv c !! r' = Some rec' -> Coordinator.r_state rec' = FAILED ->
        Coordinator.r_updated rec' <= Coordinator.r_updated rec)).

Lemma resumable_retained r : resumable r -> r ∈ retained.
Proof.
  intros (rec & K & S). unfold retained_run_ids. rewrite !elem_of_app.
  destruct S as [S|[S M]].
  - left. apply list_elem_of_fmap. exists (r, rec). split; [done|].
    apply list_elem_of_filter. split; [done|]. by apply elem_of_map_to_list.
  - right. left. apply list_elem_of_fmap. exists (r, rec). split; [done|].
    assert (F : (r, rec) ∈ failed_runs c).
    { apply list_elem_of_filter. split; [done|]. by apply elem_of_map_to_list. }
    apply list_elem_of_filter. split; [|done]. cbn [snd].
    apply (maximum_spec (Coordinator.r_updated rec)).
    + apply list_elem_of_fmap. by exists (r, rec).
    + intros z I. apply list_elem_of_fmap in I as ([r' rec'] & -> & I).
      apply list_elem_of_filter in I as [S' I]. apply elem_of_map_to_list in I. by eapply M.
Qed.

(** The runs of the bucket that were last written no earlier than a run, itself among them.
    A run is recent when they are at most [keep_runs]: whatever the order in which runs
    written at the same time come, it is one of the [keep_runs] most recent. *)
Definition written (r : string) : Z := run_written (of_run objects r).
Definition written_since (r : string) : list string := filter (fun r' => written r <= written r') (map fst runs).
Definition recent (r : string) : Prop := Z.of_nat (length (written_since r)) <= cfg.(keep_runs).

Lemma runs_written e : e ∈ runs -> e.2 = of_run objects e.1.
Proof. destruct e as [r gs]. intros H. by apply group_by_elem in H as [-> _]. Qed.
Lemma run_recency_sorted :
  StronglySorted (fun a b => run_written b.2 <= run_written a.2) (stable_sort (fun a b => run_written a.2 <? run_written b.2) runs).
Proof. by apply (stable_sort_spec _ (fun e => run_written e.2) (fun _ => True) (fun a b _ _ => eq_refl) _ 0), Forall_true. Qed.

Lemma recent_retained r : r ∈ map fst runs -> recent r -> r ∈ retained.
Proof.
  intros I R. unfold retained_run_ids, recent in *. rewrite !elem_of_app. do 2 right. rewrite Slice.slice_prefix by lia.
  pose proof run_recency_sorted as St. unfold run_recency. set (l := stable_sort _ runs) in *.
  assert (P : l ≡ₚ runs) by apply stable_sort_perm.
  apply list_elem_of_fmap in I as (e & -> & I). rewrite <- P in I. apply list_elem_of_split in I as (l1 & l2 & El).
  assert (W : forall e', e' ∈ l -> run_written e'.2 = written e'.1) by (intros e' I'; unfold written; rewrite <- runs_written; [done|by rewrite <- P]).
  assert (N : (S (length l1) <= length (written_since e.1))%nat).
  { unfold written_since. rewrite <- P. rewrite El in *. rewrite map_app, filter_app. cbn [map]. rewrite filter_cons_True by lia.
    rewrite length_app. cbn [length]. rewrite filter_every; [rewrite length_map; lia|]. apply Forall_fmap, Forall_forall. intros e' I'. unfold compose.
    rewrite <- !W by (apply elem_of_app; (by left) || (right; by left)). apply (sorted_take_drop _ (length l1) _ e' e St).
    - by rewrite take_app_length.
    - rewrite drop_app_length. by left. }
  rewrite El, map_app. apply list_elem_of_lookup. exists (length l1).
  rewrite lookup_take_lt by lia. rewrite lookup_app_r by by rewrite length_map. by rewrite length_map, Nat.sub_diag.
Qed.

(** C25: A retention pass never takes what a run that may be resumed, or one of the
    [keep_runs] runs that were written last, needs: when it plans to delete a committed
    checkpoint of such a run, [keep_committed_per_run] other committed checkpoints of the
    run, each written no earlier, are not planned; and an upload without a manifest is
    planned only when its last write is older than the grace period. The runs that may be
    resumed are the active ones and the failed ones whose record changed last. *)
Theorem retention_keeps_newest (g : group) :
  0 <= cfg.(keep_committed_per_run) -> g ∈ dead -> resumable (run_of g) \/ recent (run_of g) ->
  (has_manifest g = true ->
     exists kept, length kept = Z.to_nat cfg.(keep_committed_per_run) /\ NoDup kept /\
       Forall (fun k => k ∈ grouped objects /\ run_of k = run_of g /\ has_manifest k = true /\
                        (k ∉ dead) /\ latest g <= latest k) kept) /\
  (has_manifest g = false -> latest g < cutoff).
Proof.
  intros Hk Hg R. pose proof Hg as [G0 X]%(plan_reasons Hk).
  assert (Rt : run_of g ∈ retained).
  { destruct R as [R|R]; [by apply resumable_retained|]. apply recent_retained; [|done]. apply group_by_keys. by exists g. }
  destruct X as [X|[[C D]|[C L]]]; [done| |by rewrite C].
  split; [|by rewrite C]. intros _. set (n := Z.to_nat _) in *.
  pose proof (committed_of_nodup (run_of g)) as N. rewrite <- (take_drop n (committed_of (run_of g))) in N.
  apply NoDup_app in N as (N & Nd & _). exists (take n (committed_of (run_of g))). split_and!; [|done|].
  - apply length_take_le. apply list_elem_of_lookup_1 in D as [i D]. apply lookup_lt_Some in D.
    rewrite length_drop in D. lia.
  - apply Forall_forall. intros k Hi.
    assert (I : k ∈ committed_of (run_of g))
      by (eapply elem_of_submseteq; [exact Hi|apply sublist_submseteq, sublist_take]).
    apply committed_of_elem in I as (G & Rk & Ck). split_and!; [done|done|done| |].
    + intros [_ Y]%(plan_reasons Hk). rewrite Rk, Ck in Y. fold n in Y.
      destruct Y as [Y|[[_ Y]|[Y _]]]; [done|by eapply Nd|discriminate].
    + by eapply (sorted_take_drop _ n _ k g (committed_of_sorted (run_of g))).
Qed.
End Plan.

(** ** A pass *)

Definition total_size (os : list s3_object) : Z := foldl Z.add 0 (map obj_size os).

Lemma foldl_add_acc l a : foldl Z.add a l = a + foldl Z.add 0 l.
Proof.
  revert a. induction l as [|x l IH]; intros a; cbn [foldl]; [lia|].
  rewrite IH, (IH (0 + x)). lia.
Qed.
Lemma total_size_app l k : total_size (l ++ k) = total_size l + total_size k.
Proof. unfold total_size. by rewrite map_app, foldl_app, foldl_add_acc. Qed.
#[export] Instance total_size_perm : Proper ((≡ₚ) ==> eq) total_size.
Proof.
  assert (C : forall x l, total_size (x :: l) = x.(obj_size) + total_size l)
    by (intros x l; apply (total_size_app [x] l)).
  intros l k E. induction E as [|x l k E IH|x y l|l k m _ IH1 _ IH2]; [done| | |congruence]; rewrite !C; lia.
Qed.

(** The records of the planned checkpoints go, if they are of the run the bucket names. *)
Lemma forget_all gs c id :
  let c' := foldl forget c gs in
  Coordinator.kv c' = Coordinator.kv c /\ Coordinator.fsms c' = Coordinator.fsms c /\
  Coordinator.checkpoints c' !! id =
    match Coordinator.checkpoints c !! id with
    | Some cp => if decide (Exists (fun g => g.1 = (Coordinator.c_run cp, id)) gs) then None else Some cp
    | None => None
    end.
Proof.
  cbv zeta. induction gs as [|[[r i] os] gs IH] using rev_ind.
  - split_and!; [done|done|]. cbn [foldl]. destruct (Coordinator.checkpoints c !! id); [|done].
    rewrite decide_False; [done|]. intros X. inversion X.
  - rewrite foldl_app. cbn [foldl]. destruct IH as (K & F & E). set (c1 := foldl forget c gs) in *.
    assert (X : forall cp, Exists (fun g : group => g.1 = (Coordinator.c_run cp, id)) (gs ++ [((r, i), os)]) <->
      Exists (fun g : group => g.1 = (Coordinator.c_run cp, id)) gs \/ (r = Coordinator.c_run cp /\ i = id)).
    { intros cp. rewrite Exists_app, Exists_cons, Exists_nil. cbn [fst].
      split; [intros [?|[[= -> ->]|[]]]; tauto|intros [?|[-> ->]]; tauto]. }
    unfold forget, id_of, run_of. cbn [fst snd]. destruct (decide (i = id)) as [->|N].
    + rewrite E. destruct (Coordinator.checkpoints c !! id) as [cp|]; [|by rewrite E].
      destruct (decide (Exists _ gs)) as [Y|Y].
      * rewrite E. split_and!; [done|done|]. rewrite decide_True; [done|]. apply X. by left.
      * destruct (String.eqb_spec (Coordinator.c_run cp) r) as [<-|M]; cbn.
        -- split_and!; [done|done|]. rewrite lookup_delete_eq, decide_True; [done|]. apply X. by right.
        -- rewrite E. split_and!; [done|done|]. rewrite decide_False; [done|].
           intros [?|[Er _]]%X; [done|]. by apply M.
    + assert (L : forall c2 : Coordinator.t, Coordinator.kv c2 = Coordinator.kv c1 -> Coordinator.fsms c2 = Coordinator.fsms c1 ->
        Coordinator.checkpoints c2 !! id = Coordinator.checkpoints c1 !! id ->
        Coordinator.kv c2 = Coordinator.kv c /\ Coordinator.fsms c2 = Coordinator.fsms c /\
        Coordinator.checkpoints c2 !! id =
        match Coordinator.checkpoints c !! id with
        | Some cp => if decide (Exists (fun g => g.1 = (Coordinator.c_run cp, id)) (gs ++ [((r, i), os)])) then None else Some cp
        | None => None
        end).
      { intros c2 -> -> ->. rewrite E. split_and!; [done|done|].
        destruct (Coordinator.checkpoints c !! id) as [cp|]; [|done].
        apply decide_ext. rewrite X. split; [by left|]. by intros [?|[_ ?]]. }
      destruct (Coordinator.checkpoints c1 !! i) as [cp|]; [|by apply L].
      destruct (Coordinator.c_run cp =? r)%string; apply L; cbn; try done. by rewrite lookup_delete_ne.
Qed.

Section Results.
Context `{ObjectStoreLaws}.
Abbreviation listing b := (concat (paginate b)).

(** An object of the listing is planned exactly when its checkpoint is. *)
Lemma planned_key cfg c now objects o :
  o ∈ objects ->
  o.(key) ∈ map key (to_delete cfg c now objects ≫= snd) <->
  in_checkpoint o /\ place o ∈ map fst (to_delete cfg c now objects).
Proof.
  intros Ho. pose proof (to_delete_submseteq cfg c now objects) as S. split.
  - intros I. apply list_elem_of_fmap in I as (o' & E & I). apply list_elem_of_bind in I as (g & Hg & G).
    pose proof (elem_of_submseteq _ _ _ G S) as G'. destruct g as [k os]. cbn [snd] in Hg.
    apply group_by_elem in G' as [-> _]. apply list_elem_of_filter in Hg as [<- Hg].
    apply list_elem_of_filter in Hg as [C _]. unfold in_checkpoint, place in *. rewrite E.
    split; [done|]. apply list_elem_of_fmap. eexists. split; [|exact G]. done.
  - intros [C I]. apply list_elem_of_fmap in I as ([k os] & E & G). cbn [fst] in E. subst k.
    pose proof (elem_of_submseteq _ _ _ G S) as G'. apply group_by_elem in G' as [-> _].
    apply list_elem_of_fmap. exists o. split; [done|]. apply list_elem_of_bind. eexists. split; [|exact G].
    apply list_elem_of_filter. split; [done|]. by apply list_elem_of_filter.
Qed.

(** The items are the planned part of the listing. *)
Lemma items_perm cfg c now objects :
  (to_delete cfg c now objects ≫= snd) ≡ₚ
  filter (fun o => o.(key) ∈ map key (to_delete cfg c now objects ≫= snd)) objects.
Proof.
  etrans; [eapply (group_pick place), to_delete_submseteq|]. rewrite list_filter_filter. apply reflexive_eq, filter_ext_in.
  intros o Ho. rewrite planned_key by done. tauto.
Qed.

(** The checkpoints that are left. *)
Lemma grouped_left cfg c now objects :
  let dead := to_delete cfg c now objects in
  grouped (filter (fun o => o.(key) ∉ map key (dead ≫= snd)) objects)
    ≡ₚ filter (fun g => g.1 ∉ map fst dead) (grouped objects).
Proof.
  intros dead. unfold grouped. etrans; [|apply (group_by_filter place (fun k => k ∉ map fst dead))].
  apply reflexive_eq. f_equal. rewrite !list_filter_filter. apply filter_ext_in. intros o Ho.
  pose proof (planned_key cfg c now objects o Ho) as P. fold dead in P. rewrite P. tauto.
Qed.

Lemma dead_key cfg c now objects g :
  g ∈ grouped objects -> g.1 ∈ map fst (to_delete cfg c now objects) <-> g ∈ to_delete cfg c now objects.
Proof.
  intros G. split.
  - intros I. apply list_elem_of_fmap in I as ([k os] & E & I).
    pose proof (elem_of_submseteq _ _ _ I (to_delete_submseteq cfg c now objects)) as G'.
    destruct g as [k' os']. cbn [fst] in E. subst k'.
    apply group_by_elem in G as [-> _]. apply group_by_elem in G' as [-> _]. done.
  - intros I. apply list_elem_of_fmap. by exists g.
Qed.

(** A pass that succeeds has deleted what it planned and nothing else: the listing
    before is the listing after and the objects of the planned checkpoints, the counts it
    returns are exact, the records of these checkpoints are gone and every other record
    is kept. *)
Theorem retention_pass cfg now c b res c' b' :
  run_once cfg now c b = (inr res, c', b') ->
  let dead := to_delete cfg c now (listing b) in
  listing b ≡ₚ listing b' ++ (dead ≫= snd) /\
  res.(checkpoints_deleted) = Z.of_nat (length dead) /\
  res.(objects_deleted) = Z.of_nat (length (listing b)) - Z.of_nat (length (listing b')) /\
  res.(bytes_freed) = total_size (listing b) - total_size (listing b') /\
  Coordinator.kv c' = Coordinator.kv c /\
  (forall id cp, Coordinator.checkpoints c' !! id = Some cp <->
     Coordinator.checkpoints c !! id = Some cp /\
     ~ exists g, g ∈ dead /\ g.1 = (Coordinator.c_run cp, id)).
Proof.
  intros E dead. unfold run_once in E. fold dead in E.
  destruct (delete_batches (batches (dead ≫= snd)) b) as [[e|] b1] eqn:D; [discriminate|].
  injection E as <- <- <-. apply delete_batches_done in D. rewrite batches_concat in D.
  assert (P : listing b ≡ₚ listing b1 ++ (dead ≫= snd)).
  { rewrite D. pose proof (items_perm cfg c now (listing b)) as I. fold dead in I.
    etrans; [symmetry; apply (filter_app_complement (fun o => o.(key) ∈ map key (dead ≫= snd)))|].
    rewrite Permutation_app_comm. apply Permutation_app; [done|by symmetry]. }
  cbn [checkpoints_deleted objects_deleted bytes_freed]. split_and!; [done|done| | | |].
  - rewrite P, length_app. lia.
  - rewrite P, total_size_app. unfold total_size. lia.
  - exact (proj1 (forget_all dead c "")).
  - intros id cp. destruct (forget_all dead c id) as (_ & _ & ->).
    destruct (Coordinator.checkpoints c !! id) as [cp'|]; [|by split; [|intros [? _]]].
    destruct (decide _) as [X|X]; rewrite Exists_exists in X.
    + split; [done|]. intros [[= ->] N]. exfalso. apply N.
      destruct X as (g & I & Eg). by exists g.
    + split; [|by intros [? _]]. intros [= ->]. split; [done|]. intros (g & I & Eg). apply X.
      by exists g.
Qed.

(** What is left after a pass that succeeds. *)
Lemma pass_left cfg now c b res c' b' g :
  run_once cfg now c b = (inr res, c', b') ->
  g ∈ grouped (listing b') <-> g ∈ grouped (listing b) /\ g ∉ to_delete cfg c now (listing b).
Proof.
  unfold run_once. set (dead := to_delete cfg c now (listing b)).
  destruct (delete_batches (batches (dead ≫= snd)) b) as [[e|] b1] eqn:D; [discriminate|].
  intros [= <- <- <-]. apply delete_batches_done in D. rewrite batches_concat in D. rewrite D.
  pose proof (grouped_left cfg c now (listing b)) as L. fold dead in L. rewrite L, list_elem_of_filter.
  pose proof (dead_key cfg c now (listing b) g) as K. fold dead in K. tauto.
Qed.

(** Retention bounds the bucket: after a pass that succeeds no run has more than
    [keep_committed_per_run] committed checkpoints, and there are at most [keep_runs] runs
    with checkpoints besides the active ones and the failed ones that may be resumed. *)
Theorem retention_bounds cfg now c b res c' b' :
  0 <= cfg.(keep_committed_per_run) -> 0 <= cfg.(keep_runs) ->
  run_once cfg now c b = (inr res, c', b') ->
  (forall r, Z.of_nat (length (filter (fun g => has_manifest g = true) (of_run (listing b') r)))
             <= cfg.(keep_committed_per_run)) /\
  Z.of_nat (length (by_run (listing b'))) <=
    cfg.(keep_runs) + Z.of_nat (length (active_run_ids c)) + Z.of_nat (length (recoverable_failed_run_ids c)).
Proof.
  intros Hk Hr E. pose proof (fun g => pass_left _ _ _ _ _ _ _ g E) as L.
  pose proof (fun g => plan_reasons cfg c now (listing b) Hk g) as R. split.
  - intros r. set (n := Z.to_nat cfg.(keep_committed_per_run)) in *.
    enough (S : filter (fun g => has_manifest g = true) (of_run (listing b') r)
                ⊆+ take n (committed_of (listing b) r)).
    { apply submseteq_length in S. rewrite length_take in S. lia. }
    apply NoDup_submseteq; [do 2 apply NoDup_filter; apply group_by_nodup_groups|].
    intros g Hg. unfold of_run in Hg. rewrite !list_elem_of_filter, L in Hg.
    destruct Hg as (C & <- & G & N). rewrite R in N.
    assert (I : g ∈ take n (committed_of (listing b) (run_of g)) ++ drop n (committed_of (listing b) (run_of g)))
      by (rewrite take_drop; by apply committed_of_elem).
    apply elem_of_app in I as [I|I]; [done|]. exfalso. apply N. split; [done|]. right. left. done.
  - set (ret := retained_run_ids cfg c (by_run (listing b))) in *.
    assert (S : map fst (by_run (listing b')) ⊆+ ret).
    { apply NoDup_submseteq; [apply group_by_nodup|]. intros r Hr'.
      apply group_by_keys in Hr' as (g & Hg & <-). apply L in Hg as [G N]. rewrite R in N.
      destruct (decide (run_of g ∈ ret)); [done|]. exfalso. apply N. tauto. }
    apply submseteq_length in S. rewrite length_map in S. unfold ret, retained_run_ids in S.
    rewrite !length_app, Slice.slice_prefix, length_take in S by done. lia.
Qed.

(** When a deletion fails the pass stops with the error: no record of the coordinator
    is removed, only objects of planned checkpoints can be gone, and a later pass finds
    the rest. *)
Theorem retention_failure cfg now c b e c' b' :
  run_once cfg now c b = (inl e, c', b') ->
  let dead := to_delete cfg c now (listing b) in
  c' = c /\
  (forall o, o ∈ listing b' -> o ∈ listing b) /\
  (forall o, o ∈ listing b -> place o ∉ map fst dead -> o ∈ listing b').
Proof.
  intros E dead. unfold run_once in E. fold dead in E.
  destruct (delete_batches (batches (dead ≫= snd)) b) as [[e'|] b1] eqn:D; [|discriminate].
  injection E as <- <- <-. split; [done|].
  pose proof (delete_batches_only (batches (dead ≫= snd)) b) as O. rewrite D, batches_concat in O. cbn [snd] in O.
  split; intros o Ho.
  - by apply (O o).
  - intros N. apply (O o); [done|]. pose proof (planned_key cfg c now (listing b) o Ho) as K. fold dead in K. tauto.
Qed.
End Results.

(** ** A store, and concrete passes *)

(** Objects with a set of keys that are refused. *)
#[export] Instance list_store : ObjectStore := {|
  bucket := list s3_object * list string;
  paginate b := [b.1];
  delete_objects ks b :=
    let errors := filter (fun k => k ∈ b.2) ks in
    (errors, (filter (fun o => o.(key) ∉ ks \/ o.(key) ∈ errors) b.1, b.2))
|}.
#[export] Instance list_store_laws : ObjectStoreLaws list_store.
Proof. split. intros ks [os locked]. cbn. by rewrite !app_nil_r. Qed.

(** Two committed checkpoints of a running run, an upload that was given up, and a run
    nobody knows. *)
Definition sample_objects : list s3_object :=
  [Obj "r1/c1/sha256-aa-rank-0.bin" 1000 400; Obj "r1/c1/_manifest.json" 1001 9;
   Obj "r1/c2/sha256-bb-rank-0.bin" 2000 400; Obj "r1/c2/_manifest.json" 2001 9;
   Obj "r1/c3/sha256-cc-rank-0.bin" 1500 100;
   Obj "old/c9/_manifest.json" 10 9; Obj "README" 5 1].
Definition sample_coord : Coordinator.t :=
  Coordinator.Coord {[ "r1" := Coordinator.Run RUNNING 100 2001 (Some "c2") None ]}
    {[ "c1" := Coordinator.Checkpoint "r1" 50 CCOMMITTED 1000;
       "c2" := Coordinator.Checkpoint "r1" 100 CCOMMITTED 2000 ]} ∅.

Definition sample_bucket (locked : list string) : @bucket list_store := (sample_objects, locked).

Example sample_pass :
  let '(r, c, b) := run_once (from_env 1 0 600) 3000 sample_coord (sample_bucket []) in
  r = inr (PassResult 3 4 518) /\ map key b.1 = ["r1/c2/sha256-bb-rank-0.bin"; "r1/c2/_manifest.json"; "README"] /\
  Coordinator.checkpoints c !! "c1" = None.
Proof. vm_compute. done. Qed.

(** The grace period does not protect every upload that is being written: whatever
    its length, with the default settings there is a bucket in which a pass deletes an
    upload without a manifest in the instant it was written, because its run is not
    among those retained. *)
Theorem retention_ignores_grace (grace : Z) :
  exists now objects g,
    g ∈ to_delete (from_env 30 5 grace) (Coordinator.Coord ∅ ∅ ∅) now objects /\
    has_manifest g = false /\ latest g = now.
Proof.
  exists 100, (map (fun r => Obj (r +:+ "/c/rank-0.bin") 100 1) ["r1"; "r2"; "r3"; "r4"; "r5"; "r6"]),
    (("r6", "c"), [Obj "r6/c/rank-0.bin" 100 1]).
  split; [|done]. apply plan_reasons; [done|]. split.
  - apply (bool_decide_eq_true_1 _). vm_compute. reflexivity.
  - left. apply (bool_decide_eq_true_1 _). vm_compute. reflexivity.
Qed.

Definition old_checkpoint : group :=
  (("r1", "c1"), [Obj "r1/c1/sha256-aa-rank-0.bin" 1000 400; Obj "r1/c1/_manifest.json" 1001 9]).

(** With a coordinator that knows no run, the run written last is kept all the same. *)
Lemma retention_keeps_newest_witness :
  exists kept, length kept = 1%nat /\ NoDup kept /\
    Forall (fun k => k ∈ grouped sample_objects /\ run_of k = "r1" /\ has_manifest k = true /\
                     (k ∉ to_delete (from_env 1 0 600) (Coordinator.Coord ∅ ∅ ∅) 3000 sample_objects) /\
                     latest old_checkpoint <= latest k) kept.
Proof.
  assert (D : old_checkpoint ∈ to_delete (from_env 1 0 600) (Coordinator.Coord ∅ ∅ ∅) 3000 sample_objects)
    by (apply (bool_decide_eq_true_1 _); vm_compute; reflexivity).
  assert (R : recent (from_env 1 0 600) sample_objects (run_of old_checkpoint)) by (unfold recent; vm_compute; discriminate).
  exact (proj1 (retention_keeps_newest (from_env 1 0 600) (Coordinator.Coord ∅ ∅ ∅) 3000 sample_objects old_checkpoint
                  ltac:(done) D (or_intror R)) eq_refl).
Defined.

Lemma retention_pass_witness :
  let '(r, c, b) := run_once (from_env 1 0 600) 3000 sample_coord (sample_bucket []) in
  r = inr (PassResult 3 4 518) /\ 518 = total_size sample_objects - total_size (b.1 ++ []).
Proof.
  destruct (run_once (from_env 1 0 600) 3000 sample_coord (sample_bucket [])) as [[r c] b] eqn:E.
  assert (Er : r = inr (PassResult 3 4 518)).
  { change r with (fst (fst (r, c, b))). rewrite <- E. vm_compute. reflexivity. }
  rewrite Er in E. split; [exact Er|].
  exact (proj1 (proj2 (proj2 (proj2 (retention_pass _ _ _ _ _ _ _ E))))).
Defined.

Lemma retention_bounds_witness :
  let b := (run_once (from_env 1 0 600) 3000 sample_coord (sample_bucket [])).2 in
  Z.of_nat (length (by_run (b.1 ++ []))) <= 2.
Proof.
  destruct (run_once (from_env 1 0 600) 3000 sample_coord (sample_bucket [])) as [[r c] b] eqn:E.
  assert (Er : r = inr (PassResult 3 4 518)).
  { change r with (fst (fst (r, c, b))). rewrite <- E. vm_compute. reflexivity. }
  rewrite Er in E. cbn [snd].
  exact (proj2 (retention_bounds (from_env 1 0 600) 3000 sample_coord (sample_bucket []) _ c b
                  ltac:(done) ltac:(done) E)).
Defined.

Lemma retention_failure_witness :
  let '(r, c, b) := run_once (from_env 1 0 600) 3000 sample_coord (sample_bucket ["r1/c1/_manifest.json"]) in
  r = inl "r1/c1/_manifest.json" /\ c = sample_coord.
Proof.
  destruct (run_once (from_env 1 0 600) 3000 sample_coord (sample_bucket ["r1/c1/_manifest.json"]))
    as [[r c] b] eqn:E.
  assert (Er : r = inl "r1/c1/_manifest.json").
  { change r with (fst (fst (r, c, b))). rewrite <- E. vm_compute. reflexivity. }
  rewrite Er in E. split; [exact Er|]. exact (proj1 (retention_failure _ _ _ _ _ _ _ E)).
Defined.
