(* ===== verification/Heartbeat.v ===== *)
(** * Heartbeat monitoring: [python-controlplane/src/controlplane/heartbeat.py]

    The leases of the workers and the scan that declares silent workers dead. A lease is
    an object that the lease table and a running scan share: the scan walks a snapshot of
    the table, and a callback may unregister workers that are still ahead of it. Leases
    are therefore kept in a store of objects and named by their index; times are ticks of
    the monotonic clock in milliseconds. *)

From stdpp Require Import sorting.
From S2P Require Import Prelude Dict.

Record lease : Type := Lease { l_run : string; last_heartbeat : Z; last_step : Z; is_alive : bool }.

Definition kill (l : lease) : lease := Lease l.(l_run) l.(last_heartbeat) l.(last_step) false.
(** [WorkerLease.touch] *)
Definition touch (now step : Z) (l : lease) : lease := Lease l.(l_run) now step true.

Record manager : Type := Manager { objects : list lease; leases : dict string nat }.
Definition init_manager : manager := Manager [] [].

(** ** Operations *)

Definition register (worker run : string) (now : Z) (m : manager) : manager :=
  Manager (m.(objects) ++ [Lease run now 0 true]) (map_set worker (length m.(objects)) m.(leases)).

Definition unregister (worker : string) (m : manager) : manager :=
  match map_get worker m.(leases) with
  | Some id => Manager (alter kill id m.(objects)) (map_delete worker m.(leases))
  | None => m
  end.

(** The flag tells whether the worker is tracked. *)
Definition record_heartbeat (worker : string) (step now : Z) (m : manager) : bool * manager :=
  match map_get worker m.(leases) with
  | Some id => (true, Manager (alter (touch now step) id m.(objects)) m.(leases))
  | None => (false, m)
  end.

(** The workers whose lease is alive, with the time since their last heartbeat *)
Definition get_heartbeat_lags (now : Z) (m : manager) : list (string * Z) :=
  omap (fun e => match m.(objects) !! e.2 with
                 | Some l => if l.(is_alive) then Some (e.1, now - l.(last_heartbeat)) else None
                 | None => None
                 end) m.(leases).

(** What happens to the manager: calls by the endpoints, and a round of
    [_monitor_loop] *)
Inductive event : Type :=
| Registered (worker run : string)
| Unregistered (worker : string)
| Beat (worker : string) (step : Z)
| Poll.
#[export] Instance event_eq_dec : EqDecision event.
Proof. solve_decision. Defined.

(** ** The scan

    [W] is the state of the whole control plane, [on_dead] what follows the declaration:
    the coordinator is told and the failure callbacks run. The [i]-th lease is compared
    with the [i]-th reading of the clock. The second result is the sequence of workers
    declared dead, which is logged. *)
Section Scan.
Context {W : Type} (mgr : W -> manager) (set_mgr : manager -> W -> W).
Context (on_dead : string -> string -> W -> W) (dead_threshold : Z).

Fixpoint scan (clock : nat -> Z) (i : nat) (snapshot : list (string * nat)) (w : W) : W * list (string * string) :=
  match snapshot with
  | [] => (w, [])
  | (worker, id) :: rest =>
      match (mgr w).(objects) !! id with
      | Some l =>
          if l.(is_alive) && (dead_threshold <? clock i - l.(last_heartbeat)) then
            let w := set_mgr (Manager (alter kill id (mgr w).(objects)) (mgr w).(leases)) w in
            let w := on_dead worker l.(l_run) w in
            let '(w, dead) := scan clock (S i) rest w in
            (w, (worker, l.(l_run)) :: dead)
          else scan clock (S i) rest w
      | None => scan clock (S i) rest w
      end
  end.

Definition check_workers (clock : nat -> Z) (w : W) : W * list (string * string) :=
  scan clock 0 (mgr w).(leases) w.

(** A call at time [t], or a round of [_monitor_loop]. The scan runs without a pause, so
    its clock stands still. *)
Definition handle (t : Z) (e : event) (w : W) : W * list (string * string) :=
  match e with
  | Registered worker run => (set_mgr (register worker run t (mgr w)) w, [])
  | Unregistered worker => (set_mgr (unregister worker (mgr w)) w, [])
  | Beat worker step => (set_mgr (snd (record_heartbeat worker step t (mgr w))) w, [])
  | Poll => check_workers (fun _ => t) w
  end.

Fixpoint trace (evs : list (Z * event)) (w : W) : W * list (Z * (string * string)) :=
  match evs with
  | [] => (w, [])
  | (t, e) :: evs =>
      let '(w, dead) := handle t e w in
      let '(w, log) := trace evs w in
      (w, map (pair t) dead ++ log)
  end.
End Scan.

(** The event counts as hearing from the worker. *)
Definition heard_from (worker : string) (e : event) : bool :=
  match e with
  | Registered w _ | Beat w _ => bool_decide (w = worker)
  | _ => false
  end.
Definition names (worker : string) (e : event) : bool :=
  heard_from worker e || match e with Unregistered w => bool_decide (w = worker) | _ => false end.

(** ** Well-formedness *)

(** Every worker has its own lease object. *)
Definition wf (m : manager) : Prop :=
  NoDup (map fst m.(leases)) /\ NoDup (map snd m.(leases)) /\
  Forall (fun e => (e.2 < length m.(objects))%nat) m.(leases).

Lemma map_set_fresh (k : string) (n : nat) (l : dict string nat) :
  NoDup (map snd l) -> Forall (fun e => e.2 <> n) l -> NoDup (map snd (map_set k n l)).
Proof.
  intros N F. induction F as [|[k0 n0] l Hn F IH]; cbn [map_set map snd]; [apply NoDup_singleton|].
  cbn [map snd] in N. apply NoDup_cons in N as [N0 N].
  assert (X : forall a, a ∈ map snd (map_set k n l) -> a = n \/ a ∈ map snd l).
  { clear. intros a. induction l as [|[k1 n1] l IH]; cbn [map_set map snd].
    - intros ->%list_elem_of_singleton. by left.
    - destruct (decide (k1 = k)); cbn [map snd]; rewrite !elem_of_cons; tauto. }
  destruct (decide (k0 = k)); cbn [map snd]; apply NoDup_cons.
  - split; [|done]. intros I. apply list_elem_of_fmap in I as (e1 & -> & I).
    rewrite Forall_forall in F. by apply (F e1).
  - split; [|by apply IH]. intros I. apply X in I as [->|I]; [by apply Hn|done].
Qed.

Lemma register_wf worker run now m : wf m -> wf (register worker run now m).
Proof.
  intros (K & I & B). unfold wf, register. cbn. rewrite length_app. cbn [length]. split_and!.
  - by apply map_set_nodup.
  - apply map_set_fresh; [done|]. eapply Forall_impl; [exact B|]. cbn. lia.
  - apply map_set_Forall; [|cbn; lia]. eapply Forall_impl; [exact B|]. cbn. lia.
Qed.

Lemma unregister_wf worker m : wf m -> wf (unregister worker m).
Proof.
  intros (K & I & B). unfold unregister. destruct (map_get worker (leases m)) as [id|]; [|done].
  unfold wf. cbn. rewrite length_alter. split_and!.
  - by apply map_delete_nodup.
  - unfold map_delete. clear K B. induction (leases m) as [|e l IH]; [done|].
    cbn [map] in I. apply NoDup_cons in I as [He I]. rewrite filter_cons.
    destruct (decide _); [|by apply IH]. cbn [map]. apply NoDup_cons. split; [|by apply IH].
    intros J. apply He. apply list_elem_of_fmap in J as (e' & -> & J%list_elem_of_filter).
    apply list_elem_of_fmap. exists e'. tauto.
  - apply Forall_forall. intros e He. apply list_elem_of_filter in He as [_ He].
    rewrite Forall_forall in B. by apply B.
Qed.

Lemma record_heartbeat_wf worker step now m : wf m -> wf (snd (record_heartbeat worker step now m)).
Proof.
  intros (K & I & B). unfold record_heartbeat. destruct (map_get worker (leases m)); [|done].
  unfold wf. cbn. by rewrite length_alter.
Qed.
#[export] Hint Resolve register_wf unregister_wf record_heartbeat_wf : console.

(** ** What a scan does *)

(** Leases are only ever killed, never revived or replaced, and one that leaves the
    table is dead. *)
Record quiet (m m' : manager) : Prop := {
  quiet_objects : Forall2 (fun l l' => l' = l \/ l' = kill l) m.(objects) m'.(objects);
  quiet_leases : m'.(leases) `sublist_of` m.(leases);
  quiet_left e l : e ∈ m.(leases) -> m'.(objects) !! e.2 = Some l -> l.(is_alive) = true -> e ∈ m'.(leases)
}.

Lemma quiet_lookup m m' id l :
  quiet m m' -> m.(objects) !! id = Some l ->
  exists l', m'.(objects) !! id = Some l' /\ (l' = l \/ l' = kill l).
Proof. intros [Q _ _] E. exact (Forall2_lookup_l _ _ _ _ _ Q E). Qed.
(** An object alive afterwards is what it was before. *)
Lemma quiet_alive m m' id l' :
  quiet m m' -> m'.(objects) !! id = Some l' -> l'.(is_alive) = true -> m.(objects) !! id = Some l'.
Proof.
  intros [Q _ _] E A. destruct (Forall2_lookup_r _ _ _ _ _ Q E) as (l & El & [-> | ->]); [exact El|discriminate A].
Qed.

#[export] Instance quiet_refl : Reflexive quiet.
Proof.
  intros m. split; [|done|done].
  apply Forall2_same_length_lookup. split; [done|]. intros i x y -> [= ->]. by left.
Qed.
#[export] Instance quiet_trans : Transitive quiet.
Proof.
  intros m1 m2 m3 Q1 Q2. split.
  - apply Forall2_same_length_lookup. split.
    + transitivity (length m2.(objects)); eapply Forall2_length, quiet_objects; done.
    + intros i x z Ex Ez. destruct (quiet_lookup _ _ _ _ Q1 Ex) as (y & Ey & Hy).
      destruct (quiet_lookup _ _ _ _ Q2 Ey) as (z' & Ez' & Hz). rewrite Ez in Ez'. injection Ez' as <-.
      destruct Hy as [->| ->], Hz as [->| ->]; tauto.
  - etrans; by apply quiet_leases.
  - intros e l I E A. eapply (quiet_left _ _ Q2); [|done..].
    eapply (quiet_left _ _ Q1); [done| |done]. by eapply quiet_alive.
Qed.

Lemma quiet_wf m m' : quiet m m' -> wf m -> wf m'.
Proof.
  intros [Q S _] (K & I & B). apply Forall2_length in Q. unfold wf. rewrite <- Q.
  assert (N : forall A (f : string * nat -> A), NoDup (map f m.(leases)) -> NoDup (map f m'.(leases))).
  { intros A f. clear -S. induction S as [|x l k S IH|x l k S IH]; cbn [map]; [done| |].
    - intros [Hx N]%NoDup_cons. apply NoDup_cons. split; [|by apply IH]. intros J. apply Hx.
      apply list_elem_of_fmap in J as (y & -> & J). apply list_elem_of_fmap. exists y. split; [done|].
      eapply elem_of_submseteq; [done|by apply sublist_submseteq].
    - intros [_ N]%NoDup_cons. by apply IH. }
  split_and!; [by apply N|by apply N|]. apply Forall_forall. intros e He. rewrite Forall_forall in B.
  apply B. eapply elem_of_submseteq; [done|by apply sublist_submseteq].
Qed.

Lemma quiet_kill id m : quiet m (Manager (alter kill id m.(objects)) m.(leases)).
Proof.
  split; [|done|done]. cbn. apply Forall2_same_length_lookup. split; [by rewrite length_alter|].
  intros i x y E. rewrite list_lookup_alter. case_decide as D; [rewrite D|]; rewrite E; intros [= <-]; tauto.
Qed.
Lemma unregister_quiet worker m : wf m -> quiet m (unregister worker m).
Proof.
  intros (K & _). unfold unregister. destruct (map_get worker (leases m)) as [id|] eqn:G; [|done].
  split; [apply quiet_kill|apply sublist_filter|]. cbn. intros [wk id'] l I E A.
  apply list_elem_of_filter. split; [|done]. cbn [fst]. intros ->.
  apply (elem_map_get _ _ _ K) in I. rewrite G in I. injection I as <-. cbn [snd] in E.
  rewrite list_lookup_alter_eq in E. destruct (objects m !! id) as [l0|]; [|discriminate].
  injection E as <-. discriminate A.
Qed.
#[export] Hint Resolve quiet_kill unregister_quiet quiet_wf : console.

(** What a failure callback may do to the leases: drop entries of the table, whose
    objects it kills. Entries that stay keep their object. *)
Record drops (m m' : manager) : Prop := {
  drops_quiet :> quiet m m';
  drops_kept e : e ∈ m'.(leases) -> m'.(objects) !! e.2 = m.(objects) !! e.2
}.

Lemma quiet_sub m m' e : quiet m m' -> e ∈ m'.(leases) -> e ∈ m.(leases).
Proof. intros Q I. eapply elem_of_submseteq; [done|]. by apply sublist_submseteq, quiet_leases. Qed.

#[export] Instance drops_refl : Reflexive drops.
Proof. intros m. by split. Qed.
#[export] Instance drops_trans : Transitive drops.
Proof.
  intros m1 m2 m3 D1 D2. split; [by transitivity m2; apply drops_quiet|].
  intros e I. rewrite (drops_kept _ _ D2 e I). apply (drops_kept _ _ D1). by eapply quiet_sub; [apply D2|].
Qed.
Lemma unregister_drops worker m : wf m -> drops m (unregister worker m).
Proof.
  intros Wf. split; [by apply unregister_quiet|]. destruct Wf as (K & I & _). unfold unregister.
  destruct (map_get worker (leases m)) as [id|] eqn:G; [|done]. cbn.
  intros e He. apply list_elem_of_filter in He as [Ne He]. apply list_lookup_alter_ne. intros ->.
  apply Ne. apply map_get_elem in G. by rewrite (NoDup_map_inj snd _ e (worker, _) I He G).
Qed.
#[export] Hint Resolve unregister_drops drops_refl : console.

Section ScanProps.
Context {W : Type} (mgr : W -> manager) (set_mgr : manager -> W -> W).
Context (on_dead : string -> string -> W -> W) (dead_threshold : Z).
Context (mgr_set : forall m w, mgr (set_mgr m w) = m).
Context (on_dead_drops : forall worker run w, wf (mgr w) -> drops (mgr w) (mgr (on_dead worker run w))).
#[local] Abbreviation scan := (scan mgr set_mgr on_dead dead_threshold).

(** No two workers of the snapshot and the table share an object. *)
#[local] Definition apart (snapshot table : dict string nat) : Prop :=
  forall s e, s ∈ snapshot -> e ∈ table -> s.2 = e.2 -> s.1 = e.1.

Record scanned (clock : nat -> Z) (i n : nat) (snapshot : dict string nat) (m m' : manager) (dead : list (string * string)) : Prop := {
  scanned_quiet : quiet m m';
  scanned_once : map fst dead `sublist_of` map fst snapshot;
  scanned_dead worker run : (worker, run) ∈ dead ->
    exists id l j, (worker, id) ∈ snapshot /\ m.(objects) !! id = Some l /\
      l.(is_alive) = true /\ l.(l_run) = run /\ dead_threshold < clock j - l.(last_heartbeat) /\
      m'.(objects) !! id = Some (kill l) /\ (i <= j < i + n)%nat;
  scanned_alive worker id l' : (worker, id) ∈ snapshot -> m'.(objects) !! id = Some l' ->
    l'.(is_alive) = true -> exists j, clock j - l'.(last_heartbeat) <= dead_threshold /\ (i <= j < i + n)%nat;
  scanned_kept e : e ∈ m'.(leases) -> m'.(objects) !! e.2 = m.(objects) !! e.2 \/ e.1 ∈ map fst dead
}.

Lemma scanned_skip clock i n s snapshot m m' dead :
  scanned clock (S i) n snapshot m m' dead ->
  (forall l', m'.(objects) !! s.2 = Some l' -> l'.(is_alive) = true -> clock i - l'.(last_heartbeat) <= dead_threshold) ->
  scanned clock i (S n) (s :: snapshot) m m' dead.
Proof.
  intros [Q O D A K] H. split; [done|by apply sublist_cons| | |done].
  - intros wk r (id & l & j & I & R1 & R2 & R3 & R4 & R5 & R6)%D. exists id, l, j.
    split_and!; first [done|lia|by right].
  - intros wk id l' [<-|I]%elem_of_cons E L; [exists i; split; [by apply H|lia]|].
    destruct (A wk id l' I E L) as (j & C & J). exists j. split; [done|lia].
Qed.

Lemma scan_spec clock snapshot i w :
  wf (mgr w) -> apart snapshot (mgr w).(leases) ->
  let '(w', dead) := scan clock i snapshot w in
  scanned clock i (length snapshot) snapshot (mgr w) (mgr w') dead.
Proof.
  revert i w. induction snapshot as [|[worker id] rest IH]; intros i w Wf Ap.
  { split; [done|done|by intros ? ? ?%elem_of_nil|by intros ? ? ? ?%elem_of_nil|by left]. }
  cbn [Heartbeat.scan length].
  assert (Rest : forall w1, quiet (mgr w) (mgr w1) -> apart rest (mgr w1).(leases)).
  { intros w1 Q s e Is Ie. apply Ap; [by right|by eapply quiet_sub]. }
  destruct ((mgr w).(objects) !! id) as [l|] eqn:El; [destruct (is_alive l && _) eqn:T|].
  - bool_hyps. set (w0 := set_mgr _ w). set (w1 := on_dead worker (l_run l) w0).
    assert (Q0 : quiet (mgr w) (mgr w0)) by (unfold w0; rewrite mgr_set; apply quiet_kill).
    pose proof (on_dead_drops worker (l_run l) w0 (quiet_wf _ _ Q0 Wf)) as Dd.
    assert (Q1 : quiet (mgr w) (mgr w1)) by (etrans; [exact Q0|apply Dd]).
    specialize (IH (S i) w1 (quiet_wf _ _ Q1 Wf) (Rest _ Q1)).
    destruct (scan clock (S i) rest w1) as [w' dead]. destruct IH as [Q O D A K].
    assert (K0 : (mgr w0).(objects) !! id = Some (kill l))
      by (unfold w0; rewrite mgr_set; cbn; by rewrite list_lookup_alter_eq, El).
    assert (K' : (mgr w').(objects) !! id = Some (kill l)).
    { assert (Q' : quiet (mgr w0) (mgr w')) by (etrans; [apply Dd|exact Q]).
      destruct (quiet_lookup _ _ _ _ Q' K0) as (x & -> & [->| ->]); done. }
    split; [by etrans|by apply sublist_skip| | |].
    + intros wk r [[= -> ->]|I]%elem_of_cons.
      * exists id, l, i. split_and!; first [done|lia|by left].
      * apply D in I as (id' & l' & j & I & E' & L & R & C & Kl & J).
        exists id', l', j. split_and!; first [done|lia|by right|by eapply quiet_alive].
    + intros wk id' l' [[= -> ->]|I]%elem_of_cons E L; [rewrite K' in E; by injection E as <-|].
      destruct (A wk id' l' I E L) as (j & C & J). exists j. split; [done|lia].
    + intros e I. destruct (decide (id = e.2)) as [Eid|Nid].
      * right. apply elem_of_cons. left. cbn. symmetry. apply (Ap (worker, id) e); [by left|by eapply quiet_sub, I; etrans|done].
      * destruct (K e I) as [->|?]; [left|right; by right].
        etrans; [apply (drops_kept _ _ Dd e); by eapply quiet_sub|]. unfold w0. rewrite mgr_set. cbn.
        by apply list_lookup_alter_ne.
  - specialize (IH (S i) w Wf (Rest _ (reflexivity _))). destruct (scan clock (S i) rest w) as [w' dead].
    apply scanned_skip; [done|]. intros l' E L. cbn in E.
    pose proof (quiet_alive _ _ _ _ (scanned_quiet _ _ _ _ _ _ _ IH) E L) as E'.
    rewrite El in E'. injection E' as ->. rewrite L in T. cbn [andb] in T. bool_hyps. lia.
  - specialize (IH (S i) w Wf (Rest _ (reflexivity _))). destruct (scan clock (S i) rest w) as [w' dead].
    apply scanned_skip; [done|]. intros l' E L. cbn in E.
    pose proof (quiet_alive _ _ _ _ (scanned_quiet _ _ _ _ _ _ _ IH) E L). congruence.
Qed.

#[local] Lemma wf_apart m : wf m -> apart m.(leases) m.(leases).
Proof. intros (_ & N & _) s e Is Ie E. by rewrite (NoDup_map_inj _ _ _ _ N Is Ie E). Qed.

Lemma check_workers_spec clock w :
  wf (mgr w) ->
  let '(w', dead) := check_workers mgr set_mgr on_dead dead_threshold clock w in
  scanned clock 0 (length (mgr w).(leases)) (mgr w).(leases) (mgr w) (mgr w') dead.
Proof.
  intros Wf. apply scan_spec; [done|by apply wf_apart].
Qed.

#[local] Abbreviation handle := (handle mgr set_mgr on_dead dead_threshold).
#[local] Abbreviation trace := (trace mgr set_mgr on_dead dead_threshold).

Lemma handle_wf t e w : wf (mgr w) -> wf (mgr (fst (handle t e w))).
Proof.
  intros Wf. destruct e; cbn; rewrite ?mgr_set; auto with console.
  pose proof (check_workers_spec (fun _ => t) w Wf) as S. destruct (check_workers _ _ _ _ _ w) as [w' dead].
  exact (quiet_wf _ _ (scanned_quiet _ _ _ _ _ _ _ S) Wf).
Qed.

Lemma trace_app evs1 evs2 w :
  trace (evs1 ++ evs2) w =
  (let '(w, log1) := trace evs1 w in let '(w, log2) := trace evs2 w in (w, log1 ++ log2)).
Proof.
  revert w. induction evs1 as [|[t e] evs1 IH]; intros w.
  { cbn. by destruct (trace evs2 w). }
  cbn [app Heartbeat.trace]. destruct (handle t e w) as [w1 dead]. rewrite IH.
  destruct (trace evs1 w1) as [w2 log1]. destruct (trace evs2 w2) as [w3 log2]. by rewrite app_assoc.
Qed.

Lemma trace_wf evs w : wf (mgr w) -> wf (mgr (fst (trace evs w))).
Proof.
  revert w. induction evs as [|[t e] evs IH]; intros w Wf; cbn [Heartbeat.trace]; [done|].
  pose proof (handle_wf t e w Wf) as W1. destruct (handle t e w) as [w1 dead].
  specialize (IH w1 W1). by destruct (trace evs w1).
Qed.

(** *** A worker the manager heard from *)

(** The lease of the worker, if there is one, is not older than [s]. *)
Definition heard (worker : string) (s : Z) (m : manager) : Prop :=
  forall id l, map_get worker m.(leases) = Some id -> m.(objects) !! id = Some l -> s <= l.(last_heartbeat).

Lemma heard_quiet worker s m m' : wf m -> quiet m m' -> heard worker s m -> heard worker s m'.
Proof.
  intros (K & _) Q H id l G E. apply map_get_elem in G. apply (quiet_sub _ _ _ Q) in G.
  apply (elem_map_get _ _ _ K) in G.
  destruct (Forall2_lookup_r _ _ _ _ _ (quiet_objects _ _ Q) E) as (l0 & E0 & [->| ->]); exact (H id l0 G E0).
Qed.

Lemma heard_handle worker s t e w : wf (mgr w) -> s <= t ->
  (heard worker s (mgr w) \/ heard_from worker e = true) -> heard worker s (mgr (fst (handle t e w))).
Proof.
  intros Wf Hst H. destruct e as [wk run|wk|wk step|]; cbn [Heartbeat.handle fst heard_from] in *; rewrite ?mgr_set.
  - intros id l. unfold register. cbn. rewrite map_get_set. case_decide as D.
    + intros [= <-]. rewrite list_lookup_middle by done. intros [= <-]. cbn. lia.
    + intros G E. destruct H as [H|H%bool_decide_eq_true]; [|by destruct D].
      apply (H id l G). assert (id < length (objects (mgr w)))%nat as L.
      { destruct Wf as (_ & _ & B). by apply (map_get_Forall _ _ _ _ B) in G. }
      by rewrite lookup_app_l in E by done.
  - destruct H as [H|]; [|done]. eapply heard_quiet; [exact Wf|by apply unregister_quiet|done].
  - unfold record_heartbeat. destruct (map_get wk (leases (mgr w))) as [id0|] eqn:G0; cbn.
    + intros id l. cbn. intros G. rewrite list_lookup_alter. destruct (decide (id0 = id)) as [D|D].
      * intros (l0 & _ & ->)%fmap_Some. cbn. lia.
      * intros E. destruct H as [H|H%bool_decide_eq_true]; [by eapply H|].
        cbn in G. subst wk. congruence.
    + destruct H as [H|H%bool_decide_eq_true]; [done|]. subst wk. intros id l G. cbn in G. congruence.
  - destruct H as [H|]; [|done]. pose proof (check_workers_spec (fun _ => t) w Wf) as S.
    destruct (check_workers _ _ _ _ _ w) as [w' dead].
    eapply heard_quiet; [exact Wf|exact (scanned_quiet _ _ _ _ _ _ _ S)|done].
Qed.

Lemma heard_trace worker s evs w : wf (mgr w) -> Forall (fun e => s <= e.1) evs ->
  heard worker s (mgr w) -> heard worker s (mgr (fst (trace evs w))).
Proof.
  intros Wf F. revert w Wf. induction F as [|[t e] evs Ht _ IH]; intros w Wf H; cbn [Heartbeat.trace]; [done|].
  pose proof (handle_wf t e w Wf) as W1.
  pose proof (heard_handle worker s t e w Wf Ht (or_introl H)) as H1. destruct (handle t e w) as [w1 dead].
  specialize (IH w1 W1 H1). by destruct (trace evs w1).
Qed.

(** C23: no false alarm. In any history of registrations, heartbeats and scans in the
    order of time, a worker that a scan declares dead at time [t] was last heard from more
    than the threshold before [t]: every registration and heartbeat of that worker before
    the scan is older than that. *)
Theorem declared_silent w pre t worker run :
  wf (mgr w) -> StronglySorted (fun a b => a.1 <= b.1) pre ->
  (worker, run) ∈ snd (handle t Poll (fst (trace pre w))) ->
  forall s e, (s, e) ∈ pre -> heard_from worker e = true -> dead_threshold < t - s.
Proof.
  intros Wf So I s e Ie He. apply list_elem_of_split in Ie as (p1 & p2 & ->).
  apply StronglySorted_app_1_r in So.
  apply StronglySorted_inv in So as [_ So].
  pose proof (trace_wf (p1 ++ (s, e) :: p2) w Wf) as Wf'. revert Wf' I.
  rewrite trace_app. cbn [Heartbeat.trace]. pose proof (trace_wf p1 w Wf) as Wf1.
  destruct (trace p1 w) as [w1 log1]. cbn [fst] in Wf1.
  pose proof (handle_wf s e w1 Wf1) as Wf2.
  pose proof (heard_handle worker s s e w1 Wf1 (Z.le_refl s) (or_intror He)) as H2.
  destruct (handle s e w1) as [w2 dead]. cbn [fst] in Wf2, H2.
  pose proof (heard_trace worker s p2 w2 Wf2 So H2) as H3. destruct (trace p2 w2) as [w3 log3].
  cbn [fst] in *. intros Wf3 I. cbn [Heartbeat.handle] in I.
  pose proof (check_workers_spec (fun _ => t) w3 Wf3) as S. destruct (check_workers _ _ _ _ _ w3) as [w' d].
  destruct (scanned_dead _ _ _ _ _ _ _ S worker run I) as (id & l & j & Il & E & _ & _ & C & _).
  apply (elem_map_get _ _ _ (proj1 Wf3)) in Il. specialize (H3 id l Il E). cbn in C. lia.
Qed.

(** *** A worker that falls silent *)

Definition tracked (worker : string) (id : nat) (l : lease) (m : manager) : Prop :=
  map_get worker m.(leases) = Some id /\ m.(objects) !! id = Some l.
(** No lease of the worker is alive. *)
Definition lost (worker : string) (m : manager) : Prop :=
  forall id l, tracked worker id l m -> l.(is_alive) = false.

Lemma unregister_tracked w m w' id l : wf m -> tracked w' id l (unregister w m) <-> tracked w' id l m /\ w' <> w.
Proof.
  intros (_ & N & _). unfold unregister, tracked. destruct (map_get w (leases m)) as [id0|] eqn:E.
  2: { split; [|tauto]. intros [G O]. split; [done|]. by intros ->; rewrite G in E. }
  cbn. rewrite map_get_delete. destruct (decide (w = w')) as [<-|D]; [naive_solver|].
  split; [intros [G O]; split; [split; [done|]|done]|intros [[G O] _]; split; [done|]].
  - rewrite list_lookup_alter_ne in O; [done|]. intros ->. apply map_get_elem in E, G.
    by injection (NoDup_map_inj snd _ _ _ N E G eq_refl).
  - rewrite list_lookup_alter_ne; [done|]. intros ->. apply map_get_elem in E, G.
    by injection (NoDup_map_inj snd _ _ _ N E G eq_refl).
Qed.

(** The declarations of the worker in a log *)
Definition declared {T : Type} (worker : string) (log : list (T * (string * string))) :
  list (T * (string * string)) := filter (fun e => e.2.1 = worker) log.

Lemma declared_none {T : Type} worker (d : list (string * string)) (t : T) :
  worker ∉ map fst d -> declared worker (map (pair t) d) = [].
Proof.
  intros N. apply filter_none. rewrite Forall_forall. intros [t0 [wk run]] I. cbn. intros ->.
  apply N. apply list_elem_of_fmap in I as (x & [= -> <-] & I). apply list_elem_of_fmap. by exists (worker, run).
Qed.
Lemma declared_unique {T : Type} worker run (d : list (string * string)) (t : T) :
  NoDup (map fst d) -> (worker, run) ∈ d -> declared worker (map (pair t) d) = [(t, (worker, run))].
Proof.
  induction d as [|[wk r] d IH]; cbn [map fst]; [by intros _ ?%elem_of_nil|].
  intros [Nw N]%NoDup_cons [[= -> ->]|I]%elem_of_cons; unfold declared; rewrite filter_cons; cbn [fst snd].
  - rewrite decide_True by done. f_equal. by apply declared_none.
  - rewrite decide_False; [by apply IH|]. intros ->. apply Nw. apply list_elem_of_fmap. by exists (worker, run).
Qed.

Lemma handle_other worker t e w : wf (mgr w) -> names worker e = false -> e <> Poll ->
  forall id, (map_get worker (leases (mgr (fst (handle t e w)))) = map_get worker (leases (mgr w))) /\
  (map_get worker (leases (mgr w)) = Some id ->
   (mgr (fst (handle t e w))).(objects) !! id = (mgr w).(objects) !! id) /\ snd (handle t e w) = [].
Proof.
  intros Wf N NP id. pose proof Wf as (_ & Ids & Bd). unfold names in N.
  assert (Ne : forall wk id', map_get worker (leases (mgr w)) = Some id ->
                map_get wk (leases (mgr w)) = Some id' -> worker <> wk -> id' <> id).
  { intros wk id' G G' D ->. apply D. apply map_get_elem in G, G'.
    by injection (NoDup_map_inj snd _ (worker, id) (wk, id) Ids G G' eq_refl). }
  destruct e as [wk run|wk|wk step|]; [| | |done]; cbn in N |- *; rewrite ?mgr_set;
    rewrite ?orb_false_r in N; apply bool_decide_eq_false in N.
  - cbn. rewrite map_get_set, decide_False by done. split_and!; [done| |done].
    intros G. apply lookup_app_l. by apply (map_get_Forall _ _ _ _ Bd) in G.
  - unfold unregister. destruct (map_get wk (leases (mgr w))) as [id0|] eqn:G0; [|done]. cbn.
    rewrite map_get_delete, decide_False by done. split_and!; [done| |done].
    intros G. apply list_lookup_alter_ne. by eapply (Ne wk).
  - unfold record_heartbeat. destruct (map_get wk (leases (mgr w))) as [id0|] eqn:G0; [|done]. cbn.
    split_and!; [done| |done]. intros G. apply list_lookup_alter_ne. by eapply (Ne wk).
Qed.

Lemma handle_lost worker t e w : wf (mgr w) -> names worker e = false ->
  lost worker (mgr w) ->
  lost worker (mgr (fst (handle t e w))) /\ declared worker (map (pair t) (snd (handle t e w))) = [].
Proof.
  intros Wf N L. destruct (decide (e = Poll)) as [->|NP].
  - cbn. pose proof (check_workers_spec (fun _ => t) w Wf) as S.
    destruct (check_workers _ _ _ _ _ w) as [w' d]. cbn [fst snd]. pose proof S as [Q _ D _ _]. split.
    + intros id l [G E]. destruct (is_alive l) eqn:A; [|done].
      pose proof (quiet_alive _ _ _ _ Q E A) as E0. rewrite <- A. apply (L id). split; [|done].
      apply (elem_map_get _ _ _ (proj1 Wf)). eapply quiet_sub; [done|]. by apply map_get_elem.
    + apply declared_none. intros ([wk run] & -> & I)%list_elem_of_fmap. cbn [fst] in *.
      destruct (D wk run I) as (id & l & j & Il & E & A & _). apply (elem_map_get _ _ _ (proj1 Wf)) in Il.
      by rewrite (L id l (conj Il E)) in A.
  - destruct (map_get worker (leases (mgr w))) as [id|] eqn:G.
    + destruct (handle_other worker t e w Wf N NP id) as (G' & E' & ->). split; [|done].
      intros id' l [G1 E1]. rewrite G', G in G1. injection G1 as <-. rewrite E' in E1 by done. by apply (L id).
    + destruct (handle_other worker t e w Wf N NP O) as (G' & _ & ->). split; [|done].
      intros id' l [G1 _]. congruence.
Qed.

Lemma trace_lost worker evs w : wf (mgr w) -> Forall (fun e => names worker e.2 = false) evs ->
  lost worker (mgr w) ->
  lost worker (mgr (fst (trace evs w))) /\ declared worker (snd (trace evs w)) = [].
Proof.
  intros Wf F. revert w Wf. induction F as [|[t e] evs N _ IH]; intros w Wf L; [done|].
  cbn [Heartbeat.trace]. pose proof (handle_wf t e w Wf) as W1.
  destruct (handle_lost worker t e w Wf N L) as [L1 D1]. destruct (handle t e w) as [w1 dead].
  destruct (IH w1 W1 L1) as [L2 D2]. destruct (trace evs w1) as [w2 log]. cbn in *. split; [done|].
  unfold declared in *. by rewrite filter_app, D1, D2.
Qed.

Lemma trace_gone worker evs w : wf (mgr w) -> Forall (fun e => names worker e.2 = false) evs ->
  map_get worker (leases (mgr w)) = None ->
  map_get worker (leases (mgr (fst (trace evs w)))) = None /\ declared worker (snd (trace evs w)) = [].
Proof.
  intros Wf F G. split.
  2: { apply trace_lost; [done..|]. intros id l [G' _]. congruence. }
  revert w Wf G. induction F as [|[t e] evs N _ IH]; intros w Wf G; [done|].
  cbn [Heartbeat.trace]. pose proof (handle_wf t e w Wf) as W1.
  assert (G1 : map_get worker (leases (mgr (fst (handle t e w)))) = None).
  { destruct (decide (e = Poll)) as [->|NP]; [|by destruct (handle_other worker t e w Wf N NP O) as [-> _]].
    cbn [Heartbeat.handle]. pose proof (check_workers_spec (fun _ => t) w Wf) as S.
    destruct (check_workers _ _ _ _ _ w) as [w' d]. cbn [fst].
    destruct (map_get worker (leases (mgr w'))) as [id|] eqn:G'; [|done].
    apply map_get_elem, (quiet_sub _ _ _ (scanned_quiet _ _ _ _ _ _ _ S)) in G'.
    apply (elem_map_get _ _ _ (proj1 Wf)) in G'. congruence. }
  destruct (handle t e w) as [w1 d]. specialize (IH w1 W1 G1). by destruct (trace evs w1).
Qed.

(** The declaration of another worker at time [t], whose callback took the tracked worker
    out of the table *)
Definition taken (worker : string) (id : nat) (l : lease) (t : Z) (log : list (Z * (string * string))) : Prop :=
  exists other run w, (t, (other, run)) ∈ log /\ other <> worker /\ wf (mgr w) /\ tracked worker id l (mgr w) /\
    map_get worker (leases (mgr (on_dead other run w))) = None.

Lemma taken_app worker id l t log1 log2 : taken worker id l t log1 \/ taken worker id l t log2 -> taken worker id l t (log1 ++ log2).
Proof. intros [(o & r & w & I & T)|(o & r & w & I & T)]; exists o, r, w; rewrite elem_of_app; tauto. Qed.

(** A worker that a scan neither declares nor leaves in the table was taken out of it. *)
Lemma scan_taken worker id l t clock snapshot i w :
  wf (mgr w) -> apart snapshot (mgr w).(leases) -> tracked worker id l (mgr w) ->
  let '(w', dead) := scan clock i snapshot w in
  worker ∉ map fst dead -> map_get worker (leases (mgr w')) = None -> taken worker id l t (map (pair t) dead).
Proof.
  revert i w. induction snapshot as [|[wk id0] rest IH]; intros i w Wf Ap Tr; cbn [Heartbeat.scan].
  { intros _ G. destruct Tr as [Tr _]. congruence. }
  assert (Rest : forall w1, quiet (mgr w) (mgr w1) -> apart rest (mgr w1).(leases)).
  { intros w1 Q s e Is Ie. apply Ap; [by right|by eapply quiet_sub]. }
  pose proof (Rest w (reflexivity _)) as Ap1.
  destruct ((mgr w).(objects) !! id0) as [l0|] eqn:El; [|by apply IH].
  destruct (is_alive l0 && _) eqn:T; [|by apply IH].
  set (w0 := set_mgr _ w). set (w1 := on_dead wk (l_run l0) w0).
  assert (Q0 : quiet (mgr w) (mgr w0)) by (unfold w0; rewrite mgr_set; apply quiet_kill).
  pose proof (quiet_wf _ _ Q0 Wf) as Wf0. pose proof (on_dead_drops wk (l_run l0) w0 Wf0) as Dd.
  assert (Q1 : quiet (mgr w) (mgr w1)) by (etrans; [exact Q0|apply Dd]).
  specialize (IH (S i) w1 (quiet_wf _ _ Q1 Wf) (Rest _ Q1)).
  destruct (scan clock (S i) rest w1) as [w' dead]. cbn [map fst]. intros [Ne Nd]%not_elem_of_cons G.
  assert (Tr0 : tracked worker id l (mgr w0)).
  { destruct Tr as [Tg To]. unfold w0. rewrite mgr_set. split; [done|]. cbn. rewrite list_lookup_alter_ne; [done|].
    intros ->. apply Ne. symmetry. apply (Ap (wk, id) (worker, id)); [by left|by apply map_get_elem|done]. }
  destruct (map_get worker (leases (mgr w1))) as [id1|] eqn:G1.
  - apply (taken_app _ _ _ _ [_]). right. apply IH; [|done..].
    pose proof (map_get_elem _ _ _ G1) as I1. destruct Tr0 as [Tg To].
    assert (id1 = id) as ->.
    { apply (quiet_sub _ _ _ (drops_quiet _ _ Dd)) in I1. apply (elem_map_get _ _ _ (proj1 Wf0)) in I1. congruence. }
    split; [done|]. rewrite <- To. exact (drops_kept _ _ Dd _ I1).
  - exists wk, (l_run l0), w0. split_and!; [by left|by intros ->|done|done|done].
Qed.

(** A tracked worker is left alone, declared dead because it was silent for too long, or
    dropped from the table by the callbacks of another worker's failure. *)
Lemma handle_tracked worker id l t e w :
  wf (mgr w) -> names worker e = false -> tracked worker id l (mgr w) -> l.(is_alive) = true ->
  let '(w', dead) := handle t e w in
  (tracked worker id l (mgr w') /\ declared worker (map (pair t) dead) = [] /\
   (e = Poll -> t - l.(last_heartbeat) <= dead_threshold)) \/
  (lost worker (mgr w') /\ declared worker (map (pair t) dead) = [(t, (worker, l.(l_run)))] /\
   dead_threshold < t - l.(last_heartbeat)) \/
  (map_get worker (leases (mgr w')) = None /\ declared worker (map (pair t) dead) = [] /\
   taken worker id l t (map (pair t) dead)).
Proof.
  intros Wf N [G E] A. pose proof Wf as (K & _). destruct (decide (e = Poll)) as [->|NP].
  2: { pose proof (handle_other worker t e w Wf N NP id) as (G' & E' & D'). destruct (handle t e w) as [w' d].
       cbn [fst snd] in *. subst d. left. unfold tracked. rewrite G', E' by done. done. }
  cbn [Heartbeat.handle]. pose proof (check_workers_spec (fun _ => t) w Wf) as S.
  pose proof (scan_taken worker id l t (fun _ => t) _ 0 w Wf (wf_apart _ Wf) (conj G E)) as Tk.
  unfold check_workers in *. destruct (Heartbeat.scan _ _ _ _ _ _ _ w) as [w' d]. destruct S as [Q O D L Kp].
  assert (In0 : forall id', (worker, id') ∈ leases (mgr w) -> id' = id).
  { intros id' I. apply (elem_map_get _ _ _ K) in I. congruence. }
  assert (ND : NoDup (map fst d)) by (eapply sublist_NoDup; [exact K|exact O]).
  destruct (decide (worker ∈ map fst d)) as [Id|Id].
  - right. left. apply list_elem_of_fmap in Id as ([wk run] & -> & Id). cbn [fst] in *.
    destruct (D wk run Id) as (id' & l' & j & Il & El & Al & <- & C & Kl & _). apply In0 in Il as ->.
    rewrite E in El. injection El as <-. split_and!; [|by apply declared_unique|done].
    intros id' l' [G' E']. apply map_get_elem, (quiet_sub _ _ _ Q), In0 in G' as ->. rewrite Kl in E'.
    by injection E' as <-.
  - destruct (map_get worker (leases (mgr w'))) as [id'|] eqn:G'.
    + left. pose proof (map_get_elem _ _ _ G') as I'. pose proof (In0 _ (quiet_sub _ _ _ Q I')) as ->.
      destruct (Kp _ I') as [E'|]; [|done]. cbn [snd] in E'. rewrite E in E'.
      split_and!; [by split|by apply declared_none|]. intros _.
      destruct (L worker id l) as (j & C & _); [by apply map_get_elem|done..].
    + right. right. split_and!; [done|by apply declared_none|by apply Tk].
Qed.

Lemma trace_tracked worker id l evs w :
  wf (mgr w) -> Forall (fun e => names worker e.2 = false) evs ->
  tracked worker id l (mgr w) -> l.(is_alive) = true ->
  let '(w', log) := trace evs w in
  (tracked worker id l (mgr w') /\ declared worker log = []) \/
  lost worker (mgr w') /\
  ((exists t, declared worker log = [(t, (worker, l.(l_run)))] /\ t ∈ map fst evs /\
     dead_threshold < t - l.(last_heartbeat)) \/
   declared worker log = [] /\ map_get worker (leases (mgr w')) = None /\
   exists t, t ∈ map fst evs /\ taken worker id l t log).
Proof.
  intros Wf F Tr A. revert w Wf Tr. induction F as [|[t e] evs N F IH]; intros w Wf Tr; [by left|].
  cbn [Heartbeat.trace]. pose proof (handle_wf t e w Wf) as W1.
  pose proof (handle_tracked worker id l t e w Wf N Tr A) as H. destruct (handle t e w) as [w1 d].
  cbn [fst] in W1. destruct H as [(Tr1 & Dn & _)|H].
  - specialize (IH w1 W1 Tr1). destruct (trace evs w1) as [w2 log]. unfold declared in *.
    rewrite filter_app, Dn. cbn [app].
    destruct IH as [IH|(Ls & [(t' & Et & It & C)|(Dn' & Gn & t' & It & Tk)])]; [by left|right; split; [done|]..].
    + left. exists t'. split_and!; [done|by right|done].
    + right. split_and!; [done|done|]. exists t'. split; [by right|]. apply taken_app. by right.
  - assert (L1 : lost worker (mgr w1)).
    { destruct H as [[L _]|[Gn _]]; [done|]. intros id' l' [G _]. congruence. }
    destruct H as [(_ & Ed & C)|(Gn & Ed & Tk)].
    + destruct (trace_lost worker evs w1 W1 F L1) as [L2 D2]. destruct (trace evs w1) as [w2 log].
      cbn [fst snd] in *. right. split; [done|]. left. exists t. unfold declared in *. rewrite filter_app, Ed, D2.
      split_and!; [done|by left|done].
    + destruct (trace_gone worker evs w1 W1 F Gn) as [G2 D2]. destruct (trace evs w1) as [w2 log].
      cbn [fst snd] in *. unfold declared in *. rewrite filter_app, Ed, D2. right. split; [intros id' l' [G _]; congruence|].
      right. split_and!; [done|done|]. exists t. split; [by left|]. apply taken_app. by left.
Qed.

(** C24: detection. Let a worker's lease be alive and last heard at [last_heartbeat l],
    and let nothing name that worker any more. If a scan runs at some [t2] past the
    threshold and at most [period] after it, then in the whole history the worker is
    declared dead exactly once, for the run of its lease, later than the threshold and at
    most [threshold + period] after its last heartbeat. It is never declared only where the
    callback of another worker, which was declared dead by [t2], had taken it out of the
    table while it was tracked; in any case no lease of the worker is alive from then on. *)
Theorem detection_delay w worker id l pre t2 post period :
  wf (mgr w) -> tracked worker id l (mgr w) -> l.(is_alive) = true ->
  Forall (fun e => names worker e.2 = false) (pre ++ post) ->
  Forall (fun e => e.1 <= t2) pre ->
  dead_threshold < t2 - l.(last_heartbeat) <= dead_threshold + period ->
  let '(w', log) := trace (pre ++ (t2, Poll) :: post) w in
  lost worker (mgr w') /\
  ((exists t, declared worker log = [(t, (worker, l.(l_run)))] /\
     dead_threshold < t - l.(last_heartbeat) <= dead_threshold + period) \/
   declared worker log = [] /\ map_get worker (leases (mgr w')) = None /\
   exists t, t <= t2 /\ taken worker id l t log).
Proof.
  intros Wf Tr A [F1 F2]%Forall_app B H. rewrite cons_middle, app_assoc, trace_app.
  assert (F3 : Forall (fun e => names worker e.2 = false) (pre ++ [(t2, Poll)])) by (apply Forall_app; auto).
  pose proof (trace_wf (pre ++ [(t2, Poll)]) w Wf) as W1.
  pose proof (trace_tracked worker id l _ w Wf F3 Tr A) as T1.
  destruct (trace (pre ++ [(t2, Poll)]) w) as [w1 log1] eqn:E1. cbn [fst] in W1.
  destruct T1 as [[Tr1 Dn]|[L1 T1]].
  - exfalso. revert E1. rewrite trace_app. pose proof (trace_wf pre w Wf) as W0.
    pose proof (trace_tracked worker id l pre w Wf F1 Tr A) as T0.
    destruct (trace pre w) as [w0 log0]. cbn [fst] in W0. cbn [Heartbeat.trace].
    destruct T0 as [[Tr0 _]|[L0 _]].
    + pose proof (handle_tracked worker id l t2 Poll w0 W0 eq_refl Tr0 A) as T2.
      destruct (handle t2 Poll w0) as [w2 d]. intros [= -> <-]. destruct T2 as [(_ & _ & C)|[(L2 & _)|(G2 & _)]].
      * specialize (C eq_refl). lia.
      * rewrite (L2 id l Tr1) in A. done.
      * destruct Tr1 as [G1 _]. congruence.
    + destruct (handle_lost worker t2 Poll w0 W0 eq_refl L0) as [L2 _].
      destruct (handle t2 Poll w0) as [w2 d]. intros [= -> <-]. rewrite (L2 id l Tr1) in A. done.
  - assert (Le : forall t, t ∈ map fst (pre ++ [(t2, Poll)]) -> t <= t2).
    { intros t It. apply list_elem_of_fmap in It as ([t' e'] & -> & It).
      apply elem_of_app in It as [It|[= -> _]%list_elem_of_singleton]; [|done].
      rewrite Forall_forall in B. by apply (B _ It). }
    destruct T1 as [(t & Et & It & C)|(Dn & Gn & t & It & Tk)].
    + destruct (trace_lost worker post w1 W1 F2 L1) as [L2 D2]. destruct (trace post w1) as [w2 log2].
      cbn [fst snd] in *. split; [done|left]. exists t. unfold declared in *. rewrite filter_app, Et, D2.
      split; [done|]. apply Le in It. lia.
    + destruct (trace_gone worker post w1 W1 F2 Gn) as [G2 D2]. destruct (trace post w1) as [w2 log2].
      cbn [fst snd] in *. unfold declared in *. rewrite filter_app, Dn, D2. split; [intros id' l' [G _]; congruence|].
      right. split_and!; [done|done|]. exists t. split; [by apply Le|]. apply taken_app. by left.
Qed.

(** *** Induction over a scan *)

(** What the scan does to a live lease that has expired *)
Definition declare (worker : string) (id : nat) (l : lease) (w : W) : W :=
  on_dead worker l.(l_run) (set_mgr (Manager (alter kill id (mgr w).(objects)) (mgr w).(leases)) w).

Lemma declare_quiet worker id l w : wf (mgr w) -> quiet (mgr w) (mgr (declare worker id l w)).
Proof.
  intros Wf. unfold declare. set (w0 := set_mgr _ w).
  assert (Q : quiet (mgr w) (mgr w0)) by (unfold w0; rewrite mgr_set; apply quiet_kill).
  etrans; [exact Q|]. apply on_dead_drops. by eapply quiet_wf.
Qed.

(** The live leases of a snapshot are still in the table. *)
#[local] Definition current (snapshot : dict string nat) (w : W) : Prop :=
  forall e l, e ∈ snapshot -> (mgr w).(objects) !! e.2 = Some l -> l.(is_alive) = true -> e ∈ (mgr w).(leases).
#[local] Lemma current_quiet snapshot w w' : quiet (mgr w) (mgr w') -> current snapshot w -> current snapshot w'.
Proof.
  intros Q C e l I E A. eapply quiet_left; [done| |done..]. eapply C; [done| |done]. by eapply quiet_alive.
Qed.
#[local] Lemma current_tail e snapshot w : current (e :: snapshot) w -> current snapshot w.
Proof. intros C e' l I. apply C. by right. Qed.

(** [P] allows for the leases of the runs in [R] and survives their declaration. *)
Lemma scan_invariant (R : string -> Prop) (P : W -> Prop) clock snapshot i w :
  (forall v worker id l, wf (mgr v) -> P v -> tracked worker id l (mgr v) -> l.(is_alive) = true ->
     R l.(l_run) /\ P (declare worker id l v)) ->
  wf (mgr w) -> current snapshot w -> P w ->
  let '(w', dead) := scan clock i snapshot w in
  wf (mgr w') /\ P w' /\ Forall (fun d => R d.2) dead.
Proof.
  intros Step. revert i w. induction snapshot as [|[worker id] rest IH]; intros i w Wf C H; [by split_and!|].
  cbn [Heartbeat.scan]. pose proof (current_tail _ _ _ C) as Ct.
  destruct ((mgr w).(objects) !! id) as [l|] eqn:El; [|by apply IH].
  destruct (is_alive l && _) eqn:T; [|by apply IH]. bool_hyps.
  assert (Tr : tracked worker id l (mgr w)).
  { split; [|done]. apply (elem_map_get _ _ _ (proj1 Wf)). eapply C; [by left|done..]. }
  destruct (Step w worker id l Wf H Tr) as [Hr HP]; [done|].
  pose proof (declare_quiet worker id l w Wf) as Q.
  specialize (IH (S i) _ (quiet_wf _ _ Q Wf) (current_quiet _ _ _ Q Ct) HP).
  fold (declare worker id l w). destruct (scan clock (S i) rest (declare worker id l w)) as [w' dead].
  destruct IH as (Wf' & H' & F). split_and!; [done..|by constructor].
Qed.

(** A run whose first declaration turns [P] into [Q], which allows for no second one *)
Lemma scan_once (run : string) (P Q : W -> Prop) clock snapshot i w :
  (forall v worker id l, wf (mgr v) -> P v -> tracked worker id l (mgr v) -> l.(is_alive) = true ->
     if decide (l.(l_run) = run) then Q (declare worker id l v) else P (declare worker id l v)) ->
  (forall v worker id l, wf (mgr v) -> Q v -> tracked worker id l (mgr v) -> l.(is_alive) = true ->
     l.(l_run) <> run /\ Q (declare worker id l v)) ->
  wf (mgr w) -> current snapshot w -> P w ->
  let '(w', dead) := scan clock i snapshot w in
  (P w' /\ Forall (fun d => d.2 <> run) dead) \/
  (Q w' /\ exists worker, filter (fun d => d.2 = run) dead = [(worker, run)]).
Proof.
  intros StepP StepQ. revert i w. induction snapshot as [|[worker id] rest IH]; intros i w Wf C H; [by left|].
  cbn [Heartbeat.scan]. pose proof (current_tail _ _ _ C) as Ct.
  destruct ((mgr w).(objects) !! id) as [l|] eqn:El; [|by apply IH].
  destruct (is_alive l && _) eqn:T; [|by apply IH]. bool_hyps.
  assert (Tr : tracked worker id l (mgr w)).
  { split; [|done]. apply (elem_map_get _ _ _ (proj1 Wf)). eapply C; [by left|done..]. }
  pose proof (StepP w worker id l Wf H Tr ltac:(done)) as H2.
  pose proof (declare_quiet worker id l w Wf) as Q1. pose proof (quiet_wf _ _ Q1 Wf) as Wf1.
  pose proof (current_quiet _ _ _ Q1 Ct) as C1. fold (declare worker id l w).
  destruct (decide (l.(l_run) = run)) as [Hr|Hr].
  - pose proof (scan_invariant (fun r => r <> run) Q clock rest (S i) _ StepQ Wf1 C1 H2) as I.
    destruct (scan clock (S i) rest (declare worker id l w)) as [w' dead]. destruct I as (_ & HQ & F).
    right. split; [done|]. exists worker. rewrite filter_cons_True, Hr by done. by rewrite filter_none.
  - specialize (IH (S i) _ Wf1 C1 H2). destruct (scan clock (S i) rest (declare worker id l w)) as [w' dead].
    rewrite filter_cons_False by done. destruct IH as [[HP F]|IH]; [left|by right]. split; [done|by constructor].
Qed.

Lemma current_leases w : current (mgr w).(leases) w.
Proof. by intros e l I _ _. Qed.
End ScanProps.

(** ** Configuration *)

(** A Python [or]: the first argument that is not absent or zero, else the default. *)
Definition first_of (a b : option Z) (d : Z) : Z :=
  match a with
  | Some x => if x =? 0 then default d (y ← b; if y =? 0 then None else Some y) else x
  | None => default d (y ← b; if y =? 0 then None else Some y)
  end.

Record config : Type := Config { interval : Z; timeout : Z; threshold : Z; poll : Z }.

(** [HeartbeatConfig.__init__]: the canonical names win over the positional ones. *)
Definition heartbeat_config (i t d p hi lease f c : option Z) : config :=
  Config (first_of hi i 10000) (first_of lease t 30000) (first_of f d 60000) (first_of c p 5000).

(** What [lifespan] configures *)
Definition production : config :=
  heartbeat_config (Some 5000) (Some 10000) (Some 15000) (Some 3000) None None None None.

(** ** At a concrete input: two workers, one silent after its registration *)

Definition sample_manager : manager := register "w1" "r1" 500 (register "w0" "r1" 0 init_manager).

Lemma sample_manager_wf : wf sample_manager.
Proof. repeat apply register_wf. by split_and!; constructor. Qed.

#[local] Abbreviation sample_dead := (fun worker _ m => unregister worker m).

Lemma declared_silent_witness :
  ("w0", "r1") ∈ snd (handle id (fun m _ => m) sample_dead (threshold production) 16000 Poll
    (fst (trace id (fun m _ => m) sample_dead (threshold production)
            [(0, Registered "w0" "r1"); (900, Beat "w0" 3); (15000, Poll); (15500, Beat "w1" 9)] sample_manager))) /\
  threshold production < 16000 - 900.
Proof.
  split; [vm_compute; constructor|].
  refine (declared_silent id (fun m _ => m) sample_dead (threshold production) (fun _ _ => eq_refl) _
    sample_manager [(0, Registered "w0" "r1"); (900, Beat "w0" 3); (15000, Poll); (15500, Beat "w1" 9)] 16000
    "w0" "r1" sample_manager_wf _ _ 900 (Beat "w0" 3) _ eq_refl).
  - intros. by apply unregister_drops.
  - repeat constructor; cbn; lia.
  - vm_compute. constructor.
  - right. left.
Defined.

Lemma detection_delay_witness :
  let '(m', log) := trace id (fun m _ => m) sample_dead (threshold production)
    ([(14000, Poll); (14500, Beat "w1" 7); (17000, Poll)] ++ (17999, Poll) :: [(20000, Poll)]) sample_manager in
  lost "w0" m' /\
  ((exists t, declared "w0" log = [(t, ("w0", "r1"))] /\ 15000 < t - 0 <= 15000 + poll production) \/
   declared "w0" log = [] /\ map_get "w0" (leases m') = None /\
   exists t, t <= 17999 /\ taken id sample_dead "w0" 0 (Lease "r1" 0 0 true) t log).
Proof.
  refine (detection_delay id (fun m _ => m) sample_dead (threshold production) (fun _ _ => eq_refl) _
    sample_manager "w0" 0 (Lease "r1" 0 0 true) [(14000, Poll); (14500, Beat "w1" 7); (17000, Poll)]
    17999 [(20000, Poll)] (poll production) sample_manager_wf _ eq_refl _ _ _).
  - intros. by apply unregister_drops.
  - by split.
  - repeat constructor.
  - repeat constructor; cbn; lia.
  - cbn. lia.
Defined.
