(* ===== verification/Workers.v ===== *)
(** * Worker registration: [python-controlplane/src/controlplane/worker_manager.py]

    The registry of workers above the coordinator's persisted records and the heartbeat
    leases: registration with ranks, deregistration, heartbeats, and rebuilding the
    indexes after a restart of the control plane. The three stores are kept in step by
    these operations alone; [ok] says how, and every operation preserves it. *)

From S2P Require Import Prelude Dict JsString Types ControlPlane Heartbeat.

Inductive worker_status : Type := ACTIVE | DEAD | SUPERSEDED | DEREGISTERED.
#[export] Instance worker_status_eq_dec : EqDecision worker_status.
Proof. solve_decision. Defined.

(** [WorkerInfo], under its worker's identifier *)
Record info : Type := Info { i_run : string; i_rank : Z; i_status : worker_status; i_step : Z }.
Definition set_status (st : worker_status) (i : info) : info := Info i.(i_run) i.(i_rank) st i.(i_step).

(** The coordinator's records under [/workers/{run}/{worker}], and the manager's
    [_workers], [_run_workers] and [_rank_counters], with the leases. *)
Record registry : Type := Registry {
  records : dict (string * string) info;
  index : dict string info;
  run_workers : dict string (gset string);
  rank_counters : dict string Z;
  lease_mgr : Heartbeat.manager
}.

Definition set_records r s := Registry r s.(index) s.(run_workers) s.(rank_counters) s.(lease_mgr).
Definition set_index i s := Registry s.(records) i s.(run_workers) s.(rank_counters) s.(lease_mgr).
Definition set_run_workers w s := Registry s.(records) s.(index) w s.(rank_counters) s.(lease_mgr).
Definition set_ranks r s := Registry s.(records) s.(index) s.(run_workers) r s.(lease_mgr).
Definition set_leases m s := Registry s.(records) s.(index) s.(run_workers) s.(rank_counters) m.

(** ** The coordinator's part *)

(** [None] is the [KeyError] of a worker that has no record. *)
Definition mark_worker_dead (run worker : string) (st : worker_status) (s : registry) : option registry :=
  i ← map_get (run, worker) s.(records);
  Some (set_records (map_set (run, worker) (set_status st i) s.(records)) s).
(** Under [contextlib.suppress(KeyError)] *)
Definition mark_suppressed run worker st s : registry := default s (mark_worker_dead run worker st s).

Definition heartbeat (run worker : string) (step : Z) (s : registry) : option (info * registry) :=
  i ← map_get (run, worker) s.(records);
  let i := Info i.(i_run) i.(i_rank) ACTIVE step in
  Some (i, set_records (map_set (run, worker) i s.(records)) s).

Definition list_workers (run : string) (s : registry) : list (string * info) :=
  omap (fun e => if decide (e.1.1 = run) then Some (e.1.2, e.2) else None) s.(records).

(** [update_run_step] *)
Definition update_run_step (run : string) (step now : Z) (c : Coordinator.t) : Coordinator.t :=
  match Coordinator.kv c !! run with
  | None => c
  | Some r => Coordinator.persist_run c run
      (Coordinator.Run (Coordinator.r_state r) step now (Coordinator.r_last_checkpoint r) (Coordinator.r_error r))
  end.

(** ** The worker manager *)

(** The local object's status, where the worker is known *)
Definition set_local (worker : string) (st : worker_status) (s : registry) : registry :=
  match map_get worker s.(index) with
  | Some i => set_index (map_set worker (set_status st i) s.(index)) s
  | None => s
  end.
Definition drop_lease (worker : string) (s : registry) : registry :=
  set_leases (unregister worker s.(lease_mgr)) s.

Definition members (run : string) (s : registry) : gset string := default ∅ (map_get run s.(run_workers)).
Definition counter (run : string) (s : registry) : Z := default 0 (map_get run s.(rank_counters)).

(** Adding a worker to the indexes: the last part of [register_worker] *)
Definition enroll (worker : string) (i : info) (now : Z) (s : registry) : registry :=
  let s := set_records (map_set (i.(i_run), worker) i s.(records)) s in
  let s := set_index (map_set worker i s.(index)) s in
  let s := set_run_workers (map_set i.(i_run) ({[worker]} ∪ members i.(i_run) s) s.(run_workers)) s in
  set_leases (register worker i.(i_run) now s.(lease_mgr)) s.

(** An earlier registration of the same rank is retired. *)
Definition supersede (run : string) (rank : Z) (s : registry) (old : string) : registry :=
  match map_get old s.(index) with
  | Some i =>
      if bool_decide (i.(i_rank) = rank) && bool_decide (i.(i_status) = ACTIVE) then
        drop_lease old (mark_suppressed run old SUPERSEDED (set_local old SUPERSEDED s))
      else s
  | None => s
  end.

(** [worker] is the fresh identifier; the rank is the one given or the next. *)
Definition register_worker (run : string) (rank : option Z) (worker : string) (now : Z) (s : registry) : info * registry :=
  let '(rank, s) :=
    match rank with
    | None => (counter run s, set_ranks (map_set run (counter run s + 1) s.(rank_counters)) s)
    | Some rank =>
        let s := set_ranks (map_set run (Z.max (counter run s) (rank + 1)) s.(rank_counters)) s in
        (rank, foldl (supersede run rank) s (elements (members run s)))
    end in
  let i := Info run rank ACTIVE 0 in
  (i, enroll worker i now s).

Definition deregister_worker (worker : string) (s : registry) : registry :=
  let s :=
    match map_get worker s.(index) with
    | Some i =>
        let s := set_local worker DEREGISTERED s in
        let s := match map_get i.(i_run) s.(run_workers) with
                 | Some ws => set_run_workers (map_set i.(i_run) (ws ∖ {[worker]}) s.(run_workers)) s
                 | None => s
                 end in
        mark_suppressed i.(i_run) worker DEREGISTERED s
    | None => s
    end in
  drop_lease worker s.

(** [None] tells the worker that it is unknown. *)
Definition update_worker_heartbeat (worker : string) (step now : Z) (s : registry) (c : Coordinator.t) :
    option info * registry * Coordinator.t :=
  match map_get worker s.(index) with
  | Some i =>
      if bool_decide (i.(i_status) = ACTIVE) then
        match heartbeat i.(i_run) worker step s with
        | Some (updated, s) =>
            let s := set_index (map_set worker updated s.(index)) s in
            let c := match Coordinator.kv c !! i.(i_run) with
                     | Some r => if (0 <? step) && (Coordinator.r_step r <? step)
                                 then update_run_step i.(i_run) step now c else c
                     | None => c
                     end in
            (Some updated, set_leases (snd (record_heartbeat worker step now s.(lease_mgr))) s, c)
        | None => (None, s, c)
        end
      else (None, s, c)
  | None => (None, s, c)
  end.

(** [_on_worker_failure]; the coordinator has been told already. *)
Definition on_worker_failure (worker : string) (s : registry) : registry := set_local worker DEAD s.

(** [_rehydrate_workers], on the records that a fresh process finds *)
Definition rehydrate (now : Z) (rs : dict (string * string) info) : registry :=
  foldl (fun s e =>
    let '((run, worker), i) := e in
    let s := set_index (map_set worker i s.(index)) s in
    let s := set_run_workers (map_set run ({[worker]} ∪ members run s) s.(run_workers)) s in
    let s := set_ranks (map_set run (Z.max (counter run s) (i.(i_rank) + 1)) s.(rank_counters)) s in
    if bool_decide (i.(i_status) = ACTIVE) then set_leases (register worker run now s.(lease_mgr)) s else s)
  (Registry rs [] [] [] init_manager) rs.

(** ** Keys of the records *)

Lemma map_set_present {K V} `{EqDecision K} (k : K) (v v0 : V) l :
  map_get k l = Some v0 -> map fst (map_set k v l) = map fst l.
Proof. intros E. rewrite map_set_keys. unfold map_has. by rewrite E. Qed.
Lemma fresh_worker run w i (l : dict (string * string) info) :
  NoDup (map (fun e => e.1.2) l) -> (forall r j, map_get (r, w) l <> Some j) ->
  NoDup (map (fun e => e.1.2) (map_set (run, w) i l)).
Proof.
  intros N F. assert (A : map_set (run, w) i l = l ++ [((run, w), i)]).
  { clear N. induction l as [|[[r v] j] l IH]; [done|]. cbn. destruct (decide _) as [[= -> ->]|Hk].
    - destruct (F run j). cbn. by rewrite decide_True.
    - f_equal. apply IH. intros r' j' E. destruct (decide ((r, v) = (r', w))) as [[= -> ->]|Hn].
      + apply (F r' j). cbn. by rewrite decide_True.
      + apply (F r' j'). cbn. by rewrite decide_False. }
  rewrite A, map_app. cbn. apply NoDup_app. split_and!; [done| |apply NoDup_singleton].
  intros x Hx ->%list_elem_of_singleton. apply list_elem_of_fmap in Hx as ([[r v] j] & E & I). cbn in E. subst v.
  apply (elem_map_get (r, w)) in I; [by apply (F r j)|]. by eapply (NoDup_fmap_1 snd), (eq_ind_r _ N), map_map.
Qed.

(** ** The three stores in step *)

Definition active (i : info) : Prop := i.(i_status) = ACTIVE.

(** A worker is active in the index exactly while it is active in its record and has a
    live lease; the active workers of a run are members of it with distinct ranks, below
    the next rank to assign. *)
Record ok (s : registry) : Prop := {
  ok_wf : Heartbeat.wf s.(lease_mgr);
  ok_distinct_ids : NoDup (map (fun e => e.1.2) s.(records));
  ok_alive w id l : tracked w id l s.(lease_mgr) -> l.(is_alive) = true ->
    exists i, map_get w s.(index) = Some i /\ active i /\ i.(i_run) = l.(l_run);
  ok_monitored w i : map_get w s.(index) = Some i -> active i ->
    exists id l, tracked w id l s.(lease_mgr) /\ l.(is_alive) = true;
  ok_record w i : map_get w s.(index) = Some i ->
    exists r, map_get (i.(i_run), w) s.(records) = Some r /\ r.(i_rank) = i.(i_rank) /\ (active r <-> active i);
  ok_indexed run w r : map_get (run, w) s.(records) = Some r ->
    r.(i_run) = run /\ exists i, map_get w s.(index) = Some i /\ i.(i_run) = run;
  ok_member w i : map_get w s.(index) = Some i -> active i -> w ∈ members i.(i_run) s;
  ok_of_run run w : w ∈ members run s -> exists i, map_get w s.(index) = Some i /\ i.(i_run) = run;
  ok_counter w i : map_get w s.(index) = Some i -> i.(i_rank) < counter i.(i_run) s;
  ok_distinct w w' i i' : map_get w s.(index) = Some i -> map_get w' s.(index) = Some i' ->
    active i -> active i' -> i.(i_run) = i'.(i_run) -> i.(i_rank) = i'.(i_rank) -> w = w'
}.

(** [s'] comes from [s] by retiring some workers. *)
Definition kept (w : string) (s s' : registry) : Prop :=
  map_get w s'.(index) = map_get w s.(index) /\
  (forall run, map_get (run, w) s'.(records) = map_get (run, w) s.(records)) /\
  (forall id l, l.(is_alive) = true -> tracked w id l s'.(lease_mgr) <-> tracked w id l s.(lease_mgr)).
Definition retired (w : string) (s s' : registry) : Prop :=
  lost w s'.(lease_mgr) /\
  exists i i' r', map_get w s.(index) = Some i /\ map_get w s'.(index) = Some i' /\
    i'.(i_run) = i.(i_run) /\ i'.(i_rank) = i.(i_rank) /\ ~ active i' /\
    map_get (i.(i_run), w) s'.(records) = Some r' /\ r'.(i_run) = i.(i_run) /\ r'.(i_rank) = i.(i_rank) /\ ~ active r' /\
    forall run, run <> i.(i_run) -> map_get (run, w) s'.(records) = map_get (run, w) s.(records).
Record demoted (s s' : registry) : Prop := {
  demoted_wf : Heartbeat.wf s.(lease_mgr) -> Heartbeat.wf s'.(lease_mgr);
  demoted_keys : map fst s'.(records) = map fst s.(records);
  demoted_members : s'.(run_workers) = s.(run_workers);
  demoted_ranks : s'.(rank_counters) = s.(rank_counters);
  demoted_each w : kept w s s' \/ retired w s s'
}.

Lemma kept_refl w s : kept w s s.
Proof. by split_and!. Qed.
#[export] Instance demoted_refl : Reflexive demoted.
Proof. intros s. split; [done..|]. intros w. left. apply kept_refl. Qed.
#[export] Instance demoted_trans : Transitive demoted.
Proof.
  intros s1 s2 s3 [W1 Q1 M1 R1 D1] [W2 Q2 M2 R2 D2]. split; [auto|congruence..|]. intros w.
  destruct (D1 w) as [(I1 & E1 & L1)|(L1 & i & i' & r' & X1 & X2 & X3 & X4 & X5 & X6 & X7 & X8 & X9 & X10)];
    destruct (D2 w) as [(I2 & E2 & L2)|(L2 & j & j' & q' & Y1 & Y2 & Y3 & Y4 & Y5 & Y6 & Y7 & Y8 & Y9 & Y10)].
  - left. split_and!; [congruence|intros; by rewrite E2, E1|]. intros id l A. rewrite L2, L1 by done. done.
  - right. split; [done|]. exists j, j', q'. rewrite I1 in Y1. split_and!; try done.
    intros run Hr. by rewrite Y10, E1.
  - right. split.
    + intros id l T. destruct (is_alive l) eqn:A; [|done]. apply L2 in T; [|done]. by rewrite (L1 id l T) in A.
    + exists i, i', r'. split_and!; try done; [congruence|by rewrite E2|]. intros run Hr. by rewrite E2, X10.
  - right. split; [done|]. rewrite X2 in Y1. injection Y1 as <-. exists i, j', q'. rewrite X3 in *.
    split_and!; try done; [congruence..|]. intros run Hr. by rewrite Y10, X10.
Qed.

Lemma demoted_ok s s' : demoted s s' -> ok s -> ok s'.
Proof.
  intros [W Q M R D] O.
  assert (Act : forall w i, map_get w s'.(index) = Some i -> active i -> kept w s s' /\ map_get w s.(index) = Some i).
  { intros w i I A. destruct (D w) as [K|(_ & j & j' & r' & _ & J & _ & _ & NA & _)]; [|congruence].
    split; [done|]. destruct K as (<- & _). done. }
  assert (Any : forall w i, map_get w s'.(index) = Some i ->
            exists i0, map_get w s.(index) = Some i0 /\ i0.(i_run) = i.(i_run) /\ i0.(i_rank) = i.(i_rank)).
  { intros w i I. destruct (D w) as [(E & _)|(_ & j & j' & r' & J0 & J & R1 & R2 & _)].
    - exists i. split_and!; [congruence|done..].
    - rewrite J in I. injection I as <-. by exists j. }
  split.
  - apply W, O.
  - rewrite <- (map_map fst snd), Q, map_map. apply O.
  - intros w id l T A. destruct (D w) as [(E & _ & L)|(L & _)]; [|by rewrite (L id l T) in A].
    rewrite E. apply (ok_alive s O w id l); [by apply L|done].
  - intros w i I A. destruct (Act w i I A) as [(_ & _ & L) I0].
    destruct (ok_monitored s O w i I0 A) as (id & l & T & Al). exists id, l. split; [by apply L|done].
  - intros w i I. destruct (D w) as [(E & Er & _)|(_ & j & j' & r' & J0 & J & R1 & R2 & NA & Rr & _ & R3 & NR & _)].
    + rewrite Er. apply (ok_record s O). congruence.
    + rewrite J in I. injection I as <-. rewrite R1. exists r'. split_and!; [done|congruence|tauto].
  - intros run w r E. destruct (D w) as [(I & Er & _)|(_ & j & j' & r' & J0 & J & R1 & R2 & NA & Rr & Rn & R3 & NR & Ot)].
    + rewrite I. apply (ok_indexed s O). by rewrite <- Er.
    + destruct (decide (run = i_run j)) as [->|Hr].
      * split; [congruence|]. by exists j'.
      * rewrite Ot in E by done. destruct (ok_indexed s O _ _ _ E) as (_ & i & I & Ei). congruence.
  - intros w i I A. destruct (Act w i I A) as [_ I0]. unfold members. rewrite M. by apply (ok_member s O).
  - intros run w Hm. assert (Hm0 : w ∈ members run s) by (revert Hm; unfold members; by rewrite M).
    destruct (ok_of_run s O run w Hm0) as (i & I & R1).
    destruct (D w) as [(E & _)|(_ & j & j' & r' & J0 & J & R2 & _)].
    + exists i. split; [congruence|done].
    + exists j'. split; [done|congruence].
  - intros w i I. destruct (Any w i I) as (i0 & I0 & <- & <-). unfold counter. rewrite R. by apply (ok_counter s O w).
  - intros w w' i i' I I' A A'. apply (ok_distinct s O); [by apply Act|by apply Act|done..].
Qed.

(** ** Retiring one worker *)

(** The leases of all workers but [w] stay, and none of [w]'s is alive. *)
Record released (w : string) (m m' : Heartbeat.manager) : Prop := {
  released_wf : Heartbeat.wf m -> Heartbeat.wf m';
  released_lost : lost w m';
  released_other w' id l : w' <> w -> l.(is_alive) = true -> tracked w' id l m' <-> tracked w' id l m
}.

Lemma unregister_released w m : Heartbeat.wf m -> released w m (unregister w m).
Proof.
  intros Wf. split.
  - intros _. by apply unregister_wf.
  - intros id l T. by apply unregister_tracked in T as [_ []].
  - intros w' id l Hw _. rewrite unregister_tracked by done. tauto.
Qed.

Lemma retire_demoted w i i' r' s s' :
  map_get w s.(index) = Some i -> s'.(index) = map_set w i' s.(index) ->
  i'.(i_run) = i.(i_run) -> i'.(i_rank) = i.(i_rank) -> ~ active i' ->
  (forall k, map_get k s'.(records) = if decide ((i.(i_run), w) = k) then Some r' else map_get k s.(records)) ->
  r'.(i_run) = i.(i_run) -> r'.(i_rank) = i.(i_rank) -> ~ active r' ->
  map fst s'.(records) = map fst s.(records) ->
  s'.(run_workers) = s.(run_workers) -> s'.(rank_counters) = s.(rank_counters) ->
  released w s.(lease_mgr) s'.(lease_mgr) -> demoted s s'.
Proof.
  intros I I' R1 R2 NA Rc R3 R4 NR Ks Mm Rk [Wf L Oth]. split; [done..|]. intros w'.
  destruct (decide (w' = w)) as [->|Hw].
  - right. split; [done|]. exists i, i', r'. rewrite I', map_get_set_eq. split_and!; try done.
    + by rewrite Rc, decide_True.
    + intros run Hr. rewrite Rc, decide_False; congruence.
  - left. split_and!.
    + by rewrite I', map_get_set, decide_False.
    + intros run. rewrite Rc, decide_False; congruence.
    + intros id l A. by apply Oth.
Qed.

(** The record of an indexed worker, and what marking it does *)
Lemma mark_suppressed_spec run w st s r :
  map_get (run, w) s.(records) = Some r ->
  mark_suppressed run w st s = set_records (map_set (run, w) (set_status st r) s.(records)) s.
Proof. intros E. unfold mark_suppressed, mark_worker_dead. by rewrite E. Qed.

(** The three updates that retire a worker *)
Lemma retire_one w i st s :
  ok s -> map_get w s.(index) = Some i -> st <> ACTIVE ->
  demoted s (drop_lease w (mark_suppressed i.(i_run) w st (set_local w st s))).
Proof.
  intros O I Hst. destruct (ok_record s O w i I) as (r & Er & Rk & _).
  destruct (ok_indexed s O _ _ _ Er) as (Rr & _).
  unfold set_local. rewrite I. erewrite mark_suppressed_spec by exact Er.
  apply (retire_demoted w i (set_status st i) (set_status st r)); cbn; try done.
  - intros k. apply map_get_set.
  - by eapply map_set_present.
  - apply unregister_released, O.
Qed.

Lemma supersede_demoted run rank s old : ok s ->
  (forall i, map_get old s.(index) = Some i -> i.(i_run) = run) -> demoted s (supersede run rank s old).
Proof.
  intros O Hrun. unfold supersede. destruct (map_get old (index s)) as [i|] eqn:I; [|done].
  destruct (_ && _) eqn:T; [|done]. bool_hyps.
  rewrite <- (Hrun i) by done. by apply retire_one.
Qed.

Lemma supersede_all run rank ws s :
  ok s -> (forall w i, w ∈ ws -> map_get w s.(index) = Some i -> i.(i_run) = run) ->
  let s' := foldl (supersede run rank) s ws in
  demoted s s' /\ forall w i, w ∈ ws -> map_get w s'.(index) = Some i -> active i -> i.(i_rank) <> rank.
Proof.
  revert s. induction ws as [|x ws IH]; intros s O H; [by split; [|intros ? ? ?%elem_of_nil]|].
  cbn [foldl]. pose proof (supersede_demoted run rank s x O (fun i => H x i (list_elem_of_here _ _))) as D.
  pose proof (demoted_ok _ _ D O) as O1.
  assert (Same : forall w i, map_get w (supersede run rank s x).(index) = Some i ->
            exists j, map_get w s.(index) = Some j /\ i_run j = i_run i).
  { intros w i I. destruct (demoted_each _ _ D w) as [(E & _)|(_ & j & j' & r' & J0 & J & R & _)].
    - exists i. split; [congruence|done].
    - exists j. split; [done|congruence]. }
  destruct (IH (supersede run rank s x) O1) as [D2 R2].
  { intros w i Hw I. destruct (Same w i I) as (j & J & <-). eapply H; [by right|done]. }
  split; [by etrans|]. intros w i [->|Hw]%elem_of_cons I A; [|by eapply R2].
  intros Rk. destruct (demoted_each _ _ D2 x) as [(E & _)|(_ & j & j' & r' & _ & J & _ & _ & NA & _)]; [|congruence].
  rewrite E in I. revert I. unfold supersede. destruct (map_get x (index s)) as [i0|] eqn:I0; [|congruence].
  destruct (_ && _) eqn:T.
  - bool_hyps. destruct (ok_record s O x i0 I0) as (r & Er & _). rewrite (H x i0 (list_elem_of_here _ _) I0) in Er.
    unfold set_local. rewrite I0. erewrite mark_suppressed_spec by exact Er. cbn. rewrite map_get_set_eq.
    intros [= <-]. discriminate A.
  - rewrite I0. intros [= ->]. rewrite Rk, A, !bool_decide_true in T by done. discriminate T.
Qed.

Lemma mark_suppressed_index run w st s : index (mark_suppressed run w st s) = index s.
Proof. unfold mark_suppressed, mark_worker_dead. by destruct (map_get _ (records s)). Qed.

(** Other ranks keep their entry. *)
Lemma supersede_keeps run rank v i ws s :
  map_get v s.(index) = Some i -> i.(i_run) <> run \/ i.(i_rank) <> rank ->
  (forall w j, w ∈ ws -> map_get w s.(index) = Some j -> j.(i_run) = run) ->
  map_get v (foldl (supersede run rank) s ws).(index) = Some i.
Proof.
  revert s. induction ws as [|x ws IH]; intros s I Hd Mb; [done|]. cbn [foldl].
  assert (E : forall w, w <> x -> map_get w (supersede run rank s x).(index) = map_get w s.(index)).
  { intros w Hw. unfold supersede. destruct (map_get x (index s)) as [j|] eqn:J; [|done].
    destruct (_ && _); [|done]. cbn. rewrite mark_suppressed_index. unfold set_local. rewrite J. cbn.
    by rewrite map_get_set, decide_False. }
  assert (Ex : exists j', map_get x (supersede run rank s x).(index) = j' /\
            (map_get x s.(index) = None -> j' = None) /\
            forall j, map_get x s.(index) = Some j -> exists k, j' = Some k /\ i_run k = i_run j /\ (i_rank j <> rank -> k = j)).
  { eexists. split; [done|]. unfold supersede. destruct (map_get x (index s)) as [j|] eqn:J; [|by rewrite J].
    split; [done|]. intros j0 [= <-]. case_bool_decide as Rk; cbn [andb]; [|by exists j].
    case_bool_decide; [|by exists j]. cbn. rewrite mark_suppressed_index. unfold set_local. rewrite J. cbn.
    rewrite map_get_set_eq. exists (set_status SUPERSEDED j). by split_and!. }
  destruct Ex as (j' & Ej & Hn & Hs). apply IH; [|done|].
  - destruct (decide (v = x)) as [->|Hv]; [|by rewrite E]. destruct (Hs i I) as (k & Hk & _ & Kp).
    rewrite Ej, Hk. f_equal. apply Kp. destruct Hd as [Hd|Hd]; [|done].
    destruct Hd. apply (Mb x); [by left|done].
  - intros w j Hw J. destruct (decide (w = x)) as [->|Hx].
    + rewrite Ej in J. destruct (map_get x (index s)) as [j0|] eqn:J0; [|by rewrite Hn in J].
      destruct (Hs j0 eq_refl) as (k & Hk & Rk & _). rewrite Hk in J. injection J as <-. rewrite Rk.
      apply (Mb x); [by left|done].
    + rewrite E in J by done. apply (Mb w); [by right|done].
Qed.

(** ** The operations preserve the invariant *)

Lemma register_tracked w run now m w' id l : Heartbeat.wf m ->
  tracked w' id l (register w run now m) <->
  (w' = w /\ id = length m.(objects) /\ l = Lease run now 0 true) \/ (w' <> w /\ tracked w' id l m).
Proof.
  intros (_ & _ & B). unfold tracked, register. cbn. rewrite map_get_set.
  destruct (decide (w = w')) as [->|Hw].
  - split.
    + intros [[= <-] E]. rewrite list_lookup_middle in E by done. injection E as <-. by left.
    + intros [(_ & -> & ->)|[]]; [|done]. split; [done|]. by apply list_lookup_middle.
  - split.
    + intros [G E]. right. split; [done|]. split; [done|].
      rewrite lookup_app_l in E; [done|]. by apply (map_get_Forall _ _ _ _ B) in G.
    + intros [(-> & _)|(_ & G & E)]; [done|]. split; [done|]. by apply lookup_app_l_Some.
Qed.

Lemma enroll_ok w i now s :
  ok s -> map_get w s.(index) = None -> active i -> i.(i_rank) < counter i.(i_run) s ->
  (forall w' i', map_get w' s.(index) = Some i' -> active i' -> i'.(i_run) = i.(i_run) -> i'.(i_rank) <> i.(i_rank)) ->
  ok (enroll w i now s).
Proof.
  intros O Fr A Ct Ds. pose proof (ok_wf s O) as Wf.
  assert (Mem : forall run v, v ∈ members run (enroll w i now s) <-> (v = w /\ run = i.(i_run)) \/ v ∈ members run s).
  { intros run v. unfold members, enroll. cbn. rewrite map_get_set. fold (members (i_run i) s).
    destruct (decide (i_run i = run)) as [<-|]; cbn.
    - rewrite elem_of_union, elem_of_singleton. unfold members. cbn. tauto.
    - intuition congruence. }
  split.
  - unfold enroll. cbn. by apply register_wf.
  - unfold enroll. cbn. apply fresh_worker; [apply O|]. intros run r E.
    destruct (ok_indexed s O run w r E) as (_ & j & J & _). congruence.
  - intros v id l T Al. unfold enroll in *. cbn in *. apply register_tracked in T; [|done].
    rewrite map_get_set. destruct T as [(-> & _ & ->)|(Hv & T)].
    + rewrite decide_True by done. by exists i.
    + rewrite decide_False by done. by apply (ok_alive s O v id).
  - intros v j. unfold enroll. cbn. rewrite map_get_set. destruct (decide (w = v)) as [<-|Hv].
    + intros [= <-] _. eexists _, _. split; [apply register_tracked; [done|by left]|done].
    + intros I Aj. destruct (ok_monitored s O v j I Aj) as (id & l & T & Al). exists id, l. split; [|done].
      apply register_tracked; [done|]. by right.
  - intros v j. unfold enroll. cbn. rewrite !map_get_set. destruct (decide (w = v)) as [<-|Hv].
    + intros [= <-]. rewrite decide_True by done. by exists i.
    + intros I. rewrite decide_False by congruence. by apply (ok_record s O).
  - intros run v r. unfold enroll. cbn. rewrite !map_get_set. destruct (decide _) as [[= <- <-]|Hk].
    + intros [= <-]. rewrite decide_True by done. split; [done|]. by exists i.
    + intros E. destruct (ok_indexed s O run v r E) as (Rr & j & J & Rj).
      rewrite decide_False by congruence. split; [done|]. by exists j.
  - intros v j. rewrite Mem. unfold enroll. cbn. rewrite map_get_set. destruct (decide (w = v)) as [<-|Hv].
    + intros [= <-] _. by left.
    + intros I Aj. right. by apply (ok_member s O).
  - intros run v. rewrite Mem. unfold enroll. cbn. rewrite map_get_set. intros [[-> ->]|Hm].
    + rewrite decide_True by done. by exists i.
    + destruct (ok_of_run s O run v Hm) as (j & J & Rj). rewrite decide_False by congruence. by exists j.
  - intros v j. unfold enroll, counter. cbn. rewrite map_get_set. destruct (decide (w = v)) as [<-|Hv].
    + intros [= <-]. done.
    + apply (ok_counter s O).
  - intros v v' j j'. unfold enroll. cbn. rewrite !map_get_set.
    destruct (decide (w = v)) as [<-|Hv], (decide (w = v')) as [<-|Hv']; [done| | |apply (ok_distinct s O)].
    + intros [= <-] J' _ A' R1 R2. by destruct (Ds v' j' J' A').
    + intros J [= <-] A' _ R1 R2. by destruct (Ds v j J A').
Qed.

Lemma set_ranks_ok run c s : ok s -> counter run s <= c -> ok (set_ranks (map_set run c s.(rank_counters)) s).
Proof.
  intros [] Hc. split; try done. intros w i I. pose proof (ok_counter0 w i I). unfold counter. cbn.
  rewrite map_get_set. destruct (decide _) as [->|]; cbn; [lia|done].
Qed.

Lemma register_worker_ok run rank w now s :
  ok s -> map_get w s.(index) = None -> ok (snd (register_worker run rank w now s)).
Proof.
  intros O Fr. unfold register_worker. destruct rank as [rank|]; cbn [snd].
  - set (s0 := set_ranks _ s).
    assert (O0 : ok s0) by (apply set_ranks_ok; [done|lia]).
    destruct (supersede_all run rank (elements (members run s)) s0 O0) as [D R].
    { intros v i Hv I. apply elem_of_elements in Hv. destruct (ok_of_run s0 O0 run v Hv) as (j & J & Rj). congruence. }
    set (s1 := foldl (supersede run rank) s0 _) in *. pose proof (demoted_ok _ _ D O0) as O1.
    apply enroll_ok; [done| |done| |].
    + destruct (demoted_each _ _ D w) as [(-> & _)|(_ & j & _ & _ & J & _)]; [done|]. unfold s0 in J. cbn in J. congruence.
    + unfold counter. rewrite (demoted_ranks _ _ D). unfold s0. cbn. rewrite map_get_set_eq. cbn. lia.
    + cbn. intros v i I A Er. apply (R v i); [|done..]. apply elem_of_elements.
      pose proof (ok_member s1 O1 v i I A) as Hm. rewrite Er in Hm. unfold members in Hm.
      by rewrite (demoted_members _ _ D) in Hm.
  - apply enroll_ok; [apply set_ranks_ok; [done|lia]|done|done| |].
    + unfold counter. cbn. rewrite map_get_set_eq. cbn. lia.
    + cbn. intros v i I A Er. pose proof (ok_counter s O v i I) as C. rewrite Er in C. lia.
Qed.

Lemma drop_unknown w s : ok s -> map_get w s.(index) = None -> demoted s (drop_lease w s).
Proof.
  intros O I. pose proof (unregister_released w _ (ok_wf s O)) as [Wf L Oth]. split; [done..|].
  intros v. left. split_and!; [done|done|]. intros id l A. destruct (decide (v = w)) as [->|Hv]; [|by apply Oth].
  split; intros T.
  - by rewrite (L id l T) in A.
  - destruct (ok_alive s O w id l T A) as (i & J & _). congruence.
Qed.

Lemma remove_member_ok run w ws s :
  ok s -> (forall i, map_get w s.(index) = Some i -> ~ active i) -> map_get run s.(run_workers) = Some ws ->
  ok (set_run_workers (map_set run (ws ∖ {[w]}) s.(run_workers)) s).
Proof.
  intros O NA E.
  assert (Mem : forall r v, v ∈ members r (set_run_workers (map_set run (ws ∖ {[w]}) s.(run_workers)) s) <->
            v ∈ members r s /\ (r = run -> v <> w)).
  { intros r v. unfold members. cbn. rewrite map_get_set. destruct (decide (run = r)) as [<-|Hr]; cbn.
    - rewrite E. cbn. rewrite elem_of_difference, elem_of_singleton. tauto.
    - intuition congruence. }
  destruct O. split; try done.
  - intros v i I A. apply Mem. split; [by apply ok_member0|]. intros _ ->. by apply (NA i).
  - intros r v Hv. apply ok_of_run0. by apply Mem in Hv as [? _].
Qed.

Lemma deregister_worker_ok w s : ok s -> ok (deregister_worker w s).
Proof.
  intros O. unfold deregister_worker. destruct (map_get w (index s)) as [i|] eqn:I.
  2: { eapply demoted_ok; [by apply drop_unknown|done]. }
  pose proof (retire_one w i DEREGISTERED s O I) as D. specialize (D ltac:(done)).
  pose proof (demoted_ok _ _ D O) as O1.
  destruct (ok_record s O w i I) as (r & Er & _). unfold set_local in *. rewrite I in *.
  erewrite mark_suppressed_spec in D, O1 by exact Er. cbn [set_index run_workers].
  destruct (map_get (i_run i) (run_workers s)) as [ws|] eqn:E.
  - erewrite mark_suppressed_spec by exact Er. cbn in *.
    apply (remove_member_ok (i_run i) w ws _ O1); [|done]. cbn. intros j.
    rewrite map_get_set_eq. by intros [= <-].
  - by erewrite mark_suppressed_spec by exact Er.
Qed.

Lemma record_heartbeat_tracked w step now m w' id l : Heartbeat.wf m ->
  tracked w' id l (snd (record_heartbeat w step now m)) <->
  exists l0, tracked w' id l0 m /\ l = if decide (w' = w) then touch now step l0 else l0.
Proof.
  intros (K & N & _). unfold record_heartbeat, tracked. destruct (map_get w (leases m)) as [id0|] eqn:G0; cbn.
  - rewrite list_lookup_alter. destruct (decide (id0 = id)) as [->|Hid].
    + rewrite fmap_Some. split.
      * intros (G & l0 & E & ->). exists l0. split; [done|]. rewrite decide_True; [done|].
        apply map_get_elem in G, G0. by injection (NoDup_map_inj snd _ _ _ N G G0 eq_refl).
      * intros (l0 & (G & E) & ->). split; [done|]. exists l0. split; [done|].
        rewrite decide_True; [done|]. apply map_get_elem in G, G0.
        by injection (NoDup_map_inj snd _ _ _ N G G0 eq_refl).
    + split.
      * intros [G E]. exists l. rewrite decide_False; [done|]. congruence.
      * intros (l0 & (G & E) & ->). rewrite decide_False; [done|]. congruence.
  - split.
    + intros [G E]. exists l. rewrite decide_False; [done|]. congruence.
    + intros (l0 & (G & E) & ->). rewrite decide_False; [done|]. congruence.
Qed.

Lemma update_worker_heartbeat_ok w step now s c :
  ok s -> ok (snd (fst (update_worker_heartbeat w step now s c))).
Proof.
  intros O. unfold update_worker_heartbeat. destruct (map_get w (index s)) as [i|] eqn:I; [|done].
  case_bool_decide as A; [|done]. destruct (ok_record s O w i I) as (r & Er & Rk & _).
  destruct (ok_indexed s O _ _ _ Er) as (Rr & _). unfold heartbeat. rewrite Er. cbn.
  set (u := Info (i_run r) (i_rank r) ACTIVE step).
  assert (Old : forall v j, map_get v (map_set w u s.(index)) = Some j ->
    exists j0, map_get v s.(index) = Some j0 /\ i_run j = i_run j0 /\ i_rank j = i_rank j0 /\ (active j <-> active j0)).
  { intros v j. rewrite map_get_set. destruct (decide (w = v)) as [<-|]; [|by exists j].
    intros [= <-]. exists i. by split_and!. }
  pose proof (ok_wf s O) as Wf. split; cbn [lease_mgr index records set_leases set_index set_records].
  - by apply record_heartbeat_wf.
  - rewrite <- (map_map fst snd). erewrite map_set_present by exact Er. rewrite map_map. apply O.
  - intros v id l T Al. apply record_heartbeat_tracked in T as (l0 & T & ->); [|done].
    rewrite map_get_set. destruct (decide (w = v)) as [<-|Hv].
    + rewrite decide_True by done. exists u. split_and!; [done|done|]. unfold u. cbn. rewrite Rr.
      destruct (ok_monitored s O w i I A) as (id' & l' & T' & Al').
      destruct (ok_alive s O w id' l' T' Al') as (j & J & _ & Ej).
      destruct T as [G E], T' as [G' E']. rewrite G in G'. injection G' as <-. rewrite E in E'.
      injection E' as <-. rewrite I in J. by injection J as <-.
    + rewrite decide_False in * by congruence. by apply (ok_alive s O v id).
  - intros v j J Aj. destruct (Old v j J) as (j0 & J0 & _ & _ & Aj0).
    destruct (ok_monitored s O v j0 J0) as (id & l & T & Al); [by apply Aj0|].
    eexists id, _. split; [apply record_heartbeat_tracked; [done|by exists l]|]. by destruct (decide _).
  - intros v j. rewrite !map_get_set. destruct (decide (w = v)) as [<-|Hv].
    + intros [= <-]. unfold u at 1. cbn. rewrite decide_True by congruence. by exists u.
    + intros J. rewrite decide_False by congruence. by apply (ok_record s O).
  - intros run v q. rewrite !map_get_set. destruct (decide _) as [[= <- <-]|Hk].
    + intros [= <-]. rewrite decide_True by done. cbn. split; [done|]. by exists u.
    + intros E. destruct (ok_indexed s O run v q E) as (Rq & j & J & Rj). split; [done|].
      destruct (decide (w = v)) as [<-|]; [|by exists j]. exists u. split; [done|]. cbn. congruence.
  - intros v j J Aj. destruct (Old v j J) as (j0 & J0 & -> & _ & Aj0). apply (ok_member s O v j0 J0). by apply Aj0.
  - intros run v Hv. destruct (ok_of_run s O run v Hv) as (j & J & Rj). rewrite map_get_set.
    destruct (decide (w = v)) as [<-|]; [|by exists j]. exists u. split; [done|]. cbn. congruence.
  - intros v j J. destruct (Old v j J) as (j0 & J0 & -> & -> & _). by apply (ok_counter s O v).
  - intros v v' j j' J J' A1 A2. destruct (Old v j J) as (j0 & J0 & -> & -> & B1).
    destruct (Old v' j' J') as (j0' & J0' & -> & -> & B2). apply (ok_distinct s O); tauto.
Qed.

(** ** Rebuilding the indexes after a restart *)

(** The indexes hold exactly the workers of [ps]. *)
Record indexed (ps : dict (string * string) info) (s : registry) : Prop := {
  ix_wf : Heartbeat.wf s.(lease_mgr);
  ix_index w i : map_get w s.(index) = Some i <-> ((i.(i_run), w), i) ∈ ps;
  ix_member run w : w ∈ members run s <-> exists i, ((run, w), i) ∈ ps;
  ix_counter run w i : ((run, w), i) ∈ ps -> i.(i_rank) < counter run s;
  ix_alive w id l : tracked w id l s.(lease_mgr) -> l.(is_alive) = true /\
    exists i, ((l.(l_run), w), i) ∈ ps /\ active i;
  ix_monitored run w i : ((run, w), i) ∈ ps -> active i -> exists id l, tracked w id l s.(lease_mgr)
}.

#[local] Definition rehydrate_one (now : Z) (s : registry) (e : (string * string) * info) : registry :=
  let '((run, worker), i) := e in
  let s := set_index (map_set worker i s.(index)) s in
  let s := set_run_workers (map_set run ({[worker]} ∪ members run s) s.(run_workers)) s in
  let s := set_ranks (map_set run (Z.max (counter run s) (i.(i_rank) + 1)) s.(rank_counters)) s in
  if bool_decide (i.(i_status) = ACTIVE) then set_leases (register worker run now s.(lease_mgr)) s else s.

Lemma rehydrate_step now ps s run w i :
  indexed ps s -> w ∉ map (fun e => e.1.2) ps -> i.(i_run) = run ->
  indexed (ps ++ [((run, w), i)]) (rehydrate_one now s ((run, w), i)).
Proof.
  intros [Wf Ix Mb Ct Al Mo] Hw Hr.
  assert (New : forall r j, ((r, w), j) ∉ ps).
  { intros r j Hj. apply Hw. apply list_elem_of_fmap. by exists ((r, w), j). }
  assert (Snoc : forall r v j, ((r, v), j) ∈ ps ++ [((run, w), i)] <->
            ((r, v), j) ∈ ps \/ (r = run /\ v = w /\ j = i)).
  { intros r v j. rewrite elem_of_app, list_elem_of_singleton. split; [intros [?|[= -> -> ->]]; auto|].
    intros [?|(-> & -> & ->)]; auto. }
  set (s' := rehydrate_one now s _).
  assert (E : index s' = map_set w i (index s) /\
    (forall r, members r s' = if decide (run = r) then {[w]} ∪ members run s else members r s) /\
    (forall r, counter r s' = if decide (run = r) then Z.max (counter run s) (i_rank i + 1) else counter r s) /\
    lease_mgr s' = if bool_decide (active i) then register w run now (lease_mgr s) else lease_mgr s).
  { unfold s', rehydrate_one, active. case_bool_decide; (split_and!; [done| | |done]); intros r; unfold members, counter; cbn;
      rewrite map_get_set; by destruct (decide _). }
  destruct E as (Ei & Em & Ec & El). split.
  - rewrite El. case_bool_decide; [by apply register_wf|done].
  - intros v j. rewrite Ei, map_get_set, Snoc. destruct (decide (w = v)) as [<-|Hv].
    + split; [intros [= <-]; by right|]. intros [Hj|(_ & _ & ->)]; [by apply New in Hj|done].
    + rewrite Ix. split; [by left|]. intros [?|(_ & -> & _)]; done.
  - intros r v. rewrite Em. setoid_rewrite Snoc. destruct (decide (run = r)) as [<-|Hn].
    + rewrite elem_of_union, elem_of_singleton, Mb. split.
      * intros [->|(j & Hj)]; [exists i; by right|exists j; by left].
      * intros (j & [Hj|(_ & -> & _)]); [right; by exists j|by left].
    + rewrite Mb. split; intros (j & Hj); exists j; [by left|]. destruct Hj as [?|(-> & _)]; done.
  - intros r v j. rewrite Snoc, Ec. intros [Hj|(-> & -> & ->)].
    + apply Ct in Hj. destruct (decide _) as [<-|]; lia.
    + rewrite decide_True by done. lia.
  - intros v id l. rewrite El. setoid_rewrite Snoc. case_bool_decide as A.
    + rewrite register_tracked by done. intros [(-> & _ & ->)|(_ & T)].
      * split; [done|]. exists i. split; [by right|done].
      * destruct (Al v id l T) as (? & j & Hj & Aj). split; [done|]. exists j. split; [by left|done].
    + intros T. destruct (Al v id l T) as (? & j & Hj & Aj). split; [done|]. exists j. split; [by left|done].
  - intros r v j. rewrite Snoc, El. intros [Hj|(-> & -> & ->)] A.
    + assert (Hv : v <> w) by (intros ->; by apply New in Hj).
      destruct (Mo r v j Hj A) as (id & l & T). exists id, l. case_bool_decide; [|done].
      rewrite register_tracked by done. by right.
    + rewrite bool_decide_true by done. eexists _, _. apply register_tracked; [done|]. by left.
Qed.

Lemma rehydrate_fold now rs ps s :
  indexed ps s -> NoDup (map (fun e => e.1.2) (ps ++ rs)) -> Forall (fun e => i_run e.2 = e.1.1) rs ->
  indexed (ps ++ rs) (foldl (rehydrate_one now) s rs) /\
  records (foldl (rehydrate_one now) s rs) = records s.
Proof.
  revert ps s. induction rs as [|[[run w] i] rs IH]; intros ps s X N F; [by rewrite app_nil_r|].
  apply Forall_cons in F as [Fi F]. cbn [foldl]. rewrite cons_middle, app_assoc in *.
  destruct (IH (ps ++ [((run, w), i)]) (rehydrate_one now s ((run, w), i))) as [Y R]; [|done..|].
  - apply rehydrate_step; [done| |done]. rewrite !map_app in N. apply NoDup_app in N as (N & _).
    apply NoDup_app in N as (_ & N & _). intros Hw. apply (N w Hw). by left.
  - split; [done|]. rewrite R. unfold rehydrate_one. by case_bool_decide.
Qed.

Lemma rehydrate_indexed now rs :
  NoDup (map (fun e => e.1.2) rs) -> Forall (fun e => i_run e.2 = e.1.1) rs ->
  indexed rs (rehydrate now rs) /\ records (rehydrate now rs) = rs.
Proof.
  intros N F. apply (rehydrate_fold now rs [] (Registry rs [] [] [] init_manager)); [|done..].
  split; cbn.
  - by split_and!; constructor.
  - intros w i. split; [done|by intros ?%elem_of_nil].
  - intros run w. split; [by intros ?%elem_of_empty|by intros (? & ?%elem_of_nil)].
  - by intros ? ? ? ?%elem_of_nil.
  - by intros w id l [? _].
  - by intros ? ? ? ?%elem_of_nil.
Qed.

(** The records of a registry in step are what a fresh process needs. *)
Lemma rehydrate_ok now s :
  ok s -> ok (rehydrate now s.(records)) /\
  forall w i, map_get w (rehydrate now s.(records)).(index) = Some i <-> map_get (i.(i_run), w) s.(records) = Some i.
Proof.
  intros O.
  assert (Nk : NoDup (map fst s.(records))) by (eapply (NoDup_fmap_1 snd), (eq_ind_r _ (ok_distinct_ids s O)), map_map).
  assert (Get : forall run w r, ((run, w), r) ∈ s.(records) <-> map_get (run, w) s.(records) = Some r).
  { intros run w r. split; [by apply elem_map_get|apply map_get_elem]. }
  destruct (rehydrate_indexed now s.(records)) as [[Wf Ix Mb Ct Al Mo] R].
  { apply O. }
  { apply Forall_forall. intros [[run w] r] I. by apply Get, (ok_indexed s O) in I as [? _]. }
  split; [|intros w i; by rewrite Ix, Get].
  assert (Old : forall w r, map_get w (index (rehydrate now s.(records))) = Some r ->
    exists i, map_get w s.(index) = Some i /\ i.(i_run) = r.(i_run) /\ i.(i_rank) = r.(i_rank) /\ (active r <-> active i)).
  { intros w r Hr%Ix%Get. destruct (ok_indexed s O _ _ _ Hr) as (_ & i & I & Ei). exists i.
    destruct (ok_record s O w i I) as (r' & Er & Rk & A). rewrite Ei, Hr in Er. injection Er as <-. by split_and!. }
  split.
  - done.
  - rewrite R. apply O.
  - intros w id l T _. destruct (Al w id l T) as (_ & i & I & A). exists i. split_and!; [|done|].
    + apply Ix. apply Get in I as I'. apply (ok_indexed s O) in I' as [-> _]. done.
    + by apply Get, (ok_indexed s O) in I as [? _].
  - intros w i I%Ix A. destruct (Mo _ w i I A) as (id & l & T). exists id, l. split; [done|]. by apply (Al w id l).
  - intros w i I. rewrite R. exists i. apply Ix, Get in I. done.
  - intros run w r. rewrite R. intros E. destruct (ok_indexed s O run w r E) as [Rr _]. split; [done|].
    exists r. split; [|done]. apply Ix. rewrite Rr. by apply Get.
  - intros w i I%Ix _. apply Mb. by exists i.
  - intros run w (i & I)%Mb. exists i. apply Get in I. destruct (ok_indexed s O run w i I) as [Ri _].
    split; [|done]. apply Ix, Get. by rewrite Ri.
  - intros w i I%Ix. by apply (Ct _ w).
  - intros w w' i i' I I' A A' Er Ek. destruct (Old w i I) as (j & J & R1 & R2 & Aj).
    destruct (Old w' i' I') as (j' & J' & R1' & R2' & Aj'). apply (ok_distinct s O w w' j j'); try tauto; congruence.
Qed.

(** ** What the workers see *)

Lemma heartbeat_accepted w st t s c :
  ok s -> is_Some (fst (fst (update_worker_heartbeat w st t s c))) <->
          exists i, map_get w s.(index) = Some i /\ active i.
Proof.
  intros O. unfold update_worker_heartbeat. destruct (map_get w (index s)) as [i|] eqn:I.
  2: { split; [by intros [? ?]|by intros (? & ? & _)]. }
  case_bool_decide as A.
  - destruct (ok_record s O w i I) as (r & E & _). unfold heartbeat. rewrite E. cbn.
    split; [intros _; by exists i|by eexists].
  - split; [by intros [? ?]|]. intros (j & [= <-] & Aj). done.
Qed.

(** C38: after a restart of the control plane the indexes rebuilt from the persisted
    records are in step again, and a worker's heartbeat is accepted exactly if it was
    accepted before the restart. *)
Theorem restart_keeps_heartbeats now s w st t c c' :
  ok s ->
  ok (rehydrate now s.(records)) /\
  (is_Some (fst (fst (update_worker_heartbeat w st t (rehydrate now s.(records)) c))) <->
   is_Some (fst (fst (update_worker_heartbeat w st t s c')))).
Proof.
  intros O. destruct (rehydrate_ok now s O) as [O' Ix]. split; [done|].
  rewrite !heartbeat_accepted by done. split.
  - intros (r & E%Ix & A). destruct (ok_indexed s O _ _ _ E) as (_ & i & I & Ri).
    destruct (ok_record s O w i I) as (r' & E' & _ & Ac). rewrite Ri, E in E'. injection E' as <-.
    exists i. split; [done|by apply Ac].
  - intros (i & I & A). destruct (ok_record s O w i I) as (r & E & _ & Ac).
    destruct (ok_indexed s O _ _ _ E) as [Rr _]. exists r. split; [|by apply Ac]. apply Ix. by rewrite Rr.
Qed.

(** a registration for a given rank takes the rank over: the new worker is active
    with that rank, is monitored and is the only active worker of the run with it;
    workers of other runs or ranks keep their entry. *)
Theorem registration_takes_over run rank w now s :
  ok s -> map_get w s.(index) = None ->
  let s' := snd (register_worker run (Some rank) w now s) in
  map_get w s'.(index) = Some (Info run rank ACTIVE 0) /\
  (exists id, tracked w id (Lease run now 0 true) s'.(lease_mgr)) /\
  (forall v i, map_get v s'.(index) = Some i -> active i -> i.(i_run) = run -> i.(i_rank) = rank -> v = w) /\
  (forall v i, map_get v s.(index) = Some i -> i.(i_run) <> run \/ i.(i_rank) <> rank ->
     map_get v s'.(index) = Some i).
Proof.
  intros O Fr. pose proof (register_worker_ok run (Some rank) w now s O Fr) as O'. cbn zeta.
  revert O'. unfold register_worker. cbn [snd]. set (s0 := set_ranks _ s).
  set (s1 := foldl _ s0 _). intros O'.
  assert (O0 : ok s0) by (apply set_ranks_ok; [done|lia]).
  assert (Mb : forall v i, v ∈ elements (members run s) -> map_get v s0.(index) = Some i -> i.(i_run) = run).
  { intros v i Hv I. apply elem_of_elements in Hv. destruct (ok_of_run s0 O0 run v Hv) as (j & J & Rj). congruence. }
  destruct (supersede_all run rank _ s0 O0 Mb) as [D _]. fold s1 in D. pose proof (demoted_ok _ _ D O0) as O1.
  assert (W : map_get w (enroll w (Info run rank ACTIVE 0) now s1).(index) = Some (Info run rank ACTIVE 0)).
  { unfold enroll. cbn. apply map_get_set_eq. }
  split_and!; [done| | |].
  - unfold enroll. cbn. eexists. apply register_tracked; [apply O1|]. by left.
  - intros v i I A Rn Rk. symmetry. eapply (ok_distinct _ O' w v); [exact W|exact I|done..].
  - intros v i I Hd. unfold enroll. cbn. rewrite map_get_set, decide_False by congruence.
    by apply (supersede_keeps run rank v i (elements (members run s)) s0).
Qed.

(** ** At a concrete input: rank 0 is registered again, as after a restart *)

Definition sample_registry : registry :=
  snd (register_worker "r1" (Some 1) "w1" 5 (snd (register_worker "r1" (Some 0) "w0" 0
    (Registry [] [] [] [] init_manager)))).

Lemma empty_registry_ok : ok (Registry [] [] [] [] init_manager).
Proof.
  split; try (by intros; discriminate); cbn.
  - by split_and!; constructor.
  - constructor.
  - by intros w id l [? _].
Qed.
Lemma sample_registry_ok : ok sample_registry.
Proof. repeat (apply register_worker_ok; [|vm_compute; reflexivity]). apply empty_registry_ok. Qed.

Lemma restart_keeps_heartbeats_witness :
  is_Some (fst (fst (update_worker_heartbeat "w0" 3 90 (rehydrate 80 sample_registry.(records)) (Coordinator.Coord ∅ ∅ ∅)))) <->
  is_Some (fst (fst (update_worker_heartbeat "w0" 3 90 sample_registry (Coordinator.Coord ∅ ∅ ∅)))).
Proof. exact (proj2 (restart_keeps_heartbeats 80 sample_registry "w0" 3 90 _ _ sample_registry_ok)). Defined.

Lemma registration_takes_over_witness :
  let s' := snd (register_worker "r1" (Some 0) "w2" 9 sample_registry) in
  map_get "w2" s'.(index) = Some (Info "r1" 0 ACTIVE 0) /\
  (exists id, tracked "w2" id (Lease "r1" 9 0 true) s'.(lease_mgr)) /\
  (forall v i, map_get v s'.(index) = Some i -> active i -> i.(i_run) = "r1" -> i.(i_rank) = 0 -> v = "w2") /\
  (forall v i, map_get v sample_registry.(index) = Some i -> i.(i_run) <> "r1" \/ i.(i_rank) <> 0 ->
     map_get v s'.(index) = Some i).
Proof. exact (registration_takes_over "r1" 0 "w2" 9 sample_registry sample_registry_ok eq_refl). Defined.
