(* ===== verification/Recovery.v ===== *)
(** * Failure recovery: [python-controlplane/src/controlplane/recovery.py] and the
    worker-group supervisor of [api/rest.py]

    What follows a worker's death: the recovery manager fails the run, aborts its open
    checkpoints, moves it to RECOVERING with the newest committed checkpoint recorded, and
    has the supervisor restart the worker group; the workers' resume call completes the
    recovery. The manager is parameterised by the supervisor callback, as in the source;
    [Lifespan] plugs the components together as [lifespan] in [api/rest.py] does. *)

From stdpp Require Import sorting.
From S2P Require Import Prelude Dict JsString Types ControlPlane Heartbeat Workers.

Import Coordinator.

(** The state of the control plane that recovery works on: the service (coordinator and
    [_WORKER_RESTART_LAST_ATTEMPT]), the workers, the manager's two fields and
    [_WORKER_RESTART_IN_FLIGHT]. *)
Record plane : Type := Plane {
  svc : service;
  reg : registry;
  recovering : gset string;
  targets : dict string (option string);
  in_flight : option string
}.

Definition set_svc a p := Plane a p.(reg) p.(recovering) p.(targets) p.(in_flight).
Definition set_coord c p := set_svc (Service c (restarts p.(svc))) p.
Definition set_reg r p := Plane p.(svc) r p.(recovering) p.(targets) p.(in_flight).
Definition set_recovering r p := Plane p.(svc) p.(reg) r p.(targets) p.(in_flight).
Definition set_targets t p := Plane p.(svc) p.(reg) p.(recovering) t p.(in_flight).
Definition set_in_flight f p := Plane p.(svc) p.(reg) p.(recovering) p.(targets) f.
Definition p_coord (p : plane) : Coordinator.t := coord p.(svc).

(** ** Checkpoints of a run *)

(** In the order of their steps; checkpoints of the same step in the store's order *)
Definition list_checkpoints (run : string) (c : Coordinator.t) : list (string * checkpoint) :=
  stable_sort (fun a b => c_step b.2 <? c_step a.2)
    (filter (fun e => c_run e.2 = run) (map_to_list (checkpoints c))).

Definition with_state (st : checkpoint_state) (cp : checkpoint) : checkpoint :=
  Checkpoint (c_run cp) (c_step cp) st (c_created cp).
(** [None] is the [KeyError]. *)
Definition update_checkpoint_state (id : string) (st : checkpoint_state) (c : Coordinator.t) : option Coordinator.t :=
  cp ← checkpoints c !! id;
  Some (Coord (kv c) (<[id := with_state st cp]> (checkpoints c)) (fsms c)).

Definition open_state (cp : checkpoint) : bool := bool_decide (c_state cp ∈ [CPENDING; CIN_PROGRESS]).
(** A failure to abort one checkpoint is logged and the others are still aborted. *)
Definition abort_pending_checkpoints (run : string) (c : Coordinator.t) : Coordinator.t :=
  foldl (fun c e => if open_state e.2 then default c (update_checkpoint_state e.1 CFAILED c) else c)
    c (list_checkpoints run c).

Definition committed (run : string) (c : Coordinator.t) : list (string * checkpoint) :=
  filter (fun e => c_state e.2 = CCOMMITTED) (list_checkpoints run c).
(** [max(committed, key=..., default=None)]: the first of the largest *)
Definition newest (l : list (string * checkpoint)) : option (string * checkpoint) :=
  match l with
  | [] => None
  | x :: l => Some (foldl (fun best y => if c_step best.2 <? c_step y.2 then y else best) x l)
  end.

Definition record_recovery_checkpoint (run : string) (p : plane) : plane :=
  set_targets (map_set run (fst <$> newest (committed run (p_coord p))) p.(targets)) p.
Definition get_recovery_checkpoint (run : string) (p : plane) : option string :=
  match map_get run p.(targets) with Some t => t | None => None end.

(** ** The recovery manager *)
Section Manager.
(** The wall clock, [auto_recover], and the callback that schedules a restart: whether it
    was scheduled, or [None] when it raises. *)
Context (now : Z) (auto_recover : bool).
Context (restart_worker_group : option (string -> plane -> option bool * plane)).

Definition attempt_recovery (run : string) (p : plane) : plane :=
  match restart_worker_group with
  | None => p
  | Some restart =>
      match transition_run (p_coord p) run RECOVERING now with
      | (Ok _, c) => snd (restart run (record_recovery_checkpoint run (set_coord c p)))
      | (_, c) => set_coord c p
      end
  end.

Definition handle_failure (run : string) (p : plane) : plane :=
  let p := set_recovering ({[run]} ∪ p.(recovering)) p in
  match kv (p_coord p) !! run with
  | None => p
  | Some status =>
      let fail p :=
        let p := set_coord (abort_pending_checkpoints run (p_coord p)) p in
        if auto_recover then attempt_recovery run p else p in
      match r_state status with
      | CANCELLED | COMPLETED => p
      | FAILED => fail p
      | _ => match transition_run (p_coord p) run FAILED now with
             | (Ok _, c) => fail (set_coord c p)
             | (_, c) => set_coord c p
             end
      end
  end.

Definition on_worker_failure (run : string) (p : plane) : plane :=
  if bool_decide (run ∈ p.(recovering)) then p
  else let p := handle_failure run p in set_recovering (p.(recovering) ∖ {[run]}) p.

(** [recover_run]: whether a restart was scheduled *)
Definition recover_run (run : string) (p : plane) : bool * plane :=
  match kv (p_coord p) !! run with
  | Some status =>
      match r_state status with
      | FAILED =>
          let p := set_coord (abort_pending_checkpoints run (p_coord p)) p in
          match restart_worker_group with
          | None => (false, p)
          | Some restart =>
              match transition_run (p_coord p) run RECOVERING now with
              | (Ok _, c) =>
                  let '(r, p) := restart run (record_recovery_checkpoint run (set_coord c p)) in
                  (default false r, p)
              | (_, c) => (false, set_coord c p)
              end
          end
      | _ => (false, p)
      end
  | None => (false, p)
  end.
End Manager.

(** [_execute_recovery]: the last committed checkpoint becomes the target. *)
Definition execute_recovery (run : string) (p : plane) : plane :=
  match kv (p_coord p) !! run with
  | None => p
  | Some _ => set_targets (map_set run (fst <$> last (committed run (p_coord p))) p.(targets)) p
  end.

(** ** The worker-group supervisor *)

(** The settings and the environment of [_schedule_worker_group_restart]: the monotonic
    clock in milliseconds, whether [SHARED_RUN_ID_PATH] is set and the run it names, the
    containers, and whether the restart thread starts. *)
Record supervisor : Type := Supervisor {
  clock_ms : Z; shared_path : bool; supervised : option string; containers : list string; thread_starts : bool
}.
Definition WORKER_RESTART_RETRY : Z := 30000.

Definition forget_attempt (run : string) (p : plane) : plane :=
  set_svc (Service (p_coord p) (delete run (restarts p.(svc)))) p.
Definition release (run : string) (p : plane) : plane :=
  if bool_decide (p.(in_flight) = Some run) then set_in_flight None p else p.

(** Every registration of the run is retired. *)
Definition retire_worker (run : string) (s : registry) (e : string * info) : registry :=
  let s := if bool_decide (i_status e.2 = ACTIVE) then mark_suppressed run e.1 DEAD s else s in
  drop_lease e.1 (set_local e.1 DEAD s).
Definition retire_group (run : string) (s : registry) : registry :=
  foldl (retire_worker run) s (list_workers run s).

Definition schedule_worker_group_restart (v : supervisor) (run : string) (p : plane) : bool * plane :=
  if v.(shared_path) && negb (bool_decide (v.(supervised) = Some run)) then (false, p)
  else match v.(containers) with
  | [] => (false, p)
  | _ :: _ =>
      match p.(in_flight) with
      | Some other => (bool_decide (run = other), p)
      | None =>
          if v.(clock_ms) - default 0 (restarts p.(svc) !! run) <? WORKER_RESTART_RETRY then (true, p)
          else
            let p := set_in_flight (Some run)
                       (set_svc (Service (p_coord p) (<[run := v.(clock_ms)]> (restarts p.(svc)))) p) in
            let p := set_reg (retire_group run p.(reg)) p in
            if v.(thread_starts) then (true, p) else (false, release run (forget_attempt run p))
      end
  end.

(** The end of the restart thread *)
Definition restart_finished (succeeded : bool) (run : string) (p : plane) : plane :=
  release run (if succeeded then p else forget_attempt run p).

(** One round of [_reconcile_worker_recovery], with the run's [num_workers] *)
Definition reconcile (v : supervisor) (num_workers : Z) (p : plane) : plane :=
  match v.(supervised) with
  | None => p
  | Some run =>
      match kv (p_coord p) !! run with
      | Some r =>
          let ws := list_workers run p.(reg) in
          let act := filter (fun e => i_status e.2 = ACTIVE) ws in
          if bool_decide (r_state r = RECOVERING) && negb (bool_decide (ws = []))
             && (Z.of_nat (length act) <? num_workers)
          then snd (schedule_worker_group_restart v run p) else p
      | None => p
      end
  end.

(** ** The demonstration's kill *)
(** What [demo_kill_worker] does to the control plane once the containers are killed *)

(** A run that can be failed, and that is the supervised one; where no run is supervised,
    one with an active worker *)
Definition killable (sup : option string) (s : registry) (e : string * run) : bool :=
  bool_decide (r_state e.2 ∈ [RUNNING; CHECKPOINTING; COMMITTED; RECOVERING]) &&
  match sup with
  | Some id => String.eqb e.1 id
  | None => existsb (fun w => bool_decide (i_status w.2 = ACTIVE)) (list_workers e.1 s)
  end.
(** [max(active, key=...)] *)
Definition last_updated (l : list (string * run)) : option (string * run) :=
  match l with
  | [] => None
  | x :: l => Some (foldl (fun best y => if r_updated best.2 <? r_updated y.2 then y else best) x l)
  end.

(** One turn of the loop over the manager's workers; what the coordinator raises is
    suppressed. *)
Definition kill_worker (run : string) (s : registry) (w : string) : registry :=
  match map_get w s.(index) with
  | Some i => if bool_decide (i_run i = run) && bool_decide (i_status i = ACTIVE)
              then mark_suppressed run w DEAD (set_local w DEAD s) else s
  | None => s
  end.
Definition kill_workers (run : string) (s : registry) : registry :=
  foldl (kill_worker run) s (map fst s.(index)).

(** One turn of the loop over the leases *)
Definition clear_lease (run : string) (m : Heartbeat.manager) (w : string) : Heartbeat.manager :=
  match map_get w m.(leases) ≫= fun id => m.(objects) !! id with
  | Some l => if String.eqb l.(l_run) run then unregister w m else m
  | None => m
  end.
Definition clear_leases (run : string) (m : Heartbeat.manager) : Heartbeat.manager :=
  foldl (clear_lease run) m (map fst m.(leases)).

Definition fail_killed (run container : string) (now : Z) (p : plane) : plane :=
  let '(_, c) := set_run_error (p_coord p) run ("Worker " +:+ container +:+ " killed (demo)") now in
  let p := set_coord c p in
  let p := set_reg (kill_workers run p.(reg)) p in
  set_reg (set_leases (clear_leases run p.(reg).(lease_mgr)) p.(reg)) p.
(** [runs] is what [list_runs] returns. *)
Definition demo_kill (sup : option string) (runs : list (string * run)) (container : string) (now : Z) (p : plane) : plane :=
  match last_updated (filter (fun e => killable sup p.(reg) e = true) runs) with
  | Some e => fail_killed e.1 container now p
  | None => p
  end.

(** ** The components plugged together *)
Module Lifespan.

Definition mgr (p : plane) : Heartbeat.manager := p.(reg).(lease_mgr).
Definition set_mgr (m : Heartbeat.manager) (p : plane) : plane := set_reg (set_leases m p.(reg)) p.

(** [AUTO_RESTART_WORKERS] decides both arguments of the recovery manager. *)
Definition restart_callback (v : supervisor) (auto : bool) : option (string -> plane -> option bool * plane) :=
  if auto then Some (fun run p => let '(b, p) := schedule_worker_group_restart v run p in (Some b, p)) else None.

(** A declared worker: the coordinator's record, then the two callbacks in the order
    they were registered *)
Definition on_dead (v : supervisor) (auto : bool) (now : Z) (worker run : string) (p : plane) : plane :=
  let p := set_reg (mark_suppressed run worker DEAD p.(reg)) p in
  let p := set_reg (Workers.on_worker_failure worker p.(reg)) p in
  on_worker_failure now auto (restart_callback v auto) run p.

Definition poll (v : supervisor) (auto : bool) (now : Z) (p : plane) : plane * list (string * string) :=
  check_workers mgr set_mgr (on_dead v auto now) (threshold production) (fun _ => v.(clock_ms)) p.
End Lifespan.

(** ** Checkpoints *)

Lemma list_checkpoints_elem run c id cp :
  (id, cp) ∈ list_checkpoints run c <-> checkpoints c !! id = Some cp /\ c_run cp = run.
Proof.
  unfold list_checkpoints. rewrite stable_sort_perm, list_elem_of_filter. cbn.
  rewrite elem_of_map_to_list. tauto.
Qed.
Lemma list_checkpoints_nodup run c : NoDup (map fst (list_checkpoints run c)).
Proof.
  unfold list_checkpoints. rewrite stable_sort_perm. pose proof (NoDup_fst_map_to_list (checkpoints c)) as N.
  induction (map_to_list (checkpoints c)) as [|e l IH]; [constructor|]. cbn [fmap list_fmap] in N.
  apply NoDup_cons in N as [Ne N]. rewrite filter_cons. case_decide; [|by apply IH].
  cbn [map]. apply NoDup_cons. split; [|by apply IH]. intros I. apply Ne.
  apply list_elem_of_fmap in I as (x & -> & I%list_elem_of_filter). apply list_elem_of_fmap. exists x. tauto.
Qed.

Definition aborted (cp : checkpoint) : checkpoint := if open_state cp then with_state CFAILED cp else cp.

Lemma abort_fold l c :
  NoDup (map fst l) -> (forall id cp, (id, cp) ∈ l -> checkpoints c !! id = Some cp) ->
  let c' := foldl (fun c e => if open_state e.2 then default c (update_checkpoint_state e.1 CFAILED c) else c) c l in
  kv c' = kv c /\ fsms c' = fsms c /\
  (forall id cp, (id, cp) ∈ l -> checkpoints c' !! id = Some (aborted cp)) /\
  (forall id, id ∉ map fst l -> checkpoints c' !! id = checkpoints c !! id).
Proof.
  revert c. induction l as [|[id0 cp0] l IH]; intros c N H.
  { split_and!; [done|done|by intros ? ? ?%elem_of_nil|done]. }
  cbn [map fst] in N. apply NoDup_cons in N as [N0 N]. cbn [foldl fst snd].
  set (c1 := if open_state cp0 then _ else c).
  assert (S : kv c1 = kv c /\ fsms c1 = fsms c /\ checkpoints c1 !! id0 = Some (aborted cp0) /\
              forall id, id <> id0 -> checkpoints c1 !! id = checkpoints c !! id).
  { pose proof (H id0 cp0 (list_elem_of_here _ _)) as E. unfold c1, aborted, update_checkpoint_state.
    rewrite E. destruct (open_state cp0); cbn; (split_and!; [done|done| |]).
    - by simplify_map_eq.
    - intros id Hid. by rewrite lookup_insert_ne.
    - done.
    - done. }
  destruct S as (S1 & S2 & S3 & S4). destruct (IH c1 N) as (I1 & I2 & I3 & I4).
  { intros id cp Hi. rewrite S4; [apply H; by right|]. intros ->. apply N0. apply list_elem_of_fmap. by exists (id0, cp). }
  split_and!; [congruence|congruence| |].
  - intros id cp [[= -> ->]|Hi]%elem_of_cons; [|by apply I3]. rewrite I4; [done|done].
  - intros id Hid. apply not_elem_of_cons in Hid as [Hn Hid]. by rewrite I4, S4.
Qed.

(** Aborting touches the open checkpoints of the run, and nothing else. *)
Lemma abort_pending_spec run c :
  let c' := abort_pending_checkpoints run c in
  kv c' = kv c /\ fsms c' = fsms c /\
  checkpoints c' = (fun cp => if decide (c_run cp = run) then aborted cp else cp) <$> checkpoints c.
Proof.
  destruct (abort_fold (list_checkpoints run c) c) as (K & F & I & O).
  { apply list_checkpoints_nodup. }
  { intros id cp Hi. by apply list_checkpoints_elem in Hi as [? _]. }
  split_and!; [done..|]. apply map_eq. intros id. rewrite lookup_fmap. unfold abort_pending_checkpoints.
  destruct (checkpoints c !! id) as [cp|] eqn:E; cbn [fmap option_fmap option_map].
  - destruct (decide (c_run cp = run)) as [Hr|Hr].
    + by apply I, list_checkpoints_elem.
    + rewrite O; [done|]. intros ([id' cp'] & -> & Hi)%list_elem_of_fmap. cbn in E.
      apply list_checkpoints_elem in Hi as [E' Hr']. congruence.
  - rewrite O; [done|]. intros ([id' cp'] & -> & Hi)%list_elem_of_fmap. cbn in E.
    apply list_checkpoints_elem in Hi as [E' _]. congruence.
Qed.

Lemma newest_spec l :
  match newest l with
  | None => l = []
  | Some m => m ∈ l /\ forall x, x ∈ l -> c_step x.2 <= c_step m.2
  end.
Proof.
  destruct l as [|x l]; [done|]. cbn [newest]. destruct (foldl_max (fun e => c_step e.2) l x) as (M & B & A). split.
  - destruct M as [->|M]; [by left|by right].
  - intros y [->|Hy]%elem_of_cons; [done|by apply A].
Qed.

(** The target of a recovery: a committed checkpoint of the run with the largest step,
    if there is one *)
Definition newest_committed (run : string) (c : Coordinator.t) (t : option string) : Prop :=
  match t with
  | Some id => exists cp, checkpoints c !! id = Some cp /\ c_run cp = run /\ c_state cp = CCOMMITTED /\
      forall id' cp', checkpoints c !! id' = Some cp' -> c_run cp' = run -> c_state cp' = CCOMMITTED ->
        c_step cp' <= c_step cp
  | None => forall id cp, checkpoints c !! id = Some cp -> c_run cp = run -> c_state cp <> CCOMMITTED
  end.

Lemma committed_elem run c id cp :
  (id, cp) ∈ committed run c <-> checkpoints c !! id = Some cp /\ c_run cp = run /\ c_state cp = CCOMMITTED.
Proof. unfold committed. rewrite list_elem_of_filter, list_checkpoints_elem. cbn. tauto. Qed.

Lemma newest_committed_spec run c : newest_committed run c (fst <$> newest (committed run c)).
Proof.
  pose proof (newest_spec (committed run c)) as S. destruct (newest (committed run c)) as [[id cp]|]; cbn.
  - destruct S as [I M]. apply committed_elem in I as (E & R & St). exists cp. split_and!; try done.
    intros id' cp' E' R' St'. by apply (M (id', cp')), committed_elem.
  - intros id cp E R St. assert (I : (id, cp) ∈ committed run c) by by apply committed_elem.
    rewrite S in I. by apply elem_of_nil in I.
Qed.

Lemma newest_committed_ext run c c' t :
  checkpoints c = checkpoints c' -> newest_committed run c t -> newest_committed run c' t.
Proof. unfold newest_committed. by intros ->. Qed.

Lemma newest_committed_abort run c t :
  newest_committed run (abort_pending_checkpoints run c) t <-> newest_committed run c t.
Proof.
  destruct (abort_pending_spec run c) as (_ & _ & E).
  assert (L : forall id cp, c_state cp = CCOMMITTED ->
    (checkpoints (abort_pending_checkpoints run c) !! id = Some cp <-> checkpoints c !! id = Some cp)).
  { intros id cp St. rewrite E, lookup_fmap, fmap_Some. split.
    - intros (cp0 & E0 & ->). rewrite E0. f_equal. destruct (decide _); [|done]. unfold aborted in *.
      destruct (open_state cp0); [discriminate St|done].
    - intros E0. exists cp. split; [done|]. destruct (decide _); [|done]. unfold aborted, open_state. by rewrite St. }
  destruct t as [id|]; cbn.
  - split; intros (cp & E1 & R & St & M); exists cp; apply L in E1; try done;
      split_and!; try done; intros id' cp' E' R' St'; (eapply M; [by apply L|done..]).
  - split; intros H id cp E1 R St; eapply H; try done; by apply L.
Qed.

(** ** What a failure does to a run *)

(** Whether a failure is acted upon in a state *)
Definition handled (s : run_state) : bool :=
  match s with CREATED | CANCELLED | COMPLETED => false | _ => true end.

(** A callback leaves the coordinator's runs and checkpoints and the manager alone. *)
Definition frames (f : string -> plane -> option bool * plane) : Prop :=
  forall run p, p_coord (snd (f run p)) = p_coord p /\ targets (snd (f run p)) = targets p /\
    recovering (snd (f run p)) = recovering p.

Lemma created_cannot_fail : FAILED ∉ Fsm.VALID_TRANSITIONS CREATED.
Proof. by apply (bool_decide_unpack (FAILED ∉ _)). Qed.

Section Outcome.
Context (now : Z) (auto_recover : bool) (restart : option (string -> plane -> option bool * plane)).
Context (restart_frames : forall f, restart = Some f -> frames f).

Definition recovers : bool := auto_recover && bool_decide (is_Some restart).

(** The state after the failure of a worker of a run in state [s] *)
Definition failed_state (s : run_state) : run_state :=
  if handled s then if recovers then RECOVERING else FAILED else s.

(** From [p] to [p'], [run] came to state [s], its open checkpoints were aborted, and the
    recovery target was recorded if the run recovers. *)
Record failed_to (run : string) (s : run_state) (p p' : plane) : Prop := {
  ft_agrees : agrees (p_coord p');
  ft_state : state_of (p_coord p') run = Some s;
  ft_others id : id <> run -> kv (p_coord p') !! id = kv (p_coord p) !! id;
  ft_checkpoints : checkpoints (p_coord p') =
    (fun cp => if decide (c_run cp = run) then aborted cp else cp) <$> checkpoints (p_coord p);
  ft_target : if recovers
    then exists t, map_get run p'.(targets) = Some t /\ newest_committed run (p_coord p) t
    else p'.(targets) = p.(targets);
  ft_targets id : id <> run -> map_get id p'.(targets) = map_get id p.(targets)
}.

Lemma agrees_kv c c' : kv c' = kv c -> fsms c' = fsms c -> agrees c -> agrees c'.
Proof. intros K F A id m E. unfold state_of. rewrite K. apply A. by rewrite <- F. Qed.

Lemma attempt_recovery_spec run p :
  agrees (p_coord p) -> state_of (p_coord p) run = Some FAILED ->
  let p' := attempt_recovery now restart run p in
  agrees (p_coord p') /\
  state_of (p_coord p') run = Some (if bool_decide (is_Some restart) then RECOVERING else FAILED) /\
  (forall id, id <> run -> kv (p_coord p') !! id = kv (p_coord p) !! id) /\
  checkpoints (p_coord p') = checkpoints (p_coord p) /\ recovering p' = recovering p /\
  (if bool_decide (is_Some restart)
   then exists t, map_get run p'.(targets) = Some t /\ newest_committed run (p_coord p) t
   else p'.(targets) = p.(targets)) /\
  forall id, id <> run -> map_get id p'.(targets) = map_get id p.(targets).
Proof.
  intros A S. unfold attempt_recovery. destruct restart as [f|] eqn:R; [|by split_and!].
  rewrite bool_decide_true by (by exists f). unfold state_of in S.
  destruct (kv (p_coord p) !! run) as [r|] eqn:K; [|done]. injection S as Sr.
  pose proof (transition_run_spec (p_coord p) run RECOVERING now r A K) as T. rewrite Sr in T.
  destruct (transition_run _ _ _ _) as [res c]. destruct T as (A' & C & O & T).
  rewrite bool_decide_true in T by (repeat constructor). destruct T as [-> T].
  set (q := record_recovery_checkpoint run (set_coord c p)).
  destruct (restart_frames f eq_refl run q) as (E1 & E2 & E3). cbn zeta. rewrite E1, E2, E3.
  split_and!; try done.
  - unfold state_of. cbn. by rewrite T.
  - unfold q, record_recovery_checkpoint. cbn. rewrite map_get_set_eq. eexists. split; [done|].
    eapply newest_committed_ext; [exact C|]. apply newest_committed_spec.
  - intros id Hid. unfold q, record_recovery_checkpoint. cbn. by rewrite map_get_set, decide_False.
Qed.

Lemma fail_spec run p0 p :
  agrees (p_coord p) -> state_of (p_coord p) run = Some FAILED ->
  (forall id, id <> run -> kv (p_coord p) !! id = kv (p_coord p0) !! id) ->
  checkpoints (p_coord p) = checkpoints (p_coord p0) -> p.(targets) = p0.(targets) ->
  let p' := (let p := set_coord (abort_pending_checkpoints run (p_coord p)) p in
             if auto_recover then attempt_recovery now restart run p else p) in
  failed_to run (if recovers then RECOVERING else FAILED) p0 p' /\ recovering p' = recovering p.
Proof.
  intros A S O C T. destruct (abort_pending_spec run (p_coord p)) as (K & F & Ca).
  set (q := set_coord _ p). assert (Aq : agrees (p_coord q)) by (by eapply agrees_kv).
  assert (Sq : state_of (p_coord q) run = Some FAILED) by (unfold state_of; cbn; by rewrite K).
  unfold recovers. destruct auto_recover eqn:Ea; cbn [andb] in *; cbn zeta.
  - destruct (attempt_recovery_spec run q Aq Sq) as (A1 & S1 & O1 & C1 & R1 & T1 & T2). split; [|done]. split.
    + done.
    + rewrite S1. by case_bool_decide.
    + intros id Hid. rewrite O1 by done. cbn. rewrite K. by apply O.
    + rewrite C1. cbn. by rewrite Ca, C.
    + unfold recovers. rewrite Ea. cbn [andb]. case_bool_decide; [|by rewrite T1].
      destruct T1 as (t & Et & Nt). exists t. split; [done|].
      by apply (newest_committed_ext _ _ _ _ C), newest_committed_abort.
    + intros id Hid. rewrite T2 by done. cbn. by rewrite T.
  - split; [|done]. split.
    + done.
    + done.
    + intros id Hid. cbn. rewrite K. by apply O.
    + cbn. by rewrite Ca, C.
    + unfold recovers. by rewrite Ea.
    + intros id Hid. cbn. by rewrite T.
Qed.

Lemma handle_failure_spec run p s :
  agrees (p_coord p) -> state_of (p_coord p) run = Some s ->
  let p' := handle_failure now auto_recover restart run p in
  recovering p' = {[run]} ∪ recovering p /\
  if handled s then failed_to run (if recovers then RECOVERING else FAILED) p p'
  else agrees (p_coord p') /\ kv (p_coord p') = kv (p_coord p) /\
       checkpoints (p_coord p') = checkpoints (p_coord p) /\ p'.(targets) = p.(targets).
Proof.
  intros A S. pose proof S as S0. unfold state_of in S. destruct (kv (p_coord p) !! run) as [r|] eqn:K; [|done].
  injection S as Sr. unfold handle_failure. set (q := set_recovering _ p).
  assert (Kq : kv (p_coord q) !! run = Some r) by done. rewrite Kq. cbn zeta.
  pose proof (transition_run_spec (p_coord q) run FAILED now r A Kq) as T. rewrite Sr in T |- *.
  assert (Go : handled s = true -> s <> FAILED ->
    let p' := match transition_run (p_coord q) run FAILED now with
              | (Ok _, c) => let p := set_coord (abort_pending_checkpoints run (p_coord (set_coord c q))) (set_coord c q) in
                             if auto_recover then attempt_recovery now restart run p else p
              | (_, c) => set_coord c q
              end in
    recovering p' = {[run]} ∪ recovering p /\ failed_to run (if recovers then RECOVERING else FAILED) p p').
  { intros Hs Nf. destruct (transition_run _ _ _ _) as [res c]. destruct T as (A' & C & O & T).
    rewrite bool_decide_true in T by (destruct s; try done; repeat constructor). destruct T as [-> T].
    assert (S1 : state_of (p_coord (set_coord c q)) run = Some FAILED) by (unfold state_of; cbn; by rewrite T).
    destruct (fail_spec run p (set_coord c q) A' S1 O C eq_refl) as [F R]. by split. }
  destruct s; cbn [handled]; try (by apply Go); try (split; [done|by split_and!]).
  - clear Go. destruct (transition_run _ _ _ _) as [res c]. destruct T as (A' & C & O & T).
    rewrite bool_decide_false in T by exact created_cannot_fail.
    destruct T as [-> T]. split; [done|]. by split_and!.
  - destruct (fail_spec run p q A S0 (fun _ _ => eq_refl) eq_refl eq_refl) as [F R]. by split.
Qed.

Lemma on_worker_failure_spec run p s :
  agrees (p_coord p) -> state_of (p_coord p) run = Some s -> run ∉ recovering p ->
  let p' := on_worker_failure now auto_recover restart run p in
  recovering p' = recovering p /\
  if handled s then failed_to run (if recovers then RECOVERING else FAILED) p p'
  else agrees (p_coord p') /\ kv (p_coord p') = kv (p_coord p) /\
       checkpoints (p_coord p') = checkpoints (p_coord p) /\ p'.(targets) = p.(targets).
Proof.
  intros A S R. unfold on_worker_failure. rewrite bool_decide_false by done.
  destruct (handle_failure_spec run p s A S) as [Er H]. cbn. rewrite Er. split.
  { apply set_eq. intros x. rewrite elem_of_difference, elem_of_union, elem_of_singleton.
    destruct (decide (x = run)) as [->|]; tauto. }
  destruct (handled s); [|done]. by destruct H.
Qed.

(** C20: the outcome of a worker's failure, on every state of its run. A run that is
    created, completed or cancelled is left alone. Any other becomes RECOVERING when
    automatic recovery is on and a supervisor is configured, and FAILED otherwise; its
    open checkpoints become FAILED, every other checkpoint and run stays as it is, and
    the recorded recovery target is a committed checkpoint of the run with the largest
    step, or none when nothing is committed. The re-entrancy set is as it was. *)
Theorem failure_outcome run p s :
  agrees (p_coord p) -> state_of (p_coord p) run = Some s -> run ∉ recovering p ->
  let p' := on_worker_failure now auto_recover restart run p in
  recovering p' = recovering p /\
  if handled s then failed_to run (if recovers then RECOVERING else FAILED) p p'
  else agrees (p_coord p') /\ kv (p_coord p') = kv (p_coord p) /\
       checkpoints (p_coord p') = checkpoints (p_coord p) /\ p'.(targets) = p.(targets).
Proof. apply on_worker_failure_spec. Qed.

(** Manual recovery acts on a FAILED run only. *)
Lemma recover_run_spec run p s :
  agrees (p_coord p) -> state_of (p_coord p) run = Some s ->
  let '(b, p') := recover_run now restart run p in
  if bool_decide (s = FAILED) then
    agrees (p_coord p') /\
    checkpoints (p_coord p') = (fun cp => if decide (c_run cp = run) then aborted cp else cp) <$> checkpoints (p_coord p) /\
    match restart with
    | Some f => state_of (p_coord p') run = Some RECOVERING /\
        (exists t, map_get run p'.(targets) = Some t /\ newest_committed run (p_coord p) t)
    | None => b = false /\ state_of (p_coord p') run = Some FAILED /\ p'.(targets) = p.(targets)
    end
  else b = false /\ p' = p.
Proof.
  intros A S. pose proof S as S0. unfold state_of in S. unfold recover_run.
  destruct (kv (p_coord p) !! run) as [r|] eqn:K; [|done]. injection S as Sr. rewrite Sr.
  destruct s; try (rewrite bool_decide_false by done; done). rewrite bool_decide_true by done.
  destruct (abort_pending_spec run (p_coord p)) as (Kv & F & Ca). set (q := set_coord _ p).
  assert (Aq : agrees (p_coord q)) by (by eapply agrees_kv).
  assert (Kq : kv (p_coord q) !! run = Some r) by (cbn; by rewrite Kv).
  destruct restart as [f|] eqn:Rs.
  2: { split_and!; [done|done|done| |done]. unfold state_of. by rewrite Kq, <- Sr. }
  pose proof (transition_run_spec (p_coord q) run RECOVERING now r Aq Kq) as T. rewrite Sr in T.
  destruct (transition_run _ _ _ _) as [res c]. destruct T as (A' & C & O & T).
  rewrite bool_decide_true in T by (repeat constructor). destruct T as [-> T].
  set (q2 := record_recovery_checkpoint run (set_coord c q)).
  destruct (restart_frames f eq_refl run q2) as (E1 & E2 & E3). destruct (f run q2) as [b p'] eqn:Ef.
  cbn [snd] in *. rewrite E1, E2. split_and!.
  - done.
  - cbn. by rewrite C, <- Ca.
  - unfold state_of. cbn. by rewrite T.
  - unfold q2, record_recovery_checkpoint. cbn. rewrite map_get_set_eq. eexists. split; [done|].
    apply (newest_committed_abort run (p_coord p)). eapply newest_committed_ext; [exact C|]. apply newest_committed_spec.
Qed.
End Outcome.

(** ** The supervisor *)

Lemma schedule_frames v :
  frames (fun run p => let '(b, p) := schedule_worker_group_restart v run p in (Some b, p)).
Proof.
  intros run p. unfold schedule_worker_group_restart, release, forget_attempt.
  repeat case_match; simplify_eq; done.
Qed.

Lemma schedule_reg v run p :
  reg (snd (schedule_worker_group_restart v run p)) = reg p \/
  reg (snd (schedule_worker_group_restart v run p)) = retire_group run (reg p).
Proof.
  unfold schedule_worker_group_restart, release, forget_attempt.
  repeat case_match; simplify_eq; first [by left|by right].
Qed.

(** The conditions under which a restart is carried out *)
Record restartable (v : supervisor) (run : string) (p : plane) : Prop := {
  rs_supervised : v.(supervised) = Some run;
  rs_containers : v.(containers) <> [];
  rs_thread : v.(thread_starts) = true;
  rs_idle : p.(in_flight) = None;
  rs_due : WORKER_RESTART_RETRY <= v.(clock_ms) - default 0 (restarts p.(svc) !! run)
}.

Lemma schedule_restarts v run p : restartable v run p ->
  schedule_worker_group_restart v run p =
  (true, set_reg (retire_group run p.(reg)) (set_in_flight (Some run)
           (set_svc (Service (p_coord p) (<[run := v.(clock_ms)]> (restarts p.(svc)))) p))).
Proof.
  intros [S C T I D]. unfold schedule_worker_group_restart. rewrite S, bool_decide_true, andb_false_r by done.
  destruct (containers v); [done|]. rewrite I. destruct (Z.ltb_spec (clock_ms v - default 0 (restarts (svc p) !! run)) WORKER_RESTART_RETRY); [lia|].
  by rewrite T.
Qed.

(** An unrelated run is refused when a supervised run is configured. *)
Lemma schedule_refuses v run p : v.(shared_path) = true -> v.(supervised) <> Some run ->
  schedule_worker_group_restart v run p = (false, p).
Proof. intros S N. unfold schedule_worker_group_restart. by rewrite S, bool_decide_false. Qed.

(** ** Retiring the group *)

Lemma retire_worker_demoted run s w r0 r :
  ok s -> map_get (run, w) s.(records) = Some r -> active r0 \/ ~ active r ->
  demoted s (retire_worker run s (w, r0)) /\
  exists i, map_get w (retire_worker run s (w, r0)).(index) = Some i /\ ~ active i.
Proof.
  intros O E H. destruct (ok_indexed s O run w r E) as (Rr & i & I & Ri).
  destruct (ok_record s O w i I) as (r' & E' & Rk & Ac). rewrite Ri, E in E'. injection E' as <-.
  unfold retire_worker. cbn [fst snd]. case_bool_decide as A.
  - rewrite (mark_suppressed_spec _ _ _ _ _ E). unfold set_local. cbn [index set_records]. rewrite I. split.
    + apply (retire_demoted w i (set_status DEAD i) (set_status DEAD r)); cbn; try done; try congruence.
      * intros k. rewrite Ri. apply map_get_set.
      * by eapply map_set_present.
      * apply unregister_released, O.
    + exists (set_status DEAD i). cbn. by rewrite map_get_set_eq.
  - assert (NA : ~ active r) by tauto. unfold set_local. rewrite I. split.
    + apply (retire_demoted w i (set_status DEAD i) r); cbn; try done; try congruence.
      * intros k. rewrite Ri. by destruct (decide _) as [<-|].
      * apply unregister_released, O.
    + exists (set_status DEAD i). cbn. by rewrite map_get_set_eq.
Qed.

Lemma list_workers_elem run s w r : ok s ->
  (w, r) ∈ list_workers run s <-> map_get (run, w) s.(records) = Some r.
Proof.
  intros O. unfold list_workers. rewrite list_elem_of_omap. split.
  - intros ([[run' w'] r'] & I & E). cbn in E. destruct (decide (run' = run)) as [->|]; [|done]. injection E as -> ->.
    apply elem_map_get; [|done]. by eapply (NoDup_fmap_1 snd), (eq_ind_r _ (ok_distinct_ids s O)), map_map.
  - intros E. exists ((run, w), r). split; [by apply map_get_elem|]. cbn. by rewrite decide_True.
Qed.

Lemma retire_fold run l s0 s :
  ok s0 -> demoted s0 s -> (forall e, e ∈ l -> map_get (run, e.1) s0.(records) = Some e.2) ->
  demoted s0 (foldl (retire_worker run) s l) /\
  forall w r, (w, r) ∈ l -> exists i, map_get w (foldl (retire_worker run) s l).(index) = Some i /\ ~ active i.
Proof.
  revert s. induction l as [|[w r0] l IH]; intros s O D H; [by split; [|intros ? ? ?%elem_of_nil]|].
  cbn [foldl]. pose proof (demoted_ok _ _ D O) as Os. pose proof (H _ (list_elem_of_here _ _)) as E0. cbn in E0.
  assert (X : exists r, map_get (run, w) s.(records) = Some r /\ (active r0 \/ ~ active r)).
  { destruct (ok_indexed s0 O run w r0 E0) as (Rr & i & I & Ri).
    destruct (demoted_each _ _ D w) as [(_ & Er & _)|(_ & j & j' & r' & J & _ & _ & _ & _ & Er & _ & _ & Nr & _)].
    - exists r0. rewrite Er. split; [done|]. destruct (decide (i_status r0 = ACTIVE)); [by left|by right].
    - exists r'. split; [|by right]. rewrite I in J. injection J as <-. by rewrite Ri in Er. }
  destruct X as (r & Er & Hr). destruct (retire_worker_demoted run s w r0 r Os Er Hr) as [D1 (i & I & Ni)].
  destruct (IH (retire_worker run s (w, r0))) as [D2 Dn].
  { done. } { by etrans. } { intros e He. apply H. by right. }
  split; [done|]. intros w' r' [[= -> ->]|Hl]%elem_of_cons; [|by eapply Dn].
  destruct (decide (w ∈ map fst l)) as [([w2 r2] & -> & Hl)%list_elem_of_fmap|Hl]; [by eapply Dn|].
  clear -I Ni Hl. revert I. generalize (retire_worker run s (w, r0)) as s1. induction l as [|[w2 r2] l IH]; intros s1 I; [by exists i|].
  cbn [foldl]. apply not_elem_of_cons in Hl as [Hw Hl]. apply IH; [done|]. cbn in Hw.
  unfold retire_worker, set_local, mark_suppressed, mark_worker_dead. cbn.
  repeat (case_bool_decide || case_match || destruct (map_get _ (records _))); cbn; try done;
    by rewrite map_get_set, decide_False.
Qed.

Lemma demoted_inactive run s s' : demoted s s' ->
  (forall w i, map_get w s.(index) = Some i -> i_run i = run -> ~ active i) ->
  forall w i, map_get w s'.(index) = Some i -> i_run i = run -> ~ active i.
Proof.
  intros D H w i I Ri. destruct (demoted_each _ _ D w) as [(E & _)|(_ & j & j' & r' & _ & J & _ & _ & N & _)]; [|congruence].
  eapply H; [by rewrite <- E|done].
Qed.

(** What the index says of a run, the records and the leases say as well. *)
Lemma inactive_everywhere run s :
  ok s -> (forall w i, map_get w s.(index) = Some i -> i_run i = run -> ~ active i) ->
  (forall w r, map_get (run, w) s.(records) = Some r -> ~ active r) /\
  (forall w id l, tracked w id l s.(lease_mgr) -> l.(is_alive) = true -> l.(l_run) <> run).
Proof.
  intros O A. split.
  - intros w r E. destruct (ok_indexed _ O run w r E) as (_ & i & I & Ri).
    destruct (ok_record _ O w i I) as (r' & E' & _ & Ac). rewrite Ri, E in E'. injection E' as <-.
    rewrite Ac. by eapply A.
  - intros w id l T Al Hr. destruct (ok_alive _ O w id l T Al) as (i & I & Ai & Ri).
    eapply A; [exact I|congruence|done].
Qed.

(** After a restart is scheduled no worker of the run is active, in either store, and none
    has a live lease. *)
Lemma retire_group_spec run s :
  ok s -> demoted s (retire_group run s) /\
  (forall w i, map_get w (retire_group run s).(index) = Some i -> i_run i = run -> ~ active i) /\
  (forall w r, map_get (run, w) (retire_group run s).(records) = Some r -> ~ active r) /\
  (forall w id l, tracked w id l (retire_group run s).(lease_mgr) -> l.(is_alive) = true -> l.(l_run) <> run).
Proof.
  intros O. destruct (retire_fold run (list_workers run s) s s O) as [D G]; [done| |].
  { intros [w r] I. by apply list_workers_elem in I. }
  fold (retire_group run s) in *. pose proof (demoted_ok _ _ D O) as O'. split; [done|].
  assert (A : forall w i, map_get w (retire_group run s).(index) = Some i -> i_run i = run -> ~ active i).
  { intros w i I Ri. assert (exists i0, map_get w s.(index) = Some i0 /\ i_run i0 = run) as (i0 & I0 & R0).
    { destruct (demoted_each _ _ D w) as [(E & _)|(_ & j & j' & r' & J & J' & R & _)].
      - exists i. split; [congruence|done].
      - exists j. split; [done|congruence]. }
    destruct (ok_record s O w i0 I0) as (r0 & E0 & _). rewrite R0 in E0.
    destruct (G w r0) as (i' & I' & Ni); [by apply list_workers_elem|congruence]. }
  split; [exact A|]. by apply inactive_everywhere.
Qed.

(** ** The components plugged together *)

Section LifespanProps.
Import Lifespan.
Context (v : supervisor) (now : Z).
#[local] Abbreviation failure run p := (on_worker_failure now true (restart_callback v true) run p).

Lemma restart_callback_frames auto f : restart_callback v auto = Some f -> frames f.
Proof. destruct auto; [|done]. intros [= <-]. apply schedule_frames. Qed.

(** What the supervisor works on *)
Record same_workers (p q : plane) : Prop := {
  sw_reg : reg q = reg p; sw_restarts : restarts q.(svc) = restarts p.(svc); sw_in_flight : in_flight q = in_flight p
}.
#[local] Instance same_workers_refl : Reflexive same_workers.
Proof. by split. Qed.
#[local] Instance same_workers_trans : Transitive same_workers.
Proof. intros p q r [] []. split; congruence. Qed.

Lemma attempt_recovery_schedules run p :
  agrees (p_coord p) -> state_of (p_coord p) run = Some FAILED ->
  exists q, same_workers p q /\
    attempt_recovery now (restart_callback v true) run p = snd (schedule_worker_group_restart v run q).
Proof.
  intros A S. unfold attempt_recovery. cbn [restart_callback]. unfold state_of in S.
  destruct (kv (p_coord p) !! run) as [r|] eqn:K; [|done]. injection S as Sr.
  pose proof (transition_run_spec (p_coord p) run RECOVERING now r A K) as T. rewrite Sr in T.
  destruct (transition_run _ _ _ _) as [res c]. destruct T as (_ & _ & _ & T).
  rewrite bool_decide_true in T by (repeat constructor). destruct T as [-> _].
  exists (record_recovery_checkpoint run (set_coord c p)). split; [by split|]. by destruct (schedule_worker_group_restart _ _ _).
Qed.

(** A failure calls the supervisor exactly when it is acted upon. *)
Lemma failure_schedules run p :
  agrees (p_coord p) -> run ∉ recovering p ->
  let go := match state_of (p_coord p) run with Some s => handled s | None => false end in
  if go then exists q, same_workers p q /\ same_workers (snd (schedule_worker_group_restart v run q)) (failure run p)
  else same_workers p (failure run p).
Proof.
  intros A R. unfold on_worker_failure. rewrite bool_decide_false by done. cbn zeta.
  enough (H : let p' := handle_failure now true (restart_callback v true) run p in
    if match state_of (p_coord p) run with Some s => handled s | None => false end
    then exists q, same_workers p q /\ same_workers (snd (schedule_worker_group_restart v run q)) p'
    else same_workers p p').
  { cbn zeta in H. destruct (match state_of (p_coord p) run with Some s => handled s | None => false end).
    - destruct H as (q & Q & [H1 H2 H3]). exists q. split; [done|]. by split.
    - destruct H as [H1 H2 H3]. by split. }
  unfold handle_failure. set (q := set_recovering _ p). cbn zeta.
  assert (Go : forall c, agrees c -> state_of c run = Some FAILED ->
    exists q', same_workers p q' /\ same_workers (snd (schedule_worker_group_restart v run q'))
      (attempt_recovery now (restart_callback v true) run
         (set_coord (abort_pending_checkpoints run c) (set_coord c q)))).
  { intros c Ac Sc. destruct (abort_pending_spec run c) as (Kv & F & _).
    destruct (attempt_recovery_schedules run (set_coord (abort_pending_checkpoints run c) (set_coord c q)))
      as (q' & Q & ->); [by eapply agrees_kv|unfold state_of; cbn; by rewrite Kv|].
    exists q'. split; [|done]. etrans; [|exact Q]. by split. }
  assert (Kq : kv (p_coord q) !! run = kv (p_coord p) !! run) by done. rewrite Kq. unfold state_of.
  destruct (kv (p_coord p) !! run) as [r|] eqn:K; [|by split]. cbn [fmap option_fmap option_map].
  pose proof (transition_run_spec (p_coord q) run FAILED now r A Kq) as T.
  destruct (r_state r) eqn:Sr; cbn [handled]; try (by split).
  all: try (apply (Go (p_coord p)); [done|unfold state_of; by rewrite K, <- Sr]).
  all: destruct (transition_run _ _ _ _) as [res c]; destruct T as (A' & _ & _ & T).
  1: { rewrite bool_decide_false in T by exact created_cannot_fail. by destruct T as [-> _]. }
  all: rewrite bool_decide_true in T by (repeat constructor); destruct T as [-> T].
  all: apply (Go c A'); unfold state_of; by rewrite T.
Qed.

Lemma newest_committed_other run run' c c' t : run' <> run ->
  checkpoints c' = (fun cp => if decide (c_run cp = run) then aborted cp else cp) <$> checkpoints c ->
  newest_committed run' c t -> newest_committed run' c' t.
Proof.
  intros Hn E. assert (L : forall id cp, c_run cp = run' ->
    checkpoints c' !! id = Some cp <-> checkpoints c !! id = Some cp).
  { intros id cp Hr. rewrite E, lookup_fmap, fmap_Some. split.
    - intros (cp0 & E0 & ->). rewrite E0. f_equal. destruct (decide (c_run cp0 = run)); [|done].
      exfalso. apply Hn. rewrite <- Hr. unfold aborted. by destruct (open_state cp0).
    - intros E0. exists cp. split; [done|]. rewrite decide_False; congruence. }
  destruct t as [id|]; cbn.
  - intros (cp & E1 & R & St & M). exists cp. split_and!; [by apply L|done|done|].
    intros id' cp' E' R' St'. eapply M; [by apply L|done..].
  - intros H id cp E1 R. by eapply H, R; apply L.
Qed.

(** A failure of one run leaves the others alone. *)
Lemma failure_frame auto run p :
  agrees (p_coord p) -> recovering p = ∅ ->
  let p' := on_worker_failure now auto (restart_callback v auto) run p in
  agrees (p_coord p') /\ recovering p' = ∅ /\
  forall id, id <> run -> state_of (p_coord p') id = state_of (p_coord p) id /\
    map_get id (targets p') = map_get id (targets p) /\
    forall t, newest_committed id (p_coord p) t -> newest_committed id (p_coord p') t.
Proof.
  intros A R. assert (Hn : run ∉ recovering p) by (rewrite R; apply not_elem_of_empty). cbn zeta.
  destruct (state_of (p_coord p) run) as [s|] eqn:S.
  - destruct (on_worker_failure_spec now auto (restart_callback v auto) (restart_callback_frames auto) run p s A S Hn) as [Er H].
    rewrite Er. destruct (handled s).
    + destruct H as [H1 H2 H3 H4 H5 H6]. split_and!; [done..|]. intros id Hid. unfold state_of. rewrite H3 by done.
      split_and!; [done|by apply H6|]. intros t. by eapply newest_committed_other.
    + destruct H as (H1 & H2 & H3 & H4). split_and!; [done..|]. intros id Hid. unfold state_of. rewrite H2, H4.
      split_and!; [done..|]. intros t. by apply newest_committed_ext.
  - unfold on_worker_failure. rewrite bool_decide_false by done. unfold handle_failure.
    assert (K : kv (p_coord p) !! run = None) by (unfold state_of in S; by destruct (kv (p_coord p) !! run)).
    set (q := set_recovering _ p). assert (Kq : kv (p_coord q) !! run = None) by done. rewrite Kq.
    cbn. split_and!; [done| |done]. rewrite R. apply set_eq. intros x.
    rewrite elem_of_difference, elem_of_union, elem_of_empty. tauto.
Qed.

(** The first part of a declaration: the worker is retired in both stores. *)
Lemma declare_registry worker id l s :
  ok s -> tracked worker id l s.(lease_mgr) -> l.(is_alive) = true ->
  demoted s (Workers.on_worker_failure worker (mark_suppressed l.(l_run) worker DEAD
    (set_leases (Manager (alter kill id s.(lease_mgr).(objects)) s.(lease_mgr).(leases)) s))).
Proof.
  intros O T Al. destruct (ok_alive s O worker id l T Al) as (i & I & Ai & Ri).
  destruct (ok_record s O worker i I) as (r & E & Rk & _). destruct (ok_indexed s O _ _ _ E) as (Rr & _).
  rewrite <- Ri. rewrite (mark_suppressed_spec _ _ _ _ r) by done.
  unfold Workers.on_worker_failure, set_local. cbn [index set_records set_leases]. rewrite I.
  apply (retire_demoted worker i (set_status DEAD i) (set_status DEAD r)); cbn; try done.
  - intros k. apply map_get_set.
  - by eapply map_set_present.
  - pose proof (ok_wf s O) as Wf. destruct T as [G E0]. split.
    + intros _. eapply quiet_wf; [apply (quiet_kill id)|done].
    + intros id' l' [G' E']. cbn in G', E'. rewrite G in G'. injection G' as <-.
      rewrite list_lookup_alter_eq, E0 in E'. by injection E' as <-.
    + intros w' id' l' Hw _. unfold tracked. cbn. split; intros [G' E']; (split; [done|]).
      * rewrite list_lookup_alter_ne in E'; [done|]. intros ->. apply map_get_elem in G, G'.
        by injection (NoDup_map_inj snd _ _ _ (proj1 (proj2 Wf)) G G' eq_refl).
      * rewrite list_lookup_alter_ne; [done|]. intros ->. apply map_get_elem in G, G'.
        by injection (NoDup_map_inj snd _ _ _ (proj1 (proj2 Wf)) G G' eq_refl).
Qed.

#[local] Abbreviation declare := (Heartbeat.declare mgr set_mgr (on_dead v true now)).

Lemma retire_group_drops run s : Heartbeat.wf s.(lease_mgr) -> drops s.(lease_mgr) (retire_group run s).(lease_mgr).
Proof.
  unfold retire_group. generalize (list_workers run s). intros l. revert s. induction l as [|[w r] l IH]; intros s Wf; [done|].
  cbn [foldl].
  assert (E : lease_mgr (retire_worker run s (w, r)) = unregister w s.(lease_mgr)).
  { unfold retire_worker, set_local, mark_suppressed, mark_worker_dead. cbn.
    destruct (bool_decide _), (map_get (run, w) (records s)); cbn; by destruct (map_get w (index s)). }
  etrans; [by apply (unregister_drops w)|]. rewrite <- E. apply IH. rewrite E. by apply unregister_wf.
Qed.

Lemma mark_local_leases worker run st p :
  lease_mgr (Workers.on_worker_failure worker (mark_suppressed run worker st p)) = lease_mgr p.
Proof.
  unfold Workers.on_worker_failure, set_local, mark_suppressed, mark_worker_dead.
  destruct (map_get _ (records p)); cbn; by destruct (map_get worker (index p)).
Qed.

(** [on_dead] acts on the registry as the failure of the run does. *)
Lemma failure_reg auto run p :
  reg (on_worker_failure now auto (restart_callback v auto) run p) = reg p \/
  reg (on_worker_failure now auto (restart_callback v auto) run p) = retire_group run (reg p).
Proof.
  assert (At : forall q, reg (attempt_recovery now (restart_callback v auto) run q) = reg q \/
                    reg (attempt_recovery now (restart_callback v auto) run q) = retire_group run (reg q)).
  { intros q. unfold attempt_recovery. destruct auto; [|by left]. cbn [restart_callback].
    destruct (transition_run _ _ _ _) as [[] c]; [by left|by left|].
    set (q1 := record_recovery_checkpoint run (set_coord c q)). pose proof (schedule_reg v run q1) as S.
    by destruct (schedule_worker_group_restart v run q1). }
  unfold on_worker_failure, handle_failure. destruct (bool_decide _); [by left|]. cbn zeta.
  destruct (kv _ !! run) as [r|]; [|by left]. destruct (r_state r); try (by left).
  all: try (destruct (transition_run _ _ _ _) as [[] c]; [by left|by left|]).
  all: destruct auto; [|by left].
  all: match goal with H : forall q : plane, _ |- context [attempt_recovery _ _ _ ?q] => exact (H q) end.
Qed.

Lemma on_dead_drops auto worker run p :
  Heartbeat.wf (mgr p) -> drops (mgr p) (mgr (on_dead v auto now worker run p)).
Proof.
  intros Wf. unfold on_dead, mgr in *.
  set (q := set_reg _ (set_reg _ p)).
  assert (E : lease_mgr (reg q) = lease_mgr (reg p)) by apply mark_local_leases.
  destruct (failure_reg auto run q) as [-> | ->]; rewrite <- E; [done|]. apply retire_group_drops. by rewrite E.
Qed.

(** Before a failure of the run, and after it *)
Record ready (run : string) (s : run_state) (p : plane) : Prop := {
  rd_ok : ok (reg p); rd_agrees : agrees (p_coord p); rd_idle : recovering p = ∅;
  rd_state : state_of (p_coord p) run = Some s; rd_restartable : restartable v run p
}.
Record restarting (run : string) (p : plane) : Prop := {
  rt_ok : ok (reg p); rt_agrees : agrees (p_coord p); rt_idle : recovering p = ∅;
  rt_state : state_of (p_coord p) run = Some RECOVERING;
  rt_in_flight : in_flight p = Some run;
  rt_index w i : map_get w (index (reg p)) = Some i -> i_run i = run -> ~ active i;
  rt_records w r : map_get (run, w) (records (reg p)) = Some r -> ~ active r;
  rt_leases w id l : tracked w id l (mgr p) -> l.(is_alive) = true -> l.(l_run) <> run;
  rt_target : exists t, map_get run (targets p) = Some t /\ newest_committed run (p_coord p) t
}.

(** The plane between retiring the worker and the recovery callback *)
#[local] Definition reported (worker : string) (id : nat) (l : lease) (p : plane) : plane :=
  let p := set_mgr (Manager (alter kill id (mgr p).(objects)) (mgr p).(leases)) p in
  let p := set_reg (mark_suppressed l.(l_run) worker DEAD p.(reg)) p in
  set_reg (Workers.on_worker_failure worker p.(reg)) p.

#[local] Lemma declare_reported worker id l p : declare worker id l p = failure l.(l_run) (reported worker id l p).
Proof. done. Qed.

Lemma recover_after_report run s worker id l p :
  handled s = true -> ready run s p -> tracked worker id l (mgr p) -> l.(is_alive) = true -> l.(l_run) = run ->
  restarting run (declare worker id l p).
Proof.
  intros Hs [O A R S Rs] T Al <-. rewrite declare_reported. set (q := reported worker id l p).
  pose proof (declare_registry worker id l (reg p) O T Al) as D. fold (reg q) in D.
  pose proof (demoted_ok _ _ D O : ok (reg q)) as Oq.
  destruct (failure_frame true (l_run l) q A R) as (A' & R' & _).
  assert (Hn : l_run l ∉ recovering q) by (change (recovering q) with (recovering p); rewrite R; apply not_elem_of_empty).
  pose proof (on_worker_failure_spec now true (restart_callback v true) (restart_callback_frames true) _ q s A S Hn) as [_ F].
  rewrite Hs in F. pose proof (failure_schedules (l_run l) q A Hn) as Sc. cbn zeta in Sc.
  change (state_of (p_coord q) (l_run l)) with (state_of (p_coord p) (l_run l)) in Sc. rewrite S, Hs in Sc.
  destruct Sc as (q' & [Q1 Q2 Q3] & [S1 S2 S3]).
  assert (Rq : restartable v (l_run l) q').
  { destruct Rs as [X1 X2 X3 X4 X5]. split; [done..|by rewrite Q3|]. rewrite Q2. exact X5. }
  rewrite (schedule_restarts v _ q' Rq) in S1, S2, S3. cbn [snd set_reg set_in_flight set_svc reg svc in_flight restarts] in S1, S2, S3. rewrite Q1 in S1.
  destruct (retire_group_spec (l_run l) (reg q) Oq) as (D2 & Gi & Gr & Gl).
  destruct F as [_ F2 F3 F4 F5 _].
  change (recovers true (restart_callback v true)) with true in F2, F5.
  split; try done; unfold mgr; rewrite ?S1; try done.
  - by eapply demoted_ok.
  - destruct F5 as (t & Et & Nt). exists t. split; [done|].
    apply (newest_committed_ext _ (abort_pending_checkpoints (l_run l) (p_coord q))).
    + destruct (abort_pending_spec (l_run l) (p_coord q)) as (_ & _ & ->). by rewrite F4.
    + by apply newest_committed_abort.
Qed.

(** The failure of another run while only [run] is supervised *)
Lemma other_run run worker id l p :
  v.(shared_path) = true -> v.(supervised) = Some run ->
  ok (reg p) -> agrees (p_coord p) -> recovering p = ∅ ->
  tracked worker id l (mgr p) -> l.(is_alive) = true -> l.(l_run) <> run ->
  let p' := declare worker id l p in
  demoted (reg p) (reg p') /\ restarts (svc p') = restarts (svc p) /\ in_flight p' = in_flight p /\
  agrees (p_coord p') /\ recovering p' = ∅ /\ state_of (p_coord p') run = state_of (p_coord p) run /\
  map_get run (targets p') = map_get run (targets p) /\
  forall t, newest_committed run (p_coord p) t -> newest_committed run (p_coord p') t.
Proof.
  intros Sh Su O A R T Al Hr. cbn zeta. rewrite declare_reported. set (q := reported worker id l p).
  pose proof (declare_registry worker id l (reg p) O T Al) as D. fold (reg q) in D.
  destruct (failure_frame true (l_run l) q A R) as (A' & R' & Ot). destruct (Ot run) as (S1 & S2 & S3); [congruence|].
  assert (Hn : l_run l ∉ recovering q) by (change (recovering q) with (recovering p); rewrite R; apply not_elem_of_empty).
  assert (W : same_workers q (failure (l_run l) q)).
  { pose proof (failure_schedules (l_run l) q A Hn) as Sc. cbn zeta in Sc.
    destruct (match state_of (p_coord q) (l_run l) with Some s => handled s | None => false end); [|done].
    destruct Sc as (q' & Q & W). rewrite schedule_refuses in W by (done || congruence). by etrans. }
  destruct W as [W1 W2 W3]. rewrite W1, W2, W3. split_and!; try done.
Qed.

Lemma restarting_other run worker id l p :
  v.(shared_path) = true -> v.(supervised) = Some run ->
  restarting run p -> tracked worker id l (mgr p) -> l.(is_alive) = true -> restarting run (declare worker id l p).
Proof.
  intros Sh Su H T Al. pose proof (rt_leases _ _ H worker id l T Al) as Hr. destruct H as [Q1 Q2 Q3 Q4 Q5 Q6 Q7 Q8 Q9].
  destruct (other_run run worker id l p Sh Su Q1 Q2 Q3 T Al Hr) as (D & W2 & W3 & A & R & S & Tg & Nc).
  pose proof (demoted_ok _ _ D Q1) as O.
  pose proof (demoted_inactive run _ _ D Q6) as X.
  destruct (inactive_everywhere run _ O X) as [Xr Xl].
  split; try done; [by rewrite S|by rewrite W3|]. destruct Q9 as (t & Et & Nt). exists t. rewrite Tg. auto.
Qed.

(** C9: one restart per failure. Let automatic recovery be on with one supervised run,
    the registry in step, no restart in flight or attempted within the retry window, and
    the run in a state that can fail. A scan then either finds none of its workers dead,
    or declares exactly one of them, however many have expired: the run is RECOVERING
    with the newest committed checkpoint as its target, its group's restart is in flight,
    and every registration of the run is retired in the index, in the records and in the
    leases. *)
Theorem one_restart_per_scan run s p :
  v.(shared_path) = true -> handled s = true -> ready run s p ->
  let '(p', dead) := Lifespan.poll v true now p in
  (ready run s p' /\ Forall (fun d => d.2 <> run) dead) \/
  (restarting run p' /\ exists worker, filter (fun d => d.2 = run) dead = [(worker, run)]).
Proof.
  intros Sh Hs H. unfold Lifespan.poll, check_workers.
  apply (scan_once mgr set_mgr (on_dead v true now) (threshold production)
           (fun _ _ => eq_refl) (on_dead_drops true) run (ready run s) (restarting run)).
  - intros q worker id l _ Q T Al. destruct (decide (l_run l = run)) as [Hr|Hr].
    + by eapply recover_after_report.
    + destruct Q as [Q1 Q2 Q3 Q4 [X1 X2 X3 X4 X5]].
      destruct (other_run run worker id l q Sh X1 Q1 Q2 Q3 T Al Hr) as (D & W2 & W3 & A & R & S & _).
      split; [by eapply demoted_ok|done|done|by rewrite S|]. split; [done..|by rewrite W3|by rewrite W2].
  - intros q worker id l _ Q T Al. pose proof (rt_leases _ _ Q worker id l T Al) as Hr. split; [done|].
    apply restarting_other; try done. apply H.
  - apply H.
  - apply current_leases.
  - done.
Qed.

(** *** What holds in every state *)

Record consistent (p : plane) : Prop := {
  cs_ok : ok (reg p); cs_agrees : agrees (p_coord p); cs_idle : recovering p = ∅
}.

Lemma retire_group_ok run s : ok s -> ok (retire_group run s).
Proof. intros O. destruct (retire_group_spec run s O) as [D _]. by eapply demoted_ok. Qed.

Lemma failure_consistent auto run p :
  consistent p -> consistent (on_worker_failure now auto (restart_callback v auto) run p).
Proof.
  intros [O A R]. destruct (failure_frame auto run p A R) as (A' & R' & _). split; [|done..].
  destruct (failure_reg auto run p) as [-> | ->]; [done|]. by apply retire_group_ok.
Qed.

Lemma poll_consistent auto p : consistent p -> consistent (fst (Lifespan.poll v auto now p)).
Proof.
  intros H. unfold Lifespan.poll, check_workers.
  pose proof (scan_invariant mgr set_mgr (on_dead v auto now) (threshold production) (fun _ _ => eq_refl)
    (on_dead_drops auto) (fun _ => True) consistent (fun _ => clock_ms v) (mgr p).(leases) 0 p) as S.
  destruct (scan _ _ _ _ _ _ _ p) as [p' dead]. apply S; [|apply H|apply current_leases|done].
  intros q worker id l _ [O A R] T Al. split; [done|].
  change (consistent (on_worker_failure now auto (restart_callback v auto) (l_run l) (reported worker id l q))).
  apply failure_consistent. split; [|done..]. eapply demoted_ok; [by apply declare_registry|done].
Qed.

Lemma schedule_consistent run p : consistent p -> consistent (snd (schedule_worker_group_restart v run p)).
Proof.
  intros [O A R]. destruct (schedule_frames v run p) as (E1 & _ & E3).
  pose proof (schedule_reg v run p) as E. destruct (schedule_worker_group_restart v run p) as [b q].
  cbn [snd] in *. split; [|by rewrite E1|by rewrite E3]. destruct E as [-> | ->]; [done|by apply retire_group_ok].
Qed.

Lemma attempt_reg_or run q f : restart_callback v true = Some f ->
  reg (snd (f run q)) = reg q \/ reg (snd (f run q)) = retire_group run (reg q).
Proof. intros [= <-]. pose proof (schedule_reg v run q) as S. by destruct (schedule_worker_group_restart v run q). Qed.

Lemma recover_run_consistent auto run p :
  consistent p -> consistent (snd (recover_run now (restart_callback v auto) run p)).
Proof.
  intros [O A R]. destruct (state_of (p_coord p) run) as [s|] eqn:S.
  2: { unfold recover_run. unfold state_of in S. by destruct (kv (p_coord p) !! run). }
  pose proof (recover_run_spec now (restart_callback v auto) (restart_callback_frames auto) run p s A S) as Sp.
  unfold recover_run in *. unfold state_of in S. destruct (kv (p_coord p) !! run) as [r|]; [|done].
  injection S as Sr. destruct (r_state r); subst s; try done. rewrite bool_decide_true in Sp by done.
  destruct auto; [|split; [done|apply Sp|done]]. cbn [restart_callback] in *.
  destruct (transition_run _ _ _ _) as [[] c].
  1,2: split; [done|apply Sp|done].
  set (q := record_recovery_checkpoint run _) in *.
  assert (E : reg q = reg p /\ recovering q = recovering p) by done. destruct E as [E1 E2].
  destruct (schedule_frames v run q) as (_ & _ & E3). pose proof (schedule_reg v run q) as E4.
  destruct (schedule_worker_group_restart v run q) as [b q']. cbn [snd] in *.
  split; [|apply Sp|by rewrite E3]. destruct E4 as [-> | ->]; rewrite E1; [done|by apply retire_group_ok].
Qed.
End LifespanProps.

(** ** The demonstration's kill *)

Section Killed.
Context (run : string).

(** The local status after the first loop *)
Definition hit (s : registry) (w : string) : bool :=
  match map_get w s.(index) with
  | Some i => bool_decide (i_run i = run) && bool_decide (i_status i = ACTIVE)
  | None => false
  end.

Lemma hit_spec s w : hit s w = true <-> exists i, map_get w s.(index) = Some i /\ i_run i = run /\ active i.
Proof.
  unfold hit. destruct (map_get w (index s)) as [i|]; [|split; [done|by intros (i & ? & _)]].
  rewrite andb_true_iff, !bool_decide_eq_true. split; [by intros []; exists i|by intros (j & [= <-] & ?)].
Qed.

(** One turn *)
Lemma kill_worker_spec s w :
  let s' := kill_worker run s w in
  lease_mgr s' = lease_mgr s /\ run_workers s' = run_workers s /\ rank_counters s' = rank_counters s /\
  map fst (records s') = map fst (records s) /\
  (forall v, map_get v (index s') = if decide (w = v /\ hit s w = true) then set_status DEAD <$> map_get v (index s) else map_get v (index s)) /\
  (forall r v, map_get (r, v) (records s') =
     if decide (r = run /\ w = v /\ hit s w = true) then set_status DEAD <$> map_get (r, v) (records s) else map_get (r, v) (records s)).
Proof.
  cbn zeta. unfold kill_worker, hit. destruct (map_get w (index s)) as [i|] eqn:I.
  2: { split_and!; [done..| |]; intros; rewrite decide_False by (intuition congruence); done. }
  destruct (bool_decide _ && bool_decide _) eqn:T.
  2: { split_and!; [done..| |]; intros; rewrite decide_False by (intuition congruence); done. }
  unfold set_local. rewrite I. unfold mark_suppressed, mark_worker_dead. cbn [records set_index].
  assert (Ix : forall v, map_get v (map_set w (set_status DEAD i) (index s)) =
    if decide (w = v /\ true = true) then set_status DEAD <$> map_get v (index s) else map_get v (index s)).
  { intros v. rewrite map_get_set. destruct (decide (w = v)) as [<-|D]; [by rewrite decide_True, I|].
    rewrite decide_False by (intuition congruence). done. }
  destruct (map_get (run, w) (records s)) as [r|] eqn:R; cbn; (split_and!; [done..| |exact Ix|]).
  - by eapply map_set_present.
  - intros r0 v. rewrite map_get_set. destruct (decide ((run, w) = (r0, v))) as [[= <- <-]|D].
    + by rewrite decide_True, R.
    + rewrite decide_False by (intuition congruence). done.
  - done.
  - intros r0 v. destruct (decide _) as [(-> & -> & _)|]; [by rewrite R|done].
Qed.

Lemma kill_fold l s :
  let s' := foldl (kill_worker run) s l in
  lease_mgr s' = lease_mgr s /\ run_workers s' = run_workers s /\ rank_counters s' = rank_counters s /\
  map fst (records s') = map fst (records s) /\
  (forall v, map_get v (index s') = if decide (v ∈ l /\ hit s v = true) then set_status DEAD <$> map_get v (index s) else map_get v (index s)) /\
  (forall r v, map_get (r, v) (records s') =
     if decide (r = run /\ v ∈ l /\ hit s v = true) then set_status DEAD <$> map_get (r, v) (records s) else map_get (r, v) (records s)).
Proof.
  revert s. induction l as [|w l IH]; intros s; cbn [foldl]; cbn zeta.
  { split_and!; [done..| |]; intros; by rewrite decide_False by (rewrite elem_of_nil; tauto). }
  destruct (kill_worker_spec s w) as (L1 & M1 & R1 & K1 & I1 & E1).
  destruct (IH (kill_worker run s w)) as (L2 & M2 & R2 & K2 & I2 & E2).
  rewrite L2, M2, R2, K2, L1, M1, R1, K1.
  assert (H1 : forall v, hit (kill_worker run s w) v = if decide (w = v) then false else hit s v).
  { intros v. unfold hit at 1. rewrite I1. destruct (decide (w = v)) as [<-|D].
    - destruct (hit s w) eqn:Hw; [rewrite decide_True by done|rewrite decide_False by (intuition congruence)].
      + destruct (map_get w (index s)); [|done]. cbn. by rewrite andb_comm.
      + exact Hw.
    - rewrite decide_False by (intuition congruence). done. }
  split_and!; [done..| |].
  - intros v. rewrite I2, I1, H1. destruct (decide (w = v)) as [<-|D].
    + rewrite (decide_False (P := w ∈ l /\ false = true)) by (intuition congruence).
      destruct (hit s w); [rewrite !decide_True by (split; [|done]; try done; by left)|rewrite !decide_False by (intuition congruence)]; done.
    + rewrite (decide_False (P := w = v /\ _)) by (intuition congruence). apply decide_ext. rewrite elem_of_cons. intuition congruence.
  - intros r v. rewrite E2, E1, H1. destruct (decide (w = v)) as [<-|D].
    + rewrite (decide_False (P := r = run /\ w ∈ l /\ false = true)) by (intuition congruence). apply decide_ext. rewrite elem_of_cons. intuition congruence.
    + rewrite (decide_False (P := r = run /\ w = v /\ _)) by (intuition congruence). apply decide_ext. rewrite elem_of_cons. intuition congruence.
Qed.

(** The second loop leaves the leases of other runs. *)
Lemma clear_fold l m : Heartbeat.wf m ->
  Heartbeat.wf (foldl (clear_lease run) m l) /\
  forall w id x, tracked w id x (foldl (clear_lease run) m l) <-> tracked w id x m /\ ~ (w ∈ l /\ x.(l_run) = run).
Proof.
  revert m. induction l as [|v l IH]; intros m Wf; cbn [foldl].
  { split; [done|]. intros w id x. rewrite elem_of_nil. tauto. }
  assert (St : Heartbeat.wf (clear_lease run m v) /\
    forall w id x, tracked w id x (clear_lease run m v) <-> tracked w id x m /\ ~ (w = v /\ x.(l_run) = run)).
  { unfold clear_lease. destruct (map_get v (leases m) ≫= fun id => objects m !! id) as [y|] eqn:Y.
    - destruct (map_get v (leases m)) as [id0|] eqn:G; [|done]. cbn in Y.
      assert (Ty : forall id x, tracked v id x m -> x = y) by (intros id x [G' O']; rewrite G in G'; injection G' as <-; congruence).
      destruct (String.eqb_spec (l_run y) run) as [Er|Nr]; (split; [by try apply unregister_wf|]); intros w id x.
      + rewrite unregister_tracked by done. split; [intros [T ?]; (intuition congruence)|].
        intros [T N]. split; [done|]. intros ->. apply N. by rewrite (Ty _ _ T).
      + split; [|(intuition congruence)]. intros T. split; [done|]. intros [-> E]. by rewrite (Ty _ _ T) in E.
    - split; [done|]. intros w id x. split; [|(intuition congruence)]. intros T. split; [done|]. intros [-> _].
      destruct T as [G O]. by rewrite G in Y; cbn in Y; rewrite O in Y. }
  destruct St as [Wf' St]. destruct (IH _ Wf') as [W2 T2]. split; [done|]. intros w id x. rewrite T2, St, elem_of_cons. tauto.
Qed.

Lemma tracked_key w id x m : tracked w id x m -> w ∈ map fst m.(leases).
Proof. intros [G _]. apply map_get_elem in G. change w with ((w, id).1). by apply list_elem_of_fmap_2. Qed.

Lemma kill_registry s : ok s ->
  let s' := set_leases (clear_leases run (lease_mgr (kill_workers run s))) (kill_workers run s) in
  demoted s s' /\
  (forall w i, map_get w (index s') = Some i -> i_run i = run -> ~ active i) /\
  (forall w id l, tracked w id l (lease_mgr s') -> l.(l_run) <> run).
Proof.
  intros O. cbn zeta. destruct (kill_fold (map fst (index s)) s) as (L & M & R & K & I & E).
  fold (kill_workers run s) in *. rewrite L. destruct (clear_fold (map fst (leases (lease_mgr s))) (lease_mgr s) (ok_wf s O)) as [Wf T].
  fold (clear_leases run (lease_mgr s)) in *.
  assert (T' : forall w id x, tracked w id x (clear_leases run (lease_mgr s)) <-> tracked w id x (lease_mgr s) /\ x.(l_run) <> run).
  { intros w id x. rewrite T. split; [|(intuition congruence)]. intros [Tr N]. split; [done|]. intros Er. apply N. split; [|done]. by eapply tracked_key. }
  assert (Hi : forall v, hit s v = true -> v ∈ map fst (index s)).
  { intros v (i & G & _)%hit_spec. apply map_get_elem in G. change v with ((v, i).1). by apply list_elem_of_fmap_2. }
  split_and!.
  - split; [done|done|done|done|]. intros w. destruct (hit s w) eqn:Hw.
    + right. pose proof Hw as (i & G & Ri & Ai)%hit_spec. split.
      { intros id x [Tr Nr]%T'. destruct (is_alive x) eqn:Al; [|done].
        destruct (ok_alive s O w id x Tr Al) as (j & Gj & _ & Rj). congruence. }
      destruct (ok_record s O w i G) as (r & Er & Rk & _). destruct (ok_indexed s O _ _ _ Er) as [Rr _].
      exists i, (set_status DEAD i), (set_status DEAD r). cbn. rewrite I, E, decide_True by (split; [by apply Hi|done]).
      rewrite decide_True by (split_and!; [done|by apply Hi|done]). rewrite G, Er. split_and!; try done.
      intros run' N. rewrite E, decide_False by (by intros [? _]; congruence). done.
    + left. cbn. split_and!.
      * rewrite I, decide_False by (rewrite Hw; by intros []). done.
      * intros r. rewrite E, decide_False by (rewrite Hw; by intros (_ & _ & [=])). done.
      * intros id x Al. rewrite T'. split; [by intros []|]. intros Tr. split; [done|]. intros Er.
        destruct (ok_alive s O w id x Tr Al) as (i & G & Ai & Ri).
        rewrite (proj2 (hit_spec s w)) in Hw; [done|]. exists i. split_and!; [done|congruence|done].
  - cbn. intros w i. rewrite I. destruct (decide _) as [[_ Hw]|N].
    + destruct (map_get w (index s)) as [j|]; [|done]. by intros [= <-].
    + intros G Ri A. apply N. assert (Hw : hit s w = true) by (apply hit_spec; by exists i). split; [by apply Hi|done].
  - cbn. intros w id l. rewrite T'. tauto.
Qed.
End Killed.

Lemma killable_state sup s e : killable sup s e = true -> handled (r_state e.2) = true /\ FAILED ∈ Fsm.VALID_TRANSITIONS (r_state e.2).
Proof.
  unfold killable. intros [H _]%andb_true_iff. apply bool_decide_eq_true in H. rewrite !elem_of_cons, elem_of_nil in H.
  destruct H as [->|[->|[->|[->|[]]]]]; (split; [done|by apply (bool_decide_unpack _)]).
Qed.

(** What the kill leaves: the run is failed, and nothing of it is active or watched. *)
Record killed (run : string) (p : plane) : Prop := {
  kl_consistent : consistent p;
  kl_state : state_of (p_coord p) run = Some FAILED;
  kl_index w i : map_get w (index (reg p)) = Some i -> i_run i = run -> ~ active i
}.

Lemma fail_killed_coord run r container now p : agrees (p_coord p) -> kv (p_coord p) !! run = Some r ->
  FAILED ∈ Fsm.VALID_TRANSITIONS (r_state r) ->
  let p' := fail_killed run container now p in
  agrees (p_coord p') /\ checkpoints (p_coord p') = checkpoints (p_coord p) /\
  kv (p_coord p') = <[run := Run FAILED (r_step r) now (r_last_checkpoint r) (Some ("Worker " +:+ container +:+ " killed (demo)"))]> (kv (p_coord p)) /\
  targets p' = targets p /\ restarts (svc p') = restarts (svc p) /\ in_flight p' = in_flight p /\ recovering p' = recovering p.
Proof.
  intros A K V. unfold fail_killed, set_run_error.
  pose proof (fun edit => move_spec (p_coord p) run FAILED now edit A) as M.
  specialize (M (fun r => Run (r_state r) (r_step r) (r_updated r) (r_last_checkpoint r) (Some ("Worker " +:+ container +:+ " killed (demo)"))) (fun _ => eq_refl)).
  destruct (move _ _ _ _ _) as [res c]. rewrite K, bool_decide_true in M by done. destruct M as (A' & C' & Oth & _ & K').
  cbn zeta. split_and!; try done.
  apply map_eq. intros id. destruct (decide (run = id)) as [<-|N]; [by rewrite lookup_insert_eq|].
  rewrite lookup_insert_ne by done. by apply Oth.
Qed.

Lemma fail_killed_reg run container now p : ok (reg p) ->
  let p' := fail_killed run container now p in
  demoted (reg p) (reg p') /\ (forall w i, map_get w (index (reg p')) = Some i -> i_run i = run -> ~ active i) /\
  (forall w id l, tracked w id l (lease_mgr (reg p')) -> l.(l_run) <> run).
Proof. intros O. unfold fail_killed. destruct (set_run_error _ _ _ _) as [res c]. by apply kill_registry. Qed.

Lemma fail_killed_killed run r container now p : consistent p -> kv (p_coord p) !! run = Some r ->
  FAILED ∈ Fsm.VALID_TRANSITIONS (r_state r) -> killed run (fail_killed run container now p).
Proof.
  intros [O A R] K V. destruct (fail_killed_coord run r container now p A K V) as (A' & _ & K' & _ & _ & _ & R').
  destruct (fail_killed_reg run container now p O) as (D & I & _). split; [split|..].
  - by eapply demoted_ok.
  - exact A'.
  - by rewrite R'.
  - unfold state_of. by rewrite K', lookup_insert_eq.
  - exact I.
Qed.

(** No scan declares a worker of a killed run, or touches the run. *)
Lemma killed_declare v auto now run worker id l p : killed run p -> tracked worker id l (Lifespan.mgr p) -> l.(is_alive) = true ->
  l.(l_run) <> run /\ killed run (Heartbeat.declare Lifespan.mgr Lifespan.set_mgr (Lifespan.on_dead v auto now) worker id l p).
Proof.
  intros [[O A R] S I] T Al. destruct (inactive_everywhere run (reg p) O I) as [_ Ls]. pose proof (Ls _ _ _ T Al) as N. split; [done|].
  set (q := reported worker id l p). change (killed run (on_worker_failure now auto (Lifespan.restart_callback v auto) (l_run l) q)).
  pose proof (declare_registry worker id l (reg p) O T Al) as D. fold (reg q) in D.
  assert (Cq : consistent q) by (split; [by eapply demoted_ok|done..]).
  destruct (failure_frame v now auto (l_run l) q A R) as (_ & _ & F). destruct (F run) as (Sr & _); [congruence|].
  assert (D2 : demoted (reg p) (reg (on_worker_failure now auto (Lifespan.restart_callback v auto) (l_run l) q))).
  { etrans; [exact D|]. destruct (failure_reg v now auto (l_run l) q) as [-> | ->]; [done|]. by apply retire_group_spec, Cq. }
  split; [by apply failure_consistent|by rewrite Sr|]. by eapply demoted_inactive.
Qed.

Lemma killed_poll v auto now run p : killed run p ->
  let '(p', dead) := Lifespan.poll v auto now p in killed run p' /\ Forall (fun d => d.2 <> run) dead.
Proof.
  intros H. unfold Lifespan.poll, check_workers.
  pose proof (scan_invariant Lifespan.mgr Lifespan.set_mgr (Lifespan.on_dead v auto now) (threshold production) (fun _ _ => eq_refl)
    (on_dead_drops v now auto) (fun r => r <> run) (killed run) (fun _ => clock_ms v) (Lifespan.mgr p).(leases) 0 p) as S.
  destruct (scan _ _ _ _ _ _ _ p) as [p' dead]. apply S; [|apply (kl_consistent _ _ H)|apply current_leases|done].
  intros q worker id l _ Q T Al. by apply killed_declare.
Qed.

Lemma last_updated_spec l :
  match last_updated l with
  | None => l = []
  | Some m => m ∈ l /\ forall x, x ∈ l -> r_updated x.2 <= r_updated m.2
  end.
Proof.
  destruct l as [|x l]; [done|]. cbn [last_updated]. destruct (foldl_max (fun e => r_updated e.2) l x) as (M & B & U). split.
  - destruct M as [->|M]; [by left|by right].
  - intros y [->|Hy]%elem_of_cons; [done|by apply U].
Qed.

(** Which run is failed *)
Lemma demo_kill_choice sup runs container now p :
  (demo_kill sup runs container now p = p /\ forall e, e ∈ runs -> killable sup (reg p) e = false) \/
  exists e, demo_kill sup runs container now p = fail_killed e.1 container now p /\ e ∈ runs /\ killable sup (reg p) e = true /\
    forall x, x ∈ runs -> killable sup (reg p) x = true -> r_updated x.2 <= r_updated e.2.
Proof.
  unfold demo_kill. set (l := filter _ runs). pose proof (last_updated_spec l) as L. destruct (last_updated l) as [e|].
  - right. exists e. destruct L as [I M]. unfold l in I, M. apply list_elem_of_filter in I as [Ke I]. split_and!; [done..|].
    intros x Ix Kx. apply M. by apply list_elem_of_filter.
  - left. split; [done|]. intros e I. destruct (killable sup (reg p) e) eqn:Ke; [|done].
    assert (Il : e ∈ l) by by apply list_elem_of_filter. rewrite L in Il. by apply elem_of_nil in Il.
Qed.

Lemma demo_kill_consistent sup runs container now p : runs ≡ₚ map_to_list (kv (p_coord p)) -> consistent p ->
  consistent (demo_kill sup runs container now p).
Proof.
  intros P C. destruct (demo_kill_choice sup runs container now p) as [[-> _]|([run r] & -> & I & Ke & _)]; [done|].
  rewrite P, elem_of_map_to_list in I. destruct (killable_state _ _ _ Ke) as [_ V]. cbn in V.
  by apply (fail_killed_killed run r container now p C I V).
Qed.

(** ** Histories of the control plane *)

Section History.
Import Lifespan.

(** The steps of the process besides the transfers of checkpoints, in any order: the
    workers' calls (the end and the failure of a run and the trigger of a checkpoint at a
    step among them), the console's actions, manual recovery, the scans, the supervisor and
    its reconciliation, and the demonstration's kill. Uploads, commits with their outcomes,
    what retention forgets and restarts of the process are the other steps of
    [Checkpointing.step], whose histories are those of the control plane; writes to the
    key-value store do not fail in either, [Persistence] has what a failed one leaves. *)
Inductive live_step : plane -> plane -> Prop :=
| step_register run rank w now p :
    map_get w p.(reg).(index) = None ->
    live_step p (set_reg (snd (register_worker run rank w now p.(reg))) p)
| step_deregister w p : live_step p (set_reg (deregister_worker w p.(reg)) p)
| step_heartbeat w st now p :
    live_step p (let '(_, r, c) := update_worker_heartbeat w st now p.(reg) (p_coord p) in set_reg r (set_coord c p))
| step_create run now p :
    kv (p_coord p) !! run = None -> live_step p (set_coord (snd (create_run (p_coord p) run now)) p)
| step_action e run a p : live_step p (set_svc (snd (post_action p.(svc) e run a)) p)
| step_complete e run p : live_step p (set_svc (snd (complete_run p.(svc) e run)) p)
| step_fail e run reason p : live_step p (set_svc (snd (fail_run p.(svc) e run reason)) p)
| step_trigger e run st p : live_step p (set_svc (snd (trigger_checkpoint p.(svc) e run (Some st))) p)
| step_poll v auto now p : live_step p (fst (Lifespan.poll v auto now p))
| step_recover v auto now run p : live_step p (snd (recover_run now (restart_callback v auto) run p))
| step_reconcile v n p : live_step p (reconcile v n p)
| step_restarted ok run p : live_step p (restart_finished ok run p)
| step_kill sup runs container now p :
    runs ≡ₚ map_to_list (kv (p_coord p)) -> live_step p (demo_kill sup runs container now p).

(** A restart of the process keeps the persisted stores only. *)
Definition reboot (now : Z) (p : plane) : plane :=
  Plane (Service (Coord (kv (p_coord p)) (checkpoints (p_coord p)) ∅) ∅)
    (rehydrate now p.(reg).(records)) ∅ [] None.
Definition empty_plane : plane :=
  Plane (Service (Coord ∅ ∅ ∅) ∅) (Registry [] [] [] [] init_manager) ∅ [] None.

Lemma empty_plane_consistent : consistent empty_plane.
Proof. split; [apply empty_registry_ok|by intros id m ?|done]. Qed.

Lemma update_run_step_agrees run st now c : agrees c -> agrees (update_run_step run st now c).
Proof.
  intros A. unfold update_run_step. destruct (kv c !! run) as [r|] eqn:K; [|done].
  intros id m F. specialize (A id m F). unfold state_of in *. cbn.
  destruct (decide (run = id)) as [<-|].
  - rewrite lookup_insert_eq. by rewrite K in A.
  - by rewrite lookup_insert_ne.
Qed.

Lemma post_action_agrees a e run act : agrees (coord a) -> agrees (coord (snd (post_action a e run act))).
Proof.
  intros A. destruct (state_of (coord a) run) as [s|] eqn:S.
  - pose proof (post_action_table a e run act s A S) as T. by destruct (post_action a e run act); destruct T.
  - unfold state_of in S. assert (K : kv (coord a) !! run = None) by (by destruct (kv (coord a) !! run)).
    destruct act; cbn [post_action]; unfold start_run, cancel_run, transition_endpoint, trigger_checkpoint, resume_run, transition_run, move;
      by rewrite K.
Qed.

Lemma move_agrees c id target now edit :
  agrees c -> (forall r, r_state (edit r) = r_state r) -> agrees (snd (move c id target now edit)).
Proof. intros A E. pose proof (move_spec c id target now edit A E) as S. destruct (move _ _ _ _ _). by destruct S. Qed.

Lemma create_checkpoint_agrees c run id st now : agrees c -> agrees (snd (create_checkpoint c run id st now)).
Proof.
  intros A. unfold create_checkpoint. destruct (kv c !! run) as [r|] eqn:K; [|done]. intros id' m E.
  specialize (A id' m E). unfold state_of in *. cbn. destruct (decide (run = id')) as [<-|].
  - rewrite lookup_insert_eq. by rewrite K in A.
  - by rewrite lookup_insert_ne.
Qed.

Lemma trigger_agrees a e run st :
  agrees (coord a) -> agrees (coord (snd (trigger_checkpoint a e run st))).
Proof.
  intros A. unfold trigger_checkpoint, transition_run.
  pose proof (move_agrees (coord a) run CHECKPOINTING (ControlPlane.now e) (fun r => r) A (fun _ => eq_refl)) as M.
  destruct (move _ _ _ _ _) as [[] c]; [done..|]. cbn [snd] in M.
  pose proof (create_checkpoint_agrees c run (fresh_id e) (default (r_step r) st) (ControlPlane.now e) M) as C.
  by destruct (create_checkpoint _ _ _ _ _).
Qed.

Lemma create_run_agrees c run now : kv c !! run = None -> agrees c -> agrees (snd (create_run c run now)).
Proof. intros K A. unfold create_run. cbn [snd]. by apply agrees_persist. Qed.

Lemma update_worker_heartbeat_agrees w st now s c :
  agrees c -> agrees (snd (update_worker_heartbeat w st now s c)).
Proof.
  intros A. unfold update_worker_heartbeat. repeat (case_match; try done); cbn; by apply update_run_step_agrees.
Qed.

Lemma reconcile_consistent v n p : consistent p -> consistent (reconcile v n p).
Proof. intros H. unfold reconcile. repeat (case_match; try done). by apply schedule_consistent. Qed.

Lemma restart_finished_consistent b run p : consistent p -> consistent (restart_finished b run p).
Proof.
  intros [O A R]. unfold restart_finished, release, forget_attempt. destruct b; case_bool_decide; by split.
Qed.

Lemma live_step_consistent p p' : consistent p -> live_step p p' -> consistent p'.
Proof.
  intros [O A R] S.
  destruct S as [run rank w now p Fr|w p|w st now p|run now p Fr|e run a p|e run p|e run m p|e run st p|v auto now p|v auto now run p|v n p|b run p|sup runs ct now p Pm].
  - split; [by apply register_worker_ok|done..].
  - split; [by apply deregister_worker_ok|done..].
  - pose proof (update_worker_heartbeat_ok w st now (reg p) (p_coord p) O) as O'.
    pose proof (update_worker_heartbeat_agrees w st now (reg p) (p_coord p) A) as A'.
    destruct (update_worker_heartbeat _ _ _ _ _) as [[o r] c]. by split.
  - split; [done| |done]. by apply create_run_agrees.
  - split; [done| |done]. by apply post_action_agrees.
  - split; [done| |done]. unfold complete_run, transition_endpoint, transition_run.
    pose proof (move_agrees (p_coord p) run COMPLETED (ControlPlane.now e) (fun r => r) A (fun _ => eq_refl)) as M.
    fold (p_coord p). by destruct (move _ _ _ _ _).
  - split; [done| |done]. unfold fail_run, set_run_error.
    pose proof (fun edit => move_agrees (p_coord p) run FAILED (ControlPlane.now e) edit A) as M.
    fold (p_coord p). specialize (M (fun r => Run (r_state r) (r_step r) (r_updated r) (r_last_checkpoint r) (Some m)) (fun _ => eq_refl)).
    by destruct (move _ _ _ _ _).
  - split; [done| |done]. by apply trigger_agrees.
  - by apply poll_consistent.
  - by apply recover_run_consistent.
  - by apply reconcile_consistent.
  - by apply restart_finished_consistent.
  - by apply demo_kill_consistent.
Qed.

Lemma reboot_consistent now p : consistent p -> consistent (reboot now p).
Proof. intros [O A R]. split; [by apply rehydrate_ok|by intros id m ?|done]. Qed.

End History.

(** ** The end of a recovery *)

Lemma listed_ascending run c : StronglySorted (fun a b => c_step a.2 <= c_step b.2) (list_checkpoints run c).
Proof.
  unfold list_checkpoints. set (l := filter (fun e => c_run e.2 = run) (map_to_list (checkpoints c))).
  destruct (stable_sort_spec (fun a b : string * checkpoint => c_step b.2 <? c_step a.2)
    (fun e => - c_step e.2) (fun _ => True)) with (l := l) (z := 0) as [D _].
  { intros a b _ _. destruct (Z.ltb_spec (c_step b.2) (c_step a.2)), (Z.ltb_spec (- c_step a.2) (- c_step b.2)); done || lia. }
  { by apply Forall_true. }
  unfold descending in D. induction D as [|a k D IH F]; constructor; [done|].
  eapply Forall_impl; [exact F|]. cbn. lia.
Qed.

Lemma committed_ascending run c : StronglySorted (fun a b => c_step a.2 <= c_step b.2) (committed run c).
Proof.
  unfold committed. pose proof (listed_ascending run c) as D. induction D as [|a k D IH F]; [constructor|]. rewrite filter_cons.
  case_decide; [|done]. constructor; [done|]. apply Forall_forall. intros x [_ I]%list_elem_of_filter. by rewrite Forall_forall in F; apply F.
Qed.


(** C35: the recovery completes. From a run whose group restart is in flight, when the
    restart has ended and a restarted worker resumes the run, the resume call answers 200
    with its event, the run is RUNNING again, nothing is in flight and the next failure
    may restart the group at once. *)
Theorem group_recovery_completes run e p :
  restarting run p ->
  let p1 := restart_finished true run p in
  let '(rep, a) := resume_run p1.(svc) e run in
  in_flight p1 = None /\ rep = Reply 200 [(run, "run_resumed")] /\
  state_of (coord a) run = Some RUNNING /\ restarts a !! run = None.
Proof.
  intros [_ A _ S F _ _ _ _]. unfold restart_finished, release. rewrite bool_decide_true by done. cbn zeta.
  unfold state_of in S. destruct (kv (p_coord p) !! run) as [r|] eqn:K; [|done]. injection S as Sr.
  cbn [svc set_in_flight]. unfold resume_run. fold (p_coord p). rewrite K, Sr.
  pose proof (transition_run_spec (p_coord p) run RUNNING (ControlPlane.now e) r A K) as T. rewrite Sr in T.
  destruct (transition_run _ _ _ _) as [res c]. destruct T as (_ & _ & _ & T).
  rewrite bool_decide_true in T by (repeat constructor). destruct T as [-> T]. cbn.
  split_and!; [done|done| |].
  - unfold state_of. by rewrite T.
  - rewrite bool_decide_true by done. apply lookup_delete_eq.
Qed.

(** the retry window. While the last attempt for a run is less than 30 seconds old,
    or, as a run without an attempt counts as tried at time 0 of the monotonic clock,
    during the first 30 seconds of that clock, the supervisor reports a restart as
    scheduled and changes nothing. *)
Theorem retry_window v run p :
  v.(supervised) = Some run -> v.(containers) <> [] -> p.(in_flight) = None ->
  (restarts p.(svc) !! run = None /\ v.(clock_ms) < WORKER_RESTART_RETRY \/
   exists t, restarts p.(svc) !! run = Some t /\ v.(clock_ms) < t + WORKER_RESTART_RETRY) ->
  schedule_worker_group_restart v run p = (true, p).
Proof.
  intros Su C F H. unfold schedule_worker_group_restart. rewrite Su, bool_decide_true, andb_false_r by done.
  destruct (containers v); [done|]. rewrite F.
  destruct (Z.ltb_spec (clock_ms v - default 0 (restarts (svc p) !! run)) WORKER_RESTART_RETRY) as [|L]; [done|].
  destruct H as [[E H]|(t & E & H)]; rewrite E in L; cbn in L; lia.
Qed.

(** the target recorded by the recovery and the one of [_execute_recovery] are
    checkpoints of the same step, or both none. *)
Theorem recovery_targets_agree run c :
  match newest (committed run c), last (committed run c) with
  | Some a, Some b => c_step a.2 = c_step b.2
  | None, None => True
  | _, _ => False
  end.
Proof.
  pose proof (newest_spec (committed run c)) as S. pose proof (committed_ascending run c) as As.
  destruct (newest (committed run c)) as [a|]; [|by rewrite S].
  destruct S as [I M]. destruct (last (committed run c)) as [b|] eqn:L.
  - apply last_Some in L as (l & L). rewrite L in *.
    assert (B : b ∈ l ++ [b]) by (apply elem_of_app; right; by left). specialize (M b B).
    apply elem_of_app in I as [I| ->%list_elem_of_singleton]; [|done].
    assert (c_step a.2 <= c_step b.2) by (eapply (StronglySorted_app_1_elem_of _ _ _ _ _ As); [done|by left]). lia.
  - apply last_None in L. rewrite L in I. by apply elem_of_nil in I.
Qed.

(** ** At a concrete input: both workers of a running run have been silent *)

Definition sample_plane : plane :=
  Plane (Service (Coord {[ "r1" := Run RUNNING 250 0 None None ]}
           {[ "c1" := Checkpoint "r1" 100 CCOMMITTED 1; "c2" := Checkpoint "r1" 200 CCOMMITTED 2;
              "c3" := Checkpoint "r1" 300 CIN_PROGRESS 3; "x1" := Checkpoint "r2" 900 CCOMMITTED 4 ]} ∅) ∅)
    sample_registry ∅ [] None.
Definition sample_supervisor : supervisor := Supervisor 40000 true (Some "r1") ["ckpt-worker-0"; "ckpt-worker-1"] true.

Lemma sample_plane_agrees : agrees (p_coord sample_plane).
Proof. by intros id m ?. Qed.
Lemma sample_plane_ready : ready sample_supervisor "r1" RUNNING sample_plane.
Proof.
  split; [apply sample_registry_ok|apply sample_plane_agrees|done|done|].
  by split.
Qed.

Lemma failure_outcome_witness :
  let p' := on_worker_failure 7 true (Lifespan.restart_callback sample_supervisor true) "r1" sample_plane in
  recovering p' = ∅ /\ map_get "r1" (targets p') = Some (Some "c2") /\
  failed_to true (Lifespan.restart_callback sample_supervisor true) "r1" RECOVERING sample_plane p'.
Proof.
  destruct (failure_outcome 7 true (Lifespan.restart_callback sample_supervisor true)
    (restart_callback_frames sample_supervisor true) "r1" sample_plane RUNNING
    sample_plane_agrees eq_refl ltac:(apply not_elem_of_empty)) as [E F].
  split; [exact E|]. split; [vm_compute; reflexivity|exact F].
Defined.

Lemma one_restart_per_scan_witness :
  let '(p', dead) := Lifespan.poll sample_supervisor true 7 sample_plane in
  dead = [("w0", "r1")] /\
  ((ready sample_supervisor "r1" RUNNING p' /\ Forall (fun d => d.2 <> "r1") dead) \/
   (restarting "r1" p' /\ exists worker, filter (fun d => d.2 = "r1") dead = [(worker, "r1")])).
Proof.
  pose proof (one_restart_per_scan sample_supervisor 7 "r1" RUNNING sample_plane eq_refl eq_refl sample_plane_ready) as H.
  assert (D : snd (Lifespan.poll sample_supervisor true 7 sample_plane) = [("w0", "r1")]) by (vm_compute; reflexivity).
  destruct (Lifespan.poll sample_supervisor true 7 sample_plane) as [p' dead]. exact (conj D H).
Defined.

Definition sample_restarting : plane :=
  declare Lifespan.mgr Lifespan.set_mgr (Lifespan.on_dead sample_supervisor true 7) "w0" 0 (Lease "r1" 0 0 true) sample_plane.

Lemma sample_restarting_ok : restarting "r1" sample_restarting.
Proof.
  apply (recover_after_report sample_supervisor 7 "r1" RUNNING); [done|apply sample_plane_ready| |done..].
  split; vm_compute; reflexivity.
Qed.

Lemma group_recovery_completes_witness :
  let '(rep, a) := resume_run (restart_finished true "r1" sample_restarting).(svc) (Env 9 "") "r1" in
  rep = Reply 200 [("r1", "run_resumed")] /\ state_of (coord a) "r1" = Some RUNNING.
Proof.
  pose proof (group_recovery_completes "r1" (Env 9 "") sample_restarting sample_restarting_ok) as H. cbn zeta in H.
  destruct (resume_run _ _ _) as [rep a]. destruct H as (_ & H1 & H2 & _). exact (conj H1 H2).
Defined.

Lemma retry_window_witness :
  schedule_worker_group_restart (Supervisor 12000 true (Some "r1") ["ckpt-worker-0"] true) "r1" sample_plane = (true, sample_plane).
Proof.
  apply retry_window; [reflexivity|discriminate|reflexivity|]. left. split; [vm_compute; reflexivity|reflexivity].
Defined.
