(* ===== verification/KeyValue.v ===== *)
(** * The key-value stores: [KVStore] of [python-controlplane/src/controlplane/coordinator.py]

    The interface that the coordinator persists its records through, and its two
    implementations: the dictionary in memory and the adapter over etcd's JSON gateway,
    with base64 on the wire and a prefix scan written as a range of keys. etcd itself is an
    interface with the laws of its documentation. Keys and values are sequences of bytes,
    one for each character of a string. *)

From Stdlib Require Import Ascii.
From S2P Require Import Prelude Dict JsString Types.

Abbreviation raw := (list chr).

Lemma chr_of_code c : chr_of (code c) = c.
Proof. unfold chr_of, code. rewrite N2Z.id. apply ascii_N_embedding. Qed.
Lemma code_bounds c : 0 <= code c < 256.
Proof. unfold code. pose proof (N_ascii_bounded c). lia. Qed.
Lemma code_inj c d : code c = code d -> c = d.
Proof. intros E. by rewrite <- (chr_of_code c), E, chr_of_code. Qed.

(** ** [base64.b64encode] and [base64.b64decode] *)

Definition alphabet : raw := units "ABCDEFGHIJKLMNOPQRSTUVWXYZabcdefghijklmnopqrstuvwxyz0123456789+/".
Definition sextet (n : Z) : chr := default "="%char (alphabet !! Z.to_nat n).
Definition position (c : chr) : option Z := (fun e => Z.of_nat (fst e)) <$> list_find (fun d => d = c) alphabet.

Fixpoint b64encode (l : raw) : raw :=
  match l with
  | [] => []
  | [a] => [sextet (code a / 4); sextet ((code a mod 4) * 16); "="%char; "="%char]
  | [a; b] =>
      [sextet (code a / 4); sextet ((code a mod 4) * 16 + code b / 16); sextet ((code b mod 16) * 4); "="%char]
  | a :: b :: c :: l =>
      sextet (code a / 4) :: sextet ((code a mod 4) * 16 + code b / 16) ::
      sextet ((code b mod 16) * 4 + code c / 64) :: sextet (code c mod 64) :: b64encode l
  end.

(** The loop of [binascii.a2b_base64]: the place in the current group of four, the bits
    left over, and the padding seen. Characters outside the alphabet are skipped; [None]
    is the [binascii.Error] of a group that is not complete. *)
Fixpoint a2b (l : raw) (quad left pads : Z) : option raw :=
  match l with
  | [] => if quad =? 0 then Some [] else None
  | c :: l =>
      if Ascii.eqb c "=" then
        if (2 <=? quad) && (4 <=? quad + (pads + 1)) then Some []
        else a2b l quad left (if 2 <=? quad then pads + 1 else pads)
      else
        match position c with
        | None => a2b l quad left pads
        | Some x =>
            if quad =? 0 then a2b l 1 x 0
            else if quad =? 1 then cons (chr_of (left * 4 + x / 16)) <$> a2b l 2 (x mod 16) 0
            else if quad =? 2 then cons (chr_of (left * 16 + x / 4)) <$> a2b l 3 (x mod 4) 0
            else cons (chr_of (left * 64 + x)) <$> a2b l 0 0 0
        end
  end.
Definition b64decode (l : raw) : option raw := a2b l 0 0 0.

Lemma sextet_spec n : 0 <= n < 64 -> position (sextet n) = Some n /\ Ascii.eqb (sextet n) "=" = false.
Proof.
  intros H. assert (A : Forall (fun i => position (sextet (Z.of_nat i)) = Some (Z.of_nat i) /\
    Ascii.eqb (sextet (Z.of_nat i)) "=" = false) (seq 0 64)) by (apply (bool_decide_unpack _); by vm_compute).
  rewrite Forall_forall in A. specialize (A (Z.to_nat n) ltac:(apply elem_of_seq; lia)). by rewrite Z2Nat.id in A by lia.
Qed.

(** One character of the alphabet *)
Lemma a2b_sextet n l quad left pads : 0 <= n < 64 ->
  a2b (sextet n :: l) quad left pads =
    if quad =? 0 then a2b l 1 n 0
    else if quad =? 1 then cons (chr_of (left * 4 + n / 16)) <$> a2b l 2 (n mod 16) 0
    else if quad =? 2 then cons (chr_of (left * 16 + n / 4)) <$> a2b l 3 (n mod 4) 0
    else cons (chr_of (left * 64 + n)) <$> a2b l 0 0 0.
Proof. intros H. destruct (sextet_spec n H) as [P E]. cbn [a2b]. by rewrite E, P. Qed.

Lemma triples {A} (P : list A -> Prop) :
  P [] -> (forall a, P [a]) -> (forall a b, P [a; b]) -> (forall a b c l, P l -> P (a :: b :: c :: l)) -> forall l, P l.
Proof.
  intros H0 H1 H2 H3 l. assert (H : P l /\ (forall a, P (a :: l)) /\ forall a b, P (a :: b :: l)); [|by destruct H].
  induction l as [|c l (I1 & I2 & I3)]; [done|]. split_and!; [apply I2|intros a; apply I3|]. intros a b. by apply H3.
Qed.

Ltac divmod := Z.to_euclidean_division_equations; lia.
Lemma byte_split4 a b : 0 <= a < 256 -> 0 <= b < 256 ->
  (0 <= a / 4 < 64) /\ (0 <= (a mod 4) * 16 + b / 16 < 64) /\ a / 4 * 4 + ((a mod 4) * 16 + b / 16) / 16 = a /\
  ((a mod 4) * 16 + b / 16) mod 16 = b / 16.
Proof. intros. split_and!; divmod. Qed.
Lemma byte_split16 b c : 0 <= b < 256 -> 0 <= c < 256 ->
  (0 <= (b mod 16) * 4 + c / 64 < 64) /\ b / 16 * 16 + ((b mod 16) * 4 + c / 64) / 4 = b /\
  ((b mod 16) * 4 + c / 64) mod 4 = c / 64 /\ 0 <= c mod 64 < 64 /\ c / 64 * 64 + c mod 64 = c.
Proof. intros. split_and!; divmod. Qed.

(** What is encoded is decoded. *)
Lemma b64_round_trip l : b64decode (b64encode l) = Some l.
Proof.
  unfold b64decode. induction l as [|a|a b|a b c l IH] using triples; [done|..]; cbn [b64encode].
  - pose proof (code_bounds a) as Ha. destruct (byte_split4 (code a) 0 Ha ltac:(lia)) as (B1 & B2 & E & _).
    change (0 / 16) with 0 in *. rewrite Z.add_0_r in *. rewrite !a2b_sextet by done. cbn. by rewrite E, chr_of_code.
  - pose proof (code_bounds a) as Ha. pose proof (code_bounds b) as Hb.
    destruct (byte_split4 (code a) (code b) Ha Hb) as (B1 & B2 & E & M).
    destruct (byte_split16 (code b) 0 Hb ltac:(lia)) as (B3 & E' & _). change (0 / 64) with 0 in *. rewrite Z.add_0_r in *.
    rewrite !a2b_sextet by done. cbn. by rewrite M, E, E', !chr_of_code.
  - pose proof (code_bounds a) as Ha. pose proof (code_bounds b) as Hb. pose proof (code_bounds c) as Hc.
    destruct (byte_split4 (code a) (code b) Ha Hb) as (B1 & B2 & E & M).
    destruct (byte_split16 (code b) (code c) Hb Hc) as (B3 & E' & M' & B4 & E2).
    rewrite !a2b_sextet by done. cbn. by rewrite IH, M, M', E, E', E2, !chr_of_code.
Qed.

#[global] Arguments b64encode : simpl never.
#[global] Arguments b64decode : simpl never.

(** ** Ranges of keys *)

(** The order of byte strings *)
Fixpoint raw_ltb (a b : raw) : bool :=
  match a, b with
  | _, [] => false
  | [], _ :: _ => true
  | c :: a, d :: b => (code c <? code d) || (code c =? code d) && raw_ltb a b
  end.
Definition raw_leb (a b : raw) : bool := negb (raw_ltb b a).

Definition zero : raw := [chr_of 0].

(** The keys of a range: one key, those from it on where the end is a zero byte, or those
    from it up to the end *)
Definition in_range (key : raw) (range_end : option raw) (k : raw) : bool :=
  match range_end with
  | None => bool_decide (k = key)
  | Some e => raw_leb key k && (bool_decide (e = zero) || raw_ltb k e)
  end.

(** [_prefix_end]: the loop goes from the last byte back; [r] is the prefix reversed. *)
Fixpoint bump (r : raw) : option raw :=
  match r with
  | [] => None
  | c :: r => if code c <? 255 then Some (rev (chr_of (code c + 1) :: r)) else bump r
  end.
Definition prefix_end (prefix : raw) : raw := default zero (bump (rev prefix)).

(** The same from the first byte on *)
Fixpoint next_prefix (p : raw) : option raw :=
  match p with
  | [] => None
  | c :: p => match next_prefix p with
              | Some e => Some (c :: e)
              | None => if code c <? 255 then Some [chr_of (code c + 1)] else None
              end
  end.
Lemma bump_snoc r c : bump (r ++ [c]) =
  match bump r with Some e => Some (c :: e) | None => if code c <? 255 then Some [chr_of (code c + 1)] else None end.
Proof.
  induction r as [|d r IH]; cbn [bump app]; [done|]. destruct (code d <? 255); [|exact IH].
  cbn [rev]. by rewrite rev_app_distr.
Qed.
Lemma bump_next p : bump (rev p) = next_prefix p.
Proof. induction p as [|c p IH]; [done|]. cbn [rev next_prefix]. by rewrite bump_snoc, IH. Qed.

Lemma next_nonzero p e : next_prefix p = Some e -> e <> zero.
Proof.
  destruct p as [|c p]; [done|]. cbn. pose proof (code_bounds c) as B. destruct (next_prefix p) as [e'|] eqn:E.
  - intros [= <-] [= -> ->]. destruct p as [|d p]; [done|]. cbn in E. destruct (next_prefix p); [done|]. by destruct (_ <? _).
  - destruct (Z.ltb_spec (code c) 255); [|done]. intros [= <-] [= E0]. apply (f_equal code) in E0.
    rewrite !code_chr_of in E0 by lia. lia.
Qed.

Lemma next_range p k :
  raw_leb p k && match next_prefix p with Some e => raw_ltb k e | None => true end = starts_with_units p k.
Proof.
  unfold raw_leb. revert k. induction p as [|c p IH]; intros k; [by destruct k|]. destruct k as [|d k]; [done|].
  cbn [raw_ltb starts_with_units next_prefix]. specialize (IH k). pose proof (code_bounds c) as Bc. pose proof (code_bounds d) as Bd.
  destruct (Ascii.eqb_spec c d) as [->|N]; cbn [andb].
  - rewrite Z.ltb_irrefl, Z.eqb_refl. cbn [orb andb]. rewrite <- IH. destruct (next_prefix p) as [e|].
    + cbn [raw_ltb]. by rewrite Z.ltb_irrefl, Z.eqb_refl.
    + destruct (Z.ltb_spec (code d) 255); [|done]. cbn [raw_ltb]. rewrite code_chr_of by lia.
      by destruct (Z.ltb_spec (code d) (code d + 1)); [|lia].
  - assert (D : code c <> code d) by (intros E; by apply N, code_inj).
    destruct (Z.ltb_spec (code d) (code c)); [done|]. destruct (Z.eqb_spec (code d) (code c)); [lia|]. cbn [orb andb negb].
    destruct (next_prefix p) as [e|]; cbn [raw_ltb].
    + destruct (Z.ltb_spec (code d) (code c)); [lia|]. by destruct (Z.eqb_spec (code d) (code c)); [lia|].
    + destruct (Z.ltb_spec (code c) 255); [|lia]. cbn [raw_ltb]. rewrite code_chr_of by lia.
      destruct (Z.ltb_spec (code d) (code c + 1)); [lia|]. destruct (code d =? code c + 1); by destruct k.
Qed.

Lemma prefix_end_range p k : in_range p (Some (prefix_end p)) k = starts_with_units p k.
Proof.
  unfold in_range, prefix_end. rewrite bump_next, <- next_range. destruct (next_prefix p) as [e|] eqn:E; cbn [default from_option id].
  - by rewrite (bool_decide_false _ (next_nonzero p e E)).
  - by rewrite bool_decide_true by done.
Qed.
(** C32: The range from a prefix to [_prefix_end] of it, on the wire as base64, holds exactly the
    keys with that prefix: also where its last bytes are 255, and where all of them are. *)
Theorem prefix_range p k :
  (lo ← b64decode (b64encode p); hi ← b64decode (b64encode (prefix_end p)); Some (in_range lo (Some hi) k)) = Some (starts_with_units p k).
Proof. rewrite !b64_round_trip. unfold mbind, option_bind. by rewrite prefix_end_range. Qed.

(** ** The interface *)

(** What the coordinator and its stores raise *)
Inductive exn : Type := KeyError | InvalidTransition (current target : run_state) | HTTPError | DecodeError | ValidationError.

Class KVStore (S : Type) : Type := {
  kv_get : string -> S -> (exn + option raw) * S;
  kv_put : string -> raw -> S -> (exn + unit) * S;
  kv_delete : string -> S -> (exn + unit) * S;
  kv_get_prefix : string -> S -> (exn + list (raw * raw)) * S
}.

(** The keys with a prefix, and their values *)
Definition under (prefix : string) (m : gmap raw raw) : gmap raw raw :=
  filter (fun e => starts_with_units (units prefix) e.1 = true) m.

(** An operation that raises leaves the store as it was, or has been carried out with its
    answer lost; a store that is up does not raise. *)
Class KVLaws (S : Type) `{KVStore S} : Type := {
  contents : S -> gmap raw raw;
  sound : S -> Prop;
  up : S -> Prop;
  get_law k s : sound s -> k <> "" -> let '(r, s') := kv_get k s in
    sound s' /\ contents s' = contents s /\ (up s -> up s' /\ r = inr (contents s !! units k)) /\
    (r = inl HTTPError \/ r = inr (contents s !! units k));
  put_law k v s : sound s -> k <> "" -> let '(r, s') := kv_put k v s in
    sound s' /\ (up s -> up s' /\ r = inr tt) /\ (r = inl HTTPError \/ r = inr tt) /\
    (contents s' = <[units k := v]> (contents s) \/ r = inl HTTPError /\ contents s' = contents s);
  delete_law k s : sound s -> k <> "" -> let '(r, s') := kv_delete k s in
    sound s' /\ (up s -> up s' /\ r = inr tt) /\ (r = inl HTTPError \/ r = inr tt) /\
    (contents s' = delete (units k) (contents s) \/ r = inl HTTPError /\ contents s' = contents s);
  prefix_law p s : sound s -> p <> "" -> let '(r, s') := kv_get_prefix p s in
    sound s' /\ contents s' = contents s /\ (up s -> up s' /\ is_Some (match r with inr l => Some l | inl _ => None end)) /\
    (r = inl HTTPError \/ exists l, r = inr l /\ l ≡ₚ map_to_list (under p (contents s)))
}.

(** ** [InMemoryKVStore] *)

Definition in_memory : Type := dict string raw.
Definition mem_get (key : string) (d : in_memory) : (exn + option raw) * in_memory := (inr (map_get key d), d).
Definition mem_put (key : string) (value : raw) (d : in_memory) : (exn + unit) * in_memory := (inr tt, map_set key value d).
Definition mem_delete (key : string) (d : in_memory) : (exn + unit) * in_memory := (inr tt, map_delete key d).
Definition mem_get_prefix (prefix : string) (d : in_memory) : (exn + list (raw * raw)) * in_memory :=
  (inr (map (fun e => (units e.1, e.2)) (filter (fun e => starts_with e.1 prefix = true) d)), d).
#[export] Instance in_memory_store : KVStore in_memory :=
  {| kv_get := mem_get; kv_put := mem_put; kv_delete := mem_delete; kv_get_prefix := mem_get_prefix |}.

Definition mem_contents (d : in_memory) : gmap raw raw := list_to_map (map (fun e => (units e.1, e.2)) d).
Lemma mem_lookup k d : mem_contents d !! units k = map_get k d.
Proof.
  induction d as [|[k0 v0] d IH]; [done|]. unfold mem_contents. cbn [map list_to_map foldr map_get fst snd].
  destruct (decide (k0 = k)) as [->|N]; [by rewrite lookup_insert_eq|].
  rewrite lookup_insert_ne; [exact IH|]. intros E. by apply N, units_inj.
Qed.
(** Every key is that of a string. *)
Lemma contents_eq (m m' : gmap raw raw) : (forall k, m !! units k = m' !! units k) -> m = m'.
Proof. intros H. apply map_eq. intros k. by rewrite <- (units_of_units k). Qed.

Lemma mem_filter (p : string) (d : in_memory) : NoDup (map fst d) ->
  map (fun e => (units e.1, e.2)) (filter (fun e => starts_with e.1 p = true) d) ≡ₚ map_to_list (under p (mem_contents d)).
Proof.
  intros N. apply NoDup_Permutation.
  - apply NoDup_fmap_2_strong; [|apply NoDup_filter; by eapply NoDup_fmap_1].
    intros [k v] [k' v'] _ _ [= E ->]. by apply units_inj in E as ->.
  - apply NoDup_map_to_list.
  - intros [r v]. rewrite elem_of_map_to_list. unfold under. rewrite map_lookup_filter_Some.
    rewrite <- (units_of_units r), mem_lookup. cbn [fst]. rewrite list_elem_of_fmap. split.
    + intros ([k v'] & [= E ->] & [S I]%list_elem_of_filter). apply units_inj in E as <-. split; [|exact S]. by apply elem_map_get.
    + intros [G S]. exists (of_units r, v). split; [done|]. apply list_elem_of_filter. split; [exact S|by apply map_get_elem].
Qed.

#[export] Program Instance in_memory_laws : KVLaws in_memory := {|
  contents := mem_contents; sound d := NoDup (map fst d); up _ := True
|}.
Next Obligation. intros k s H N. cbn. rewrite mem_lookup. by split_and!; [| |split|right]. Qed.
Next Obligation.
  intros k v s H N. cbn. split_and!; [by apply map_set_nodup|done|by right|left]. apply contents_eq. intros k'. rewrite mem_lookup, map_get_set.
  destruct (decide (k = k')) as [->|D]; [by rewrite lookup_insert_eq|]. rewrite lookup_insert_ne by (by intros E%units_inj). by rewrite mem_lookup.
Qed.
Next Obligation.
  intros k s H N. cbn. split_and!; [by apply map_delete_nodup|done|by right|left]. apply contents_eq. intros k'. rewrite mem_lookup, map_get_delete.
  destruct (decide (k = k')) as [->|D]; [by rewrite lookup_delete_eq|]. rewrite lookup_delete_ne by (by intros E%units_inj). by rewrite mem_lookup.
Qed.
Next Obligation. intros p s H N. cbn. split_and!; [done|done|by split|right]. eexists. split; [done|]. by apply mem_filter. Qed.

(** ** [EtcdKVStore] *)

(** The payloads of [/v3/kv/range], [/v3/kv/put] and [/v3/kv/deleterange] *)
Inductive kv_request : Type :=
| RangeRequest (key : raw) (range_end : option raw)
| PutRequest (key value : raw)
| DeleteRangeRequest (key : raw).

(** [post] answers [None] where the request or [raise_for_status] raises, and otherwise the
    field [kvs] of the response, if it has one. *)
Class Etcd : Type := {
  etcd : Type;
  post : kv_request -> etcd -> option (option (list (raw * raw))) * etcd
}.
(** What etcd documents of its requests: a range returns the pairs of its keys, in no order
    that is relied on; keys must not be empty. A write whose answer is lost may have been
    carried out. *)
Class EtcdLaws (E : Etcd) : Type := {
  keys : etcd -> gmap raw raw;
  serving : etcd -> Prop;
  post_serving q s : serving s -> is_Some (fst (post q s)) /\ serving (snd (post q s));
  range_documented key e s : key <> [] -> let '(r, s') := post (RangeRequest (b64encode key) (b64encode <$> e)) s in
    keys s' = keys s /\ forall kvs, r = Some kvs -> exists l,
      default [] kvs = map (fun p => (b64encode p.1, b64encode p.2)) l /\
      l ≡ₚ map_to_list (filter (fun p => in_range key e p.1 = true) (keys s));
  put_documented k v s : k <> [] -> let '(r, s') := post (PutRequest (b64encode k) (b64encode v)) s in
    keys s' = <[k := v]> (keys s) \/ r = None /\ keys s' = keys s;
  delete_documented k s : k <> [] -> let '(r, s') := post (DeleteRangeRequest (b64encode k)) s in
    keys s' = delete k (keys s) \/ r = None /\ keys s' = keys s
}.

Section EtcdStore.
Context {E : Etcd}.

(** An adapter's state is that of the server behind it. *)
Record etcd_store : Type := EtcdKVStore { server : etcd }.

Definition etcd_post (q : kv_request) (s : etcd_store) : (exn + list (raw * raw)) * etcd_store :=
  match post q s.(server) with
  | (Some kvs, s) => (inr (default [] kvs), EtcdKVStore s)
  | (None, s) => (inl HTTPError, EtcdKVStore s)
  end.
Definition etcd_get (key : string) (s : etcd_store) : (exn + option raw) * etcd_store :=
  match etcd_post (RangeRequest (b64encode (units key)) None) s with
  | (inr [], s) => (inr None, s)
  | (inr ((_, value) :: _), s) => (match b64decode value with Some v => inr (Some v) | None => inl DecodeError end, s)
  | (inl e, s) => (inl e, s)
  end.
Definition etcd_put (key : string) (value : raw) (s : etcd_store) : (exn + unit) * etcd_store :=
  match etcd_post (PutRequest (b64encode (units key)) (b64encode value)) s with
  | (inr _, s) => (inr tt, s)
  | (inl e, s) => (inl e, s)
  end.
Definition etcd_delete (key : string) (s : etcd_store) : (exn + unit) * etcd_store :=
  match etcd_post (DeleteRangeRequest (b64encode (units key))) s with
  | (inr _, s) => (inr tt, s)
  | (inl e, s) => (inl e, s)
  end.
Definition etcd_get_prefix (prefix : string) (s : etcd_store) : (exn + list (raw * raw)) * etcd_store :=
  match etcd_post (RangeRequest (b64encode (units prefix)) (Some (b64encode (prefix_end (units prefix))))) s with
  | (inr kvs, s) =>
      (match mapM (fun item => k ← b64decode item.1; v ← b64decode item.2; Some (k, v)) kvs with
       | Some l => inr l
       | None => inl DecodeError
       end, s)
  | (inl e, s) => (inl e, s)
  end.
#[export] Instance etcd_kv_store : KVStore etcd_store :=
  {| kv_get := etcd_get; kv_put := etcd_put; kv_delete := etcd_delete; kv_get_prefix := etcd_get_prefix |}.
End EtcdStore.
Arguments etcd_store : clear implicits.

Section EtcdLaws.
Context {E : Etcd} {EL : EtcdLaws E}.

Lemma encode_pairs (l : list (raw * raw)) :
  mapM (fun item => k ← b64decode item.1; v ← b64decode item.2; Some (k, v)) (map (fun p => (b64encode p.1, b64encode p.2)) l) = Some l.
Proof. induction l as [|[k v] l IH]; [done|]. cbn. rewrite !b64_round_trip. cbn. rewrite IH. done. Qed.

(** The one key of a range without an end *)
Lemma lookup_range (m : gmap raw raw) key (l : list (raw * raw)) :
  l ≡ₚ map_to_list (filter (fun p => in_range key None p.1 = true) m) ->
  match l with [] => m !! key = None | p :: _ => p.1 = key /\ m !! key = Some p.2 end.
Proof.
  intros P. assert (I : forall k v, (k, v) ∈ l <-> k = key /\ m !! k = Some v).
  { intros k v. rewrite P, elem_of_map_to_list, map_lookup_filter_Some. cbn. rewrite bool_decide_eq_true. tauto. }
  destruct l as [|[k v] l].
  - destruct (m !! key) as [v|] eqn:G; [|done]. destruct (I key v) as [_ J]. by destruct (not_elem_of_nil (key, v)); apply J.
  - destruct (proj1 (I k v)) as [-> G]; [by left|]. done.
Qed.

Lemma under_range (p : string) (m : gmap raw raw) :
  under p m = filter (fun e => in_range (units p) (Some (prefix_end (units p))) e.1 = true) m.
Proof. apply map_filter_ext. intros k v _. cbn [fst]. by rewrite prefix_end_range. Qed.

#[export] Program Instance etcd_kv_laws : KVLaws (etcd_store E) := {|
  contents s := keys s.(server); sound _ := True; up s := serving s.(server)
|}.
Next Obligation.
  intros k s _ N. assert (Ne : units k <> []) by (by destruct k). cbn [kv_get etcd_kv_store]. unfold etcd_get, etcd_post.
  pose proof (range_documented (units k) None s.(server) Ne) as R. pose proof (post_serving (RangeRequest (b64encode (units k)) None) s.(server)) as V.
  cbn [fmap option_fmap option_map] in R. destruct (post _ s.(server)) as [[kvs|] s']; cbn [fst snd] in V.
  2: { split_and!; [done|apply R|by intros [[? ?] _]%V|by left]. }
  destruct R as [K R]. destruct (R kvs eq_refl) as (l & Ek & Pl). apply lookup_range in Pl. rewrite Ek.
  destruct l as [|[k0 v0] l]; cbn [map fst snd] in *; [|destruct Pl as [-> Pl]; rewrite b64_round_trip].
  all: split_and!; [done|exact K|intros [_ ?]%V; split; [done|by rewrite Pl]|right; by rewrite Pl].
Qed.
Next Obligation.
  intros k v s _ N. assert (Ne : units k <> []) by (by destruct k). cbn [kv_put etcd_kv_store]. unfold etcd_put, etcd_post.
  pose proof (put_documented (units k) v s.(server) Ne) as R. pose proof (post_serving (PutRequest (b64encode (units k)) (b64encode v)) s.(server)) as V.
  destruct (post _ s.(server)) as [[kvs|] s']; cbn [fst snd] in V.
  - split_and!; [done|intros [_ ?]%V; by split|by right|]. destruct R as [R|[? _]]; [by left|done].
  - split_and!; [done|by intros [[? ?] _]%V|by left|]. destruct R as [R|[_ R]]; [by left|by right].
Qed.
Next Obligation.
  intros k s _ N. assert (Ne : units k <> []) by (by destruct k). cbn [kv_delete etcd_kv_store]. unfold etcd_delete, etcd_post.
  pose proof (delete_documented (units k) s.(server) Ne) as R. pose proof (post_serving (DeleteRangeRequest (b64encode (units k))) s.(server)) as V.
  destruct (post _ s.(server)) as [[kvs|] s']; cbn [fst snd] in V.
  - split_and!; [done|intros [_ ?]%V; by split|by right|]. destruct R as [R|[? _]]; [by left|done].
  - split_and!; [done|by intros [[? ?] _]%V|by left|]. destruct R as [R|[_ R]]; [by left|by right].
Qed.
Next Obligation.
  intros p s _ N. assert (Ne : units p <> []) by (by destruct p). cbn [kv_get_prefix etcd_kv_store]. unfold etcd_get_prefix, etcd_post.
  pose proof (range_documented (units p) (Some (prefix_end (units p))) s.(server) Ne) as R.
  pose proof (post_serving (RangeRequest (b64encode (units p)) (Some (b64encode (prefix_end (units p))))) s.(server)) as V.
  cbn [fmap option_fmap option_map] in R. destruct (post _ s.(server)) as [[kvs|] s']; cbn [fst snd] in V.
  2: { split_and!; [done|apply R|by intros [[? ?] _]%V|by left]. }
  destruct R as [K R]. destruct (R kvs eq_refl) as (l & Ek & Pl). rewrite Ek, encode_pairs.
  split_and!; [done|exact K|intros [_ ?]%V; by split|right]. exists l. split; [done|]. by rewrite under_range.
Qed.
End EtcdLaws.

(** ** The two implementations are interchangeable *)

Inductive store_call : Type := Get (key : string) | Put (key : string) (value : raw) | Delete (key : string) | GetPrefix (prefix : string).
Inductive store_answer : Type := Got (v : option raw) | Written | Listed (l : list (raw * raw)).
Definition argument (c : store_call) : string := match c with Get k | Put k _ | Delete k | GetPrefix k => k end.

Definition answer {S A} (f : A -> store_answer) (r : (exn + A) * S) : (exn + store_answer) * S :=
  (match r.1 with inl e => inl e | inr a => inr (f a) end, r.2).
Definition perform {S} `{KVStore S} (c : store_call) (s : S) : (exn + store_answer) * S :=
  match c with
  | Get k => answer Got (kv_get k s)
  | Put k v => answer (fun _ => Written) (kv_put k v s)
  | Delete k => answer (fun _ => Written) (kv_delete k s)
  | GetPrefix p => answer Listed (kv_get_prefix p s)
  end.
Fixpoint performs {S} `{KVStore S} (cs : list store_call) (s : S) : list (exn + store_answer) * S :=
  match cs with
  | [] => ([], s)
  | c :: cs => let '(r, s) := perform c s in let '(rs, s) := performs cs s in (r :: rs, s)
  end.

(** Equal up to the order of a listing *)
Definition same_answer (a b : exn + store_answer) : Prop :=
  match a, b with
  | inr (Listed l), inr (Listed l') => l ≡ₚ l'
  | _, _ => a = b
  end.

Section Agree.
Context {S1 S2 : Type} `{L1 : KVLaws S1} `{L2 : KVLaws S2}.

Definition alike (s1 : S1) (s2 : S2) : Prop :=
  sound s1 /\ sound s2 /\ up s1 /\ up s2 /\ contents s1 = contents s2.

Lemma perform_alike c s1 s2 : alike s1 s2 -> argument c <> "" ->
  let '(r1, s1') := perform c s1 in let '(r2, s2') := perform c s2 in same_answer r1 r2 /\ alike s1' s2'.
Proof.
  intros (O1 & O2 & U1 & U2 & C) N. unfold alike. destruct c as [k|k v|k|p]; cbn [argument] in N; unfold perform, answer.
  - pose proof (get_law k s1 O1 N) as H1. pose proof (get_law k s2 O2 N) as H2.
    destruct (kv_get k s1) as [r1 s1'], (kv_get k s2) as [r2 s2']. cbn [fst snd]. destruct H1 as (? & -> & H1 & _), H2 as (? & -> & H2 & _).
    destruct (H1 U1) as [? ->], (H2 U2) as [? ->]. cbn. by rewrite C.
  - pose proof (put_law k v s1 O1 N) as H1. pose proof (put_law k v s2 O2 N) as H2.
    destruct (kv_put k v s1) as [r1 s1'], (kv_put k v s2) as [r2 s2']. cbn [fst snd]. destruct H1 as (? & H1 & _ & W1), H2 as (? & H2 & _ & W2).
    destruct (H1 U1) as [? ->], (H2 U2) as [? ->]. destruct W1 as [->|[? _]]; [|done]. destruct W2 as [->|[? _]]; [|done]. cbn. by rewrite C.
  - pose proof (delete_law k s1 O1 N) as H1. pose proof (delete_law k s2 O2 N) as H2.
    destruct (kv_delete k s1) as [r1 s1'], (kv_delete k s2) as [r2 s2']. cbn [fst snd]. destruct H1 as (? & H1 & _ & W1), H2 as (? & H2 & _ & W2).
    destruct (H1 U1) as [? ->], (H2 U2) as [? ->]. destruct W1 as [->|[? _]]; [|done]. destruct W2 as [->|[? _]]; [|done]. cbn. by rewrite C.
  - pose proof (prefix_law p s1 O1 N) as H1. pose proof (prefix_law p s2 O2 N) as H2.
    destruct (kv_get_prefix p s1) as [r1 s1'], (kv_get_prefix p s2) as [r2 s2']. cbn [fst snd]. destruct H1 as (? & -> & H1 & W1), H2 as (? & -> & H2 & W2).
    destruct (H1 U1) as [? [? E1]], (H2 U2) as [? [? E2]]. destruct W1 as [->|(l & -> & P1)]; [done|].
    destruct W2 as [->|(l' & -> & P2)]; [done|]. cbn. by rewrite P1, P2, C.
Qed.

Lemma performs_alike cs s1 s2 : alike s1 s2 -> Forall (fun c => argument c <> "") cs ->
  Forall2 same_answer (performs cs s1).1 (performs cs s2).1 /\ alike (performs cs s1).2 (performs cs s2).2.
Proof.
  revert s1 s2. induction cs as [|c cs IH]; intros s1 s2 A N; [by split|]. apply Forall_cons in N as [Nc N].
  cbn [performs]. pose proof (perform_alike c s1 s2 A Nc) as P. destruct (perform c s1) as [r1 s1'], (perform c s2) as [r2 s2'].
  destruct P as [R A']. destruct (IH s1' s2' A' N) as [F A2].
  destruct (performs cs s1') as [rs1 t1], (performs cs s2') as [rs2 t2]. split; [by constructor|exact A2].
Qed.
End Agree.

(** Every call of a store that is up is answered. *)
Definition answered (r : exn + store_answer) : Prop := exists a, r = inr a.
Lemma perform_up {S} `{L : KVLaws S} c s : sound s -> up s -> argument c <> "" -> answered (perform c s).1.
Proof.
  intros O U N. unfold answered. destruct c as [k|k v|k|p]; cbn [argument] in N; unfold perform, answer; cbn [fst].
  - pose proof (get_law k s O N) as Lw. destruct (kv_get k s). destruct Lw as (_ & _ & Lw & _). destruct (Lw U) as [_ ->]. by eexists.
  - pose proof (put_law k v s O N) as Lw. destruct (kv_put k v s). destruct Lw as (_ & Lw & _). destruct (Lw U) as [_ ->]. by eexists.
  - pose proof (delete_law k s O N) as Lw. destruct (kv_delete k s). destruct Lw as (_ & Lw & _). destruct (Lw U) as [_ ->]. by eexists.
  - pose proof (prefix_law p s O N) as Lw. destruct (kv_get_prefix p s) as [[e|l] t]; destruct Lw as (_ & _ & Lw & _); destruct (Lw U) as [_ [? X]]; [done|by eexists].
Qed.
Lemma performs_up {S} `{L : KVLaws S} {S2} `{L2 : KVLaws S2} cs (s : S) (s2 : S2) :
  alike s s2 -> Forall (fun c => argument c <> "") cs -> Forall answered (performs cs s).1.
Proof.
  revert s s2. induction cs as [|c cs IH]; intros s s2 A N; [by constructor|]. apply Forall_cons in N as [Nc N].
  cbn [performs]. pose proof (perform_alike c s s2 A Nc) as P. destruct A as (O & _ & U & _). pose proof (perform_up c s O U Nc) as Up.
  destruct (perform c s) as [r s'], (perform c s2) as [r2 s2']. destruct P as [_ A']. specialize (IH s' s2' A' N).
  destruct (performs cs s'). by constructor.
Qed.


(** ** A server in memory, whose answers follow a schedule *)

Module MemoryEtcd.
(** A request is answered, refused, or carried out with its answer lost. *)
Inductive fate : Type := Answered | Refused | Lost.
Record t : Type := Etcd { data : gmap raw raw; schedule : list fate }.

Definition decoded (k : raw) : raw := default [] (b64decode k).
Definition carried_out (q : kv_request) (m : gmap raw raw) : option (list (raw * raw)) * gmap raw raw :=
  match q with
  | RangeRequest k e =>
      let l := map_to_list (filter (fun p => in_range (decoded k) (decoded <$> e) p.1 = true) m) in
      (match l with [] => None | _ => Some (map (fun p => (b64encode p.1, b64encode p.2)) l) end, m)
  | PutRequest k v => (None, <[decoded k := decoded v]> m)
  | DeleteRangeRequest k => (None, delete (decoded k) m)
  end.
Definition post (q : kv_request) (s : t) : option (option (list (raw * raw))) * t :=
  let '(kvs, m) := carried_out q s.(data) in
  match s.(schedule) with
  | [] => (Some kvs, Etcd m [])
  | Answered :: l => (Some kvs, Etcd m l)
  | Refused :: l => (None, Etcd s.(data) l)
  | Lost :: l => (None, Etcd m l)
  end.
#[export] Instance etcd : KeyValue.Etcd := {| KeyValue.etcd := t; KeyValue.post := post |}.

Lemma decoded_encode k : decoded (b64encode k) = k.
Proof. unfold decoded. by rewrite b64_round_trip. Qed.

#[export] Program Instance etcd_laws : EtcdLaws etcd := {| keys := data; serving s := Forall (fun f => f = Answered) s.(schedule) |}.
Next Obligation.
  intros q s F. cbn. unfold post. destruct (carried_out q (data s)). destruct (schedule s) as [|f l] eqn:E; [split; [done|by constructor]|].
  cbn in F. rewrite E in F. apply Forall_cons in F as [-> F]. by split.
Qed.
Next Obligation.
  intros key e s N. cbn. unfold post. cbn [carried_out]. rewrite decoded_encode.
  assert (De : decoded <$> (b64encode <$> e) = e) by (destruct e; cbn; by rewrite ?decoded_encode). rewrite De.
  set (l := map_to_list _). assert (P : forall kvs, match l with [] => None | _ => Some (map (fun p => (b64encode p.1, b64encode p.2)) l) end = kvs ->
    exists l0, default [] kvs = map (fun p => (b64encode p.1, b64encode p.2)) l0 /\ l0 ≡ₚ l).
  { intros kvs <-. exists l. by destruct l. }
  destruct (schedule s) as [|[] sc]; (split; [done|]); intros kvs; [intros [= <-]|intros [= <-]|done|done]; by apply P.
Qed.
Next Obligation.
  intros k v s N. cbn. unfold post. cbn [carried_out]. rewrite !decoded_encode. destruct (schedule s) as [|[] sc]; cbn; tauto.
Qed.
Next Obligation.
  intros k s N. cbn. unfold post. cbn [carried_out]. rewrite !decoded_encode. destruct (schedule s) as [|[] sc]; cbn; tauto.
Qed.
End MemoryEtcd.

