(* ===== verification/Persistence.v ===== *)
(** * The coordinator over its store: [python-controlplane/src/controlplane/coordinator.py]

    Every operation of the coordinator as it is written: keys under a common prefix, records
    as JSON, a read of the store before each change, the state machines in memory beside
    it, and the exceptions of all of them. [Coordinator], [Workers] and [Recovery] work on
    the maps of records that this store represents; the refinement below says that they
    may. The serialization of the models is an interface; it is applied to the fields that
    those maps keep. *)

From Stdlib Require Import Ascii.
From stdpp Require Import sorting.
From S2P Require Import Prelude Dict JsString Types ControlPlane Workers Recovery KeyValue.

Import Coordinator.

(** [model_dump_json] and [model_validate_json] of [RunStatus], [CheckpointInfo] and
    [WorkerInfo], with the identifier that each holds *)
Class Models : Type := {
  dump_run : string * run -> raw;
  validate_run : raw -> option (string * run);
  dump_checkpoint : string * checkpoint -> raw;
  validate_checkpoint : raw -> option (string * checkpoint);
  dump_worker : string * info -> raw;
  validate_worker : raw -> option (string * info)
}.
Class ModelsLaws (J : Models) : Prop := {
  run_round_trip r : validate_run (dump_run r) = Some r;
  checkpoint_round_trip c : validate_checkpoint (dump_checkpoint c) = Some c;
  worker_round_trip w : validate_worker (dump_worker w) = Some w
}.

Definition KEY_PREFIX : string := "/checkpoint-runtime".
Definition run_key (run_id : string) : string := KEY_PREFIX +:+ "/runs/" +:+ run_id.
Definition checkpoint_key (checkpoint_id : string) : string := KEY_PREFIX +:+ "/checkpoints/" +:+ checkpoint_id.
Definition worker_key (run_id worker_id : string) : string := KEY_PREFIX +:+ "/workers/" +:+ run_id +:+ "/" +:+ worker_id.

Section Operations.
Context {S : Type} `{KVStore S} `{Models}.

(** [_kv] and [_fsms] *)
Record control : Type := Control { backing : S; machines : gmap string Fsm.t }.

Definition M (A : Type) : Type := control -> (KeyValue.exn + A) * control.
Definition ret {A} (a : A) : M A := fun x => (inr a, x).
Definition raise {A} (e : KeyValue.exn) : M A := fun x => (inl e, x).
Definition bind {A B} (m : M A) (f : A -> M B) : M B :=
  fun x => match m x with (inr a, x) => f a x | (inl e, x) => (inl e, x) end.
Notation "'let!' x := m 'in' k" := (bind m (fun x => k)) (at level 10, x name, m at level 100, k at level 200).

Definition lift {A} (op : S -> (KeyValue.exn + A) * S) : M A :=
  fun x => let '(r, s) := op x.(backing) in (r, Control s x.(machines)).
Definition decode {A} (o : option A) : M A := match o with Some a => ret a | None => raise ValidationError end.
Definition put_machine (run_id : string) (m : Fsm.t) : M unit := fun x => (inr tt, Control x.(backing) (<[run_id := m]> x.(machines))).

Definition persist_run (status : string * run) : M unit := lift (kv_put (run_key status.1) (dump_run status)).
Definition ensure_fsm (run_id : string) (current : run_state) : M Fsm.t :=
  fun x => match x.(machines) !! run_id with
           | Some m => (inr m, x)
           | None => let m := Fsm.init current in (inr m, Control x.(backing) (<[run_id := m]> x.(machines)))
           end.

Definition create_run (run_id : string) (now : Z) : M (string * run) :=
  let! _ := put_machine run_id (Fsm.init CREATED) in
  let status := (run_id, Run CREATED 0 now None None) in
  let! _ := persist_run status in
  ret status.
Definition get_run (run_id : string) : M (option (string * run)) :=
  let! found := lift (kv_get (run_key run_id)) in
  match found with
  | None => ret None
  | Some json => let! status := decode (validate_run json) in ret (Some status)
  end.
Definition list_runs : M (list (string * run)) :=
  let! entries := lift (kv_get_prefix (KEY_PREFIX +:+ "/runs/")) in
  decode (mapM (fun e => validate_run e.2) entries).

(** The transition of the shared state machine, and the write that follows it *)
Definition move_run (run_id : string) (target : run_state) (now : Z) (edit : run -> run) : M (string * run) :=
  let! found := get_run run_id in
  match found with
  | None => raise KeyValue.KeyError
  | Some (id, status) =>
      let! fsm := ensure_fsm run_id (r_state status) in
      match Fsm.transition fsm target with
      | inl (a, b) => raise (KeyValue.InvalidTransition a b)
      | inr fsm =>
          let! _ := put_machine run_id fsm in
          let status := edit (Run target (r_step status) now (r_last_checkpoint status) (r_error status)) in
          let! _ := persist_run (id, status) in
          ret (id, status)
      end
  end.
Definition transition_run (run_id : string) (target : run_state) (now : Z) : M (string * run) :=
  move_run run_id target now (fun r => r).
Definition set_run_error (run_id message : string) (now : Z) : M (string * run) :=
  move_run run_id FAILED now (fun r => Run (r_state r) (r_step r) (r_updated r) (r_last_checkpoint r) (Some message)).
Definition update_run_step (run_id : string) (step now : Z) : M (string * run) :=
  let! found := get_run run_id in
  match found with
  | None => raise KeyValue.KeyError
  | Some (id, status) =>
      let status := (id, Run (r_state status) step now (r_last_checkpoint status) (r_error status)) in
      let! _ := persist_run status in
      ret status
  end.

Definition create_checkpoint (run_id checkpoint_id : string) (step now : Z) : M (string * checkpoint) :=
  let! found := get_run run_id in
  match found with
  | None => raise KeyValue.KeyError
  | Some (id, status) =>
      let info := (checkpoint_id, Checkpoint run_id step CPENDING now) in
      let! _ := lift (kv_put (checkpoint_key checkpoint_id) (dump_checkpoint info)) in
      let! _ := persist_run (id, Run (r_state status) (r_step status) now (Some checkpoint_id) (r_error status)) in
      ret info
  end.
Definition get_checkpoint (checkpoint_id : string) : M (option (string * checkpoint)) :=
  let! found := lift (kv_get (checkpoint_key checkpoint_id)) in
  match found with
  | None => ret None
  | Some json => let! info := decode (validate_checkpoint json) in ret (Some info)
  end.
Definition delete_checkpoint (checkpoint_id : string) : M unit := lift (kv_delete (checkpoint_key checkpoint_id)).
Definition list_checkpoints (run_id : string) : M (list (string * checkpoint)) :=
  let! entries := lift (kv_get_prefix (KEY_PREFIX +:+ "/checkpoints/")) in
  let! infos := decode (mapM (fun e => validate_checkpoint e.2) entries) in
  ret (stable_sort (fun a b => c_step b.2 <? c_step a.2) (filter (fun e => c_run e.2 = run_id) infos)).
Definition update_checkpoint_state (checkpoint_id : string) (st : checkpoint_state) : M (string * checkpoint) :=
  let! found := get_checkpoint checkpoint_id in
  match found with
  | None => raise KeyValue.KeyError
  | Some (id, info) =>
      let info := (id, with_state st info) in
      let! _ := lift (kv_put (checkpoint_key checkpoint_id) (dump_checkpoint info)) in
      ret info
  end.

Definition register_worker (run_id worker_id : string) (rank : Z) : M (string * info) :=
  let worker := (worker_id, Info run_id rank ACTIVE 0) in
  let! _ := lift (kv_put (worker_key run_id worker_id) (dump_worker worker)) in
  ret worker.
(** The common part of [heartbeat] and [mark_worker_dead] *)
Definition edit_worker (run_id worker_id : string) (edit : info -> info) : M (string * info) :=
  let! found := lift (kv_get (worker_key run_id worker_id)) in
  match found with
  | None => raise KeyValue.KeyError
  | Some json =>
      let! worker := decode (validate_worker json) in
      let worker := (worker.1, edit worker.2) in
      let! _ := lift (kv_put (worker_key run_id worker_id) (dump_worker worker)) in
      ret worker
  end.
Definition heartbeat (run_id worker_id : string) (step : Z) : M (string * info) :=
  edit_worker run_id worker_id (fun i => Info i.(i_run) i.(i_rank) ACTIVE step).
Definition mark_worker_dead (run_id worker_id : string) (status : worker_status) : M (string * info) :=
  edit_worker run_id worker_id (set_status status).
Definition list_workers (run_id : option string) : M (list (string * info)) :=
  let prefix := match run_id with
                | Some run => if String.eqb run "" then KEY_PREFIX +:+ "/workers/" else KEY_PREFIX +:+ "/workers/" +:+ run +:+ "/"
                | None => KEY_PREFIX +:+ "/workers/"
                end in
  let! entries := lift (kv_get_prefix prefix) in
  decode (mapM (fun e => validate_worker e.2) entries).
End Operations.
Arguments control : clear implicits.

(** ** The maps that the rest of the control plane works on *)

Inductive call : Type :=
| CreateRun (run_id : string) (now : Z)
| GetRun (run_id : string)
| ListRuns
| TransitionRun (run_id : string) (target : run_state) (now : Z)
| SetRunError (run_id message : string) (now : Z)
| UpdateRunStep (run_id : string) (step now : Z)
| CreateCheckpoint (run_id checkpoint_id : string) (step now : Z)
| GetCheckpoint (checkpoint_id : string)
| DeleteCheckpoint (checkpoint_id : string)
| ListCheckpoints (run_id : string)
| UpdateCheckpointState (checkpoint_id : string) (st : checkpoint_state)
| RegisterWorker (run_id worker_id : string) (rank : Z)
| Heartbeat (run_id worker_id : string) (step : Z)
| MarkWorkerDead (run_id worker_id : string) (status : worker_status)
| ListWorkers (run_id : option string).

Inductive reply : Type :=
| OneRun (r : string * run) | MaybeRun (r : option (string * run)) | Runs (l : list (string * run))
| OneCheckpoint (c : string * checkpoint) | MaybeCheckpoint (c : option (string * checkpoint))
| Checkpoints (l : list (string * checkpoint))
| OneWorker (w : string * info) | Workers (l : list (string * info)) | Done.

Definition answering {X A} (f : A -> reply) (r : (KeyValue.exn + A) * X) : (KeyValue.exn + reply) * X :=
  (match r.1 with inl e => inl e | inr a => inr (f a) end, r.2).

Definition serve {S} `{KVStore S} `{Models} (q : call) (x : control S) : (KeyValue.exn + reply) * control S :=
  match q with
  | CreateRun id now => answering OneRun (create_run id now x)
  | GetRun id => answering MaybeRun (get_run id x)
  | ListRuns => answering Runs (list_runs x)
  | TransitionRun id target now => answering OneRun (transition_run id target now x)
  | SetRunError id message now => answering OneRun (set_run_error id message now x)
  | UpdateRunStep id step now => answering OneRun (update_run_step id step now x)
  | CreateCheckpoint run id step now => answering OneCheckpoint (create_checkpoint run id step now x)
  | GetCheckpoint id => answering MaybeCheckpoint (get_checkpoint id x)
  | DeleteCheckpoint id => answering (fun _ => Done) (delete_checkpoint id x)
  | ListCheckpoints run => answering Checkpoints (list_checkpoints run x)
  | UpdateCheckpointState id st => answering OneCheckpoint (update_checkpoint_state id st x)
  | RegisterWorker run w rank => answering OneWorker (register_worker run w rank x)
  | Heartbeat run w step => answering OneWorker (heartbeat run w step x)
  | MarkWorkerDead run w st => answering OneWorker (mark_worker_dead run w st x)
  | ListWorkers run => answering Workers (list_workers run x)
  end.

(** The same calls on the maps, by the definitions that the other components are built on *)
Definition maps : Type := Coordinator.t * registry.

Definition of_result (id : string) (r : result) : KeyValue.exn + reply :=
  match r with
  | Coordinator.KeyError => inl KeyValue.KeyError
  | Coordinator.InvalidTransition a b => inl (KeyValue.InvalidTransition a b)
  | Ok r => inr (OneRun (id, r))
  end.
Definition of_worker (w : string) (m : maps) (o : option (info * registry)) : (KeyValue.exn + reply) * maps :=
  match o with
  | Some (i, s) => (inr (OneWorker (w, i)), (m.1, s))
  | None => (inl KeyValue.KeyError, m)
  end.

Definition serve_maps (q : call) (m : maps) : (KeyValue.exn + reply) * maps :=
  let '(c, s) := m in
  match q with
  | CreateRun id now => let '(r, c) := Coordinator.create_run c id now in (inr (OneRun (id, r)), (c, s))
  | GetRun id => (inr (MaybeRun (pair id <$> kv c !! id)), m)
  | ListRuns => (inr (Runs (map_to_list (kv c))), m)
  | TransitionRun id target now => let '(r, c) := Coordinator.transition_run c id target now in (of_result id r, (c, s))
  | SetRunError id message now => let '(r, c) := Coordinator.set_run_error c id message now in (of_result id r, (c, s))
  | UpdateRunStep id step now =>
      let c' := Workers.update_run_step id step now c in
      (match kv c' !! id with Some r => inr (OneRun (id, r)) | None => inl KeyValue.KeyError end, (c', s))
  | CreateCheckpoint run id step now =>
      let '(r, c) := Coordinator.create_checkpoint c run id step now in
      (match r with Ok _ => inr (OneCheckpoint (id, Checkpoint run step CPENDING now)) | r => of_result id r end, (c, s))
  | GetCheckpoint id => (inr (MaybeCheckpoint (pair id <$> checkpoints c !! id)), m)
  | DeleteCheckpoint id => (inr Done, (Coord (kv c) (delete id (checkpoints c)) (fsms c), s))
  | ListCheckpoints run => (inr (Checkpoints (Recovery.list_checkpoints run c)), m)
  | UpdateCheckpointState id st =>
      match Recovery.update_checkpoint_state id st c with
      | Some c' => (match checkpoints c' !! id with Some cp => inr (OneCheckpoint (id, cp)) | None => inl KeyValue.KeyError end, (c', s))
      | None => (inl KeyValue.KeyError, m)
      end
  | RegisterWorker run w rank =>
      let i := Info run rank ACTIVE 0 in (inr (OneWorker (w, i)), (c, set_records (map_set (run, w) i s.(records)) s))
  | Heartbeat run w step => of_worker w m (Workers.heartbeat run w step s)
  | MarkWorkerDead run w st =>
      of_worker w m (s' ← Workers.mark_worker_dead run w st s; i ← map_get (run, w) s'.(records); Some (i, s'))
  | ListWorkers o =>
      (inr (Workers (match o with
                     | Some run => if String.eqb run "" then map (fun e => (e.1.2, e.2)) s.(records) else Workers.list_workers run s
                     | None => map (fun e => (e.1.2, e.2)) s.(records)
                     end)), m)
  end.

(** Equal, but for the order of what is listed; checkpoints come by their steps in both. *)
Definition like (a b : KeyValue.exn + reply) : Prop :=
  match a, b with
  | inr (Runs l), inr (Runs l') => l ≡ₚ l'
  | inr (Checkpoints l), inr (Checkpoints l') => l ≡ₚ l' /\ map (fun e => c_step e.2) l = map (fun e => c_step e.2) l'
  | inr (Workers l), inr (Workers l') => l ≡ₚ l'
  | _, _ => a = b
  end.

(** Worker and run identifiers in the keys of workers are words. *)
Definition proper (q : call) : Prop :=
  match q with
  | RegisterWorker run w _ | Heartbeat run w _ | MarkWorkerDead run w _ => slash_free run /\ slash_free w
  | ListWorkers (Some run) => slash_free run
  | _ => True
  end.

Fixpoint serves {S} `{KVStore S} `{Models} (qs : list call) (x : control S) : list (KeyValue.exn + reply) * control S :=
  match qs with
  | [] => ([], x)
  | q :: qs => let '(r, x) := serve q x in let '(rs, x) := serves qs x in (r :: rs, x)
  end.
Fixpoint serves_maps (qs : list call) (m : maps) : list (KeyValue.exn + reply) * maps :=
  match qs with
  | [] => ([], m)
  | q :: qs => let '(r, m) := serve_maps q m in let '(rs, m) := serves_maps qs m in (r :: rs, m)
  end.

(** ** What the store represents *)

(** The store holds the records of the maps under their keys, and nothing else that the
    coordinator reads. *)
Record represents `{Models} (m : gmap raw raw) (c : Coordinator.t) (ws : dict (string * string) info) : Prop := {
  rep_run id : m !! units (run_key id) = (fun r => dump_run (id, r)) <$> kv c !! id;
  rep_checkpoint id : m !! units (checkpoint_key id) = (fun cp => dump_checkpoint (id, cp)) <$> checkpoints c !! id;
  rep_worker run w : slash_free run -> slash_free w ->
    m !! units (worker_key run w) = (fun i => dump_worker (w, i)) <$> map_get (run, w) ws;
  rep_only k : is_Some (m !! k) -> (exists id, k = units (run_key id)) \/ (exists id, k = units (checkpoint_key id)) \/
    exists run w, k = units (worker_key run w) /\ slash_free run /\ slash_free w;
  rep_words run w i : map_get (run, w) ws = Some i -> slash_free run /\ slash_free w;
  rep_distinct : NoDup (map fst ws)
}.

(** Keys of different records *)
Lemma run_key_inj id id' : units (run_key id) = units (run_key id') -> id = id'.
Proof. unfold run_key. rewrite !units_app. intros E%app_inv_head%app_inv_head. by apply units_inj. Qed.
Lemma checkpoint_key_inj id id' : units (checkpoint_key id) = units (checkpoint_key id') -> id = id'.
Proof. unfold checkpoint_key. rewrite !units_app. intros E%app_inv_head%app_inv_head. by apply units_inj. Qed.
Lemma worker_key_inj run w run' w' : slash_free run -> slash_free run' ->
  units (worker_key run w) = units (worker_key run' w') -> run = run' /\ w = w'.
Proof.
  unfold worker_key. rewrite (units_app KEY_PREFIX), (units_app "/workers/"), (units_app KEY_PREFIX), (units_app "/workers/").
  intros F F' E%app_inv_head%app_inv_head%units_inj. by apply slash_inj.
Qed.
Lemma keys_differ id id' run w :
  units (run_key id) <> units (checkpoint_key id') /\ units (run_key id) <> units (worker_key run w) /\
  units (checkpoint_key id) <> units (worker_key run w).
Proof. split_and!; intros E; cbv in E; discriminate E. Qed.

(** The keys under each prefix *)
Definition has (prefix key : string) : bool := starts_with_units (units prefix) (units key).
Lemma runs_prefix id run w : has (KEY_PREFIX +:+ "/runs/") (run_key id) = true /\
  has (KEY_PREFIX +:+ "/runs/") (checkpoint_key id) = false /\ has (KEY_PREFIX +:+ "/runs/") (worker_key run w) = false.
Proof. by vm_compute. Qed.
Lemma checkpoints_prefix id run w : has (KEY_PREFIX +:+ "/checkpoints/") (run_key id) = false /\
  has (KEY_PREFIX +:+ "/checkpoints/") (checkpoint_key id) = true /\ has (KEY_PREFIX +:+ "/checkpoints/") (worker_key run w) = false.
Proof. by vm_compute. Qed.
Lemma workers_prefix id run w : has (KEY_PREFIX +:+ "/workers/") (run_key id) = false /\
  has (KEY_PREFIX +:+ "/workers/") (checkpoint_key id) = false /\ has (KEY_PREFIX +:+ "/workers/") (worker_key run w) = true.
Proof. by vm_compute. Qed.
Lemma run_workers_prefix r id run w : slash_free r -> slash_free run ->
  has (KEY_PREFIX +:+ "/workers/" +:+ r +:+ "/") (run_key id) = false /\
  has (KEY_PREFIX +:+ "/workers/" +:+ r +:+ "/") (checkpoint_key id) = false /\
  has (KEY_PREFIX +:+ "/workers/" +:+ r +:+ "/") (worker_key run w) = bool_decide (run = r).
Proof.
  intros Fr F. split_and!; [reflexivity|reflexivity|].
  change (has (KEY_PREFIX +:+ "/workers/" +:+ r +:+ "/") (worker_key run w)) with (has (r +:+ "/") (run +:+ "/" +:+ w)).
  unfold has. rewrite !units_app. change (units "/") with ["/"%char]. cbn [app]. case_bool_decide as D.
  - subst r. apply starts_with_units_spec. exists (units w). by rewrite <- app_assoc.
  - apply not_true_iff_false. intros E. apply D, units_inj. by eapply word_prefix.
Qed.

(** A scan finds the records of one kind, in some order. *)
Section Scan.
Context {I X : Type} (key : I -> raw) (f : I -> raw) (g : I -> X) (validate : raw -> option X).
Lemma scan_perm (p : string) (m : gmap raw raw) (L : list I) (l : list (raw * raw)) :
  NoDup L -> (forall i j, i ∈ L -> j ∈ L -> key i = key j -> i = j) -> (forall i, validate (f i) = Some (g i)) ->
  (forall k v, under p m !! k = Some v <-> exists i, i ∈ L /\ k = key i /\ v = f i) ->
  l ≡ₚ map_to_list (under p m) -> exists l', mapM (fun e => validate e.2) l = Some l' /\ l' ≡ₚ map g L.
Proof.
  intros N Inj V Sp P.
  assert (Pm : l ≡ₚ map (fun i => (key i, f i)) L).
  { etrans; [exact P|]. apply NoDup_Permutation; [apply NoDup_map_to_list| |].
    - apply NoDup_fmap_2_strong; [|done]. intros i j Hi Hj [= E _]. by apply Inj.
    - intros [k v]. rewrite elem_of_map_to_list, Sp, list_elem_of_fmap. split.
      + intros (i & Hi & -> & ->). by exists i.
      + intros (i & [= -> ->] & Hi). by exists i. }
  apply Permutation_map_inv in Pm as (L' & -> & PL). exists (map g L'). split; [|by rewrite PL].
  clear - V. induction L' as [|i L' IH]; [done|]. cbn. rewrite V. cbn. by rewrite IH.
Qed.
End Scan.

Section Represented.
Context `{J : Models} (m : gmap raw raw) (c : Coordinator.t) (ws : dict (string * string) info) (R : represents m c ws).

Lemma under_spec p k v : under p m !! k = Some v <-> m !! k = Some v /\ starts_with_units (units p) k = true.
Proof. unfold under. apply map_lookup_filter_Some. Qed.

Lemma runs_under k v : under (KEY_PREFIX +:+ "/runs/") m !! k = Some v <->
  exists i, i ∈ map_to_list (kv c) /\ k = units (run_key i.1) /\ v = dump_run i.
Proof.
  rewrite under_spec. split.
  - intros [G P]. destruct (rep_only _ _ _ R k (mk_is_Some _ _ G)) as [(id & ->)|[(id & ->)|(run & w & -> & _)]].
    + rewrite (rep_run _ _ _ R) in G. apply fmap_Some in G as (r & G & ->). exists (id, r). by rewrite elem_of_map_to_list.
    + by destruct (runs_prefix id "" "") as (_ & E & _); unfold has in E; rewrite E in P.
    + by destruct (runs_prefix "" run w) as (_ & _ & E); unfold has in E; rewrite E in P.
  - intros ([id r] & I & -> & ->). apply elem_of_map_to_list in I. split; [|apply (runs_prefix id "" "")].
    cbn [fst]. by rewrite (rep_run _ _ _ R), I.
Qed.
Lemma checkpoints_under k v : under (KEY_PREFIX +:+ "/checkpoints/") m !! k = Some v <->
  exists i, i ∈ map_to_list (checkpoints c) /\ k = units (checkpoint_key i.1) /\ v = dump_checkpoint i.
Proof.
  rewrite under_spec. split.
  - intros [G P]. destruct (rep_only _ _ _ R k (mk_is_Some _ _ G)) as [(id & ->)|[(id & ->)|(run & w & -> & _)]].
    + by destruct (checkpoints_prefix id "" "") as (E & _); unfold has in E; rewrite E in P.
    + rewrite (rep_checkpoint _ _ _ R) in G. apply fmap_Some in G as (r & G & ->). exists (id, r). by rewrite elem_of_map_to_list.
    + by destruct (checkpoints_prefix "" run w) as (_ & _ & E); unfold has in E; rewrite E in P.
  - intros ([id r] & I & -> & ->). apply elem_of_map_to_list in I. split; [|apply (checkpoints_prefix id "" "")].
    cbn [fst]. by rewrite (rep_checkpoint _ _ _ R), I.
Qed.
(** The workers of the runs that a prefix selects *)
Lemma workers_under p (sel : string -> bool) k v :
  (forall id run w, slash_free run -> has p (run_key id) = false /\ has p (checkpoint_key id) = false /\ has p (worker_key run w) = sel run) ->
  under p m !! k = Some v <->
  exists e, e ∈ filter (fun e => sel e.1.1 = true) ws /\ k = units (worker_key e.1.1 e.1.2) /\ v = dump_worker (e.1.2, e.2).
Proof.
  intros Sel. rewrite under_spec. split.
  - intros [G P]. destruct (rep_only _ _ _ R k (mk_is_Some _ _ G)) as [(id & ->)|[(id & ->)|(run & w & -> & F & Fw)]].
    + by destruct (Sel id "" "") as (E & _); [constructor|]; unfold has in E; rewrite E in P.
    + by destruct (Sel id "" "") as (_ & E & _); [constructor|]; unfold has in E; rewrite E in P.
    + rewrite (rep_worker _ _ _ R run w F Fw) in G. apply fmap_Some in G as (i & G & ->). exists ((run, w), i). split; [|done].
      apply list_elem_of_filter. split; [|by apply map_get_elem]. cbn [fst]. destruct (Sel "" run w F) as (_ & _ & <-). exact P.
  - intros ([[run w] i] & [S I]%list_elem_of_filter & -> & ->). cbn [fst snd] in *. apply elem_map_get in I; [|apply R].
    destruct (rep_words _ _ _ R run w i I) as [F Fw]. rewrite (rep_worker _ _ _ R run w F Fw), I. split; [done|].
    destruct (Sel "" run w F) as (_ & _ & E). by rewrite <- S.
Qed.
End Represented.

(** Writes of one record *)
Section Writes.
Context `{J : Models} (m : gmap raw raw) (c : Coordinator.t) (ws : dict (string * string) info) (R : represents m c ws).

Lemma represents_run id r c' : kv c' = <[id := r]> (kv c) -> checkpoints c' = checkpoints c ->
  represents (<[units (run_key id) := dump_run (id, r)]> m) c' ws.
Proof.
  intros K C. destruct R as [Rr Rc Rw Ro Ri Rn]. split.
  - intros id'. rewrite K. destruct (decide (id = id')) as [<-|D]; [by rewrite !lookup_insert_eq|].
    rewrite !lookup_insert_ne; [apply Rr|done|]. by intros E%run_key_inj.
  - intros id'. rewrite C, lookup_insert_ne; [apply Rc|]. apply (keys_differ id id' "" "").
  - intros run w F Fw. rewrite lookup_insert_ne; [by apply Rw|]. apply (keys_differ id "" run w).
  - intros k. destruct (decide (units (run_key id) = k)) as [<-|D]; [by eauto|]. rewrite lookup_insert_ne by done. apply Ro.
  - exact Ri.
  - exact Rn.
Qed.
Lemma represents_checkpoint id cp c' : kv c' = kv c -> checkpoints c' = <[id := cp]> (checkpoints c) ->
  represents (<[units (checkpoint_key id) := dump_checkpoint (id, cp)]> m) c' ws.
Proof.
  intros K C. destruct R as [Rr Rc Rw Ro Ri Rn]. split.
  - intros id'. rewrite K, lookup_insert_ne; [apply Rr|]. intros E. by destruct (keys_differ id' id "" "").
  - intros id'. rewrite C. destruct (decide (id = id')) as [<-|D]; [by rewrite !lookup_insert_eq|].
    rewrite !lookup_insert_ne; [apply Rc|done|]. by intros E%checkpoint_key_inj.
  - intros run w F Fw. rewrite lookup_insert_ne; [by apply Rw|]. apply (keys_differ id id run w).
  - intros k. destruct (decide (units (checkpoint_key id) = k)) as [<-|D]; [by eauto|]. rewrite lookup_insert_ne by done. apply Ro.
  - exact Ri.
  - exact Rn.
Qed.
Lemma represents_delete id c' : kv c' = kv c -> checkpoints c' = delete id (checkpoints c) ->
  represents (delete (units (checkpoint_key id)) m) c' ws.
Proof.
  intros K C. destruct R as [Rr Rc Rw Ro Ri Rn]. split.
  - intros id'. rewrite K, lookup_delete_ne; [apply Rr|]. intros E. by destruct (keys_differ id' id "" "").
  - intros id'. rewrite C. destruct (decide (id = id')) as [<-|D]; [by rewrite !lookup_delete_eq|].
    rewrite !lookup_delete_ne; [apply Rc|done|]. by intros E%checkpoint_key_inj.
  - intros run w F Fw. rewrite lookup_delete_ne; [by apply Rw|]. apply (keys_differ id id run w).
  - intros k [v [D G]%lookup_delete_Some]. by apply Ro.
  - exact Ri.
  - exact Rn.
Qed.
Lemma represents_worker run w i : slash_free run -> slash_free w ->
  represents (<[units (worker_key run w) := dump_worker (w, i)]> m) c (map_set (run, w) i ws).
Proof.
  intros F Fw. destruct R as [Rr Rc Rw Ro Ri Rn]. split.
  - intros id'. rewrite lookup_insert_ne; [apply Rr|]. intros E. by destruct (keys_differ id' id' run w) as (_ & [] & _).
  - intros id'. rewrite lookup_insert_ne; [apply Rc|]. intros E. by destruct (keys_differ id' id' run w) as (_ & _ & []).
  - intros run' w' F' Fw'. rewrite map_get_set. destruct (decide _) as [[= <- <-]|D]; [by rewrite lookup_insert_eq|].
    rewrite lookup_insert_ne; [by apply Rw|]. intros E. apply D. by apply worker_key_inj in E as [-> ->].
  - intros k. destruct (decide (units (worker_key run w) = k)) as [<-|D]; [|rewrite lookup_insert_ne by done; apply Ro].
    intros _. right. right. by exists run, w.
  - intros run' w' i'. rewrite map_get_set. destruct (decide _) as [[= <- <-]|D]; [done|apply Ri].
  - by apply map_set_nodup.
Qed.
Lemma represents_same c' : kv c' = kv c -> checkpoints c' = checkpoints c -> represents m c' ws.
Proof. intros K C. destruct R as [Rr Rc Rw Ro Ri Rn]. split; [by rewrite K|by rewrite C|done..]. Qed.
End Writes.

(** ** The refinement *)

Section Refinement.
Context {S : Type} `{KL : KVLaws S} `{JL : ModelsLaws}.

(** The store is up and represents the maps, and the machines are the cached ones. *)
Record related (x : control S) (m : maps) : Prop := {
  rl_sound : sound x.(backing);
  rl_up : up x.(backing);
  rl_machines : x.(machines) = fsms m.1;
  rl_represents : represents (contents x.(backing)) m.1 m.2.(records)
}.

Lemma lift_get k x m : related x m -> k <> "" ->
  exists x', lift (kv_get k) x = (inr (contents x.(backing) !! units k), x') /\ related x' m.
Proof.
  intros [O U Mc R] N. pose proof (get_law k x.(backing) O N) as L. unfold lift. destruct (kv_get k x.(backing)) as [r s].
  destruct L as (O' & C & L & _). destruct (L U) as [U' ->]. eexists. split; [done|]. split; cbn; [done..|by rewrite C].
Qed.
Lemma lift_scan p x m : related x m -> p <> "" ->
  exists l x', lift (kv_get_prefix p) x = (inr l, x') /\ l ≡ₚ map_to_list (under p (contents x.(backing))) /\ related x' m.
Proof.
  intros [O U Mc R] N. pose proof (prefix_law p x.(backing) O N) as L. unfold lift. destruct (kv_get_prefix p x.(backing)) as [r s].
  destruct L as (O' & C & L & W). destruct (L U) as [U' [l0 E]]. destruct W as [->|(l & -> & P)]; [done|].
  eexists l, _. split; [done|]. split; [exact P|]. split; cbn; [done..|by rewrite C].
Qed.
Lemma lift_put k v x m m' : related x m -> k <> "" -> fsms m'.1 = x.(machines) ->
  represents (<[units k := v]> (contents x.(backing))) m'.1 m'.2.(records) ->
  exists x', lift (kv_put k v) x = (inr tt, x') /\ related x' m'.
Proof.
  intros [O U Mc R] N F R'. pose proof (put_law k v x.(backing) O N) as L. unfold lift. destruct (kv_put k v x.(backing)) as [r s].
  destruct L as (O' & L & _ & W). destruct (L U) as [U' ->]. destruct W as [C|[? _]]; [|done].
  eexists. split; [done|]. split; cbn; [done|done|done|by rewrite C].
Qed.
Lemma lift_delete k x m m' : related x m -> k <> "" -> fsms m'.1 = x.(machines) ->
  represents (delete (units k) (contents x.(backing))) m'.1 m'.2.(records) ->
  exists x', lift (kv_delete k) x = (inr tt, x') /\ related x' m'.
Proof.
  intros [O U Mc R] N F R'. pose proof (delete_law k x.(backing) O N) as L. unfold lift. destruct (kv_delete k x.(backing)) as [r s].
  destruct L as (O' & L & _ & W). destruct (L U) as [U' ->]. destruct W as [C|[? _]]; [|done].
  eexists. split; [done|]. split; cbn; [done|done|done|by rewrite C].
Qed.

Lemma get_run_related id x m : related x m -> exists x', get_run id x = (inr (pair id <$> kv m.1 !! id), x') /\ related x' m.
Proof.
  intros Rl. unfold get_run, bind. destruct (lift_get (run_key id) x m Rl ltac:(discriminate)) as (x' & -> & Rl').
  rewrite (rep_run _ _ _ (rl_represents _ _ Rl)). destruct (kv m.1 !! id) as [r|]; cbn; [rewrite run_round_trip|]; by exists x'.
Qed.
Lemma persist_related id r x c s c' : related x (c, s) -> kv c' = <[id := r]> (kv c) -> checkpoints c' = checkpoints c ->
  fsms c' = x.(machines) -> exists x', persist_run (id, r) x = (inr tt, x') /\ related x' (c', s).
Proof.
  intros Rl K C F. apply (lift_put (run_key id) _ x (c, s) (c', s) Rl); [discriminate|exact F|].
  eapply represents_run; [apply Rl|exact K|exact C].
Qed.
Lemma machine_related id fsm x c s : related x (c, s) -> related (Control x.(backing) (<[id := fsm]> x.(machines))) (store_fsm c id fsm, s).
Proof.
  intros [O U Mc R]. split; cbn; [done|done|by rewrite Mc|]. by eapply represents_same.
Qed.
Lemma ensure_related id st x c s : related x (c, s) ->
  exists x', ensure_fsm id st x = (inr (Coordinator.ensure_fsm c id st).1, x') /\ related x' ((Coordinator.ensure_fsm c id st).2, s).
Proof.
  intros Rl. unfold ensure_fsm, Coordinator.ensure_fsm. replace (machines x !! id) with (fsms c !! id) by (by rewrite (rl_machines _ _ Rl)).
  destruct (fsms c !! id) as [fsm|]; [by exists x|]. eexists. split; [done|]. by apply machine_related.
Qed.

Lemma move_related id target now edit x c s : related x (c, s) ->
  exists x', move_run id target now edit x =
    (match (move c id target now edit).1 with
     | Coordinator.KeyError => inl KeyValue.KeyError
     | Coordinator.InvalidTransition a b => inl (KeyValue.InvalidTransition a b)
     | Ok r => inr (id, r)
     end, x') /\ related x' ((move c id target now edit).2, s).
Proof.
  intros Rl. unfold move_run, bind, move. destruct (get_run_related id x (c, s) Rl) as (x1 & -> & R1). cbn [fst].
  destruct (kv c !! id) as [r|]; cbn [fmap option_fmap option_map]; [|by exists x1].
  destruct (ensure_related id (r_state r) x1 c s R1) as (x2 & -> & R2).
  destruct (Coordinator.ensure_fsm c id (r_state r)) as [fsm c2]. cbn [fst snd] in *.
  destruct (Fsm.transition fsm target) as [[a b]|fsm']; [by exists x2|]. cbn [fst snd].
  pose proof (machine_related id fsm' x2 c2 s R2) as R3. unfold put_machine.
  edestruct (persist_related id (edit (Run target (r_step r) now (r_last_checkpoint r) (r_error r))) _ _ s
    (Coordinator.persist_run (store_fsm c2 id fsm') id (edit (Run target (r_step r) now (r_last_checkpoint r) (r_error r)))) R3) as (x4 & -> & R4);
    [done|done|by rewrite (rl_machines _ _ R3)|]. by exists x4.
Qed.

(** *** Each call *)

Definition refines (q : call) : Prop := forall x m, related x m ->
  let '(r, x') := serve q x in let '(r', m') := serve_maps q m in like r r' /\ related x' m'.

Lemma like_refl r : like r r.
Proof. destruct r as [|[]]; cbn; repeat split; reflexivity. Qed.

Lemma refines_create_run id now : refines (CreateRun id now).
Proof.
  intros x [c s] Rl. cbn [serve serve_maps answering]. unfold create_run, bind, put_machine.
  pose proof (machine_related id (Fsm.init CREATED) x c s Rl) as R1.
  edestruct (persist_related id (Run CREATED 0 now None None) _ _ s (Coordinator.create_run c id now).2 R1) as (x2 & -> & R2);
    [done|done|by rewrite (rl_machines _ _ R1)|]. cbn. by split.
Qed.
Lemma refines_get_run id : refines (GetRun id).
Proof.
  intros x [c s] Rl. cbn [serve serve_maps]. destruct (get_run_related id x (c, s) Rl) as (x1 & -> & R1). by split.
Qed.
Lemma refines_transition_run id target now : refines (TransitionRun id target now).
Proof.
  intros x [c s] Rl. cbn [serve serve_maps]. unfold transition_run, Coordinator.transition_run.
  destruct (move_related id target now (fun r => r) x c s Rl) as (x1 & -> & R1).
  destruct (move c id target now (fun r => r)) as [[] c']; by split.
Qed.
Lemma refines_set_run_error id message now : refines (SetRunError id message now).
Proof.
  intros x [c s] Rl. cbn [serve serve_maps]. unfold set_run_error, Coordinator.set_run_error.
  match goal with |- context [move_run id FAILED now ?f] => destruct (move_related id FAILED now f x c s Rl) as (x1 & -> & R1);
    destruct (move c id FAILED now f) as [[] c'] end; by split.
Qed.
Lemma refines_update_run_step id step now : refines (UpdateRunStep id step now).
Proof.
  intros x [c s] Rl. cbn [serve serve_maps]. unfold update_run_step, Workers.update_run_step, bind.
  destruct (get_run_related id x (c, s) Rl) as (x1 & -> & R1). cbn [fst].
  destruct (kv c !! id) as [r|] eqn:K; cbn [fmap option_fmap option_map]; [|cbn [raise answering fst snd]; by rewrite K].
  edestruct (persist_related id (Run (r_state r) step now (r_last_checkpoint r) (r_error r)) x1 c s
    (Coordinator.persist_run c id (Run (r_state r) step now (r_last_checkpoint r) (r_error r))) R1) as (x2 & -> & R2);
    [done|done|by rewrite (rl_machines _ _ R1)|]. cbn. by rewrite lookup_insert_eq.
Qed.

Lemma put_checkpoint_related id cp x c s c' : related x (c, s) -> kv c' = kv c -> checkpoints c' = <[id := cp]> (checkpoints c) ->
  fsms c' = fsms c -> exists x', lift (kv_put (checkpoint_key id) (dump_checkpoint (id, cp))) x = (inr tt, x') /\ related x' (c', s).
Proof.
  intros Rl K C F. apply (lift_put (checkpoint_key id) _ x (c, s) (c', s) Rl); [discriminate|by rewrite (rl_machines _ _ Rl)|].
  eapply represents_checkpoint; [apply Rl|exact K|exact C].
Qed.
Lemma get_checkpoint_related id x m : related x m ->
  exists x', get_checkpoint id x = (inr (pair id <$> checkpoints m.1 !! id), x') /\ related x' m.
Proof.
  intros Rl. unfold get_checkpoint, bind. destruct (lift_get (checkpoint_key id) x m Rl ltac:(discriminate)) as (x' & -> & Rl').
  rewrite (rep_checkpoint _ _ _ (rl_represents _ _ Rl)).
  destruct (checkpoints m.1 !! id) as [r|]; cbn; [rewrite checkpoint_round_trip|]; by exists x'.
Qed.
Lemma refines_create_checkpoint run id step now : refines (CreateCheckpoint run id step now).
Proof.
  intros x [c s] Rl. cbn [serve serve_maps]. unfold create_checkpoint, Coordinator.create_checkpoint, bind.
  destruct (get_run_related run x (c, s) Rl) as (x1 & -> & R1). cbn [fst].
  destruct (kv c !! run) as [r|]; cbn [fmap option_fmap option_map]; [|by split]. cbv zeta.
  edestruct (put_checkpoint_related id (Checkpoint run step CPENDING now) x1 c s
    (Coord (kv c) (<[id := Checkpoint run step CPENDING now]> (checkpoints c)) (fsms c)) R1) as (x2 & -> & R2); [done..|].
  edestruct (persist_related run (Run (r_state r) (r_step r) now (Some id) (r_error r)) x2 _ s
    (Coordinator.persist_run (Coord (kv c) (<[id := Checkpoint run step CPENDING now]> (checkpoints c)) (fsms c)) run
       (Run (r_state r) (r_step r) now (Some id) (r_error r))) R2) as (x3 & -> & R3);
    [done|done|by rewrite (rl_machines _ _ R2)|]. by split.
Qed.
Lemma refines_get_checkpoint id : refines (GetCheckpoint id).
Proof.
  intros x [c s] Rl. cbn [serve serve_maps]. destruct (get_checkpoint_related id x (c, s) Rl) as (x1 & -> & R1). by split.
Qed.
Lemma refines_delete_checkpoint id : refines (DeleteCheckpoint id).
Proof.
  intros x [c s] Rl. cbn [serve serve_maps]. unfold delete_checkpoint.
  destruct (lift_delete (checkpoint_key id) x (c, s) (Coord (kv c) (delete id (checkpoints c)) (fsms c), s) Rl) as (x1 & -> & R1);
    [discriminate|by rewrite (rl_machines _ _ Rl)|eapply represents_delete; [apply Rl|done|done]|]. by split.
Qed.
Lemma refines_update_checkpoint id st : refines (UpdateCheckpointState id st).
Proof.
  intros x [c s] Rl. cbn [serve serve_maps]. unfold update_checkpoint_state, Recovery.update_checkpoint_state, bind.
  destruct (get_checkpoint_related id x (c, s) Rl) as (x1 & -> & R1). cbn [fst].
  destruct (checkpoints c !! id) as [cp|]; cbn [fmap option_fmap option_map mbind option_bind]; [|by split]. cbv zeta.
  edestruct (put_checkpoint_related id (with_state st cp) x1 c s (Coord (kv c) (<[id := with_state st cp]> (checkpoints c)) (fsms c)) R1)
    as (x2 & -> & R2); [done..|]. cbn [ret answering fst snd checkpoints]. by rewrite lookup_insert_eq.
Qed.

Lemma worker_key_nonempty run w : worker_key run w <> "".
Proof. discriminate. Qed.
Lemma put_worker_related run w i x c s : slash_free run -> slash_free w -> related x (c, s) ->
  exists x', lift (kv_put (worker_key run w) (dump_worker (w, i))) x = (inr tt, x') /\
    related x' (c, set_records (map_set (run, w) i s.(records)) s).
Proof.
  intros F Fw Rl. apply (lift_put (worker_key run w) _ x (c, s) (c, set_records (map_set (run, w) i s.(records)) s) Rl);
    [apply worker_key_nonempty|by rewrite (rl_machines _ _ Rl)|]. by apply represents_worker; [apply Rl|..].
Qed.
Lemma edit_worker_related run w f x c s : slash_free run -> slash_free w -> related x (c, s) ->
  match map_get (run, w) s.(records) with
  | Some i => exists x', edit_worker run w f x = (inr (w, f i), x') /\ related x' (c, set_records (map_set (run, w) (f i) s.(records)) s)
  | None => exists x', edit_worker run w f x = (inl KeyValue.KeyError, x') /\ related x' (c, s)
  end.
Proof.
  intros F Fw Rl. unfold edit_worker, bind.
  destruct (lift_get (worker_key run w) x (c, s) Rl (worker_key_nonempty _ _)) as (x1 & -> & R1).
  rewrite (rep_worker _ _ _ (rl_represents _ _ Rl) run w F Fw). cbn [fst snd].
  destruct (map_get (run, w) (records s)) as [i|]; cbn [fmap option_fmap option_map]; [|by exists x1].
  rewrite worker_round_trip. cbn [decode ret fst snd].
  destruct (put_worker_related run w (f i) x1 c s F Fw R1) as (x2 & -> & R2). by exists x2.
Qed.
Lemma refines_register_worker run w rank : slash_free run -> slash_free w -> refines (RegisterWorker run w rank).
Proof.
  intros F Fw x [c s] Rl. cbn [serve serve_maps]. unfold register_worker, bind.
  destruct (put_worker_related run w (Info run rank ACTIVE 0) x c s F Fw Rl) as (x1 & -> & R1). by split.
Qed.
Lemma refines_heartbeat run w step : slash_free run -> slash_free w -> refines (Heartbeat run w step).
Proof.
  intros F Fw x [c s] Rl. cbn [serve serve_maps]. unfold heartbeat, Workers.heartbeat.
  pose proof (edit_worker_related run w (fun i => Info (i_run i) (i_rank i) ACTIVE step) x c s F Fw Rl) as Ed.
  destruct (map_get (run, w) (records s)) as [i|]; destruct Ed as (x1 & -> & R1); by split.
Qed.
Lemma refines_mark_worker_dead run w st : slash_free run -> slash_free w -> refines (MarkWorkerDead run w st).
Proof.
  intros F Fw x [c s] Rl. cbn [serve serve_maps]. unfold mark_worker_dead, Workers.mark_worker_dead.
  pose proof (edit_worker_related run w (set_status st) x c s F Fw Rl) as Ed.
  destruct (map_get (run, w) (records s)) as [i|]; destruct Ed as (x1 & -> & R1); [|by split].
  cbn [mbind option_bind records set_records of_worker]. rewrite map_get_set_eq. by split.
Qed.

Lemma refines_list_runs : refines ListRuns.
Proof.
  intros x [c s] Rl. cbn [serve serve_maps]. unfold list_runs, bind.
  destruct (lift_scan (KEY_PREFIX +:+ "/runs/") x (c, s) Rl ltac:(discriminate)) as (l & x1 & -> & P & R1).
  destruct (scan_perm (fun i => units (run_key i.1)) dump_run id validate_run (KEY_PREFIX +:+ "/runs/") (contents x.(backing)) (map_to_list (kv c)) l) as (l' & E & P');
    [apply NoDup_map_to_list| |apply run_round_trip|apply (runs_under _ _ _ (rl_represents _ _ Rl))|exact P|].
  { intros [i r] [j r'] Hi Hj E%run_key_inj. cbn in E. subst j. apply elem_of_map_to_list in Hi, Hj. congruence. }
  rewrite E. cbn. split; [|exact R1]. by rewrite P', list_fmap_id.
Qed.
Lemma refines_list_checkpoints run : refines (ListCheckpoints run).
Proof.
  intros x [c s] Rl. cbn [serve serve_maps]. unfold list_checkpoints, bind.
  destruct (lift_scan (KEY_PREFIX +:+ "/checkpoints/") x (c, s) Rl ltac:(discriminate)) as (l & x1 & -> & P & R1).
  destruct (scan_perm (fun i => units (checkpoint_key i.1)) dump_checkpoint id validate_checkpoint
    (KEY_PREFIX +:+ "/checkpoints/") (contents x.(backing)) (map_to_list (checkpoints c)) l) as (l' & E & P');
    [apply NoDup_map_to_list| |apply checkpoint_round_trip|apply (checkpoints_under _ _ _ (rl_represents _ _ Rl))|exact P|].
  { intros [i r] [j r'] Hi Hj E%checkpoint_key_inj. cbn in E. subst j. apply elem_of_map_to_list in Hi, Hj. congruence. }
  rewrite list_fmap_id in P'. rewrite E. cbn. split; [|exact R1]. unfold Recovery.list_checkpoints.
  set (l1 := filter _ l'). set (l2 := filter _ (map_to_list _)). set (gt := fun _ _ => _).
  assert (Pl : l1 ≡ₚ l2) by (unfold l1, l2; by rewrite P').
  assert (Ps : stable_sort gt l1 ≡ₚ stable_sort gt l2) by (by rewrite !stable_sort_perm). split; [exact Ps|].
  assert (D : forall l, StronglySorted (fun a b => a <= b) (map (fun e : string * checkpoint => c_step e.2) (stable_sort gt l))).
  { intros l0. destruct (stable_sort_spec gt (fun e => - c_step e.2) (fun _ => True)) with (l := l0) (z := 0) as [D _];
      [intros a b _ _; unfold gt; apply eq_true_iff_eq; rewrite !Z.ltb_lt; lia|by apply Forall_true|].
    unfold descending in D. induction D as [|a l3 D IH F]; cbn; constructor; [exact IH|].
    apply Forall_fmap. eapply Forall_impl; [exact F|]. cbn. lia. }
  apply (StronglySorted_unique (fun a b => a <= b)); [apply D|apply D|by rewrite Ps].
Qed.

Lemma list_workers_filter run s : Workers.list_workers run s =
  map (fun e => (e.1.2, e.2)) (filter (fun e => bool_decide (e.1.1 = run) = true) s.(records)).
Proof.
  unfold Workers.list_workers. induction (records s) as [|[[r w] i] l IH]; [done|]. cbn [omap list_omap]. rewrite filter_cons. cbn [fst snd].
  destruct (decide (r = run)) as [->|D].
  - rewrite decide_True by (by apply bool_decide_eq_true). cbn. by rewrite IH.
  - rewrite decide_False by (by rewrite bool_decide_eq_true). exact IH.
Qed.
Lemma scan_workers p (sel : string -> bool) x c s : related x (c, s) -> p <> "" ->
  (forall id run w, slash_free run -> has p (run_key id) = false /\ has p (checkpoint_key id) = false /\ has p (worker_key run w) = sel run) ->
  exists l x1, bind (lift (kv_get_prefix p)) (fun entries => decode (mapM (fun e => validate_worker e.2) entries)) x = (inr l, x1) /\
    l ≡ₚ map (fun e => (e.1.2, e.2)) (filter (fun e => sel e.1.1 = true) s.(records)) /\ related x1 (c, s).
Proof.
  intros Rl N Sel. unfold bind. destruct (lift_scan p x (c, s) Rl N) as (l & x1 & -> & P & R1).
  pose proof (rl_represents _ _ Rl) as Rp. cbn [fst snd] in Rp.
  destruct (scan_perm (fun e => units (worker_key e.1.1 e.1.2)) (fun e => dump_worker (e.1.2, e.2)) (fun e => (e.1.2, e.2)) validate_worker
    p (contents x.(backing)) (filter (fun e => sel e.1.1 = true) s.(records)) l) as (l' & E & P');
    [apply NoDup_filter; eapply NoDup_fmap_1, Rp| |intros e; apply worker_round_trip|intros k v; by apply (workers_under _ _ _ Rp)|exact P|].
  { intros [[r w] i] [[r' w'] i'] [_ I]%list_elem_of_filter [_ I']%list_elem_of_filter E. cbn [fst snd] in E.
    apply elem_map_get in I, I'; [|apply Rp..]. destruct (rep_words _ _ _ Rp _ _ _ I) as [F _], (rep_words _ _ _ Rp _ _ _ I') as [F' _].
    apply worker_key_inj in E as [-> ->]; [|done..]. congruence. }
  rewrite E. by exists l', x1.
Qed.
Lemma refines_list_workers o : match o with Some run => slash_free run | None => True end -> refines (ListWorkers o).
Proof.
  intros F x [c s] Rl. cbn [serve serve_maps]. unfold list_workers.
  assert (All : exists l x1, bind (lift (kv_get_prefix (KEY_PREFIX +:+ "/workers/")))
      (fun entries => decode (mapM (fun e => validate_worker e.2) entries)) x = (inr l, x1) /\
      l ≡ₚ map (fun e => (e.1.2, e.2)) s.(records) /\ related x1 (c, s)).
  { destruct (scan_workers (KEY_PREFIX +:+ "/workers/") (fun _ => true) x c s Rl ltac:(discriminate)) as (l & x1 & E & P & R1).
    - intros id run w _. apply workers_prefix.
    - exists l, x1. split_and!; [done| |done]. etrans; [exact P|]. by rewrite filter_every; [|apply Forall_true]. }
  destruct o as [run|]; [destruct (String.eqb_spec run "") as [->|N]|].
  - destruct All as (l & x1 & -> & P & R1). by split.
  - destruct (scan_workers (KEY_PREFIX +:+ "/workers/" +:+ run +:+ "/") (fun r => bool_decide (r = run)) x c s Rl ltac:(discriminate))
      as (l & x1 & -> & P & R1); [intros; by apply run_workers_prefix|]. split; [|exact R1]. cbn. by rewrite list_workers_filter.
  - destruct All as (l & x1 & -> & P & R1). by split.
Qed.

Lemma serve_refines q : proper q -> refines q.
Proof.
  destruct q; cbn [proper]; intros Pr.
  - apply refines_create_run.
  - apply refines_get_run.
  - apply refines_list_runs.
  - apply refines_transition_run.
  - apply refines_set_run_error.
  - apply refines_update_run_step.
  - apply refines_create_checkpoint.
  - apply refines_get_checkpoint.
  - apply refines_delete_checkpoint.
  - apply refines_list_checkpoints.
  - apply refines_update_checkpoint.
  - by apply refines_register_worker; apply Pr.
  - by apply refines_heartbeat; apply Pr.
  - by apply refines_mark_worker_dead; apply Pr.
  - apply refines_list_workers. by destruct run_id.
Qed.

(** C11: The coordinator over a store that does not fail refines the maps of records that the
    other components work on: every sequence of its operations has the same answers, the
    exceptions included and listings up to the order of ties, and leaves a store that
    represents the maps. *)
Theorem coordinator_refines_maps qs x m : related x m -> Forall proper qs ->
  Forall2 like (serves qs x).1 (serves_maps qs m).1 /\ related (serves qs x).2 (serves_maps qs m).2.
Proof.
  revert x m. induction qs as [|q qs IH]; intros x m Rl P; [by split|]. apply Forall_cons in P as [Pq P]. cbn [serves serves_maps].
  pose proof (serve_refines q Pq x m Rl) as Q. destruct (serve q x) as [r x'], (serve_maps q m) as [r' m']. destruct Q as [L R'].
  destruct (IH x' m' R' P) as [F R2]. destruct (serves qs x') as [rs x2], (serves_maps qs m') as [rs' m2].
  split; [by constructor|exact R2].
Qed.
End Refinement.

(** ** A write that fails *)

Section Failures.
Context {S : Type} `{KL : KVLaws S} `{JL : ModelsLaws}.

(** Where the record and the cached machine of a run stand *)
Definition stands (id : string) (r : run) (x : control S) : Prop :=
  sound x.(backing) /\ contents x.(backing) !! units (run_key id) = Some (dump_run (id, r)).
Definition judged (id : string) (r : run) (x : control S) : run_state :=
  match x.(machines) !! id with Some fsm => Fsm.fsm_state fsm | None => r_state r end.

Lemma get_run_stands id r x : stands id r x ->
  let '(res, x') := get_run id x in
  machines x' = machines x /\ contents (backing x') = contents (backing x) /\ sound (backing x') /\
  (up (backing x) -> up (backing x') /\ res = inr (Some (id, r))) /\ (res = inl HTTPError \/ res = inr (Some (id, r))).
Proof.
  intros [O G]. pose proof (get_law (run_key id) x.(backing) O ltac:(discriminate)) as L. unfold get_run, bind, lift.
  destruct (kv_get (run_key id) (backing x)) as [res s]. destruct L as (O' & C & Lu & W). rewrite G in Lu, W.
  assert (V : validate_run (dump_run (id, r)) = Some (id, r)) by apply run_round_trip.
  destruct W as [->| ->]; cbn; rewrite ?V; cbn; split_and!; try done; [|by left| |by right].
  - intros U. by destruct (Lu U).
  - intros U. by destruct (Lu U).
Qed.

Lemma ensure_judged id r x :
  exists m x', ensure_fsm id (r_state r) x = (inr m, x') /\ Fsm.fsm_state m = judged id r x /\ backing x' = backing x.
Proof. unfold ensure_fsm, judged. destruct (machines x !! id) as [m|]; by eexists _, _. Qed.

(** What a transition does when its read goes through: the machine moves, then the record is written. *)
Lemma transition_stands id r target now x : stands id r x ->
  let '(res, x') := transition_run id target now x in
  sound (backing x') /\ (up (backing x) -> up (backing x')) /\
  (machines x' = machines x /\ contents (backing x') = contents (backing x) /\ res = inl HTTPError /\ ~ up (backing x) \/
   if bool_decide (target ∈ Fsm.VALID_TRANSITIONS (judged id r x)) then
     judged id r x' = target /\ is_Some (machines x' !! id) /\
     let r' := Run target (r_step r) now (r_last_checkpoint r) (r_error r) in
     (contents (backing x') = <[units (run_key id) := dump_run (id, r')]> (contents (backing x)) \/
      res = inl HTTPError /\ contents (backing x') = contents (backing x)) /\
     (res = inl HTTPError \/ res = inr (id, r')) /\ (up (backing x) -> res = inr (id, r'))
   else res = inl (KeyValue.InvalidTransition (judged id r x) target) /\ contents (backing x') = contents (backing x)).
Proof.
  intros St. pose proof (get_run_stands id r x St) as G. unfold transition_run, move_run. unfold bind at 1.
  destruct (get_run id x) as [res x1]. destruct G as (Mx & Cx & O1 & Up1 & [->| ->]).
  { split_and!; [done|by intros U; apply Up1|left]. split_and!; [done..|]. intros U. by destruct (Up1 U) as [_ ?]. }
  destruct (ensure_judged id r x1) as (m & x2 & E2 & Jm & B2).
  assert (Jx : judged id r x1 = judged id r x) by (unfold judged; by rewrite Mx). rewrite Jx in Jm.
  unfold bind at 1. cbn beta iota. rewrite E2.
  unfold Fsm.transition, Fsm.can_transition. rewrite Jm. case_bool_decide as V.
  2: { cbn. rewrite B2. split_and!; [done|by intros U; apply Up1|right]. by split. }
  unfold bind, put_machine, persist_run, lift. cbn [fst snd backing machines]. rewrite B2.
  pose proof (put_law (run_key id) (dump_run (id, Run target (r_step r) now (r_last_checkpoint r) (r_error r))) (backing x1) O1 ltac:(discriminate)) as L.
  destruct (kv_put _ _ (backing x1)) as [w s]. destruct L as (O3 & L & W1 & W2). rewrite Cx in W2.
  assert (Mv : judged id r (Control s (<[id := Fsm.Fsm target (Fsm.history m ++ [(judged id r x, target)])]> (machines x2))) = target)
    by (unfold judged; cbn; by rewrite lookup_insert_eq).
  destruct W1 as [->| ->]; cbn [fst snd backing machines ret]; (split_and!; [done|by intros U; apply L, Up1|right]).
  - split_and!; [exact Mv|by rewrite lookup_insert_eq|by destruct W2 as [?|[_ ?]]; [left|right]|by left|].
    intros U. destruct (L (proj1 (Up1 U))) as [_ ?]. done.
  - split_and!; [exact Mv|by rewrite lookup_insert_eq|by destruct W2 as [?|[? _]]; [left|]|by right|done].
Qed.

Lemma no_self_loop s : s ∉ Fsm.VALID_TRANSITIONS s.
Proof. apply (bool_decide_unpack _). by destruct s. Qed.

(** C28: A transition moves the shared state machine before it writes the record. When the store
    fails at the write, the machine stays ahead of the record, and once the store is back
    the same transition is refused as one from its own target, although the record is still
    in the old state; only a restart of the control plane, which forgets the machines, lets
    it go through. *)
Theorem failed_write_blocks_run id r target now now' x x' :
  stands id r x -> judged id r x = r_state r -> target ∈ Fsm.VALID_TRANSITIONS (r_state r) ->
  transition_run id target now x = (inl HTTPError, x') -> machines x' !! id <> machines x !! id ->
  contents (backing x') = contents (backing x) -> up (backing x') ->
  (transition_run id target now' x').1 = inl (KeyValue.InvalidTransition target target) /\
  (transition_run id target now' (Control (backing x') ∅)).1 =
    inr (id, Run target (r_step r) now' (r_last_checkpoint r) (r_error r)).
Proof.
  intros St J0 V E Ne C U. pose proof (transition_stands id r target now x St) as T. rewrite E in T.
  destruct T as (O' & _ & [(Mx & _)|T]); [by rewrite Mx in Ne|]. rewrite J0, bool_decide_true in T by done. destruct T as (J' & _).
  assert (St' : forall ms, stands id r (Control (backing x') ms)) by (intros ms; split; [done|]; cbn; rewrite C; apply St). split.
  - pose proof (transition_stands id r target now' x' (St' (machines x') : stands id r x')) as T.
    destruct (transition_run id target now' x') as [res x2]. destruct T as (_ & _ & [(_ & _ & _ & N)|T]); [done|].
    rewrite J', bool_decide_false in T by apply no_self_loop. apply T.
  - pose proof (transition_stands id r target now' _ (St' ∅)) as T. destruct (transition_run id target now' _) as [res x2].
    destruct T as (_ & _ & [(_ & _ & _ & N)|T]); [done|]. unfold judged in T. cbn in T. rewrite lookup_empty, bool_decide_true in T by done.
    by apply T.
Qed.
End Failures.

(** ** A serialization, to apply the theorems to *)

Module Bits.
#[export] Instance run_state_countable : Countable run_state.
Proof.
  refine (inj_countable (fun s => Z.of_nat (default 0%nat (fst <$> list_find (fun x => x = s) all_run_states)))
                        (fun n => all_run_states !! Z.to_nat n) _).
  by intros [].
Defined.
#[export] Instance checkpoint_state_countable : Countable checkpoint_state.
Proof.
  refine (inj_countable (fun s => match s with CPENDING => 0 | CIN_PROGRESS => 1 | CCOMMITTED => 2 | CFAILED => 3 end)
                        (fun n => [CPENDING; CIN_PROGRESS; CCOMMITTED; CFAILED] !! Z.to_nat n) _).
  by intros [].
Defined.
#[export] Instance worker_status_countable : Countable worker_status.
Proof.
  refine (inj_countable (fun s => match s with ACTIVE => 0 | DEAD => 1 | SUPERSEDED => 2 | DEREGISTERED => 3 end)
                        (fun n => [ACTIVE; DEAD; SUPERSEDED; DEREGISTERED] !! Z.to_nat n) _).
  by intros [].
Defined.

Fixpoint bits (p : positive) : raw :=
  match p with xH => [] | xO p => "0"%char :: bits p | xI p => "1"%char :: bits p end.
Fixpoint positive_of (l : raw) : positive :=
  match l with [] => xH | c :: l => if Ascii.eqb c "0" then xO (positive_of l) else xI (positive_of l) end.
Lemma positive_of_bits p : positive_of (bits p) = p.
Proof. induction p as [p IH|p IH|]; cbn; by rewrite ?IH. Qed.

Definition written {A} `{Countable A} (a : A) : raw := bits (encode a).
Definition read {A} `{Countable A} (l : raw) : option A := countable.decode (positive_of l).
Lemma read_written `{Countable A} (a : A) : read (written a) = Some a.
Proof. unfold read, written. by rewrite positive_of_bits, decode_encode. Qed.

Definition of_run (e : string * run) := (e.1, r_state e.2, r_step e.2, r_updated e.2, r_last_checkpoint e.2, r_error e.2).
Definition to_run (t : string * run_state * Z * Z * option string * option string) : string * run :=
  let '(id, s, n, u, c, e) := t in (id, Run s n u c e).
Definition of_checkpoint (e : string * checkpoint) := (e.1, c_run e.2, c_step e.2, c_state e.2, c_created e.2).
Definition to_checkpoint (t : string * string * Z * checkpoint_state * Z) : string * checkpoint :=
  let '(id, r, n, s, t) := t in (id, Checkpoint r n s t).
Definition of_info (e : string * info) := (e.1, i_run e.2, i_rank e.2, i_status e.2, i_step e.2).
Definition to_info (t : string * string * Z * worker_status * Z) : string * info :=
  let '(w, r, k, s, n) := t in (w, Info r k s n).

#[export] Instance models : Models := {|
  dump_run e := written (of_run e); validate_run l := to_run <$> read l;
  dump_checkpoint e := written (of_checkpoint e); validate_checkpoint l := to_checkpoint <$> read l;
  dump_worker e := written (of_info e); validate_worker l := to_info <$> read l
|}.
#[export] Instance models_laws : ModelsLaws models.
Proof. split; intros [? []]; cbn; by rewrite read_written. Qed.
End Bits.
#[local] Existing Instances Bits.models Bits.models_laws MemoryEtcd.etcd MemoryEtcd.etcd_laws.

(** A run, its checkpoint and a worker, over the etcd in memory *)
Definition session : list call :=
  [CreateRun "r" 1; TransitionRun "r" RUNNING 2; TransitionRun "r" COMMITTED 3; RegisterWorker "r" "w" 0; Heartbeat "r" "w" 7;
   CreateCheckpoint "r" "c" 7 4; UpdateCheckpointState "c" CCOMMITTED; ListCheckpoints "r"; ListWorkers (Some "r"); DeleteCheckpoint "c"].
Definition server (sched : list MemoryEtcd.fate) (m : gmap raw raw) : etcd_store MemoryEtcd.etcd :=
  EtcdKVStore (E := MemoryEtcd.etcd) (MemoryEtcd.Etcd m sched).

Lemma coordinator_refines_maps_witness :
  Forall2 like (serves session (Control (server [] ∅) ∅)).1 (serves_maps session (Coord ∅ ∅ ∅, Registry [] [] [] [] Heartbeat.init_manager)).1.
Proof.
  apply coordinator_refines_maps.
  - split; [by vm_compute|by constructor|done|]. split; try done; [|by constructor]. cbn. intros k [? ?]. by rewrite lookup_empty in *.
  - repeat (constructor; try discriminate).
Defined.

(** A transition whose read is answered and whose write is refused *)
Definition stuck : Coordinator.run := Run RUNNING 0 1 None None.
Definition stored : gmap raw raw := {[ units (run_key "r") := dump_run ("r", stuck) ]}.
Definition healthy : control (etcd_store MemoryEtcd.etcd) := Control (server [MemoryEtcd.Answered; MemoryEtcd.Refused] stored) ∅.
Definition after : control (etcd_store MemoryEtcd.etcd) := Control (server [] stored) {[ "r" := Fsm.Fsm CHECKPOINTING [(RUNNING, CHECKPOINTING)] ]}.

Lemma snapshot_eq (x y : control (etcd_store MemoryEtcd.etcd)) :
  MemoryEtcd.data (KeyValue.server (backing x)) = MemoryEtcd.data (KeyValue.server (backing y)) ->
  MemoryEtcd.schedule (KeyValue.server (backing x)) = MemoryEtcd.schedule (KeyValue.server (backing y)) ->
  machines x = machines y -> x = y.
Proof. destruct x as [[[]] ?], y as [[[]] ?]. cbn. by intros -> -> ->. Qed.

Lemma refused_write : transition_run "r" CHECKPOINTING 2 healthy = (inl HTTPError, after).
Proof. apply injective_projections; [|apply snapshot_eq]; vm_compute; reflexivity. Qed.

Lemma failed_write_blocks_run_witness :
  (transition_run "r" CHECKPOINTING 3 after).1 = inl (KeyValue.InvalidTransition CHECKPOINTING CHECKPOINTING) /\
  (transition_run "r" CHECKPOINTING 3 (Control (backing after) ∅)).1 = inr ("r", Run CHECKPOINTING 0 3 None None).
Proof.
  apply (failed_write_blocks_run "r" stuck CHECKPOINTING 2 3 healthy after).
  - split; [done|apply lookup_singleton_eq].
  - done.
  - apply (bool_decide_unpack _). by vm_compute.
  - exact refused_write.
  - vm_compute. discriminate.
  - reflexivity.
  - constructor.
Defined.
