(* ===== verification/RunsPage.v ===== *)
(** * The runs page: [frontend/src/pages/RunsPage.tsx]

    The list of training runs with its polling, the action buttons of each row and the
    new-run modal. [page] is the state of [RunsPage] with, while it is mounted, the
    state of [NewRunModal]; [msg] lists what can happen to it: the user's clicks and
    inputs, the timer of the poll, and the settling of each request. *)

From S2P Require Import Prelude JsString JsNum Html Types Host Async Design Ui ControlPlane.

(** ** State *)

(** [NewRunModal]'s state. A modal that is closed and opened again is a new component
    instance: [instance] tells them apart, for the requests of a closed one. *)
Record modal : Type := Modal {
  instance : nat;
  form : run_config;
  submitting : bool;
  m_error : option string
}.

Definition new_modal (i : nat) : modal :=
  Modal i (RunConfig "" 4 1000) false None.

Record page : Type := Page {
  runs : list run_status;
  loading : bool;
  error : option string;
  (** [showNewRun], with the mounted modal *)
  showNewRun : option modal;
  (** modals mounted so far *)
  mounted : nat
}.

Definition init_page : page := Page [] true None None 0.

(** ** Messages and effects *)

Inductive msg : Type :=
| Poll
| OpenNewRun
| CloseModal
| ChangeName (value : string)
| ChangeWorkers (value : string)
| ChangeInterval (value : string)
| Submit
| PostAction (id : string) (a : run_action)
| RunsSettled (o : outcome (list run_status))
| CreateSettled (i : nat) (o : outcome unit)
| ActionSettled (o : outcome unit).

Inductive effect : Type :=
| FetchRuns
| PostRun (i : nat) (body : run_config)
| PostRunAction (id : string) (a : run_action)
| Alert (message : string).

(** ** Handlers *)

Definition set_fetched (rs : list run_status) (p : page) : page :=
  Page rs p.(loading) None p.(showNewRun) p.(mounted).
Definition set_error (e : option string) (p : page) : page :=
  Page p.(runs) p.(loading) e p.(showNewRun) p.(mounted).
Definition set_loaded (p : page) : page :=
  Page p.(runs) false p.(error) p.(showNewRun) p.(mounted).
Definition set_modal (m : option modal) (p : page) : page :=
  Page p.(runs) p.(loading) p.(error) m p.(mounted).

(** A [setState] of modal instance [i]: it has no effect once that instance is gone. *)
Definition on_modal (i : nat) (f : modal -> modal) (p : page) : page :=
  match p.(showNewRun) with
  | Some m => if (instance m =? i)%nat then set_modal (Some (f m)) p else p
  | None => p
  end.
(** The same for the mounted instance, whichever it is. *)
Definition on_current (f : modal -> modal) (p : page) : page :=
  match p.(showNewRun) with Some m => set_modal (Some (f m)) p | None => p end.

(** [setShowNewRun(true)] mounts a modal unless one is mounted already. *)
Definition open_modal (p : page) : page :=
  match p.(showNewRun) with
  | Some _ => p
  | None => Page p.(runs) p.(loading) p.(error) (Some (new_modal p.(mounted))) (S p.(mounted))
  end.

(** The settled part of [fetchRuns]. *)
Definition fetchRuns (o : outcome (list run_status)) : M (page * list effect) unit :=
  finally_on
    (catch
       (let* res := await o in
        check_ok res (status_line res) ;;
        let* data := await (res_json res) in
        on (set_fetched data))
       (fun e => on (set_error (Some (message_or "Failed to fetch runs" e)))))
    set_loaded.

Definition set_submitting (b : bool) (m : modal) : modal := Modal m.(instance) m.(form) b m.(m_error).
Definition set_m_error (e : option string) (m : modal) : modal := Modal m.(instance) m.(form) m.(submitting) e.
Definition set_form (f : run_config -> run_config) (m : modal) : modal :=
  Modal m.(instance) (f m.(form)) m.(submitting) m.(m_error).

(** [submit] up to its [await fetch]. *)
Definition submit (p : page) : page * list effect :=
  match p.(showNewRun) with
  | None => (p, [])
  | Some m =>
      handle (on (on_modal m.(instance) (fun m => set_m_error None (set_submitting true m))) ;;
              emit (PostRun m.(instance) m.(form))) p
  end.

(** [submit] from its [await fetch] on: [onCreated] is [fetchRuns], [onClose] is
    [setShowNewRun(false)]. *)
Definition submit_settled (i : nat) (o : outcome unit) : M (page * list effect) unit :=
  finally_on
    (catch
       (let* res := await o in
        check_ok res (status_line res) ;;
        emit FetchRuns ;;
        on (set_modal None))
       (fun e => on (on_modal i (set_m_error (Some (message_or "Failed to create run" e))))))
    (on_modal i (set_submitting false)).

(** [postAction] from its [await fetch] on. *)
Definition action_settled (o : outcome unit) : M (page * list effect) unit :=
  catch
    (let* res := await o in
     check_ok res (status_line res) ;;
     emit FetchRuns)
    (fun e => emit (Alert (message_or "Action failed" e))).

(** [parseInt(value) || fallback]: [NaN] and [0] are falsy. *)
Definition int_or (fallback : Z) (value : string) : Z :=
  match parse_int_auto value with
  | Some z => if z =? 0 then fallback else z
  | None => fallback
  end.

Definition update (m : msg) (p : page) : page * list effect :=
  match m with
  | Poll => (p, [FetchRuns])
  | OpenNewRun => (open_modal p, [])
  | CloseModal => (set_modal None p, [])
  | ChangeName v =>
      (on_current (set_form (fun f => RunConfig v f.(num_workers) f.(checkpoint_interval_steps))) p, [])
  | ChangeWorkers v =>
      (on_current (set_form (fun f => RunConfig f.(cfg_name) (int_or 1 v) f.(checkpoint_interval_steps))) p, [])
  | ChangeInterval v =>
      (on_current (set_form (fun f => RunConfig f.(cfg_name) f.(num_workers) (int_or 100 v))) p, [])
  | Submit => submit p
  | PostAction id a => (p, [PostRunAction id a])
  | RunsSettled o => handle (fetchRuns o) p
  | CreateSettled i o => handle (submit_settled i o) p
  | ActionSettled o => handle (action_settled o) p
  end.

(** The mount effect: a first fetch, then one every 5000 ms. *)
Definition mount : page * list effect := (init_page, [FetchRuns]).
Definition poll_interval : Z := 5000.

(** ** Views *)

(** [!name.trim()] *)
Definition blank (name : string) : bool := (trim name =? "")%string.

Section Views.
Context `{Intl}.

Definition modal_panel (m : modal) : node msg :=
  let form := m.(form) in
  El "div" [cls "glass-strong shadow-2xl w-full max-w-md p-6"; StopClick]
    (El "h3" [cls "text-lg font-semibold text-txt-1 mb-5"] [Txt "Create New Run"] ::
     when_text m.(m_error) (fun error =>
       El "div" [cls "mb-4 text-sm text-err bg-err-muted border border-err/20 rounded-lg px-3 py-2"]
         [Txt error]) ++
     El "label" [cls "block mb-4"]
       [El "span" [cls "text-xs font-medium text-txt-2"] [Txt "Run Name"];
        El "input" [Attr "type" "text";
                    cls "mt-1.5 block w-full bg-surface-0 border border-line rounded-lg px-3 py-2 text-sm text-txt-1 placeholder-txt-3 focus:outline-none focus:ring-1 focus:ring-brand-violet focus:border-brand-violet transition-colors";
                    Attr "placeholder" "my-training-run"; Attr "value" (form.(cfg_name));
                    OnChange ChangeName] []] ::
     El "label" [cls "block mb-4"]
       [El "span" [cls "text-xs font-medium text-txt-2"] [Txt "Number of Workers"];
        El "input" [Attr "type" "number"; Attr "min" "1";
                    cls "mt-1.5 block w-full bg-surface-0 border border-line rounded-lg px-3 py-2 text-sm text-txt-1 focus:outline-none focus:ring-1 focus:ring-brand-violet focus:border-brand-violet transition-colors";
                    Attr "value" (to_string (of_Z form.(num_workers))); OnChange ChangeWorkers] []] ::
     El "label" [cls "block mb-6"]
       [El "span" [cls "text-xs font-medium text-txt-2"] [Txt "Checkpoint Interval (steps)"];
        El "input" [Attr "type" "number"; Attr "min" "1";
                    cls "mt-1.5 block w-full bg-surface-0 border border-line rounded-lg px-3 py-2 text-sm text-txt-1 focus:outline-none focus:ring-1 focus:ring-brand-violet focus:border-brand-violet transition-colors";
                    Attr "value" (to_string (of_Z form.(checkpoint_interval_steps)));
                    OnChange ChangeInterval] []] ::
     El "div" [cls "flex justify-end gap-3"]
       [El "button" [OnClick CloseModal; cls "btn-ghost"] [Txt "Cancel"];
        El "button" [Flag "disabled" (m.(submitting) || blank form.(cfg_name)); OnClick Submit;
                     cls "btn-primary disabled:opacity-40 disabled:cursor-not-allowed"]
          [(if m.(submitting) then Txt "Creating…" else Txt "Create Run")]] ::
     []).

Definition NewRunModal (m : modal) : node msg :=
  El "div" [cls "fixed inset-0 z-50 flex items-center justify-center bg-black/70 backdrop-blur-sm";
            OnClick CloseModal]
    [modal_panel m].

Definition run_row (run : run_status) : node msg :=
  let in_state s := bool_decide (run.(state) = s) in
  let stateConfig := RUN_STATE_CONFIG run.(state) in
  El "tr" [Key (run.(run_id)); cls "hover:bg-surface-2/50 transition-colors"]
    [El "td" [cls "table-cell"]
       [El "Link" [Attr "to" ("/runs/" +:+ run.(run_id));
                   cls "text-brand-violet hover:text-brand-blue font-medium transition-colors"]
          [Txt (if (run.(run_name) =? "")%string then "(unnamed)" else run.(run_name))]];
     El "td" [cls "table-cell text-txt-3 font-mono text-xs"]
       [Txt (shortId_default run.(run_id))];
     El "td" [cls "table-cell"] [RunBadge run.(state) Sm];
     El "td" [cls "table-cell text-txt-2 font-mono"] [Txt (locale_int run.(current_step))];
     El "td" [cls "table-cell text-txt-2"]
       [El "span" [cls "flex items-center gap-1.5"]
          [El "span" [cls ("w-1.5 h-1.5 rounded-full " +:+ stateConfig.(rs_dot))] [];
           Txt (dec run.(active_workers))]];
     El "td" [cls "table-cell text-txt-3 text-xs"] [Txt (formatDate run.(created_at))];
     El "td" [cls "table-cell text-right"]
       [El "div" [cls "flex items-center justify-end gap-1.5"]
          (when (in_state CREATED || in_state COMMITTED) (
             El "button" [OnClick (PostAction run.(run_id) AStart);
                          cls "px-2.5 py-1 text-2xs font-medium rounded-md bg-ok-muted text-ok hover:bg-ok/20 transition-colors"]
               [Txt "Start"]) ++
           when ((in_state RUNNING || in_state CHECKPOINTING) || in_state RECOVERING) (
             El "button" [OnClick (PostAction run.(run_id) ACancel); cls "btn-danger text-2xs"]
               [Txt "Cancel"]) ++
           El "Link" [Attr "to" ("/runs/" +:+ run.(run_id));
                      cls "px-2.5 py-1 text-2xs font-medium rounded-md bg-surface-3 text-txt-2 hover:text-txt-1 hover:bg-surface-3/80 transition-colors"]
             [Txt "View"] ::
           [])]].

Definition runs_table (p : page) : node msg :=
  El "div" [cls "card overflow-hidden"]
    [El "table" [cls "min-w-full"]
       [El "thead" []
          [El "tr" [cls "border-b border-line"]
             [El "th" [cls "table-header"] [Txt "Name"];
              El "th" [cls "table-header"] [Txt "Run ID"];
              El "th" [cls "table-header"] [Txt "State"];
              El "th" [cls "table-header"] [Txt "Step"];
              El "th" [cls "table-header"] [Txt "Workers"];
              El "th" [cls "table-header"] [Txt "Created"];
              El "th" [cls "table-header text-right"] [Txt "Actions"]]];
        El "tbody" [cls "divide-y divide-line-subtle"]
          (map run_row p.(runs))]].

(** [!error]: no message, or an empty one *)
Definition no_error (p : page) : bool :=
  match p.(error) with Some e => (e =? "")%string | None => true end.

Definition RunsPage (p : page) : node msg :=
  El "div" []
    (SectionHeader "Training Runs" (Some "Manage training runs and monitor checkpoint progress.")
       [El "button" [OnClick OpenNewRun; cls "btn-primary"] [Txt "+ New Run"]] ::
     when_some p.(showNewRun) NewRunModal ++
     when_text p.(error) (fun error => ErrorBanner error) ++
     when p.(loading) (Loading "Loading runs...") ++
     when (negb p.(loading) && (Z.of_nat (length p.(runs)) =? 0) && no_error p)
       (EmptyState "No training runs found."
          [El "button" [OnClick OpenNewRun; cls "text-sm text-brand-violet hover:text-brand-blue transition-colors"]
             [Txt "Create your first run"]]) ++
     when (negb p.(loading) && (0 <? Z.of_nat (length p.(runs)))) (runs_table p)).
End Views.

(** ** The offered actions *)

(** The buttons of a row, per state of its run. *)
Definition row_actions (s : run_state) : list run_action :=
  match s with
  | CREATED | COMMITTED => [AStart]
  | RUNNING | CHECKPOINTING | RECOVERING => [ACancel]
  | FAILED | CANCELLED | COMPLETED => []
  end.

Section Offers.
Context `{Intl}.

Lemma run_row_offers r : offers (run_row r) = map (PostAction r.(run_id)) (row_actions r.(state)).
Proof.
  unfold run_row. rewrite !offers_el. destruct (state r); reflexivity.
Qed.

Lemma modal_panel_offers m :
  offers (modal_panel m) =
    CloseModal :: (if m.(submitting) || blank m.(form).(cfg_name) then [] else [Submit]).
Proof.
  unfold modal_panel. rewrite offers_el, !offers_list_cons, offers_list_app.
  assert (offers_list (when_text m.(m_error) (fun error =>
       El "div" [cls "mb-4 text-sm text-err bg-err-muted border border-err/20 rounded-lg px-3 py-2"]
         [Txt error])) = @nil msg) as ->
    by (destruct (m_error m) as [e|]; cbn [when_text]; [destruct (e =? "")%string|]; done).
  cbn. destruct (submitting m || blank (cfg_name (form m))), (submitting m); done.
Qed.

Lemma runs_table_offers p :
  offers (runs_table p) =
    p.(runs) ≫= fun r => map (PostAction r.(run_id)) (row_actions r.(state)).
Proof.
  unfold runs_table. rewrite !offers_el. cbn. rewrite !app_nil_r.
  unfold offers_list. induction (runs p) as [|r l IH]; [done|].
  cbn [map]. change (mbind offers (run_row r :: map run_row l)) with
    (offers (run_row r) ++ mbind offers (map run_row l)).
  rewrite run_row_offers. cbn [mbind list_bind]. f_equal. exact IH.
Qed.

(** Everything the page offers to click, in document order. *)
Lemma RunsPage_offers p :
  offers (RunsPage p) =
    OpenNewRun ::
    match p.(showNewRun) with
    | Some m => CloseModal :: CloseModal ::
                (if m.(submitting) || blank m.(form).(cfg_name) then [] else [Submit])
    | None => []
    end ++
    (if p.(loading) then []
     else match p.(runs) with
          | [] => if no_error p then [OpenNewRun] else []
          | rs => rs ≫= fun r => map (PostAction r.(run_id)) (row_actions r.(state))
          end).
Proof.
  unfold RunsPage. rewrite offers_el, offers_list_cons, !offers_list_app, !offers_list_when.
  rewrite offers_SectionHeader, offers_EmptyState, runs_table_offers, offers_Loading.
  assert (offers_list (when_text (error p) (fun error => ErrorBanner error)) = @nil msg) as ->
    by (destruct (error p) as [e|]; cbn [when_text]; [destruct (e =? "")%string|]; done).
  assert (offers_list (when_some (showNewRun p) NewRunModal) =
    match p.(showNewRun) with
    | Some m => CloseModal :: CloseModal ::
                (if m.(submitting) || blank m.(form).(cfg_name) then [] else [Submit])
    | None => []
    end) as ->.
  { destruct (showNewRun p) as [m|]; [|done]. cbn [when_some].
    rewrite offers_list_cons. unfold NewRunModal. rewrite offers_el, offers_list_cons.
    rewrite modal_panel_offers. cbn. by rewrite !app_nil_r. }
  cbn [own_clicks app]. f_equal. cbn [offers_list offers].
  destruct (loading p); cbn [negb andb]; [done|].
  by destruct (runs p) as [|r l]; cbn; destruct (no_error p); cbn.
Qed.
End Offers.

(** in every state of a run, its row offers exactly Start (created or committed) or
    Cancel (running, checkpointing or recovering), posted for that run; a finished or
    failed run offers nothing. *)
Theorem run_row_actions `{Intl} (r : run_status) (m : msg) :
  m ∈ offers (run_row r) <->
  (m = PostAction r.(run_id) AStart /\ (r.(state) = CREATED \/ r.(state) = COMMITTED)) \/
  (m = PostAction r.(run_id) ACancel /\
     (r.(state) = RUNNING \/ r.(state) = CHECKPOINTING \/ r.(state) = RECOVERING)).
Proof.
  rewrite run_row_offers, list_elem_of_fmap.
  split.
  - intros (a & -> & Ha). destruct (state r); cbn in Ha; rewrite ?list_elem_of_singleton in Ha;
      solve [subst; tauto|inversion Ha].
  - intros [[-> [->| ->]]|[-> [->|[->| ->]]]]; eexists; (split; [done|]); cbn; set_solver.
Qed.

(** ** The modal's clicks *)

(** The footer follows the title, the error when one is shown, and three inputs. *)
Definition footer (m : modal) : nat :=
  match m.(m_error) with Some e => if (e =? "")%string then 4 else 5 | None => 4 end%nat.

(** a click on the backdrop closes the new-run modal; a click anywhere inside the
    panel never reaches the backdrop: it closes the modal only on the Cancel button,
    submits only on the enabled Create button, and otherwise does nothing. *)
Theorem modal_clicks (m : modal) (path : list nat) :
  click [] (NewRunModal m) = ([CloseModal], true) /\
  click (0%nat :: path) (NewRunModal m) =
    (match path with
     | i :: j :: _ =>
         if (i =? footer m)%nat then
           match j with
           | O => [CloseModal]
           | 1%nat => if m.(submitting) || blank m.(form).(cfg_name) then [] else [Submit]
           | _ => []
           end
         else []
     | _ => []
     end, false).
Proof.
  split; [done|].
  assert (S : snd (click path (modal_panel m)) = false) by (apply click_stopped; done).
  change (click (0%nat :: path) (NewRunModal m)) with
    (let inner := click path (modal_panel m) in
     if snd inner then (fst inner ++ [CloseModal], true) else inner).
  cbv zeta. rewrite S, (surjective_pairing (click path (modal_panel m))), S. f_equal. clear S.
  unfold footer, modal_panel.
  destruct (m_error m) as [e|]; cbn [when_text]; [destruct (e =? "")%string|];
  destruct path as [|i [|j path]]; try reflexivity;
  do 7 try (destruct i as [|i]; try reflexivity);
  destruct j as [|[|j]]; try reflexivity;
  destruct path as [|[|k] path]; try reflexivity;
  cbn; destruct (submitting m); cbn; try destruct (blank _); reflexivity.
Qed.

(** ** The list of runs after any history *)

(** The page after a sequence of messages. *)
Definition run_messages (ms : list msg) (p : page) : page :=
  foldl (fun p m => fst (update m p)) p ms.

(** The settled list fetches of a sequence, each as the value or the error it had. *)
Definition fetches (ms : list msg) : list (exn + list run_status) :=
  omap (fun m => match m with RunsSettled o => Some (fetch_result status_line o) | _ => None end) ms.

Definition right {A B} (r : A + B) : option B := match r with inr b => Some b | inl _ => None end.

Lemma fetchRuns_spec o p :
  handle (fetchRuns o) p =
    (match fetch_result status_line o with
     | inr data => Page data false None p.(showNewRun) p.(mounted)
     | inl e => Page p.(runs) false (Some (message_or "Failed to fetch runs" e)) p.(showNewRun) p.(mounted)
     end, []).
Proof.
  destruct o as [e|r]; [done|].
  unfold handle, run, fetchRuns, finally_on, finally, catch, bind, await, fetch_result, check_ok.
  destruct (res_ok r); [|done]. by destruct (res_json r).
Qed.

(** What the fetches determine. *)
Definition fetched (p : page) : list run_status * bool * option string :=
  (p.(runs), p.(loading), p.(error)).

Lemma fetched_on_current f p : fetched (on_current f p) = fetched p.
Proof. unfold on_current. by destruct (showNewRun p). Qed.
Lemma fetched_on_modal i f p : fetched (on_modal i f p) = fetched p.
Proof. unfold on_modal. destruct (showNewRun p) as [m|]; [|done]. by destruct (instance m =? i)%nat. Qed.
Lemma fetched_open_modal p : fetched (open_modal p) = fetched p.
Proof. unfold open_modal. by destruct (showNewRun p). Qed.
Lemma fetched_submit p : fetched (fst (submit p)) = fetched p.
Proof. unfold submit. destruct (showNewRun p); [|done]. apply fetched_on_modal. Qed.

(** The settling of a creation, by its result. *)
Lemma submit_settled_spec i o p :
  handle (submit_settled i o) p =
    match match o with
          | inl e => inl e
          | inr r => if res_ok r then inr tt else inl (Error (status_line r))
          end with
    | inr _ => (on_modal i (set_submitting false) (set_modal None p), [FetchRuns])
    | inl e =>
        (on_modal i (set_submitting false)
           (on_modal i (set_m_error (Some (message_or "Failed to create run" e))) p), [])
    end.
Proof.
  destruct o as [e|r]; [done|].
  unfold handle, run, submit_settled, finally_on, finally, catch, bind, await, check_ok.
  by destruct (res_ok r).
Qed.

Lemma fetched_submit_settled i o p : fetched (fst (handle (submit_settled i o) p)) = fetched p.
Proof.
  rewrite submit_settled_spec. destruct o as [e|r]; [|destruct (res_ok r)];
    cbn [fst]; by rewrite !fetched_on_modal.
Qed.

Lemma action_settled_page o p : fst (handle (action_settled o) p) = p.
Proof.
  destruct o as [e|r]; [done|].
  unfold handle, run, action_settled, catch, bind, await, check_ok. by destruct (res_ok r).
Qed.

(** Messages other than a settled fetch leave the fetched state alone. *)
Lemma update_other m p : (forall o, m <> RunsSettled o) -> fetched (fst (update m p)) = fetched p.
Proof.
  intros H. destruct m; cbn [update fst];
    rewrite ?fetched_on_current, ?fetched_open_modal, ?fetched_submit, ?fetched_submit_settled,
      ?action_settled_page; try done. by destruct (H o).
Qed.

(** whatever else happened on the page, it shows the runs of the last fetch that
    succeeded (a failed poll never discards them), an error exactly when the last fetch
    failed, and the loading indicator exactly until the first fetch has settled. *)
Theorem runs_page_history (ms : list msg) :
  let p := run_messages ms init_page in
  p.(runs) = default [] (last (omap right (fetches ms))) /\
  p.(error) = match last (fetches ms) with
              | Some (inl e) => Some (message_or "Failed to fetch runs" e)
              | _ => None
              end /\
  p.(loading) = bool_decide (fetches ms = []).
Proof.
  induction ms as [|m ms IH] using rev_ind; [done|].
  unfold run_messages, fetches in *. rewrite foldl_app, omap_app. cbn [foldl].
  set (p := foldl _ init_page ms) in *. set (fs := omap _ ms) in *. cbn zeta in IH |- *.
  destruct IH as (IHr & IHe & IHl).
  assert ((exists o, m = RunsSettled o) \/ (forall o, m <> RunsSettled o)) as [(o & ->)|N]
    by (destruct m; first [by left; eexists|by right]).
  - cbn [omap list_omap update]. rewrite fetchRuns_spec. cbn [fst].
    rewrite omap_app, last_snoc. rewrite (bool_decide_eq_false_2 (fs ++ _ = [])) by (by destruct fs).
    destruct (fetch_result status_line o) as [e|data]; cbn [omap list_omap right].
    + by rewrite app_nil_r.
    + by rewrite last_snoc.
  - assert (F : fetched (fst (update m p)) = fetched p) by (by apply update_other).
    injection F as -> -> ->.
    assert (omap (fun m => match m with RunsSettled o => Some (fetch_result status_line o) | _ => None end) [m]
            = []) as -> by (destruct m; try done; by destruct (N o)).
    by rewrite app_nil_r.
Qed.

(** ** One creation request per form

    The page together with the creation requests that have not settled, each named by
    the modal instance that sent it. *)
Record world : Type := World { w_page : page; in_flight : list nat }.

Definition creations (es : list effect) : list nat :=
  omap (fun e => match e with PostRun i _ => Some i | _ => None end) es.

Definition act (m : msg) (w : world) : world :=
  let '(p, es) := update m w.(w_page) in World p (w.(in_flight) ++ creations es).

Section Submissions.
Context `{Intl}.

(** What can happen next: a click on an element that is shown and enabled, an input
    of the form, the poll, or the settling of a request. *)
Inductive step (w : world) : world -> Prop :=
| step_click m : m ∈ offers (RunsPage w.(w_page)) -> step w (act m w)
| step_name v : step w (act (ChangeName v) w)
| step_workers v : step w (act (ChangeWorkers v) w)
| step_interval v : step w (act (ChangeInterval v) w)
| step_poll : step w (act Poll w)
| step_runs o : step w (act (RunsSettled o) w)
| step_action o : step w (act (ActionSettled o) w)
| step_create pre i post o :
    w.(in_flight) = pre ++ i :: post ->
    step w (act (CreateSettled i o) (World w.(w_page) (pre ++ post))).

Definition reachable (w : world) : Prop := rtc step (World init_page []) w.

(** What the page offers, by kind. *)
Lemma offered m p :
  m ∈ offers (RunsPage p) ->
  m = OpenNewRun \/ m = CloseModal \/ (exists id a, m = PostAction id a) \/
  (m = Submit /\ exists md, p.(showNewRun) = Some md /\ md.(submitting) = false /\
     blank md.(form).(cfg_name) = false).
Proof.
  rewrite RunsPage_offers, elem_of_cons, elem_of_app. intros [->|[Hm|Hm]]; [tauto| |].
  - destruct (showNewRun p) as [md|]; [|inversion Hm].
    rewrite !elem_of_cons in Hm. destruct Hm as [->|[->|Hm]]; [tauto|tauto|].
    destruct (submitting md) eqn:S, (blank (cfg_name (form md))) eqn:B; cbn [orb] in Hm;
      try by inversion Hm.
    apply list_elem_of_singleton in Hm as ->. eauto 10.
  - destruct (loading p); [inversion Hm|]. destruct (runs p) as [|r rs].
    + destruct (no_error p); [|inversion Hm]. apply list_elem_of_singleton in Hm as ->. tauto.
    + rewrite list_elem_of_bind in Hm. destruct Hm as (r' & Hm & _).
      apply list_elem_of_fmap in Hm as (a & -> & _). eauto 10.
Qed.

(** A mounted modal is submitting exactly while its own request is in flight. *)
Record consistent (w : world) : Prop := {
  cs_nodup : NoDup w.(in_flight);
  cs_bound : Forall (fun i => i < w.(w_page).(mounted))%nat w.(in_flight);
  cs_modal m : w.(w_page).(showNewRun) = Some m ->
    (m.(instance) < w.(w_page).(mounted))%nat /\
    (m.(submitting) = true <-> m.(instance) ∈ w.(in_flight))
}.

(** Steps that keep the modal's identity and status, and send no creation. *)
Lemma consistent_same (p p' : page) l :
  consistent (World p l) -> p'.(mounted) = p.(mounted) ->
  (forall m', p'.(showNewRun) = Some m' -> exists m, p.(showNewRun) = Some m /\
     m'.(instance) = m.(instance) /\ m'.(submitting) = m.(submitting)) ->
  consistent (World p' l).
Proof.
  intros [Hn Hb Hm] E F. split; cbn in *; [done|by rewrite E|].
  intros m' H'. destruct (F m' H') as (m & Hm0 & -> & ->). rewrite E. by apply Hm.
Qed.

Lemma consistent_current f p l :
  (forall m, instance (f m) = instance m /\ submitting (f m) = submitting m) ->
  consistent (World p l) -> consistent (World (on_current f p) l).
Proof.
  intros Hf C. eapply consistent_same; [exact C| |]; unfold on_current;
    destruct (showNewRun p) as [m|] eqn:E; cbn; try done.
  - intros ? [= <-]. exists m. by destruct (Hf m).
  - intros m'. rewrite E. done.
Qed.

Lemma consistent_close p l : consistent (World p l) -> consistent (World (set_modal None p) l).
Proof. intros C. by eapply consistent_same; [exact C| |]. Qed.

Lemma consistent_open p l : consistent (World p l) -> consistent (World (open_modal p) l).
Proof.
  unfold open_modal. intros C. destruct (showNewRun p) as [m|] eqn:E; [done|].
  destruct C as [Hn Hb Hm]. split; cbn in *; [done| |].
  - eapply Forall_impl; [exact Hb|]. cbn. lia.
  - intros ? [= <-]. cbn. split; [lia|]. split; [done|].
    intros Hin. rewrite Forall_forall in Hb. specialize (Hb _ Hin). lia.
Qed.

Lemma submit_spec p m :
  p.(showNewRun) = Some m ->
  submit p = (set_modal (Some (set_m_error None (set_submitting true m))) p,
              [PostRun m.(instance) m.(form)]).
Proof.
  intros E. unfold submit. rewrite E. unfold handle, run, bind, on, emit, modify, on_modal.
  cbn. rewrite E. by rewrite Nat.eqb_refl.
Qed.

Lemma consistent_submit p m l :
  p.(showNewRun) = Some m -> m.(submitting) = false ->
  consistent (World p l) -> consistent (act Submit (World p l)).
Proof.
  intros E S [Hn Hb Hm]. unfold act. cbn [update w_page in_flight]. rewrite (submit_spec _ _ E).
  cbn in *. destruct (Hm m E) as [Lm Im]. rewrite S in Im.
  assert (Hni : instance m ∉ l) by (intros Hi; by apply Im in Hi).
  split; cbn.
  - apply NoDup_app. split_and!; [done| |apply NoDup_singleton].
    intros x Hx Hx'. apply list_elem_of_singleton in Hx' as ->. done.
  - apply Forall_app. by repeat constructor.
  - intros ? [= <-]. cbn. split; [done|]. rewrite elem_of_app, list_elem_of_singleton. tauto.
Qed.

Lemma consistent_settle p pre i post o :
  consistent (World p (pre ++ i :: post)) ->
  consistent (act (CreateSettled i o) (World p (pre ++ post))).
Proof.
  intros [Hn Hb Hm]. cbn in *.
  assert (N : NoDup (pre ++ post) /\ i ∉ pre ++ post) by (rewrite <- Permutation_middle in Hn;
    inversion Hn; subst; done).
  assert (B : Forall (fun i => i < mounted p)%nat (pre ++ post))
    by (rewrite Forall_app, Forall_cons in Hb; rewrite Forall_app; tauto).
  unfold act. cbn [update w_page in_flight]. rewrite submit_settled_spec.
  destruct (match o with inl e => inl e | inr r => _ end) as [e|[]]; cbn; rewrite ?app_nil_r.
  - unfold on_modal. destruct (showNewRun p) as [m|] eqn:E.
    + destruct (Hm m eq_refl) as [Lm Im]. rewrite elem_of_app, elem_of_cons in Im.
      destruct (instance m =? i)%nat eqn:Ei; cbn; rewrite ?E; cbn; rewrite ?Ei.
      * apply Nat.eqb_eq in Ei. split; cbn; [tauto|done|]. intros ? [= <-]. cbn.
        split; [done|]. split; [done|]. intros Hin. destruct N as [_ N]. by rewrite Ei in Hin.
      * apply Nat.eqb_neq in Ei. split; cbn; [tauto|done|]. rewrite E. intros ? [= <-].
        split; [done|]. rewrite Im, elem_of_app. tauto.
    + cbn. rewrite E. split; cbn; [tauto|done|]. rewrite E. done.
  - split; cbn; [tauto|done|done].
Qed.

Lemma consistent_step w w' : step w w' -> consistent w -> consistent w'.
Proof.
  destruct w as [p l]. intros S C. destruct S as [m Hm|v|v|v| |o|o|pre i post o E];
    cbn [w_page in_flight] in *; unfold act; cbn [update w_page in_flight creations].
  2-4: rewrite app_nil_r; apply consistent_current; done.
  - apply offered in Hm as [->|[->|[(id & a & ->)|(-> & md & E & S & _)]]]; cbn [update].
    + cbn. rewrite app_nil_r. by apply consistent_open.
    + cbn. rewrite app_nil_r. by apply consistent_close.
    + cbn. by rewrite app_nil_r.
    + by apply (consistent_submit _ md).
  - cbn. by rewrite app_nil_r.
  - rewrite fetchRuns_spec. cbn. rewrite app_nil_r. eapply consistent_same; [exact C| |];
      destruct (fetch_result status_line o); cbn; eauto.
  - pose proof (action_settled_page o p) as A. destruct (handle (action_settled o) p) as [p' es] eqn:F.
    cbn in A. subst p'.
    assert (creations es = []) as ->; [|by rewrite app_nil_r].
    revert F. unfold handle, run, action_settled, catch, bind, await, check_ok.
    destruct o as [e|r]; [|destruct (res_ok r)]; cbn; by intros [= <-].
  - rewrite E in C. by apply consistent_settle.
Qed.
End Submissions.

(** C33: no form is ever submitted twice at a time, and none with a blank name: in every
    reachable situation the creation requests in flight belong to distinct forms, and a
    click that sends one comes from a form that has none in flight and whose name is
    not blank. *)
Theorem one_creation_per_form `{Intl} (w : world) :
  reachable w ->
  NoDup w.(in_flight) /\
  (forall m i body, m ∈ offers (RunsPage w.(w_page)) -> PostRun i body ∈ snd (update m w.(w_page)) ->
    (i ∉ w.(in_flight)) /\ blank body.(cfg_name) = false).
Proof.
  intros R.
  assert (C : consistent w).
  { revert R. unfold reachable. apply rtc_ind_r.
    - split; cbn; [constructor|constructor|done].
    - intros y z _ S C. by eapply consistent_step. }
  split; [apply C|]. intros m i body Hm Hp.
  apply offered in Hm as [->|[->|[(id & a & ->)|(-> & md & E & S & B)]]].
  - inversion Hp.
  - inversion Hp.
  - by apply list_elem_of_singleton in Hp.
  - cbn [update] in Hp. rewrite (submit_spec _ _ E) in Hp. cbn in Hp.
    apply list_elem_of_singleton in Hp as [= -> ->]. split; [|done].
    destruct (cs_modal _ C md E) as [_ I]. rewrite S in I. intros Hi. by apply I in Hi.
Qed.

(** when a creation settles, success refreshes the list and closes whichever form is
    open, its own or a newer one; failure shows its message in its own form, which can
    be submitted again, and changes nothing when that form is gone. *)
Theorem creation_settled (i : nat) (o : outcome unit) (p : page) (m : modal) :
  p.(showNewRun) = Some m ->
  update (CreateSettled i o) p =
    match o with
    | inr r =>
        if res_ok r then (set_modal None p, [FetchRuns])
        else (if (instance m =? i)%nat
              then set_modal (Some (Modal i m.(form) false (Some (status_line r)))) p else p, [])
    | inl e =>
        (if (instance m =? i)%nat
         then set_modal (Some (Modal i m.(form) false (Some (message_or "Failed to create run" e)))) p
         else p, [])
    end.
Proof.
  intros E. cbn [update]. rewrite submit_settled_spec.
  assert (F : forall e, on_modal i (set_submitting false) (on_modal i (set_m_error e) p) =
    if (instance m =? i)%nat then set_modal (Some (Modal i m.(form) false e)) p else p).
  { intros e. unfold on_modal. rewrite E. destruct (instance m =? i)%nat eqn:Ei; cbn.
    - rewrite Ei. apply Nat.eqb_eq in Ei as <-. done.
    - by rewrite E, Ei. }
  destruct o as [e|r]; [|destruct (res_ok r)]; by rewrite ?F.
Qed.

(** ** Keys *)

(** the rows have distinct keys whenever the server's run ids are distinct, and no
    other element of the page repeats a key. *)
Theorem RunsPage_keys `{Intl} (p : page) :
  NoDup (map run_id p.(runs)) -> keys_ok (RunsPage p).
Proof.
  intros N.
  assert (T : Forall keys_ok (map run_row p.(runs))).
  { apply Forall_map, Forall_true. intros r. unfold compose, run_row.
    destruct (state r); cbn; repeat (split || constructor). }
  unfold RunsPage. apply keys_ok_el. split.
  - destruct (showNewRun p), (error p) as [e|], (loading p), (runs p), (no_error p); cbn;
      try destruct (e =? "")%string; cbn; constructor.
  - constructor; [cbn; repeat (split || constructor)|]. rewrite !Forall_app. split_and!.
    + destruct (showNewRun p) as [m|]; cbn [when_some]; [|constructor]. constructor; [|constructor].
      unfold NewRunModal, modal_panel. destruct (m_error m) as [e|]; cbn [when_text];
        [destruct (e =? "")%string|]; destruct (submitting m); cbn; repeat (split || constructor).
    + destruct (error p) as [e|]; cbn [when_text]; [destruct (e =? "")%string|]; repeat constructor.
    + destruct (loading p); repeat constructor.
    + destruct (negb _ && _ && _)%bool; repeat constructor.
    + destruct (negb _ && _)%bool; [|constructor]. constructor; [|constructor].
      unfold runs_table. rewrite keys_ok_el. split; [constructor|].
      constructor; [|constructor]. rewrite keys_ok_el. split; [constructor|].
      constructor; [cbn; repeat (split || constructor)|]. constructor; [|constructor].
      change (keys_ok (El "tbody" [cls "divide-y divide-line-subtle"] (map run_row (runs p)))).
      rewrite keys_ok_el. split; [|exact T]. by rewrite (sibling_keys_map _ run_id).
Qed.

(** ** Witnesses *)

Definition sample_run (id : string) (s : run_state) : run_status :=
  RunStatus id "train" s 150 4 "2024-01-01T00:00:00Z" "2024-01-01T00:00:00Z" None.

Lemma runs_page_keys_witness :
  keys_ok (RunsPage (fst (update (RunsSettled (inr (Response 200 "OK"
    (inr [sample_run "r1" RUNNING; sample_run "r2" FAILED])))) init_page))).
Proof.
  apply RunsPage_keys. vm_compute. apply NoDup_cons. split; [|apply NoDup_singleton].
  intros H. by apply list_elem_of_singleton in H.
Defined.

Lemma creation_settled_witness :
  let p := run_messages [OpenNewRun; ChangeName "a"; Submit; CloseModal; OpenNewRun; ChangeName "b"] init_page in
  option_map instance p.(showNewRun) = Some 1%nat /\
  update (CreateSettled 0 (inr (Response 201 "Created" (inr tt)))) p = (set_modal None p, [FetchRuns]).
Proof. split; [reflexivity|]. 
  exact (creation_settled 0 (inr (Response 201 "Created" (inr tt)))
    (run_messages [OpenNewRun; ChangeName "a"; Submit; CloseModal; OpenNewRun; ChangeName "b"] init_page)
    (Modal 1 (RunConfig "b" 4 1000) false None) eq_refl).
Defined.

Lemma one_creation_per_form_witness :
  let w := act (ChangeName "a") (act OpenNewRun (World init_page [])) in
  reachable w /\ Submit ∈ offers (RunsPage w.(w_page)) /\ 0%nat ∉ w.(in_flight).
Proof.
  set (w := act (ChangeName "a") (act OpenNewRun (World init_page []))).
  assert (R : reachable w).
  { eapply rtc_l; [apply (step_click _ OpenNewRun); vm_compute; left|].
    apply rtc_once, step_name. }
  assert (O : Submit ∈ offers (RunsPage w.(w_page))) by (vm_compute; right; right; right; left).
  cbv zeta. split_and!; [exact R|exact O|].
  refine (proj1 (proj2 (one_creation_per_form w R) Submit 0%nat
            (RunConfig "a" 4 1000) O _)).
  vm_compute. left.
Defined.
