(* ===== verification/RunDetail.v ===== *)
(** * The run page: [frontend/src/pages/RunDetailPage.tsx]

    One run with its checkpoints, its action buttons and its event stream. [fetchData]
    waits three times: for both responses, for the body of the run, and for the body of
    the checkpoints. Other handlers run in between, so it is three handlers here, the
    later ones started by the effects of the earlier. *)

From S2P Require Import Prelude JsString JsNum Html Types Host Async Design Ui ControlPlane.

(** ** State *)

Record page : Type := Page {
  (** the route parameter *)
  id : option string;
  run : option run_status;
  checkpoints : list checkpoint_info;
  events : list run_event;
  loading : bool;
  error : option string
}.

Definition set_id (i : option string) (p : page) : page :=
  Page i p.(run) p.(checkpoints) p.(events) p.(loading) p.(error).
Definition set_run (r : run_status) (p : page) : page :=
  Page p.(id) (Some r) p.(checkpoints) p.(events) p.(loading) p.(error).
Definition set_checkpoints (cs : list checkpoint_info) (p : page) : page :=
  Page p.(id) p.(run) cs p.(events) p.(loading) p.(error).
Definition set_events (es : list run_event) (p : page) : page :=
  Page p.(id) p.(run) p.(checkpoints) es p.(loading) p.(error).
Definition set_error (e : option string) (p : page) : page :=
  Page p.(id) p.(run) p.(checkpoints) p.(events) p.(loading) e.
Definition set_loaded (p : page) : page :=
  Page p.(id) p.(run) p.(checkpoints) p.(events) false p.(error).

(** ** Messages and effects *)

Inductive msg : Type :=
| Poll
| Navigate (id : option string)
| Responses (o : exn + response run_status * response (list checkpoint_info))
| RunBody (body : exn + run_status) (ckptRes : response (list checkpoint_info))
| CheckpointsBody (body : exn + list checkpoint_info)
| Sse (name data timestamp : string)
| PostAction (a : run_action)
| ActionSettled (o : outcome unit).

Inductive effect : Type :=
| FetchBoth (id : string)
| ReadRun (runRes : response run_status) (ckptRes : response (list checkpoint_info))
| ReadCheckpoints (ckptRes : response (list checkpoint_info))
| Subscribe (id : string)
| CloseStream
| PostRunAction (id : string) (a : run_action)
| Alert (message : string).

(** ** Handlers *)

(** [fetchData()] up to its first [await]; an empty id is falsy. *)
Definition fetchData (p : page) : list effect :=
  match p.(id) with
  | Some i => if (i =? "")%string then [] else [FetchBoth i]
  | None => []
  end.

(** The [catch] and [finally] blocks of [fetchData], around each of its parts. *)
Definition guarded (m : M (page * list effect) unit) : M (page * list effect) unit :=
  catch m (fun e => on (set_error (Some (message_or "Fetch failed" e))) ;; on set_loaded).

Definition responses_settled (o : exn + response run_status * response (list checkpoint_info)) :
    M (page * list effect) unit :=
  guarded
    (let* (runRes, ckptRes) := await o in
     check_ok runRes ("Run: " +:+ dec (res_status runRes)) ;;
     check_ok ckptRes ("Checkpoints: " +:+ dec (res_status ckptRes)) ;;
     emit (ReadRun runRes ckptRes)).

Definition run_read (body : exn + run_status) (ckptRes : response (list checkpoint_info)) :
    M (page * list effect) unit :=
  guarded
    (let* r := await body in
     on (set_run r) ;;
     emit (ReadCheckpoints ckptRes)).

Definition checkpoints_read (body : exn + list checkpoint_info) : M (page * list effect) unit :=
  guarded
    (let* cs := await body in
     on (set_checkpoints cs) ;;
     on (set_error None) ;;
     on set_loaded).

Definition push_event (type data timestamp : string) (p : page) : page :=
  set_events (Slice.slice (-199) None p.(events) ++ [RunEvent type data timestamp]) p.

(** The listeners of the [EventSource]: a message without an event name is named
    [message]; a name nobody listens to is dropped. *)
Definition sse (name data timestamp : string) (p : page) : page * list effect :=
  if (name =? "message")%string then (push_event "message" data timestamp p, [])
  else if (name =? "state_change")%string
  then (push_event "state_change" data timestamp p, fetchData p)
  else if (name =? "checkpoint")%string
  then (push_event "checkpoint" data timestamp p, fetchData p)
  else if (name =? "error_event")%string
  then (push_event "error" data timestamp p, [])
  else (p, []).

(** [postAction] up to its [await], and from there on. *)
Definition post_action (a : run_action) (p : page) : list effect :=
  match p.(id) with
  | Some i => if (i =? "")%string then [] else [PostRunAction i a]
  | None => []
  end.
Definition action_settled (o : outcome unit) (p : page) : page * list effect :=
  handle
    (catch
       (let* res := await o in
        check_ok res (status_line res) ;;
        modify (fun '(p, es) => (p, es ++ fetchData p)))
       (fun e => emit (Alert (message_or "Action failed" e)))) p.

(** The effects of a new id: close the stream, fetch, and subscribe again. *)
Definition subscribe (p : page) : list effect :=
  match p.(id) with
  | Some i => if (i =? "")%string then [] else [Subscribe i]
  | None => []
  end.

Definition update (m : msg) (p : page) : page * list effect :=
  match m with
  | Poll => (p, fetchData p)
  | Navigate i =>
      let p' := set_id i p in
      (p', (match subscribe p with [] => [] | _ => [CloseStream] end) ++ fetchData p' ++ subscribe p')
  | Responses o => handle (responses_settled o) p
  | RunBody b c => handle (run_read b c) p
  | CheckpointsBody b => handle (checkpoints_read b) p
  | Sse name data t => sse name data t p
  | PostAction a => (p, post_action a p)
  | ActionSettled o => action_settled o p
  end.

Definition init_page (i : option string) : page := Page i None [] [] true None.
Definition mount (i : option string) : page * list effect :=
  let p := init_page i in (p, fetchData p ++ subscribe p).

(** ** View *)

(** [text || fallback] *)
Definition or_text (t fallback : string) : string := if (t =? "")%string then fallback else t.

Section View.
Context `{Intl} `{MathLib}.

Definition breadcrumb (run : run_status) : node msg :=
    El "div" [cls "mb-4 flex items-center gap-2 text-xs text-txt-3"]
      [El "Link" [Attr "to" "/runs"; cls "hover:text-brand-violet transition-colors"]
         [Txt "Runs"];
       El "svg" [cls "w-3 h-3"; Attr "viewBox" "0 0 12 12"; Attr "fill" "none"]
         [El "path" [Attr "d" "M4.5 2.5l3 3.5-3 3.5"; Attr "stroke" "currentColor";
                     Attr "strokeWidth" "1.2"] []];
       El "span" [cls "text-txt-2 font-medium"]
         [Txt (or_text run.(run_name) (str_slice 0 (Some 12) run.(run_id)))]].

Definition header (run : run_status) : node msg :=
    let in_state s := bool_decide (run.(state) = s) in
    El "div" [cls "mb-6 flex items-center justify-between"]
      [El "div" []
         (El "div" [cls "flex items-center gap-3"]
            [El "h2" [cls "page-header"] [Txt (or_text run.(run_name) "Unnamed Run")];
             RunBadge run.(state) Md] ::
          El "p" [cls "mt-1.5 text-xs text-txt-3 font-mono"] [Txt (run.(run_id))] ::
          when_text run.(error_message) (fun error_message =>
            El "p" [cls "mt-2 text-sm text-err bg-err-muted border border-err/20 rounded-lg px-3 py-1.5"]
              [Txt error_message]) ++
          []);
       El "div" [cls "flex items-center gap-2"]
         (when (in_state RUNNING || in_state CHECKPOINTING) (
            El "button" [OnClick (PostAction ACheckpoint);
                         cls "px-3 py-1.5 text-xs font-medium rounded-lg bg-warn-muted text-warn hover:bg-warn/20 transition-colors"]
              [Txt "Trigger Checkpoint"]) ++
          when (in_state FAILED || in_state CANCELLED) (El "button" [OnClick (PostAction AResume); cls "btn-primary text-xs"] [Txt "Resume"]) ++
          when (in_state CREATED || in_state COMMITTED) (
            El "button" [OnClick (PostAction AStart);
                         cls "px-3 py-1.5 text-xs font-medium rounded-lg bg-ok-muted text-ok hover:bg-ok/20 transition-colors"]
              [Txt "Start"]) ++
          when ((in_state RUNNING || in_state CHECKPOINTING) || in_state RECOVERING) (El "button" [OnClick (PostAction ACancel); cls "btn-danger"] [Txt "Cancel"]) ++
          [])].

Definition totalBytes (p : page) : num :=
  foldl (fun s c => add s (of_Z c.(total_bytes))) (of_Z 0) p.(checkpoints).
Definition committedCount (p : page) : Z :=
  Z.of_nat (length (filter (fun c => ck_state c = CCOMMITTED) p.(checkpoints))).

Definition summary_cards (run : run_status) (p : page) : node msg :=
    let totalBytes := totalBytes p in
    let committedCount := committedCount p in
    El "div" [cls "grid grid-cols-1 md:grid-cols-4 gap-3 mb-6"]
      [MetricCard "Current Step" (locale_int run.(current_step)) None None;
       MetricCard "Active Workers" (dec run.(active_workers)) None None;
       MetricCard "Checkpoints" (dec committedCount +:+ " / " +:+ dec (Z.of_nat (length p.(checkpoints)))) None None;
       MetricCard "Total Size" (formatBytes totalBytes) None None].

Definition checkpoint_history (p : page) : node msg :=
    El "div" [cls "card overflow-hidden mb-6"]
      [El "div" [cls "px-4 py-3 border-b border-line"]
         [El "h3" [cls "text-sm font-semibold text-txt-1"] [Txt "Checkpoint History"]];
       (if (Z.of_nat (length p.(checkpoints)) =? 0) then El "div" [cls "px-4 py-10 text-center text-sm text-txt-3"] [Txt "No checkpoints yet."] else 
   El "table" [cls "min-w-full"]
     [El "thead" []
        [El "tr" [cls "border-b border-line"]
           [El "th" [cls "table-header"] [Txt "Checkpoint ID"];
            El "th" [cls "table-header"] [Txt "Step"];
            El "th" [cls "table-header"] [Txt "State"];
            El "th" [cls "table-header"] [Txt "Shards"];
            El "th" [cls "table-header"] [Txt "Size"];
            El "th" [cls "table-header"] [Txt "Created"]]];
      El "tbody" [cls "divide-y divide-line-subtle"]
        (map (fun ckpt => 
           El "tr" [Key (ckpt.(checkpoint_id)); cls "hover:bg-surface-2/50 transition-colors"]
             [El "td" [cls "table-cell text-txt-2 font-mono text-xs"]
                [Txt (if 16 <? str_length ckpt.(checkpoint_id) then str_slice 0 (Some 16) ckpt.(checkpoint_id) +:+ ellipsis else ckpt.(checkpoint_id))];
              El "td" [cls "table-cell text-txt-2 font-mono"] [Txt (locale_int ckpt.(ck_step))];
              El "td" [cls "table-cell"] [CkptBadge ckpt.(ck_state)];
              El "td" [cls "table-cell text-txt-2"] [Txt (dec ckpt.(num_shards))];
              El "td" [cls "table-cell text-txt-2"] [Txt (formatBytes (of_Z ckpt.(total_bytes)))];
              El "td" [cls "table-cell text-txt-3 text-xs"] [Txt (formatDate ckpt.(ck_created_at))]]) p.(checkpoints))])].

Definition event_stream (p : page) : node msg :=
    El "div" [cls "card overflow-hidden"]
      [El "div" [cls "px-4 py-3 border-b border-line flex items-center justify-between"]
         [El "h3" [cls "text-sm font-semibold text-txt-1"] [Txt "Event Stream"];
          El "div" [cls "flex items-center gap-2 text-xs text-txt-3"] [LiveDot; Txt "Live"]];
       El "div" [cls "h-64 overflow-y-auto font-mono text-xs p-4 space-y-0.5 bg-surface-0"]
         (when (Z.of_nat (length p.(events)) =? 0) (El "p" [cls "text-txt-3"] [Txt "Waiting for events..."]) ++
          imap (fun i evt => let typeColor := (if (evt.(evt_type) =? "error")%string then "text-err" else (if (evt.(evt_type) =? "state_change")%string then "text-warn" else (if (evt.(evt_type) =? "checkpoint")%string then "text-info" else "text-txt-3"))) in 
            El "div" [Key (dec (Z.of_nat i)); cls "flex gap-3"]
              [El "span" [cls "text-txt-3/60 shrink-0"]
                 [Txt (to_locale locale_time (date_ms evt.(evt_timestamp)))];
               El "span" [cls ("shrink-0 uppercase font-medium " +:+ typeColor)]
                 [Txt "[";
                  Txt (evt.(evt_type));
                  Txt "]"];
               El "span" [cls "text-txt-2 break-all"] [Txt (evt.(evt_data))]]) p.(events) ++
          El "div" [Attr "ref" "eventsEndRef"] [] ::
          [])].

(** What the component returns; nothing for a page that has neither loaded nor failed. *)
Definition RunDetailPage (p : page) : list (node msg) :=
  if p.(loading) then [Loading "Loading run details..."]
  else match p.(run) with
  | None => when_text p.(error) (fun error => ErrorBanner error)
  | Some run =>
      [El "div" []
         [breadcrumb run; header run; summary_cards run p; checkpoint_history p; event_stream p]]
  end.
End View.

(** ** The offered actions *)

(** The buttons of the header, per state of the run. *)
Definition detail_actions (s : run_state) : list run_action :=
  match s with
  | CREATED | COMMITTED => [AStart]
  | RUNNING | CHECKPOINTING => [ACheckpoint; ACancel]
  | RECOVERING => [ACancel]
  | FAILED | CANCELLED => [AResume]
  | COMPLETED => []
  end.

Section Offers.
Context `{Intl} `{MathLib}.

Lemma header_offers r : offers (header r) = map PostAction (detail_actions r.(state)).
Proof.
  unfold header. rewrite !offers_el. cbn [own_clicks app].
  destruct (error_message r) as [e|]; cbn [when_text]; [destruct (e =? "")%string|];
    by destruct (state r).
Qed.

Lemma summary_cards_offers r p : offers (summary_cards r p) = [].
Proof. done. Qed.

Lemma checkpoint_history_offers p : offers (checkpoint_history p) = [].
Proof.
  unfold checkpoint_history. rewrite offers_el.
  destruct (Z.of_nat (length (checkpoints p)) =? 0); [done|].
  cbn. rewrite !app_nil_r. by apply offers_list_map_nil.
Qed.

Lemma event_stream_offers p : offers (event_stream p) = [].
Proof.
  unfold event_stream. rewrite offers_el. cbn [own_clicks disabled existsb omap list_omap app].
  rewrite !offers_list_cons, (offers_el "div" [cls "h-64 overflow-y-auto font-mono text-xs p-4 space-y-0.5 bg-surface-0"]).
  rewrite !offers_list_app, offers_list_imap_nil by done.
  by destruct (Z.of_nat (length (events p)) =? 0).
Qed.

(** The offers of the page are those of its header. *)
Lemma detail_page_offers (p : page) :
  offers_list (RunDetailPage p) =
    if p.(loading) then []
    else match p.(run) with
         | Some r => map PostAction (detail_actions r.(state))
         | None => []
         end.
Proof.
  unfold RunDetailPage. destruct (loading p); [done|]. destruct (run p) as [r|].
  - rewrite offers_list_cons, offers_el, !offers_list_cons.
    rewrite header_offers, summary_cards_offers, checkpoint_history_offers, event_stream_offers.
    cbn [app own_clicks disabled existsb omap list_omap]. change (@offers_list msg []) with (@nil msg).
    by rewrite !app_nil_r.
  - destruct (error p) as [e|]; cbn [when_text]; [destruct (e =? "")%string|]; done.
Qed.

(** the run page offers exactly the action buttons of its run's state, and none
    while it is loading or has no run. *)
Theorem detail_page_actions (p : page) :
  offers_list (RunDetailPage p) =
    if p.(loading) then []
    else match p.(run) with
         | Some r => map PostAction (detail_actions r.(state))
         | None => []
         end.
Proof. apply detail_page_offers. Qed.
End Offers.

(** ** The page after any history *)

Definition run_messages (ms : list msg) (p : page) : page :=
  foldl (fun p m => fst (update m p)) p ms.

(** What a message contributes to each part of the state. *)
Definition event_of (m : msg) : option run_event :=
  match m with
  | Sse name data t =>
      if (name =? "error_event")%string then Some (RunEvent "error" data t)
      else if bool_decide (name ∈ ["message"; "state_change"; "checkpoint"])
      then Some (RunEvent name data t) else None
  | _ => None
  end.
Definition run_of (m : msg) : option run_status :=
  match m with RunBody (inr r) _ => Some r | _ => None end.
Definition checkpoints_of (m : msg) : option (list checkpoint_info) :=
  match m with CheckpointsBody (inr cs) => Some cs | _ => None end.
(** The end of a fetch, with its error *)
Definition fetch_end (m : msg) : option (option string) :=
  let failed e := Some (Some (message_or "Fetch failed" e)) in
  match m with
  | Responses (inl e) => failed e
  | Responses (inr (r, c)) =>
      if negb (res_ok r) then failed (Error ("Run: " +:+ dec (res_status r)))
      else if negb (res_ok c) then failed (Error ("Checkpoints: " +:+ dec (res_status c)))
      else None
  | RunBody (inl e) _ => failed e
  | CheckpointsBody (inl e) => failed e
  | CheckpointsBody (inr _) => Some None
  | _ => None
  end.

(** The state a sequence of messages leads to, from their contributions. *)
Record summary : Type := Summary {
  s_run : option run_status; s_checkpoints : list checkpoint_info; s_events : list run_event;
  s_loading : bool; s_error : option string
}.
Definition summarise (p : page) : summary :=
  Summary p.(run) p.(checkpoints) p.(events) p.(loading) p.(error).
Definition contribute (m : msg) (s : summary) : summary :=
  Summary
    (match run_of m with Some r => Some r | None => s.(s_run) end)
    (match checkpoints_of m with Some cs => cs | None => s.(s_checkpoints) end)
    (match event_of m with Some e => Slice.push_capped 200 s.(s_events) e | None => s.(s_events) end)
    (match fetch_end m with Some _ => false | None => s.(s_loading) end)
    (match fetch_end m with Some e => e | None => s.(s_error) end).

Lemma update_contributes m p : summarise (fst (update m p)) = contribute m (summarise p).
Proof.
  destruct m as [|i|o|b c|b|name data t|a|o]; try done.
  - destruct o as [e|[r c]]; [done|]. unfold contribute. cbn [update fetch_end].
    unfold handle, Async.run, responses_settled, guarded, catch, bind, await, check_ok, negb.
    destruct (res_ok r); [|done]. by destruct (res_ok c).
  - by destruct b.
  - by destruct b.
  - unfold contribute. cbn [update event_of run_of checkpoints_of fetch_end]. unfold sse.
    destruct (String.eqb_spec name "message") as [->|]; [done|].
    destruct (String.eqb_spec name "state_change") as [->|]; [done|].
    destruct (String.eqb_spec name "checkpoint") as [->|]; [done|].
    destruct (String.eqb_spec name "error_event") as [->|]; [done|].
    rewrite bool_decide_eq_false_2; [done|].
    rewrite !elem_of_cons. intros [|[|[|N]]]; try done. by inversion N.
  - unfold contribute. cbn [update event_of run_of checkpoints_of fetch_end].
    unfold action_settled, handle, Async.run, catch, bind, await, check_ok.
    destruct o as [e|r]; [done|]. by destruct (res_ok r).
Qed.

(** Every part of the state from the contributions of the messages. *)
Lemma detail_page_history_spec (i : option string) (ms : list msg) :
  let p := run_messages ms (init_page i) in
  p.(run) = last (omap run_of ms) /\
  p.(checkpoints) = default [] (last (omap checkpoints_of ms)) /\
  p.(events) = Slice.last_n 200 (omap event_of ms) /\
  p.(error) = default None (last (omap fetch_end ms)) /\
  p.(loading) = bool_decide (omap fetch_end ms = []).
Proof.
  induction ms as [|m ms IH] using rev_ind; [done|].
  unfold run_messages in *. rewrite foldl_app, !omap_app. cbn [foldl].
  set (p := foldl _ (init_page i) ms) in *. cbn zeta in *. destruct IH as (Hr & Hc & He & Hx & Hl).
  pose proof (update_contributes m p) as U. unfold summarise, contribute in U. cbn in U.
  injection U as -> -> -> -> ->. rewrite Hr, Hc, He, Hx, Hl. clear p Hr Hc He Hx Hl. cbn [omap list_omap].
  split_and!.
  - destruct (run_of m); by rewrite ?last_snoc, ?app_nil_r.
  - destruct (checkpoints_of m); by rewrite ?last_snoc, ?app_nil_r.
  - destruct (event_of m); rewrite ?app_nil_r; [|done].
    rewrite Slice.push_capped_last_n by lia.
    change (Z.to_nat 200) with (S 199). rewrite Slice.last_n_snoc, Slice.last_n_last_n by lia.
    by rewrite Slice.last_n_snoc.
  - destruct (fetch_end m); by rewrite ?last_snoc, ?app_nil_r.
  - destruct (fetch_end m); rewrite ?app_nil_r; [|done].
    by rewrite bool_decide_eq_false_2 by (by destruct (omap fetch_end ms)).
Qed.

(** C31: after any history the run page shows the run and the checkpoints last read, an
    error exactly when the last finished fetch failed, and the last 200 events received
    under one of the four names it listens to, in order; it is loading until the first
    fetch finishes. *)
Theorem detail_page_history (i : option string) (ms : list msg) :
  let p := run_messages ms (init_page i) in
  p.(run) = last (omap run_of ms) /\
  p.(checkpoints) = default [] (last (omap checkpoints_of ms)) /\
  p.(events) = Slice.last_n 200 (omap event_of ms) /\
  p.(error) = default None (last (omap fetch_end ms)) /\
  p.(loading) = bool_decide (omap fetch_end ms = []).
Proof. apply detail_page_history_spec. Qed.

(** ** Failures after the first load *)

(** once a run is shown, a fetch that fails leaves the page exactly as it was: the
    error is recorded but nothing of it is displayed. *)
Theorem failed_fetch_not_shown `{Intl} `{MathLib} (p : page) (r : run_status) (m : msg) (e : string) :
  p.(run) = Some r -> p.(loading) = false -> fetch_end m = Some (Some e) ->
  let p' := fst (update m p) in
  p'.(error) = Some e /\ RunDetailPage p' = RunDetailPage p.
Proof.
  intros Hr Hl He. pose proof (update_contributes m p) as U. unfold summarise, contribute in U.
  assert (run_of m = None /\ checkpoints_of m = None /\ event_of m = None) as (Er & Ec & Ee)
    by (destruct m as [|?|?|[?|?] ?|[?|?]|?|?|?]; done).
  rewrite Er, Ec, Ee, He in U. cbn in U. injection U as Ur Uc Ue Ul Ux.
  cbn zeta. split; [done|]. unfold RunDetailPage.
  rewrite Ul, Hl, Ur, Hr. unfold summary_cards, totalBytes, committedCount, checkpoint_history, event_stream.
  by rewrite Uc, Ue.
Qed.

(** ** Keys *)

(** the rows of the checkpoint table have distinct keys whenever the checkpoint ids
    are distinct, the events have theirs, and nothing else on the page repeats one. *)
Theorem detail_page_keys `{Intl} `{MathLib} (p : page) :
  NoDup (map checkpoint_id p.(checkpoints)) -> Forall keys_ok (RunDetailPage p).
Proof.
  intros N. unfold RunDetailPage. destruct (loading p); [repeat constructor|].
  destruct (run p) as [r|];
    [|destruct (error p) as [e|]; cbn [when_text]; [destruct (e =? "")%string|]; repeat constructor].
  constructor; [|constructor]. apply keys_ok_el. split; [constructor|].
  repeat apply Forall_cons_2; [..|constructor].
  - cbn. repeat (split || constructor).
  - unfold header. destruct (error_message r) as [e|]; cbn [when_text]; [destruct (e =? "")%string|];
      destruct (state r); cbn; repeat (split || constructor).
  - cbn. repeat (split || constructor).
  - unfold checkpoint_history. destruct (Z.of_nat (length (checkpoints p)) =? 0);
      [cbn; repeat (split || constructor)|].
    apply keys_ok_el. split; [constructor|].
    constructor; [cbn; repeat (split || constructor)|]. constructor; [|constructor].
    apply keys_ok_el. split; [constructor|].
    constructor; [cbn; repeat (split || constructor)|]. constructor; [|constructor].
    apply keys_ok_el. split.
    + by rewrite (sibling_keys_map _ checkpoint_id).
    + apply Forall_map, Forall_true. intros c. cbn. repeat (split || constructor).
  - unfold event_stream. apply keys_ok_el. split; [constructor|].
    constructor; [cbn; repeat (split || constructor)|]. constructor; [|constructor].
    apply keys_ok_el. split.
    + rewrite !sibling_keys_app, (sibling_keys_imap _ (fun i => dec (Z.of_nat i))) by done.
      destruct (Z.of_nat (length (events p)) =? 0); cbn; rewrite app_nil_r; apply index_keys_nodup.
    + rewrite !Forall_app. split_and!.
      * destruct (Z.of_nat (length (events p)) =? 0); repeat constructor.
      * apply Forall_forall. intros n Hn. apply elem_of_lookup_imap in Hn as (i & ev & -> & _).
        cbn. repeat (split || constructor).
      * repeat constructor.
Qed.

(** ** Witnesses *)

Definition sample_run (s : run_state) : run_status :=
  RunStatus "r1" "train" s 150 4 "2024-01-01T00:00:00Z" "2024-01-01T00:00:00Z" None.
Definition sample_checkpoint (i : string) (step : Z) : checkpoint_info :=
  CheckpointInfo i "r1" step CCOMMITTED 4 3985408 "2024-01-01T00:00:00Z" [].
Definition sample_page : page :=
  run_messages
    [RunBody (inr (sample_run RUNNING)) (Response 200 "OK" (inr []));
     CheckpointsBody (inr [sample_checkpoint "c1" 50; sample_checkpoint "c2" 100])]
    (init_page (Some "r1")).

Lemma failed_fetch_not_shown_witness :
  let p' := fst (update (Responses (inl (Error "network"))) sample_page) in
  p'.(error) = Some "network" /\ RunDetailPage p' = RunDetailPage sample_page.
Proof. by apply (failed_fetch_not_shown sample_page (sample_run RUNNING)). Defined.

Lemma detail_page_keys_witness : Forall keys_ok (RunDetailPage sample_page).
Proof.
  apply detail_page_keys. vm_compute. apply NoDup_cons. split; [|apply NoDup_singleton].
  intros H. by apply list_elem_of_singleton in H.
Defined.
