(* ===== verification/Console.v ===== *)
(** * The console against the control plane

    The run pages offer actions from the state they show; the control plane decides.
    These theorems put both sides together: which offered action is refused, what the
    page does with the reply, and which published events reach the page. *)

From S2P Require Import Prelude JsString JsNum Html Types Host Async Design Ui.
From S2P Require Import ControlPlane.
From S2P Require Import RunsPage.
From S2P Require Import RunDetail.

(** The actions a page offers although the control plane refuses them in that state. *)
Definition refused (a : run_action) (s : run_state) : bool :=
  match a, s with
  | ACancel, CHECKPOINTING | ACheckpoint, CHECKPOINTING | AResume, CANCELLED => true
  | _, _ => false
  end.

Lemma refused_spec a s :
  a ∈ detail_actions s \/ a ∈ row_actions s ->
  if refused a s then action_target a s = None else exists s', action_target a s = Some s'.
Proof.
  rewrite !list_elem_of_In.
  destruct s; cbn; intros [H|H]; repeat destruct H as [<-|H]; try done; cbn; by eexists.
Qed.

(** The row of the runs page and the header of the run page agree, but for the actions
    only the run page has. *)
Lemma row_actions_subset s a : a ∈ row_actions s -> a ∈ detail_actions s.
Proof. rewrite !list_elem_of_In. destruct s; cbn; tauto. Qed.

Section RoundTrip.
Context `{Intl} `{MathLib}.

(** C18: a click on an action button of an up-to-date run page posts that action for that
    run. The control plane refuses it exactly for Cancel and Trigger Checkpoint while
    checkpointing and for Resume after cancelling; a refusal leaves the run where it is
    and ends in an alert with the status line, an accepted action moves the run along
    its transition table and makes the page fetch again. The table is the one of the
    program: Cancel on a RECOVERING run, for instance, is accepted, although the
    list in [ARCHITECTURE.md] does not have it ([Fsm.transitions_documented]). *)
Theorem action_round_trip (c : service) (e : env) (i : string) (p : RunDetail.page)
    (r : run_status) (a : run_action) :
  Coordinator.agrees (coord c) -> Coordinator.state_of (coord c) i = Some (state r) ->
  RunDetail.id p = Some i -> i <> "" -> RunDetail.loading p = false -> RunDetail.run p = Some r ->
  RunDetail.PostAction a ∈ offers_list (RunDetailPage p) ->
  snd (RunDetail.update (RunDetail.PostAction a) p) = [RunDetail.PostRunAction i a] /\
  let '(rep, c') := ControlPlane.post_action c e i a in
  forall res : response unit, res_status res = status_code rep ->
    let effects := snd (RunDetail.update (RunDetail.ActionSettled (inr res)) p) in
    if refused a (state r)
    then effects = [RunDetail.Alert ("409 " +:+ res_statusText res)] /\
         Coordinator.state_of (coord c') i = Some (state r)
    else effects = [RunDetail.FetchBoth i] /\
         exists s', s' ∈ Fsm.VALID_TRANSITIONS (state r) /\
           Coordinator.state_of (coord c') i = Some s'.
Proof.
  intros A K Hi Ne Hl Hr O. rewrite detail_page_offers, Hl, Hr in O.
  apply list_elem_of_fmap in O as (a' & [= <-] & O).
  apply String.eqb_neq in Ne. split.
  { cbn. unfold RunDetail.post_action. by rewrite Hi, Ne. }
  pose proof (post_action_table c e i a (state r) A K) as T.
  destruct (ControlPlane.post_action c e i a) as [rep c']. destruct T as (_ & _ & T).
  pose proof (refused_spec a (state r) (or_introl O)) as F.
  intros res Hres. cbn [RunDetail.update]. unfold action_settled, handle, Async.run, catch, bind, await, check_ok.
  destruct (refused a (state r)).
  - rewrite F in T. destruct T as (-> & T). cbn in Hres.
    unfold res_ok. rewrite Hres. cbn. unfold status_line. by rewrite Hres.
  - destruct F as (s' & F). rewrite F in T. destruct T as (-> & T). cbn in Hres.
    unfold res_ok. rewrite Hres. cbn. unfold fetchData. rewrite Hi, Ne. cbn.
    split; [done|]. exists s'. split; [|done].
    revert O F. rewrite !list_elem_of_In.
    destruct (state r), a; cbn; intros O [= <-]; try tauto; intuition discriminate.
Qed.
End RoundTrip.

(** every event the control plane publishes carries a name the run page does not
    listen to: the page is left as it is, nothing is added to its event stream and no
    fetch follows. *)
Theorem published_events_not_shown (p : RunDetail.page) (name data timestamp : string) :
  name ∈ published_events -> RunDetail.update (RunDetail.Sse name data timestamp) p = (p, []).
Proof.
  unfold published_events. rewrite list_elem_of_In. intros N. cbn in N.
  repeat destruct N as [<-|N]; done.
Qed.

(** The names the control plane publishes with its action replies are among those. *)
Lemma action_events_published a : action_event a ∈ published_events.
Proof. unfold published_events. rewrite list_elem_of_In. destruct a; cbn; tauto. Qed.

Definition checkpointing_page : RunDetail.page :=
  RunDetail.Page (Some "r1") (Some (sample_run CHECKPOINTING)) [] [] false None.

Lemma action_round_trip_witness :
  refused ACancel CHECKPOINTING = true /\
  snd (RunDetail.update (RunDetail.PostAction ACancel) checkpointing_page)
    = [RunDetail.PostRunAction "r1" ACancel].
Proof.
  split; [reflexivity|].
  refine (proj1 (action_round_trip (sample_service CHECKPOINTING) (Env 7 "c1") "r1" checkpointing_page
    (sample_run CHECKPOINTING) ACancel (sample_service_agrees CHECKPOINTING) eq_refl eq_refl _
    eq_refl eq_refl _)).
  - discriminate.
  - rewrite detail_page_offers. cbn. rewrite list_elem_of_In. cbn. tauto.
Defined.

Lemma published_events_not_shown_witness :
  RunDetail.update (RunDetail.Sse "run_started" "{}" "t") checkpointing_page = (checkpointing_page, []).
Proof. apply published_events_not_shown. unfold published_events. rewrite list_elem_of_In. cbn. tauto. Defined.
