(* ===== verification/Simulation.v ===== *)
(** * The browser simulation: [frontend/src/pages/DemoPage.tsx]

    The state, the refs, the timers and the effects of [DemoPage], as a transition
    system over every interleaving of the user's clicks, the browser's timers and
    React's work.

    React's part is written out: a [setState] call appends an update to a queue (the
    updater functions are the constructors of [upd]); a render applies the whole queue
    in the order of the calls, commits the result, and leaves the effects of the new
    dependencies pending; pending effects run later on their own ([flush_passive]), but
    at the latest before the next render; a click runs its handler with the state of the
    last commit, then renders and runs the effects before anything else happens.
    Counters are integers: [Math.floor(step / 25) * 25] is exact on them. *)

From Stdlib Require Import Ascii.
From S2P Require Import Prelude JsString JsNum Host.

(** ** Data *)

Inductive phase : Type := Idle | Running | Failed | Recovering | Recovered.

#[export] Instance phase_eq_dec : EqDecision phase.
Proof. solve_decision. Defined.

Inductive event_type : Type := EInfo | ESuccess | EWarning | EError.

Record timeline_event : Type := TimelineEvent {
  te_id : Z; te_time : Z; te_label : string; te_type : event_type
}.

Record sim_checkpoint : Type := SimCheckpoint { sc_step : Z; sc_size : string; sc_hash : string }.

(** The [useState] variables *)
Record sim : Type := Sim {
  s_phase : phase;
  s_step : Z;
  s_checkpoints : list sim_checkpoint;
  s_timeline : list timeline_event;
  s_logs : list string;
  s_killedWorker : option string;
  s_killStep : option Z;
  s_restoredStep : option Z;
  s_recoverySeconds : num
}.

Definition init_sim : sim := Sim Idle 0 [] [] [] None None None (of_Z 0).

(** The [useRef] variables *)
Record refs : Type := Refs {
  startTime : Z;
  lastCheckpoint : Z;
  lastLogStep : Z;
  nextEventId : Z;
  recoveryTimers : list nat
}.

Definition init_refs : refs := Refs 0 0 0 0 [].

(** ** State updates *)

Inductive upd : Type :=
| SetPhase (p : phase)
| SetStep (n : Z)
| AddStep (n : Z)
| ClearCheckpoints
| PushCheckpoint (c : sim_checkpoint)
| SetKilledWorker (w : option string)
| SetKillStep (n : option Z)
| SetRestoredStep (n : option Z)
| SetRecoverySeconds (x : num)
| TickRecoverySeconds
| SetTimeline (l : list timeline_event)
| AddEvent (label : string) (type : event_type)
| SetLogs (l : list string)
| AddLog (line : string).

(** [Math.round((previous + 0.1) * 10) / 10] *)
Definition tick_seconds (x : num) : num :=
  div (round (mul (add x (lit 1 1)) (of_Z 10))) (of_Z 10).

(** One queued update. The updater of [addEvent] reads the clock and advances
    [nextEventIdRef] when it runs. *)
Definition apply_upd (now : Z) (sr : sim * refs) (u : upd) : sim * refs :=
  let '(s, r) := sr in
  let '(Sim p n cs tl lg kw ks rs sec) := s in
  match u with
  | SetPhase p' => (Sim p' n cs tl lg kw ks rs sec, r)
  | SetStep n' => (Sim p n' cs tl lg kw ks rs sec, r)
  | AddStep d => (Sim p (n + d) cs tl lg kw ks rs sec, r)
  | ClearCheckpoints => (Sim p n [] tl lg kw ks rs sec, r)
  | PushCheckpoint c => (Sim p n (cs ++ [c]) tl lg kw ks rs sec, r)
  | SetKilledWorker kw' => (Sim p n cs tl lg kw' ks rs sec, r)
  | SetKillStep ks' => (Sim p n cs tl lg kw ks' rs sec, r)
  | SetRestoredStep rs' => (Sim p n cs tl lg kw ks rs' sec, r)
  | SetRecoverySeconds x => (Sim p n cs tl lg kw ks rs x, r)
  | TickRecoverySeconds => (Sim p n cs tl lg kw ks rs (tick_seconds sec), r)
  | SetTimeline l => (Sim p n cs l lg kw ks rs sec, r)
  | AddEvent label type =>
      let e := TimelineEvent (nextEventId r) (Z.max 0 (now - startTime r)) label type in
      (Sim p n cs (Slice.push_then_slice 18 tl e) lg kw ks rs sec,
       Refs (startTime r) (lastCheckpoint r) (lastLogStep r) (nextEventId r + 1) (recoveryTimers r))
  | SetLogs l => (Sim p n cs tl l kw ks rs sec, r)
  | AddLog line => (Sim p n cs tl (Slice.push_then_slice 14 lg line) kw ks rs sec, r)
  end.

Definition process (now : Z) (q : list upd) (sr : sim * refs) : sim * refs :=
  foldl (apply_upd now) sr q.

(** ** The world *)

(** The two [setTimeout] callbacks of a kill, with the captured checkpoint step. *)
Inductive callback : Type := ToRecovering (ckpt : Z) | ToRecovered (ckpt : Z).

Record timeout : Type := Timeout { handle : nat; due : Z; fires : callback }.

Record world : Type := World {
  now : Z;
  (** the state of the last commit, which the handlers and the view see *)
  committed : sim;
  queue : list upd;
  wrefs : refs;
  timeouts : list timeout;
  next_handle : nat;
  (** the live [setInterval] of the training effect and of the recovery effect: when
      each fires next *)
  training : option Z;
  recovery : option Z;
  (** the state whose effects ran last, for the comparison of dependencies *)
  effects_of : option sim
}.

Definition init_world : world :=
  World 0 init_sim [] init_refs [] 0 None None None.

Definition enqueue (us : list upd) (w : world) : world :=
  World (now w) (committed w) (queue w ++ us) (wrefs w) (timeouts w) (next_handle w)
    (training w) (recovery w) (effects_of w).
Definition set_refs (r : refs) (w : world) : world :=
  World (now w) (committed w) (queue w) r (timeouts w) (next_handle w)
    (training w) (recovery w) (effects_of w).
Definition set_intervals (t r : option Z) (w : world) : world :=
  World (now w) (committed w) (queue w) (wrefs w) (timeouts w) (next_handle w) t r (effects_of w).
Definition set_timeouts (ts : list timeout) (h : nat) (w : world) : world :=
  World (now w) (committed w) (queue w) (wrefs w) ts h (training w) (recovery w) (effects_of w).
Definition set_effects_of (s : sim) (w : world) : world :=
  World (now w) (committed w) (queue w) (wrefs w) (timeouts w) (next_handle w)
    (training w) (recovery w) (Some s).

(** ** Helpers of the component *)

Definition with_timers (l : list nat) (r : refs) : refs :=
  Refs (startTime r) (lastCheckpoint r) (lastLogStep r) (nextEventId r) l.

Definition clearRecoveryTimers (w : world) : world :=
  let handles := recoveryTimers (wrefs w) in
  set_refs (with_timers [] (wrefs w))
    (set_timeouts (filter (fun t => handle t ∉ handles) (timeouts w)) (next_handle w) w).

Definition is_training (p : phase) : bool := bool_decide (p = Running \/ p = Recovered).
Definition in_recovery (p : phase) : bool := bool_decide (p = Failed \/ p = Recovering).

Section Simulation.
Context `{MathLib}.

(** [(2.3 * Math.exp(-step / 650) + 0.08)] *)
Definition loss_at (step : Z) : num :=
  add (mul (lit 23 1) (js_exp (div (of_Z (- step)) (of_Z 650)))) (lit 8 2).

(** The record built for a checkpoint step. *)
Definition make_checkpoint (step : Z) : sim_checkpoint :=
  SimCheckpoint step
    (to_fixed 1 (add (lit 37 1) (mul (of_Z (step mod 3)) (lit 1 1))) +:+ " MiB")
    ("sim-" +:+ pad_start 4 "0"%char (to_radix 16 step) +:+ "-7f3a9c2e").

(** ** Effects *)

(** The effect on [[addEvent, addLog, isTraining, step]]. *)
Definition step_effect (w : world) : world :=
  let s := committed w in
  let step := s_step s in
  if negb (is_training (s_phase s)) || (step =? 0) then w
  else
    let logStep := step / 25 * 25 in
    let r := wrefs w in
    let w :=
      if lastLogStep r <? logStep
      then enqueue [AddLog ("[trainer] step=" +:+ dec logStep +:+ " loss="
                            +:+ to_fixed 3 (loss_at logStep) +:+ " workers=2")]
             (set_refs (Refs (startTime r) (lastCheckpoint r) logStep (nextEventId r) (recoveryTimers r)) w)
      else w in
    let checkpointStep := step / 50 * 50 in
    let r := wrefs w in
    if (50 <=? checkpointStep) && (lastCheckpoint r <? checkpointStep)
    then
      let checkpoint := make_checkpoint checkpointStep in
      enqueue [PushCheckpoint checkpoint;
               AddEvent ("Simulated checkpoint committed at step " +:+ dec checkpointStep) ESuccess;
               AddLog ("[checkpoint] committed step=" +:+ dec checkpointStep
                       +:+ " sha256=" +:+ sc_hash checkpoint)]
        (set_refs (Refs (startTime r) checkpointStep (lastLogStep r) (nextEventId r) (recoveryTimers r)) w)
    else w.

(** Runs the effects whose dependencies differ from those they ran for last: first the
    clean-ups, then the effects in their order. *)
Definition flush_passive (w : world) : world :=
  let s := committed w in
  let changed_training := match effects_of w with
                          | Some o => negb (Bool.eqb (is_training (s_phase o)) (is_training (s_phase s)))
                          | None => true
                          end in
  let changed_step := match effects_of w with
                      | Some o => negb (s_step o =? s_step s)
                      | None => true
                      end in
  let changed_phase := match effects_of w with
                       | Some o => negb (bool_decide (s_phase o = s_phase s))
                       | None => true
                       end in
  let w := set_intervals (if changed_training then None else training w)
             (if changed_phase then None else recovery w) w in
  let w := if changed_training && is_training (s_phase s)
           then set_intervals (Some (now w + 250)) (recovery w) w else w in
  let w := if changed_training || changed_step then step_effect w else w in
  let w := if changed_phase && in_recovery (s_phase s)
           then set_intervals (training w) (Some (now w + 100)) w else w in
  set_effects_of s w.

Definition render (w : world) : world :=
  let w := flush_passive w in
  let '(s, r) := process (now w) (queue w) (committed w, wrefs w) in
  World (now w) s [] r (timeouts w) (next_handle w) (training w) (recovery w) (effects_of w).

(** ** Event handlers *)

Definition startSimulation (w : world) : world :=
  let w := clearRecoveryTimers w in
  enqueue
    [SetPhase Running; SetStep 0; ClearCheckpoints; SetKilledWorker None; SetKillStep None;
     SetRestoredStep None; SetRecoverySeconds (of_Z 0);
     SetTimeline [TimelineEvent 0 0 "Browser simulation started" ESuccess];
     SetLogs ["[simulator] browser-only mode initialized"; "[simulator] no backend connection opened";
              "[trainer] two simulated workers started"]]
    (set_refs (Refs (now w) 0 0 1 (recoveryTimers (wrefs w))) w).

Definition killSimulatedWorker (workerName : string) (w : world) : world :=
  let s := committed w in
  match s_phase s, last (s_checkpoints s) with
  | Running, Some latest =>
      let w := clearRecoveryTimers w in
      let latestCheckpointStep := sc_step latest in
      let w := enqueue
        [SetKilledWorker (Some workerName); SetKillStep (Some (s_step s)); SetRestoredStep None;
         SetRecoverySeconds (of_Z 0); SetPhase Failed;
         AddEvent (workerName +:+ " stopped inside the simulation") EError;
         AddLog ("[failure] " +:+ workerName +:+ " heartbeat stopped (simulated)")] w in
      let h := next_handle w in
      set_refs (with_timers (recoveryTimers (wrefs w) ++ [h; S h]) (wrefs w))
        (set_timeouts (timeouts w ++ [Timeout h (now w + 900) (ToRecovering latestCheckpointStep);
                                      Timeout (S h) (now w + 3200) (ToRecovered latestCheckpointStep)])
           (S (S h)) w)
  | _, _ => w
  end.

(** What each timeout callback enqueues. *)
Definition callback_updates (c : callback) : list upd :=
  match c with
  | ToRecovering s =>
      [SetPhase Recovering;
       AddEvent "Simulated heartbeat timeout detected; loading last checkpoint" EWarning;
       AddLog ("[recovery] loading simulated checkpoint from step=" +:+ dec s)]
  | ToRecovered s =>
      [SetStep s; SetRestoredStep (Some s); SetPhase Recovered; SetRecoverySeconds (lit 32 1);
       AddEvent ("Training resumed from simulated checkpoint at step " +:+ dec s) ESuccess;
       AddLog ("[recovery] complete; resumed at step=" +:+ dec s)]
  end.

Inductive click : Type := Start | Kill (worker : string).

Definition handler (c : click) : world -> world :=
  match c with Start => startSimulation | Kill n => killSimulatedWorker n end.

Definition on_click (c : click) (w : world) : world :=
  flush_passive (render (handler c w)).

(** Unmounting runs every clean-up. *)
Definition unmount (w : world) : world := set_intervals None None (clearRecoveryTimers w).

(** ** Interleavings *)

Definition set_now (t : Z) (w : world) : world :=
  World t (committed w) (queue w) (wrefs w) (timeouts w) (next_handle w)
    (training w) (recovery w) (effects_of w).

(** A timeout fires once it is due, and not before one that was set earlier and is due
    no later (HTML, timer initialisation steps). *)
Definition may_fire (t : timeout) (w : world) : Prop :=
  t ∈ timeouts w /\ due t <= now w /\
  forall t', t' ∈ timeouts w -> (handle t' < handle t)%nat -> due t < due t'.

Inductive step : world -> world -> Prop :=
| step_time w t : now w <= t -> step w (set_now t w)
| step_click w c : step w (on_click c w)
| step_flush w : step w (flush_passive w)
| step_render w : step w (render w)
| step_training w d : training w = Some d -> d <= now w ->
    step w (enqueue [AddStep 5] (set_intervals (Some (now w + 250)) (recovery w) w))
| step_recovery w d : recovery w = Some d -> d <= now w ->
    step w (enqueue [TickRecoverySeconds] (set_intervals (training w) (Some (now w + 100)) w))
| step_timeout w t : may_fire t w ->
    step w (enqueue (callback_updates (fires t))
              (set_timeouts (filter (fun t' => handle t' <> handle t) (timeouts w)) (next_handle w) w)).

Definition reachable (w : world) : Prop := rtc step init_world w.

End Simulation.
