(* ===== verification/SimulationInv.v ===== *)
(** * Invariants of the browser simulation

    What the queued updates lead to, the well-formedness of checkpoints and timelines,
    and the invariants of every reachable world of [Simulation]: on the queue
    ([core_ok]), on the committed state ([commit_ok]) and on the effects and their
    intervals ([effects_ok]). *)

From S2P Require Import Prelude JsString JsNum Host Simulation.

(** ** What the queue will do to each variable *)

Definition phase_upd (p : phase) (u : upd) : phase := match u with SetPhase p' => p' | _ => p end.
Definition restored_upd (o : option Z) (u : upd) : option Z :=
  match u with SetRestoredStep o' => o' | _ => o end.
Definition checkpoints_upd (l : list sim_checkpoint) (u : upd) : list sim_checkpoint :=
  match u with ClearCheckpoints => [] | PushCheckpoint c => l ++ [c] | _ => l end.

Lemma process_phase t q sr : s_phase (fst (process t q sr)) = foldl phase_upd (s_phase (fst sr)) q.
Proof.
  revert sr. induction q as [|u q IH]; intros [[p n cs tl lg kw ks rs sec] r]; [done|].
  unfold process in *. cbn [foldl]. rewrite IH. by destruct u.
Qed.
Definition step_upd (n : Z) (u : upd) : Z :=
  match u with SetStep n' => n' | AddStep d => n + d | _ => n end.
Definition kill_step_upd (o : option Z) (u : upd) : option Z :=
  match u with SetKillStep o' => o' | _ => o end.

Lemma process_step t q sr : s_step (fst (process t q sr)) = foldl step_upd (s_step (fst sr)) q.
Proof.
  revert sr. induction q as [|u q IH]; intros [[p n cs tl lg kw ks rs sec] r]; [done|].
  unfold process in *. cbn [foldl]. rewrite IH. by destruct u.
Qed.
Lemma process_kill_step t q sr :
  s_killStep (fst (process t q sr)) = foldl kill_step_upd (s_killStep (fst sr)) q.
Proof.
  revert sr. induction q as [|u q IH]; intros [[p n cs tl lg kw ks rs sec] r]; [done|].
  unfold process in *. cbn [foldl]. rewrite IH. by destruct u.
Qed.
Lemma process_restored t q sr :
  s_restoredStep (fst (process t q sr)) = foldl restored_upd (s_restoredStep (fst sr)) q.
Proof.
  revert sr. induction q as [|u q IH]; intros [[p n cs tl lg kw ks rs sec] r]; [done|].
  unfold process in *. cbn [foldl]. rewrite IH. by destruct u.
Qed.
Lemma process_checkpoints t q sr :
  s_checkpoints (fst (process t q sr)) = foldl checkpoints_upd (s_checkpoints (fst sr)) q.
Proof.
  revert sr. induction q as [|u q IH]; intros [[p n cs tl lg kw ks rs sec] r]; [done|].
  unfold process in *. cbn [foldl]. rewrite IH. by destruct u.
Qed.
(** Only [nextEventIdRef] is written while the queue is processed. *)
Lemma process_refs t q sr :
  let r := snd sr in let r' := snd (process t q sr) in
  startTime r' = startTime r /\ lastCheckpoint r' = lastCheckpoint r /\
  lastLogStep r' = lastLogStep r /\ recoveryTimers r' = recoveryTimers r /\
  nextEventId r <= nextEventId r'.
Proof.
  revert sr. induction q as [|u q IH]; intros [[p n cs tl lg kw ks rs sec] r].
  - cbn. split_and!; done || lia.
  - unfold process in *. cbn [foldl]. cbv zeta in *.
    destruct (IH (apply_upd t (Sim p n cs tl lg kw ks rs sec, r) u)) as (-> & -> & -> & -> & Hn).
    destruct u; cbn in *; split_and!; done || lia.
Qed.

(** ** Well-formed checkpoints and timelines *)

Definition steps_of (cs : list sim_checkpoint) : list Z := map sc_step cs.
Definition last_step (cs : list sim_checkpoint) : Z := default 0 (sc_step <$> last cs).

(** Timeline: ids in strict order, all below the next one, and at most 18 entries. *)
Definition timeline_ok (tl : list timeline_event) (next : Z) : Prop :=
  increasing (map te_id tl) = true /\ Forall (fun e => te_id e < next) tl /\ (length tl <= 18)%nat.

(** Updates that only extend the lists. *)
Definition tame (u : upd) : bool :=
  match u with ClearCheckpoints | SetTimeline _ | SetLogs _ => false | _ => true end.

Lemma map_last_n {A B} (f : A -> B) n l : map f (Slice.last_n n l) = Slice.last_n n (map f l).
Proof. unfold Slice.last_n. by rewrite length_map, <- !fmap_drop. Qed.

Lemma timeline_push tl next e :
  timeline_ok tl next -> te_id e = next -> timeline_ok (Slice.push_then_slice 18 tl e) (next + 1).
Proof.
  intros (Hi & Hf & Hl) He. unfold Slice.push_then_slice. rewrite Slice.slice_neg by lia.
  split_and!.
  - rewrite map_last_n. apply increasing_last_n. rewrite map_app. apply increasing_snoc; [done|].
    apply Forall_map. unfold compose. rewrite He. exact Hf.
  - destruct (Slice.last_n_suffix (Z.to_nat 18) (tl ++ [e])) as (d & E).
    assert (F : Forall (fun x => te_id x < next + 1) (tl ++ [e])).
    { apply Forall_app. split; [|repeat constructor; lia].
      eapply Forall_impl; [exact Hf|]. cbn. lia. }
    rewrite E in F. apply Forall_app in F as [_ F]. exact F.
  - rewrite Slice.last_n_length. lia.
Qed.

Lemma process_tame_timeline t q sr :
  forallb tame q = true ->
  timeline_ok (s_timeline (fst sr)) (nextEventId (snd sr)) -> (length (s_logs (fst sr)) <= 14)%nat ->
  let sr' := process t q sr in
  timeline_ok (s_timeline (fst sr')) (nextEventId (snd sr')) /\ (length (s_logs (fst sr')) <= 14)%nat.
Proof.
  revert sr. induction q as [|u q IH]; intros [[p n cs tl lg kw ks rs sec] r] T Ht Hl; [done|].
  cbn [forallb] in T. bool_hyps. unfold process in *. cbn [foldl]. cbn [fst snd s_timeline s_logs] in *.
  apply IH; [done| |]; destruct u; cbn; try done.
  - by apply timeline_push.
  - pose proof (Slice.push_then_slice_length 14 lg line ltac:(lia)). lia.
Qed.

Lemma tame_checkpoints q cs :
  forallb tame q = true -> exists new, foldl checkpoints_upd cs q = cs ++ new.
Proof.
  revert cs. induction q as [|u q IH]; intros cs T; cbn [foldl].
  - exists []. by rewrite app_nil_r.
  - cbn [forallb] in T. bool_hyps.
    destruct u; cbn [checkpoints_upd]; try (by apply IH); try done.
    destruct (IH (cs ++ [c])) as (new & ->); [done|]. exists (c :: new). by rewrite <- app_assoc.
Qed.

Section Invariants.
Context `{MathLib}.

Definition checkpoint_ok (c : sim_checkpoint) : Prop :=
  c = make_checkpoint (sc_step c) /\ 50 <= sc_step c /\ sc_step c mod 50 = 0.

Definition checkpoints_ok (cs : list sim_checkpoint) : Prop :=
  increasing (steps_of cs) = true /\ Forall checkpoint_ok cs.

Lemma checkpoints_push cs k :
  checkpoints_ok cs -> last_step cs < k -> 50 <= k -> k mod 50 = 0 ->
  checkpoints_ok (cs ++ [make_checkpoint k]) /\ last_step (cs ++ [make_checkpoint k]) = k.
Proof.
  intros [Hi Hf] Hl Hk Hm. split; [split|].
  - unfold steps_of. rewrite map_app. cbn [map].
    destruct cs as [|c cs] using rev_ind; [done|]. clear IHcs.
    unfold last_step in Hl. rewrite last_snoc in Hl. cbn in Hl.
    unfold steps_of in Hi. rewrite map_app in *. cbn [map] in *.
    apply increasing_snoc; [done|]. apply Forall_app. split; [|by repeat constructor].
    eapply Forall_impl; [by apply increasing_app_lt|]. cbn. lia.
  - apply Forall_app. split; [done|]. repeat constructor; done.
  - unfold last_step. by rewrite last_snoc.
Qed.

(** ** Effects, by what they enqueue *)

(** What running the effects adds: updates that only extend the lists, and at most one
    checkpoint, later than the last one; the last-checkpoint ref follows it. *)
Definition effect_upd (u : upd) : bool :=
  match u with PushCheckpoint _ | AddEvent _ _ | AddLog _ => true | _ => false end.
Definition effect_adds (us : list upd) (r r' : refs) : Prop :=
  forallb effect_upd us = true /\ forallb tame us = true /\
  (forall p, foldl phase_upd p us = p) /\ (forall o, foldl restored_upd o us = o) /\
  startTime r' = startTime r /\ nextEventId r' = nextEventId r /\ recoveryTimers r' = recoveryTimers r /\
  (((forall cs, foldl checkpoints_upd cs us = cs) /\ lastCheckpoint r' = lastCheckpoint r) \/
   exists k, 50 <= k /\ k mod 50 = 0 /\ lastCheckpoint r < k /\ lastCheckpoint r' = k /\
     forall cs, foldl checkpoints_upd cs us = cs ++ [make_checkpoint k]).

Lemma effect_adds_none r : effect_adds [] r r.
Proof. unfold effect_adds. split_and!; try done. by left. Qed.

Lemma step_effect_spec w :
  exists us r', step_effect w = enqueue us (set_refs r' w) /\ effect_adds us (wrefs w) r'.
Proof.
  assert (E0 : w = enqueue [] (set_refs (wrefs w) w))
    by (destruct w as [? ? q ? ? ? ? ? ?]; cbv [enqueue set_refs]; cbn; by rewrite app_nil_r).
  unfold step_effect. destruct (negb _ || _)%bool; [eexists [], _; split; [exact E0|apply effect_adds_none]|].
  set (ls := s_step (committed w) / 25 * 25). set (k := s_step (committed w) / 50 * 50).
  assert (Hm : k mod 50 = 0) by (apply Z.mod_mul; lia).
  set (w1 := if lastLogStep (wrefs w) <? ls then _ else w).
  assert (F : exists us r1, w1 = enqueue us (set_refs r1 w) /\ effect_adds us (wrefs w) r1 /\
    lastCheckpoint r1 = lastCheckpoint (wrefs w) /\ (forall cs, foldl checkpoints_upd cs us = cs)).
  { subst w1. destruct (lastLogStep (wrefs w) <? ls).
    - eexists _, _. split_and!; [reflexivity| |done|done].
      unfold effect_adds. split_and!; try done. by left.
    - exists [], (wrefs w). split_and!; [done|apply effect_adds_none|done|done]. }
  destruct F as (us & r1 & -> & A & L & C).
  assert (W1 : wrefs (enqueue us (set_refs r1 w)) = r1) by done. rewrite W1.
  destruct ((50 <=? k) && (lastCheckpoint r1 <? k))%bool eqn:B; [|by exists us, r1].
  bool_hyps. eexists (us ++ _), _. split.
  - unfold enqueue, set_refs. cbn. by rewrite <- app_assoc.
  - destruct A as (A0 & A1 & A2 & A3 & A4 & A5 & A6 & _). unfold effect_adds. cbn.
    split_and!; try done.
    + by rewrite forallb_app, A0.
    + by rewrite forallb_app, A1.
    + intros p. by rewrite foldl_app, A2.
    + intros o. by rewrite foldl_app, A3.
    + right. exists k. split_and!; try done; [lia|]. intros cs. by rewrite foldl_app, C.
Qed.

Lemma flush_passive_spec w :
  exists us r',
    let w' := flush_passive w in
    effect_adds us (wrefs w) r' /\ queue w' = queue w ++ us /\ wrefs w' = r' /\
    now w' = now w /\ committed w' = committed w /\ timeouts w' = timeouts w /\
    next_handle w' = next_handle w /\ effects_of w' = Some (committed w).
Proof.
  unfold flush_passive.
  set (ct := match effects_of w with Some o => negb (Bool.eqb _ _) | None => true end).
  set (cs := match effects_of w with Some o => negb (_ =? _) | None => true end).
  set (cp := match effects_of w with Some o => negb (bool_decide _) | None => true end).
  set (w0 := set_intervals _ _ w).
  set (w1 := if (ct && _)%bool then _ else w0).
  assert (F1 : committed w1 = committed w /\ queue w1 = queue w /\ wrefs w1 = wrefs w /\
    timeouts w1 = timeouts w /\ next_handle w1 = next_handle w /\ now w1 = now w)
    by (subst w1; by destruct (ct && _)%bool).
  destruct F1 as (E1 & E2 & E3 & E4 & E5 & E6).
  destruct (step_effect_spec w1) as (us & r' & Es & A).
  destruct (ct || cs)%bool.
  - exists us, r'. rewrite Es. rewrite E3 in A. cbv zeta.
    split; [done|]. destruct (cp && _)%bool; cbn; rewrite ?E1, ?E2, ?E4, ?E5, ?E6; done.
  - exists [], (wrefs w). cbv zeta. rewrite app_nil_r. split; [apply effect_adds_none|].
    destruct (cp && _)%bool; cbn; rewrite ?E1, ?E2, ?E3, ?E4, ?E5, ?E6; done.
Qed.

(** ** The invariant on what the queue leads to *)

Definition vphase (w : world) : phase := foldl phase_upd (s_phase (committed w)) (queue w).
Definition vrestored (w : world) : option Z := foldl restored_upd (s_restoredStep (committed w)) (queue w).
Definition vcheckpoints (w : world) : list sim_checkpoint :=
  foldl checkpoints_upd (s_checkpoints (committed w)) (queue w).

(** The pending timeouts of each phase: both of a kill, then the second one, then none.
    [steps] are the steps they may restore. *)
Definition timers_ok (p : phase) (steps : list Z) (ts : list timeout) (next : nat) : Prop :=
  match p with
  | Failed => exists h d s, s ∈ steps /\ (S h < next)%nat /\
      ts = [Timeout h (d + 900) (ToRecovering s); Timeout (S h) (d + 3200) (ToRecovered s)]
  | Recovering => exists h d s, s ∈ steps /\ (h < next)%nat /\ ts = [Timeout h (d + 3200) (ToRecovered s)]
  | Idle | Running | Recovered => ts = []
  end.

Record core_ok (w : world) : Prop := {
  co_checkpoints : checkpoints_ok (vcheckpoints w);
  co_last : lastCheckpoint (wrefs w) = last_step (vcheckpoints w);
  co_restored s : vrestored w = Some s -> s ∈ steps_of (vcheckpoints w);
  co_timers : timers_ok (vphase w) (steps_of (vcheckpoints w)) (timeouts w) (next_handle w);
  (** every pending timeout is known to [clearRecoveryTimers] *)
  co_known : Forall (fun t => handle t ∈ recoveryTimers (wrefs w)) (timeouts w)
}.

Lemma steps_of_app cs cs' : steps_of (cs ++ cs') = steps_of cs ++ steps_of cs'.
Proof. apply map_app. Qed.

Lemma timers_ok_more p l l' ts n :
  (forall s, s ∈ l -> s ∈ l') -> timers_ok p l ts n -> timers_ok p l' ts n.
Proof. intros S. destruct p; cbn; [done|done| | |done]; intros (h & d & s & Hs & Hn & E); eauto 10. Qed.

Lemma core_flush w : core_ok w -> core_ok (flush_passive w).
Proof.
  intros [Hc Hl Hr Ht Hk].
  destruct (flush_passive_spec w) as (us & r' & (_ & A1 & A2 & A3 & A4 & A5 & A6 & A7) & Q & R & N & C & T & NH & _).
  assert (Vp : vphase (flush_passive w) = vphase w) by (unfold vphase; by rewrite C, Q, foldl_app, A2).
  assert (Vr : vrestored (flush_passive w) = vrestored w) by (unfold vrestored; by rewrite C, Q, foldl_app, A3).
  assert (Vc : vcheckpoints (flush_passive w) = foldl checkpoints_upd (vcheckpoints w) us)
    by (unfold vcheckpoints; by rewrite C, Q, foldl_app).
  destruct A7 as [[U L]|(k & Hk50 & Hkm & Hlt & Lk & U)]; rewrite U in Vc.
  - split; rewrite ?Vp, ?Vr, ?Vc, ?T, ?NH, ?R, ?A6, ?L; done.
  - destruct (checkpoints_push (vcheckpoints w) k) as [P1 P2]; try done; [congruence|].
    split; rewrite ?Vp, ?Vr, ?Vc, ?T, ?NH, ?R, ?A6, ?Lk, ?P2; try done.
    + intros s Hs. rewrite steps_of_app. apply elem_of_app. left. by apply Hr.
    + eapply timers_ok_more; [|exact Ht]. intros s Hs. rewrite steps_of_app. apply elem_of_app. by left.
Qed.

(** A render commits what the queue led to. *)
Lemma render_commits w :
  let w1 := flush_passive w in let w2 := render w in
  s_phase (committed w2) = vphase w1 /\ s_restoredStep (committed w2) = vrestored w1 /\
  s_checkpoints (committed w2) = vcheckpoints w1 /\ queue w2 = [] /\
  timeouts w2 = timeouts w1 /\ next_handle w2 = next_handle w1 /\
  lastCheckpoint (wrefs w2) = lastCheckpoint (wrefs w1) /\
  recoveryTimers (wrefs w2) = recoveryTimers (wrefs w1).
Proof.
  cbv zeta. unfold render. set (w1 := flush_passive w).
  pose proof (process_phase (now w1) (queue w1) (committed w1, wrefs w1)) as P.
  pose proof (process_restored (now w1) (queue w1) (committed w1, wrefs w1)) as R.
  pose proof (process_checkpoints (now w1) (queue w1) (committed w1, wrefs w1)) as C.
  destruct (process_refs (now w1) (queue w1) (committed w1, wrefs w1)) as (_ & L & _ & K & _).
  destruct (process _ _ _) as [s r]. cbn in *. split_and!; done.
Qed.

Lemma core_render w : core_ok w -> core_ok (render w).
Proof.
  intros C. apply core_flush in C. destruct C as [Hc Hl Hr Ht Hk].
  destruct (render_commits w) as (P & R & Cs & Q & T & N & L & K).
  assert (Vp : vphase (render w) = vphase (flush_passive w)) by (unfold vphase at 1; by rewrite Q, P).
  assert (Vr : vrestored (render w) = vrestored (flush_passive w)) by (unfold vrestored at 1; by rewrite Q, R).
  assert (Vc : vcheckpoints (render w) = vcheckpoints (flush_passive w)) by (unfold vcheckpoints at 1; by rewrite Q, Cs).
  split; rewrite ?Vp, ?Vr, ?Vc, ?T, ?N, ?L, ?K; done.
Qed.

(** Updates that touch none of these variables. *)
Lemma core_enqueue us w :
  (forall p, foldl phase_upd p us = p) -> (forall o, foldl restored_upd o us = o) ->
  (forall cs, foldl checkpoints_upd cs us = cs) -> core_ok w -> core_ok (enqueue us w).
Proof.
  intros E1 E2 E3 [Hc Hl Hr Ht Hk].
  assert (Vp : vphase (enqueue us w) = vphase w) by (unfold vphase; cbn; by rewrite foldl_app, E1).
  assert (Vr : vrestored (enqueue us w) = vrestored w) by (unfold vrestored; cbn; by rewrite foldl_app, E2).
  assert (Vc : vcheckpoints (enqueue us w) = vcheckpoints w) by (unfold vcheckpoints; cbn; by rewrite foldl_app, E3).
  split; rewrite ?Vp, ?Vr, ?Vc; done.
Qed.

(** Changes outside the fields it is about. *)
Lemma core_same w w' :
  committed w' = committed w -> queue w' = queue w -> wrefs w' = wrefs w ->
  timeouts w' = timeouts w -> next_handle w' = next_handle w -> core_ok w -> core_ok w'.
Proof.
  intros E1 E2 E3 E4 E5 [Hc Hl Hr Ht Hk].
  assert (Vp : vphase w' = vphase w) by (unfold vphase; by rewrite E1, E2).
  assert (Vr : vrestored w' = vrestored w) by (unfold vrestored; by rewrite E1, E2).
  assert (Vc : vcheckpoints w' = vcheckpoints w) by (unfold vcheckpoints; by rewrite E1, E2).
  split; rewrite ?Vp, ?Vr, ?Vc, ?E3, ?E4, ?E5; done.
Qed.

(** [clearRecoveryTimers] leaves no timeout. *)
Lemma clear_all w : core_ok w -> timeouts (clearRecoveryTimers w) = [].
Proof.
  intros C. pose proof (co_known _ C) as K. cbn.
  induction (timeouts w) as [|t ts IH]; [done|]. apply Forall_cons in K as [Kt Kts].
  rewrite filter_cons_False by tauto. by apply IH.
Qed.

Lemma core_start w : core_ok w -> core_ok (startSimulation w).
Proof.
  intros C. pose proof (clear_all w C) as T.
  assert (Vp : vphase (startSimulation w) = Running)
    by (unfold vphase, startSimulation; cbn; by rewrite foldl_app).
  assert (Vr : vrestored (startSimulation w) = None)
    by (unfold vrestored, startSimulation; cbn; by rewrite foldl_app).
  assert (Vc : vcheckpoints (startSimulation w) = [])
    by (unfold vcheckpoints, startSimulation; cbn; by rewrite foldl_app).
  assert (T' : timeouts (startSimulation w) = []) by exact T.
  split; rewrite ?Vp, ?Vr, ?Vc, ?T'; try done.
Qed.

Lemma core_kill n w s :
  core_ok w -> vphase w = Running -> s_phase (committed w) = Running ->
  last (s_checkpoints (committed w)) = Some s -> sc_step s ∈ steps_of (vcheckpoints w) ->
  core_ok (killSimulatedWorker n w).
Proof.
  intros C P Pc L Hs. pose proof (clear_all w C) as T. destruct C as [Hc Hl Hr Ht Hk].
  unfold killSimulatedWorker. rewrite Pc, L. set (w' := set_refs _ _).
  assert (Vp : vphase w' = Failed) by (unfold vphase; cbn; by rewrite foldl_app).
  assert (Vr : vrestored w' = None) by (unfold vrestored; cbn; by rewrite foldl_app).
  assert (Vc : vcheckpoints w' = vcheckpoints w) by (unfold vcheckpoints; cbn; by rewrite foldl_app).
  assert (T' : timeouts w' = [Timeout (next_handle w) (now w + 900) (ToRecovering (sc_step s));
                Timeout (S (next_handle w)) (now w + 3200) (ToRecovered (sc_step s))]).
  { cbn. cbn in T. by rewrite T. }
  split; rewrite ?Vp, ?Vr, ?Vc, ?T'; try done.
  - exists (next_handle w), (now w), (sc_step s). cbn. split_and!; [done|lia|done].
  - cbn. repeat constructor.
Qed.

Definition fire (t : timeout) (w : world) : world :=
  enqueue (callback_updates (fires t))
    (set_timeouts (filter (fun t' => handle t' <> handle t) (timeouts w)) (next_handle w) w).

Lemma core_timeout w t : core_ok w -> may_fire t w -> core_ok (fire t w).
Proof.
  intros [Hc Hl Hr Ht Hk] (Hin & _ & Ho).
  assert (Vc : vcheckpoints (fire t w) = vcheckpoints w)
    by (unfold vcheckpoints, fire; cbn; rewrite foldl_app; by destruct (fires t)).
  assert (K : Forall (fun t' => handle t' ∈ recoveryTimers (wrefs (fire t w))) (timeouts (fire t w))).
  { apply Forall_forall. intros x Hx. cbn in *. apply list_elem_of_filter in Hx as [_ Hx].
    rewrite Forall_forall in Hk. by apply Hk. }
  destruct (vphase w) eqn:P; cbn in Ht.
  1,2,5: rewrite Ht in Hin; by inversion Hin.
  - destruct Ht as (h & d & s & Hs & Hn & E). rewrite E in Hin.
    apply elem_of_cons in Hin as [->|Hin].
    + assert (Vp : vphase (fire (Timeout h (d + 900) (ToRecovering s)) w) = Recovering)
        by (unfold vphase, fire; cbn; by rewrite foldl_app).
      assert (Vr : vrestored (fire (Timeout h (d + 900) (ToRecovering s)) w) = vrestored w)
        by (unfold vrestored, fire; cbn; by rewrite foldl_app).
      split; rewrite ?Vp, ?Vr, ?Vc; try done.
      exists (S h), d, s. split_and!; [done|done|]. cbn. rewrite E.
      rewrite filter_cons_False by (cbn; tauto). rewrite filter_cons_True by (cbn; lia). done.
    + apply list_elem_of_singleton in Hin as ->. exfalso.
      specialize (Ho (Timeout h (d + 900) (ToRecovering s))). rewrite E in Ho.
      specialize (Ho ltac:(by left)). cbn in Ho. lia.
  - destruct Ht as (h & d & s & Hs & Hn & E). rewrite E in Hin.
    apply list_elem_of_singleton in Hin as ->.
    assert (Vp : vphase (fire (Timeout h (d + 3200) (ToRecovered s)) w) = Recovered)
      by (unfold vphase, fire; cbn; by rewrite foldl_app).
    assert (Vr : vrestored (fire (Timeout h (d + 3200) (ToRecovered s)) w) = Some s)
      by (unfold vrestored, fire; cbn; by rewrite foldl_app).
    split; rewrite ?Vp, ?Vr, ?Vc; try done.
    + intros s' [= <-]. done.
    + cbn. rewrite E. by rewrite filter_cons_False by (cbn; tauto).
Qed.

(** ** The invariant on the committed state *)

Record commit_ok (w : world) : Prop := {
  cm_tame : forallb tame (queue w) = true;
  (** no phase change is pending while the page shows a run that was not interrupted *)
  cm_phase : s_phase (committed w) = Idle \/ s_phase (committed w) = Running ->
    vphase w = s_phase (committed w);
  cm_checkpoints : checkpoints_ok (s_checkpoints (committed w));
  cm_restored s : s_restoredStep (committed w) = Some s -> s ∈ steps_of (s_checkpoints (committed w));
  cm_timeline : timeline_ok (s_timeline (committed w)) (nextEventId (wrefs w));
  cm_logs : (length (s_logs (committed w)) <= 14)%nat
}.

Record ok (w : world) : Prop := { ok_core : core_ok w; ok_commit : commit_ok w }.

(** Steps that extend the queue with tame updates and keep the commit. *)
Lemma commit_extend w w' us :
  commit_ok w -> committed w' = committed w -> queue w' = queue w ++ us ->
  forallb tame us = true -> nextEventId (wrefs w') = nextEventId (wrefs w) ->
  (s_phase (committed w) = Idle \/ s_phase (committed w) = Running ->
     foldl phase_upd (vphase w) us = vphase w) ->
  commit_ok w'.
Proof.
  intros [Ct Cp Cc Cr Ctl Cl] C Q Tus N P. split; rewrite ?C, ?Q, ?N; try done.
  - by rewrite forallb_app, Ct.
  - intros Hp. rewrite <- (Cp Hp). unfold vphase. rewrite C, Q, foldl_app. by apply P.
Qed.

Lemma ok_flush w : ok w -> ok (flush_passive w).
Proof.
  intros [Co Cm]. split; [by apply core_flush|].
  destruct (flush_passive_spec w) as (us & r' & (_ & A1 & A2 & A3 & A4 & A5 & A6 & A7) & Q & R & N & C & _).
  eapply commit_extend; [exact Cm|done|exact Q|done|by rewrite R|]. intros _. apply A2.
Qed.

(** The lists after a render of a world whose queue, after the effects, is [q1 ++ q2]:
    they are in order when [q1] leaves them so and [q2] is tame. *)
Lemma commit_render_split w q1 q2 :
  core_ok w -> queue (flush_passive w) = q1 ++ q2 -> forallb tame q2 = true ->
  (let sr := process (now (flush_passive w)) q1 (committed (flush_passive w), wrefs (flush_passive w)) in
   timeline_ok (s_timeline (fst sr)) (nextEventId (snd sr)) /\ (length (s_logs (fst sr)) <= 14)%nat) ->
  commit_ok (render w).
Proof.
  intros C E T S. apply core_flush in C.
  destruct (render_commits w) as (P & R & Cs & Q & _).
  assert (L : timeline_ok (s_timeline (committed (render w))) (nextEventId (wrefs (render w))) /\
              (length (s_logs (committed (render w))) <= 14)%nat).
  { unfold render. rewrite E. unfold process. rewrite foldl_app.
    pose proof (process_tame_timeline (now (flush_passive w)) q2 _ T (proj1 S) (proj2 S)) as L.
    unfold process in L. destruct (foldl _ (foldl _ _ _) _) as [s r]. exact L. }
  destruct C as [Hc Hl Hr Ht Hk]. split; rewrite ?Q, ?Cs, ?R; try done; try apply L.
  intros _. unfold vphase at 1. by rewrite Q.
Qed.

Lemma commit_render w :
  core_ok w -> forallb tame (queue w) = true ->
  timeline_ok (s_timeline (committed w)) (nextEventId (wrefs w)) ->
  (length (s_logs (committed w)) <= 14)%nat -> commit_ok (render w).
Proof.
  intros C T Tl Lg. apply (commit_render_split w [] (queue (flush_passive w))); [done|done| |];
    destruct (flush_passive_spec w) as (us & r' & (_ & A1 & _ & _ & _ & A5 & _) & Q & R & _ & Cm & _).
  - by rewrite Q, forallb_app, T.
  - cbv zeta. unfold process. cbn [foldl fst snd]. by rewrite Cm, R, A5.
Qed.

Lemma ok_render w : ok w -> ok (render w).
Proof.
  intros [Co [Ct _ _ _ Ctl Cl]]. split; [by apply core_render|by apply commit_render].
Qed.

(** The queue of a start resets the lists. *)
Lemma commit_start w : ok w -> commit_ok (render (startSimulation w)).
Proof.
  intros O. pose proof (core_start w (ok_core _ O)) as C.
  destruct (flush_passive_spec (startSimulation w)) as (us & r' & A & Q & R & N & Cm & _).
  destruct A as (_ & A1 & _ & _ & _ & A5 & _).
  eapply (commit_render_split _ _ us); [done|exact Q|done|].
  rewrite Cm, R. cbn [startSimulation enqueue queue committed set_refs set_timeouts clearRecoveryTimers].
  unfold process. rewrite foldl_app.
  destruct (process_refs (now (flush_passive (startSimulation w))) (queue w) (committed w, r'))
    as (_ & _ & _ & _ & M). unfold process in M. cbn [snd] in M. rewrite A5 in M.
  destruct (foldl _ (committed w, r') (queue w)) as [[p n cs tl lg kw ks rs sec] r].
  cbn in M |- *. split; [|lia].
  split_and!; [done|repeat constructor; cbn; lia|cbn; lia].
Qed.

(** A kill does nothing, or it is a kill of a running worker with a checkpoint. *)
Lemma ok_kill n w : ok w -> ok (render (killSimulatedWorker n w)).
Proof.
  intros O. pose proof O as [Co Cm].
  destruct (s_phase (committed w)) eqn:P;
    try (by unfold killSimulatedWorker; rewrite P; apply ok_render).
  destruct (last (s_checkpoints (committed w))) as [c|] eqn:L;
    [|by unfold killSimulatedWorker; rewrite P, L; apply ok_render].
  assert (C' : core_ok (killSimulatedWorker n w)).
  { apply (core_kill n w c); try done.
    - rewrite <- P. apply (cm_phase _ Cm). by right.
    - destruct (tame_checkpoints (queue w) (s_checkpoints (committed w)) (cm_tame _ Cm)) as (new & E).
      unfold vcheckpoints. rewrite E, steps_of_app. apply elem_of_app. left.
      apply list_elem_of_fmap. exists c. split; [done|]. apply last_Some in L as (l & ->).
      apply elem_of_app. right. by left. }
  split; [by apply core_render|]. destruct Cm as [Ct _ _ _ Ctl Cl].
  apply commit_render; [done| | |]; unfold killSimulatedWorker; rewrite P, L; cbn; try done.
  by rewrite forallb_app, Ct.
Qed.

Lemma ok_click c w : ok w -> ok (on_click c w).
Proof.
  intros O. apply ok_flush. destruct c as [|n]; cbn [handler]; [|by apply ok_kill].
  split; [apply core_render, core_start, O|by apply commit_start].
Qed.

Lemma ok_step w w' : step w w' -> ok w -> ok w'.
Proof.
  intros S [Co Cm].
  destruct S as [w t _|w c|w|w|w d _ _|w d _ _|w t F].
  - split; [by eapply core_same; [..|exact Co]|].
    eapply (commit_extend w _ []); try done. by rewrite app_nil_r.
  - by apply ok_click.
  - by apply ok_flush.
  - by apply ok_render.
  - split; [|by eapply commit_extend; [exact Cm|..]].
    apply core_enqueue; try done. by eapply core_same; [..|exact Co].
  - split; [|by eapply commit_extend; [exact Cm|..]].
    apply core_enqueue; try done. by eapply core_same; [..|exact Co].
  - split; [by apply core_timeout|].
    eapply (commit_extend w _ (callback_updates (fires t))); try done.
    + by destruct (fires t).
    + intros P. exfalso. destruct F as (Hin & _ & _).
      pose proof (cm_phase _ Cm P) as E. pose proof (co_timers _ Co) as T. rewrite E in T.
      destruct P as [P|P]; rewrite P in T; cbn in T; rewrite T in Hin; by inversion Hin.
Qed.

Lemma ok_init : ok init_world.
Proof.
  split; [split|split]; cbn; try done; try constructor; try done; try lia.
  split; [constructor|cbn; lia].
Qed.

Lemma reachable_ok w : reachable w -> ok w.
Proof.
  unfold reachable. intros R.
  enough (G : forall w0, rtc step w0 w -> ok w0 -> ok w) by (by apply (G init_world), ok_init).
  clear R. intros w0 R. induction R as [|x y z S R IH]; [done|].
  intros O. by apply IH, (ok_step x).
Qed.

End Invariants.

(** ** Effects and their intervals *)

Section Effects.
Context `{MathLib}.

(** What holds of the effects that ran last: an interval is live exactly when its effect
    started it, and the last-checkpoint ref has reached the step they saw. *)
Definition caught_up (s : sim) (r : refs) : Prop :=
  is_training (s_phase s) = true -> 50 <= s_step s / 50 * 50 -> s_step s / 50 * 50 <= lastCheckpoint r.
Definition intervals_ok (w : world) : Prop :=
  forall o, effects_of w = Some o ->
    (training w = None <-> is_training (s_phase o) = false) /\
    (recovery w = None <-> in_recovery (s_phase o) = false).
Definition effects_ok (w : world) : Prop :=
  intervals_ok w /\ (forall o, effects_of w = Some o -> caught_up o (wrefs w)) /\
  (effects_of w = None -> training w = None /\ recovery w = None).

Lemma step_effect_caught_up w : caught_up (committed w) (wrefs (step_effect w)).
Proof.
  unfold caught_up, step_effect. intros T K. rewrite T. cbn [negb orb].
  destruct (Z.eqb_spec (s_step (committed w)) 0) as [E|E]; [rewrite E in K; change (0 / 50 * 50) with 0 in K; lia|].
  set (w1 := if lastLogStep (wrefs w) <? _ then _ else w).
  assert (L : lastCheckpoint (wrefs w1) = lastCheckpoint (wrefs w))
    by (subst w1; by destruct (lastLogStep (wrefs w) <? _)).
  destruct ((50 <=? _) && _)%bool eqn:B; [cbn; lia|].
  apply andb_false_iff in B as [B|B]; bool_hyps; lia.
Qed.

Lemma caught_up_more s r r' : lastCheckpoint r <= lastCheckpoint r' -> caught_up s r -> caught_up s r'.
Proof. unfold caught_up. intros L C T K. specialize (C T K). lia. Qed.

Lemma effect_adds_last us r r' : effect_adds us r r' -> lastCheckpoint r <= lastCheckpoint r'.
Proof. intros (_ & _ & _ & _ & _ & _ & _ & [[_ E]|(k & _ & _ & L & E & _)]); lia. Qed.

(** The dependencies of the effects. *)
Definition same_deps (o s : sim) : bool :=
  Bool.eqb (is_training (s_phase o)) (is_training (s_phase s)) && (s_step o =? s_step s).

Lemma step_effect_training w : training (step_effect w) = training w.
Proof. by destruct (step_effect_spec w) as (us & r' & -> & _). Qed.
Lemma step_effect_recovery w : recovery (step_effect w) = recovery w.
Proof. by destruct (step_effect_spec w) as (us & r' & -> & _). Qed.

Definition training_changed (w : world) : bool :=
  match effects_of w with
  | Some o => negb (Bool.eqb (is_training (s_phase o)) (is_training (s_phase (committed w))))
  | None => true
  end.
Definition phase_changed (w : world) : bool :=
  match effects_of w with
  | Some o => negb (bool_decide (s_phase o = s_phase (committed w)))
  | None => true
  end.

Lemma flush_training w :
  training (flush_passive w) =
    if training_changed w
    then if is_training (s_phase (committed w)) then Some (now w + 250) else None
    else training w.
Proof.
  unfold flush_passive. fold (training_changed w) (phase_changed w).
  set (cs := match effects_of w with Some o => negb (_ =? _) | None => true end).
  destruct (training_changed w), cs, (phase_changed w), (is_training (s_phase (committed w))),
    (in_recovery (s_phase (committed w))); cbn [andb orb];
    cbn [training set_effects_of set_intervals]; rewrite ?step_effect_training; done.
Qed.

Lemma flush_recovery w :
  recovery (flush_passive w) =
    if phase_changed w
    then if in_recovery (s_phase (committed w)) then Some (now w + 100) else None
    else recovery w.
Proof.
  unfold flush_passive. fold (training_changed w) (phase_changed w).
  set (cs := match effects_of w with Some o => negb (_ =? _) | None => true end).
  assert (N : forall x, now (step_effect x) = now x)
    by (intros x; by destruct (step_effect_spec x) as (us & r' & -> & _)).
  destruct (training_changed w), cs, (phase_changed w), (is_training (s_phase (committed w))),
    (in_recovery (s_phase (committed w))); cbn [andb orb];
    cbn [recovery set_effects_of set_intervals]; rewrite ?step_effect_recovery, ?N; done.
Qed.

Lemma flush_intervals_ok w :
  intervals_ok w -> (effects_of w = None -> training w = None /\ recovery w = None) ->
  intervals_ok (flush_passive w).
Proof.
  intros Hi Hn. destruct (flush_passive_spec w) as (us & r' & _ & _ & _ & _ & _ & _ & _ & E).
  intros o Ho. rewrite E in Ho. injection Ho as <-. rewrite flush_training, flush_recovery.
  unfold training_changed, phase_changed. split.
  - destruct (effects_of w) as [o|] eqn:Eo.
    + destruct (Hi o Eo) as [H1 _].
      destruct (Bool.eqb_spec (is_training (s_phase o)) (is_training (s_phase (committed w)))) as [<-|];
        cbn [negb]; [done|]. by destruct (is_training (s_phase (committed w))).
    + by destruct (is_training (s_phase (committed w))).
  - destruct (effects_of w) as [o|] eqn:Eo.
    + destruct (Hi o Eo) as [_ H2]. case_bool_decide as D; cbn [negb].
      * by rewrite <- D.
      * by destruct (in_recovery (s_phase (committed w))).
    + by destruct (in_recovery (s_phase (committed w))).
Qed.

Lemma flush_effects_ok w : effects_ok w -> effects_ok (flush_passive w).
Proof.
  intros (Hi & Hc & Hn).
  destruct (flush_passive_spec w) as (us & r' & A & _ & R & _ & _ & _ & _ & E).
  pose proof (effect_adds_last _ _ _ A) as L.
  split_and!; [by apply flush_intervals_ok| |by rewrite E].
  - intros o Ho. rewrite E in Ho. injection Ho as <-.
    assert (Old : forall o, effects_of w = Some o -> same_deps o (committed w) = true ->
                  caught_up (committed w) (wrefs (flush_passive w))).
    { intros o Ho Sd. unfold same_deps in Sd. bool_hyps.
      apply Bool.eqb_prop in H0. specialize (Hc o Ho). unfold caught_up in *.
      rewrite <- H0, <- H1, R. intros T K. specialize (Hc T K). lia. }
    unfold flush_passive. fold (training_changed w) (phase_changed w).
    set (cs := match effects_of w with Some o => negb (s_step o =? _) | None => true end).
    destruct (training_changed w || cs)%bool eqn:B.
    + set (w1 := if (training_changed w && _)%bool then _ else _).
      pose proof (step_effect_caught_up w1) as C.
      assert (committed w1 = committed w) as F
        by (subst w1; by destruct (training_changed w && _)%bool).
      rewrite F in C. by destruct (phase_changed w && _)%bool.
    + apply orb_false_elim in B as [B1 B2]. subst cs. unfold training_changed in B1.
      destruct (effects_of w) as [o|] eqn:Eo; [|done].
      assert (Sd : same_deps o (committed w) = true).
      { unfold same_deps. apply negb_false_iff in B1, B2. by rewrite B1, B2. }
      specialize (Old o eq_refl Sd). unfold flush_passive in Old.
      fold (training_changed w) (phase_changed w) in Old. rewrite Eo in Old.
      assert (training_changed w = false) as T0 by (unfold training_changed; by rewrite Eo).
      rewrite T0 in *. rewrite B2 in Old. exact Old.
Qed.

Lemma process_last t q sr : lastCheckpoint (snd (process t q sr)) = lastCheckpoint (snd sr).
Proof. by destruct (process_refs t q sr) as (_ & E & _). Qed.

Lemma render_fields w :
  training (render w) = training (flush_passive w) /\ recovery (render w) = recovery (flush_passive w) /\
  effects_of (render w) = effects_of (flush_passive w) /\
  lastCheckpoint (wrefs (render w)) = lastCheckpoint (wrefs (flush_passive w)) /\ queue (render w) = [].
Proof.
  unfold render.
  pose proof (process_last (now (flush_passive w)) (queue (flush_passive w))
                (committed (flush_passive w), wrefs (flush_passive w))) as L.
  destruct (process _ _ _) as [s r]. split_and!; done.
Qed.

Lemma render_effects_ok w : effects_ok w -> effects_ok (render w).
Proof.
  intros O. destruct (flush_effects_ok w O) as (Hi & Hc & Hn).
  destruct (render_fields w) as (E1 & E2 & E3 & E4 & _).
  unfold effects_ok, intervals_ok. rewrite E1, E2, E3. split_and!; [exact Hi| |exact Hn].
  intros o Ho. eapply caught_up_more; [|by apply Hc]. lia.
Qed.

Lemma start_fields w :
  let w1 := startSimulation w in
  training w1 = training w /\ recovery w1 = recovery w /\ effects_of w1 = effects_of w /\
  committed w1 = committed w.
Proof. done. Qed.

Lemma kill_effects_ok n w : effects_ok w -> effects_ok (killSimulatedWorker n w).
Proof.
  intros (Hi & Hc & Hn). unfold killSimulatedWorker.
  destruct (s_phase (committed w)); try done.
  destruct (last (s_checkpoints (committed w))) as [c|]; [|done].
  split_and!; [exact Hi|exact Hc|exact Hn].
Qed.

(** The committed step after a start. *)
Lemma start_step w : s_step (committed (render (startSimulation w))) = 0.
Proof.
  unfold render.
  destruct (flush_passive_spec (startSimulation w)) as (us & r' & (A0 & _) & Q & _ & _ & C & _).
  pose proof (process_step (now (flush_passive (startSimulation w))) (queue (flush_passive (startSimulation w)))
                (committed (flush_passive (startSimulation w)), wrefs (flush_passive (startSimulation w)))) as P.
  destruct (process _ _ _) as [s r]. cbn in *. rewrite P, Q. cbn.
  rewrite !foldl_app. cbn. clear - A0.
  induction us as [|u us IH]; [done|]. cbn in A0. bool_hyps. destruct u; cbn; try done; by apply IH.
Qed.

Lemma start_effects_ok w : effects_ok w -> effects_ok (on_click Start w).
Proof.
  intros (Hi & Hc & Hn). unfold on_click. cbn [handler].
  assert (I1 : intervals_ok (render (startSimulation w)) /\ effects_of (render (startSimulation w)) <> None).
  { destruct (render_fields (startSimulation w)) as (E1 & E2 & E3 & _ & _).
    destruct (flush_passive_spec (startSimulation w)) as (us & r' & _ & _ & _ & _ & _ & _ & _ & E).
    split; [|by rewrite E3, E].
    unfold intervals_ok. rewrite E1, E2, E3. by apply flush_intervals_ok. }
  destruct I1 as [I1 Ne].
  destruct (flush_passive_spec (render (startSimulation w))) as (us & r' & _ & _ & _ & _ & _ & _ & _ & E).
  split_and!; [by apply flush_intervals_ok| |by rewrite E].
  intros o Ho. rewrite E in Ho. injection Ho as <-. unfold caught_up. rewrite start_step.
  change (0 / 50 * 50) with 0. lia.
Qed.

Lemma step_effects_ok w w' : step w w' -> effects_ok w -> effects_ok w'.
Proof.
  intros S O. destruct S as [w t _|w c|w|w|w d T _|w d T _|w t _].
  - exact O.
  - destruct c as [|n]; [by apply start_effects_ok|].
    by apply flush_effects_ok, render_effects_ok, kill_effects_ok.
  - by apply flush_effects_ok.
  - by apply render_effects_ok.
  - destruct O as (Hi & Hc & Hn). split_and!; [|exact Hc|].
    + intros o Ho. destruct (Hi o Ho) as [H1 H2]. split; [|exact H2]. cbn. rewrite <- H1, T. done.
    + intros Ho. destruct (Hn Ho) as [E _]. by rewrite T in E.
  - destruct O as (Hi & Hc & Hn). split_and!; [|exact Hc|].
    + intros o Ho. destruct (Hi o Ho) as [H1 H2]. split; [exact H1|]. cbn. rewrite <- H2, T. done.
    + intros Ho. destruct (Hn Ho) as [_ E]. by rewrite T in E.
  - exact O.
Qed.

Lemma reachable_effects_ok w : reachable w -> effects_ok w.
Proof.
  unfold reachable. intros R.
  enough (G : forall w0, rtc step w0 w -> effects_ok w0 -> effects_ok w)
    by (by apply (G init_world); [|split_and!]).
  clear R. intros w0 R. induction R as [|x y z S R IH]; [done|].
  intros O. by apply IH, (step_effects_ok x).
Qed.

End Effects.
