(* ===== verification/SimulationProps.v ===== *)
(** * Properties of the browser simulation

    The theorems on [DemoPage]: what holds in every interleaving of clicks, timers,
    renders and effects, and what a prompt browser guarantees besides. *)

From Stdlib Require Import Ascii.
From S2P Require Import Prelude JsString JsNum Host Simulation SimulationInv.

Section Safety.
Context `{MathLib}.

(** A hash identifies its step. *)
Lemma hash_inj n m : 0 < n -> 0 < m -> sc_hash (make_checkpoint n) = sc_hash (make_checkpoint m) -> n = m.
Proof.
  intros Hn Hm E. cbn [sc_hash make_checkpoint] in E. apply (f_equal units) in E.
  rewrite !units_app in E. apply app_inv_head in E. apply app_inv_tail in E.
  assert (V : forall k, 0 < k -> radix_value 16 (units (pad_start 4 "0"%char (to_radix 16 k))) = Some k).
  { intros k Hk. unfold pad_start. rewrite units_of_units, radix_value_zeros by lia.
    apply to_radix_value; lia. }
  pose proof (V n Hn) as Vn. rewrite E, (V m Hm) in Vn. by injection Vn.
Qed.

Lemma hashes_nodup cs : checkpoints_ok cs -> NoDup (map sc_hash cs).
Proof.
  intros [Hi Hf].
  assert (E : map sc_hash cs = map (fun n => sc_hash (make_checkpoint n)) (steps_of cs)).
  { unfold steps_of. rewrite map_map. apply map_ext_in. intros c Hc.
    rewrite Forall_forall in Hf. destruct (Hf c) as (-> & _); [by apply list_elem_of_In|done]. }
  rewrite E. apply NoDup_fmap_2_strong; [|by apply increasing_nodup].
  intros n m Hn Hm. apply list_elem_of_fmap in Hn as (c & -> & Hc). apply list_elem_of_fmap in Hm as (d & -> & Hd).
  rewrite Forall_forall in Hf. destruct (Hf c Hc) as (_ & ? & _). destruct (Hf d Hd) as (_ & ? & _).
  apply hash_inj; lia.
Qed.

(** C4: in every interleaving of clicks, timers, renders and effects, the checkpoints
    shown are at strictly increasing positive multiples of 50, each built from its step,
    with distinct hashes, and a restored step is the step of one of them. *)
Theorem simulation_checkpoints (w : world) :
  reachable w ->
  let s := committed w in
  increasing (map sc_step (s_checkpoints s)) = true /\
  Forall (fun c => c = make_checkpoint (sc_step c) /\ 50 <= sc_step c /\ sc_step c mod 50 = 0)
    (s_checkpoints s) /\
  NoDup (map sc_hash (s_checkpoints s)) /\
  (forall r, s_restoredStep s = Some r -> exists c, c ∈ s_checkpoints s /\ sc_step c = r).
Proof.
  intros R. destruct (reachable_ok w R) as [_ [_ _ Hc Hr _ _]]. destruct Hc as [Hi Hf] eqn:E.
  split_and!; [exact Hi|exact Hf|by apply hashes_nodup|].
  intros r Er. apply Hr, list_elem_of_fmap in Er as (c & -> & Hin). by exists c.
Qed.

(** in every interleaving, the timeline holds at most 18 events with strictly
    increasing ids, and the log at most 14 lines. *)
Theorem simulation_timeline (w : world) :
  reachable w ->
  let s := committed w in
  increasing (map te_id (s_timeline s)) = true /\ (length (s_timeline s) <= 18)%nat /\
  (length (s_logs s) <= 14)%nat.
Proof.
  intros R. destruct (reachable_ok w R) as [_ [_ _ _ _ (Hi & _ & Hl) Hg]]. done.
Qed.

(** Nothing is queued and the effects of the committed state have run. *)
Definition quiescent (w : world) : Prop := queue w = [] /\ effects_of w = Some (committed w).

(** C19: whenever the page is at rest, the training interval is live exactly while
    running or recovered and the recovery clock exactly while failed or recovering; the
    pending timeouts are both of the kill (2300 ms apart) in the failed phase, the
    second alone while recovering, and none otherwise. At any time, a restart and an
    unmount leave no timeout of an earlier kill. *)
Theorem simulation_timers (w : world) :
  reachable w ->
  (quiescent w ->
     (training w = None <-> is_training (s_phase (committed w)) = false) /\
     (recovery w = None <-> in_recovery (s_phase (committed w)) = false) /\
     timers_ok (s_phase (committed w)) (steps_of (s_checkpoints (committed w)))
       (timeouts w) (next_handle w)) /\
  timeouts (on_click Start w) = [] /\
  (timeouts (unmount w) = [] /\ training (unmount w) = None /\ recovery (unmount w) = None).
Proof.
  intros R. pose proof (reachable_ok w R) as [Co Cm].
  split_and!.
  - intros [Q E]. destruct (reachable_effects_ok w R) as (Hi & _ & _).
    destruct (Hi _ E) as [H1 H2]. split_and!; try apply H1; try apply H2.
    pose proof (co_timers _ Co) as T. unfold vphase, vcheckpoints in T. by rewrite Q in T.
  - unfold on_click. cbn [handler].
    destruct (flush_passive_spec (render (startSimulation w))) as (? & ? & _ & _ & _ & _ & _ & T & _).
    rewrite T. destruct (render_commits (startSimulation w)) as (_ & _ & _ & _ & T2 & _). rewrite T2.
    destruct (flush_passive_spec (startSimulation w)) as (? & ? & _ & _ & _ & _ & _ & T3 & _).
    rewrite T3. by apply (clear_all w).
  - by apply (clear_all w).
  - done.
  - done.
Qed.
End Safety.

(** ** The prompt schedule

    A browser that keeps up: the clock moves by 50 ms, what is due fires, and React
    renders and runs effects until nothing is queued. It is one of the interleavings. *)

Section Prompt.
Context `{MathLib}.

Definition fire_training (w : world) : world :=
  match training w with
  | Some d => if d <=? now w
              then enqueue [AddStep 5] (set_intervals (Some (now w + 250)) (recovery w) w) else w
  | None => w
  end.
Definition fire_recovery (w : world) : world :=
  match recovery w with
  | Some d => if d <=? now w
              then enqueue [TickRecoverySeconds] (set_intervals (training w) (Some (now w + 100)) w) else w
  | None => w
  end.
Definition fire_timeouts (w : world) : world :=
  foldl (fun w' t => if due t <=? now w then fire t w' else w') w (timeouts w).
Definition fire_due (w : world) : world :=
  fire_timeouts (fire_recovery (fire_training (set_now (now w + 50) w))).

Fixpoint settle (fuel : nat) (w : world) : world :=
  let w1 := flush_passive w in
  match fuel, queue w1 with
  | S f, _ :: _ => settle f (render w1)
  | _, _ => w1
  end.
Definition advance (w : world) : world := settle 3 (fire_due w).

Lemma rtc_fire_training w : rtc step w (fire_training w).
Proof.
  unfold fire_training. destruct (training w) as [d|] eqn:T; [|done].
  destruct (Z.leb_spec d (now w)); [|done]. apply rtc_once. by eapply step_training.
Qed.
Lemma rtc_fire_recovery w : rtc step w (fire_recovery w).
Proof.
  unfold fire_recovery. destruct (recovery w) as [d|] eqn:T; [|done].
  destruct (Z.leb_spec d (now w)); [|done]. apply rtc_once. by eapply step_recovery.
Qed.
Lemma rtc_settle fuel w : rtc step w (settle fuel w).
Proof.
  revert w. induction fuel as [|f IH]; intros w; cbn [settle].
  - apply rtc_once, step_flush.
  - destruct (queue (flush_passive w)); [apply rtc_once, step_flush|].
    eapply rtc_l; [apply step_flush|]. eapply rtc_l; [apply step_render|]. apply IH.
Qed.
Lemma rtc_advance w :
  rtc step (fire_recovery (fire_training (set_now (now w + 50) w))) (fire_due w) ->
  rtc step w (advance w).
Proof.
  intros T. eapply rtc_l; [apply (step_time _ (now w + 50)); lia|].
  etrans; [apply rtc_fire_training|]. etrans; [apply rtc_fire_recovery|].
  etrans; [exact T|]. apply rtc_settle.
Qed.

(** Effects whose dependencies have not changed do nothing. *)
Lemma flush_idle w o :
  effects_of w = Some o -> s_phase o = s_phase (committed w) -> s_step o = s_step (committed w) ->
  flush_passive w = set_effects_of (committed w) w.
Proof.
  intros E P N. unfold flush_passive. rewrite E, P, N, Z.eqb_refl, bool_decide_eq_true_2 by done.
  rewrite Bool.eqb_reflx. by destruct w.
Qed.

(** Outside training the effects enqueue nothing. *)
Lemma step_effect_not_training w : is_training (s_phase (committed w)) = false -> step_effect w = w.
Proof. intros T. unfold step_effect. by rewrite T. Qed.

Lemma flush_not_training w :
  is_training (s_phase (committed w)) = false ->
  queue (flush_passive w) = queue w /\ wrefs (flush_passive w) = wrefs w.
Proof.
  intros T. unfold flush_passive.
  set (ct := match effects_of w with Some o => negb (Bool.eqb _ _) | None => true end).
  set (cs := match effects_of w with Some o => negb (_ =? _) | None => true end).
  set (cp := match effects_of w with Some o => negb (bool_decide _) | None => true end).
  cbv zeta. rewrite T, andb_false_r.
  destruct (ct || cs)%bool; [rewrite step_effect_not_training by exact T|];
    by destruct (cp && in_recovery (s_phase (committed w)))%bool.
Qed.

(** A page that waits for a recovery timeout. *)
Record waiting (p : phase) (n : Z) (ks : option Z) (cs : list sim_checkpoint) (ts : list timeout)
    (t : Z) (w : world) : Prop := {
  wt_phase : s_phase (committed w) = p;
  wt_step : s_step (committed w) = n;
  wt_kill : s_killStep (committed w) = ks;
  wt_checkpoints : s_checkpoints (committed w) = cs;
  wt_queue : queue w = [];
  wt_training : training w = None;
  wt_timeouts : timeouts w = ts;
  wt_now : now w = t;
  wt_effects o : effects_of w = Some o -> s_phase o = p /\ s_step o = n;
  wt_ran : effects_of w <> None
}.

(** What firing the intervals leaves of such a page: at most a clock tick is queued. *)
Lemma waiting_fire p n ks cs ts t w :
  waiting p n ks cs ts t w ->
  let w1 := fire_recovery (fire_training (set_now (now w + 50) w)) in
  committed w1 = committed w /\ (queue w1 = [] \/ queue w1 = [TickRecoverySeconds]) /\
  training w1 = None /\ timeouts w1 = ts /\ now w1 = t + 50 /\ effects_of w1 = effects_of w.
Proof.
  intros [P N K C Q T TS Nw E R]. cbv zeta. unfold fire_training. cbn. rewrite T.
  unfold fire_recovery. cbn. destruct (recovery w) as [d|]; [|split_and!; try done; [by left|by rewrite Nw]].
  destruct (d <=? now w + 50); cbn; split_and!; try done; try (by rewrite Nw).
  - right. by rewrite Q.
  - by left.
Qed.

Lemma fire_none w : Forall (fun t => now w < due t) (timeouts w) -> fire_timeouts w = w.
Proof.
  unfold fire_timeouts. generalize (timeouts w) at 1 2. intros l F.
  induction l as [|t l IH]; [done|]. apply Forall_cons in F as [Ft F]. cbn.
  destruct (Z.leb_spec (due t) (now w)); [lia|]. by apply IH.
Qed.

(** The committed state after settling from a queue, when nothing before the first
    render has changed the dependencies of the effects. *)
Lemma settle_once f w o :
  effects_of w = Some o -> s_phase o = s_phase (committed w) -> s_step o = s_step (committed w) ->
  queue w <> [] ->
  settle (S f) w = settle f (render (set_effects_of (committed w) w)).
Proof.
  intros E P N Q. cbn [settle]. rewrite (flush_idle w o) by done. cbn.
  by destruct (queue w).
Qed.
Lemma settle_done f w :
  queue (flush_passive w) = [] -> settle f w = flush_passive w.
Proof. intros Q. destruct f; cbn [settle]; [done|]. cbv zeta. by rewrite Q. Qed.

(** An idle render commits the processed queue. *)
Lemma render_idle w o :
  effects_of w = Some o -> s_phase o = s_phase (committed w) -> s_step o = s_step (committed w) ->
  let '(s, r) := process (now w) (queue w) (committed w, wrefs w) in
  render w = World (now w) s [] r (timeouts w) (next_handle w) (training w) (recovery w)
               (Some (committed w)).
Proof.
  intros E P N. unfold render. rewrite (flush_idle w o) by done.
  cbn [now committed queue wrefs timeouts next_handle training recovery effects_of set_effects_of].
  by destruct (process _ _ _) as [s r].
Qed.

(** After one render the effects of a page out of training settle at once. *)
Lemma settle_render f w o :
  effects_of w = Some o -> s_phase o = s_phase (committed w) -> s_step o = s_step (committed w) ->
  queue w <> [] ->
  is_training (s_phase (fst (process (now w) (queue w) (committed w, wrefs w)))) = false ->
  let w' := settle (S f) w in
  committed w' = fst (process (now w) (queue w) (committed w, wrefs w)) /\ queue w' = [] /\
  timeouts w' = timeouts w /\ now w' = now w /\ effects_of w' = Some (committed w') /\
  training w' = if is_training (s_phase (committed w)) then None else training w.
Proof.
  intros E P N Q T. cbv zeta. rewrite (settle_once f w o) by done.
  pose proof (render_idle (set_effects_of (committed w) w) (committed w) eq_refl eq_refl eq_refl) as R.
  cbn [now committed queue wrefs timeouts next_handle training recovery effects_of set_effects_of] in R.
  destruct (process (now w) (queue w) (committed w, wrefs w)) as [s r]. cbn in T |- *.
  rewrite R. set (w2 := World _ s [] r _ _ _ _ _).
  destruct (flush_not_training w2 T) as [Q2 _].
  rewrite settle_done by exact Q2.
  destruct (flush_passive_spec w2) as (_ & _ & _ & _ & _ & Nw & C & TS & _ & Ef).
  split_and!; [exact C|exact Q2|exact TS|exact Nw|by rewrite Ef, C|].
  rewrite flush_training. unfold training_changed. cbn. rewrite T.
  by destruct (is_training (s_phase (committed w))).
Qed.

Lemma wait_training p : in_recovery p = true -> is_training p = false.
Proof. by destruct p. Qed.

(** Nothing due: the page keeps waiting. *)
Lemma advance_wait p n ks cs ts t w :
  in_recovery p = true -> waiting p n ks cs ts t w -> Forall (fun x => t + 50 < due x) ts ->
  waiting p n ks cs ts (t + 50) (advance w) /\ rtc step w (advance w).
Proof.
  intros Ip W F. destruct (waiting_fire _ _ _ _ _ _ _ W) as (C & Q & T & TS & Nw & E).
  set (w1 := fire_recovery _) in *.
  assert (D : fire_due w = w1).
  { unfold fire_due. apply fire_none. fold w1. rewrite TS, Nw. exact F. }
  split; [|apply rtc_advance; by rewrite D].
  destruct W as [Wp Wn Wk Wc Wq Wt Wts Wnow We Wr]. unfold advance. rewrite D.
  destruct (effects_of w) as [o|] eqn:Eo; [|done]. destruct (We o eq_refl) as [Op On].
  destruct Q as [Q|Q].
  - assert (Fl : flush_passive w1 = set_effects_of (committed w1) w1)
      by (apply (flush_idle w1 o); [done|by rewrite C, Op|by rewrite C, On]).
    rewrite settle_done by (by rewrite Fl). rewrite Fl.
    split; cbn; rewrite ?C; try done. intros o' [= <-]. done.
  - destruct (settle_render 2 w1 o) as (C' & Q' & TS' & N' & E' & T'); try done.
    + by rewrite C, Op.
    + by rewrite C, On.
    + by rewrite Q.
    + rewrite Q, C. unfold process. cbn. destruct (committed w) as [p0 ? ? ? ? ? ? ? ?]. cbn in *.
      subst p0. by apply wait_training.
    + rewrite C, Wp, (wait_training p Ip) in T'.
      assert (X : committed (settle 3 w1) = Sim p n cs (s_timeline (committed w)) (s_logs (committed w))
        (s_killedWorker (committed w)) ks (s_restoredStep (committed w))
        (tick_seconds (s_recoverySeconds (committed w)))).
      { rewrite C', Q, C. unfold process. cbn. destruct (committed w). cbn in *. by subst. }
      split; rewrite ?X; try done; try congruence.
      intros o' Ho'. rewrite E', X in Ho'. injection Ho' as <-. done.
Qed.

(** The first timeout falls due and fires alone. *)
Lemma fire_first n ks cs t w h s d2 :
  waiting Failed n ks cs [Timeout h (t + 50) (ToRecovering s); Timeout (S h) d2 (ToRecovered s)] t w ->
  t + 50 < d2 ->
  let t1 := Timeout h (t + 50) (ToRecovering s) in
  let w1 := fire_recovery (fire_training (set_now (now w + 50) w)) in
  fire_due w = fire t1 w1 /\ rtc step w1 (fire t1 w1) /\
  timeouts (fire t1 w1) = [Timeout (S h) d2 (ToRecovered s)].
Proof.
  intros W Hd t1 w1. destruct (waiting_fire _ _ _ _ _ _ _ W) as (C & Q & T & TS & Nw & E).
  fold w1 in C, Q, T, TS, Nw, E. split_and!.
  - unfold fire_due, fire_timeouts. fold w1. rewrite TS, Nw. cbn. rewrite Z.leb_refl.
    destruct (Z.leb_spec d2 (t + 50)); [lia|done].
  - apply rtc_once. apply step_timeout. split_and!.
    + rewrite TS. by left.
    + rewrite Nw. cbn. lia.
    + intros t' Ht' Hh. rewrite TS in Ht'. apply elem_of_cons in Ht' as [->|Ht']; [subst t1; cbn in Hh; lia|].
      apply list_elem_of_singleton in Ht' as ->. cbn in Hh. lia.
  - cbn. rewrite TS. rewrite filter_cons_False by (cbn; tauto).
    by rewrite filter_cons_True by (cbn; lia).
Qed.

(** The timeout of the failed phase. *)
Lemma advance_recovering n ks cs t w h s d2 :
  waiting Failed n ks cs [Timeout h (t + 50) (ToRecovering s); Timeout (S h) d2 (ToRecovered s)] t w ->
  t + 50 < d2 ->
  waiting Recovering n ks cs [Timeout (S h) d2 (ToRecovered s)] (t + 50) (advance w) /\
  rtc step w (advance w).
Proof.
  intros W Hd. destruct (waiting_fire _ _ _ _ _ _ _ W) as (C & Q & T & TS & Nw & E).
  set (w1 := fire_recovery _) in *. set (t1 := Timeout h (t + 50) (ToRecovering s)) in *.
  destruct (fire_first _ _ _ _ _ _ _ _ W Hd) as (D & St & TS1). fold t1 w1 in D, St, TS1.
  split; [|apply rtc_advance; by rewrite D].
  destruct W as [Wp Wn Wk Wc Wq Wt Wts Wnow We Wr]. unfold advance. rewrite D.
  destruct (effects_of w) as [o|] eqn:Eo; [|done]. destruct (We o eq_refl) as [Op On].
  assert (X : forall A (f : A -> upd -> A) a, (forall a, f a TickRecoverySeconds = a) ->
     foldl f a (queue (fire t1 w1)) = foldl f a (callback_updates (ToRecovering s))).
  { intros A f a Hf. change (queue (fire t1 w1)) with (queue w1 ++ callback_updates (ToRecovering s)).
    rewrite foldl_app. destruct Q as [-> | ->]; [done|]. cbn [foldl]. by rewrite Hf. }
  pose (sr := (committed (fire t1 w1), wrefs (fire t1 w1))).
  pose proof (process_phase (now (fire t1 w1)) (queue (fire t1 w1)) sr) as P1.
  pose proof (process_step (now (fire t1 w1)) (queue (fire t1 w1)) sr) as P2.
  pose proof (process_kill_step (now (fire t1 w1)) (queue (fire t1 w1)) sr) as P3.
  pose proof (process_checkpoints (now (fire t1 w1)) (queue (fire t1 w1)) sr) as P4.
  rewrite X in P1, P2, P3, P4 by done.
  assert (C1 : committed (fire t1 w1) = committed w) by exact C.
  subst sr. rewrite C1 in P1, P2, P3, P4. cbn [fst] in P1, P2, P3, P4. rewrite ?Wp, ?Wn, ?Wk, ?Wc in *.
  destruct (settle_render 2 (fire t1 w1) o) as (C' & Q' & TS' & N' & E' & T').
  + exact E.
  + by rewrite C1, Op.
  + by rewrite C1, On.
  + change (queue (fire t1 w1)) with (queue w1 ++ callback_updates (ToRecovering s)).
    by destruct (queue w1).
  + rewrite C1, P1. done.
  + rewrite C1 in C', T'. rewrite Wp in T'. change (training (fire t1 w1)) with (training w1) in T'.
    change (is_training Failed) with false in T'. cbv iota in T'. rewrite T in T'.
    assert (N1 : now (fire t1 w1) = t + 50) by exact Nw.
    split.
    * rewrite C', P1. reflexivity.
    * rewrite C', P2. reflexivity.
    * rewrite C', P3. reflexivity.
    * rewrite C', P4. reflexivity.
    * exact Q'.
    * exact T'.
    * rewrite TS'. exact TS1.
    * rewrite N'. exact N1.
    * intros o' Ho'. rewrite E' in Ho'. apply (inj Some) in Ho' as <-. rewrite C', P1, P2. split; reflexivity.
    * rewrite E'. discriminate.
Qed.

(** Updates of the effects change neither phase, step, kill step nor restored step. *)
Lemma effect_neutral {A} (f : A -> upd -> A) us a :
  (forall a u, effect_upd u = true -> f a u = a) -> forallb effect_upd us = true -> foldl f a us = a.
Proof.
  intros F. revert a. induction us as [|u us IH]; intros a E; [done|]. cbn in *. bool_hyps.
  rewrite F by done. by apply IH.
Qed.

Definition outcome_of (w : world) : phase * Z * option Z * option Z :=
  (s_phase (committed w), s_step (committed w), s_killStep (committed w), s_restoredStep (committed w)).

(** What a render makes of these, from the queue after its effects. *)
Lemma render_outcome w :
  outcome_of (render w) =
    (let q := queue (flush_passive w) in
     (foldl phase_upd (s_phase (committed w)) q, foldl step_upd (s_step (committed w)) q,
      foldl kill_step_upd (s_killStep (committed w)) q, foldl restored_upd (s_restoredStep (committed w)) q)) /\
  timeouts (render w) = timeouts w /\ queue (render w) = [].
Proof.
  destruct (flush_passive_spec w) as (_ & _ & _ & _ & _ & _ & C & TS & _).
  unfold outcome_of, render. generalize dependent (flush_passive w). intros w2 C TS.
  pose proof (process_phase (now w2) (queue w2) (committed w2, wrefs w2)) as P1.
  pose proof (process_step (now w2) (queue w2) (committed w2, wrefs w2)) as P2.
  pose proof (process_kill_step (now w2) (queue w2) (committed w2, wrefs w2)) as P3.
  pose proof (process_restored (now w2) (queue w2) (committed w2, wrefs w2)) as P4.
  destruct (process _ _ _) as [s r]. cbn [fst] in P1, P2, P3, P4. cbn.
  by rewrite P1, P2, P3, P4, C.
Qed.

Lemma settle_keeps f w :
  forallb effect_upd (queue w) = true ->
  outcome_of (settle f w) = outcome_of w /\ timeouts (settle f w) = timeouts w.
Proof.
  revert w. induction f as [|f IH]; intros w E;
    destruct (flush_passive_spec w) as (us & r' & (A0 & _) & Q & _ & _ & C & TS & _); cbn [settle]; cbv zeta.
  - split; [|exact TS]. unfold outcome_of. by rewrite C.
  - assert (Eq : forallb effect_upd (queue (flush_passive w)) = true) by (by rewrite Q, forallb_app, E).
    destruct (queue (flush_passive w)) as [|u q] eqn:Qw.
    { split; [|exact TS]. unfold outcome_of. by rewrite C. }
    destruct (render_outcome (flush_passive w)) as (O & T & Qr).
    destruct (IH (render (flush_passive w))) as [-> ->]; [by rewrite Qr|].
    destruct (flush_passive_spec (flush_passive w)) as (us2 & r2 & (B0 & _) & Q2 & _).
    assert (E2 : forallb effect_upd (queue (flush_passive (flush_passive w))) = true)
      by (by rewrite Q2, Qw, forallb_app, Eq).
    rewrite O, T, TS. split; [|done]. cbv zeta. unfold outcome_of.
    rewrite C, !effect_neutral; try done; by intros ? [].
Qed.

(** The timeout of the recovering phase. *)
Lemma advance_recovered n ks cs t w h s :
  waiting Recovering n ks cs [Timeout h (t + 50) (ToRecovered s)] t w ->
  outcome_of (advance w) = (Recovered, s, ks, Some s) /\ timeouts (advance w) = [] /\
  rtc step w (advance w).
Proof.
  intros W. destruct (waiting_fire _ _ _ _ _ _ _ W) as (C & Q & T & TS & Nw & E).
  set (w1 := fire_recovery _) in *. set (t1 := Timeout h (t + 50) (ToRecovered s)) in *.
  assert (D : fire_due w = fire t1 w1).
  { unfold fire_due, fire_timeouts. fold w1. rewrite TS, Nw. cbn. by rewrite Z.leb_refl. }
  assert (St : rtc step w1 (fire t1 w1)).
  { apply rtc_once. apply step_timeout. split_and!.
    - rewrite TS. by left.
    - rewrite Nw. cbn. lia.
    - intros t' Ht' Hh. rewrite TS in Ht'. apply list_elem_of_singleton in Ht' as ->. lia. }
  enough (G : outcome_of (advance w) = (Recovered, s, ks, Some s) /\ timeouts (advance w) = [])
    by (destruct G; split_and!; [done|done|apply rtc_advance; by rewrite D]).
  destruct W as [Wp Wn Wk Wc Wq Wt Wts Wnow We Wr]. unfold advance. rewrite D.
  destruct (effects_of w) as [o|] eqn:Eo; [|done]. destruct (We o eq_refl) as [Op On].
  assert (C1 : committed (fire t1 w1) = committed w) by exact C.
  assert (Q1 : queue (fire t1 w1) = queue w1 ++ callback_updates (ToRecovered s)) by reflexivity.
  rewrite (settle_once 2 (fire t1 w1) o);
    [|exact E|by rewrite C1, Op|by rewrite C1, On|rewrite Q1; by destruct (queue w1)].
  set (w2 := set_effects_of _ _).
  destruct (render_outcome w2) as (O & Ts & Qr).
  destruct (settle_keeps 2 (render w2)) as [-> ->]; [by rewrite Qr|].
  assert (F : queue (flush_passive w2) = queue w1 ++ callback_updates (ToRecovered s)).
  { rewrite (flush_idle w2 (committed (fire t1 w1))) by reflexivity. exact Q1. }
  rewrite O, Ts, F. split.
  - cbv zeta. change (committed w2) with (committed (fire t1 w1)). rewrite C1, !foldl_app.
    rewrite Wp, Wn, Wk. destruct Q as [-> | ->]; reflexivity.
  - change (timeouts w2) with (filter (fun t' => handle t' <> handle t1) (timeouts w1)).
    rewrite TS. by rewrite filter_cons_False by (cbn; tauto).
Qed.

Lemma outcome_split w p n ks r :
  outcome_of w = (p, n, ks, r) ->
  s_phase (committed w) = p /\ s_step (committed w) = n /\ s_killStep (committed w) = ks /\
  s_restoredStep (committed w) = r.
Proof. unfold outcome_of. by intros [= -> -> -> ->]. Qed.

(** What a kill on a page at rest enqueues and starts. *)
Lemma kill_fields w n c :
  reachable w -> quiescent w -> s_phase (committed w) = Running ->
  last (s_checkpoints (committed w)) = Some c ->
  let w1 := killSimulatedWorker n w in
  committed w1 = committed w /\ effects_of w1 = Some (committed w) /\ now w1 = now w /\
  timeouts w1 = [Timeout (next_handle w) (now w + 900) (ToRecovering (sc_step c));
                 Timeout (S (next_handle w)) (now w + 3200) (ToRecovered (sc_step c))] /\
  queue w1 = [SetKilledWorker (Some n); SetKillStep (Some (s_step (committed w)));
              SetRestoredStep None; SetRecoverySeconds (of_Z 0); SetPhase Failed;
              AddEvent (n +:+ " stopped inside the simulation") EError;
              AddLog ("[failure] " +:+ n +:+ " heartbeat stopped (simulated)")].
Proof.
  intros R [Q E] P L. pose proof (reachable_ok w R) as [Co Cm].
  pose proof (clear_all w Co) as Cl. cbn in Cl.
  unfold killSimulatedWorker. rewrite P, L. split_and!; [done|exact E|done| |].
  - cbn. by rewrite Cl.
  - cbn. by rewrite Q.
Qed.

(** A kill on a page at rest. *)
Lemma kill_waiting w n c :
  reachable w -> quiescent w -> s_phase (committed w) = Running ->
  last (s_checkpoints (committed w)) = Some c ->
  waiting Failed (s_step (committed w)) (Some (s_step (committed w))) (s_checkpoints (committed w))
    [Timeout (next_handle w) (now w + 900) (ToRecovering (sc_step c));
     Timeout (S (next_handle w)) (now w + 3200) (ToRecovered (sc_step c))]
    (now w) (on_click (Kill n) w).
Proof.
  intros R Q P L. destruct (kill_fields w n c R Q P L) as (C1 & E1 & N1 & T1 & Qw).
  unfold on_click. cbn [handler]. set (w1 := killSimulatedWorker n w) in *.
  pose proof (render_idle w1 (committed w) E1 (f_equal s_phase (eq_sym C1)) (f_equal s_step (eq_sym C1))) as Ri.
  pose proof (process_phase (now w1) (queue w1) (committed w1, wrefs w1)) as P1.
  pose proof (process_step (now w1) (queue w1) (committed w1, wrefs w1)) as P2.
  pose proof (process_kill_step (now w1) (queue w1) (committed w1, wrefs w1)) as P3.
  pose proof (process_checkpoints (now w1) (queue w1) (committed w1, wrefs w1)) as P4.
  destruct (process (now w1) (queue w1) (committed w1, wrefs w1)) as [s r]. cbn [fst] in P1, P2, P3, P4.
  rewrite C1 in P1, P2, P3, P4.
  rewrite Qw in P1, P2, P3, P4. cbn [foldl phase_upd step_upd kill_step_upd checkpoints_upd] in P1, P2, P3, P4.
  rewrite Ri. set (w2 := World _ s [] r _ _ _ _ _).
  assert (Tr : is_training (s_phase (committed w2)) = false) by (cbn; by rewrite P1).
  destruct (flush_not_training w2 Tr) as [Q2 _].
  destruct (flush_passive_spec w2) as (_ & _ & _ & _ & _ & Nw & C2 & TS & _ & Ef).
  split.
  - rewrite C2. exact P1.
  - rewrite C2. exact P2.
  - rewrite C2. exact P3.
  - rewrite C2. exact P4.
  - exact Q2.
  - rewrite flush_training. unfold training_changed. cbn. by rewrite P1, C1, P.
  - rewrite TS. exact T1.
  - rewrite Nw. exact N1.
  - intros o Ho. rewrite Ef in Ho. apply (inj Some) in Ho as <-. by split.
  - by rewrite Ef.
Qed.

(** Waiting for [k] times 50 ms. *)
Lemma advance_wait_iter k p n ks cs ts t w :
  in_recovery p = true -> waiting p n ks cs ts t w ->
  Forall (fun x => t + 50 * Z.of_nat k < due x) ts ->
  waiting p n ks cs ts (t + 50 * Z.of_nat k) (Nat.iter k advance w) /\ rtc step w (Nat.iter k advance w).
Proof.
  intros Ip W. induction k as [|k IH]; intros F.
  - cbn [Nat.iter nat_rect]. rewrite Z.mul_0_r, Z.add_0_r. done.
  - destruct IH as [W' R']; [eapply Forall_impl; [exact F|]; cbn; lia|].
    destruct (advance_wait _ _ _ _ _ _ _ Ip W') as [W2 R2].
    { eapply Forall_impl; [exact F|]. cbn. lia. }
    change (Nat.iter (S k) advance w) with (advance (Nat.iter k advance w)).
    replace (t + 50 * Z.of_nat (S k)) with (t + 50 * Z.of_nat k + 50) by lia.
    split; [exact W2|]. by etrans.
Qed.

Lemma iter_S k (w : world) : Nat.iter (S k) advance w = advance (Nat.iter k advance w).
Proof. reflexivity. Qed.
Lemma iter_add k j (w : world) : Nat.iter (k + j) advance w = Nat.iter k advance (Nat.iter j advance w).
Proof. apply Nat.iter_add. Qed.

(** C5: recovery completes, and on time. When a worker is killed on a running page at
    rest that has a checkpoint, a browser that keeps up shows the failed phase for
    900 ms, then the recovering phase until 3200 ms, with the step frozen at the kill;
    at 3200 ms the page has recovered at the step of the latest checkpoint, and no
    timeout is left. *)
Theorem recovery_completes (w : world) (n : string) (c : sim_checkpoint) :
  reachable w -> quiescent w -> s_phase (committed w) = Running ->
  last (s_checkpoints (committed w)) = Some c ->
  let after k := Nat.iter k advance (on_click (Kill n) w) in
  let killed := Some (s_step (committed w)) in
  (forall k, (k < 18)%nat ->
     s_phase (committed (after k)) = Failed /\ s_step (committed (after k)) = s_step (committed w) /\
     s_killStep (committed (after k)) = killed) /\
  (forall k, (18 <= k < 64)%nat ->
     s_phase (committed (after k)) = Recovering /\ s_step (committed (after k)) = s_step (committed w) /\
     s_killStep (committed (after k)) = killed) /\
  (s_phase (committed (after 64%nat)) = Recovered /\ s_step (committed (after 64%nat)) = sc_step c /\
   s_killStep (committed (after 64%nat)) = killed /\
   s_restoredStep (committed (after 64%nat)) = Some (sc_step c) /\ timeouts (after 64%nat) = []) /\
  reachable (after 64%nat).
Proof.
  intros R Q P L after killed. pose proof (kill_waiting w n c R Q P L) as W0.
  set (w0 := on_click (Kill n) w) in *. set (h := next_handle w) in *. set (t := now w) in *.
  assert (R0 : reachable w0) by (eapply rtc_r; [exact R|apply step_click]).
  assert (F : forall k, (k < 18)%nat -> Forall (fun x => t + 50 * Z.of_nat k < due x)
     [Timeout h (t + 900) (ToRecovering (sc_step c)); Timeout (S h) (t + 3200) (ToRecovered (sc_step c))])
    by (intros k Hk; repeat constructor; cbn; lia).
  destruct (advance_wait_iter 17 Failed _ _ _ _ _ _ eq_refl W0 (F 17%nat ltac:(lia))) as [W17 R17].
  change (t + 50 * Z.of_nat 17) with (t + 850) in W17.
  replace (t + 900) with (t + 850 + 50) in W17 by lia.
  destruct (advance_recovering _ _ _ _ _ _ _ _ W17 ltac:(lia)) as [W18 R18].
  rewrite <- iter_S in W18, R18.
  replace (t + 850 + 50) with (t + 900) in W18 by lia.
  assert (G : forall k, (k < 46)%nat -> Forall (fun x => t + 900 + 50 * Z.of_nat k < due x)
     [Timeout (S h) (t + 3200) (ToRecovered (sc_step c))])
    by (intros k Hk; repeat constructor; cbn; lia).
  destruct (advance_wait_iter 45 Recovering _ _ _ _ _ _ eq_refl W18 (G 45%nat ltac:(lia))) as [W63 R63].
  rewrite <- iter_add in W63, R63. change (45 + 18)%nat with 63%nat in W63, R63.
  change (t + 900 + 50 * Z.of_nat 45) with (t + 900 + 2250) in W63.
  replace (t + 3200) with (t + 900 + 2250 + 50) in W63 by lia.
  destruct (advance_recovered _ _ _ _ _ _ _ W63) as (O & Ts & R64).
  rewrite <- iter_S in O, Ts, R64.
  destruct (outcome_split _ _ _ _ _ O) as (O1 & O2 & O3 & O4).
  split; [|split; [|split]].
  - intros k Hk. destruct (advance_wait_iter k Failed _ _ _ _ _ _ eq_refl W0 (F k Hk)) as [Wk _].
    exact (conj (wt_phase _ _ _ _ _ _ _ Wk) (conj (wt_step _ _ _ _ _ _ _ Wk) (wt_kill _ _ _ _ _ _ _ Wk))).
  - intros k Hk.
    destruct (advance_wait_iter (k - 18) Recovering _ _ _ _ _ _ eq_refl W18 (G (k - 18)%nat ltac:(lia)))
      as [Wk _].
    rewrite <- iter_add in Wk. replace (k - 18 + 18)%nat with k in Wk by lia.
    exact (conj (wt_phase _ _ _ _ _ _ _ Wk) (conj (wt_step _ _ _ _ _ _ _ Wk) (wt_kill _ _ _ _ _ _ _ Wk))).
  - exact (conj O1 (conj O2 (conj O3 (conj O4 Ts)))).
  - unfold reachable in *.
    exact (transitivity R0 (transitivity R17 (transitivity R18 (transitivity R63 R64)))).
Qed.
End Prompt.

(** ** Lost work, restarts and the recovery clock *)

Section Runs.
Context `{MathLib}.

(** C30: a recovery loses less than 50 steps. On a running page at rest with a
    checkpoint, a kill records the current step, which is less than 50 past the latest
    checkpoint, the one it will restore. *)
Theorem lost_work_bounded (w : world) (n : string) (c : sim_checkpoint) :
  reachable w -> quiescent w -> s_phase (committed w) = Running ->
  last (s_checkpoints (committed w)) = Some c ->
  let w' := on_click (Kill n) w in
  s_phase (committed w') = Failed /\
  exists k, s_killStep (committed w') = Some k /\ k < sc_step c + 50 /\
    map fires (timeouts w') = [ToRecovering (sc_step c); ToRecovered (sc_step c)].
Proof.
  intros R Q P L. destruct (kill_waiting w n c R Q P L) as [Wp _ Wk _ _ _ Wts _ _ _].
  cbv zeta. split; [exact Wp|]. exists (s_step (committed w)).
  split; [exact Wk|]. split; [|by rewrite Wts].
  destruct Q as [Q E]. destruct (reachable_effects_ok w R) as (_ & Hc & _).
  pose proof (reachable_ok w R) as [Co Cm]. specialize (Hc _ E). unfold caught_up in Hc.
  pose proof (co_last _ Co) as Lc. unfold vcheckpoints in Lc. rewrite Q in Lc. cbn in Lc.
  unfold last_step in Lc. rewrite L in Lc. cbn in Lc. rewrite Lc, P in Hc.
  specialize (Hc eq_refl).
  pose proof (cm_checkpoints _ Cm) as [_ F]. rewrite Forall_forall in F.
  destruct (F c) as (_ & C50 & _).
  { apply last_Some in L as (l & ->). apply elem_of_app. right. by left. }
  pose proof (Z.div_mod (s_step (committed w)) 50 ltac:(lia)).
  pose proof (Z.mod_pos_bound (s_step (committed w)) 50 ltac:(lia)). lia.
Qed.

(** a restart of a page at rest is a fresh simulation, whatever the page had been
    through: step 0, no checkpoint, no kill, the clock at zero, the first event and the
    first three log lines, the refs reset, and no timeout pending. *)
Theorem restart_resets (w : world) :
  reachable w -> quiescent w ->
  let w' := on_click Start w in
  committed w' =
    Sim Running 0 [] [TimelineEvent 0 0 "Browser simulation started" ESuccess]
      ["[simulator] browser-only mode initialized"; "[simulator] no backend connection opened";
       "[trainer] two simulated workers started"] None None None (of_Z 0) /\
  wrefs w' = Refs (now w) 0 0 1 [] /\ timeouts w' = [] /\ queue w' = [].
Proof.
  intros R [Q E]. pose proof (clear_all w (ok_core _ (reachable_ok w R))) as Cl.
  unfold on_click. cbn [handler].
  pose proof (render_idle (startSimulation w) (committed w) E eq_refl eq_refl) as Ri.
  destruct w as [t s q r ts h tr rc ef]. cbn in Q, Cl. subst q.
  destruct s as [p n cs tl lg kw ks rs sec].
  rewrite Ri. clear Ri E R. cbn [process foldl apply_upd startSimulation enqueue queue].
  set (w2 := World _ _ [] _ _ _ _ _ _).
  assert (F : queue (flush_passive w2) = [] /\ wrefs (flush_passive w2) = wrefs w2).
  { unfold flush_passive.
    set (ct := match effects_of w2 with Some o => negb (Bool.eqb _ _) | None => true end).
    set (st := match effects_of w2 with Some o => negb (_ =? _) | None => true end).
    set (cp := match effects_of w2 with Some o => negb (bool_decide _) | None => true end).
    clearbody ct st cp. by destruct ct, st, cp. }
  destruct F as [F1 F2].
  destruct (flush_passive_spec w2) as (_ & _ & _ & _ & _ & _ & C & T & _).
  rewrite C, T, F1, F2. split_and!; try done.
Qed.

(** The click can also land after a render has been shown and before its effects have
    run. Ten training ticks, each rendered but for the effects of the last: *)
Definition tick (w : world) : world := render (fire_training (set_now (now w + 250) w)).

Lemma rtc_tick k w : rtc step w (Nat.iter k tick w).
Proof.
  induction k as [|k IH]; [apply rtc_refl|].
  change (Nat.iter (S k) tick w) with (tick (Nat.iter k tick w)).
  refine (transitivity IH _). generalize (Nat.iter k tick w). intros x. unfold tick.
  eapply rtc_l; [apply (step_time x (now x + 250)); lia|].
  eapply rtc_r; [apply rtc_fire_training|apply step_render].
Qed.

Definition racy : world := on_click Start (Nat.iter 10 tick (on_click Start init_world)).

(** a restart that lands between a render and its effects is not a fresh
    simulation: the pending effect records the old run's checkpoint after the reset, so
    a run at step 0 shows a checkpoint at step 50, and its own one will not be recorded. *)
Theorem restart_race :
  exists w, reachable w /\
    s_phase (committed w) = Running /\ s_step (committed w) = 0 /\
    map sc_step (s_checkpoints (committed w)) = [50] /\ lastCheckpoint (wrefs w) = 50.
Proof.
  exists racy. split; [|vm_compute; done].
  unfold reachable, racy. eapply rtc_l; [apply (step_click _ Start)|].
  eapply rtc_r; [apply rtc_tick|apply (step_click _ Start)].
Qed.

(** [lit n 1] is the double nearest to [n / 10]. *)
Lemma tick_seconds_exact k : 0 <= k < 1000 -> tick_seconds (lit k 1) = lit (k + 1) 1.
Proof.
  intros Hk.
  assert (T : forallb (fun i => bool_decide (tick_seconds (lit (Z.of_nat i) 1) = lit (Z.of_nat i + 1) 1))
                (seq 0 1000) = true) by (vm_compute; reflexivity).
  rewrite forallb_forall in T. specialize (T (Z.to_nat k)).
  assert (I : In (Z.to_nat k) (seq 0 1000)) by (apply in_seq; lia).
  apply T, bool_decide_eq_true in I. by rewrite Z2Nat.id in I by lia.
Qed.

Lemma seconds_print k : 0 <= k <= 1000 ->
  to_fixed 1 (lit k 1) = dec (k / 10) +:+ "." +:+ dec (k mod 10).
Proof.
  intros Hk.
  assert (T : forallb (fun i => bool_decide (to_fixed 1 (lit (Z.of_nat i) 1)
                = dec (Z.of_nat i / 10) +:+ "." +:+ dec (Z.of_nat i mod 10)))
                (seq 0 1001) = true) by (vm_compute; reflexivity).
  rewrite forallb_forall in T. specialize (T (Z.to_nat k)).
  assert (I : In (Z.to_nat k) (seq 0 1001)) by (apply in_seq; lia).
  apply T, bool_decide_eq_true in I. by rewrite Z2Nat.id in I by lia.
Qed.

(** the recovery clock does not drift. After [k] ticks of 0.1 s in floating point it
    is the double nearest to [k / 10] and prints as exactly that decimal, for any
    recovery of up to 100 s. *)
Theorem recovery_clock_exact (k : nat) (t : Z) (s : sim) (r : refs) :
  (k <= 1000)%nat -> s_recoverySeconds s = of_Z 0 ->
  let x := s_recoverySeconds (fst (process t (replicate k TickRecoverySeconds) (s, r))) in
  x = lit (Z.of_nat k) 1 /\
  to_fixed 1 x = dec (Z.of_nat k / 10) +:+ "." +:+ dec (Z.of_nat k mod 10).
Proof.
  intros Hk Hs.
  assert (G : forall m j s, Z.of_nat j + Z.of_nat m <= 1000 -> s_recoverySeconds s = lit (Z.of_nat j) 1 ->
    s_recoverySeconds (fst (process t (replicate m TickRecoverySeconds) (s, r))) = lit (Z.of_nat (j + m)) 1).
  { clear. induction m as [|m IH]; intros j s Hm E.
    - by rewrite Nat.add_0_r.
    - cbn [replicate]. unfold process in *. cbn [foldl].
      destruct s as [p n cs tl lg kw ks rs sec]. cbn [apply_upd]. cbn in E. subst sec.
      rewrite (IH (S j)); cbn [s_recoverySeconds]; [do 2 f_equal; lia|lia|].
      rewrite tick_seconds_exact by lia. f_equal. lia. }
  cbv zeta. rewrite (G k 0%nat s) by (lia || by rewrite Hs).
  split; [done|]. apply seconds_print. lia.
Qed.
End Runs.

(** ** Witnesses *)

(** A page at rest after twelve prompt training ticks. *)
Definition prompt_tick (w : world) : world := settle 3 (fire_training (set_now (now w + 250) w)).
Definition at_rest : world := Nat.iter 12 prompt_tick (on_click Start init_world).

Lemma at_rest_reachable : reachable at_rest.
Proof.
  unfold reachable, at_rest. eapply rtc_l; [apply (step_click _ Start)|].
  generalize 12%nat. intros k. induction k as [|k IH]; [apply rtc_refl|].
  change (Nat.iter (S k) prompt_tick (on_click Start init_world))
    with (prompt_tick (Nat.iter k prompt_tick (on_click Start init_world))).
  refine (transitivity IH _). generalize (Nat.iter k prompt_tick (on_click Start init_world)).
  intros x. unfold prompt_tick.
  eapply rtc_l; [apply (step_time x (now x + 250)); lia|].
  refine (transitivity (rtc_fire_training _) (rtc_settle _ _)).
Qed.

Lemma at_rest_quiescent : quiescent at_rest.
Proof. split; vm_compute; reflexivity. Qed.

Lemma simulation_checkpoints_witness :
  map sc_step (s_checkpoints (committed at_rest)) = [50] /\
  NoDup (map sc_hash (s_checkpoints (committed at_rest))).
Proof.
  split; [vm_compute; reflexivity|].
  exact (proj1 (proj2 (proj2 (simulation_checkpoints at_rest at_rest_reachable)))).
Defined.

Lemma simulation_timeline_witness :
  length (s_timeline (committed at_rest)) = 2%nat /\
  increasing (map te_id (s_timeline (committed at_rest))) = true.
Proof.
  split; [vm_compute; reflexivity|]. exact (proj1 (simulation_timeline at_rest at_rest_reachable)).
Defined.

Lemma simulation_timers_witness :
  training at_rest <> None /\ timeouts (unmount at_rest) = [].
Proof.
  split; [vm_compute; discriminate|].
  exact (proj1 (proj2 (proj2 (simulation_timers at_rest at_rest_reachable)))).
Defined.

Lemma recovery_completes_witness :
  let w' := Nat.iter 64 advance (on_click (Kill "sim-worker-0") at_rest) in
  s_phase (committed w') = Recovered /\ s_step (committed w') = 50 /\ s_killStep (committed w') = Some 60.
Proof.
  destruct (recovery_completes at_rest "sim-worker-0" (make_checkpoint 50) at_rest_reachable
    at_rest_quiescent eq_refl ltac:(vm_compute; reflexivity)) as (_ & _ & (P & S & K & _) & _).
  exact (conj P (conj S K)).
Defined.

Lemma lost_work_bounded_witness :
  s_step (committed at_rest) = 60 /\
  s_phase (committed (on_click (Kill "sim-worker-1") at_rest)) = Failed.
Proof.
  split; [vm_compute; reflexivity|].
  exact (proj1 (lost_work_bounded at_rest "sim-worker-1" (make_checkpoint 50) at_rest_reachable
    at_rest_quiescent eq_refl ltac:(vm_compute; reflexivity))).
Defined.

Lemma restart_resets_witness :
  s_step (committed at_rest) = 60 /\ wrefs (on_click Start at_rest) = Refs (now at_rest) 0 0 1 [].
Proof.
  split; [vm_compute; reflexivity|].
  exact (proj1 (proj2 (restart_resets at_rest at_rest_reachable at_rest_quiescent))).
Defined.

Lemma recovery_clock_exact_witness :
  s_recoverySeconds (fst (process 0 (replicate 32 TickRecoverySeconds) (init_sim, init_refs))) = lit 32 1.
Proof. exact (proj1 (recovery_clock_exact 32 0 init_sim init_refs ltac:(lia) eq_refl)). Defined.
