(* ===== verification/SimulationView.v ===== *)
(** * The view of the browser simulation: [frontend/src/pages/DemoPage.tsx] *)

From Stdlib Require Import Ascii.
From S2P Require Import Prelude JsString JsNum Html Host Simulation SimulationInv SimulationProps.

(** [text.split(' ')[i]] in a template *)
Definition word (i : nat) (text : string) : string :=
  default "undefined" (split " "%char text !! i).

(** [{value}] for a number or [null]: [null] shows nothing *)
Definition opt_text (o : option Z) : string := match o with Some z => dec z | None => "" end.

Definition EVENT_COLORS (t : event_type) : string :=
  match t with
  | EInfo => "border-l-info bg-info-muted text-info"
  | ESuccess => "border-l-ok bg-ok-muted text-ok"
  | EWarning => "border-l-warn bg-warn-muted text-warn"
  | EError => "border-l-err bg-err-muted text-err"
  end.

Definition PIPELINE : list (string * string) :=
  [("RUNNING", "training"); ("FAILED", "timeout"); ("RECOVERING", "load save"); ("RESUMED", "continue")].

Definition pipelineIndex (phase : phase) : Z :=
  if bool_decide (phase = Failed) then 1
  else if bool_decide (phase = Recovering) then 2
  else if bool_decide (phase = Recovered) then 3
  else 0.

(** [phaseLabel] *)
Definition phase_label (phase : phase) : string :=
  match phase with
  | Idle => "READY" | Running => "RUNNING" | Failed => "FAILED"
  | Recovering => "RECOVERING" | Recovered => "RESUMED"
  end.

Inductive stage_status : Type := Waiting | Active | Complete.
#[export] Instance stage_status_eq_dec : EqDecision stage_status.
Proof. solve_decision. Defined.
Definition stage_string (s : stage_status) : string :=
  match s with Waiting => "waiting" | Active => "active" | Complete => "complete" end.
Inductive tone : Type := OkTone | ErrTone | RecoverTone.

Definition pipeline_item (phase : phase) (index : Z) (item : string * string) : node click :=
  let '(label, detail) := item in
  let activeIndex := pipelineIndex phase in
  let isActive := index =? activeIndex in
  let isPast := index <? activeIndex in
  let color := if index =? 1 then "bg-err text-err" else if index =? 2 then "bg-recover text-recover"
               else "bg-ok text-ok" in
  El "div" [Key label; cls "flex items-start gap-1 flex-1 last:flex-none"]
    (El "div" [cls "flex flex-col items-center gap-1.5 min-w-[54px] sm:min-w-[72px]"]
       [El "motion.div" [cls ("w-7 h-7 sm:w-8 sm:h-8 rounded-full flex items-center justify-center text-[10px] font-bold " +:+ (if isActive then (word 0 color +:+ " text-surface-0 ring-4 ring-current/20") else (if isPast then (word 0 color +:+ "/25 " +:+ word 1 color) else "bg-surface-3 text-txt-3")));
                         Attr "animate" (if isActive then "{ scale: [1, 1.12, 1] }" else "{ scale: 1 }");
                         Attr "transition" (if isActive then "{ duration: 1.4, repeat: Infinity }" else "{ duration: 0.2 }")]
          [(if isPast then Txt "✓" else El "span" [cls "w-2 h-2 rounded-full bg-current"] [])];
        El "span" [cls ("text-[10px] sm:text-2xs font-semibold " +:+ (if isActive then word 1 color else "text-txt-3"))]
          [Txt label];
        El "span" [cls "hidden sm:block text-[9px] text-txt-3"] [Txt detail]] ::
     when (index <? Z.of_nat (length PIPELINE) - 1) (
       El "div" [cls ("h-0.5 flex-1 rounded mt-3.5 " +:+ (if (index <? activeIndex) then "bg-ok" else "bg-surface-3"))] []) ++
     []).

Definition SimulationPipeline (phase : phase) : node click :=
  El "div" [cls "card px-4 py-4 overflow-hidden"]
    [El "div" [cls "flex items-center justify-between gap-3 mb-4"]
       [El "div" []
          [El "p" [cls "text-2xs font-semibold text-txt-3 uppercase tracking-widest"]
             [Txt "Simulated state machine"];
           El "p" [cls "text-xs text-txt-3 mt-1"]
             [Txt "These transitions happen in this browser tab only."]];
        El "span" [cls "badge-xs bg-brand-violet/10 text-brand-violet"] [Txt "simulation"]];
     El "div" [cls "flex items-start justify-between gap-1"]
       (imap (fun i item => pipeline_item phase (Z.of_nat i) item) PIPELINE)].

Definition StageCard (number : Z) (title description : string) (status : stage_status) (t : tone) :
    node click :=
  let toneClasses := match t with
                     | OkTone => "bg-ok-muted text-ok border-ok/30"
                     | ErrTone => "bg-err-muted text-err border-err/30"
                     | RecoverTone => "bg-recover-muted text-recover border-recover/30"
                     end in
  El "motion.div" [Flag "layout" true;
                   cls ("card p-5 border transition-all " +:+ (if bool_decide (status = Active) then toneClasses else "border-line"))]
    [El "div" [cls "flex items-start gap-3"]
       [El "div" [cls ("w-9 h-9 rounded-xl flex items-center justify-center font-bold flex-shrink-0 " +:+ toneClasses)]
          [(if bool_decide (status = Complete) then Txt "✓" else Txt (dec number))];
        El "div" []
          [El "div" [cls "flex flex-wrap items-center gap-2"]
             [El "h3" [cls "text-base font-bold text-txt-1"] [Txt title];
              El "span" [cls ("text-[10px] uppercase tracking-wider font-semibold " +:+ (if bool_decide (status = Active) then word 1 toneClasses else "text-txt-3"))]
                [Txt (stage_string status)]];
           El "p" [cls "text-sm text-txt-3 leading-relaxed mt-1.5"] [Txt description]]]].

Section View.
Context `{MathLib}.

Definition canKill (s : sim) : bool :=
  bool_decide (s.(s_phase) = Running) && (0 <? Z.of_nat (length s.(s_checkpoints))).

Definition worker_card (s : sim) (index : Z) (worker : string) : node click :=
  let phase := s.(s_phase) in
  let in_recovery := bool_decide (phase = Failed) || bool_decide (phase = Recovering) in
  let isKilled := bool_decide (s.(s_killedWorker) = Some worker) && in_recovery in
  let isPaused := negb (bool_decide (s.(s_killedWorker) = Some worker)) && in_recovery in
  let displayedStep := if isKilled || isPaused then default s.(s_step) s.(s_killStep) else s.(s_step) in
  let canKill := canKill s in
  El "motion.div" [Key worker;
                   Attr "animate" (if isKilled && bool_decide (phase = Failed) then "{ x: [0, -8, 8, -5, 5, 0] }" else "{ x: 0 }");
                   cls ("card px-4 py-4 transition-colors " +:+ (if isKilled then "border-err/30 bg-err-muted/10" else (if isPaused then "border-recover/30 bg-recover-muted/10" else "")))]
    [El "div" [cls "flex items-center justify-between gap-3 mb-3"]
       [El "div" [cls "flex items-center gap-2.5"]
          [El "span" [cls ("w-2.5 h-2.5 rounded-full " +:+ (if isKilled then "bg-err" else (if isPaused then "bg-recover animate-pulse motion-reduce:animate-none" else "bg-ok animate-pulse motion-reduce:animate-none")))] [];
           El "div" []
             [El "p" [cls "text-sm font-semibold text-txt-1"] [Txt "Worker "; Txt (dec index)];
              El "p" [cls "text-xs text-txt-3 font-mono"] [Txt worker]]];
        El "span" [cls "text-sm font-mono font-semibold tabular-nums text-ok"]
          [Txt "Step ";
           Txt (dec displayedStep)]];
     El "button" [OnClick (Kill worker); Flag "disabled" (negb (canKill));
                  cls ("w-full py-3 rounded-xl text-sm font-bold border transition-colors " +:+ (if canKill then "bg-err/15 text-err hover:bg-err/25 border-err/30 cursor-pointer" else (if isKilled then "bg-err-muted text-err border-err/20 cursor-not-allowed" else (if isPaused then "bg-recover-muted text-recover border-recover/20 cursor-not-allowed" else "bg-surface-3 text-txt-3 border-line cursor-not-allowed"))))]
       [(if isKilled then Txt ("Simulated Worker " +:+ dec index +:+ " Stopped") else (if isPaused then Txt ("Worker " +:+ dec index +:+ " Paused for Recovery") else (if canKill then Txt ("Kill Simulated Worker " +:+ dec index) else (if bool_decide (phase = Recovered) then Txt ("Worker " +:+ dec index +:+ " Recovered — Restart to Run Again") else Txt ("Worker " +:+ dec index +:+ " Waiting for First Save Point")))))];
     El "p" [cls "text-xs text-txt-3 text-center mt-2"]
       [Txt "Browser interaction only — no backend command"]].

Definition workers_panel (s : sim) : node click :=
  let phase := s.(s_phase) in
  El "div" [cls "card p-5"]
    [El "div" [cls "flex flex-col sm:flex-row sm:items-center justify-between gap-3 mb-4"]
       [El "div" []
          [El "div" [cls "flex items-center gap-2"]
             [El "h3" [cls "text-base font-bold text-txt-1"] [Txt "Simulated training workers"];
              El "span" [cls "badge-xs bg-brand-violet/10 text-brand-violet"]
                [Txt "not real servers"]];
           El "p" [cls "text-sm text-txt-3 mt-1"]
             [Txt "Wait for the first simulated save point, then stop either worker."]];
        El "span" [cls ("text-xs font-mono font-semibold " +:+ (if bool_decide (phase = Failed) then "text-err" else (if bool_decide (phase = Recovering) then "text-recover" else "text-ok")))]
          [Txt (phase_label phase)]];
     El "div" [cls "grid grid-cols-1 sm:grid-cols-2 gap-3"]
       (imap (fun i worker => worker_card s (Z.of_nat i) worker) ["sim-worker-0"; "sim-worker-1"])].

Definition recovery_banner (s : sim) : node click :=
  let phase := s.(s_phase) in
  El "motion.div" [Attr "initial" "{ opacity: 0, y: -8 }"; Attr "animate" "{ opacity: 1, y: 0 }";
                   Attr "exit" "{ opacity: 0, y: -8 }";
                   cls ("card px-5 py-4 border " +:+ (if bool_decide (phase = Failed) then "border-err/30 bg-err-muted/10" else "border-recover/30 bg-recover-muted/10"))]
    [El "p" [Attr "role" "status";
             cls ("text-sm font-bold " +:+ (if bool_decide (phase = Failed) then "text-err" else "text-recover"))]
       [(if bool_decide (phase = Failed) then Txt "Simulated failure detected" else Txt "Simulated checkpoint recovery in progress")];
     El "p" [cls "text-sm text-txt-2 mt-1"]
       [(if bool_decide (phase = Failed) then Txt "The browser is waiting for the pretend heartbeat timeout." else Txt ("Restoring step " +:+ dec (default 0 (sc_step <$> last s.(s_checkpoints))) +:+ " from the last simulated save point."));
        Txt " ";
        Txt "Elapsed: ";
        Txt (to_fixed 1 s.(s_recoverySeconds));
        Txt "s"]].

Definition recovered_banner (s : sim) : node click :=
  El "motion.div" [Attr "initial" "{ opacity: 0, scale: 0.98 }";
                   Attr "animate" "{ opacity: 1, scale: 1 }";
                   cls "card p-5 border-ok/30 bg-ok-muted/5"; Attr "aria-live" "polite"]
    [El "div" [cls "flex items-start gap-3"]
       [El "div" [cls "w-9 h-9 rounded-full bg-ok flex items-center justify-center text-surface-0 font-bold flex-shrink-0"]
          [Txt "✓"];
        El "div" []
          [El "h3" [cls "text-base font-bold text-ok"] [Txt "Simulation recovered successfully"];
           El "p" [cls "text-sm text-txt-2 mt-1 leading-relaxed"]
             [Txt "The counter was restored from step ";
              Txt (opt_text s.(s_restoredStep));
              Txt " after the simulated interruption at step ";
              Txt (opt_text s.(s_killStep));
              Txt ". Training is continuing in this tab. This demonstrates the interface flow; it is not proof of a live backend recovery."]]]].

(** The four metrics: label, value and hint *)
Definition metrics (s : sim) : list (string * string * string) :=
  [("Training Step", dec s.(s_step), "Simulated counter");
   ("Checkpoints", dec (Z.of_nat (length s.(s_checkpoints))), "Simulated save points");
   ("Current Loss", to_fixed 3 (loss_at s.(s_step)), "Deterministic browser value");
   ("Active Workers", if bool_decide (s.(s_phase) = Failed) then "0/2"
                      else if bool_decide (s.(s_phase) = Recovering) then "0/2" else "2/2",
    "Simulated workers")].

Definition metrics_panel (s : sim) : node click :=
  El "div" [cls "grid grid-cols-2 lg:grid-cols-4 gap-3"]
    (map (fun '(label, value, hint) => 
       El "div" [Key label; cls "card p-4"]
         [El "p" [cls "text-2xs font-semibold text-txt-3 uppercase tracking-wider"] [Txt label];
          El "p" [cls "text-2xl font-bold text-txt-1 mt-1 tabular-nums"] [Txt value];
          El "p" [cls "text-xs text-txt-3 mt-1"] [Txt hint]]) (metrics s)).

(** One point of the loss curve *)
Definition chart_point (step : Z) (index : Z) : string :=
  let pointStep := Z.max 0 (step - (27 - index) * 10) in
  let value := loss_at pointStep in
  let x := mul (div (of_Z index) (of_Z 27)) (of_Z 100) in
  let y := max (of_Z 4) (min (of_Z 33)
             (add (mul (div (sub value (lit 8 2)) (lit 23 1)) (of_Z 29)) (of_Z 3))) in
  to_string x +:+ "," +:+ to_string (sub (of_Z 36) y).
Definition chartPoints (step : Z) : string :=
  String.concat " " (map (fun i => chart_point step (Z.of_nat i)) (seq 0 28)).

Definition loss_panel (s : sim) : node click :=
  let currentLoss := to_fixed 3 (loss_at s.(s_step)) in
  El "div" [cls "card p-4"]
    [El "div" [cls "flex items-center justify-between gap-3 mb-3"]
       [El "div" []
          [El "h3" [cls "text-base font-bold text-txt-1"] [Txt "Simulated training loss"];
           El "p" [cls "text-sm text-txt-3 mt-0.5"]
             [Txt "A deterministic illustration, not measured telemetry."]];
        El "span" [cls "font-mono text-sm font-semibold text-info"] [Txt currentLoss]];
     El "div" [cls "h-40 rounded-lg bg-surface-2 border border-line/60 p-3"]
       [El "svg" [Attr "viewBox" "0 0 100 36"; Attr "preserveAspectRatio" "none";
                  cls "w-full h-full"; Attr "role" "img"; Attr "aria-label" "Simulated loss curve"]
          [El "path" [Attr "d" "M0 9 H100 M0 18 H100 M0 27 H100"; Attr "stroke" "currentColor";
                      cls "text-line"; Attr "strokeWidth" "0.3"] [];
           El "polyline" [Attr "points" (chartPoints s.(s_step)); Attr "fill" "none";
                          Attr "stroke" "currentColor"; cls "text-info"; Attr "strokeWidth" "1.2";
                          Attr "vectorEffect" "non-scaling-stroke"] []]]].

Definition timeline_panel (s : sim) : node click :=
  El "div" [cls "card p-4"]
    [El "h3" [cls "text-base font-bold text-txt-1"] [Txt "Simulated event timeline"];
     El "p" [cls "text-sm text-txt-3 mt-0.5 mb-3"]
       [Txt "Every entry is generated by the page, not a server."];
     El "div" [cls "space-y-1.5 max-h-56 overflow-y-auto"; Attr "aria-live" "polite"]
       (map (fun event => 
          El "div" [Key (dec event.(te_id));
                    cls ("flex items-start gap-2 px-2.5 py-1.5 rounded-md border-l-2 " +:+ EVENT_COLORS event.(te_type))]
            [El "span" [cls "text-xs font-mono text-txt-3 whitespace-nowrap mt-0.5"]
               [Txt "+";
                Txt (to_fixed 1 (div (of_Z event.(te_time)) (of_Z 1000)));
                Txt "s"];
             El "span" [cls "text-sm"] [Txt (event.(te_label))]]) s.(s_timeline))].

Definition boundary_panel : node click :=
  El "div" [cls "card p-4 border-brand-violet/20"]
    [El "div" [cls "flex items-center justify-between gap-2"]
       [El "h3" [cls "text-sm font-bold text-txt-1"] [Txt "What is real here?"];
        El "span" [cls "badge-xs bg-brand-violet/10 text-brand-violet"] [Txt "clear boundary"]];
     El "div" [cls "space-y-3 mt-4 text-sm"]
       [El "div" [cls "flex items-center justify-between gap-3"]
          [El "span" [cls "text-txt-3"] [Txt "Hetzner backend"];
           El "span" [cls "font-semibold text-warn"] [Txt "Being retired"]];
        El "div" [cls "flex items-center justify-between gap-3"]
          [El "span" [cls "text-txt-3"] [Txt "This simulation"];
           El "span" [cls "font-semibold text-ok"] [Txt "Running in browser"]];
        El "div" [cls "flex items-center justify-between gap-3"]
          [El "span" [cls "text-txt-3"] [Txt "API requests"];
           El "span" [cls "font-semibold text-txt-1"] [Txt "None"]];
        El "div" [cls "flex items-center justify-between gap-3"]
          [El "span" [cls "text-txt-3"] [Txt "Real deployment"];
           El "Link" [Attr "to" "/try-locally";
                      cls "font-semibold text-brand-violet hover:underline"]
             [Txt "Run locally →"]]]].

Definition storage_panel (s : sim) : node click :=
  El "div" [cls "card p-4"]
    [El "div" [cls "flex items-center justify-between gap-2 mb-3"]
       [El "div" []
          [El "h3" [cls "text-sm font-bold text-txt-1"] [Txt "Simulated checkpoint storage"];
           El "p" [cls "text-xs text-txt-3 mt-0.5"] [Txt "Records exist only in page memory."]];
        El "span" [cls "badge-xs bg-info-muted text-info"] [Txt "mock data"]];
     (if (Z.of_nat (length s.(s_checkpoints)) =? 0) then 
        El "p" [cls "text-sm text-txt-3 py-4"]
          [Txt "The first simulated save point appears at step 50."] else 
        El "div" [cls "space-y-2 max-h-52 overflow-y-auto"]
          (map (fun checkpoint => 
             El "div" [Key (dec checkpoint.(sc_step)); cls "rounded-lg bg-surface-2 px-3 py-2"]
               [El "div" [cls "flex items-center justify-between gap-2"]
                  [El "span" [cls "text-sm font-semibold text-txt-1"]
                     [Txt "Step ";
                      Txt (dec checkpoint.(sc_step))];
                   El "span" [cls "text-xs text-txt-3"] [Txt (checkpoint.(sc_size))]];
                El "p" [cls "text-[10px] text-txt-3 font-mono truncate mt-1"] [Txt (checkpoint.(sc_hash))]]) (Slice.slice 0 (Some 6) (rev s.(s_checkpoints)))))].

Definition stdout_panel (s : sim) : node click :=
  El "div" [cls "card p-4 bg-[#0b0d12] border-line/60"]
    [El "div" [cls "flex items-center justify-between gap-2 mb-3"]
       [El "h3" [cls "text-sm font-bold text-white"] [Txt "Simulated stdout"];
        El "span" [cls "text-[10px] text-slate-400 font-mono"] [Txt "local page state"]];
     El "div" [cls "space-y-1.5 font-mono text-[11px] leading-relaxed max-h-56 overflow-y-auto"]
       (imap (fun index line => 
          El "p" [Key (dec (Z.of_nat index) +:+ "-" +:+ line); cls "text-slate-300"]
            [El "span" [cls "text-emerald-400"] [Txt "›"];
             Txt " ";
             Txt line]) s.(s_logs))].

Definition intro_section : node click :=
  El "section" [cls "card p-5 sm:p-6 border-warn/30 bg-warn-muted/5"]
    [El "div" [cls "flex flex-col lg:flex-row lg:items-center gap-5"]
       [El "div" [cls "flex-1"]
          [El "div" [cls "flex flex-wrap items-center gap-2 mb-2"]
             [El "span" [cls "badge-xs bg-warn-muted text-warn"] [Txt "browser simulation"];
              El "span" [cls "badge-xs bg-surface-3 text-txt-3"] [Txt "no live backend"]];
           El "h1" [cls "text-xl sm:text-2xl font-bold text-txt-1"]
             [Txt "I’m retiring my paid Hetzner backend server."];
           El "p" [cls "text-sm sm:text-base text-txt-2 mt-2 leading-relaxed max-w-3xl"]
             [Txt "This page now runs an honest, self-contained simulation in your browser. It makes no API requests, starts no cloud resources, and cannot stop a real worker. To run the actual system, use the local setup."]];
        El "Link" [Attr "to" "/try-locally";
                   cls "btn-primary cursor-pointer inline-flex items-center justify-center gap-2 px-6 py-3 text-sm font-semibold whitespace-nowrap"]
          [Txt "Run the real system locally";
           El "svg" [cls "w-4 h-4"; Attr "fill" "none"; Attr "stroke" "currentColor";
                     Attr "viewBox" "0 0 24 24"]
             [El "path" [Attr "strokeLinecap" "round"; Attr "strokeLinejoin" "round";
                         Attr "strokeWidth" "2"; Attr "d" "M13 7l5 5m0 0l-5 5m5-5H6"] []]]]].

Definition hero_section (s : sim) : node click :=
  let hasStarted := negb (bool_decide (s.(s_phase) = Idle)) in
  El "section" [cls "text-center space-y-5 py-5"]
    [El "div" [cls "inline-flex items-center gap-2 bg-brand-violet/10 text-brand-violet text-xs font-semibold px-3 py-1 rounded-full"]
       [El "span" [cls "w-2 h-2 rounded-full bg-brand-violet animate-pulse motion-reduce:animate-none"] [];
        Txt "Interactive simulation · runs only in this tab"];
     El "h2" [cls "text-4xl sm:text-5xl font-extrabold text-txt-1 tracking-tight leading-tight"]
       [Txt "Break a simulated worker.";
        El "br" [] [];
        El "span" [cls "font-serif italic"] [Txt "Watch it recover from a save point."]];
     El "p" [cls "text-txt-2 text-lg max-w-2xl mx-auto leading-relaxed"]
       [Txt "The sequence mirrors the checkpoint recovery flow, but every number, log, worker, and file shown here is generated locally in your browser."];
     El "div" [cls "flex flex-col sm:flex-row items-center justify-center gap-3"]
       [El "button" [OnClick Start; cls "btn-primary px-8 py-3.5 text-base cursor-pointer"]
          [(if hasStarted then Txt "Restart Simulation" else Txt "Start Simulation")];
        El "Link" [Attr "to" "/try-locally"; cls "btn-ghost px-6 py-3 text-base cursor-pointer"]
          [Txt "Skip simulation — run it locally"]]].

Definition stages_section (s : sim) : node click :=
  let phase := s.(s_phase) in
  let hasStarted := negb (bool_decide (phase = Idle)) in
  let hasFailed := bool_decide (phase = Failed) || bool_decide (phase = Recovering)
                   || bool_decide (phase = Recovered) in
  let hasRecovered := bool_decide (phase = Recovered) in
  El "section" [cls "grid grid-cols-1 md:grid-cols-3 gap-4"]
    [StageCard 1 "Start a simulated run" "Two browser-only workers advance training and create pretend checkpoint records." (if bool_decide (phase = Idle) then Active else Complete) OkTone;
     StageCard 2 "Kill a simulated worker" "The button changes local page state. It does not send a command to any server." (if negb hasStarted then Waiting else if hasFailed then Complete else Active) ErrTone;
     StageCard 3 "Watch simulated recovery" "The demo restores the last save point and continues the simulated training counter." (if hasRecovered then Complete else if bool_decide (phase = Failed) || bool_decide (phase = Recovering) then Active else Waiting) RecoverTone].

Definition footer_section : node click :=
  El "section" [cls "card p-6 sm:p-8 text-center border-brand-violet/20"]
    [El "h2" [cls "text-2xl font-bold text-txt-1"] [Txt "Want the real checkpoint system?"];
     El "p" [cls "text-base text-txt-2 max-w-2xl mx-auto mt-2 mb-6"]
       [Txt "Run the services on your own computer. The local guide uses the real control plane, workers, storage, and recovery flow without a paid cloud backend."];
     El "Link" [Attr "to" "/try-locally";
                cls "btn-primary inline-flex items-center gap-2 px-8 py-3.5 text-base font-semibold cursor-pointer"]
       [Txt "Open the local setup guide";
        El "svg" [cls "w-4 h-4"; Attr "fill" "none"; Attr "stroke" "currentColor";
                  Attr "viewBox" "0 0 24 24"]
          [El "path" [Attr "strokeLinecap" "round"; Attr "strokeLinejoin" "round";
                      Attr "strokeWidth" "2"; Attr "d" "M13 7l5 5m0 0l-5 5m5-5H6"] []]]].

(** What is shown once the simulation has started *)
Definition started_section (s : sim) : node click :=
  let phase := s.(s_phase) in
  El "motion.section" [Attr "initial" "{ opacity: 0, y: 12 }"; Attr "animate" "{ opacity: 1, y: 0 }";
                       cls "space-y-4"]
    (workers_panel s ::
     El "AnimatePresence" []
       (when (bool_decide (phase = Failed) || bool_decide (phase = Recovering)) (recovery_banner s)) ::
     when (bool_decide (phase = Recovered)) (recovered_banner s) ++
     metrics_panel s ::
     El "div" [cls "grid grid-cols-1 lg:grid-cols-[1fr_380px] gap-4"]
       [El "div" [cls "space-y-4 min-w-0"] [SimulationPipeline phase; loss_panel s; timeline_panel s];
        El "aside" [cls "space-y-4"] [boundary_panel; storage_panel s; stdout_panel s]] ::
     []).

Definition DemoPage (s : sim) : node click :=
  El "MotionConfig" [Attr "reducedMotion" "user"]
    [El "div" [cls "max-w-6xl mx-auto py-8 space-y-6"]
       ([intro_section; hero_section s; stages_section s] ++
        when (negb (bool_decide (s.(s_phase) = Idle))) (started_section s) ++
        [footer_section])].
End View.

(** ** Offered clicks *)

Section Offers.
Context `{MathLib}.

Lemma worker_card_offers s i worker :
  offers (worker_card s i worker) = if canKill s then [Kill worker] else [].
Proof.
  unfold worker_card.
  set (ir := (bool_decide (s_phase s = Failed) || bool_decide (s_phase s = Recovering))%bool).
  set (k := bool_decide (s_killedWorker s = Some worker)).
  destruct (canKill s), k, ir; cbn [negb andb orb]; try reflexivity; by destruct (bool_decide _).
Qed.

Lemma started_offers s :
  offers (started_section s) = if canKill s then [Kill "sim-worker-0"; Kill "sim-worker-1"] else [].
Proof.
  unfold started_section. rewrite offers_el. cbn [own_clicks disabled existsb omap list_omap app].
  rewrite !offers_list_cons, offers_list_app, offers_list_when, !offers_list_cons.
  assert (W : offers (workers_panel s) = if canKill s then [Kill "sim-worker-0"; Kill "sim-worker-1"] else []).
  { unfold workers_panel. rewrite offers_el, !offers_list_cons.
    rewrite (offers_el "div" [cls "grid grid-cols-1 sm:grid-cols-2 gap-3"]).
    change (imap (fun i worker => worker_card s (Z.of_nat i) worker) ["sim-worker-0"; "sim-worker-1"])
      with [worker_card s 0 "sim-worker-0"; worker_card s 1 "sim-worker-1"].
    rewrite !offers_list_cons, !worker_card_offers. by destruct (canKill s). }
  rewrite W.
  assert (R : offers (recovery_banner s) = []) by (unfold recovery_banner; destruct (s_phase s); reflexivity).
  assert (A : offers (El "AnimatePresence" [] (when (bool_decide (s_phase s = Failed)
      || bool_decide (s_phase s = Recovering)) (recovery_banner s))) = []).
  { rewrite offers_el, offers_list_when, R. by destruct (_ || _)%bool. }
  assert (T : offers (timeline_panel s) = []).
  { unfold timeline_panel. rewrite offers_el, !offers_list_cons,
      (offers_el "div" [cls "space-y-1.5 max-h-56 overflow-y-auto"; Attr "aria-live" "polite"]).
    rewrite offers_list_map_nil; [done|]. reflexivity. }
  assert (St : offers (storage_panel s) = []).
  { unfold storage_panel. rewrite offers_el, !offers_list_cons.
    destruct (Z.of_nat (length (s_checkpoints s)) =? 0); [done|].
    rewrite (offers_el "div" [cls "space-y-2 max-h-52 overflow-y-auto"]), offers_list_map_nil; [done|].
    reflexivity. }
  assert (L : offers (stdout_panel s) = []).
  { unfold stdout_panel. rewrite offers_el, !offers_list_cons.
    rewrite (offers_el "div" [cls "space-y-1.5 font-mono text-[11px] leading-relaxed max-h-56 overflow-y-auto"]).
    rewrite offers_list_imap_nil; [done|]. reflexivity. }
  assert (P : offers (SimulationPipeline (s_phase s)) = []) by (by destruct (s_phase s)).
  assert (G : offers (El "div" [cls "grid grid-cols-1 lg:grid-cols-[1fr_380px] gap-4"]
       [El "div" [cls "space-y-4 min-w-0"] [SimulationPipeline (s_phase s); loss_panel s; timeline_panel s];
        El "aside" [cls "space-y-4"] [boundary_panel; storage_panel s; stdout_panel s]]) = []).
  { rewrite offers_el, !offers_list_cons, !offers_el, !offers_list_cons, P, T, St, L. reflexivity. }
  rewrite A, G. change (offers (metrics_panel s)) with (@nil click).
  change (offers (recovered_banner s)) with (@nil click).
  destruct (canKill s), (bool_decide (s_phase s = Recovered)); reflexivity.
Qed.

Lemma DemoPage_offers s :
  offers (DemoPage s) =
    Start :: (if canKill s then [Kill "sim-worker-0"; Kill "sim-worker-1"] else []).
Proof.
  unfold DemoPage. rewrite offers_el, offers_list_cons, offers_el.
  cbn [own_clicks disabled existsb omap list_omap app].
  rewrite !offers_list_cons, offers_list_app, offers_list_when, started_offers.
  change (offers intro_section) with (@nil click). change (offers_list [footer_section]) with (@nil click).
  assert (Hh : offers (hero_section s) = [Start])
    by (unfold hero_section; by destruct (bool_decide (s_phase s = Idle))).
  assert (Hs : offers (stages_section s) = []) by (unfold stages_section; by destruct (s_phase s)).
  rewrite Hh, Hs. unfold canKill. destruct (s_phase s); cbn; rewrite ?app_nil_r; done.
Qed.

(** the page always offers the start button, and the two kill buttons exactly when
    the kill handler would act: on a running simulation with a checkpoint. A kill that is
    not offered changes nothing. *)
Theorem demo_page_offers (w : world) :
  (forall c, c ∈ offers (DemoPage (committed w)) <->
     c = Start \/
     (c = Kill "sim-worker-0" \/ c = Kill "sim-worker-1") /\
       s_phase (committed w) = Running /\ s_checkpoints (committed w) <> []) /\
  (forall n, (s_phase (committed w) = Running /\ s_checkpoints (committed w) <> []) \/
     killSimulatedWorker n w = w).
Proof.
  assert (K : canKill (committed w) = true <->
    s_phase (committed w) = Running /\ s_checkpoints (committed w) <> []).
  { unfold canKill. destruct (s_checkpoints (committed w)) as [|x l]; cbn.
    - rewrite andb_false_r. split; [done|]. by intros [_ ?].
    - rewrite andb_true_r, bool_decide_eq_true. split; [by split|by intros [? _]]. }
  split.
  - intros c. rewrite DemoPage_offers, elem_of_cons. destruct (canKill (committed w)).
    + rewrite !elem_of_cons. pose proof (proj1 K eq_refl).
      split; [|tauto]. intros [->|[->|[->|E]]]; try tauto. by inversion E.
    + split; [intros [->|E]; [tauto|by inversion E]|]. intros [->|[_ E]]; [tauto|]. by apply K in E.
  - intros n. unfold killSimulatedWorker.
    destruct (s_phase (committed w)) eqn:P; try (right; reflexivity).
    destruct (last (s_checkpoints (committed w))) as [c|] eqn:L; [|right; reflexivity].
    left. split; [done|]. intros E. by rewrite E in L.
Qed.

(** ** Keys *)

Lemma nodup_dec_map {A} (f : A -> Z) (l : list A) : NoDup (map f l) -> NoDup (map (fun x => dec (f x)) l).
Proof.
  intros N. rewrite <- (map_map f dec). apply NoDup_fmap_2_strong; [|done].
  intros x y _ _. apply dec_inj.
Qed.

Lemma nodup_take_rev {A} (n : nat) (l : list A) : NoDup l -> NoDup (take n (rev l)).
Proof.
  intros N. assert (N' : NoDup (rev l)) by (by rewrite rev_alt, <- rev_alt, <- Permutation_rev).
  rewrite <- (take_drop n (rev l)) in N'. by apply NoDup_app in N' as (? & _).
Qed.

Lemma nodup_log_keys (l : list string) :
  NoDup (imap (fun i line => dec (Z.of_nat i) +:+ "-" +:+ line) l).
Proof.
  enough (G : forall k, NoDup (imap (fun i line => dec (Z.of_nat (k + i)) +:+ "-" +:+ line) l))
    by apply (G 0%nat).
  induction l as [|x l IH]; intros k; [constructor|]. rewrite imap_cons. constructor.
  - intros Hin. apply elem_of_lookup_imap in Hin as (i & y & E & _). unfold compose in E.
    apply dec_dash_inj in E; lia.
  - erewrite imap_ext; [apply (IH (S k))|]. intros i y _. unfold compose. cbn. do 3 f_equal. lia.
Qed.

Lemma sibling_keys_log {A} (f : nat -> A -> node click) (key : nat -> A -> string) l :
  (forall i a, node_key (f i a) = Some (key i a)) -> sibling_keys (imap f l) = imap key l.
Proof.
  revert f key. unfold sibling_keys. induction l as [|a l IH]; intros f key E; [done|].
  rewrite !imap_cons. cbn. rewrite E. f_equal. apply IH. intros i x. apply E.
Qed.

Lemma worker_card_keys s i w : keys_ok (worker_card s i w).
Proof.
  unfold worker_card.
  set (ir := (bool_decide (s_phase s = Failed) || bool_decide (s_phase s = Recovering))%bool).
  set (k := bool_decide (s_killedWorker s = Some w)). set (r := bool_decide (s_phase s = Recovered)).
  clearbody ir k r. apply keys_okb_ok. destruct k, ir, (canKill s), r; reflexivity.
Qed.

Lemma workers_panel_keys s : keys_ok (workers_panel s).
Proof.
  unfold workers_panel. apply keys_ok_el. split; [constructor|].
  constructor; [apply keys_okb_ok; reflexivity|]. constructor; [|constructor].
  apply keys_ok_el.
  change (imap (fun i worker => worker_card s (Z.of_nat i) worker) ["sim-worker-0"; "sim-worker-1"])
    with [worker_card s 0 "sim-worker-0"; worker_card s 1 "sim-worker-1"].
  split; [|repeat constructor; apply worker_card_keys].
  change (NoDup ["sim-worker-0"; "sim-worker-1"]). apply (bool_decide_eq_true_1 _). reflexivity.
Qed.

Lemma timeline_panel_keys s : NoDup (map te_id (s_timeline s)) -> keys_ok (timeline_panel s).
Proof.
  intros N. unfold timeline_panel. apply keys_ok_el. split; [constructor|].
  do 2 (constructor; [apply keys_okb_ok; reflexivity|]). constructor; [|constructor].
  apply keys_ok_el. split.
  - rewrite (sibling_keys_map _ (fun e => dec (te_id e))) by done. by apply nodup_dec_map.
  - apply Forall_map, Forall_true. intros e. apply keys_okb_ok. reflexivity.
Qed.

Lemma storage_panel_keys s : NoDup (map sc_step (s_checkpoints s)) -> keys_ok (storage_panel s).
Proof.
  intros N. unfold storage_panel. apply keys_ok_el.
  destruct (Z.of_nat (length (s_checkpoints s)) =? 0);
    [split; [constructor|]; repeat (constructor; [apply keys_okb_ok; reflexivity|]); constructor|].
  split; [constructor|].
  constructor; [apply keys_okb_ok; reflexivity|]. constructor; [|constructor].
  apply keys_ok_el. split.
  - rewrite (sibling_keys_map _ (fun c => dec (sc_step c))) by done.
    rewrite Slice.slice_prefix by lia. apply nodup_dec_map. change (Z.to_nat 6) with 6%nat.
    rewrite <- firstn_map, map_rev. by apply nodup_take_rev.
  - apply Forall_map, Forall_true. intros c. apply keys_okb_ok. reflexivity.
Qed.

Lemma stdout_panel_keys s : keys_ok (stdout_panel s).
Proof.
  unfold stdout_panel. apply keys_ok_el. split; [constructor|].
  constructor; [apply keys_okb_ok; reflexivity|]. constructor; [|constructor].
  apply keys_ok_el. split.
  - rewrite (sibling_keys_log _ (fun i line => dec (Z.of_nat i) +:+ "-" +:+ line)) by done.
    apply nodup_log_keys.
  - apply Forall_forall. intros n Hn. apply elem_of_lookup_imap in Hn as (i & line & -> & _).
    apply keys_okb_ok. reflexivity.
Qed.

Lemma started_keys s :
  NoDup (map te_id (s_timeline s)) -> NoDup (map sc_step (s_checkpoints s)) -> keys_ok (started_section s).
Proof.
  intros Nt Nc. unfold started_section. apply keys_ok_el.
  assert (A : keys_ok (El "AnimatePresence" [] (when (bool_decide (s_phase s = Failed)
      || bool_decide (s_phase s = Recovering)) (recovery_banner s)))).
  { unfold recovery_banner. apply keys_okb_ok. by destruct (s_phase s). }
  assert (G : keys_ok (El "div" [cls "grid grid-cols-1 lg:grid-cols-[1fr_380px] gap-4"]
       [El "div" [cls "space-y-4 min-w-0"] [SimulationPipeline (s_phase s); loss_panel s; timeline_panel s];
        El "aside" [cls "space-y-4"] [boundary_panel; storage_panel s; stdout_panel s]])).
  { apply keys_ok_el. split; [constructor|]. constructor; [|constructor; [|constructor]]; apply keys_ok_el.
    - split; [constructor|]. constructor; [apply keys_okb_ok; by destruct (s_phase s)|].
      constructor; [apply keys_okb_ok; reflexivity|]. constructor; [by apply timeline_panel_keys|constructor].
    - split.
      + unfold storage_panel, stdout_panel. constructor.
      + constructor; [apply keys_okb_ok; reflexivity|]. constructor; [by apply storage_panel_keys|].
        constructor; [apply stdout_panel_keys|constructor]. }
  split; [destruct (s_phase s); constructor|].
  constructor; [apply workers_panel_keys|]. constructor; [exact A|]. apply Forall_app. split.
  - destruct (bool_decide (s_phase s = Recovered)); [|constructor].
    constructor; [apply keys_okb_ok; reflexivity|constructor].
  - constructor; [apply keys_okb_ok; reflexivity|]. constructor; [exact G|constructor].
Qed.

(** in every interleaving of clicks, timers, renders and effects, no two siblings of
    the rendered page have the same key: events, checkpoints and log lines alike. *)
Theorem demo_page_keys (w : world) : reachable w -> keys_ok (DemoPage (committed w)).
Proof.
  intros R. destruct (reachable_ok w R) as [_ [_ _ [Hc _] _ (Ht & _ & _) _]].
  unfold DemoPage. apply keys_ok_el. split; [constructor|]. constructor; [|constructor].
  apply keys_ok_el. split; [destruct (s_phase (committed w)); constructor|].
  rewrite !Forall_app. split_and!.
  - constructor; [apply keys_okb_ok; reflexivity|].
    unfold hero_section, stages_section.
    constructor; [apply keys_okb_ok; by destruct (s_phase (committed w))|].
    constructor; [apply keys_okb_ok; by destruct (s_phase (committed w))|constructor].
  - destruct (negb _); [|constructor]. constructor; [|constructor].
    apply started_keys; by apply increasing_nodup.
  - constructor; [apply keys_okb_ok; reflexivity|constructor].
Qed.
End Offers.

Lemma demo_page_keys_witness : keys_ok (DemoPage (committed at_rest)).
Proof. exact (demo_page_keys at_rest at_rest_reachable). Defined.
