(* ===== verification/Hooks.v ===== *)
(** * The data hooks: [frontend/src/hooks/]

    [usePolling], [useEventStream] and [useReveal]. A polling component is modelled with
    its requests in flight: the hook never cancels one, so they may settle in any order
    and after the URL has changed. *)

From S2P Require Import Prelude JsString JsNum Html Types Host Async Design Ui ControlPlane RunDetail.

(** ** [usePolling] *)
Section Polling.
Context {A : Type}.

Record poll : Type := Poll { data : option A; poll_loading : bool; poll_error : option string }.

Definition init_poll : poll := Poll None true None.

(** [fetchData] from its [await fetch] on. *)
Definition poll_settled (o : outcome A) : M (poll * list unit) unit :=
  finally_on
    (catch
       (let* res := await o in
        check_ok res (status_line res) ;;
        let* json := await (res_json res) in
        on (fun p => Poll (Some json) p.(poll_loading) p.(poll_error)) ;;
        on (fun p => Poll p.(data) p.(poll_loading) None))
       (fun e => on (fun p => Poll p.(data) p.(poll_loading) (Some (message_or "Fetch failed" e)))))
    (fun p => Poll p.(data) false p.(poll_error)).

(** The state after a request with this result. *)
Definition apply_result (s : poll) (r : exn + A) : poll :=
  match r with
  | inr json => Poll (Some json) false None
  | inl e => Poll s.(data) false (Some (message_or "Fetch failed" e))
  end.

Lemma poll_settled_spec o p :
  fst (handle (poll_settled o) p) = apply_result p (fetch_result status_line o).
Proof.
  destruct o as [e|r]; [done|].
  unfold handle, run, poll_settled, finally_on, finally, catch, bind, await, fetch_result, check_ok.
  destruct (res_ok r); [|done]. by destruct (res_json r).
Qed.

(** The component: its URL, the hook's state, and the URL of each request in flight. *)
Record poller : Type := Poller { url : string; state_of : poll; in_flight : list string }.

(** Mounting fetches at once. *)
Definition mount_poller (u : string) : poller := Poller u init_poll [u].

Inductive poll_step : poller -> poller -> Prop :=
(** the interval, or a call of [refetch] *)
| poll_fetch p : poll_step p (Poller (url p) (state_of p) (in_flight p ++ [url p]))
(** a new URL re-creates [fetchData]: the effect clears the interval and fetches *)
| poll_url p u : u <> url p -> poll_step p (Poller u (state_of p) (in_flight p ++ [u]))
(** a request settles *)
| poll_settle p pre u post (o : outcome A) :
    in_flight p = pre ++ u :: post ->
    poll_step p (Poller (url p) (fst (handle (poll_settled o) (state_of p))) (pre ++ post)).

(** Steps that settle a request for [u] with [o], and the others. *)
Inductive poll_trace : poller -> list (string * outcome A) -> poller -> Prop :=
| trace_nil p : poll_trace p [] p
| trace_quiet p p1 tr p2 :
    poll_step p p1 -> state_of p1 = state_of p -> poll_trace p1 tr p2 -> poll_trace p tr p2
| trace_settle p pre u post o tr p2 :
    in_flight p = pre ++ u :: post ->
    poll_trace (Poller (url p) (fst (handle (poll_settled o) (state_of p))) (pre ++ post)) tr p2 ->
    poll_trace p ((u, o) :: tr) p2.

Definition results (tr : list (string * outcome A)) : list (exn + A) :=
  map (fun x => fetch_result status_line (snd x)) tr.
Definition right {B C} (r : B + C) : option C := match r with inr c => Some c | inl _ => None end.

(** The state after a trace depends on the settled requests only. *)
Lemma poll_trace_state p tr p2 :
  poll_trace p tr p2 ->
  state_of p2 = foldl apply_result (state_of p) (results tr).
Proof.
  induction 1 as [p|p p1 tr p2 S E T IH|p pre u post o tr p2 E T IH]; [done| |].
  - by rewrite IH, E.
  - rewrite IH. cbn [state_of]. rewrite poll_settled_spec. done.
Qed.

Lemma foldl_results (rs : list (exn + A)) s :
  let s' := foldl apply_result s rs in
  s'.(data) = match last (omap right rs) with Some j => Some j | None => s.(data) end /\
  s'.(poll_loading) = (if bool_decide (rs = []) then s.(poll_loading) else false) /\
  s'.(poll_error) = match last rs with
                    | Some (inl e) => Some (message_or "Fetch failed" e)
                    | Some (inr _) => None
                    | None => s.(poll_error)
                    end.
Proof.
  induction rs as [|r rs IH] using rev_ind; [done|].
  rewrite foldl_app, omap_app, last_snoc. cbn [foldl]. cbv zeta in *.
  set (s' := foldl _ s rs) in *. destruct IH as (Hd & Hl & He).
  rewrite (bool_decide_eq_false_2 (rs ++ [r] = [])) by (by destruct rs).
  destruct r as [e|j]; cbn [omap list_omap right apply_result data poll_loading poll_error].
  - by rewrite app_nil_r.
  - by rewrite last_snoc.
Qed.

(** whatever the order in which the requests of a polling component settle, and
    however its URL changes, it shows the data of the request that settled last among
    those that succeeded, and an error exactly when the last to settle failed. A failing
    poll never discards data; the loading flag falls with the first settlement. *)
Theorem polling_history (u : string) (tr : list (string * outcome A)) (p : poller) :
  poll_trace (mount_poller u) tr p ->
  data (state_of p) = last (omap right (results tr)) /\
  poll_error (state_of p) = match last (results tr) with
                            | Some (inl e) => Some (message_or "Fetch failed" e)
                            | _ => None
                            end /\
  poll_loading (state_of p) = bool_decide (tr = []).
Proof.
  intros T. rewrite (poll_trace_state _ _ _ T).
  cbn [state_of mount_poller].
  destruct (foldl_results (results tr) init_poll) as (D & L & E). rewrite D, L, E.
  cbn [data poll_error poll_loading init_poll].
  split_and!.
  - by destruct (last (omap right (results tr))).
  - by destruct (last (results tr)) as [[]|].
  - by destruct tr.
Qed.

(** nothing ties a response to the URL it was requested for. For any two URLs and
    any two values, a component can end up at the second URL, with nothing in flight,
    showing the value of the first although the second had already arrived. *)
Theorem polling_stale_response (u1 u2 : string) (a1 a2 : A) :
  u1 <> u2 ->
  exists tr p, poll_trace (mount_poller u1) tr p /\ url p = u2 /\ in_flight p = [] /\
    tr = [(u2, inr (Response 200 "OK" (inr a2))); (u1, inr (Response 200 "OK" (inr a1)))] /\
    data (state_of p) = Some a1.
Proof.
  intros N.
  exists [(u2, inr (Response 200 "OK" (inr a2))); (u1, inr (Response 200 "OK" (inr a1)))],
    (Poller u2 (Poll (Some a1) false None) []).
  split_and!; [|reflexivity|reflexivity|reflexivity|].
  - eapply trace_quiet; [apply (poll_url _ u2); cbn; congruence|reflexivity|].
    eapply (trace_settle _ [u1] u2 []); [reflexivity|].
    eapply (trace_settle _ [] u1 []); [reflexivity|]. apply trace_nil.
  - reflexivity.
Qed.
End Polling.
Arguments poll : clear implicits.
Arguments poller : clear implicits.

(** ** [useEventStream] *)

Definition MAX_EVENTS : Z := 200.

Definition pushEvent (type data timestamp : string) (events : list run_event) : list run_event :=
  Slice.slice (- (MAX_EVENTS - 1)) None events ++ [RunEvent type data timestamp].

(** The listeners, by event name. *)
Definition stream_event (name data timestamp : string) (events : list run_event) : list run_event :=
  if (name =? "message")%string then pushEvent "message" data timestamp events
  else if (name =? "state_change")%string then pushEvent "state_change" data timestamp events
  else if (name =? "checkpoint")%string then pushEvent "checkpoint" data timestamp events
  else if (name =? "error_event")%string then pushEvent "error" data timestamp events
  else events.

(** A server-sent event: name, data and time of arrival *)
Definition useEventStream (arrived : list (string * string * string)) : list run_event :=
  foldl (fun events '(name, data, t) => stream_event name data t events) [] arrived.

(** the hook and the run page, which has its own copy of it, keep the same buffer:
    for every sequence of server-sent events both hold the last 200 of those they listen
    to. *)
Theorem event_buffers_agree (i : option string) (arrived : list (string * string * string)) :
  useEventStream arrived =
    RunDetail.events (RunDetail.run_messages
      (map (fun '(name, data, t) => RunDetail.Sse name data t) arrived) (RunDetail.init_page i)) /\
  useEventStream arrived =
    Slice.last_n 200 (omap (fun '(name, data, t) => RunDetail.event_of (RunDetail.Sse name data t)) arrived).
Proof.
  assert (E : useEventStream arrived = RunDetail.events (RunDetail.run_messages
      (map (fun '(name, data, t) => RunDetail.Sse name data t) arrived) (RunDetail.init_page i))).
  { induction arrived as [|[[name data] t] l IH] using rev_ind; [done|].
    unfold useEventStream, RunDetail.run_messages in *. rewrite map_app, !foldl_app, IH. cbn [map foldl].
    set (p := foldl _ (RunDetail.init_page i) _). cbn [RunDetail.update].
    unfold stream_event, RunDetail.sse.
    repeat (destruct (String.eqb _ _); [done|]). done. }
  split; [exact E|]. rewrite E.
  destruct (detail_page_history_spec i (map (fun '(name, data, t) => RunDetail.Sse name data t) arrived))
    as (_ & _ & -> & _).
  f_equal. clear E. induction arrived as [|[[name data] t] l IH]; [done|].
  cbn [map omap list_omap]. by rewrite IH.
Qed.

(** ** [useReveal] *)

(** The observed element: whether it has the class [visible], and whether it is still
    observed. *)
Record reveal : Type := Reveal { visible : bool; observed : bool }.

(** The observer's callback looks at the first entry of a batch. *)
Definition reveal_callback (entries : list bool) (r : reveal) : reveal :=
  match entries with
  | true :: _ => Reveal true false
  | _ => r
  end.
Definition reveal_event (entries : list bool) (r : reveal) : reveal :=
  if observed r then reveal_callback entries r else r.

(** ** Witnesses *)

Lemma polling_history_witness :
  let p := Poller "u" (fst (handle (poll_settled (inr (Response 200 "OK" (inr 5)))) init_poll)) [] in
  poll_trace (mount_poller "u") [("u", inr (Response 200 "OK" (inr 5)))] p /\
  data (state_of p) = Some 5.
Proof.
  assert (T : poll_trace (mount_poller "u") [("u", inr (Response 200 "OK" (inr 5)))]
    (Poller "u" (fst (handle (poll_settled (inr (Response 200 "OK" (inr 5)))) init_poll)) []))
    by (eapply (trace_settle _ [] "u" []); [reflexivity|]; apply trace_nil).
  split; [exact T|]. exact (proj1 (polling_history _ _ _ T)).
Defined.

Lemma polling_stale_response_witness :
  exists tr p, poll_trace (mount_poller "a") tr p /\ url p = "b" /\ data (state_of p) = Some 1.
Proof.
  destruct (polling_stale_response "a" "b" 1 2) as (tr & p & T & U & _ & _ & D); [discriminate|].
  by exists tr, p.
Defined.
