(* ===== verification/Regex.v ===== *)
(** * The regular expressions of the console

    The patterns used are sequences of literals and greedy quantified character classes,
    some captured. [match_here] is the ECMA-262 backtracking matcher on them: a
    quantifier takes as many characters as it can and gives them back one by one. The
    subject is a list of bytes; [\s] and [\S] are those of its ASCII characters. *)

From Stdlib Require Import Ascii.
From S2P Require Import Prelude JsString.

Inductive item : Type :=
| Lit (l : list chr)
(** a literal under the flag [i] *)
| LitI (l : list chr)
(** [class+], [(class+)] when captured *)
| Plus (p : chr -> bool) (captured : bool)
(** [class*] *)
| Star (p : chr -> bool).

Fixpoint take_while (p : chr -> bool) (s : list chr) : nat :=
  match s with
  | c :: s' => if p c then S (take_while p s') else 0
  | [] => 0
  end.

Fixpoint strip_prefix (l s : list chr) : option (list chr) :=
  match l, s with
  | [], _ => Some s
  | a :: l', b :: s' => if Ascii.eqb a b then strip_prefix l' s' else None
  | _ :: _, [] => None
  end.

(** [Canonicalize] of the flag [i] on ASCII: the upper-case letter. *)
Definition canonicalize (c : chr) : chr :=
  let k := code c in if (97 <=? k) && (k <=? 122) then chr_of (k - 32) else c.

Fixpoint strip_prefix_i (l s : list chr) : option (list chr) :=
  match l, s with
  | [], _ => Some s
  | a :: l', b :: s' =>
      if Ascii.eqb (canonicalize a) (canonicalize b) then strip_prefix_i l' s' else None
  | _ :: _, [] => None
  end.

(** Tries [k n], [k (n - 1)], ..., [k low]. *)
Fixpoint longest {A} (low n : nat) (k : nat -> option A) : option A :=
  if (n <? low)%nat then None
  else match k n with
       | Some r => Some r
       | None => match n with O => None | S n' => longest low n' k end
       end.

(** The captures, in order, of a match at the start of [s]. *)
Fixpoint match_here (r : list item) (s : list chr) : option (list (list chr)) :=
  match r with
  | [] => Some []
  | Lit l :: r' =>
      match strip_prefix l s with Some s' => match_here r' s' | None => None end
  | LitI l :: r' =>
      match strip_prefix_i l s with Some s' => match_here r' s' | None => None end
  | Plus p captured :: r' =>
      longest 1 (take_while p s) (fun n =>
        match match_here r' (drop n s) with
        | Some caps => Some (if captured then take n s :: caps else caps)
        | None => None
        end)
  | Star p :: r' =>
      longest 0 (take_while p s) (fun n => match_here r' (drop n s))
  end.

(** [re.exec(s)]: the first position that matches. *)
Fixpoint exec (r : list item) (s : list chr) : option (list (list chr)) :=
  match match_here r s with
  | Some caps => Some caps
  | None => match s with [] => None | _ :: s' => exec r s' end
  end.

Definition test (r : list item) (s : list chr) : bool :=
  match exec r s with Some _ => true | None => false end.

(** ** Matching text printed from a format *)

Lemma strip_prefix_app l s : strip_prefix l (l ++ s) = Some s.
Proof. induction l as [|c l IH]; [done|]. cbn. by rewrite Ascii.eqb_refl. Qed.

Lemma match_lit l r s : match_here (Lit l :: r) (l ++ s) = match_here r s.
Proof. cbn [match_here]. by rewrite strip_prefix_app. Qed.

(** What follows a run of a class does not start with a character of it. *)
Definition stops_at (p : chr -> bool) (s : list chr) : Prop :=
  match s with [] => True | c :: _ => p c = false end.

Lemma take_while_app p w s :
  Forall (fun c => p c = true) w -> stops_at p s -> take_while p (w ++ s) = length w.
Proof.
  intros F St. induction F as [|c w Hc F IH]; cbn [app].
  - destruct s as [|c s]; [done|]. cbn [stops_at] in St. cbn [take_while]. by rewrite St.
  - cbn [take_while length]. by rewrite Hc, IH.
Qed.

(** A quantifier followed by text the rest matches takes the whole run. *)
Lemma match_plus p captured r w s caps :
  Forall (fun c => p c = true) w -> w <> [] -> stops_at p s -> match_here r s = Some caps ->
  match_here (Plus p captured :: r) (w ++ s) = Some (if captured then w :: caps else caps).
Proof.
  intros F Ne St M. cbn [match_here]. rewrite take_while_app by done.
  destruct w as [|c w]; [done|]. cbn [length longest].
  destruct (Nat.ltb_spec (S (length w)) 1); [lia|].
  change (S (length w)) with (length (c :: w)).
  rewrite drop_app_length, M. by rewrite take_app_length.
Qed.

Lemma match_capture p r w s caps :
  Forall (fun c => p c = true) w -> w <> [] -> stops_at p s -> match_here r s = Some caps ->
  match_here (Plus p true :: r) (w ++ s) = Some (w :: caps).
Proof. apply (match_plus p true). Qed.
Lemma match_run p r w s caps :
  Forall (fun c => p c = true) w -> w <> [] -> stops_at p s -> match_here r s = Some caps ->
  match_here (Plus p false :: r) (w ++ s) = Some caps.
Proof. apply (match_plus p false). Qed.

(** No quantified run of a class is followed by a literal that neither the class nor
    the text after the run starts with. *)
Lemma match_plus_lit_none p captured a l r w s :
  Forall (fun c => p c = true) w -> stops_at p s -> p a = false ->
  match s with [] => True | c :: _ => Ascii.eqb a c = false end ->
  match_here (Plus p captured :: Lit (a :: l) :: r) (w ++ s) = None.
Proof.
  intros F St Ha Hs. cbn [match_here]. rewrite take_while_app by done.
  enough (G : forall n, (n <= length w)%nat -> strip_prefix (a :: l) (drop n (w ++ s)) = None).
  { generalize (Nat.le_refl (length w)). generalize (length w) at 1 3 as n.
    intros n. induction n as [|n IH]; intros Hn; cbn [longest]; [done|].
    destruct (S n <? 1)%nat; [done|]. rewrite G by done. apply IH. lia. }
  intros n Hn. rewrite drop_app_le by done.
  destruct (drop n w) as [|c v] eqn:E; cbn [app strip_prefix].
  - destruct s as [|c s]; [done|]. by rewrite Hs.
  - assert (Hc : p c = true).
    { rewrite Forall_forall in F. apply F. rewrite <- (take_drop n w), E, elem_of_app. right. by left. }
    destruct (Ascii.eqb_spec a c) as [->|]; [congruence|done].
Qed.

(** The search moves past a position where nothing matches, in particular past the
    characters that the first literal does not start with. *)
Lemma exec_cons r c s : match_here r (c :: s) = None -> exec r (c :: s) = exec r s.
Proof. intros E. cbn [exec]. by rewrite E. Qed.

Lemma exec_skip_char a l r c s :
  Ascii.eqb a c = false -> exec (Lit (a :: l) :: r) (c :: s) = exec (Lit (a :: l) :: r) s.
Proof. intros E. apply exec_cons. cbn [match_here strip_prefix]. by rewrite E. Qed.

Lemma exec_skip a l r pre s :
  Forall (fun c => Ascii.eqb a c = false) pre ->
  exec (Lit (a :: l) :: r) (pre ++ s) = exec (Lit (a :: l) :: r) s.
Proof.
  intros F. induction F as [|c pre Hc F IH]; [done|].
  cbn [app]. by rewrite exec_skip_char.
Qed.

Lemma exec_never a l r s :
  Forall (fun c => Ascii.eqb a c = false) s -> exec (Lit (a :: l) :: r) s = None.
Proof.
  intros F. rewrite <- (app_nil_r s), exec_skip by done. done.
Qed.

Lemma exec_here r s caps : match_here r s = Some caps -> exec r s = Some caps.
Proof. intros E. destruct s; cbn [exec]; by rewrite E. Qed.

(** ** Whether there is a match *)

Lemma match_lit_i l w r s :
  map canonicalize w = map canonicalize l -> match_here (LitI l :: r) (w ++ s) = match_here r s.
Proof.
  intros E. cbn [match_here]. enough (strip_prefix_i l (w ++ s) = Some s) as -> by done.
  revert w E. induction l as [|a l IH]; intros [|b w] E; try done.
  cbn [map] in E. injection E as Ea El. cbn [app strip_prefix_i].
  rewrite Ea, Ascii.eqb_refl. by apply IH.
Qed.

Lemma longest_found {A} low n (k : nat -> option A) m :
  (low <= m <= n)%nat -> k m <> None -> longest low n k <> None.
Proof.
  intros Hm Hk. induction n as [|n IH]; cbn [longest].
  - assert (m = 0%nat) as -> by lia. destruct (Nat.ltb_spec 0 low); [lia|]. by destruct (k 0%nat).
  - destruct (Nat.ltb_spec (S n) low); [lia|]. destruct (k (S n)) eqn:E; [done|].
    destruct (decide (m = S n)) as [->|]; [done|]. apply IH. lia.
Qed.

Lemma take_while_ge p w s :
  Forall (fun c => p c = true) w -> (length w <= take_while p (w ++ s))%nat.
Proof.
  intros F. induction F as [|c w Hc F IH]; cbn [app take_while length]; [lia|]. rewrite Hc. lia.
Qed.

(** A quantifier that takes more than [w] gives characters back until the rest matches. *)
Lemma star_found p r w s :
  Forall (fun c => p c = true) w -> match_here r s <> None -> match_here (Star p :: r) (w ++ s) <> None.
Proof.
  intros F M. cbn [match_here]. apply (longest_found _ _ _ (length w)).
  - split; [lia|]. by apply take_while_ge.
  - by rewrite drop_app_length.
Qed.

Lemma plus_found p captured r w s :
  Forall (fun c => p c = true) w -> w <> [] -> match_here r s <> None ->
  match_here (Plus p captured :: r) (w ++ s) <> None.
Proof.
  intros F Ne M. cbn [match_here]. apply (longest_found _ _ _ (length w)).
  - split; [destruct w; cbn; [done|lia]|]. by apply take_while_ge.
  - rewrite drop_app_length. by destruct (match_here r s).
Qed.

Lemma test_found r pre s : match_here r s <> None -> test r (pre ++ s) = true.
Proof.
  intros M. unfold test. enough (exec r (pre ++ s) <> None) by (by destruct (exec r (pre ++ s))).
  induction pre as [|c pre IH]; cbn [app].
  - destruct (match_here r s) as [caps|] eqn:E; [|done]. by rewrite (exec_here _ _ _ E).
  - destruct (match_here r (c :: pre ++ s)) as [caps|] eqn:E.
    + by rewrite (exec_here _ _ _ E).
    + by rewrite exec_cons.
Qed.
