(* ===== verification/LogParser.v ===== *)
(** * The log parser: [frontend/src/hooks/useLogParser.ts]

    The hook recovers training points, checkpoints and recoveries from the log lines of
    the workers. The formats the lines are printed with are those of
    [training-harness/train.py]. *)

From Stdlib Require Import Ascii.
From S2P Require Import Prelude JsString JsNum Regex.

(** ** Data *)

Record loss_point : Type := LossPoint { lp_step : Z; lp_loss : num; lp_stepsPerSec : num }.

Record checkpoint_marker : Type := CheckpointMarker {
  cm_step : Z; cm_loss : num; cm_sizeBytes : Z; cm_sha256 : string; cm_saveTime : num
}.

Record recovery_marker : Type := RecoveryMarker {
  rm_checkpointId : string; rm_step : Z; rm_sizeBytes : Z; rm_restoreTime : num
}.

(** ** Patterns *)

Definition is_digit_or_dot (c : chr) : bool := is_digit c || Ascii.eqb c "."%char.
Definition not_space (c : chr) : bool := negb (is_space c).

(** [step=(\d+)\/\d+\s+loss=([\d.]+)\s+steps\/s=([\d.]+)] *)
Definition LOSS_RE : list item :=
  [Lit (units "step="); Plus is_digit true; Lit (units "/"); Plus is_digit false;
   Plus is_space false; Lit (units "loss="); Plus is_digit_or_dot true;
   Plus is_space false; Lit (units "steps/s="); Plus is_digit_or_dot true].

(** [Checkpoint saved \(runtime\): step=(\d+) loss=([\d.]+) size=(\d+) bytes
    sha256=(\S+) time=([\d.]+)s] *)
Definition CKPT_RE : list item :=
  [Lit (units "Checkpoint saved (runtime): step="); Plus is_digit true;
   Lit (units " loss="); Plus is_digit_or_dot true; Lit (units " size="); Plus is_digit true;
   Lit (units " bytes sha256="); Plus not_space true; Lit (units " time=");
   Plus is_digit_or_dot true; Lit (units "s")].

(** [Restored from runtime checkpoint: checkpoint_id=(\S+) step=(\d+) size=(\d+) bytes
    time=([\d.]+)s] *)
Definition RESTORE_RE : list item :=
  [Lit (units "Restored from runtime checkpoint: checkpoint_id="); Plus not_space true;
   Lit (units " step="); Plus is_digit true; Lit (units " size="); Plus is_digit true;
   Lit (units " bytes time="); Plus is_digit_or_dot true; Lit (units "s")].

Definition MAX_LOSS : Z := 500.
Definition MAX_CKPT : Z := 50.
Definition MAX_RESTORE : Z := 10.

(** ** The message handler *)

Record parsed : Type := Parsed {
  lossHistory : list loss_point;
  checkpointMarkers : list checkpoint_marker;
  recoveryMarkers : list recovery_marker;
  seenSteps : gset Z
}.

Definition init_parsed : parsed := Parsed [] [] [] ∅.

(** [parseInt(capture, 10)] of a capture of digits *)
Definition int_of (c : list chr) : Z := default 0 (parse_int (of_units c)).
Definition float_of (c : list chr) : num := parse_float (of_units c).

Definition parse_loss (line : string) (p : parsed) : parsed :=
  match exec LOSS_RE (units line) with
  | Some [s; l; r] =>
      let step := int_of s in
      if bool_decide (step ∈ p.(seenSteps)) then p
      else Parsed (Slice.push_capped MAX_LOSS p.(lossHistory) (LossPoint step (float_of l) (float_of r)))
             p.(checkpointMarkers) p.(recoveryMarkers) ({[step]} ∪ p.(seenSteps))
  | _ => p
  end.

Definition parse_checkpoint (line : string) (p : parsed) : parsed :=
  match exec CKPT_RE (units line) with
  | Some [s; l; z; h; t] =>
      Parsed p.(lossHistory)
        (Slice.push_capped MAX_CKPT p.(checkpointMarkers)
           (CheckpointMarker (int_of s) (float_of l) (int_of z) (of_units h) (float_of t)))
        p.(recoveryMarkers) p.(seenSteps)
  | _ => p
  end.

Definition parse_restore (line : string) (p : parsed) : parsed :=
  match exec RESTORE_RE (units line) with
  | Some [i; s; z; t] =>
      Parsed p.(lossHistory) p.(checkpointMarkers)
        (Slice.push_capped MAX_RESTORE p.(recoveryMarkers)
           (RecoveryMarker (of_units i) (int_of s) (int_of z) (float_of t)))
        p.(seenSteps)
  | _ => p
  end.

(** [es.onmessage]: the event's [line], or [None] for data that does not parse, which
    the handler skips. *)
Definition onmessage (line : option string) (p : parsed) : parsed :=
  match line with
  | Some line => parse_restore line (parse_checkpoint line (parse_loss line p))
  | None => p
  end.

Definition useLogParser (lines : list (option string)) : parsed :=
  foldl (fun p l => onmessage l p) init_parsed lines.

(** ** The printed formats *)

(** What the trainer logs: a training step, a saved checkpoint, a restore. The
    decimals are kept as printed ([%.4f], [%.2f], [%.1f]). *)
Inductive log_record : Type :=
| LogStep (step total : Z) (loss rate : string)
| LogCheckpoint (step : Z) (loss : string) (size : Z) (sha time : string)
| LogRestore (id : string) (step size : Z) (time : string).

(** ["step=%d/%d  loss=%.4f  steps/s=%.1f"] *)
Definition step_units (step total : Z) (loss rate : string) : list chr :=
  units "step=" ++ units (dec step) ++ units "/" ++ units (dec total) ++ units "  loss="
  ++ units loss ++ units "  steps/s=" ++ units rate.
(** ["Checkpoint saved (runtime): step=%d loss=%.4f size=%d bytes sha256=%s time=%.2fs"] *)
Definition checkpoint_units (step : Z) (loss : string) (size : Z) (sha time : string) : list chr :=
  units "Checkpoint saved (runtime): step=" ++ units (dec step) ++ units " loss="
  ++ units loss ++ units " size=" ++ units (dec size) ++ units " bytes sha256="
  ++ units sha ++ units " time=" ++ units time ++ units "s".
(** ["Restored from runtime checkpoint: checkpoint_id=%s step=%d size=%d bytes time=%.2fs"] *)
Definition restore_units (id : string) (step size : Z) (time : string) : list chr :=
  units "Restored from runtime checkpoint: checkpoint_id=" ++ units id ++ units " step="
  ++ units (dec step) ++ units " size=" ++ units (dec size) ++ units " bytes time="
  ++ units time ++ units "s".

Definition record_units (r : log_record) : list chr :=
  match r with
  | LogStep step total loss rate => step_units step total loss rate
  | LogCheckpoint step loss size sha time => checkpoint_units step loss size sha time
  | LogRestore id step size time => restore_units id step size time
  end.

(** A line of the log: the formatter's prefix
    ["%(asctime)s [%(levelname)s] rank=%(rank)s "] and the message. *)
Definition log_line (l : string * log_record) : string :=
  l.1 +:+ of_units (record_units l.2).

(** The initials of the three messages; an [INFO] prefix, a decimal and a hexadecimal
    digest hold none of them. *)
Definition plain (w : list chr) : Prop :=
  Forall (fun c => bool_decide (c ∈ ["s"; "C"; "R"]%char) = false) w.
Definition run_of (p : chr -> bool) (s : string) : Prop :=
  units s <> [] /\ Forall (fun c => p c = true) (units s).
Definition is_decimal : string -> Prop := run_of is_digit_or_dot.
Definition is_word (s : string) : Prop := run_of not_space s /\ plain (units s).
Definition is_count (n : Z) : Prop := 0 <= n < 2 ^ 53.

Definition printable (r : log_record) : Prop :=
  match r with
  | LogStep step total loss rate => is_count step /\ 0 <= total /\ is_decimal loss /\ is_decimal rate
  | LogCheckpoint step loss size sha time =>
      is_count step /\ is_decimal loss /\ is_count size /\ is_word sha /\ is_decimal time
  | LogRestore id step size time => is_word id /\ is_count step /\ is_count size /\ is_decimal time
  end.

(** ** The abstract log *)

Definition point_of (r : log_record) : option loss_point :=
  match r with
  | LogStep step _ loss rate => Some (LossPoint step (parse_float loss) (parse_float rate))
  | _ => None
  end.
Definition checkpoint_of (r : log_record) : option checkpoint_marker :=
  match r with
  | LogCheckpoint step loss size sha time =>
      Some (CheckpointMarker step (parse_float loss) size sha (parse_float time))
  | _ => None
  end.
Definition recovery_of (r : log_record) : option recovery_marker :=
  match r with
  | LogRestore id step size time => Some (RecoveryMarker id step size (parse_float time))
  | _ => None
  end.

(** The points whose step no earlier point has. *)
Fixpoint first_points (seen : gset Z) (l : list loss_point) : list loss_point :=
  match l with
  | [] => []
  | x :: l' =>
      if bool_decide (lp_step x ∈ seen) then first_points seen l'
      else x :: first_points ({[lp_step x]} ∪ seen) l'
  end.

(** ** Runs of characters *)

Lemma digit_not_initial c : is_digit_or_dot c = true -> bool_decide (c ∈ ["s"; "C"; "R"]%char) = false.
Proof.
  intros H. apply bool_decide_eq_false. rewrite !elem_of_cons, elem_of_nil.
  intros [->|[->|[->|[]]]]; discriminate.
Qed.

Lemma decimal_plain s : is_decimal s -> plain (units s).
Proof. intros [_ F]. eapply Forall_impl; [exact F|]. cbn. apply digit_not_initial. Qed.

Lemma dec_run n : 0 <= n -> run_of is_digit (dec n).
Proof. apply dec_digits. Qed.

Lemma dec_plain n : 0 <= n -> plain (units (dec n)).
Proof.
  intros Hn. eapply Forall_impl; [apply (dec_run n Hn)|]. cbn. intros c Hc.
  apply digit_not_initial. unfold is_digit_or_dot. by rewrite Hc.
Qed.

Lemma plain_other a w :
  bool_decide (a ∈ ["s"; "C"; "R"]%char) = true -> plain w -> Forall (fun c => Ascii.eqb a c = false) w.
Proof.
  intros Ha F. eapply Forall_impl; [exact F|]. cbn. intros c Hc.
  destruct (Ascii.eqb_spec a c) as [->|]; [congruence|done].
Qed.

Lemma int_of_dec n : is_count n -> int_of (units (dec n)) = n.
Proof. intros Hn. unfold int_of. by rewrite of_units_units, parse_int_dec. Qed.
Lemma float_of_units s : float_of (units s) = parse_float s.
Proof. unfold float_of. by rewrite of_units_units. Qed.

(** ** Each pattern on each message *)

(** Walks along a format: the literal or the run that both the pattern and the text
    start with. *)
Ltac walk :=
  repeat first
    [ rewrite match_lit
    | apply match_capture; [done|done|done|]
    | apply match_run; [by repeat constructor|done|done|]
    | apply match_run; [done|done|done|] ].

Lemma loss_on_step step total loss rate :
  0 <= step -> 0 <= total -> is_decimal loss -> is_decimal rate ->
  match_here LOSS_RE (record_units (LogStep step total loss rate))
  = Some [units (dec step); units loss; units rate].
Proof.
  intros Hs Ht [Nl Fl] [Nr Fr]. destruct (dec_run step Hs), (dec_run total Ht).
  unfold LOSS_RE, record_units, step_units.
  change (units "  loss=") with (units "  " ++ units "loss=").
  change (units "  steps/s=") with (units "  " ++ units "steps/s=").
  rewrite <- !app_assoc, <- (app_nil_r (units rate)) at 1. walk. done.
Qed.

Lemma checkpoint_on_checkpoint step loss size sha time :
  0 <= step -> is_decimal loss -> 0 <= size -> run_of not_space sha -> is_decimal time ->
  match_here CKPT_RE (record_units (LogCheckpoint step loss size sha time))
  = Some [units (dec step); units loss; units (dec size); units sha; units time].
Proof.
  intros Hs [Nl Fl] Hz [Nh Fh] [Nt Ft]. destruct (dec_run step Hs), (dec_run size Hz).
  unfold CKPT_RE, record_units, checkpoint_units. rewrite <- (app_nil_r (units "s")). walk. done.
Qed.

Lemma restore_on_restore id step size time :
  run_of not_space id -> 0 <= step -> 0 <= size -> is_decimal time ->
  match_here RESTORE_RE (record_units (LogRestore id step size time))
  = Some [units id; units (dec step); units (dec size); units time].
Proof.
  intros [Ni Fi] Hs Hz [Nt Ft]. destruct (dec_run step Hs), (dec_run size Hz).
  unfold RESTORE_RE, record_units, restore_units. rewrite <- (app_nil_r (units "s")). walk. done.
Qed.

(** Characters that no literal or run of a message holds. *)
Ltac without :=
  cbn [record_units]; unfold step_units, checkpoint_units, restore_units;
  repeat (apply Forall_app; split);
  first [ by repeat constructor
        | by apply plain_other; [done|eauto using decimal_plain, dec_plain] ].

Lemma checkpoint_on_others pre r :
  plain pre -> printable r -> checkpoint_of r = None -> exec CKPT_RE (pre ++ record_units r) = None.
Proof.
  intros Hp Hr Hn. destruct r as [step total loss rate|step loss size sha time|id step size time];
    cbn [printable] in Hr; [|done|].
  - destruct Hr as ([? _] & ? & ? & ?). apply exec_never. without.
  - destruct Hr as ([_ ?] & [? _] & [? _] & ?). apply exec_never. without.
Qed.

Lemma restore_on_others pre r :
  plain pre -> printable r -> recovery_of r = None -> exec RESTORE_RE (pre ++ record_units r) = None.
Proof.
  intros Hp Hr Hn. destruct r as [step total loss rate|step loss size sha time|id step size time];
    cbn [printable] in Hr; [| |done].
  - destruct Hr as ([? _] & ? & ? & ?). apply exec_never. without.
  - destruct Hr as ([? _] & ? & [? _] & [_ ?] & ?). apply exec_never. without.
Qed.

(** The loss pattern starts at an [s]; it moves past every other character, and past
    the [step=] that no slash follows. *)
Lemma loss_skip w s :
  plain w -> exec LOSS_RE (w ++ s) = exec LOSS_RE s.
Proof. intros Hw. apply exec_skip. by apply plain_other. Qed.
Lemma checkpoint_skip w s : plain w -> exec CKPT_RE (w ++ s) = exec CKPT_RE s.
Proof. intros Hw. apply exec_skip. by apply plain_other. Qed.
Lemma restore_skip w s : plain w -> exec RESTORE_RE (w ++ s) = exec RESTORE_RE s.
Proof. intros Hw. apply exec_skip. by apply plain_other. Qed.

Lemma loss_skip_step n s :
  0 <= n -> match s with c :: _ => (is_digit c || Ascii.eqb "/" c)%bool = false | [] => True end ->
  exec LOSS_RE (units "step=" ++ units (dec n) ++ s) = exec LOSS_RE s.
Proof.
  intros Hn Hs. destruct (dec_run n Hn) as [_ F].
  rewrite <- (loss_skip (units (dec n)) s) by by apply dec_plain.
  change (units "step=" ++ units (dec n) ++ s) with ("s"%char :: units "tep=" ++ units (dec n) ++ s).
  rewrite exec_cons.
  - rewrite loss_skip; [done|by repeat constructor].
  - change ("s"%char :: units "tep=" ++ units (dec n) ++ s) with (units "step=" ++ units (dec n) ++ s).
    unfold LOSS_RE. rewrite match_lit. apply match_plus_lit_none; [done| |done|].
    + destruct s; [done|]. by apply orb_false_elim in Hs as [? ?].
    + destruct s; [done|]. by apply orb_false_elim in Hs as [? ?].
Qed.

(** Literals without [step=] are decided by computation. *)
Ltac past :=
  cbn [units app]; repeat first [ rewrite exec_skip_char by reflexivity | rewrite exec_cons by reflexivity ].

Lemma loss_past_checkpoint s :
  exec LOSS_RE (units "Checkpoint saved (runtime): " ++ s) = exec LOSS_RE s.
Proof. unfold LOSS_RE. by past. Qed.
Lemma loss_past_loss s : exec LOSS_RE (units " loss=" ++ s) = exec LOSS_RE s.
Proof. unfold LOSS_RE. by past. Qed.
Lemma loss_past_size s : exec LOSS_RE (units " size=" ++ s) = exec LOSS_RE s.
Proof. unfold LOSS_RE. by past. Qed.
Lemma loss_past_sha s : exec LOSS_RE (units " bytes sha256=" ++ s) = exec LOSS_RE s.
Proof. unfold LOSS_RE. by past. Qed.
Lemma loss_past_time s : exec LOSS_RE (units " time=" ++ s) = exec LOSS_RE s.
Proof. unfold LOSS_RE. by past. Qed.
Lemma loss_past_bytes_time s : exec LOSS_RE (units " bytes time=" ++ s) = exec LOSS_RE s.
Proof. unfold LOSS_RE. by past. Qed.
Lemma loss_past_restored s :
  exec LOSS_RE (units "Restored from runtime checkpoint: checkpoint_id=" ++ s) = exec LOSS_RE s.
Proof. unfold LOSS_RE. by past. Qed.

Lemma loss_on_others pre r :
  plain pre -> printable r -> point_of r = None -> exec LOSS_RE (pre ++ record_units r) = None.
Proof.
  intros Hp Hr Hn. rewrite loss_skip by done.
  destruct r as [step total loss rate|step loss size sha time|id step size time];
    cbn [printable] in Hr; [done| |]; cbn [record_units]; unfold checkpoint_units, restore_units.
  - destruct Hr as ([? _] & Hl & [? _] & [_ ?] & Ht).
    change (units "Checkpoint saved (runtime): step=")
      with (units "Checkpoint saved (runtime): " ++ units "step=").
    rewrite <- app_assoc, loss_past_checkpoint, loss_skip_step, loss_past_loss by done.
    rewrite loss_skip, loss_past_size, loss_skip, loss_past_sha by auto using decimal_plain, dec_plain.
    rewrite loss_skip, loss_past_time, loss_skip by auto using decimal_plain. done.
  - destruct Hr as ([_ ?] & [? _] & [? _] & Ht).
    change (units " step=") with (units " " ++ units "step=").
    rewrite <- app_assoc, loss_past_restored, loss_skip by done.
    rewrite (loss_skip (units " ")) by (by repeat constructor). rewrite loss_skip_step by done.
    rewrite loss_past_size, loss_skip by auto using dec_plain.
    rewrite loss_past_bytes_time, loss_skip by auto using decimal_plain. done.
Qed.

(** ** One line *)

Lemma onmessage_record pre r p :
  plain (units pre) -> printable r ->
  onmessage (Some (log_line (pre, r))) p =
  match point_of r, checkpoint_of r, recovery_of r with
  | Some x, _, _ =>
      if bool_decide (lp_step x ∈ p.(seenSteps)) then p
      else Parsed (Slice.push_capped MAX_LOSS p.(lossHistory) x) p.(checkpointMarkers)
             p.(recoveryMarkers) ({[lp_step x]} ∪ p.(seenSteps))
  | _, Some x, _ =>
      Parsed p.(lossHistory) (Slice.push_capped MAX_CKPT p.(checkpointMarkers) x)
        p.(recoveryMarkers) p.(seenSteps)
  | _, _, Some x =>
      Parsed p.(lossHistory) p.(checkpointMarkers)
        (Slice.push_capped MAX_RESTORE p.(recoveryMarkers) x) p.(seenSteps)
  | _, _, _ => p
  end.
Proof.
  intros Hp Hr. unfold onmessage, parse_loss, parse_checkpoint, parse_restore, log_line.
  cbn [fst snd]. rewrite units_app, units_of_units.
  destruct r as [step total loss rate|step loss size sha time|id step size time]; cbn [printable] in Hr.
  - rewrite checkpoint_on_others, restore_on_others by done.
    destruct Hr as ([? ?] & ? & ? & ?). rewrite loss_skip by done.
    erewrite exec_here by by apply loss_on_step.
    cbv beta iota zeta. rewrite int_of_dec, !float_of_units by done. done.
  - rewrite loss_on_others, restore_on_others by done.
    destruct Hr as (Hs & ? & Hz & [? ?] & ?). pose proof Hs as [? ?]. pose proof Hz as [? ?].
    rewrite checkpoint_skip by done.
    erewrite exec_here by by apply checkpoint_on_checkpoint.
    cbv beta iota zeta. rewrite !int_of_dec, !float_of_units, of_units_units by done. done.
  - rewrite loss_on_others, checkpoint_on_others by done.
    destruct Hr as ([? ?] & Hs & Hz & ?). pose proof Hs as [? ?]. pose proof Hz as [? ?].
    rewrite restore_skip by done.
    erewrite exec_here by by apply restore_on_restore.
    cbv beta iota zeta. rewrite !int_of_dec, !float_of_units, of_units_units by done. done.
Qed.

(** ** A whole log *)

Definition well_printed (l : string * log_record) : Prop := plain (units l.1) /\ printable l.2.

Lemma seen_again (x : Z) (X S : gset Z) : x ∈ S -> X ∪ S = {[x]} ∪ X ∪ S.
Proof.
  intros H. rewrite <- (assoc_L (∪)). symmetry. apply subseteq_union_1_L.
  apply singleton_subseteq_l, elem_of_union. by right.
Qed.
Lemma seen_new (x : Z) (X S : gset Z) : X ∪ ({[x]} ∪ S) = {[x]} ∪ X ∪ S.
Proof. by rewrite (assoc_L (∪)), (comm_L (∪) X). Qed.

Lemma parse_log log : forall A B C S,
  Forall well_printed log ->
  foldl (fun p l => onmessage l p)
    (Parsed (Slice.last_n 500 A) (Slice.last_n 50 B) (Slice.last_n 10 C) S)
    (map (fun l => Some (log_line l)) log)
  = Parsed (Slice.last_n 500 (A ++ first_points S (omap point_of (map snd log))))
      (Slice.last_n 50 (B ++ omap checkpoint_of (map snd log)))
      (Slice.last_n 10 (C ++ omap recovery_of (map snd log)))
      (list_to_set (map lp_step (omap point_of (map snd log))) ∪ S).
Proof.
  induction log as [|[pre r] log IH]; intros A B C S F.
  - cbn. by rewrite !app_nil_r, (left_id_L ∅ (∪)).
  - apply Forall_cons in F as [[Hp Hr] F]. cbn [fst snd] in Hp, Hr. cbn [map foldl snd].
    rewrite onmessage_record by done.
    pose proof (Slice.push_capped_snoc MAX_LOSS A) as PL.
    pose proof (Slice.push_capped_snoc MAX_CKPT B) as PC.
    pose proof (Slice.push_capped_snoc MAX_RESTORE C) as PR.
    destruct r as [step total loss rate|step loss size sha time|id step size time];
      cbn [point_of checkpoint_of recovery_of lossHistory checkpointMarkers recoveryMarkers
           seenSteps lp_step].
    + cbn [omap list_omap point_of checkpoint_of recovery_of first_points map lp_step].
      case_bool_decide as D.
      * rewrite IH by done. f_equal. by apply seen_again.
      * rewrite PL, IH by done. rewrite <- app_assoc. f_equal. apply seen_new.
    + rewrite PC, IH by done. rewrite <- app_assoc. done.
    + rewrite PR, IH by done. rewrite <- app_assoc. done.
Qed.

(** C34: A log printed in the trainer's formats is read back exactly: whatever [INFO]
    lines the workers print, in any interleaving, the hook holds the last 500 training
    points of distinct steps, the first one of each step, the last 50 checkpoints with
    their size and digest, and the last 10 recoveries, in order. No line is read as one
    of another kind. *)
Theorem log_round_trip (log : list (string * log_record)) (H : Forall well_printed log) :
  let rs := map snd log in
  useLogParser (map (fun l => Some (log_line l)) log)
  = Parsed (Slice.last_n 500 (first_points ∅ (omap point_of rs)))
      (Slice.last_n 50 (omap checkpoint_of rs)) (Slice.last_n 10 (omap recovery_of rs))
      (list_to_set (map lp_step (omap point_of rs))).
Proof.
  intros rs. unfold useLogParser. change init_parsed with
    (Parsed (Slice.last_n 500 []) (Slice.last_n 50 []) (Slice.last_n 10 []) ∅).
  rewrite parse_log by done. by rewrite (right_id_L ∅ (∪)).
Qed.

(** ** Arbitrary lines *)

(** What the hook keeps whatever the lines hold. *)
Record parsed_ok (p : parsed) : Prop := {
  loss_bound : Z.of_nat (length p.(lossHistory)) <= MAX_LOSS;
  checkpoint_bound : Z.of_nat (length p.(checkpointMarkers)) <= MAX_CKPT;
  recovery_bound : Z.of_nat (length p.(recoveryMarkers)) <= MAX_RESTORE;
  loss_distinct : NoDup (map lp_step p.(lossHistory));
  loss_seen : Forall (fun x => lp_step x ∈ p.(seenSteps)) p.(lossHistory)
}.

Lemma push_capped_sub {A} (max : Z) (l : list A) x :
  2 <= max -> exists dropped, l ++ [x] = dropped ++ Slice.push_capped max l x.
Proof. intros H. rewrite Slice.push_capped_last_n by done. apply Slice.last_n_suffix. Qed.

Lemma parse_loss_ok line p : parsed_ok p -> parsed_ok (parse_loss line p).
Proof.
  intros [B1 B2 B3 N F]. unfold parse_loss.
  destruct (exec LOSS_RE (units line)) as [[|s [|l [|r [|]]]]|]; try done.
  cbv zeta. case_bool_decide as D; [done|].
  pose proof (Slice.push_capped_length MAX_LOSS p.(lossHistory)
    (LossPoint (int_of s) (float_of l) (float_of r)) ltac:(done)) as L.
  destruct (push_capped_sub MAX_LOSS p.(lossHistory)
    (LossPoint (int_of s) (float_of l) (float_of r)) ltac:(done)) as (d & E).
  assert (N' : NoDup (map lp_step (p.(lossHistory) ++ [LossPoint (int_of s) (float_of l) (float_of r)]))).
  { rewrite map_app. apply NoDup_app. split; [done|]. split; [|apply NoDup_singleton].
    intros z Hz. cbn. rewrite list_elem_of_singleton. intros ->.
    apply list_elem_of_fmap in Hz as (x & Ex & Hx). rewrite Forall_forall in F.
    apply D. rewrite Ex. by apply F. }
  split; cbn [lossHistory checkpointMarkers recoveryMarkers seenSteps]; [done|done|done| |].
  - rewrite E, map_app in N'. by apply NoDup_app in N' as (_ & _ & ?).
  - eapply (Forall_app _ d). rewrite <- E. apply Forall_app. split.
    + eapply Forall_impl; [exact F|]. cbn. set_solver.
    + constructor; [cbn; set_solver|constructor].
Qed.

Lemma parse_checkpoint_ok line p : parsed_ok p -> parsed_ok (parse_checkpoint line p).
Proof.
  intros [B1 B2 B3 N F]. unfold parse_checkpoint.
  destruct (exec CKPT_RE (units line)) as [[|s [|l [|z [|h [|t [|]]]]]]|]; try done.
  split; try done. by apply Slice.push_capped_length.
Qed.

Lemma parse_restore_ok line p : parsed_ok p -> parsed_ok (parse_restore line p).
Proof.
  intros [B1 B2 B3 N F]. unfold parse_restore.
  destruct (exec RESTORE_RE (units line)) as [[|i [|s [|z [|t [|]]]]]|]; try done.
  split; try done. by apply Slice.push_capped_length.
Qed.

(** C39: Whatever lines arrive, malformed ones included, the hook keeps at most 500
    training points, 50 checkpoints and 10 recoveries, and no two training points of
    the same step: the second worker's copy of a step is dropped. *)
Theorem parsed_invariant (lines : list (option string)) :
  let p := useLogParser lines in
  Z.of_nat (length p.(lossHistory)) <= MAX_LOSS /\
  Z.of_nat (length p.(checkpointMarkers)) <= MAX_CKPT /\
  Z.of_nat (length p.(recoveryMarkers)) <= MAX_RESTORE /\
  NoDup (map lp_step p.(lossHistory)).
Proof.
  intros p. enough (parsed_ok p) as [] by done.
  assert (G : forall q, parsed_ok q -> parsed_ok (foldl (fun p l => onmessage l p) q lines)).
  { induction lines as [|l lines IH]; intros q Hq; [done|]. cbn [foldl].
    apply IH. destruct l as [line|]; [|done].
    by apply parse_restore_ok, parse_checkpoint_ok, parse_loss_ok. }
  apply G. split; cbn; try done; constructor.
Qed.

Definition sample_log : list (string * log_record) :=
  [("2024-05-01 10:00:00 [INFO] rank=0 ", LogStep 10 500 "2.3026" "4.5");
   ("2024-05-01 10:00:00 [INFO] rank=1 ", LogStep 10 500 "2.2980" "4.4");
   ("2024-05-01 10:00:09 [INFO] rank=0 ", LogCheckpoint 50 "1.2500" 44730472 "9f8e7d6c5b4a3f2e" "0.41");
   ("2024-05-01 10:01:00 [INFO] rank=1 ", LogRestore "ckpt-0a1b2c3d" 50 44730472 "0.22")].

Lemma log_round_trip_witness :
  Forall well_printed sample_log /\
  useLogParser (map (fun l => Some (log_line l)) sample_log)
  = Parsed [LossPoint 10 (lit 23026 4) (lit 45 1)]
      [CheckpointMarker 50 (lit 125 2) 44730472 "9f8e7d6c5b4a3f2e" (lit 41 2)]
      [RecoveryMarker "ckpt-0a1b2c3d" 50 44730472 (lit 22 2)] {[10]}.
Proof.
  assert (W : Forall well_printed sample_log).
  { repeat constructor; by vm_compute. }
  split; [exact W|]. rewrite (log_round_trip sample_log W). vm_compute. reflexivity.
Defined.
