(* ===== verification/StorageBrowser.v ===== *)
(** * The object storage panel: [frontend/src/components/StorageBrowser.tsx]

    The files of the checkpoint bucket grouped by run and checkpoint, and the manifest
    preview. A JavaScript [Map] keeps its entries in insertion order: it is modelled as
    an association list whose keys are distinct. *)

From Stdlib Require Import Ascii.
From S2P Require Import Prelude Dict JsString JsNum Html Types Host Async Design Ui Hooks.

(** ** Data *)

Record storage_file : Type := StorageFile { file_key : string; size : Z; modified : string }.

(** [is_truncated] is absent from older servers: [undefined] is falsy. *)
Record storage : Type := Storage {
  files_of : list storage_file;
  total_bytes : Z;
  listed_bytes : option Z;
  truncated : option bool
}.
Definition is_truncated (d : storage) : bool := default false d.(truncated).

Abbreviation tree := (dict string (dict string (list storage_file))).

(** [parts[i] || fallback] *)
Definition part_or (i : nat) (fallback : string) (f : storage_file) : string :=
  match split "/" f.(file_key) !! i with
  | Some p => if String.eqb p "" then fallback else p
  | None => fallback
  end.
Definition run_of_file (f : storage_file) : string := part_or 0 "unknown" f.
Definition checkpoint_of_file (f : storage_file) : string := part_or 1 "root" f.

(** The body of the loop; [run] is the map the tree holds, which is updated in place. *)
Definition add_file (t : tree) (f : storage_file) : tree :=
  let runId := run_of_file f in
  let cpId := checkpoint_of_file f in
  let t := ensure runId [] t in
  let run := default [] (map_get runId t) in
  let run := ensure cpId [] run in
  map_set runId (map_set cpId (default [] (map_get cpId run) ++ [f]) run) t.

Definition buildTree (files : list storage_file) : tree := foldl add_file [] files.

(** ** State and handlers *)

Record panel : Type := Panel {
  storage_data : option storage;
  expandedManifest : option string;
  (** the manifest as [JSON.stringify(content, null, 2)] prints it; [None] for [null] *)
  manifestContent : option string
}.

Inductive msg : Type :=
| StoragePolled (d : option storage)
| ManifestClick (key : string)
| ManifestSettled (o : outcome (option string)).

(** The request for the manifest of a key *)
Inductive effect : Type := FetchManifest (key : string).

Definition set_expanded (k : option string) (m : panel) : panel :=
  Panel m.(storage_data) k m.(manifestContent).
Definition set_manifest (c : option string) (m : panel) : panel :=
  Panel m.(storage_data) m.(expandedManifest) c.

(** [{ error: 'Failed to load manifest' }], printed *)
Definition failed_manifest : string :=
  "{" +:+ newline +:+ "  " +:+ dquote +:+ "error" +:+ dquote +:+ ": " +:+ dquote +:+
  "Failed to load manifest" +:+ dquote +:+ newline +:+ "}".

(** [handleManifestClick] up to its [await fetch] *)
Definition handleManifestClick (key : string) (m : panel) : panel * list effect :=
  if bool_decide (m.(expandedManifest) = Some key) then (set_expanded None m, [])
  else (set_expanded (Some key) m, [FetchManifest key]).

(** and from it on: the handler does not look at what is expanded by then *)
Definition manifest_settled (o : outcome (option string)) : M (panel * list effect) unit :=
  catch
    (let* res := await o in
     if res_ok res then (let* json := await (res_json res) in on (set_manifest json)) else ret tt)
    (fun _ => on (set_manifest (Some failed_manifest))).

Definition update (g : msg) (m : panel) : panel * list effect :=
  match g with
  | StoragePolled d => (Panel d m.(expandedManifest) m.(manifestContent), [])
  | ManifestClick key => handleManifestClick key m
  | ManifestSettled o => handle (manifest_settled o) m
  end.

(** ** View *)
Section View.
Context `{MathLib}.
#[local] Abbreviation node := (node msg).

(** [f.key.split('/').pop() || f.key] *)
Definition file_name (f : storage_file) : string :=
  match last (split "/" f.(file_key)) with
  | Some n => if String.eqb n "" then f.(file_key) else n
  | None => f.(file_key)
  end.
Definition is_manifest (f : storage_file) : bool := ends_with (file_name f) "_manifest.json".

Definition file_row (m : panel) (f : storage_file) : node :=
  let fileName := file_name f in
  let isManifest := is_manifest f in
    El "div" [Key (f.(file_key)); cls "ml-4"]
    (El "div" [cls "flex items-center gap-2"]
       [(if isManifest then 
           El "button" [OnClick (ManifestClick f.(file_key));
                        cls "text-warn hover:text-warn/80 hover:underline cursor-pointer"]
             [Txt fileName] else 
           El "span" [cls (if ends_with fileName ".bin" then "text-ok" else "text-txt-3")]
             [Txt fileName]);
        El "span" [cls "text-txt-3/60"] [Txt "("; Txt (formatBytes (of_Z f.(size))); Txt ")"]] ::
     (if isManifest && bool_decide (m.(expandedManifest) = Some f.(file_key))
       then when_some m.(manifestContent) (fun content =>
         El "pre" [cls "ml-2 mt-1 mb-2 p-2 bg-surface-0 border border-line rounded text-xs text-txt-3 overflow-x-auto max-w-full"] [Txt content])
       else []) ++
     []).

Definition checkpoint_dir (m : panel) (e : string * list storage_file) : node :=
  let '(cpId, cpFiles) := e in
    El "div" [Key cpId; cls "ml-4"]
    (El "div" [cls "text-brand-violet"] [Txt (str_slice 0 (Some 12) cpId); Txt "/"] ::
     map (file_row m) cpFiles ++
     []).

Definition run_dir (m : panel) (e : string * dict string (list storage_file)) : node :=
  let '(runId, checkpoints) := e in
    El "div" [Key runId]
    (El "div" [cls "text-info flex items-center gap-1"]
       [El "span" [cls "text-txt-3"] [Txt "checkpoints/"];
        Txt (str_slice 0 (Some 12) runId);
        Txt "/"] ::
     map (checkpoint_dir m) checkpoints ++
     []).

Definition StorageBrowser (m : panel) : node :=
  let files := match m.(storage_data) with Some d => d.(files_of) | None => [] end in
  let tree := buildTree files in
    El "div" [cls "card overflow-hidden"]
    [El "div" [cls "panel-header"]
       (El "span" [cls "panel-tag"] [Txt "s3://"] ::
        El "h4" [cls "panel-title"] [Txt "Object Storage"] ::
        when_some m.(storage_data) (fun data =>
          El "span" [cls "ml-auto text-xs text-txt-3"]
            [(if is_truncated data then Txt ("First " +:+ dec (Z.of_nat (length files))) else Txt (dec (Z.of_nat (length files))));
             Txt " files";
             Txt " ";
             Txt "·";
             Txt " ";
             Txt (formatBytes (of_Z (default data.(total_bytes) data.(listed_bytes))));
             (if is_truncated data then Txt " listed" else Txt "")]) ++
        []);
     El "div" [cls "font-mono text-xs max-h-72 overflow-y-auto p-2.5"]
       [(if bool_decide (files = []) then El "div" [cls "text-txt-3 text-center py-6"] [Txt "No checkpoint files yet..."] else 
           El "div" [cls "space-y-0.5"]
             (map (run_dir m) tree))]].
End View.

(** ** The tree *)

(** The files of a run and checkpoint, in the order of the tree. *)
Definition files_at (r c : string) (t : tree) : list storage_file :=
  match map_get r t with Some run => default [] (map_get c run) | None => [] end.

Lemma add_file_eq t f :
  let run := default [] (map_get (run_of_file f) t) in
  add_file t f =
    map_set (run_of_file f)
      (map_set (checkpoint_of_file f)
         (default [] (map_get (checkpoint_of_file f) run) ++ [f]) run) t.
Proof.
  intros run. unfold add_file. cbv zeta. rewrite !ensure_get, !ensure_set. done.
Qed.

Lemma files_at_add t f r c :
  files_at r c (add_file t f) =
    files_at r c t ++ (if String.eqb (run_of_file f) r && String.eqb (checkpoint_of_file f) c
                       then [f] else []).
Proof.
  rewrite add_file_eq. unfold files_at. rewrite map_get_set.
  destruct (String.eqb_spec (run_of_file f) r) as [<-|N]; cbn [andb];
    [rewrite decide_True by done|rewrite decide_False by done; by rewrite app_nil_r].
  rewrite map_get_set.
  destruct (String.eqb_spec (checkpoint_of_file f) c) as [<-|N];
    [rewrite decide_True by done|rewrite decide_False by done]; cbn [default].
  - by destruct (map_get (run_of_file f) t).
  - rewrite app_nil_r. by destruct (map_get (run_of_file f) t).
Qed.

(** The entries of a run: distinct checkpoints, each with files. *)
Definition run_ok (e : string * dict string (list storage_file)) : Prop :=
  NoDup (map fst e.2) /\ e.2 <> [] /\ Forall (fun g => g.2 <> []) e.2.
Definition tree_ok (t : tree) : Prop := NoDup (map fst t) /\ Forall run_ok t.

Lemma add_file_ok t f : tree_ok t -> tree_ok (add_file t f).
Proof.
  intros [N F]. rewrite add_file_eq. split; [by apply map_set_nodup|].
  apply map_set_Forall; [done|].
  assert (R : NoDup (map fst (default [] (map_get (run_of_file f) t))) /\
              Forall (fun g => g.2 <> []) (default [] (map_get (run_of_file f) t))).
  { destruct (map_get (run_of_file f) t) as [run|] eqn:E; cbn [default]; [|by repeat constructor].
    by destruct (map_get_Forall _ _ _ _ F E) as (? & _ & ?). }
  destruct R as [R1 R2]. split_and!; cbn [snd].
  - by apply map_set_nodup.
  - by apply map_set_ne.
  - apply map_set_Forall; [done|]. cbn [snd]. intros E. by apply app_nil in E as [_ ?].
Qed.

(** The tree groups the files without losing, repeating or reordering any: for every
    run and checkpoint it holds exactly the files of the listing whose key names them,
    in the order of the listing. Runs are listed once, checkpoints once per run, and no
    group is empty. *)
Theorem storage_tree (files : list storage_file) :
  tree_ok (buildTree files) /\
  forall r c, files_at r c (buildTree files)
    = filter (fun f => run_of_file f = r /\ checkpoint_of_file f = c) files.
Proof.
  induction files as [|f files IH] using rev_ind.
  - split; [split; constructor|done].
  - unfold buildTree. rewrite foldl_app. change (foldl add_file [] files) with (buildTree files).
    cbn [foldl]. destruct IH as [O G]. split; [by apply add_file_ok|].
    intros r c. rewrite files_at_add, G, filter_app. f_equal.
    rewrite filter_cons, filter_nil.
    destruct (String.eqb_spec (run_of_file f) r), (String.eqb_spec (checkpoint_of_file f) c);
      cbn [andb]; case_decide as D; (done || (exfalso; tauto)).
Qed.

(** ** The manifest preview *)

(** What a settled request leaves as the manifest on display. *)
Definition manifest_after (o : outcome (option string)) (before : option string) : option string :=
  match o with
  | inl _ => Some failed_manifest
  | inr res =>
      if res_ok res
      then match res_json res with inr json => json | inl _ => Some failed_manifest end
      else before
  end.

Lemma manifest_settled_spec o m :
  handle (manifest_settled o) m = (set_manifest (manifest_after o m.(manifestContent)) m, []).
Proof.
  destruct o as [e|res]; [done|].
  unfold handle, run, manifest_settled, catch, bind, await, manifest_after.
  destruct (res_ok res); [|by destruct m]. by destruct (res_json res).
Qed.

Section Preview.
Context `{MathLib}.

Lemma file_row_text m f :
  text (file_row m f) =
    [file_name f; "("; formatBytes (of_Z f.(size)); ")"] ++
    (if is_manifest f && bool_decide (m.(expandedManifest) = Some f.(file_key))
     then option_list m.(manifestContent) else []).
Proof.
  unfold file_row. destruct (is_manifest f); cbn [andb]; [|done].
  case_bool_decide; [|done]. by destruct (manifestContent m).
Qed.

(** Opening a manifest shows, once its request has settled, the content the server
    sent, or the error text if the request failed. When the server refuses it, the row
    shows the manifest that was displayed before, of whatever file. No other row shows
    a preview, and a second click closes it. *)
Theorem manifest_preview (m : panel) (f g : storage_file) (o : outcome (option string))
    (Hf : is_manifest f = true) (Hm : m.(expandedManifest) <> Some f.(file_key))
    (Hg : g.(file_key) <> f.(file_key)) :
  let m1 := fst (update (ManifestClick f.(file_key)) m) in
  let m2 := fst (update (ManifestSettled o) m1) in
  snd (update (ManifestClick f.(file_key)) m) = [FetchManifest f.(file_key)] /\
  text (file_row m2 f) =
    [file_name f; "("; formatBytes (of_Z f.(size)); ")"]
    ++ option_list (manifest_after o m.(manifestContent)) /\
  text (file_row m2 g) = [file_name g; "("; formatBytes (of_Z g.(size)); ")"] /\
  (let m3 := fst (update (ManifestClick f.(file_key)) m2) in
   text (file_row m3 f) = [file_name f; "("; formatBytes (of_Z f.(size)); ")"]).
Proof.
  cbn [update]. rewrite manifest_settled_spec. unfold handleManifestClick.
  rewrite (bool_decide_eq_false_2 _ Hm). cbn [fst snd set_expanded set_manifest expandedManifest manifestContent].
  rewrite bool_decide_eq_true_2 by done. rewrite !file_row_text.
  cbn [fst set_expanded set_manifest expandedManifest manifestContent]. rewrite Hf. cbn [andb].
  rewrite bool_decide_eq_true_2 by done. split_and!; [done|done| |done].
  rewrite bool_decide_eq_false_2 by congruence. rewrite andb_false_r. done.
Qed.
End Preview.

Lemma manifest_preview_witness :
  let f := StorageFile "run-1/ckpt-2/_manifest.json" 210 "" in
  let g := StorageFile "run-1/ckpt-1/_manifest.json" 208 "" in
  let m := Panel None (Some g.(file_key)) (Some "first manifest") in
  let m2 := fst (update (ManifestSettled (inr (Response 404 "Not Found" (inl NotAnError))))
                   (fst (update (ManifestClick f.(file_key)) m))) in
  text (file_row (H := reference_math) m2 f) = ["_manifest.json"; "("; "210.0 B"; ")"; "first manifest"].
Proof.
  intros f g m m2.
  assert (Hm : m.(expandedManifest) <> Some f.(file_key)) by discriminate.
  assert (Hg : g.(file_key) <> f.(file_key)) by discriminate.
  destruct (manifest_preview (H := reference_math) m f g
    (inr (Response 404 "Not Found" (inl NotAnError))) eq_refl Hm Hg) as (_ & E & _).
  subst m2. rewrite E. vm_compute. reflexivity.
Defined.
