(* ===== verification/Checkpointing.v ===== *)
(** * Shard upload and commit: [python-controlplane/src/controlplane/api/rest.py]

    The way a checkpoint takes through the control plane: it is triggered, its shards are
    streamed to the data plane, and the data plane is asked for the manifest. A handler is
    cut at the call of the data plane it waits for, so that other requests, the monitor,
    retention and a restart of the process can come in between; the data plane is a
    service whose answers are arguments. Logging and the metrics are left out, and so is
    what the data plane answers to an abort, which is only logged. *)

From Stdlib Require Import Ascii.
From S2P Require Import Prelude Dict JsString JsNum Types ControlPlane Html Host StorageBrowser Retention Heartbeat Workers Recovery.

Import Coordinator.

(** ** Data *)

(** [GrpcShardInfo] *)
Record shard_info : Type := ShardInfo {
  sh_id : string; sh_rank : Z; sh_size : Z; sh_sha256 : string; sh_key : string
}.
(** [WriteShardResult] *)
Record write_result : Type := WriteResult { wr_bytes : Z; wr_sha256 : string; wr_success : bool }.
(** The fields of a checkpoint record that only the upload writes *)
Record details : Type := Details { num_shards : Z; total_bytes : Z; shard_ids : list string }.

(** A call of the data plane that a handler waits for *)
Inductive request : Type :=
| WriteShard (run cp shard : string) (rank : Z)
| CommitCheckpoint (run cp : string).

(** The control plane, [_CHECKPOINT_SHARDS], and the requests that are waiting *)
Record store : Type := Store {
  ctl : plane; shards : gmap string (list shard_info); sizes : gmap string details; waiting : list request
}.
Definition st_coord (s : store) : Coordinator.t := p_coord s.(ctl).
Definition set_ctl p s := Store p s.(shards) s.(sizes) s.(waiting).
Definition put_coord c s := set_ctl (set_coord c s.(ctl)) s.
Definition set_shards m s := Store s.(ctl) m s.(sizes) s.(waiting).
Definition set_sizes m s := Store s.(ctl) s.(shards) m s.(waiting).
Definition set_waiting w s := Store s.(ctl) s.(shards) s.(sizes) w.

Definition infos (cp : string) (s : store) : list shard_info := default [] (s.(shards) !! cp).

(** ** Upload *)

Record chunk : Type := Chunk { ch_offset : Z; ch_data : list Byte.byte; ch_last : bool }.
Definition chunk_size : Z := 1024 * 1024.

(** The loop of [chunk_iterator]; the fuel bounds its iterations. *)
Fixpoint chunks_from (fuel : nat) (offset : Z) (body : list Byte.byte) : list chunk :=
  match fuel with
  | O => []
  | S fuel =>
      let len := Z.of_nat (length body) in
      if offset <? len then
        let stop := Z.min (offset + chunk_size) len in
        Chunk offset (Slice.slice offset (Some stop) body) (len <=? stop) :: chunks_from fuel stop body
      else []
  end.
Definition chunk_iterator (body : list Byte.byte) : list chunk := chunks_from (length body) 0 body.

(** The content-addressed key, the format of the data plane's writer *)
Definition storage_key (run cp sha shard : string) : string :=
  run +:+ "/" +:+ cp +:+ "/sha256-" +:+ str_slice 0 (Some 16) sha +:+ "-" +:+ shard +:+ ".bin".

(** [_abort_failed_checkpoint]; both errors are suppressed. *)
Definition abort_failed_checkpoint (now : Z) (run cp message : string) (s : store) : store :=
  let c := default (st_coord s) (update_checkpoint_state cp CFAILED (st_coord s)) in
  let '(_, c) := set_run_error c run message now in
  set_shards (delete cp s.(shards)) (put_coord c s).

(** [upload_shard] up to its call of the data plane: a reply, or the request *)
Definition upload_shard (connected : bool) (run cp shard : string) (rank : Z) (body : list Byte.byte) (s : store) :
    reply + request :=
  if negb connected then inl (Reply 503 [])
  else match checkpoints (st_coord s) !! cp with
  | None => inl (Reply 404 [])
  | Some info =>
      if negb (String.eqb (c_run info) run) then inl (Reply 404 [])
      else if bool_decide (body = []) then inl (Reply 400 [])
      else inr (WriteShard run cp shard rank)
  end.

(** The rest of [upload_shard]; [None] is a call that raised. A [KeyError] of the
    coordinator is not caught and answered 500. *)
Definition upload_settled (now : Z) (result : option write_result) (run cp shard : string) (rank : Z) (s : store) :
    reply * store :=
  match result with
  | None => (Reply 502 [], abort_failed_checkpoint now run cp "Checkpoint shard upload failed" s)
  | Some result =>
      if negb result.(wr_success)
      then (Reply 502 [], abort_failed_checkpoint now run cp "Checkpoint shard upload was rejected by storage" s)
      else
        let info := ShardInfo shard rank result.(wr_bytes) result.(wr_sha256)
                      (storage_key run cp result.(wr_sha256) shard) in
        let existing_shards := infos cp s ++ [info] in
        let s := set_shards (<[cp := existing_shards]> s.(shards)) s in
        match update_checkpoint_state cp CIN_PROGRESS (st_coord s) with
        | None => (Reply 500 [], s)
        | Some c =>
            let d := Details (Z.of_nat (length existing_shards)) (foldl Z.add 0 (map sh_size existing_shards))
                       (map sh_id existing_shards) in
            (Reply 200 [], set_sizes (<[cp := d]> s.(sizes)) (put_coord c s))
        end
  end.

(** ** Commit *)

(** The uploaded checkpoint with the largest step *)
Definition active_cp (run : string) (c : Coordinator.t) : option (string * checkpoint) :=
  head (filter (fun e => c_state e.2 = CIN_PROGRESS) (rev (list_checkpoints run c))).

(** [commit_run] up to its call of the data plane: a reply, or the request with its step
    and shards *)
Definition commit_run (connected : bool) (run : string) (s : store) : reply + (request * Z * list shard_info) :=
  match kv (st_coord s) !! run with
  | None => inl (Reply 404 [])
  | Some _ =>
      match active_cp run (st_coord s) with
      | None => inl (Reply 409 [])
      | Some (cp, info) =>
          if negb connected then inl (Reply 503 [])
          else match infos cp s with
          | [] => inl (Reply 409 [])
          | shard_infos => inr (CommitCheckpoint run cp, c_step info, shard_infos)
          end
      end
  end.

(** The rest of [commit_run]: the call raised ([None]), or whether it succeeded *)
Definition commit_settled (now : Z) (result : option bool) (run cp : string) (s : store) : reply * store :=
  match result with
  | None => (Reply 502 [], abort_failed_checkpoint now run cp "Checkpoint manifest write failed" s)
  | Some false => (Reply 502 [], abort_failed_checkpoint now run cp "Checkpoint manifest was rejected by storage" s)
  | Some true =>
      let s := set_shards (delete cp s.(shards)) s in
      match update_checkpoint_state cp CCOMMITTED (st_coord s) with
      | None => (Reply 500 [], s)
      | Some c =>
          match transition_run c run COMMITTED now with
          | (Ok _, c) =>
              match transition_run c run RUNNING now with
              | (Ok _, c) => (Reply 200 [(run, "checkpoint_committed")], put_coord c s)
              | (InvalidTransition _ _, c) => (Reply 409 [], put_coord c s)
              | (KeyError, c) => (Reply 500 [], put_coord c s)
              end
          | (InvalidTransition _ _, c) => (Reply 409 [], put_coord c s)
          | (KeyError, c) => (Reply 500 [], put_coord c s)
          end
      end
  end.

(** ** Histories *)

(** What a step tells the data plane or hears from it *)
Inductive event : Type :=
| Silent
| Rebooted
| ShardStored (cp : string) (info : shard_info)
| ShardFailed (cp : string)
| CommitSent (run cp : string) (infos : list shard_info)
| CommitDone (run cp : string)
| CommitFailed (cp : string).

Definition stored_info (run cp shard : string) (rank : Z) (w : write_result) : shard_info :=
  ShardInfo shard rank w.(wr_bytes) w.(wr_sha256) (storage_key run cp w.(wr_sha256) shard).
Definition write_event (run cp shard : string) (rank : Z) (r : option write_result) : event :=
  match r with
  | Some w => if w.(wr_success) then ShardStored cp (stored_info run cp shard rank w) else ShardFailed cp
  | None => ShardFailed cp
  end.
Definition commit_event (run cp : string) (r : option bool) : event :=
  if default false r then CommitDone run cp else CommitFailed cp.

(** A step of the control plane, a record dropped by retention, a restart of the process,
    which loses the shards' table and the waiting requests, and the four parts of the two
    handlers. *)
Inductive step : event -> store -> store -> Prop :=
| step_plane p' s : live_step s.(ctl) p' -> step Silent s (set_ctl p' s)
| step_forget g s : step Silent s (put_coord (forget (st_coord s) g) s)
| step_boot now s : step Rebooted s (Store (reboot now s.(ctl)) ∅ s.(sizes) [])
| step_upload connected run cp shard rank body q s :
    upload_shard connected run cp shard rank body s = inr q -> step Silent s (set_waiting (q :: s.(waiting)) s)
| step_uploaded now r run cp shard rank l1 l2 s :
    s.(waiting) = l1 ++ WriteShard run cp shard rank :: l2 ->
    step (write_event run cp shard rank r) s
      (set_waiting (l1 ++ l2) (snd (upload_settled now r run cp shard rank s)))
| step_commit connected run cp n l s :
    commit_run connected run s = inr (CommitCheckpoint run cp, n, l) ->
    step (CommitSent run cp l) s (set_waiting (CommitCheckpoint run cp :: s.(waiting)) s)
| step_committed now r run cp l1 l2 s :
    s.(waiting) = l1 ++ CommitCheckpoint run cp :: l2 ->
    step (commit_event run cp r) s (set_waiting (l1 ++ l2) (snd (commit_settled now r run cp s))).

Definition empty_store : store := Store empty_plane ∅ ∅ [].

(** The events of a history, the last one last *)
Inductive history : list event -> store -> Prop :=
| history_nil : history [] empty_store
| history_snoc log e s s' : history log s -> step e s s' -> history (log ++ [e]) s'.

(** The shards of a checkpoint that the data plane acknowledged since the process started,
    or since the checkpoint was last aborted or committed *)
Definition acknowledge (cp : string) (l : list shard_info) (e : event) : list shard_info :=
  match e with
  | ShardStored id info => if decide (id = cp) then l ++ [info] else l
  | ShardFailed id | CommitFailed id | CommitDone _ id => if decide (id = cp) then [] else l
  | Rebooted => []
  | Silent | CommitSent _ _ _ => l
  end.
Definition acknowledged (cp : string) (log : list event) : list shard_info := foldl (acknowledge cp) [] log.

(** ** The chunks of a shard *)

Lemma slice_range {A} (i j : Z) (l : list A) :
  0 <= i <= j -> j <= Z.of_nat (length l) ->
  Slice.slice i (Some j) l = take (Z.to_nat (j - i)) (drop (Z.to_nat i) l).
Proof.
  intros H L. unfold Slice.slice, Slice.rel_index. destruct (Z.ltb_spec i 0), (Z.ltb_spec j 0); try lia.
  by rewrite !Z.min_l by lia.
Qed.

Lemma chunks_from_spec fuel offset body :
  0 <= offset <= Z.of_nat (length body) -> Z.of_nat (length body) - offset <= Z.of_nat fuel ->
  let cs := chunks_from fuel offset body in
  concat (map ch_data cs) = drop (Z.to_nat offset) body /\
  Forall (fun c => 0 < Z.of_nat (length (ch_data c)) <= chunk_size) cs /\
  forall i c, cs !! i = Some c ->
    ch_offset c = offset + Z.of_nat i * chunk_size /\ ch_last c = bool_decide (S i = length cs).
Proof.
  revert offset. induction fuel as [|fuel IH]; intros offset H F; cbn [chunks_from].
  { cbn. rewrite drop_ge by lia. by split_and!. }
  destruct (Z.ltb_spec offset (Z.of_nat (length body))) as [L|L].
  2: { cbn. rewrite drop_ge by lia. by split_and!. }
  set (stop := Z.min (offset + chunk_size) (Z.of_nat (length body))).
  assert (St : offset < stop <= Z.of_nat (length body) /\ stop - offset <= chunk_size) by (unfold stop, chunk_size; lia).
  destruct (IH stop) as (C & Fo & I); [lia|lia|]. cbn zeta in *. set (cs := chunks_from fuel stop body) in *.
  cbn [map concat ch_data length]. rewrite slice_range by lia. split_and!.
  - rewrite C. replace (drop (Z.to_nat stop) body) with (drop (Z.to_nat (stop - offset)) (drop (Z.to_nat offset) body)).
    + apply take_drop.
    + rewrite drop_drop. f_equal. lia.
  - constructor; [|done]. cbn [ch_data]. rewrite length_take_le; [lia|]. rewrite length_drop. lia.
  - intros [|i] c; cbn [lookup list_lookup].
    + intros [= <-]. cbn [ch_offset ch_last]. split; [lia|].
      assert (E : cs = [] <-> stop = Z.of_nat (length body)).
      { split; intros E.
        - rewrite E in C. cbn in C. apply (f_equal length) in C. rewrite length_drop in C. cbn in C. lia.
        - destruct cs as [|c0 cs']; [done|]. exfalso. apply Forall_cons in Fo as [Fo _].
          rewrite drop_ge in C by lia. cbn in C. apply app_eq_nil in C as [C _]. rewrite C in Fo. cbn in Fo. lia. }
      destruct (Z.leb_spec (Z.of_nat (length body)) stop); symmetry; case_bool_decide as B; try done.
      * assert (cs = []) as -> by (apply E; lia). done.
      * assert (stop = Z.of_nat (length body)); [apply E; destruct cs; [done|discriminate B]|lia].
    + intros Ic. destruct (I i c Ic) as [-> ->].
      assert (stop = offset + chunk_size) as ->.
      { destruct (Z.le_gt_cases (offset + chunk_size) (Z.of_nat (length body))) as [G|G]; [unfold stop; lia|].
        exfalso. assert (stop = Z.of_nat (length body)) by (unfold stop; lia).
        rewrite drop_ge in C by lia. destruct cs as [|c0 cs']; [done|].
        apply Forall_cons in Fo as [Fo _]. cbn in C. apply app_eq_nil in C as [C _]. rewrite C in Fo. cbn in Fo. lia. }
      split; [lia|]. apply bool_decide_ext. lia.
Qed.

(** the data plane receives the shard: the chunks of a body are the body, none is empty
    or larger than 1 MiB, each is sent with its place in the body, and exactly the last is
    marked. *)
Theorem chunks_round_trip (body : list Byte.byte) :
  let cs := chunk_iterator body in
  concat (map ch_data cs) = body /\
  Forall (fun c => 0 < Z.of_nat (length (ch_data c)) <= chunk_size) cs /\
  forall i c, cs !! i = Some c ->
    ch_offset c = Z.of_nat i * chunk_size /\ ch_last c = bool_decide (S i = length cs).
Proof. exact (chunks_from_spec (length body) 0 body ltac:(lia) ltac:(lia)). Qed.

(** ** The key of a shard *)

Definition no_slash (s : string) : Prop := Forall (fun c => c <> "/"%char) (units s).

Lemma split_key run cp rest : no_slash run -> no_slash cp ->
  exists ws, ws <> [] /\ split "/" (run +:+ "/" +:+ cp +:+ "/" +:+ rest) = run :: cp :: ws.
Proof.
  intros R C. exists (split "/" rest). unfold split. split.
  - pose proof (split_units_nonempty "/" (units rest)). by destruct (split_units _ _).
  - rewrite !units_app. cbn [units]. change (units "/") with ["/"%char]. cbn [app].
    rewrite split_units_word by done. rewrite split_units_word by done. cbn [fmap list_fmap]. by rewrite !of_units_units.
Qed.

(** what the upload writes the console and retention read back: the key of a shard names
    its run and its checkpoint, for retention as for the storage panel. *)
Theorem storage_key_read_back (run cp sha shard : string) (size : Z) (modified : string) :
  no_slash run -> no_slash cp -> run <> "" -> cp <> "" ->
  let k := storage_key run cp sha shard in
  checkpoint_of_key k = Some (run, cp) /\
  run_of_file (StorageFile k size modified) = run /\ checkpoint_of_file (StorageFile k size modified) = cp.
Proof.
  intros R C Nr Nc k.
  assert (E : k = run +:+ "/" +:+ cp +:+ "/" +:+ ("sha256-" +:+ str_slice 0 (Some 16) sha +:+ "-" +:+ shard +:+ ".bin")) by done.
  edestruct (split_key run cp) as (ws & Nw & S); [done|done|]. rewrite <- E in S.
  unfold checkpoint_of_key, run_of_file, checkpoint_of_file, part_or. cbn [file_key]. rewrite S. cbn [lookup list_lookup].
  apply String.eqb_neq in Nr as ->. apply String.eqb_neq in Nc as ->. by destruct ws.
Qed.

(** ** What the handlers do to the coordinator *)

Lemma update_state_spec cp st c :
  match checkpoints c !! cp with
  | None => update_checkpoint_state cp st c = None
  | Some info => exists c', update_checkpoint_state cp st c = Some c' /\ kv c' = kv c /\ fsms c' = fsms c /\
      checkpoints c' = <[cp := with_state st info]> (checkpoints c)
  end.
Proof.
  unfold update_checkpoint_state. destruct (checkpoints c !! cp) as [info|]; [|done]. by eexists.
Qed.

Lemma move_checkpoints c id target now edit : checkpoints (snd (move c id target now edit)) = checkpoints c.
Proof.
  unfold move, ensure_fsm. destruct (kv c !! id); [|done].
  destruct (fsms c !! id); cbn; by destruct (Fsm.transition _ _) as [[]|].
Qed.
Lemma transition_checkpoints c id target now : checkpoints (snd (transition_run c id target now)) = checkpoints c.
Proof. apply move_checkpoints. Qed.

(** The run and the checkpoint after a transfer that failed *)
Record transfer_failed (run cp : string) (r : Coordinator.run) (s s' : store) : Prop := {
  tf_agrees : agrees (st_coord s');
  tf_run : exists r', kv (st_coord s') !! run = Some r' /\
    if handled (r_state r) && negb (bool_decide (r_state r = FAILED))
    then r_state r' = FAILED /\ is_Some (r_error r') /\ r_step r' = r_step r
    else r' = r;
  tf_runs id : id <> run -> kv (st_coord s') !! id = kv (st_coord s) !! id;
  tf_checkpoint : checkpoints (st_coord s') = alter (with_state CFAILED) cp (checkpoints (st_coord s));
  tf_shards : s'.(shards) = delete cp s.(shards);
  tf_sizes : s'.(sizes) = s.(sizes)
}.

Lemma abort_failed_spec now run cp message r s :
  agrees (st_coord s) -> kv (st_coord s) !! run = Some r ->
  transfer_failed run cp r s (abort_failed_checkpoint now run cp message s).
Proof.
  intros A K. unfold abort_failed_checkpoint. set (c := default (st_coord s) _).
  assert (Ac : agrees c /\ kv c = kv (st_coord s) /\ checkpoints c = alter (with_state CFAILED) cp (checkpoints (st_coord s))).
  { unfold c. pose proof (update_state_spec cp CFAILED (st_coord s)) as U.
    destruct (checkpoints (st_coord s) !! cp) as [info|] eqn:E.
    - destruct U as (c' & -> & K' & F' & C'). split; [by apply (agrees_kv (st_coord s))|]. split; [exact K'|].
      cbn. rewrite C'. symmetry. by apply alter_alt_Some.
    - rewrite U. split_and!; [done|done|]. cbn. symmetry. apply alter_id. intros x. by rewrite E. }
  destruct Ac as (Ac & Kc & Cc). rewrite <- Kc in K.
  pose proof (move_spec c run FAILED now
    (fun r => Run (r_state r) (r_step r) (r_updated r) (r_last_checkpoint r) (Some message)) Ac (fun _ => eq_refl)) as M.
  unfold set_run_error. destruct (move _ _ _ _ _) as [res c']. destruct M as (A' & C' & O' & M). rewrite K in M.
  split; cbn; [done| |intros id Hid; by rewrite O', Kc|by rewrite C', Cc|done|done].
  case_bool_decide as V.
  - destruct M as [_ M]. eexists. split; [exact M|].
    replace (handled (r_state r) && _) with true
      by (apply (bool_decide_pack _) in V; by destruct (r_state r); try (vm_compute in V; destruct V)).
    by split; [|split].
  - destruct M as [_ M]. exists r. rewrite M. split; [done|].
    destruct (r_state r); try done; exfalso; apply V; repeat constructor.
Qed.

(** C37: a transfer that fails fails its checkpoint and its run. Whether the call of the data
    plane raised or was refused, and whether it was for a shard or for the manifest: the
    answer is 502 and no event, the checkpoint is FAILED and its shards are forgotten, the
    run is FAILED with a message if its state allows it and as it was otherwise, and no
    other run, checkpoint or shard is touched. *)
Theorem transfer_failure now run cp shard rank r s :
  agrees (st_coord s) -> kv (st_coord s) !! run = Some r ->
  (forall w, match w with Some w => w.(wr_success) = false | None => True end ->
     let '(rep, s') := upload_settled now w run cp shard rank s in
     rep = Reply 502 [] /\ transfer_failed run cp r s s') /\
  (forall b, b <> Some true ->
     let '(rep, s') := commit_settled now b run cp s in rep = Reply 502 [] /\ transfer_failed run cp r s s').
Proof.
  intros A K. split.
  - intros [w|] W; cbn [upload_settled]; [rewrite W; cbn [negb]|]; (split; [done|by apply abort_failed_spec]).
  - intros [[]|] B; [done|..]; cbn [commit_settled]; (split; [done|by apply abort_failed_spec]).
Qed.

(** ** A checkpoint from trigger to commit *)

Record upload : Type := Upload { u_shard : string; u_rank : Z; u_body : list Byte.byte; u_result : write_result }.
Definition accepted (u : upload) : Prop := u.(u_body) <> [] /\ u.(u_result).(wr_success) = true.
Definition stored_upload (run cp : string) (u : upload) : shard_info :=
  stored_info run cp u.(u_shard) u.(u_rank) u.(u_result).
Definition details_of (us : list upload) : details :=
  Details (Z.of_nat (length us)) (foldl Z.add 0 (map (fun u => wr_bytes u.(u_result)) us)) (map u_shard us).

(** One upload after the other *)
Definition transfer (now : Z) (run cp : string) (u : upload) (s : store) : reply * store :=
  match upload_shard true run cp u.(u_shard) u.(u_rank) u.(u_body) s with
  | inl rep => (rep, s)
  | inr _ => upload_settled now (Some u.(u_result)) run cp u.(u_shard) u.(u_rank) s
  end.
Definition transfers (now : Z) (run cp : string) (us : list upload) (s : store) : list reply * store :=
  foldl (fun acc u => let '(rep, s) := transfer now run cp u acc.2 in (acc.1 ++ [rep], s)) ([], s) us.

Lemma transfer_spec now run cp u l info s :
  accepted u -> checkpoints (st_coord s) !! cp = Some info -> c_run info = run -> infos cp s = l ->
  exists c s', transfer now run cp u s = (Reply 200 [], s') /\ st_coord s' = c /\
    kv c = kv (st_coord s) /\ fsms c = fsms (st_coord s) /\
    checkpoints c = <[cp := with_state CIN_PROGRESS info]> (checkpoints (st_coord s)) /\
    infos cp s' = l ++ [stored_upload run cp u] /\
    s'.(sizes) !! cp = Some (Details (Z.of_nat (length (l ++ [stored_upload run cp u])))
      (foldl Z.add 0 (map sh_size (l ++ [stored_upload run cp u]))) (map sh_id (l ++ [stored_upload run cp u]))).
Proof.
  intros [B W] E R L. unfold transfer, upload_shard. cbn [negb]. rewrite E, R, String.eqb_refl. cbn [negb].
  rewrite bool_decide_false by done. cbn [upload_settled]. rewrite W. cbn [negb]. rewrite L.
  fold (stored_info run cp (u_shard u) (u_rank u) (u_result u)). fold (stored_upload run cp u).
  change (st_coord (set_shards _ s)) with (st_coord s).
  pose proof (update_state_spec cp CIN_PROGRESS (st_coord s)) as U. rewrite E in U.
  destruct U as (c & -> & K & Fs & C). do 2 eexists. split; [done|]. cbn. split_and!; try done.
  - unfold infos. cbn. by rewrite lookup_insert_eq.
  - by rewrite lookup_insert_eq.
Qed.

Lemma transfers_spec now run cp us info s :
  Forall accepted us -> checkpoints (st_coord s) !! cp = Some info -> c_run info = run -> infos cp s = [] ->
  let '(reps, s') := transfers now run cp us s in
  reps = map (fun _ => Reply 200 []) us /\
  kv (st_coord s') = kv (st_coord s) /\ fsms (st_coord s') = fsms (st_coord s) /\
  checkpoints (st_coord s') = (if bool_decide (us = []) then checkpoints (st_coord s)
    else <[cp := with_state CIN_PROGRESS info]> (checkpoints (st_coord s))) /\
  infos cp s' = map (stored_upload run cp) us /\
  (us <> [] -> s'.(sizes) !! cp = Some (details_of us)).
Proof.
  intros F E R I. unfold transfers. induction us as [|u us IH] using rev_ind; [by cbn; split_and!|].
  apply Forall_app in F as [F [Fu _]%Forall_cons]. rewrite foldl_app. specialize (IH F).
  cbn [foldl]. destruct (foldl _ _ us) as [reps s1]. destruct IH as (-> & K & Fs & C & L & _). cbn [fst snd].
  assert (E1 : exists info1, checkpoints (st_coord s1) !! cp = Some info1 /\ c_run info1 = run /\
                 with_state CIN_PROGRESS info1 = with_state CIN_PROGRESS info).
  { rewrite C. case_bool_decide; [by exists info|]. rewrite lookup_insert_eq. by eexists. }
  destruct E1 as (info1 & E1 & R1 & W1).
  destruct (transfer_spec now run cp u _ info1 s1 Fu E1 R1 L) as (c & s' & -> & Sc & K' & Fs' & C' & L' & D).
  rewrite Sc, K', Fs', C', W1, C, L'. split_and!.
  - by rewrite map_app.
  - done.
  - done.
  - rewrite (bool_decide_false (us ++ [u] = [])) by (by intros [_ ?]%app_eq_nil). case_bool_decide; [done|]. apply insert_insert_eq.
  - by rewrite map_app.
  - intros _. rewrite D. unfold details_of. change [stored_upload run cp u] with (map (stored_upload run cp) [u]).
    rewrite <- map_app, length_map, !map_map. done.
Qed.

Lemma active_cp_unique run c id cp :
  checkpoints c !! id = Some cp -> c_run cp = run -> c_state cp = CIN_PROGRESS ->
  (forall id' cp', checkpoints c !! id' = Some cp' -> c_run cp' = run -> c_state cp' = CIN_PROGRESS -> id' = id) ->
  active_cp run c = Some (id, cp).
Proof.
  intros E R S U. unfold active_cp.
  assert (I : (id, cp) ∈ filter (fun e => c_state e.2 = CIN_PROGRESS) (rev (list_checkpoints run c))).
  { apply list_elem_of_filter. split; [done|]. apply list_elem_of_In, in_rev. rewrite rev_involutive. by apply list_elem_of_In, list_checkpoints_elem. }
  destruct (filter _ _) as [|[id' cp'] l] eqn:Fl; [by apply elem_of_nil in I|]. cbn [head].
  assert (J : (id', cp') ∈ filter (fun e => c_state e.2 = CIN_PROGRESS) (rev (list_checkpoints run c))) by (rewrite Fl; by left).
  apply list_elem_of_filter in J as [S' J]. apply list_elem_of_In, in_rev, list_elem_of_In in J.
  apply list_checkpoints_elem in J as [E' R']. assert (id' = id) by (by eapply U). subst id'. congruence.
Qed.

(** A checkpoint is triggered on a running run. *)
Lemma trigger_spec a e run step r :
  agrees (coord a) -> kv (coord a) !! run = Some r -> r_state r = RUNNING ->
  exists c, trigger_checkpoint a e run (Some step) = (Reply 200 [(run, "checkpoint_started")], Service c (restarts a)) /\
    agrees c /\ kv c !! run = Some (Run CHECKPOINTING (r_step r) (now e) (Some (fresh_id e)) (r_error r)) /\
    checkpoints c = <[fresh_id e := Checkpoint run step CPENDING (now e)]> (checkpoints (coord a)).
Proof.
  intros A K Sr. unfold trigger_checkpoint.
  pose proof (transition_run_spec (coord a) run CHECKPOINTING (now e) r A K) as T. rewrite Sr in T.
  destruct (transition_run _ _ _ _) as [res c]. destruct T as (A1 & C1 & _ & T).
  rewrite bool_decide_true in T by (by left). destruct T as [-> T]. cbn [default].
  unfold create_checkpoint. rewrite T. eexists. split; [done|]. cbn. split_and!.
  - intros id' m E. specialize (A1 id' m E). unfold state_of in *. cbn.
    destruct (decide (run = id')) as [<-|]; [|by rewrite lookup_insert_ne]. rewrite lookup_insert_eq. by rewrite T in A1.
  - by rewrite lookup_insert_eq.
  - by rewrite C1.
Qed.

(** The manifest of a checkpoint of a run that waits for it is written. *)
Lemma commit_spec now run id info r s :
  agrees (st_coord s) -> kv (st_coord s) !! run = Some r -> r_state r = CHECKPOINTING ->
  checkpoints (st_coord s) !! id = Some info ->
  let '(rep, s') := commit_settled now (Some true) run id s in
  rep = Reply 200 [(run, "checkpoint_committed")] /\ agrees (st_coord s') /\
  state_of (st_coord s') run = Some RUNNING /\
  checkpoints (st_coord s') = <[id := with_state CCOMMITTED info]> (checkpoints (st_coord s)) /\
  infos id s' = [] /\ s'.(sizes) = s.(sizes).
Proof.
  intros A K Sr E. cbn [commit_settled]. change (st_coord (set_shards _ s)) with (st_coord s).
  pose proof (update_state_spec id CCOMMITTED (st_coord s)) as U. rewrite E in U.
  destruct U as (c2 & -> & K2 & F2 & C2).
  assert (A3 : agrees c2) by (by apply (agrees_kv (st_coord s))). rewrite <- K2 in K.
  pose proof (transition_run_spec c2 run COMMITTED now _ A3 K) as T3. rewrite Sr in T3.
  destruct (transition_run c2 run COMMITTED now) as [res3 c3]. destruct T3 as (A4 & C3 & _ & T3).
  rewrite bool_decide_true in T3 by (by left). destruct T3 as [-> K4].
  pose proof (transition_run_spec c3 run RUNNING now _ A4 K4) as T4. cbn [r_state] in T4.
  destruct (transition_run c3 run RUNNING now) as [res4 c4]. destruct T4 as (A5 & C4 & _ & T4).
  rewrite bool_decide_true in T4 by (by left). destruct T4 as [-> K5]. split_and!; try done.
  - unfold state_of. cbn. by rewrite K5.
  - cbn. by rewrite C4, C3, C2.
  - unfold infos. cbn. by rewrite lookup_delete_eq.
Qed.

Definition no_upload (run : string) (c : Coordinator.t) : Prop :=
  forall id cp, checkpoints c !! id = Some cp -> c_run cp = run -> c_state cp <> CIN_PROGRESS.

Lemma cycle_spec e run step us s :
  agrees (st_coord s) -> state_of (st_coord s) run = Some RUNNING -> no_upload run (st_coord s) ->
  checkpoints (st_coord s) !! fresh_id e = None -> infos (fresh_id e) s = [] ->
  us <> [] -> Forall accepted us ->
  let id := fresh_id e in
  let '(rep0, a) := trigger_checkpoint s.(ctl).(svc) e run (Some step) in
  let '(reps, s1) := transfers (now e) run id us (set_ctl (set_svc a s.(ctl)) s) in
  let '(rep, s2) := commit_settled (now e) (Some true) run id s1 in
  rep0 = Reply 200 [(run, "checkpoint_started")] /\ reps = map (fun _ => Reply 200 []) us /\
  commit_run true run s1 = inr (CommitCheckpoint run id, step, map (stored_upload run id) us) /\
  rep = Reply 200 [(run, "checkpoint_committed")] /\
  agrees (st_coord s2) /\ state_of (st_coord s2) run = Some RUNNING /\ no_upload run (st_coord s2) /\
  checkpoints (st_coord s2) = <[id := Checkpoint run step CCOMMITTED (now e)]> (checkpoints (st_coord s)) /\
  infos id s2 = [] /\ s2.(sizes) !! id = Some (details_of us).
Proof.
  intros A S N Fr I Us F id. unfold state_of in S. destruct (kv (st_coord s) !! run) as [r|] eqn:K; [|done].
  injection S as Sr. destruct (trigger_spec s.(ctl).(svc) e run step r A K Sr) as (c & -> & A0 & K0 & C0).
  fold id in C0 |- *. set (info := Checkpoint run step CPENDING (now e)) in *. set (s0 := set_ctl _ s).
  assert (E0 : checkpoints (st_coord s0) !! id = Some info) by (cbn; rewrite C0; apply lookup_insert_eq).
  pose proof (transfers_spec (now e) run id us info s0 F E0 eq_refl I) as Ts.
  destruct (transfers _ _ _ us s0) as [reps s1]. destruct Ts as (-> & K1 & F1 & C & L & D). specialize (D Us).
  rewrite bool_decide_false in C by done. cbn in C. rewrite C0, insert_insert_eq in C.
  assert (E1 : checkpoints (st_coord s1) !! id = Some (with_state CIN_PROGRESS info)) by (rewrite C; apply lookup_insert_eq).
  assert (Cm : commit_run true run s1 = inr (CommitCheckpoint run id, step, map (stored_upload run id) us)).
  { unfold commit_run. rewrite K1. change (st_coord s0) with c. rewrite K0.
    rewrite (active_cp_unique run _ id _ E1); [|done|done|].
    - cbn [negb]. rewrite L. by destruct us.
    - intros id' cp' E' R' S'. destruct (decide (id' = id)) as [|Ne]; [done|]. rewrite C, lookup_insert_ne in E' by done.
      by destruct (N id' cp'). }
  assert (A1 : agrees (st_coord s1)) by (by apply (agrees_kv c)).
  assert (K2 : kv (st_coord s1) !! run = Some (Run CHECKPOINTING (r_step r) (now e) (Some id) (r_error r))) by (by rewrite K1).
  pose proof (commit_spec (now e) run id _ _ s1 A1 K2 eq_refl E1) as Cs.
  destruct (commit_settled _ _ _ _ s1) as [rep s2]. destruct Cs as (-> & A2 & S2 & C2 & I2 & Z2).
  rewrite C, insert_insert_eq in C2. split_and!; try done; [|by rewrite Z2].
  intros id' cp' E' R'. rewrite C2 in E'. destruct (decide (id = id')) as [<-|Ne].
  - rewrite lookup_insert_eq in E'. by injection E' as <-.
  - rewrite lookup_insert_ne in E' by done. by eapply N.
Qed.

(** a checkpoint that meets no failure is committed. From a RUNNING run with no other
    upload open, triggering a checkpoint, uploading any shards and committing is answered
    200 throughout; the manifest is asked for with exactly the shards that were
    acknowledged, in order; the run is RUNNING again, the checkpoint is COMMITTED at the
    step that was asked for with the sizes of its shards, and nothing is left open, so
    that the next checkpoint can follow. *)
Theorem checkpoint_cycle e run step us s :
  agrees (st_coord s) -> state_of (st_coord s) run = Some RUNNING -> no_upload run (st_coord s) ->
  checkpoints (st_coord s) !! fresh_id e = None -> infos (fresh_id e) s = [] ->
  us <> [] -> Forall accepted us ->
  let id := fresh_id e in
  let '(rep0, a) := trigger_checkpoint s.(ctl).(svc) e run (Some step) in
  let '(reps, s1) := transfers (now e) run id us (set_ctl (set_svc a s.(ctl)) s) in
  let '(rep, s2) := commit_settled (now e) (Some true) run id s1 in
  rep0 = Reply 200 [(run, "checkpoint_started")] /\ reps = map (fun _ => Reply 200 []) us /\
  commit_run true run s1 = inr (CommitCheckpoint run id, step, map (stored_upload run id) us) /\
  rep = Reply 200 [(run, "checkpoint_committed")] /\
  agrees (st_coord s2) /\ state_of (st_coord s2) run = Some RUNNING /\ no_upload run (st_coord s2) /\
  checkpoints (st_coord s2) = <[id := Checkpoint run step CCOMMITTED (now e)]> (checkpoints (st_coord s)) /\
  infos id s2 = [] /\ s2.(sizes) !! id = Some (details_of us).
Proof. exact (cycle_spec e run step us s). Qed.

(** ** Only the data plane commits *)

(** No checkpoint came to be committed. *)
Definition no_new_commit (c c' : Coordinator.t) : Prop :=
  forall id cp', checkpoints c' !! id = Some cp' -> c_state cp' = CCOMMITTED ->
    exists cp, checkpoints c !! id = Some cp /\ c_state cp = CCOMMITTED.
#[export] Instance no_new_commit_preorder : PreOrder no_new_commit.
Proof.
  split; [by intros c id cp E S; exists cp|]. intros a b c H1 H2 id cp E S.
  destruct (H2 id cp E S) as (cp' & E' & S'). by eapply H1.
Qed.

Lemma same_no_commit c c' : checkpoints c' = checkpoints c -> no_new_commit c c'.
Proof. intros E id cp. rewrite E. by exists cp. Qed.

Lemma abort_no_commit run c : no_new_commit c (abort_pending_checkpoints run c).
Proof.
  destruct (abort_pending_spec run c) as (_ & _ & E). intros id cp'. rewrite E, lookup_fmap.
  destruct (checkpoints c !! id) as [cp|]; [|done]. intros [= <-] S. exists cp. split; [done|].
  destruct (decide _); [|done]. unfold aborted in S. by destruct (open_state cp).
Qed.

Lemma insert_no_commit c id cp kv' fsms' : c_state cp <> CCOMMITTED ->
  no_new_commit c (Coord kv' (<[id := cp]> (checkpoints c)) fsms').
Proof.
  intros N id' cp' E S. cbn in E. destruct (decide (id = id')) as [<-|Ne].
  - rewrite lookup_insert_eq in E. by injection E as <-.
  - rewrite lookup_insert_ne in E by done. by exists cp'.
Qed.

Lemma update_no_commit cp st c c' : st <> CCOMMITTED -> update_checkpoint_state cp st c = Some c' -> no_new_commit c c'.
Proof.
  unfold update_checkpoint_state. intros N. destruct (checkpoints c !! cp); [|done]. intros [= <-]. by apply insert_no_commit.
Qed.

Lemma move_no_commit c id target now edit : no_new_commit c (snd (move c id target now edit)).
Proof. apply same_no_commit, move_checkpoints. Qed.
Lemma transition_no_commit c id target now : no_new_commit c (snd (transition_run c id target now)).
Proof. apply move_no_commit. Qed.

Lemma trigger_no_commit a e run st : no_new_commit (coord a) (coord (snd (trigger_checkpoint a e run st))).
Proof.
  unfold trigger_checkpoint. pose proof (transition_no_commit (coord a) run CHECKPOINTING (ControlPlane.now e)) as T.
  destruct (transition_run _ _ _ _) as [[] c]; [done..|]. cbn [snd] in T.
  destruct (create_checkpoint _ _ _ _ _) as [res c'] eqn:E. cbn. etrans; [exact T|].
  unfold create_checkpoint in E. destruct (kv c !! run); injection E as <- <-; [|done].
  unfold persist_run. by apply insert_no_commit.
Qed.

Lemma post_action_no_commit a e run act : no_new_commit (coord a) (coord (snd (post_action a e run act))).
Proof.
  pose proof (fun target => transition_no_commit (coord a) run target (ControlPlane.now e)) as T.
  destruct act; cbn [post_action]; unfold start_run, cancel_run, transition_endpoint, resume_run.
  - specialize (T RUNNING). by destruct (transition_run _ _ _ _).
  - specialize (T CANCELLED). by destruct (transition_run _ _ _ _).
  - apply trigger_no_commit.
  - destruct (kv (coord a) !! run) as [r|]; [|done].
    destruct (r_state r); try done; [specialize (T RUNNING)|specialize (T RUNNING)|specialize (T RUNNING)|specialize (T RECOVERING)|specialize (T RUNNING)];
      by destruct (transition_run _ _ _ _).
Qed.

Section Plane.
Import Lifespan.

Lemma attempt_no_commit now restart run p :
  (forall f, restart = Some f -> frames f) ->
  no_new_commit (p_coord p) (p_coord (attempt_recovery now restart run p)).
Proof.
  intros F. unfold attempt_recovery. destruct restart as [f|]; [|done].
  pose proof (transition_no_commit (p_coord p) run RECOVERING now) as T.
  destruct (transition_run _ _ _ _) as [[] c]; [done..|]. by rewrite (proj1 (F f eq_refl run _)).
Qed.

Lemma failure_no_commit now auto restart run p :
  (forall f, restart = Some f -> frames f) ->
  no_new_commit (p_coord p) (p_coord (Recovery.on_worker_failure now auto restart run p)).
Proof.
  intros F. unfold Recovery.on_worker_failure. case_bool_decide; [done|].
  change (no_new_commit (p_coord p) (p_coord (handle_failure now auto restart run p))).
  unfold handle_failure. set (q := set_recovering _ p). change (p_coord q) with (p_coord p).
  destruct (kv (p_coord p) !! run) as [r|]; [|done]. cbn zeta.
  assert (G : forall q, no_new_commit (p_coord q) (p_coord
    (let p := set_coord (abort_pending_checkpoints run (p_coord q)) q in
     if auto then attempt_recovery now restart run p else p))).
  { intros q'. cbn zeta. destruct auto; [|apply abort_no_commit].
    etrans; [|by apply attempt_no_commit]. apply abort_no_commit. }
  pose proof (transition_no_commit (p_coord p) run FAILED now) as T.
  destruct (transition_run _ _ _ _) as [res c]. cbn [snd] in T.
  assert (D : no_new_commit (p_coord p) (p_coord (match res with
    | Ok _ => let p := set_coord (abort_pending_checkpoints run (p_coord (set_coord c q))) (set_coord c q) in
              if auto then attempt_recovery now restart run p else p
    | _ => set_coord c q end))).
  { destruct res; [done..|]. etrans; [exact T|]. exact (G (set_coord c q)). }
  destruct (r_state r); try done; destruct res; try exact D; try exact T; exact (G q).
Qed.

Lemma poll_no_commit v auto now p :
  consistent p -> no_new_commit (p_coord p) (p_coord (fst (Lifespan.poll v auto now p))).
Proof.
  intros [O _ _]. unfold Lifespan.poll, check_workers.
  pose proof (scan_invariant mgr set_mgr (on_dead v auto now) (threshold production) (fun _ _ => eq_refl)
    (on_dead_drops v now auto) (fun _ => True) (fun q => no_new_commit (p_coord p) (p_coord q))
    (fun _ => clock_ms v) (leases (mgr p)) 0 p) as S.
  destruct (scan _ _ _ _ _ _ _ p) as [p' dead]. apply S; [|apply O|apply current_leases|done].
  intros q worker id l _ N T Al. split; [done|]. etrans; [exact N|]. unfold declare, on_dead.
  etrans; [|apply failure_no_commit; apply restart_callback_frames]. done.
Qed.

Lemma recover_no_commit now restart run p :
  (forall f, restart = Some f -> frames f) ->
  no_new_commit (p_coord p) (p_coord (snd (recover_run now restart run p))).
Proof.
  intros F. unfold recover_run. destruct (kv (p_coord p) !! run) as [r|]; [|done].
  destruct (r_state r); try done. set (q := set_coord _ p).
  assert (A : no_new_commit (p_coord p) (p_coord q)) by apply abort_no_commit.
  destruct restart as [f|]; [|done]. pose proof (transition_no_commit (p_coord q) run RECOVERING now) as T.
  destruct (transition_run _ _ _ _) as [[] c]; [by etrans..|]. set (q2 := record_recovery_checkpoint run _).
  pose proof (proj1 (F f eq_refl run q2)) as E. destruct (f run q2) as [b p']. cbn [snd] in *. rewrite E. by etrans.
Qed.

Lemma schedule_coord v run p : p_coord (snd (schedule_worker_group_restart v run p)) = p_coord p.
Proof.
  pose proof (schedule_frames v run p) as F. cbv beta in F. destruct (schedule_worker_group_restart v run p) as [b q]. by destruct F.
Qed.

Lemma heartbeat_checkpoints w st now s c : checkpoints (snd (update_worker_heartbeat w st now s c)) = checkpoints c.
Proof.
  unfold update_worker_heartbeat. destruct (map_get w (index s)) as [i|]; [|done].
  case_bool_decide; [|done]. destruct (Workers.heartbeat _ _ _ _) as [[u s']|]; [|done]. cbn.
  destruct (kv c !! i_run i) as [r|] eqn:E; [|done]. destruct (_ && _); [|done].
  unfold update_run_step. by rewrite E.
Qed.

Lemma live_no_commit p p' : consistent p -> live_step p p' -> no_new_commit (p_coord p) (p_coord p').
Proof.
  intros C S.
  destruct S as [run rank w now p Fr|w p|w st now p|run now p Fr|e run a p|e run p|e run m p|e run st p|v auto now p|v auto now run p|v n p|b run p|sup runs ct now p Pm].
  - done.
  - done.
  - pose proof (heartbeat_checkpoints w st now (reg p) (p_coord p)) as E.
    destruct (update_worker_heartbeat _ _ _ _ _) as [[o r] c]. by apply same_no_commit.
  - by apply same_no_commit.
  - apply post_action_no_commit.
  - pose proof (transition_no_commit (p_coord p) run COMPLETED (ControlPlane.now e)) as T.
    unfold complete_run, transition_endpoint. fold (p_coord p). by destruct (transition_run _ _ _ _).
  - pose proof (fun edit => move_no_commit (p_coord p) run FAILED (ControlPlane.now e) edit) as T.
    unfold fail_run, set_run_error. fold (p_coord p).
    specialize (T (fun r => Run (r_state r) (r_step r) (r_updated r) (r_last_checkpoint r) (Some m))). by destruct (move _ _ _ _ _).
  - apply trigger_no_commit.
  - by apply poll_no_commit.
  - apply recover_no_commit. apply restart_callback_frames.
  - unfold reconcile. repeat (case_match; try done).
    apply same_no_commit. by rewrite schedule_coord.
  - unfold restart_finished, release, forget_attempt. destruct b; by case_bool_decide.
  - apply same_no_commit. destruct (demo_kill_choice sup runs ct now p) as [[-> _]|(x & -> & _)]; [done|].
    unfold fail_killed, set_run_error. cbn.
    pose proof (fun edit => move_checkpoints (p_coord p) x.1 FAILED now edit) as Mc.
    specialize (Mc (fun r => Run (r_state r) (r_step r) (r_updated r) (r_last_checkpoint r) (Some ("Worker " +:+ ct +:+ " killed (demo)")))).
    by destruct (move _ _ _ _ _).
Qed.
End Plane.

(** What a settled call of the data plane does *)
Record settles (e : event) (s s' : store) : Prop := {
  se_consistent : consistent s.(ctl) -> consistent s'.(ctl);
  se_commits cp info : checkpoints (st_coord s') !! cp = Some info -> c_state info = CCOMMITTED ->
    (exists info0, checkpoints (st_coord s) !! cp = Some info0 /\ c_state info0 = CCOMMITTED) \/
    (exists run, e = CommitDone run cp);
  se_waiting : s'.(waiting) = s.(waiting);
  se_infos cp : infos cp s' = acknowledge cp (infos cp s) e
}.

Lemma consistent_coord c p : (agrees (p_coord p) -> agrees c) -> consistent p -> consistent (set_coord c p).
Proof. intros F [O A R]. split; [done|by apply F|done]. Qed.

Lemma infos_delete cp id s : infos id (set_shards (delete cp s.(shards)) s) = if decide (cp = id) then [] else infos id s.
Proof. unfold infos. cbn. rewrite lookup_delete. by case_decide. Qed.

Lemma update_agrees cp st c c' : update_checkpoint_state cp st c = Some c' -> agrees c -> agrees c'.
Proof.
  unfold update_checkpoint_state. destruct (checkpoints c !! cp); [|done]. intros [= <-]. by apply agrees_kv.
Qed.

Lemma abort_settles now run cp message s e :
  (forall id l, acknowledge id l e = if decide (cp = id) then [] else l) ->
  settles e s (abort_failed_checkpoint now run cp message s).
Proof.
  intros Ae. unfold abort_failed_checkpoint, set_run_error. set (c := default (st_coord s) _).
  assert (C : (agrees (st_coord s) -> agrees c) /\ no_new_commit (st_coord s) c).
  { unfold c. destruct (update_checkpoint_state _ _ _) as [c'|] eqn:U; [|by split].
    split; [by eapply update_agrees|by eapply (update_no_commit _ CFAILED)]. }
  destruct C as [C1 C2]. pose proof (fun edit => move_no_commit c run FAILED now edit) as N.
  pose proof (fun edit A => move_agrees c run FAILED now edit A) as M.
  specialize (N (fun r => Run (r_state r) (r_step r) (r_updated r) (r_last_checkpoint r) (Some message))).
  specialize (M (fun r => Run (r_state r) (r_step r) (r_updated r) (r_last_checkpoint r) (Some message))).
  destruct (move _ _ _ _ _) as [res c']. cbn [snd] in *. split.
  - apply consistent_coord. intros A. apply M; [by apply C1|done].
  - intros id info E S. left. assert (X : no_new_commit (st_coord s) c') by (by etrans). by eapply X.
  - done.
  - intros id. rewrite Ae. exact (infos_delete cp id (put_coord c' s)).
Qed.

Lemma upload_settles now r run cp shard rank s :
  settles (write_event run cp shard rank r) s (snd (upload_settled now r run cp shard rank s)).
Proof.
  destruct r as [w|]; cbn [upload_settled write_event]; [|by apply abort_settles].
  destruct (wr_success w); cbn [negb]; [|by apply abort_settles]. fold (stored_info run cp shard rank w).
  set (s0 := set_shards _ s). change (st_coord s0) with (st_coord s).
  assert (I : forall id, infos id s0 = acknowledge id (infos id s) (ShardStored cp (stored_info run cp shard rank w))).
  { intros id. unfold infos. cbn. rewrite lookup_insert. by case_decide; simplify_eq. }
  destruct (update_checkpoint_state _ _ _) as [c|] eqn:U; cbn [snd].
  - split; [|intros id info E S; left; by eapply (update_no_commit _ CIN_PROGRESS)|done|exact I].
    apply consistent_coord. by eapply update_agrees.
  - split; [done|intros id info E S; left; by exists info|done|exact I].
Qed.

Lemma commit_settles now r run cp s :
  settles (commit_event run cp r) s (snd (commit_settled now r run cp s)).
Proof.
  destruct r as [[]|]; cbn [commit_settled commit_event default]; unfold commit_event; cbn [default];
    [|by apply abort_settles..].
  set (s0 := set_shards _ s). change (st_coord s0) with (st_coord s).
  assert (I : forall id, infos id s0 = acknowledge id (infos id s) (CommitDone run cp)) by (intros id; apply infos_delete).
  destruct (update_checkpoint_state _ _ _) as [c|] eqn:U; cbn [snd].
  2: { split; [done|intros id info E S; left; by exists info|done|exact I]. }
  assert (G : forall c', (agrees c -> agrees c') -> checkpoints c' = checkpoints c ->
    settles (CommitDone run cp) s (put_coord c' s0)).
  { intros c' A C. split; [|intros id info E S|done|exact I].
    - apply consistent_coord. intros A0. eapply A, update_agrees; [exact U|done].
    - destruct (decide (cp = id)) as [<-|Ne]; [by right; exists run|left].
      unfold update_checkpoint_state in U. destruct (checkpoints (st_coord s) !! cp); [|done]. injection U as <-.
      cbn in E. rewrite C in E. cbn in E. rewrite lookup_insert_ne in E by done. by exists info. }
  pose proof (transition_checkpoints c run COMMITTED now) as C1.
  pose proof (fun A => move_agrees c run COMMITTED now (fun r => r) A (fun _ => eq_refl)) as A1. fold (transition_run c run COMMITTED now) in A1.
  destruct (transition_run c run COMMITTED now) as [[] c1]; cbn [snd] in *; [by apply G..|].
  pose proof (transition_checkpoints c1 run RUNNING now) as C2.
  pose proof (fun A => move_agrees c1 run RUNNING now (fun r => r) A (fun _ => eq_refl)) as A2. fold (transition_run c1 run RUNNING now) in A2.
  destruct (transition_run c1 run RUNNING now) as [[] c2]; cbn [snd] in *; (apply G; [auto|congruence]).
Qed.

(** The manifest of a checkpoint was asked for with the shards acknowledged by then, and
    there was one. *)
Definition requested (run cp : string) (log : list event) : Prop :=
  exists l1 l2 infos, log = l1 ++ CommitSent run cp infos :: l2 /\ infos <> [] /\ infos = acknowledged cp l1.
(** It was asked for and later reported to be written. *)
Definition manifest_written (run cp : string) (log : list event) : Prop :=
  exists l1 l2 l3 infos, log = l1 ++ CommitSent run cp infos :: l2 ++ CommitDone run cp :: l3 /\
    infos <> [] /\ infos = acknowledged cp l1.

Lemma acknowledged_snoc cp log e : acknowledged cp (log ++ [e]) = acknowledge cp (acknowledged cp log) e.
Proof. unfold acknowledged. by rewrite foldl_app. Qed.

Lemma requested_snoc run cp log e : requested run cp log -> requested run cp (log ++ [e]).
Proof. intros (l1 & l2 & sent & -> & N & A). exists l1, (l2 ++ [e]), sent. by rewrite <- app_assoc. Qed.
Lemma manifest_snoc run cp log e : manifest_written run cp log -> manifest_written run cp (log ++ [e]).
Proof.
  intros (l1 & l2 & l3 & sent & -> & N & A). exists l1, l2, (l3 ++ [e]), sent.
  split; [|done]. by rewrite <- app_assoc, <- app_comm_cons, <- app_assoc, <- app_comm_cons.
Qed.
Lemma manifest_done run cp log : requested run cp log -> manifest_written run cp (log ++ [CommitDone run cp]).
Proof. intros (l1 & l2 & sent & -> & N & A). exists l1, l2, [], sent. by rewrite <- app_assoc. Qed.

Record sound (log : list event) (s : store) : Prop := {
  so_consistent : consistent s.(ctl);
  so_infos cp : infos cp s = acknowledged cp log;
  so_waiting run cp : CommitCheckpoint run cp ∈ s.(waiting) -> requested run cp log;
  so_committed cp info : checkpoints (st_coord s) !! cp = Some info -> c_state info = CCOMMITTED ->
    exists run, manifest_written run cp log
}.

(** A step that commits nothing and keeps the waiting requests *)
Lemma sound_quiet log e s s' :
  sound log s -> consistent s'.(ctl) -> no_new_commit (st_coord s) (st_coord s') ->
  (forall cp, infos cp s' = acknowledge cp (infos cp s) e) ->
  (forall run cp, CommitCheckpoint run cp ∈ s'.(waiting) ->
     CommitCheckpoint run cp ∈ s.(waiting) \/ requested run cp (log ++ [e])) ->
  sound (log ++ [e]) s'.
Proof.
  intros [C I W M] C' N I' W'. split; [done| | |].
  - intros cp. by rewrite acknowledged_snoc, I', I.
  - intros run cp H. destruct (W' run cp H) as [H'|]; [|done]. by apply requested_snoc, W.
  - intros cp info E S. destruct (N cp info E S) as (info0 & E0 & S0).
    destruct (M cp info0 E0 S0) as [run H]. exists run. by apply manifest_snoc.
Qed.

Lemma sound_settles log e s s' w :
  sound log s -> settles e s s' ->
  (forall run cp, e = CommitDone run cp -> CommitCheckpoint run cp ∈ s.(waiting)) ->
  (forall q, q ∈ w -> q ∈ s.(waiting)) -> sound (log ++ [e]) (set_waiting w s').
Proof.
  intros [C I W M] [C' N _ I'] D Sub. split; [by apply C'| | |].
  - intros cp. rewrite acknowledged_snoc, <- I. exact (I' cp).
  - intros run cp H. by apply requested_snoc, W, Sub.
  - intros cp info E S. destruct (N cp info E S) as [(info0 & E0 & S0)|[run ->]].
    + destruct (M cp info0 E0 S0) as [run H]. exists run. by apply manifest_snoc.
    + exists run. apply manifest_done, W. by apply D.
Qed.

Lemma commit_run_inr connected run s run' cp n l :
  commit_run connected run s = inr (CommitCheckpoint run' cp, n, l) -> run' = run /\ l = infos cp s /\ l <> [].
Proof.
  unfold commit_run. destruct (kv _ !! run); [|done]. destruct (active_cp _ _) as [[id info]|]; [|done].
  destruct connected; [|done]. cbn [negb]. destruct (infos id s) eqn:E; [done|]. intros [= <- <- _ <-]. by rewrite E.
Qed.

Lemma forget_no_commit c g : no_new_commit c (forget c g).
Proof.
  unfold forget. destruct (checkpoints c !! id_of g); [|done]. case_match; [|done].
  intros id info E S. cbn in E. apply lookup_delete_Some in E as [_ E]. by exists info.
Qed.
Lemma forget_agrees c g : agrees c -> agrees (forget c g).
Proof. unfold forget. destruct (checkpoints c !! id_of g); [|done]. case_match; [|done]. by apply agrees_kv. Qed.

Lemma elem_of_middle {A} (x y : A) l1 l2 : x ∈ l1 ++ l2 -> x ∈ l1 ++ y :: l2.
Proof. rewrite !elem_of_app, elem_of_cons. tauto. Qed.

Lemma history_sound log s : history log s -> sound log s.
Proof.
  intros H. induction H as [|log e s s' _ IH St].
  { split; [apply empty_plane_consistent|done|by intros ? ? ?%elem_of_nil|by intros cp info]. }
  pose proof IH as [C I W M].
  destruct St as [p' s L|g s|now s|cn run cp shard rank body q s E|now r run cp shard rank l1 l2 s E
                 |cn run cp n l s E|now r run cp l1 l2 s E].
  - apply (sound_quiet log Silent s); [done|by eapply live_step_consistent|by apply live_no_commit|done|by left].
  - apply (sound_quiet log Silent s); [done| |apply forget_no_commit|done|by left].
    apply consistent_coord; [|done]. apply forget_agrees.
  - apply (sound_quiet log Rebooted s); [done|by apply reboot_consistent|by apply same_no_commit|done|].
    by intros run cp Q%elem_of_nil.
  - apply (sound_quiet log Silent s); [done..|]. intros run' cp' [<-|Q]%elem_of_cons; [|by left].
    unfold upload_shard in E. repeat (case_match; simplify_eq).
  - apply (sound_settles log _ s); [done|apply upload_settles| |].
    + intros run' cp'. destruct r as [w|]; cbn; [by destruct (wr_success w)|done].
    + intros q. rewrite E. apply elem_of_middle.
  - apply commit_run_inr in E as (_ & -> & N).
    apply (sound_quiet log _ s); [done..|]. intros run' cp' [[= -> ->]|Q]%elem_of_cons; [right|by left].
    exists log, [], (infos cp s). by rewrite <- I.
  - apply (sound_settles log _ s); [done|apply commit_settles| |].
    + intros run' cp'. unfold commit_event. destruct (default false r); [|done]. intros [= <- <-]. rewrite E.
      apply elem_of_app. right. by left.
    + intros q. rewrite E. apply elem_of_middle.
Qed.

(** C10: After every history of the control plane (calls of workers and of the console,
    uploads and commits with every outcome, failures, recovery, retention and restarts of
    the process, over a key-value store that carries out its writes) every cached state
    machine is in the state that is persisted for its run, the worker stores are in step (a
    worker is active in the index exactly while its record is and its lease is live, and the
    active workers of a run have distinct ranks), and no failure is being handled. *)
Theorem history_consistent log s : history log s -> consistent s.(ctl).
Proof. intros H. by apply (so_consistent _ _ (history_sound _ _ H)). Qed.

(** C17: only the data plane commits. In every history of the control plane, whatever workers,
    the console, the monitor, recovery, retention and restarts of the process do in
    between, a checkpoint whose record is COMMITTED had its manifest asked for with a
    non-empty list of shards, which were exactly those the data plane had acknowledged for
    it since the process started or the checkpoint was last given up, and the data plane
    reported that manifest as written. *)
Theorem committed_by_dataplane log s cp info :
  history log s -> checkpoints (st_coord s) !! cp = Some info -> c_state info = CCOMMITTED ->
  exists run, manifest_written run cp log.
Proof. intros H%history_sound E S. by eapply so_committed. Qed.

(** a late upload takes a checkpoint back. The answer to an upload is applied whatever
    became of its checkpoint meanwhile: one that was aborted or committed is IN_PROGRESS
    again, no longer among the committed ones, and if its table was emptied its record
    counts the late shard only; a commit of the run may then pick it. *)
Theorem late_upload_reopens now w run cp shard rank info s :
  checkpoints (st_coord s) !! cp = Some info -> w.(wr_success) = true -> infos cp s = [] ->
  let '(rep, s') := upload_settled now (Some w) run cp shard rank s in
  rep = Reply 200 [] /\ checkpoints (st_coord s') !! cp = Some (with_state CIN_PROGRESS info) /\
  (forall r info', (cp, info') ∉ committed r (st_coord s')) /\
  s'.(sizes) !! cp = Some (Details 1 w.(wr_bytes) [shard]) /\
  infos cp s' = [stored_info run cp shard rank w].
Proof.
  intros E Ok I. cbn [upload_settled]. rewrite Ok, I. cbn [negb app].
  fold (stored_info run cp shard rank w). change (st_coord (set_shards _ s)) with (st_coord s).
  pose proof (update_state_spec cp CIN_PROGRESS (st_coord s)) as U. rewrite E in U.
  destruct U as (c & -> & K & F & C).
  assert (E' : checkpoints c !! cp = Some (with_state CIN_PROGRESS info)) by (rewrite C; apply lookup_insert_eq).
  split_and!; [done|exact E'| | |].
  - intros r info' (X & _ & S)%committed_elem. cbn in X. rewrite E' in X. injection X as <-. discriminate S.
  - cbn. apply lookup_insert_eq.
  - unfold infos. cbn. by rewrite lookup_insert_eq.
Qed.

(** ** At concrete inputs *)

Definition sample_byte : Byte.byte := Byte.x41.
Definition sample_result : write_result := WriteResult 3 "0123456789abcdef0123" true.
Definition sample_store (st : run_state) (cps : gmap string checkpoint) : store :=
  Store (Plane (Service (Coord {[ "r1" := Run st 150 0 None None ]} cps ∅) ∅)
           (Registry [] [] [] [] init_manager) ∅ [] None) ∅ ∅ [].

Lemma sample_store_agrees st cps : agrees (st_coord (sample_store st cps)).
Proof. by intros id m ?. Qed.

Example sample_chunk : chunk_iterator [sample_byte] = [Chunk 0 [sample_byte] true] /\ chunk_iterator [] = [].
Proof. vm_compute. done. Qed.

Lemma storage_key_read_back_witness :
  storage_key "r1" "c1" "0123456789abcdef0123" "rank-0" = "r1/c1/sha256-0123456789abcdef-rank-0.bin" /\
  checkpoint_of_key (storage_key "r1" "c1" "0123456789abcdef0123" "rank-0") = Some ("r1", "c1").
Proof.
  split; [vm_compute; reflexivity|].
  refine (proj1 (storage_key_read_back "r1" "c1" "0123456789abcdef0123" "rank-0" 3 "" _ _ _ _));
    [repeat constructor; discriminate..|discriminate|discriminate].
Defined.

Lemma transfer_failure_witness :
  let s := sample_store CHECKPOINTING {[ "c1" := Checkpoint "r1" 100 CPENDING 1 ]} in
  transfer_failed "r1" "c1" (Run CHECKPOINTING 150 0 None None) s
    (snd (upload_settled 7 None "r1" "c1" "rank-0" 0 s)) /\
  fst (commit_settled 7 (Some false) "r1" "c1" s) = Reply 502 [].
Proof.
  set (s := sample_store _ _).
  destruct (transfer_failure 7 "r1" "c1" "rank-0" 0 (Run CHECKPOINTING 150 0 None None) s
    (sample_store_agrees _ _) eq_refl) as [U C].
  split; [exact (proj2 (U None I))|exact (proj1 (C (Some false) ltac:(discriminate)))].
Defined.

Lemma checkpoint_cycle_witness :
  let us := [Upload "rank-0" 0 [sample_byte] sample_result; Upload "rank-1" 1 [sample_byte] sample_result] in
  let s := sample_store RUNNING {[ "c1" := Checkpoint "r1" 100 CCOMMITTED 1 ]} in
  let '(_, a) := trigger_checkpoint s.(ctl).(svc) (Env 7 "c2") "r1" (Some 150) in
  let '(_, s1) := transfers 7 "r1" "c2" us (set_ctl (set_svc a s.(ctl)) s) in
  let '(rep, s2) := commit_settled 7 (Some true) "r1" "c2" s1 in
  rep = Reply 200 [("r1", "checkpoint_committed")] /\ s2.(sizes) !! "c2" = Some (Details 2 6 ["rank-0"; "rank-1"]).
Proof.
  pose proof (checkpoint_cycle (Env 7 "c2") "r1" 150
    [Upload "rank-0" 0 [sample_byte] sample_result; Upload "rank-1" 1 [sample_byte] sample_result]
    (sample_store RUNNING {[ "c1" := Checkpoint "r1" 100 CCOMMITTED 1 ]})) as H.
  cbn [now fresh_id] in *. cbv zeta in *. destruct (trigger_checkpoint _ _ _ _) as [rep0 a].
  destruct (transfers _ _ _ _ _) as [reps s1]. destruct (commit_settled _ _ _ _ _) as [rep s2].
  destruct H as (_ & _ & _ & R & _ & _ & _ & _ & _ & D);
    [apply sample_store_agrees|reflexivity| |reflexivity|reflexivity|discriminate|by repeat constructor|split; [exact R|exact D]].
  intros id cp E _. cbn in E. apply lookup_singleton_Some in E as [_ <-]. discriminate.
Defined.

Lemma late_upload_reopens_witness :
  let s := sample_store RUNNING {[ "c1" := Checkpoint "r1" 100 CCOMMITTED 1 ]} in
  let '(rep, s') := upload_settled 7 (Some sample_result) "r1" "c1" "rank-1" 1 s in
  rep = Reply 200 [] /\ checkpoints (st_coord s') !! "c1" = Some (Checkpoint "r1" 100 CIN_PROGRESS 1).
Proof.
  intros s. pose proof (late_upload_reopens 7 sample_result "r1" "c1" "rank-1" 1 (Checkpoint "r1" 100 CCOMMITTED 1)
    s eq_refl eq_refl eq_refl) as H.
  destruct (upload_settled _ _ _ _ _ _ _) as [rep s']. destruct H as (R & E & _). exact (conj R E).
Defined.

(** One run with one shard, from an empty control plane *)
Definition created_store : store := set_ctl (set_coord (snd (create_run (p_coord empty_plane) "r1" 1)) empty_plane) empty_store.
Definition act (id : string) (a : run_action) (s : store) : store :=
  set_ctl (set_svc (snd (post_action s.(ctl).(svc) (Env 2 id) "r1" a)) s.(ctl)) s.
Definition triggered_store : store := act "c1" ACheckpoint (act "" AStart created_store).
Definition uploading_store : store := set_waiting [WriteShard "r1" "c1" "rank-0" 0] triggered_store.
Definition uploaded_store : store :=
  set_waiting [] (snd (upload_settled 3 (Some sample_result) "r1" "c1" "rank-0" 0 uploading_store)).
Definition committing_store : store := set_waiting [CommitCheckpoint "r1" "c1"] uploaded_store.
Definition committed_store : store := set_waiting [] (snd (commit_settled 4 (Some true) "r1" "c1" committing_store)).
Definition sample_log : list event :=
  [Silent; Silent; Silent; Silent; ShardStored "c1" (stored_info "r1" "c1" "rank-0" 0 sample_result);
   CommitSent "r1" "c1" [stored_info "r1" "c1" "rank-0" 0 sample_result]; CommitDone "r1" "c1"].

Lemma sample_history : history sample_log committed_store.
Proof.
  apply (history_snoc [_; _; _; _; _; _] _ committing_store).
  2: { apply (step_committed 4 (Some true) "r1" "c1" [] [] committing_store). reflexivity. }
  apply (history_snoc [_; _; _; _; _] _ uploaded_store).
  2: { apply (step_commit true "r1" "c1" 0 _ uploaded_store). vm_compute. reflexivity. }
  apply (history_snoc [_; _; _; _] _ uploading_store).
  2: { apply (step_uploaded 3 (Some sample_result) "r1" "c1" "rank-0" 0 [] [] uploading_store). reflexivity. }
  apply (history_snoc [_; _; _] _ triggered_store).
  2: { apply (step_upload true "r1" "c1" "rank-0" 0 [sample_byte] _ triggered_store). vm_compute. reflexivity. }
  apply (history_snoc [_; _] _ (act "" AStart created_store)); [|apply step_plane, step_action].
  apply (history_snoc [_] _ created_store); [|apply step_plane, step_action].
  apply (history_snoc [] _ empty_store); [apply history_nil|]. apply step_plane, step_create. reflexivity.
Qed.

Lemma history_consistent_witness : state_of (st_coord committed_store) "r1" = Some RUNNING /\ consistent committed_store.(ctl).
Proof. exact (conj eq_refl (history_consistent sample_log committed_store sample_history)). Defined.
Lemma committed_by_dataplane_witness :
  checkpoints (st_coord committed_store) !! "c1" = Some (Checkpoint "r1" 0 CCOMMITTED 2) /\
  exists run, manifest_written run "c1" sample_log.
Proof.
  assert (E : checkpoints (st_coord committed_store) !! "c1" = Some (Checkpoint "r1" 0 CCOMMITTED 2)) by (vm_compute; reflexivity).
  exact (conj E (committed_by_dataplane sample_log committed_store "c1" _ sample_history E eq_refl)).
Defined.
