(* ===== verification/ObjectStorage.v ===== *)
(** * Object storage and the effects of the data plane: [rust-dataplane/src/storage]

    A handler of the data plane is a tree of the calls it makes ([prog]): the requests of
    the S3 client ([storage/s3.rs]), a new UUID, the clock, and the two atomics of the
    service. [exec] runs one handler alone, [advance] makes its next call, so that handlers
    can be interleaved. The storage service is an interface with the documented behaviour
    of its requests: a request that answers has had its effect, one that fails may or may
    not have. *)

From Stdlib Require Import Ascii.
From S2P Require Import Prelude JsString.

Abbreviation bytes := (list Byte.byte).

(** ** Requests *)

(** [CompletedPart]: the part's number and its ETag *)
Abbreviation completed_part := (Z * option string)%type.
(** [ListObjectsV2Output] *)
Record page : Type := Page {
  contents : list (option string); is_truncated : option bool; next_continuation_token : option string
}.

(** The requests the client sends to its bucket, with what they answer. The copy source of
    [CopyObject] is what the header [x-amz-copy-source] holds after the bucket and the
    slash; the service takes it for URL-encoded. *)
Inductive request : Type -> Type :=
| HeadObject (key : string) : request unit
| GetObject (key : string) : request bytes
| PutObject (key : string) (body : bytes) : request unit
| DeleteObject (key : string) : request unit
| CopyObject (copy_source destination_key : string) : request unit
| CreateMultipartUpload (key : string) : request (option string)
| UploadPart (key upload_id : string) (part_number : Z) (body : bytes) : request (option string)
| CompleteMultipartUpload (key upload_id : string) (parts : list completed_part) : request unit
| AbortMultipartUpload (key upload_id : string) : request unit
| ListObjectsV2 (key_prefix : string) (token : option string) : request page.

(** What a handler does besides computing *)
Inductive effect : Type -> Type :=
| Send {R : Type} (r : request R) : effect (option R)
| NewUuid : effect string
| Now : effect string
| FetchAdd (d : Z) : effect Z
| LoadDepth : effect Z
| StoreHealthy (b : bool) : effect unit
| LoadHealthy : effect bool.

Inductive prog (A : Type) : Type :=
| Ret (a : A)
| Call {R : Type} (e : effect R) (k : R -> prog A).
Arguments Ret {A} a.
Arguments Call {A R} e k.

Fixpoint bind {A B} (p : prog A) (f : A -> prog B) : prog B :=
  match p with
  | Ret a => f a
  | Call e k => Call e (fun r => bind (k r) f)
  end.
Definition perform {R} (e : effect R) : prog R := Call e Ret.

(** A function that returns [Result]; [?] returns early with the error. *)
Abbreviation io A := (prog (option A)).
Definition try {A B} (p : io A) (f : A -> io B) : io B :=
  bind p (fun r => match r with Some a => f a | None => Ret None end).

Notation "'let!' x := p 'in' q" := (bind p (fun x => q))
  (at level 10, x name, p at level 100, q at level 200).
Notation "'let?' x := p 'in' q" := (try p (fun x => q))
  (at level 10, x name, p at level 100, q at level 200).

(** ** The client, [impl S3Client] *)

Definition put_object (key : string) (data : bytes) : io unit := perform (Send (PutObject key data)).
Definition create_multipart_upload (key : string) : io string :=
  let? upload_id := perform (Send (CreateMultipartUpload key)) in Ret upload_id.
Definition upload_part (key upload_id : string) (part_number : Z) (data : bytes) : io completed_part :=
  let? e_tag := perform (Send (UploadPart key upload_id part_number data)) in Ret (Some (part_number, e_tag)).
Definition complete_multipart_upload (key upload_id : string) (parts : list completed_part) : io unit :=
  perform (Send (CompleteMultipartUpload key upload_id parts)).
Definition abort_multipart_upload (key upload_id : string) : io unit :=
  perform (Send (AbortMultipartUpload key upload_id)).
(** [copy_source(format!("{bucket}/{source_key}"))]: the key is sent as it is, not encoded. *)
Definition copy_object (source_key destination_key : string) : io unit :=
  perform (Send (CopyObject source_key destination_key)).
Definition get_object (key : string) : io bytes := perform (Send (GetObject key)).
Definition delete_object (key : string) : io unit := perform (Send (DeleteObject key)).
(** Any error of the request is an answer: the object does not exist. *)
Definition object_exists (key : string) : io bool :=
  let! r := perform (Send (HeadObject key)) in Ret (Some (if r is Some _ then true else false)).

(** The loop of [list_objects]; the fuel bounds the number of pages. *)
Fixpoint list_pages (fuel : nat) (prefix : string) (token : option string) (keys : list string) : io (list string) :=
  match fuel with
  | O => Ret None
  | S fuel =>
      let? resp := perform (Send (ListObjectsV2 prefix token)) in
      let keys := keys ++ omap id (contents resp) in
      if bool_decide (is_truncated resp = Some true)
      then list_pages fuel prefix (next_continuation_token resp) keys
      else Ret (Some keys)
  end.
Definition list_objects (fuel : nat) (prefix : string) : io (list string) := list_pages fuel prefix None [].

(** ** The storage service *)

(** A multipart upload that is pending: its key and its parts *)
Abbreviation upload := (string * gmap Z (option string * bytes))%type.
(** What the bucket holds *)
Record view : Type := View { objects : gmap string bytes; uploads : gmap string upload }.
Definition set_object k d v := View (<[k := d]> v.(objects)) v.(uploads).
Definition drop_object k v := View (delete k v.(objects)) v.(uploads).
Definition set_upload id (u : upload) v := View v.(objects) (<[id := u]> v.(uploads)).
Definition drop_upload id v := View v.(objects) (delete id v.(uploads)).

(** The object that a list of parts makes, if each is the one that was uploaded *)
Definition part_data (ps : gmap Z (option string * bytes)) (p : completed_part) : option bytes :=
  match ps !! p.1 with
  | Some (tag, d) => if decide (tag = p.2) then Some d else None
  | None => None
  end.
Definition assembled (ps : gmap Z (option string * bytes)) (parts : list completed_part) : option bytes :=
  @concat Byte.byte <$> mapM (part_data ps) parts.

(** The limits of the service: parts but the last of at least 5 MiB, at most 10,000 of
    them in ascending order, and copies of objects of up to 5 GiB *)
Definition min_part_size : Z := 5 * 1024 * 1024.
Definition max_parts : Z := 10000.
Definition max_copy_size : Z := 5 * 1024 * 1024 * 1024.
Definition len (d : bytes) : Z := Z.of_nat (length d).
Definition parts_ok (ds : list bytes) : Prop :=
  ds <> [] /\ Z.of_nat (length ds) <= max_parts /\
  Forall (fun d => min_part_size <= len d) (take (pred (length ds)) ds).

(** A string that is its own URL encoding: letters, digits, the unreserved marks and the
    slash *)
Definition plain_chars : list Ascii.ascii :=
  units "ABCDEFGHIJKLMNOPQRSTUVWXYZabcdefghijklmnopqrstuvwxyz0123456789-._~/".
Definition url_plain (s : string) : Prop := Forall (fun c => c ∈ plain_chars) (units s).
#[export] Instance url_plain_dec s : Decision (url_plain s).
Proof. unfold url_plain. apply _. Defined.
Lemma url_plain_app a b : url_plain (a +:+ b) <-> url_plain a /\ url_plain b.
Proof. unfold url_plain. by rewrite units_app, Forall_app. Qed.

Section Documented.
(** What a listing has still to report after a token, and the key of the object that a copy
    source names, if it names one *)
Context (listing : view -> string -> option string -> list string) (named : string -> option string).

(** The effect of a request that answered [r] *)
Definition did {R} (c : request R) : R -> view -> view -> Prop :=
  match c in request R return R -> view -> view -> Prop with
  | HeadObject k => fun _ v v' => is_Some (v.(objects) !! k) /\ v' = v
  | GetObject k => fun d v v' => v.(objects) !! k = Some d /\ v' = v
  | PutObject k d => fun _ v v' => v' = set_object k d v
  | DeleteObject k => fun _ v v' => v' = drop_object k v
  | CopyObject src dst => fun _ v v' => exists k d, named src = Some k /\ v.(objects) !! k = Some d /\ v' = set_object dst d v
  | CreateMultipartUpload k => fun id v v' =>
      exists i, id = Some i /\ v.(uploads) !! i = None /\ v' = set_upload i (k, ∅) v
  | UploadPart k id n d => fun tag v v' =>
      exists ps, v.(uploads) !! id = Some (k, ps) /\ v' = set_upload id (k, <[n := (tag, d)]> ps) v
  | CompleteMultipartUpload k id parts => fun _ v v' =>
      exists ps d, v.(uploads) !! id = Some (k, ps) /\ assembled ps parts = Some d /\
        v' = set_object k d (drop_upload id v)
  | AbortMultipartUpload k id => fun _ v v' => v' = drop_upload id v
  | ListObjectsV2 prefix token => fun p v v' => v' = v /\
      if bool_decide (p.(is_truncated) = Some true)
      then omap id p.(contents) <> [] /\ is_Some p.(next_continuation_token) /\
        listing v prefix token = omap id p.(contents) ++ listing v prefix p.(next_continuation_token)
      else listing v prefix token = omap id p.(contents)
  end.

(** The requests that the service does not refuse *)
Definition admissible {R} (c : request R) (v : view) : Prop :=
  match c with
  | HeadObject k | GetObject k => is_Some (v.(objects) !! k)
  | CopyObject src _ => exists k d, named src = Some k /\ v.(objects) !! k = Some d /\ len d <= max_copy_size
  | UploadPart k id n _ => 1 <= n <= max_parts /\ exists ps, v.(uploads) !! id = Some (k, ps)
  | CompleteMultipartUpload k id parts =>
      exists ps ds, v.(uploads) !! id = Some (k, ps) /\ mapM (part_data ps) parts = Some ds /\ parts_ok ds /\
        increasing (map fst parts) = true
  | _ => True
  end.
End Documented.


(** A UUID in its hyphenated form *)
Definition uuid_char (c : Ascii.ascii) : Prop :=
  c ∈ units "0123456789abcdef-".
#[export] Instance uuid_char_dec c : Decision (uuid_char c).
Proof. unfold uuid_char. apply _. Defined.
Definition is_uuid (s : string) : Prop := length (units s) = 36%nat /\ Forall uuid_char (units s).

(** The world a handler calls: the storage service, the clock and a source of UUIDs *)
Class Cloud : Type := {
  world : Type;
  look : world -> view;
  send : forall {R}, request R -> world -> option R * world;
  new_v4 : world -> string * world;
  utc_now : world -> string * world;
  listing : view -> string -> option string -> list string;
  source_named : string -> option string
}.

Class CloudLaws (C : Cloud) : Prop := {
  send_answered {R} (c : request R) (w : world) r w' : send c w = (Some r, w') -> did listing source_named c r (look w) (look w');
  send_failed {R} (c : request R) (w : world) w' : send c w = (None, w') ->
    look w' = look w \/ exists r, did listing source_named c r (look w) (look w');
  new_v4_uuid (w : world) : is_uuid (new_v4 w).1 /\ look (new_v4 w).2 = look w;
  utc_now_look (w : world) : look (utc_now w).2 = look w;
  listing_complete v prefix :
    NoDup (listing v prefix None) /\
    forall k, k ∈ listing v prefix None <-> is_Some (v.(objects) !! k) /\ starts_with k prefix = true;
  source_plain k : url_plain k -> source_named k = Some k
}.

(** While the service is up it refuses nothing it does not have to. *)
Class CloudUp (C : Cloud) : Type := { up : world -> Prop }.
Class CloudUpLaws (C : Cloud) (U : CloudUp C) : Prop := {
  up_refused {R} (c : request R) (w : world) w' : up w -> send c w = (None, w') ->
    ~ admissible source_named c (look w) /\ look w' = look w;
  up_send {R} (c : request R) (w : world) : up w -> up (send c w).2;
  up_new_v4 (w : world) : up w -> up (new_v4 w).2;
  up_utc_now (w : world) : up w -> up (utc_now w).2
}.

(** ** Running a handler *)

Section Run.
Context `{Cloud}.

(** The service's atomics, [BackpressureController] and [storage_healthy], and the world *)
Record state : Type := State { queue_depth : Z; storage_healthy : bool; cloud : world }.

Definition set_depth d s := State d s.(storage_healthy) s.(cloud).
Definition set_healthy b s := State s.(queue_depth) b s.(cloud).
Definition set_cloud w s := State s.(queue_depth) s.(storage_healthy) w.
Definition seen (s : state) : view := look s.(cloud).

Definition on_cloud {R} (f : world -> R * world) (s : state) : R * state :=
  let '(r, w) := f s.(cloud) in (r, set_cloud w s).

(** An [AtomicUsize] wraps around. *)
Definition usize (n : Z) : Z := n mod 2 ^ 64.

Definition do_effect {R} (e : effect R) : state -> R * state :=
  match e in effect R return state -> R * state with
  | Send c => on_cloud (send c)
  | NewUuid => on_cloud new_v4
  | Now => on_cloud utc_now
  | FetchAdd d => fun s => (s.(queue_depth), set_depth (usize (s.(queue_depth) + d)) s)
  | LoadDepth => fun s => (s.(queue_depth), s)
  | StoreHealthy b => fun s => (tt, set_healthy b s)
  | LoadHealthy => fun s => (s.(storage_healthy), s)
  end.

Fixpoint exec {A} (p : prog A) (s : state) : A * state :=
  match p with
  | Ret a => (a, s)
  | Call e k => let '(r, s) := do_effect e s in exec (k r) s
  end.

(** The next call of a handler *)
Definition advance {A} (p : prog A) (s : state) : prog A * state :=
  match p with
  | Ret a => (Ret a, s)
  | Call e k => let '(r, s) := do_effect e s in (k r, s)
  end.

Lemma exec_bind {A B} (p : prog A) (f : A -> prog B) s :
  exec (bind p f) s = let '(a, s) := exec p s in exec (f a) s.
Proof.
  revert s. induction p as [a|R e k IH]; intros s; [done|]. cbn. destruct (do_effect e s) as [r s']. apply IH.
Qed.
Lemma exec_perform {R} (e : effect R) s : exec (perform e) s = do_effect e s.
Proof. cbn. by destruct (do_effect e s). Qed.
Lemma exec_try {A B} (p : io A) (f : A -> io B) s :
  exec (try p f) s = let '(r, s) := exec p s in match r with Some a => exec (f a) s | None => (None, s) end.
Proof. unfold try. rewrite exec_bind. destruct (exec p s) as [[a|] s']; done. Qed.
End Run.

(** ** The calls of a handler *)

Definition plausible {R} (e : effect R) : R -> Prop :=
  match e in effect R return R -> Prop with NewUuid => is_uuid | _ => fun _ => True end.
(** Every call a handler may make, whatever it is answered, satisfies [P]. *)
Fixpoint every {A} (P : forall R, effect R -> Prop) (p : prog A) : Prop :=
  match p with
  | Ret _ => True
  | Call e k => P _ e /\ forall r, plausible e r -> every P (k r)
  end.

Lemma every_bind {A B} P (p : prog A) (f : A -> prog B) :
  every P p -> (forall a, every P (f a)) -> every P (bind p f).
Proof. induction p as [a|R e k IH]; cbn; [auto|]. intros [E K] F. split; [done|]. intros r Pr. by apply IH; [apply K|]. Qed.
Lemma every_try {A B} P (p : io A) (f : A -> io B) :
  every P p -> (forall a, every P (f a)) -> every P (try p f).
Proof. intros H F. apply every_bind; [done|]. by intros [a|]. Qed.
Lemma every_perform {R} (P : forall R, effect R -> Prop) (e : effect R) : P R e -> every P (perform e).
Proof. by split. Qed.
Lemma every_object_exists (P : forall R, effect R -> Prop) k : P _ (Send (HeadObject k)) -> every P (object_exists k).
Proof. intros H. apply every_bind; [by apply every_perform|done]. Qed.
Lemma every_list_pages (P : forall R, effect R -> Prop) fuel prefix token keys :
  (forall t, P _ (Send (ListObjectsV2 prefix t))) -> every P (list_pages fuel prefix token keys).
Proof.
  intros H. revert token keys. induction fuel as [|fuel IH]; intros token keys; [done|]. cbn [list_pages].
  apply every_try; [by apply every_perform|]. intros p. case_bool_decide; [apply IH|done].
Qed.

(** The requests that can change or remove the object of a key *)
Definition writes (k : string) {R} (e : effect R) : Prop :=
  match e with
  | Send c =>
      match c with
      | PutObject k' _ | DeleteObject k' | CopyObject _ k' | CompleteMultipartUpload k' _ _ => k' = k
      | _ => False
      end
  | _ => False
  end.
Definition deletes (k : string) {R} (e : effect R) : Prop :=
  match e with
  | Send c => match c with DeleteObject k' => k' = k | _ => False end
  | _ => False
  end.

(** Opens the conjunctions and existentials of a request's effect. *)
Ltac did_inv :=
  repeat match goal with
  | H : _ /\ _ |- _ => destruct H
  | H : exists _, _ |- _ => destruct H
  end; subst.

Lemma did_keeps l nm {R} (c : request R) r v v' k :
  did l nm c r v v' -> ~ writes k (Send c) -> v'.(objects) !! k = v.(objects) !! k.
Proof. destruct c; cbn; intros; did_inv; cbn; rewrite ?lookup_insert_ne, ?lookup_delete_ne by done; done. Qed.
Lemma did_keeps_some l nm {R} (c : request R) r v v' k :
  did l nm c r v v' -> ~ deletes k (Send c) -> is_Some (v.(objects) !! k) -> is_Some (v'.(objects) !! k).
Proof.
  destruct c; cbn; intros; did_inv; cbn; rewrite ?lookup_insert, ?lookup_delete_ne by done; try done;
    by case_decide.
Qed.

Section Calls.
Context {C : Cloud} {CL : CloudLaws C}.

Lemma effect_keeps {R} (e : effect R) s k : ~ writes k e ->
  (seen (do_effect e s).2).(objects) !! k = (seen s).(objects) !! k.
Proof.
  destruct e as [R c| | | | | |]; cbn; intros W; unfold on_cloud; try done.
  - destruct (send c (cloud s)) as [[r|] w] eqn:E; cbn.
    + apply send_answered in E. by eapply did_keeps.
    + apply send_failed in E as [E|(r & E)]; unfold seen; cbn; [by rewrite E|by eapply did_keeps].
  - pose proof (new_v4_uuid s.(cloud)) as [_ L]. destruct (new_v4 _). unfold seen. cbn in *. by rewrite L.
  - pose proof (utc_now_look s.(cloud)) as L. destruct (utc_now _). unfold seen. cbn in *. by rewrite L.
Qed.
Lemma effect_keeps_some {R} (e : effect R) s k : ~ deletes k e ->
  is_Some ((seen s).(objects) !! k) -> is_Some ((seen (do_effect e s).2).(objects) !! k).
Proof.
  intros W S. destruct e as [R c| | | | | |]; try (by rewrite effect_keeps).
  cbn in *. unfold on_cloud. destruct (send c (cloud s)) as [[r|] w] eqn:E; cbn.
  - apply send_answered in E. by eapply did_keeps_some.
  - apply send_failed in E as [E|(r & E)]; unfold seen; cbn; [by rewrite E|by eapply did_keeps_some].
Qed.

Lemma effect_plausible {R} (e : effect R) s : plausible e (do_effect e s).1.
Proof.
  destruct e; cbn; try done. unfold on_cloud. pose proof (new_v4_uuid s.(cloud)) as [U _]. by destruct (new_v4 _).
Qed.
Lemma exec_keeps {A} (p : prog A) s k :
  every (fun R e => ~ writes k e) p -> (seen (exec p s).2).(objects) !! k = (seen s).(objects) !! k.
Proof.
  revert s. induction p as [a|R e c IH]; intros s E; [done|]. destruct E as [W E]. cbn [exec].
  pose proof (effect_keeps e s k W) as K. pose proof (effect_plausible e s) as Pl.
  destruct (do_effect e s) as [r s']. cbn in K, Pl. rewrite <- K. by apply IH, E.
Qed.
End Calls.

(** ** What a handler guarantees

    [wp up p Q v]: from a bucket that holds [v], whatever the service answers, [p] ends
    with [Q]; [up] tells whether the service may fail. *)
Section Guarantees.
Context (listing : view -> string -> option string -> list string) (named : string -> option string).

Definition answers (is_up : bool) {R} (c : request R) (v : view) (r : option R) (v' : view) : Prop :=
  match r with
  | Some r => did listing named c r v v'
  | None => if is_up then ~ admissible named c v /\ v' = v else v' = v \/ exists r, did listing named c r v v'
  end.

Definition outcome (is_up : bool) {R} (e : effect R) (v : view) : R -> view -> Prop :=
  match e in effect R return R -> view -> Prop with
  | Send c => answers is_up c v
  | NewUuid => fun u v' => is_uuid u /\ v' = v
  | _ => fun _ v' => v' = v
  end.

Fixpoint wp {A} (is_up : bool) (p : prog A) (Q : A -> view -> Prop) (v : view) : Prop :=
  match p with
  | Ret a => Q a v
  | Call e k => forall r v', outcome is_up e v r v' -> wp is_up (k r) Q v'
  end.

Lemma wp_mono {A} b (p : prog A) (Q Q' : A -> view -> Prop) v :
  wp b p Q v -> (forall a v', Q a v' -> Q' a v') -> wp b p Q' v.
Proof. revert v. induction p as [a|R e k IH]; intros v W M; [by apply M|]. intros r v' O. eapply IH; [by apply W|done]. Qed.
Lemma wp_bind {A B} b (p : prog A) (f : A -> prog B) Q v :
  wp b p (fun a v' => wp b (f a) Q v') v -> wp b (bind p f) Q v.
Proof. revert v. induction p as [a|R e k IH]; intros v W; [done|]. intros r v' O. by apply IH, W. Qed.
Lemma wp_try {A B} b (p : io A) (f : A -> io B) Q v :
  wp b p (fun r v' => match r with Some a => wp b (f a) Q v' | None => Q None v' end) v -> wp b (try p f) Q v.
Proof. intros W. apply wp_bind. eapply wp_mono; [exact W|]. by intros [a|]. Qed.
Lemma wp_send {R} b (c : request R) Q v :
  (forall r v', answers b c v r v' -> Q r v') -> wp b (perform (Send c)) Q v.
Proof. done. Qed.
Lemma wp_and {A} b (p : prog A) (Q Q' : A -> view -> Prop) v :
  wp b p Q v -> wp b p Q' v -> wp b p (fun a v' => Q a v' /\ Q' a v') v.
Proof. revert v. induction p as [a|R e k IH]; intros v W W'; [done|]. intros r v' O. apply IH; auto. Qed.
End Guarantees.

Section Sound.
Context {C : Cloud} {CL : CloudLaws C}.

Lemma effect_outcome {R} (e : effect R) s :
  outcome listing source_named false e (seen s) (do_effect e s).1 (seen (do_effect e s).2).
Proof.
  destruct e as [R c| | | | | |]; cbn; unfold on_cloud; try done.
  - destruct (send c (cloud s)) as [[r|] w] eqn:E; cbn; [by apply send_answered|by apply send_failed].
  - pose proof (new_v4_uuid s.(cloud)) as [U L]. by destruct (new_v4 _).
  - pose proof (utc_now_look s.(cloud)) as L. by destruct (utc_now _).
Qed.
Lemma exec_wp {A} (p : prog A) Q s : wp listing source_named false p Q (seen s) -> Q (exec p s).1 (seen (exec p s).2).
Proof.
  revert s. induction p as [a|R e k IH]; intros s W; [done|]. cbn [exec].
  pose proof (effect_outcome e s) as O. apply W in O. destruct (do_effect e s) as [r s']. by apply IH.
Qed.

Context {U : CloudUp C} {UL : CloudUpLaws C U}.
Lemma effect_outcome_up {R} (e : effect R) s : up s.(cloud) ->
  outcome listing source_named true e (seen s) (do_effect e s).1 (seen (do_effect e s).2) /\ up (do_effect e s).2.(cloud).
Proof.
  intros Up. pose proof (effect_outcome e s) as O.
  destruct e as [R c| | | | | |]; cbn in *; unfold on_cloud in *; try done.
  - pose proof (up_send c _ Up) as Up'. destruct (send c (cloud s)) as [[r|] w] eqn:E; cbn in *; [done|].
    split; [|done]. by apply up_refused.
  - pose proof (up_new_v4 _ Up) as Up'. by destruct (new_v4 _).
  - pose proof (up_utc_now _ Up) as Up'. by destruct (utc_now _).
Qed.
Lemma exec_wp_up {A} (p : prog A) Q s : up s.(cloud) -> wp listing source_named true p Q (seen s) ->
  Q (exec p s).1 (seen (exec p s).2) /\ up (exec p s).2.(cloud).
Proof.
  revert s. induction p as [a|R e k IH]; intros s Up W; [done|]. cbn [exec].
  destruct (effect_outcome_up e s Up) as [O Up']. apply W in O. destruct (do_effect e s) as [r s']. by apply IH.
Qed.
End Sound.

(** ** A store in memory

    The service with the documented behaviour and a schedule of failures: a request whose
    turn in [failures] is [true] fails without an effect. A page of a listing has up to
    two keys, and its token is the last of them. *)
Module Memory.

Record t : Type := Memory { contains : view; failures : list bool }.

(** Longer than every pending identifier *)
Definition new_id (m : gmap string upload) : string := foldr String.append "u" (map fst (map_to_list m)).

(** The part of a listing after its token *)
Fixpoint after (token : string) (keys : list string) : list string :=
  match keys with
  | [] => []
  | k :: keys => if String.eqb k token then keys else after token keys
  end.
Definition keys_of (v : view) (prefix : string) : list string :=
  filter (fun k => starts_with k prefix = true) (map fst (map_to_list v.(objects))).
Definition listed (v : view) (prefix : string) (token : option string) : list string :=
  match token with None => keys_of v prefix | Some t => after t (keys_of v prefix) end.

(** Percent-decoding; what is no escape stands for itself. *)
Definition hex_value (c : Ascii.ascii) : option N :=
  (fun e => let i := N.of_nat (fst e) in if (i <? 16)%N then i else (i - 6)%N) <$> list_find (fun d => d = c) (units "0123456789ABCDEFabcdef").
Fixpoint percent_decode (l : list Ascii.ascii) : list Ascii.ascii :=
  match l with
  | [] => []
  | c :: l =>
      if Ascii.eqb c "%"%char then
        match l with
        | a :: b :: l' =>
            match hex_value a, hex_value b with
            | Some x, Some y => Ascii.ascii_of_N (16 * x + y) :: percent_decode l'
            | _, _ => c :: percent_decode l
            end
        | _ => c :: percent_decode l
        end
      else c :: percent_decode l
  end.
Definition source_key (s : string) : option string := Some (of_units (percent_decode (units s))).

Lemma source_key_plain s : url_plain s -> source_key s = Some s.
Proof.
  intros P. unfold source_key. f_equal. rewrite <- (of_units_units s) at 2. f_equal. unfold url_plain in P.
  induction P as [|c l I P IH]; [done|]. cbn [percent_decode].
  destruct (Ascii.eqb_spec c "%"%char) as [->|N]; [|by rewrite IH]. apply (bool_decide_pack _) in I. by vm_compute in I.
Qed.

Definition answer {R} (c : request R) (v : view) : option (R * view) :=
  match c in request R return option (R * view) with
  | HeadObject k => if v.(objects) !! k is Some _ then Some (tt, v) else None
  | GetObject k => (fun d => (d, v)) <$> v.(objects) !! k
  | PutObject k d => Some (tt, set_object k d v)
  | DeleteObject k => Some (tt, drop_object k v)
  | CopyObject src dst =>
      match source_key src ≫= fun k => v.(objects) !! k with
      | Some d => if decide (len d <= max_copy_size) then Some (tt, set_object dst d v) else None
      | None => None
      end
  | CreateMultipartUpload k => let id := new_id v.(uploads) in Some (Some id, set_upload id (k, ∅) v)
  | UploadPart k id n d =>
      match v.(uploads) !! id with
      | Some (k', ps) =>
          if decide (k' = k /\ 1 <= n <= max_parts)
          then Some (Some "etag", set_upload id (k, <[n := (Some "etag", d)]> ps) v) else None
      | None => None
      end
  | CompleteMultipartUpload k id parts =>
      match v.(uploads) !! id with
      | Some (k', ps) =>
          match mapM (part_data ps) parts with
          | Some ds =>
              if decide (k' = k /\ ds <> [] /\ Z.of_nat (length ds) <= max_parts /\
                         Forall (fun d => min_part_size <= len d) (take (pred (length ds)) ds) /\
                         increasing (map fst parts) = true)
              then Some (tt, set_object k (concat ds) (drop_upload id v)) else None
          | None => None
          end
      | None => None
      end
  | AbortMultipartUpload k id => Some (tt, drop_upload id v)
  | ListObjectsV2 prefix token =>
      let keys := listed v prefix token in
      let ks := take 2 keys in
      let more := bool_decide (2 < length keys)%nat in
      Some (Page (map Some ks) (Some more) (if more then last ks else None), v)
  end.

Definition serve {R} (c : request R) (w : t) : option R * t :=
  match w.(failures) with
  | true :: fs => (None, Memory w.(contains) fs)
  | fs =>
      match answer c w.(contains) with
      | Some (r, v) => (Some r, Memory v (tail fs))
      | None => (None, Memory w.(contains) (tail fs))
      end
  end.

#[export] Instance cloud : Cloud := {|
  world := t; look := contains; send := @serve;
  new_v4 := fun w => ("00000000-0000-4000-8000-000000000000", w);
  utc_now := fun w => ("2026-01-01T00:00:00+00:00", w);
  listing := listed; source_named := source_key
|}.
#[export] Instance cloud_up : CloudUp cloud := {| up := fun w => failures w = [] |}.

Lemma new_id_longer l :
  (0 < length (units (foldr String.append "u" l)))%nat /\
  forall k, k ∈ l -> (length (units k) < length (units (foldr String.append "u" l)))%nat.
Proof.
  induction l as [|x l [P IH]]; cbn [foldr].
  { split; [cbn; lia|]. intros k Hk. by apply elem_of_nil in Hk. }
  change (String.append x ?y) with (x +:+ y). rewrite units_app, length_app. split; [lia|].
  intros k [->|Hk]%elem_of_cons; [lia|]. specialize (IH k Hk). lia.
Qed.
Lemma new_id_fresh (m : gmap string upload) : m !! new_id m = None.
Proof.
  destruct (m !! new_id m) as [u|] eqn:E; [|done]. exfalso.
  destruct (new_id_longer (map fst (map_to_list m))) as [_ L].
  assert (In : new_id m ∈ map fst (map_to_list m)).
  { apply list_elem_of_fmap. exists (new_id m, u). split; [done|]. by apply elem_of_map_to_list. }
  specialize (L _ In). unfold new_id in L. lia.
Qed.

Lemma keys_nodup v prefix : NoDup (keys_of v prefix).
Proof. apply NoDup_filter, NoDup_fst_map_to_list. Qed.
Lemma after_spec t l : NoDup l -> t ∈ l -> exists l1, l = l1 ++ t :: after t l.
Proof.
  induction l as [|k l IH]; intros N T; [by apply elem_of_nil in T|]. cbn [after].
  destruct (String.eqb_spec k t) as [->|D]; [by exists []|].
  apply NoDup_cons in N as [_ N]. apply elem_of_cons in T as [->|T]; [done|].
  destruct (IH N T) as (l1 & E). exists (k :: l1). cbn. by rewrite <- E.
Qed.
Lemma after_middle t l1 l2 : t ∉ l1 -> after t (l1 ++ t :: l2) = l2.
Proof.
  induction l1 as [|k l1 IH]; intros N; cbn; [by rewrite String.eqb_refl|].
  apply not_elem_of_cons in N as [D N]. destruct (String.eqb_spec k t); [by subst|]. by apply IH.
Qed.

Lemma listed_page v prefix token : (2 < length (listed v prefix token))%nat ->
  exists t, last (take 2 (listed v prefix token)) = Some t /\
    listed v prefix token = take 2 (listed v prefix token) ++ listed v prefix (Some t).
Proof.
  intros L. assert (S : exists l1, keys_of v prefix = l1 ++ listed v prefix token).
  { destruct token as [t|]; [|by exists []]. cbn [listed] in *.
    destruct (decide (t ∈ keys_of v prefix)) as [T|T].
    - destruct (after_spec t _ (keys_nodup v prefix) T) as (l1 & E). exists (l1 ++ [t]). by rewrite <- app_assoc.
    - exfalso. assert (E : forall l, t ∉ l -> after t l = []).
      { induction l as [|k l IH]; intros N; [done|]. apply not_elem_of_cons in N as [D N]. cbn.
        destruct (String.eqb_spec k t); [by subst|by apply IH]. }
      rewrite E in L by done. cbn in L. lia. }
  destruct S as (l1 & S). destruct (listed v prefix token) as [|a [|b l]] eqn:E; cbn in L; try lia.
  exists b. cbn [take last app]. split; [done|]. do 2 f_equal. cbn [listed]. rewrite S.
  change (l1 ++ a :: b :: l) with (l1 ++ [a] ++ b :: l). rewrite app_assoc. symmetry. apply after_middle.
  pose proof (keys_nodup v prefix) as N. rewrite S in N.
  change (l1 ++ a :: b :: l) with (l1 ++ [a] ++ b :: l) in N. rewrite app_assoc in N.
  apply NoDup_app in N as (_ & N & _). intros I. apply (N b I). apply list_elem_of_here.
Qed.

Lemma omap_id_map {A} (l : list A) : omap id (map Some l) = l.
Proof. induction l as [|x l IH]; [done|]. cbn. f_equal. exact IH. Qed.

Lemma answer_did {R} (c : request R) v r v' : answer c v = Some (r, v') -> did listed source_key c r v v'.
Proof.
  destruct c; cbn; intros E; repeat break_match_in E; simplify_eq; cbn; try done.
  - apply fmap_Some in E as (d & O & [= -> ->]). done.
  - eauto.
  - eexists. by split_and!; [|apply new_id_fresh|].
  - destruct_and!. subst. eauto.
  - destruct_and!. subst. do 2 eexists. split; [done|]. split; [|done]. unfold assembled.
    destruct (mapM _ _); [|done]. by simplify_eq/=.
  - case_bool_decide as B; [|done]. split; [done|]. rewrite bool_decide_true by done.
    destruct (listed_page v' key_prefix token B) as (t & -> & L). rewrite omap_id_map.
    split_and!; [|done|exact L]. destruct (listed v' key_prefix token) as [|? [|]]; cbn in B; [lia|done..].
  - case_bool_decide as B; [done|]. split; [done|]. rewrite bool_decide_false by done.
    rewrite omap_id_map. rewrite take_ge; [done|]. by apply Nat.nlt_ge.
Qed.

#[export] Instance cloud_laws : CloudLaws cloud.
Proof.
  split.
  - intros R c w r w' E. cbn in *. unfold serve in E.
    destruct (failures w) as [|[] fs]; try done; (destruct (answer c (contains w)) as [[r0 v]|] eqn:A; [|done]);
      simplify_eq/=; by apply answer_did.
  - intros R c w w' E. left. cbn in *. unfold serve in E.
    destruct (failures w) as [|[] fs]; try (by simplify_eq/=);
      (destruct (answer c (contains w)) as [[r0 v]|]; by simplify_eq/=).
  - intros w. split; [|done]. split; [done|]. apply (bool_decide_unpack _). by vm_compute.
  - done.
  - intros v prefix. cbn. split; [apply keys_nodup|]. intros k. unfold keys_of.
    rewrite list_elem_of_filter, list_elem_of_fmap. split.
    + intros (P & [k' d] & -> & I). split; [|done]. exists d. by apply elem_of_map_to_list.
    + intros [[d O] P]. split; [done|]. exists (k, d). split; [done|]. by apply elem_of_map_to_list.
  - apply source_key_plain.
Qed.

Lemma answer_admissible {R} (c : request R) v : admissible source_key c v <-> is_Some (answer c v).
Proof.
  destruct c; cbn; try (split; [by eexists|done]).
  - destruct (_ !! _); split; intros [? ?]; by eauto.
  - symmetry. apply fmap_is_Some.
  - set (k := of_units _). destruct (objects v !! k) as [d|] eqn:E.
    2: { split; [|by intros []]. intros (k' & d & Ek & E' & _). assert (k' = k) as -> by (by injection Ek). congruence. }
    case_decide as L; split; [by eexists|intros _; by exists k, d| |by intros []].
    intros (k' & d' & Ek & E' & L'). assert (k' = k) as -> by (by injection Ek). rewrite E in E'. by injection E' as <-.
  - destruct (_ !! _) as [[k' ps]|]; [|split; [by intros (_ & ? & ?)|by intros []]].
    case_decide as D; split; [by eexists| |intros (? & ps' & ?); simplify_eq; by destruct D|by intros []].
    destruct D as [-> D]. eauto.
  - destruct (_ !! _) as [[k' ps]|]; [|split; [by intros (? & ? & ? & _)|by intros []]].
    destruct (mapM _ _) as [ds|] eqn:M.
    2: { split; [|by intros []]. intros (? & ? & ? & M' & _). by simplify_eq. }
    unfold parts_ok. case_decide as D; split; [by eexists| | |by intros []].
    + destruct D as (-> & ? & ? & ? & ?). intros _. do 2 eexists. split; [done|]. by rewrite M.
    + intros (? & ds' & ? & M' & (? & ? & ?) & ?). simplify_eq. by destruct D.
Qed.

#[export] Instance cloud_up_laws : CloudUpLaws cloud cloud_up.
Proof.
  split; try done.
  - intros R c w w' U E. cbn in *. unfold serve in E. rewrite U in E.
    destruct (answer c (contains w)) as [[r v]|] eqn:A; [done|]. simplify_eq/=. split; [|done].
    rewrite answer_admissible, A. by intros [].
  - intros R c w U. cbn in *. unfold serve. rewrite U. by destruct (answer c (contains w)) as [[r v]|].
Qed.
End Memory.
