(* ===== verification/ShardWriter.v ===== *)
(** * Writing a shard: [rust-dataplane/src/checkpoint/writer.rs]

    The multipart upload of a stream of chunks: the batching into parts of five MiB, the
    checksum, the promotion of the staging object to its content-addressed key. The
    channel between the receiver and the writer is the list of what is sent through it;
    the digest is the one of the [sha2] crate, an interface with the laws relied on. *)

From Stdlib Require Import Ascii.
From S2P Require Import Prelude JsString ObjectStorage.

(** [Sha256] and [hex::encode(finalize())] *)
Class Sha256 : Type := {
  hasher : Type;
  sha_new : hasher;
  sha_update : hasher -> bytes -> hasher;
  sha_hex : hasher -> string
}.
Definition hex_char (c : Ascii.ascii) : Prop := c ∈ units "0123456789abcdef".
#[export] Instance hex_char_dec c : Decision (hex_char c).
Proof. unfold hex_char. apply _. Defined.
(** A digest of 32 bytes that does not depend on how the data is cut *)
Class Sha256Laws (S : Sha256) : Prop := {
  sha_update_app h a b : sha_update h (a ++ b) = sha_update (sha_update h a) b;
  sha_update_nil h : sha_update h [] = h;
  sha_hex_digits h : length (units (sha_hex h)) = 64%nat /\ Forall hex_char (units (sha_hex h))
}.

Definition sha256_hex `{Sha256} (data : bytes) : string := sha_hex (sha_update sha_new data).

Definition MULTIPART_PART_SIZE : Z := 5 * 1024 * 1024.

(** [WriteResult] *)
Record write_result : Type := WriteResult {
  w_shard_id : string; w_total_bytes : Z; w_sha256_checksum : string; w_storage_key : string
}.

Definition content_addressed_key (run_id checkpoint_id shard_id sha256 : string) : string :=
  run_id +:+ "/" +:+ checkpoint_id +:+ "/sha256-" +:+ str_slice 0 (Some 16) sha256 +:+ "-" +:+ shard_id +:+ ".bin".
Definition staging_key (run_id checkpoint_id shard_id uuid : string) : string :=
  run_id +:+ "/" +:+ checkpoint_id +:+ "/.multipart-" +:+ shard_id +:+ "-" +:+ uuid.
Definition checksum_key (run_id checkpoint_id shard_id : string) : string :=
  run_id +:+ "/" +:+ checkpoint_id +:+ "/" +:+ shard_id +:+ ".sha256".
Definition bytes_of (s : string) : bytes := map Ascii.byte_of_ascii (units s).

(** ** Parts *)

(** The loop of [take_part]: chunks and the part so far, [None] for an index out of range.
    Each turn but the last uses up a chunk, so the number of chunks and one is enough
    fuel. *)
Fixpoint take_loop (fuel : nat) (chunks : list bytes) (part : bytes) (part_size : Z) : option (bytes * list bytes) :=
  if len part <? part_size then
    match fuel, chunks with
    | S fuel, c :: cs =>
        let remaining := part_size - len part in
        let n := Z.to_nat (Z.min remaining (len c)) in
        let fragment := take n c in
        let c := drop n c in
        take_loop fuel (if bool_decide (c = []) then cs else c :: cs) (part ++ fragment) part_size
    | _, _ => None
    end
  else Some (part, chunks).
(** [take_part]: the part and what is left of the chunks and of their size *)
Definition take_part (chunks : list bytes) (buffered_bytes part_size : Z) : option (bytes * list bytes * Z) :=
  match chunks with
  | [c] =>
      if len c =? part_size then Some (c, [], buffered_bytes - part_size)
      else (fun r => (r, buffered_bytes - part_size)) <$> take_loop 2 chunks [] part_size
  | _ => (fun r => (r, buffered_bytes - part_size)) <$> take_loop (S (length chunks)) chunks [] part_size
  end.

Lemma len_app (a b : bytes) : len (a ++ b) = len a + len b.
Proof. unfold len. rewrite length_app. lia. Qed.
Lemma len_nonneg d : 0 <= len d.
Proof. unfold len. lia. Qed.

Lemma take_loop_spec fuel chunks part part_size :
  (length chunks < fuel)%nat -> len part <= part_size -> part_size <= len part + len (concat chunks) ->
  exists rest, take_loop fuel chunks part part_size =
      Some (part ++ take (Z.to_nat (part_size - len part)) (concat chunks), rest) /\
    concat rest = drop (Z.to_nat (part_size - len part)) (concat chunks).
Proof.
  revert chunks part. induction fuel as [|fuel IH]; intros chunks part F L T; [lia|]. cbn [take_loop].
  destruct (Z.ltb_spec (len part) part_size) as [Lt|Ge].
  2: { replace (part_size - len part) with 0 by lia. cbn. rewrite take_0, drop_0, app_nil_r. eauto. }
  destruct chunks as [|c cs]; [cbn in T; unfold len at 2 in T; cbn in T; lia|].
  cbn [concat length] in *. rewrite len_app in T. set (n := Z.min (part_size - len part) (len c)).
  pose proof (len_nonneg c). assert (Ln : len (take (Z.to_nat n) c) = n) by (unfold len in *; rewrite length_take; lia).
  case_bool_decide as E.
  - assert (n = len c). { apply (f_equal length) in E. rewrite length_drop in E. cbn in E. unfold len in *. lia. }
    assert (Et : take (Z.to_nat n) c = c) by (apply take_ge; unfold len in *; lia).
    destruct (IH cs (part ++ c)) as (rest & R & D); rewrite ?len_app; [lia..|].
    rewrite Et. exists rest. rewrite len_app in R, D. rewrite R, D.
    assert (Eq : (Z.to_nat (part_size - len part) = length c + Z.to_nat (part_size - (len part + len c)))%nat)
      by (unfold len in *; lia).
    rewrite Eq, take_app_add, drop_app_add, <- app_assoc. done.
  - assert (n = part_size - len part).
    { destruct (Z.le_gt_cases (len c) (part_size - len part)); [|lia]. exfalso. apply E, drop_ge. unfold len in *. lia. }
    exists (drop (Z.to_nat n) c :: cs).
    destruct fuel as [|fuel]; cbn [take_loop]; rewrite len_app, Ln;
      (replace (len part + n <? part_size) with false by (symmetry; apply Z.ltb_ge; lia)).
    all: cbn [concat]; replace (part_size - len part) with n by lia.
    all: rewrite take_app_le, drop_app_le by (unfold len in *; lia); done.
Qed.

(** Taking a part cuts the buffered bytes at its size. *)
Lemma take_part_spec chunks buffered part_size :
  0 < part_size <= len (concat chunks) ->
  exists part rest, take_part chunks buffered part_size = Some (part, rest, buffered - part_size) /\
    part = take (Z.to_nat part_size) (concat chunks) /\ concat rest = drop (Z.to_nat part_size) (concat chunks).
Proof.
  intros H.
  assert (G : exists part rest, (fun r => (r, buffered - part_size)) <$> take_loop (S (length chunks)) chunks [] part_size
                = Some (part, rest, buffered - part_size) /\
              part = take (Z.to_nat part_size) (concat chunks) /\ concat rest = drop (Z.to_nat part_size) (concat chunks)).
  { destruct (take_loop_spec (S (length chunks)) chunks [] part_size) as (rest & E & D); [lia|change (len []) with 0; lia..|].
    change (len []) with 0 in *.
    rewrite E. do 2 eexists. split; [reflexivity|]. by rewrite Z.sub_0_r in *. }
  unfold take_part. destruct chunks as [|c [|c' cs]]; [exact G| |exact G].
  destruct (Z.eqb_spec (len c) part_size) as [E|_]; [|exact G].
  exists c, []. split; [done|]. cbn [concat]. rewrite app_nil_r.
  rewrite take_ge, drop_ge by (unfold len in *; lia). done.
Qed.

(** ** The upload *)

Section Writer.
Context `{Sha256}.

(** The variables of the upload's loop *)
Record progress : Type := Progress {
  buffered_chunks : list bytes; buffered_bytes : Z; completed_parts : list completed_part; part_number : Z
}.

(** [while buffered_bytes >= MULTIPART_PART_SIZE]; each turn takes a full part. *)
Fixpoint upload_parts (fuel : nat) (staging upload_id : string) (b : progress) : io progress :=
  if MULTIPART_PART_SIZE <=? b.(buffered_bytes) then
    match fuel, take_part b.(buffered_chunks) b.(buffered_bytes) MULTIPART_PART_SIZE with
    | S fuel, Some (part, chunks, n) =>
        let? p := upload_part staging upload_id b.(part_number) part in
        upload_parts fuel staging upload_id (Progress chunks n (b.(completed_parts) ++ [p]) (b.(part_number) + 1))
    | _, _ => Ret None
    end
  else Ret (Some b).
Definition parts_fuel (b : progress) : nat := Z.to_nat (b.(buffered_bytes) / MULTIPART_PART_SIZE).

(** A turn of the checksum worker *)
Definition checksum_step (acc : hasher * Z) (chunk : bytes) : hasher * Z := (sha_update acc.1 chunk, acc.2 + len chunk).

(** [while let Some(chunk) = data.recv()] *)
Fixpoint receive (staging upload_id : string) (data : list (bytes + string)) (b : progress) (sum : hasher * Z) :
    io (progress * (hasher * Z)) :=
  match data with
  | [] => Ret (Some (b, sum))
  | inr _ :: _ => Ret None
  | inl chunk :: data =>
      let b := Progress (b.(buffered_chunks) ++ [chunk]) (b.(buffered_bytes) + len chunk)
                 b.(completed_parts) b.(part_number) in
      let? b := upload_parts (parts_fuel b) staging upload_id b in
      receive staging upload_id data b (checksum_step sum chunk)
  end.

(** The last part, and the completion *)
Definition final_part (staging upload_id : string) (b : progress) : io progress :=
  if 0 <? b.(buffered_bytes) then
    match take_part b.(buffered_chunks) b.(buffered_bytes) b.(buffered_bytes) with
    | Some (part, chunks, n) =>
        let? p := upload_part staging upload_id b.(part_number) part in
        Ret (Some (Progress chunks n (b.(completed_parts) ++ [p]) b.(part_number)))
    | None => Ret None
    end
  else Ret (Some b).
Definition finish_upload (staging upload_id : string) (b : progress) : io unit :=
  let? b := final_part staging upload_id b in
  if bool_decide (b.(completed_parts) = []) then Ret None
  else complete_multipart_upload staging upload_id b.(completed_parts).

(** [upload_result], with the result of the checksum worker *)
Definition upload_result (staging upload_id : string) (data : list (bytes + string)) : io (hasher * Z) :=
  let? r := receive staging upload_id data (Progress [] 0 [] 1) (sha_new, 0) in
  let? _ := finish_upload staging upload_id r.1 in
  Ret (Some r.2).

(** After the upload: the promotion to the final key, and the sidecar *)
Definition promote (run_id checkpoint_id shard_id staging checksum : string) (total_bytes : Z) : io write_result :=
  let storage_key := content_addressed_key run_id checkpoint_id shard_id checksum in
  let? there := object_exists storage_key in
  let? _ := (if there : bool then Ret (Some tt) else copy_object staging storage_key) in
  let? _ := delete_object staging in
  let? _ := put_object (checksum_key run_id checkpoint_id shard_id) (bytes_of checksum) in
  Ret (Some (WriteResult shard_id total_bytes checksum storage_key)).

Definition write_shard_stream (run_id checkpoint_id shard_id : string) (data : list (bytes + string)) : io write_result :=
  let! uuid := perform NewUuid in
  let staging := staging_key run_id checkpoint_id shard_id uuid in
  let? upload_id := create_multipart_upload staging in
  let! r := upload_result staging upload_id data in
  match r with
  | None => let! _ := abort_multipart_upload staging upload_id in Ret None
  | Some (h, total_bytes) => promote run_id checkpoint_id shard_id staging (sha_hex h) total_bytes
  end.
End Writer.

(** What was sent, unless an error was sent *)
Definition received (data : list (bytes + string)) : option bytes :=
  @concat Byte.byte <$> mapM (fun c => match c with inl b => Some b | inr _ => None end) data.
Lemma received_cons c data : received (inl c :: data) = app c <$> received data.
Proof. unfold received. cbn. by destruct (mapM _ data). Qed.

(** ** The upload assembles what was received *)

Section Upload.
Context `{SL : Sha256Laws}.
Context (listing : view -> string -> option string -> list string) (named : string -> option string).
Context (staging id : string) (o : gmap string bytes).

(** The upload is pending with the data [got] in full parts and in the buffer. *)
Record uploading (b : progress) (got : bytes) (v : view) : Prop := {
  ug_objects : v.(objects) = o;
  ug_parts : exists ps ds, v.(uploads) !! id = Some (staging, ps) /\
    mapM (part_data ps) b.(completed_parts) = Some ds /\ Forall (fun d => len d = MULTIPART_PART_SIZE) ds /\
    map fst b.(completed_parts) = map Z.of_nat (seq 1 (length ds)) /\ b.(part_number) = Z.of_nat (length ds) + 1 /\
    got = concat ds ++ concat b.(buffered_chunks);
  ug_buffered : b.(buffered_bytes) = len (concat b.(buffered_chunks))
}.

(** Too large for the parts that the service allows *)
Definition too_many (got : bytes) : Prop := max_parts * MULTIPART_PART_SIZE <= len got.

Lemma part_data_insert ps n x (l : list completed_part) :
  n ∉ map fst l -> mapM (part_data (<[n := x]> ps)) l = mapM (part_data ps) l.
Proof.
  induction l as [|[m t] l IH]; intros N; [done|]. cbn in N. apply not_elem_of_cons in N as [D N]. cbn [mapM].
  assert (part_data (<[n := x]> ps) (m, t) = part_data ps (m, t)) as ->.
  { unfold part_data. cbn [fst]. by rewrite lookup_insert_ne. }
  by rewrite IH.
Qed.
Lemma part_data_new ps n t d : part_data (<[n := (t, d)]> ps) (n, t) = Some d.
Proof. unfold part_data. cbn [fst snd]. by rewrite lookup_insert_eq, decide_True. Qed.
Lemma mapM_snoc {A B} (f : A -> option B) l x :
  mapM f (l ++ [x]) = ds ← mapM f l; d ← f x; Some (ds ++ [d]).
Proof. induction l as [|y l IH]; cbn; [by destruct (f x)|]. rewrite IH. destruct (f y), (mapM f l), (f x); done. Qed.
Lemma concat_full ds : Forall (fun d => len d = MULTIPART_PART_SIZE) ds ->
  len (concat ds) = Z.of_nat (length ds) * MULTIPART_PART_SIZE.
Proof. induction 1 as [|d ds L F IH]; [done|]. cbn [concat length]. rewrite len_app. lia. Qed.

(** One part more, of whatever size *)
Lemma upload_part_wp is_up b got part chunks v :
  uploading b got v -> concat b.(buffered_chunks) = part ++ concat chunks -> part <> [] ->
  wp listing named is_up (upload_part staging id b.(part_number) part)
    (fun r v' => v'.(objects) = o /\
      match r with
      | Some p => exists ps ds, v'.(uploads) !! id = Some (staging, ps) /\
          mapM (part_data ps) (b.(completed_parts) ++ [p]) = Some (ds ++ [part]) /\
          Forall (fun d => len d = MULTIPART_PART_SIZE) ds /\
          map fst (b.(completed_parts) ++ [p]) = map Z.of_nat (seq 1 (S (length ds))) /\
          b.(part_number) = Z.of_nat (length ds) + 1 /\ got = concat ds ++ part ++ concat chunks
      | None => is_up = true -> too_many got
      end) v.
Proof.
  intros [O (ps & ds & U & M & F & N & P & G) B] E Ne. apply wp_try, wp_send. intros [tag|] v' A; cbn in A.
  - destruct A as (ps' & U' & ->). rewrite U in U'. simplify_eq. split; [done|].
    cbn [set_upload uploads].
    do 2 eexists. rewrite lookup_insert_eq. split; [done|]. split_and!; [|done|..].
    + rewrite mapM_snoc, part_data_insert.
      2: { rewrite N, P. intros (j & Ej & I%elem_of_seq)%list_elem_of_fmap. lia. }
      rewrite M, part_data_new. done.
    + rewrite map_app, N, seq_S, map_app. cbn. do 2 f_equal. lia.
    + done.
    + by rewrite <- E.
  - destruct is_up.
    + destruct A as [A ->]. cbn. split; [done|]. intros _. apply Z.nlt_ge. intros L. apply A. split; [|eauto].
      split; [lia|]. unfold too_many in L. rewrite G, len_app, concat_full in L by done.
      pose proof (len_nonneg (concat b.(buffered_chunks))). unfold max_parts in *. unfold MULTIPART_PART_SIZE in *. lia.
    + split; [|done]. destruct A as [->|(r & ps' & _ & ->)]; done.
Qed.

Lemma upload_parts_wp is_up fuel b got v :
  uploading b got v -> (Z.to_nat (b.(buffered_bytes) / MULTIPART_PART_SIZE) <= fuel)%nat ->
  wp listing named is_up (upload_parts fuel staging id b)
    (fun r v' => match r with
      | Some b' => uploading b' got v' /\ b'.(buffered_bytes) < MULTIPART_PART_SIZE
      | None => v'.(objects) = o /\ (is_up = true -> too_many got)
      end) v.
Proof.
  assert (Pos : 0 < MULTIPART_PART_SIZE) by done.
  revert b v. induction fuel as [|fuel IH]; intros b v I F; cbn [upload_parts];
    (destruct (Z.leb_spec MULTIPART_PART_SIZE b.(buffered_bytes)) as [L|L]; [|by split]).
  { pose proof (Z.div_le_mono MULTIPART_PART_SIZE b.(buffered_bytes) MULTIPART_PART_SIZE Pos L) as D.
    rewrite Z.div_same in D by lia. lia. }
  destruct (take_part_spec b.(buffered_chunks) b.(buffered_bytes) MULTIPART_PART_SIZE) as (part & rest & E & Ep & Er).
  { pose proof (ug_buffered _ _ _ I). lia. }
  rewrite E. pose proof (ug_buffered _ _ _ I) as Bb.
  assert (Lp : len part = MULTIPART_PART_SIZE) by (rewrite Ep; unfold len in *; rewrite length_take; lia).
  apply wp_try. eapply wp_mono; [eapply (upload_part_wp is_up b got part rest); [exact I| |]|].
  - rewrite Ep, Er. symmetry. apply take_drop.
  - intros ->. discriminate Lp.
  - intros [p|] v' [O A]; [|by split]. destruct A as (ps & ds & U & M & Fo & N & P & G).
    apply IH.
    + split; cbn [completed_parts buffered_chunks buffered_bytes part_number]; [done| |].
      * exists ps, (ds ++ [part]). rewrite length_app. cbn [length]. rewrite concat_app. cbn [concat]. rewrite app_nil_r.
        split_and!; [done|done|by apply Forall_app; split; [done|constructor]| |lia|by rewrite <- app_assoc].
        by rewrite N, Nat.add_1_r.
      * rewrite Er, Bb. unfold len in *. rewrite length_drop. lia.
    + cbn [buffered_bytes]. replace (b.(buffered_bytes) - MULTIPART_PART_SIZE)
        with (b.(buffered_bytes) + (-1) * MULTIPART_PART_SIZE) by lia.
      rewrite Z.div_add by lia. lia.
Qed.

Lemma receive_wp is_up data b got sum v :
  uploading b got v -> b.(buffered_bytes) < MULTIPART_PART_SIZE -> sum = (sha_update sha_new got, len got) ->
  wp listing named is_up (receive staging id data b sum)
    (fun r v' => match r with
      | Some (b', sum') => exists body, received data = Some body /\
          sum' = (sha_update sha_new (got ++ body), len (got ++ body)) /\
          uploading b' (got ++ body) v' /\ b'.(buffered_bytes) < MULTIPART_PART_SIZE
      | None => v'.(objects) = o /\
          (is_up = true -> forall body, received data = Some body -> too_many (got ++ body))
      end) v.
Proof.
  revert b got sum v. induction data as [|[c|e] data IH]; intros b got sum v I L S; cbn [receive].
  - exists []. by rewrite app_nil_r.
  - set (b1 := Progress _ _ _ _).
    assert (I1 : uploading b1 (got ++ c) v).
    { destruct I as [O (ps & ds & U & M & F & N & P & G) B]. split; cbn; [done| |].
      - exists ps, ds. split_and!; try done. rewrite G, concat_app. cbn. by rewrite app_nil_r, app_assoc.
      - rewrite concat_app, len_app, B. cbn. by rewrite app_nil_r. }
    apply wp_try. eapply wp_mono; [eapply (upload_parts_wp is_up (parts_fuel b1)); [exact I1|done]|].
    intros [b2|] v'; rewrite received_cons.
    + intros [I2 L2]. eapply wp_mono; [eapply (IH b2 (got ++ c)); [exact I2|done|]|].
      * unfold checksum_step. rewrite S. cbn [fst snd]. by rewrite sha_update_app, len_app.
      * intros [[b' sum']|] v2; cbn.
        -- intros (body & -> & Sm & I' & L'). exists (c ++ body). by rewrite !app_assoc.
        -- intros [O T]. split; [done|]. intros Up body (body' & R & ->)%fmap_Some. rewrite app_assoc. by apply T.
    + cbn. intros [O T]. split; [done|]. intros Up body (body' & R & ->)%fmap_Some. specialize (T Up).
      unfold too_many in *. rewrite app_assoc, len_app. pose proof (len_nonneg body'). lia.
  - split; [apply I|]. intros _ body R. by cbn in R.
Qed.

Lemma full_parts_ok ds d :
  Forall (fun d => len d = MULTIPART_PART_SIZE) ds -> Z.of_nat (length (ds ++ [d])) <= max_parts -> parts_ok (ds ++ [d]).
Proof.
  intros F L. split; [by destruct ds|]. split; [done|]. rewrite length_app, Nat.add_comm. cbn [length pred Nat.add].
  rewrite take_app_length. eapply Forall_impl; [exact F|]. intros x ->. done.
Qed.
Lemma parts_increasing i n : increasing (map Z.of_nat (seq i n)) = true.
Proof.
  revert i. induction n as [|n IH]; intros i; [done|]. cbn [seq map]. destruct n as [|n]; [done|].
  change (map Z.of_nat (seq (S i) (S n))) with (Z.of_nat (S i) :: map Z.of_nat (seq (S (S i)) n)).
  rewrite increasing_cons. apply andb_true_intro. split; [apply Z.ltb_lt; lia|]. exact (IH (S i)).
Qed.

(** The completion: the object of the staging key is what was received. *)
Definition finished (is_up : bool) (got : bytes) (r : option unit) (v' : view) : Prop :=
  match r with
  | Some _ => got <> [] /\ v'.(objects) = <[staging := got]> o
  | None => (forall k, k <> staging -> v'.(objects) !! k = o !! k) /\ (got = [] -> v'.(objects) = o) /\
      (is_up = true -> got <> [] -> too_many got)
  end.

Lemma complete_wp is_up got parts ps ds v :
  v.(objects) = o -> v.(uploads) !! id = Some (staging, ps) -> mapM (part_data ps) parts = Some ds ->
  parts_ok ds \/ too_many got -> increasing (map fst parts) = true -> got = concat ds -> got <> [] ->
  wp listing named is_up (complete_multipart_upload staging id parts) (finished is_up got) v.
Proof.
  intros O U M K Inc G Ne. apply wp_send. intros [[]|] v' A; cbn in A.
  - destruct A as (ps' & d & U' & As & ->). simplify_eq. unfold assembled in As. rewrite M in As. simplify_eq/=.
    split; [done|]. cbn. congruence.
  - assert (forall k, k <> staging -> objects v' !! k = o !! k) as Kp.
    { intros k D. destruct is_up; [by destruct A as [_ ->]; rewrite O|].
      destruct A as [->|(r & ps' & d & _ & _ & ->)]; [by rewrite O|]. cbn. by rewrite lookup_insert_ne, O. }
    split; [exact Kp|]. split; [done|]. intros -> _. destruct K as [K|K]; [|done].
    destruct A as [[] _]. do 2 eexists. split_and!; [exact U|exact M|exact K|exact Inc].
Qed.

Lemma finish_upload_wp is_up b got v :
  uploading b got v -> b.(buffered_bytes) < MULTIPART_PART_SIZE ->
  wp listing named is_up (finish_upload staging id b) (finished is_up got) v.
Proof.
  intros I L. pose proof (ug_buffered _ _ _ I) as Bb. apply wp_try. unfold final_part.
  destruct (Z.ltb_spec 0 b.(buffered_bytes)) as [P|P].
  - destruct (take_part_spec b.(buffered_chunks) b.(buffered_bytes) b.(buffered_bytes)) as (part & rest & E & Ep & Er); [lia|].
    rewrite E.
    assert (E1 : part = concat b.(buffered_chunks)) by (rewrite Ep; apply take_ge; unfold len in *; lia).
    assert (E2 : concat rest = []) by (rewrite Er; apply drop_ge; unfold len in *; lia).
    assert (Ne : part <> []) by (intros ->; rewrite <- E1 in Bb; unfold len in Bb; cbn in Bb; lia).
    apply wp_try. eapply wp_mono; [eapply (upload_part_wp is_up b got part rest); [exact I| |exact Ne]|].
    { by rewrite E1, E2, app_nil_r. }
    intros [p|] v' [O A].
    + destruct A as (ps & ds & U & M & F & N & Pn & G). cbn [wp]. cbn [completed_parts].
      rewrite E2, app_nil_r in G. rewrite bool_decide_false by (by destruct (completed_parts b)).
      eapply complete_wp; [done|exact U|exact M| |by rewrite N; apply parts_increasing| |].
      * destruct (Z.le_gt_cases (Z.of_nat (length (ds ++ [part]))) max_parts) as [K|K];
          [left; by apply full_parts_ok|right].
        unfold too_many. rewrite G, len_app, concat_full by done. rewrite length_app in K. cbn in K.
        pose proof (len_nonneg part). unfold max_parts, MULTIPART_PART_SIZE in *. lia.
      * rewrite G, concat_app. cbn. by rewrite app_nil_r.
      * rewrite G. intros [_ ?]%app_eq_nil. done.
    + cbn [wp finished]. rewrite O. split; [done|]. split; [done|]. auto.
  - assert (B0 : concat b.(buffered_chunks) = []).
    { apply nil_length_inv. unfold len in Bb. pose proof (len_nonneg (concat (buffered_chunks b))). unfold len in *. lia. }
    cbn [wp]. destruct I as [O (ps & ds & U & M & F & N & Pn & G) B]. rewrite B0, app_nil_r in G.
    assert (Ln : length (completed_parts b) = length ds) by (by eapply length_mapM).
    case_bool_decide as C.
    + assert (got = []) as -> by (rewrite C in Ln; rewrite G; by destruct ds). cbn [wp finished]. rewrite O. done.
    + assert (Ds : exists l d, ds = l ++ [d]).
      { destruct ds as [|d ds _] using rev_ind; [|eauto]. by destruct (completed_parts b). }
      destruct Ds as (l & d & ->). pose proof F as [Fl Fd]%Forall_app. apply Forall_cons in Fd as [Fd _].
      eapply complete_wp; [done|exact U|exact M| |by rewrite N; apply parts_increasing|done|].
      * destruct (Z.le_gt_cases (Z.of_nat (length (l ++ [d]))) max_parts) as [K|K];
          [left; by apply full_parts_ok|right].
        unfold too_many. rewrite G, concat_full by done. unfold max_parts, MULTIPART_PART_SIZE in *. lia.
      * rewrite G. intros E. apply (f_equal len) in E. rewrite concat_full in E by done.
        rewrite length_app in E. cbn in E. unfold MULTIPART_PART_SIZE, len in E. cbn in E. lia.
Qed.

Lemma upload_result_wp is_up data v :
  v.(objects) = o -> v.(uploads) !! id = Some (staging, ∅) ->
  wp listing named is_up (upload_result staging id data)
    (fun r v' => match r with
      | Some (h, n) => exists body, received data = Some body /\ h = sha_update sha_new body /\ n = len body /\
          body <> [] /\ v'.(objects) = <[staging := body]> o
      | None => (forall k, k <> staging -> v'.(objects) !! k = o !! k) /\
          (received data = None \/ received data = Some [] -> v'.(objects) = o) /\
          (is_up = true -> forall body, received data = Some body -> body <> [] -> too_many body)
      end) v.
Proof.
  intros O U. apply wp_try.
  eapply wp_mono; [eapply (receive_wp is_up data (Progress [] 0 [] 1) [] (sha_new, 0) v)|].
  - split; cbn; [done| |done]. exists ∅, []. done.
  - done.
  - by rewrite sha_update_nil.
  - intros [[b sum]|] v'; cbn [app].
    + intros (body & R & -> & I & L). apply wp_try. cbn [fst snd].
      eapply wp_mono; [by apply finish_upload_wp|]. intros [[]|] v2; cbn [finished wp]; rewrite R.
      * intros [Ne O2]. eauto 10.
      * intros (K & Em & T). split; [done|]. split; [intros [?|?]; [done|]; simplify_eq; by apply Em|].
        intros Up body' [= <-]. by apply T.
    + intros [O' T]. rewrite O'. split; [done|]. split; [done|]. auto.
Qed.
End Upload.

(** ** Keys *)

Lemma suffix_mem {A} (a b u v : list A) c : a ++ u = b ++ v -> (length v <= length u)%nat -> c ∈ v -> c ∈ u.
Proof.
  intros [(k & -> & ->)|(k & -> & ->)]%app_eq_inv L I.
  - rewrite length_app in L. destruct k; [done|cbn in L; lia].
  - apply elem_of_app. by right.
Qed.
Lemma suffix_differ (a b u v : string) c :
  (length (units v) <= length (units u))%nat -> c ∈ units v -> c ∉ units u -> a +:+ u <> b +:+ v.
Proof. intros L I N E%(f_equal units). rewrite !units_app in E. apply N. by eapply suffix_mem. Qed.

Lemma uuid_suffix (a b u v : string) : is_uuid u -> (length (units v) <= 36)%nat -> "."%char ∈ units v -> a +:+ u <> b +:+ v.
Proof.
  intros [L F] Lv D. eapply suffix_differ; [by rewrite L|exact D|]. intros I.
  rewrite Forall_forall in F. specialize (F _ I). apply (bool_decide_pack _) in F. by vm_compute in F.
Qed.

Section Keys.
Context (run cp shard : string).

Lemma staging_checksum u (R C S : string) : is_uuid u -> staging_key run cp shard u <> checksum_key R C S.
Proof.
  intros U. unfold staging_key, checksum_key. rewrite <- !app_assoc_str.
  apply uuid_suffix; [done|by cbn; lia|]. apply (bool_decide_unpack _). by vm_compute.
Qed.
Lemma staging_final u (R C S sha : string) : is_uuid u -> staging_key run cp shard u <> content_addressed_key R C S sha.
Proof.
  intros U. unfold staging_key, content_addressed_key. rewrite <- !app_assoc_str.
  apply uuid_suffix; [done|by cbn; lia|]. apply (bool_decide_unpack _). by vm_compute.
Qed.
Lemma final_checksum (R C S sha : string) : content_addressed_key run cp shard sha <> checksum_key R C S.
Proof.
  unfold content_addressed_key, checksum_key. rewrite <- !app_assoc_str. intros E. symmetry in E. revert E.
  eapply (suffix_differ _ _ ".sha256" ".bin" "b"%char); [cbn; lia|..].
  - apply (bool_decide_unpack _). by vm_compute.
  - apply (bool_decide_unpack _). by vm_compute.
Qed.
End Keys.

(** ** The whole write *)

Section Write.
Context `{SL : Sha256Laws}.
Context (listing : view -> string -> option string -> list string) (named : string -> option string).
Context (named_plain : forall k, url_plain k -> named k = Some k).
Context (run cp shard : string).

(** The names that make a staging key which is its own URL encoding, the only ones under
    which the promotion's copy finds the staging object for certain *)
Definition plain_names : Prop := url_plain run /\ url_plain cp /\ url_plain shard.
#[export] Instance plain_names_dec : Decision plain_names.
Proof. unfold plain_names. apply _. Defined.
Lemma staging_plain uuid : is_uuid uuid -> plain_names -> url_plain (staging_key run cp shard uuid).
Proof.
  intros [_ U] (R & C & S). unfold staging_key. rewrite !url_plain_app. split_and!; try done;
    [apply (bool_decide_unpack _); by vm_compute..|].
  unfold url_plain. eapply Forall_impl; [exact U|]. intros c I. unfold uuid_char in I.
  assert (A : Forall (fun c => c ∈ plain_chars) (units "0123456789abcdef-")) by (apply (bool_decide_unpack _); by vm_compute).
  rewrite Forall_forall in A. by apply A.
Qed.

(** What a write does to the objects [o]: the body under its content-addressed key, or what
    was there, and the checksum beside it. Where a name is not plain the copy may have taken
    another object for the staging object. A write that fails leaves every other key; with
    the service up it fails for a body of too many parts, or when nothing is under its key
    yet and the copy is too large or its source may not be found. *)
Definition written (is_up : bool) (data : list (bytes + string)) (o : gmap string bytes)
    (r : option write_result) (o' : gmap string bytes) : Prop :=
  exists uuid, is_uuid uuid /\ let staging := staging_key run cp shard uuid in
  match r with
  | Some r => exists body kept, received data = Some body /\ body <> [] /\
      r = WriteResult shard (len body) (sha256_hex body) (content_addressed_key run cp shard (sha256_hex body)) /\
      (kept = body \/ o !! w_storage_key r = Some kept \/ ~ plain_names /\ exists k, o !! k = Some kept) /\
      o' = <[checksum_key run cp shard := bytes_of (sha256_hex body)]> (delete staging (<[w_storage_key r := kept]> o))
  | None =>
      (forall k, k <> staging -> k <> checksum_key run cp shard ->
         (forall body, received data = Some body -> k <> content_addressed_key run cp shard (sha256_hex body)) ->
         o' !! k = o !! k) /\
      (received data = None \/ received data = Some [] -> o' = o) /\
      (is_up = true -> forall body, received data = Some body -> body <> [] -> too_many body \/
         o !! content_addressed_key run cp shard (sha256_hex body) = None /\ (max_copy_size < len body \/ ~ plain_names))
  end.

Lemma exists_wp is_up k v :
  wp listing named is_up (object_exists k)
    (fun r v' => match r with
      | Some b => v' = v /\ (if b : bool then is_Some (v.(objects) !! k) else is_up = true -> v.(objects) !! k = None)
      | None => False
      end) v.
Proof.
  apply wp_bind, wp_send. intros [[]|] v' A; cbn in A |- *.
  - by destruct A.
  - destruct is_up.
    + destruct A as [N ->]. split; [done|]. intros _. by apply eq_None_not_Some.
    + destruct A as [->|(r & _ & ->)]; done.
Qed.

(** The copy of the staging object, where nothing is under the content-addressed key *)
Lemma copy_wp is_up body uuid o key v : is_uuid uuid -> let staging := staging_key run cp shard uuid in
  staging <> key -> v.(objects) = <[staging := body]> o ->
  wp listing named is_up (copy_object staging key)
    (fun r v' => match r with
      | Some _ => exists kept, (kept = body \/ ~ plain_names /\ exists k, o !! k = Some kept) /\
          v'.(objects) = <[key := kept]> (<[staging := body]> o)
      | None => (forall k, k <> staging -> k <> key -> v'.(objects) !! k = o !! k) /\
          (is_up = true -> max_copy_size < len body \/ ~ plain_names)
      end) v.
Proof.
  intros Uu staging D O. apply wp_send. intros [[]|] v' A; cbn in A.
  - destruct A as (k & d & N & Ld & ->). exists d. split; [|cbn; by rewrite O]. rewrite O in Ld.
    destruct (decide (k = staging)) as [->|Nk]; [rewrite lookup_insert_eq in Ld; left; congruence|right].
    rewrite lookup_insert_ne in Ld by done. split; [|by exists k]. intros P. rewrite named_plain in N by by apply staging_plain.
    by injection N.
  - destruct is_up.
    + destruct A as [A ->]. split; [intros k K1 K2; by rewrite O, lookup_insert_ne|]. intros _.
      destruct (decide plain_names) as [P|P]; [left|by right]. apply Z.nle_gt. intros L. apply A. exists staging, body.
      split_and!; [by apply named_plain, staging_plain|by rewrite O, lookup_insert_eq|done].
    + split; [|done]. intros k K1 K2. destruct A as [->|(r & k' & d & _ & _ & ->)]; cbn;
        by rewrite ?lookup_insert_ne, O, lookup_insert_ne by done.
Qed.

Lemma promote_wp is_up body uuid o v :
  is_uuid uuid -> let staging := staging_key run cp shard uuid in
  v.(objects) = <[staging := body]> o ->
  let key := content_addressed_key run cp shard (sha256_hex body) in
  wp listing named is_up (promote run cp shard staging (sha256_hex body) (len body))
    (fun r v' => match r with
      | Some r => r = WriteResult shard (len body) (sha256_hex body) key /\
          exists kept, (kept = body \/ o !! w_storage_key r = Some kept \/ ~ plain_names /\ exists k, o !! k = Some kept) /\
          v'.(objects) = <[checksum_key run cp shard := bytes_of (sha256_hex body)]>
            (delete staging (<[w_storage_key r := kept]> o))
      | None =>
          (forall k, k <> staging -> k <> checksum_key run cp shard -> k <> key -> v'.(objects) !! k = o !! k) /\
          (is_up = true -> o !! key = None /\ (max_copy_size < len body \/ ~ plain_names))
      end) v.
Proof.
  intros Uu staging O key. unfold promote. fold key. set (side := checksum_key _ _ _).
  assert (D : staging <> key) by by apply staging_final.
  apply wp_try. eapply wp_mono; [apply exists_wp|]. intros [there|] v1; [|done]. intros [-> Th].
  apply wp_try.
  eapply (wp_mono _ _ _ _ (fun r v' => match r with
    | Some _ => exists kept, (kept = body \/ o !! key = Some kept \/ ~ plain_names /\ exists k, o !! k = Some kept) /\
        v'.(objects) = <[key := kept]> (<[staging := body]> o)
    | None => (forall k, k <> staging -> k <> side -> k <> key -> v'.(objects) !! k = o !! k) /\
        (is_up = true -> o !! key = None /\ (max_copy_size < len body \/ ~ plain_names)) end)).
  { rewrite O, lookup_insert_ne in Th by done. destruct there; cbn [wp].
    - destruct Th as [kept Th]. exists kept. split; [by right; left|].
      rewrite O. symmetry. apply insert_id. by rewrite lookup_insert_ne.
    - eapply wp_mono; [by apply (copy_wp is_up body uuid o key v)|]. intros [[]|] v'.
      + intros (kept & K & E). exists kept. split; [tauto|exact E].
      + intros [K L]. split; [intros k K1 _ K3; by apply K|]. intros Up. split; [by apply Th|by apply L]. }
  intros [[]|] v2; [|done]. intros (kept & K & O2).
  assert (Out : forall k v', v' = v2 \/ v' = drop_object staging v2 -> k <> staging -> k <> key -> v'.(objects) !! k = o !! k).
  { intros k v' [->| ->] K1 K2; cbn; rewrite ?lookup_delete_ne by done; by rewrite O2, !lookup_insert_ne. }
  apply wp_try, wp_send. intros [[]|] v3 A; cbn in A.
  2: { destruct is_up; [by destruct A as [[] _]|]. split; [|done]. intros k K1 K2 K3.
       destruct A as [->|(r & ->)]; eauto. }
  apply wp_try, wp_send. intros [[]|] v4 A'; cbn in A'.
  2: { destruct is_up; [by destruct A' as [[] _]|]. split; [|done]. intros k K1 K2 K3.
       destruct A' as [->|(r & ->)]; cbn; rewrite ?lookup_insert_ne by done; subst v3; eauto. }
  cbn [wp]. split; [done|]. exists kept. split; [exact K|]. subst v4 v3. cbn. rewrite O2. f_equal.
  rewrite (insert_insert_ne _ key staging) by done. rewrite delete_insert_eq, delete_insert_ne by done. done.
Qed.

Lemma write_wp is_up data v :
  wp listing named is_up (write_shard_stream run cp shard data)
    (fun r v' => written is_up data v.(objects) r v'.(objects)) v.
Proof.
  apply wp_bind. intros uuid v0 [Uu ->]. cbn [wp]. set (staging := staging_key run cp shard uuid).
  assert (Fail : forall r v', r = None -> v'.(objects) = v.(objects) -> is_up = false -> written is_up data v.(objects) r v'.(objects)).
  { intros r v' -> -> ->. by exists uuid. }
  apply wp_try, wp_bind, wp_send. intros [id|] v1 A; cbn in A.
  2: { cbn [wp]. destruct is_up; [by destruct A as [[] _]|].
       apply Fail; [done| |done]. destruct A as [->|(r & i & _ & _ & ->)]; done. }
  destruct A as (i & -> & _ & ->). cbn [wp].
  apply wp_bind. eapply wp_mono; [apply (upload_result_wp listing named staging i v.(objects) is_up data); [done|by cbn; rewrite lookup_insert_eq]|].
  intros [[h n]|] v2.
  - intros (body & R & -> & -> & Ne & O). eapply wp_mono; [by eapply (promote_wp is_up body uuid v.(objects))|].
    intros [r|] v3; cbn.
    + intros (-> & kept & K & ->). exists uuid. split; [done|]. eauto 10.
    + intros [K L]. exists uuid. split; [done|]. rewrite R. split; [|split; [intros [?|?]; by simplify_eq|]].
      * intros k K1 K2 K3. apply K; auto.
      * intros Up body' [= <-] _. right. by apply L.
  - intros (K & Em & T). apply wp_bind, wp_send. intros r v3 A. cbn [wp].
    assert (E3 : v3.(objects) = v2.(objects)).
    { destruct r; cbn in A; [by subst|]. destruct is_up; [by destruct A as [_ ->]|]. destruct A as [->|(_ & ->)]; done. }
    rewrite E3. exists uuid. split; [done|]. split; [auto|]. split; [done|].
    intros Up body R Nb. left. by apply T.
Qed.
End Write.

(** C7: A shard is written whole or not at all. Whatever the storage service answers: a write
    that succeeds has received a body that is not empty and did not break off, reports its
    length, its checksum and its key, and leaves the body under that key (or what was there
    under it), the checksum in the sidecar and no staging object; one that fails leaves every
    other object as it was, and all of them if the stream broke off or was empty. While the
    service is up a body that is not empty and has not too many parts for it is written when
    its content is there already, or when it has up to 5 GiB and run, checkpoint and shard
    have plain names. With other names, since the source of the copy is sent without being
    URL-encoded, the copy may fail or put another object under the key. *)
Theorem shard_write `{SL : Sha256Laws} {C : Cloud} {CL : CloudLaws C} run cp shard data (s : state) :
  let '(r, s') := exec (write_shard_stream run cp shard data) s in
  written run cp shard false data (seen s).(objects) r (seen s').(objects) /\
  (forall (U : CloudUp C), CloudUpLaws C U -> up s.(cloud) ->
     forall body, received data = Some body -> body <> [] -> len body < max_parts * MULTIPART_PART_SIZE ->
     is_Some ((seen s).(objects) !! content_addressed_key run cp shard (sha256_hex body)) \/
       len body <= max_copy_size /\ plain_names run cp shard ->
     is_Some r /\ up s'.(cloud)).
Proof.
  destruct (exec _ s) as [r s'] eqn:E. split.
  - pose proof (exec_wp _ _ s (write_wp listing source_named source_plain run cp shard false data (seen s))) as W. by rewrite E in W.
  - intros U UL Up body R Ne Lp L.
    destruct (exec_wp_up _ _ s Up (write_wp listing source_named source_plain run cp shard true data (seen s))) as [W Up']. rewrite E in W, Up'.
    split; [|done]. destruct r as [r|]; [by eexists|]. destruct W as (uuid & _ & _ & _ & W).
    specialize (W eq_refl body R Ne). cbn in *. unfold too_many in W.
    destruct W as [W|[N W]]; [lia|]. destruct L as [[d L]|[L P]]; [congruence|]. destruct W; [lia|done].
Qed.

(** ** A digest that can be computed

    Not SHA-256 but a polynomial of the bytes with 64 digits, which has the laws *)
Module PlainDigest.
Definition digit_list : list Ascii.ascii := units "0123456789abcdef".
Fixpoint digits (n : nat) (z : Z) : list Ascii.ascii :=
  match n with
  | O => []
  | S n => default "0"%char (digit_list !! Z.to_nat (z mod 16)) :: digits n (z / 16)
  end.
Definition mix (h : Z) (b : Byte.byte) : Z := (h * 257 + Z.of_N (Byte.to_N b) + 1) mod 2 ^ 256.
#[export] Instance digest : Sha256 := {|
  hasher := Z; sha_new := 7; sha_update := foldl mix; sha_hex := fun h => of_units (digits 64 h)
|}.

Lemma digits_spec n z : length (digits n z) = n /\ Forall hex_char (digits n z).
Proof.
  revert z. induction n as [|n IH]; intros z; [done|]. destruct (IH (z / 16)) as [L F]. cbn [digits length].
  split; [by rewrite L|]. constructor; [|done].
  destruct (digit_list !! Z.to_nat (z mod 16)) as [c|] eqn:E; cbn [default from_option id].
  - by eapply list_elem_of_lookup_2.
  - apply (bool_decide_unpack _). by vm_compute.
Qed.
#[export] Instance digest_laws : Sha256Laws digest.
Proof.
  split.
  - intros h a b. apply foldl_app.
  - done.
  - intros h. cbn [sha_hex digest]. rewrite units_of_units. apply digits_spec.
Qed.
End PlainDigest.

(** ** Witnesses *)

#[local] Existing Instances Memory.cloud Memory.cloud_laws Memory.cloud_up Memory.cloud_up_laws.
#[local] Existing Instances PlainDigest.digest PlainDigest.digest_laws.

Definition sample_bytes : bytes := [Byte.x68; Byte.x69].
Definition sample_state (o : gmap string bytes) (failures : list bool) : @state Memory.cloud :=
  @State Memory.cloud 0 true (Memory.Memory (View o ∅) failures).

Lemma shard_write_witness :
  let data := [inl [Byte.x68]; inl [Byte.x69]] in
  let '(r, s') := exec (write_shard_stream "r1" "c1" "rank-0" data) (sample_state ∅ []) in
  is_Some r /\ written "r1" "c1" "rank-0" false data ∅ r (seen s').(objects) /\ up s'.(cloud).
Proof.
  pose proof (shard_write "r1" "c1" "rank-0" [inl [Byte.x68]; inl [Byte.x69]] (sample_state ∅ [])) as H. cbn zeta.
  destruct (exec _ _) as [r s']. destruct H as [W S].
  destruct (S _ Memory.cloud_up_laws eq_refl sample_bytes eq_refl) as [Hr Up]; [discriminate|by vm_compute| |by split_and!].
  right. split; [by vm_compute|]. apply (bool_decide_unpack _). by vm_compute.
Defined.

(** A run with a percent sign in its name: the service takes it for an escape, does not find
    the staging object, and the write fails although the service is up. *)
Example escaped_name_refused :
  fst (exec (write_shard_stream "r%201" "c1" "rank-0" [inl [Byte.x68]]) (sample_state ∅ [])) = None.
Proof. vm_compute. reflexivity. Qed.
