(* ===== verification/Retry.v ===== *)
(** * The retry policy of the data plane: [rust-dataplane/src/retry.rs]

    An operation is tried until it succeeds or the attempts are used up, with a delay
    between two of them that doubles up to a cap and has a jitter. The operation is a step
    of a state, the random generator an argument; integers wrap as in a release build. *)

From S2P Require Import Prelude.

Record retry_policy : Type := RetryPolicy { max_attempts : Z; base_delay_ms : Z }.

Definition wrap64 (n : Z) : Z := n mod 2 ^ 64.
Definition max_delay_ms : Z := 30000.

(** [compute_delay]; [gen n] is the random number between 0 and [n]. *)
Definition capped_ms (p : retry_policy) (attempt : Z) : Z :=
  Z.min (wrap64 (p.(base_delay_ms) * wrap64 (2 ^ (attempt - 1)))) max_delay_ms.
Definition compute_delay (p : retry_policy) (gen : Z -> Z) (attempt : Z) : Z :=
  capped_ms p attempt + gen (capped_ms p attempt / 2).

Inductive result (T E : Type) : Type := Done (t : T) | Exhausted (e : E) | Panicked.
Arguments Done {T E} t.
Arguments Exhausted {T E} e.
Arguments Panicked {T E}.

Section Execute.
Context {T E S : Type} (operation : S -> (T + E) * S) (gen : nat -> Z -> Z) (p : retry_policy).

(** The loop over the attempts: what is returned, the state, and the delays slept. The
    generator may answer differently at each attempt. *)
Fixpoint attempts (remaining : nat) (attempt : Z) (last_err : option E) (s : S) : result T E * S * list Z :=
  match remaining with
  | O => (match last_err with Some e => Exhausted e | None => Panicked end, s, [])
  | Datatypes.S remaining =>
      match operation s with
      | (inl t, s) => (Done t, s, [])
      | (inr e, s) =>
          if attempt =? p.(max_attempts) then attempts remaining (attempt + 1) (Some e) s
          else
            let '(r, s, delays) := attempts remaining (attempt + 1) (Some e) s in
            (r, s, compute_delay p (gen (Z.to_nat attempt)) attempt :: delays)
      end
  end.
Definition execute (s : S) : result T E * S * list Z := attempts (Z.to_nat p.(max_attempts)) 1 None s.

(** The state before the attempt after [n] *)
Fixpoint after (n : nat) (s : S) : S :=
  match n with O => s | Datatypes.S n => after n (operation s).2 end.
Definition fails (n : nat) (s : S) : Prop := exists e, (operation (after n s)).1 = inr e.
Definition delays_from (attempt : Z) (n : nat) : list Z :=
  map (fun i => compute_delay p (gen (Z.to_nat (attempt + Z.of_nat i))) (attempt + Z.of_nat i)) (seq 0 n).

Lemma delays_from_cons attempt n :
  delays_from attempt (Datatypes.S n) = compute_delay p (gen (Z.to_nat attempt)) attempt :: delays_from (attempt + 1) n.
Proof.
  unfold delays_from. cbn [seq map]. rewrite Z.add_0_r. f_equal. rewrite <- seq_shift, map_map.
  apply map_ext. intros i. by replace (attempt + Z.of_nat (Datatypes.S i)) with (attempt + 1 + Z.of_nat i) by lia.
Qed.

(** [k] failures, then a success or the end of the attempts *)
Definition tried (k : nat) (attempt : Z) (s : S) (out : result T E * S * list Z) : Prop :=
  (forall i, (i < k)%nat -> fails i s) /\ out.2 = delays_from attempt k /\ out.1.2 = after (Datatypes.S k) s /\
  match (operation (after k s)).1 with
  | inl t => out.1.1 = Done t
  | inr e => out.1.1 = Exhausted e /\ attempt + Z.of_nat k = p.(max_attempts)
  end.

Lemma attempts_spec remaining attempt last s :
  attempt + Z.of_nat remaining = p.(max_attempts) ->
  exists k, (k <= remaining)%nat /\ tried k attempt s (attempts (Datatypes.S remaining) attempt last s).
Proof.
  revert attempt last s. induction remaining as [|remaining IH]; intros attempt last s L.
  - exists 0%nat. split; [lia|]. unfold tried. cbn [attempts after].
    destruct (operation s) as [[t|e] s'] eqn:O; cbn.
    + by split_and!; [lia|..].
    + destruct (Z.eqb_spec attempt p.(max_attempts)); [|lia]. cbn. split_and!; [lia|done..|lia].
  - cbn [attempts]. destruct (operation s) as [[t|e] s'] eqn:O.
    + exists 0%nat. split; [lia|]. unfold tried. cbn. rewrite O. by split_and!; [lia|..].
    + destruct (Z.eqb_spec attempt p.(max_attempts)); [lia|].
      destruct (IH (attempt + 1) (Some e) s') as (k & K & F & D & A & R); [lia|].
      change (match operation s' with
              | (inl t, s) => (Done t, s, [])
              | (inr e, s) => if attempt + 1 =? p.(max_attempts) then attempts remaining (attempt + 1 + 1) (Some e) s
                  else let '(r, s, delays) := attempts remaining (attempt + 1 + 1) (Some e) s in
                       (r, s, compute_delay p (gen (Z.to_nat (attempt + 1))) (attempt + 1) :: delays)
              end) with (attempts (Datatypes.S remaining) (attempt + 1) (Some e) s').
      destruct (attempts (Datatypes.S remaining) (attempt + 1) (Some e) s') as [[r s2] ds]. cbn [fst snd] in *.
      exists (Datatypes.S k). split; [lia|]. unfold tried. cbn [fst snd]. split_and!.
      * intros [|i] Hi; [exists e; cbn; by rewrite O|]. specialize (F i ltac:(lia)). unfold fails in *. cbn [after]. by rewrite O.
      * by rewrite delays_from_cons, D.
      * rewrite A. cbn [after]. by rewrite O.
      * cbn [after]. rewrite O. cbn [snd]. destruct (operation (after k s')).1; [done|]. destruct R as [-> R]. split; [done|lia].
Qed.

(** C36: The operation is tried until it first succeeds, at most [max_attempts] times, and its
    result, or the error of the last attempt, is what is returned; between two attempts
    there is one delay. Without an attempt there is no error to return, and the call
    panics. *)
Theorem retry_outcome s :
  (p.(max_attempts) <= 0 -> execute s = (Panicked, s, [])) /\
  (0 < p.(max_attempts) -> exists k, Z.of_nat k < p.(max_attempts) /\ tried k 1 s (execute s)).
Proof.
  unfold execute. split; intros H.
  - by replace (Z.to_nat p.(max_attempts)) with 0%nat by lia.
  - destruct (attempts_spec (Z.to_nat (p.(max_attempts) - 1)) 1 None s) as (k & K & Tr); [lia|].
    exists k. split; [lia|]. by replace (Z.to_nat p.(max_attempts)) with (Datatypes.S (Z.to_nat (p.(max_attempts) - 1))) by lia.
Qed.
End Execute.

(** The delay before the next attempt doubles from the base up to 30 seconds, and the
    jitter adds at most half of it, as long as nothing overflows; it never exceeds 45
    seconds. From the 65th attempt on the power wraps to zero and there is no delay. *)
Theorem retry_delay_bounds p gen attempt :
  (forall n, 0 <= n -> 0 <= gen n <= n) -> 0 <= p.(base_delay_ms) -> 1 <= attempt ->
  0 <= compute_delay p gen attempt <= 45000 /\
  (p.(base_delay_ms) * 2 ^ (attempt - 1) < 2 ^ 64 ->
     let d := Z.min (p.(base_delay_ms) * 2 ^ (attempt - 1)) max_delay_ms in
     d <= compute_delay p gen attempt <= d + d / 2) /\
  (65 <= attempt -> compute_delay p gen attempt = 0).
Proof.
  intros G B A.
  assert (C : 0 <= capped_ms p attempt <= max_delay_ms).
  { assert (Mn : forall x, 0 <= x -> 0 <= Z.min x max_delay_ms <= max_delay_ms) by (unfold max_delay_ms; lia).
    by apply Mn, Z.mod_pos_bound. }
  assert (H : 0 <= capped_ms p attempt / 2) by (apply Z.div_pos; lia).
  specialize (G _ H) as Gb. unfold compute_delay. split_and!.
  - lia.
  - assert (capped_ms p attempt / 2 <= 15000) by (apply Z.div_le_upper_bound; unfold max_delay_ms in C; lia).
    unfold max_delay_ms in C. lia.
  - intros F. assert (Pw : 1 <= 2 ^ (attempt - 1)) by (pose proof (Z.pow_pos_nonneg 2 (attempt - 1)); lia).
    assert (E : capped_ms p attempt = Z.min (p.(base_delay_ms) * 2 ^ (attempt - 1)) max_delay_ms).
    { unfold capped_ms, wrap64. destruct (Z.eq_dec p.(base_delay_ms) 0) as [Z0|Z0]; [by rewrite Z0|].
      rewrite (Z.mod_small (2 ^ (attempt - 1))) by nia. by rewrite Z.mod_small by nia. }
    cbn zeta. rewrite <- E. lia.
  - intros L. assert (E : capped_ms p attempt = 0).
    { unfold capped_ms, wrap64. replace (2 ^ (attempt - 1)) with (2 ^ (attempt - 65) * 2 ^ 64)
        by (rewrite <- Z.pow_add_r by lia; f_equal; lia).
      rewrite Z.mod_mul by lia. by rewrite Z.mul_0_r. }
    rewrite E in Gb |- *. change (0 / 2) with 0 in *. lia.
Qed.

(** ** Witnesses *)

(** An operation that fails until its third attempt *)
Definition third_time (n : Z) : (Z + string) * Z := (if n <? 2 then inr "transient" else inl 42, n + 1).
Lemma retry_delay_bounds_witness :
  let p := RetryPolicy 5 100 in
  execute third_time (fun _ n => n) p 0 = (Done 42, 3, [150; 300]) /\ compute_delay p (fun n => n) 2 <= 300.
Proof.
  cbn zeta. split; [vm_compute; reflexivity|].
  destruct (retry_delay_bounds (RetryPolicy 5 100) (fun n => n) 2) as (_ & D & _); [intros; lia|cbn; lia|lia|].
  exact (proj2 (D ltac:(vm_compute; reflexivity))).
Defined.
