(* ===== verification/DataPlane.v ===== *)
(** * The data plane: [rust-dataplane/src/grpc_service.rs] and [checkpoint/]

    Manifests, the reader, the garbage collector and the handlers of the gRPC service, with
    the counter of [backpressure.rs], over the calls of [ObjectStorage]. The metrics and the
    logs are left out. The requests that are being served form a pool: a step lets one of
    them make its next call, a request arrive, or a client hang up, upon which its handler
    is dropped where it stands. *)

From Stdlib Require Import Ascii.
From S2P Require Import Prelude Dict JsString ObjectStorage ShardWriter.

(** ** Manifests, [checkpoint/manifest.rs] *)

(** [ManifestShard] *)
Record manifest_shard : Type := ManifestShard {
  ms_shard_id : string; ms_rank : Z; ms_size_bytes : Z; ms_sha256 : string; ms_storage_key : string
}.
(** [Manifest] *)
Record manifest : Type := Manifest {
  mf_checkpoint_id : string; mf_run_id : string; mf_step : Z; mf_created_at : string; mf_num_shards : Z;
  mf_total_bytes : Z; mf_shards : list manifest_shard; mf_metadata : gmap string string
}.

Definition u64 (n : Z) : Z := n mod 2 ^ 64.
Definition u32 (n : Z) : Z := n mod 2 ^ 32.
(** The integers of a manifest have the widths of the struct's fields. *)
Definition manifest_fits (m : manifest) : Prop :=
  0 <= m.(mf_step) < 2 ^ 64 /\ 0 <= m.(mf_num_shards) < 2 ^ 32 /\ 0 <= m.(mf_total_bytes) < 2 ^ 64 /\
  Forall (fun s => 0 <= s.(ms_rank) < 2 ^ 32 /\ 0 <= s.(ms_size_bytes) < 2 ^ 64) m.(mf_shards).

(** [serde_json]: what is printed is read back. *)
Class ManifestJson : Type := {
  to_string_pretty : manifest -> option bytes;
  from_slice : bytes -> option manifest
}.
Class ManifestJsonLaws (J : ManifestJson) : Prop := {
  json_round_trip m : manifest_fits m -> exists json, to_string_pretty m = Some json /\ from_slice json = Some m
}.

Definition manifest_key (run_id checkpoint_id : string) : string :=
  run_id +:+ "/" +:+ checkpoint_id +:+ "/_manifest.json".

Section Manifests.
Context `{ManifestJson}.

Definition write_manifest (m : manifest) : io string :=
  let key := manifest_key m.(mf_run_id) m.(mf_checkpoint_id) in
  let? there := object_exists key in
  if there : bool then Ret (Some key) else
  match to_string_pretty m with
  | None => Ret None
  | Some json => let? _ := put_object key json in Ret (Some key)
  end.

Definition read_manifest (run_id checkpoint_id : string) : io (option manifest) :=
  let key := manifest_key run_id checkpoint_id in
  let? there := object_exists key in
  if negb there then Ret (Some None) else
  let? data := get_object key in
  match from_slice data with None => Ret None | Some m => Ret (Some (Some m)) end.

Definition manifest_exists (run_id checkpoint_id : string) : io bool := object_exists (manifest_key run_id checkpoint_id).
End Manifests.

(** ** The reader, [checkpoint/reader.rs] *)

(** [slice::chunks]; the length of the data is enough fuel. *)
Fixpoint pieces (fuel : nat) (chunk_size : Z) (data : bytes) : list bytes :=
  match fuel, data with
  | S fuel, _ :: _ => take (Z.to_nat chunk_size) data :: pieces fuel chunk_size (drop (Z.to_nat chunk_size) data)
  | _, _ => []
  end.
Definition chunks (chunk_size : Z) (data : bytes) : list bytes := pieces (length data) chunk_size data.

Definition reader_read_shard (storage_key : string) (chunk_size : Z) : io (list bytes) :=
  let? data := get_object storage_key in Ret (Some (chunks chunk_size data)).

(** ** The garbage collector, [checkpoint/gc.rs] *)

Fixpoint delete_shards (keys : list string) (deleted : Z) : io Z :=
  match keys with
  | [] => Ret (Some deleted)
  | key :: keys =>
      if ends_with key "_manifest.json" then delete_shards keys deleted
      else let? _ := delete_object key in delete_shards keys (u32 (deleted + 1))
  end.
Definition delete_checkpoint_shards (fuel : nat) (run_id checkpoint_id : string) : io Z :=
  let? objects := list_objects fuel (run_id +:+ "/" +:+ checkpoint_id +:+ "/") in
  delete_shards objects 0.

(** The checkpoint of a key, if it has the three parts *)
Definition checkpoint_part (key : string) : option string :=
  match split "/" key with
  | _ :: cp :: _ :: _ => Some cp
  | _ => None
  end.
Definition in_checkpoint_dir (key : string) : bool := if checkpoint_part key is Some _ then true else false.
Definition by_checkpoint (objects : list string) : dict string (list string) :=
  group_by (fun k => default "" (checkpoint_part k)) (filter (fun k => in_checkpoint_dir k = true) objects).
Fixpoint delete_keys (keys : list string) (deleted : Z) : io Z :=
  match keys with
  | [] => Ret (Some deleted)
  | key :: keys => let? _ := delete_object key in delete_keys keys (u32 (deleted + 1))
  end.
Fixpoint collect_groups (run_id : string) (gs : dict string (list string)) (deleted : Z) : io Z :=
  match gs with
  | [] => Ret (Some deleted)
  | (cp, keys) :: gs =>
      if existsb (fun k => String.eqb k (manifest_key run_id cp)) keys then collect_groups run_id gs deleted
      else let? deleted := delete_keys keys deleted in collect_groups run_id gs deleted
  end.
Definition collect_orphans (fuel : nat) (run_id : string) : io Z :=
  let? objects := list_objects fuel (run_id +:+ "/") in
  collect_groups run_id (by_checkpoint objects) 0.

(** ** The service, [grpc_service.rs] *)

(** The messages of [checkpoint.proto] *)
Record shard_chunk : Type := ShardChunk {
  k_shard_id : string; k_checkpoint_id : string; k_offset : Z; k_data : bytes; k_is_last : bool
}.
Record write_response : Type := WriteShardResponse {
  wr_shard_id : string; wr_total_bytes : Z; wr_sha256_checksum : string; wr_success : bool
}.
Record commit_request : Type := CommitRequest {
  cr_checkpoint_id : string; cr_run_id : string; cr_step : Z; cr_shards : list manifest_shard;
  cr_metadata : gmap string string
}.
Record commit_response : Type := CommitResponse { co_success : bool; co_manifest_key : string }.
Record abort_response : Type := AbortResponse { ab_success : bool; ab_shards_deleted : Z }.
Record shard_status : Type := ShardStatusResponse {
  ss_shard_id : string; ss_exists : bool; ss_size_bytes : Z; ss_sha256_checksum : string
}.
Record health : Type := HealthResponse { serving : bool; h_queue_depth : Z }.
(** [tonic::Status] *)
Inductive status : Type := Internal | NotFound | InvalidArgument | ResourceExhausted.

(** [checkpoint_id.find('/')] and the two slices; without a slash the identifier is both. *)
Fixpoint cut_slash (l : list ascii) : option (list ascii * list ascii) :=
  match l with
  | [] => None
  | c :: l => if Ascii.eqb c "/" then Some ([], l) else (fun p => (c :: p.1, p.2)) <$> cut_slash l
  end.
Definition split_checkpoint_id (id : string) : string * string :=
  match cut_slash (units id) with
  | Some (run, cp) => (of_units run, of_units cp)
  | None => (id, id)
  end.

(** What the handler sends to the writer after the first chunk, the messages of the stream
    or its error being the argument *)
Fixpoint feed (shard_id checkpoint_id : string) (stream : list (shard_chunk + string)) : list (bytes + string) :=
  match stream with
  | [] => []
  | inr error :: _ => [inr error]
  | inl chunk :: stream =>
      if negb (String.eqb chunk.(k_shard_id) shard_id) || negb (String.eqb chunk.(k_checkpoint_id) checkpoint_id)
      then [inr "Shard metadata changed within the stream"]
      else inl chunk.(k_data) :: feed shard_id checkpoint_id stream
  end.

(** The chunks of an answer, numbered *)
Definition read_chunk_size : Z := 4 * 1024 * 1024.
Definition stream_of (shard_id checkpoint_id : string) (cs : list bytes) : list shard_chunk :=
  imap (fun i d => ShardChunk shard_id checkpoint_id (Z.of_nat i * 4 * 1024 * 1024) d
                     (Z.of_nat i =? Z.of_nat (length cs) - 1)) cs.

Section Service.
Context `{Sha256} `{ManifestJson}.
(** [config.backpressure_queue_depth], and the bound on the pages of a listing *)
Context (max_depth : Z) (fuel : nat).

Definition write_shard (stream : list (shard_chunk + string)) : prog (write_response + status) :=
  let! depth := perform LoadDepth in
  if max_depth <=? depth then Ret (inr ResourceExhausted) else
  let! _ := perform (FetchAdd 1) in
  match stream with
  | inr _ :: _ => let! _ := perform (FetchAdd (-1)) in Ret (inr Internal)
  | [] => let! _ := perform (FetchAdd (-1)) in Ret (inr InvalidArgument)
  | inl first :: stream =>
      let ids := split_checkpoint_id first.(k_checkpoint_id) in
      let! result := write_shard_stream ids.1 ids.2 first.(k_shard_id)
          (inl first.(k_data) :: feed first.(k_shard_id) first.(k_checkpoint_id) stream) in
      match result with
      | Some r =>
          let! _ := perform (StoreHealthy true) in
          let! _ := perform (FetchAdd (-1)) in
          Ret (inl (WriteShardResponse r.(w_shard_id) r.(w_total_bytes) r.(w_sha256_checksum) true))
      | None =>
          let! _ := perform (StoreHealthy false) in
          let! _ := perform (FetchAdd (-1)) in
          Ret (inr Internal)
      end
  end.

Definition read_shard (shard_id checkpoint_id run_id : string) : prog (list shard_chunk + status) :=
  let! manifest := read_manifest run_id checkpoint_id in
  match manifest with
  | None => Ret (inr Internal)
  | Some None => Ret (inr NotFound)
  | Some (Some m) =>
      match List.find (fun s => String.eqb s.(ms_shard_id) shard_id) m.(mf_shards) with
      | None => Ret (inr NotFound)
      | Some meta =>
          let! cs := reader_read_shard meta.(ms_storage_key) read_chunk_size in
          match cs with
          | None => Ret (inr Internal)
          | Some cs => Ret (inl (stream_of shard_id checkpoint_id cs))
          end
      end
  end.

Definition commit_manifest (r : commit_request) (created_at : string) : manifest :=
  Manifest r.(cr_checkpoint_id) r.(cr_run_id) r.(cr_step) created_at (u32 (Z.of_nat (length r.(cr_shards))))
    (foldl (fun n s => u64 (n + s.(ms_size_bytes))) 0 r.(cr_shards)) r.(cr_shards) r.(cr_metadata).
Definition commit_checkpoint (r : commit_request) : prog commit_response :=
  let! created_at := perform Now in
  let! result := write_manifest (commit_manifest r created_at) in
  match result with
  | Some key => let! _ := perform (StoreHealthy true) in Ret (CommitResponse true key)
  | None => let! _ := perform (StoreHealthy false) in Ret (CommitResponse false "")
  end.

Definition abort_checkpoint (run_id checkpoint_id : string) : prog (abort_response + status) :=
  let! deleted := delete_checkpoint_shards fuel run_id checkpoint_id in
  match deleted with
  | Some deleted => Ret (inl (AbortResponse true deleted))
  | None => Ret (inr Internal)
  end.

Definition get_shard_status (shard_id checkpoint_id : string) : prog shard_status :=
  Ret (ShardStatusResponse shard_id false 0 "").

Definition health_check : prog health :=
  let! healthy := perform LoadHealthy in
  let! depth := perform LoadDepth in
  Ret (HealthResponse healthy depth).

(** ** The pool of requests *)

Inductive rpc : Type :=
| WriteShard (stream : list (shard_chunk + string))
| ReadShard (shard_id checkpoint_id run_id : string)
| CommitCheckpoint (r : commit_request)
| AbortCheckpoint (run_id checkpoint_id : string)
| GetShardStatus (shard_id checkpoint_id : string)
| HealthCheck.

Definition ignore {A} (p : prog A) : prog unit := bind p (fun _ => Ret tt).
Definition serve (r : rpc) : prog unit :=
  match r with
  | WriteShard stream => ignore (write_shard stream)
  | ReadShard shard cp run => ignore (read_shard shard cp run)
  | CommitCheckpoint r => ignore (commit_checkpoint r)
  | AbortCheckpoint run cp => ignore (abort_checkpoint run cp)
  | GetShardStatus shard cp => ignore (get_shard_status shard cp)
  | HealthCheck => ignore health_check
  end.
End Service.

(** What is left of a handler after some of its calls *)
Inductive rest_of {A} : prog A -> prog A -> Prop :=
| rest_here p : rest_of p p
| rest_call {R} (e : effect R) k r q : plausible e r -> rest_of (k r) q -> rest_of (Call e k) q.

Section Pool.
Context `{Cloud} `{Sha256} `{ManifestJson}.
Context (max_depth : Z) (fuel : nat).

Definition pool : Type := list (prog unit) * state.

(** What happens to the pool. When a client hangs up its handler is dropped where it
    stands, [dropped] being what was left of it; the writer it has spawned, if any, goes on
    with what it has been sent, and finds the channel closed. *)
Inductive event : Type := Arrived (r : rpc) | Served | HungUp (dropped : prog unit).
Definition spawned (q : prog unit) : Prop :=
  q = Ret tt \/ exists run cp shard data, rest_of (ignore (write_shard_stream run cp shard data)) q.
Inductive turn : event -> pool -> pool -> Prop :=
| turn_arrives r ps s : turn (Arrived r) (ps, s) (ps ++ [serve max_depth fuel r], s)
| turn_calls l p l' s : turn Served (l ++ p :: l', s) (l ++ (advance p s).1 :: l', (advance p s).2)
| turn_answered l l' s : turn Served (l ++ Ret tt :: l', s) (l ++ l', s)
| turn_hangs_up l p l' q s : spawned q -> turn (HungUp p) (l ++ p :: l', s) (l ++ q :: l', s).
Inductive turns : list event -> pool -> pool -> Prop :=
| turns_nil x : turns [] x x
| turns_snoc log e x y z : turns log x y -> turn e y z -> turns (log ++ [e]) x z.
End Pool.

(** ** The calls of the handlers *)

(** The change of the counter *)
Definition delta {R} (e : effect R) : option Z := match e with FetchAdd d => Some d | _ => None end.
(** The handler has incremented the counter, or not, and it is to leave it as it found it. *)
Fixpoint holds {A} (b : bool) (p : prog A) : Prop :=
  match p with
  | Ret _ => b = false
  | Call e k =>
      match delta e with
      | None => forall r, plausible e r -> holds b (k r)
      | Some d => d = (if b then -1 else 1) /\ forall r, holds (negb b) (k r)
      end
  end.

Definition no_manifest {R} (e : effect R) : Prop := forall run cp, ~ writes (manifest_key run cp) e.
Definition writer_call (R : Type) (e : effect R) : Prop := delta e = None /\ no_manifest e.

Lemma every_mono {A} (P Q : forall R, effect R -> Prop) (p : prog A) :
  (forall R e, P R e -> Q R e) -> every P p -> every Q p.
Proof. intros M. induction p as [a|R e k IH]; [done|]. intros [E K]. split; [auto|]. intros r Pl. by apply IH, K. Qed.
Lemma every_rest {A} P (p q : prog A) : rest_of p q -> every P p -> every P q.
Proof. induction 1 as [p|R e k r q Pl _ IH]; [done|]. intros [_ K]. by apply IH, K. Qed.
Lemma holds_bind {A B} b (p : prog A) (f : A -> prog B) :
  every (fun R e => delta e = None) p -> (forall a, holds b (f a)) -> holds b (bind p f).
Proof.
  induction p as [a|R e k IH]; [intros _ F; apply F|]. intros [E K] F. cbn [bind holds]. rewrite E.
  intros r Pl. by apply IH; [apply K|].
Qed.
Lemma holds_seq {A B} b (p : prog A) (f : A -> prog B) :
  holds b p -> (forall a, holds false (f a)) -> holds b (bind p f).
Proof.
  revert b. induction p as [a|R e k IH]; intros b P F; cbn [bind holds] in *; [by rewrite P|].
  destruct (delta e) as [d|] eqn:E.
  - destruct P as [-> P]. split; [done|]. intros r. by apply IH.
  - intros r Pl. apply IH; auto.
Qed.
Lemma holds_quiet {A} (p : prog A) : every (fun R e => delta e = None) p -> holds false p.
Proof. induction p as [a|R e k IH]; [done|]. intros [E K]. cbn [holds]. rewrite E. intros r Pl. by apply IH, K. Qed.

Lemma send_call {R} (c : request R) : (forall run cp, ~ writes (manifest_key run cp) (Send c)) -> writer_call _ (Send c).
Proof. by split. Qed.
(** A single request, which does not write a manifest *)
Ltac one_call := apply every_perform, send_call; intros ? ?; cbn; first [tauto | auto].

Lemma manifest_suffix run cp : exists a, manifest_key run cp = a +:+ "_manifest.json".
Proof. exists (run +:+ "/" +:+ cp +:+ "/"). unfold manifest_key. by rewrite !app_assoc_str. Qed.
Lemma staging_manifest run cp shard u R C : is_uuid u -> staging_key run cp shard u <> manifest_key R C.
Proof.
  intros U. unfold staging_key. destruct (manifest_suffix R C) as (a & ->). rewrite <- !app_assoc_str.
  apply uuid_suffix; [done|by cbn; lia|]. apply (bool_decide_unpack _). by vm_compute.
Qed.
Lemma checksum_manifest run cp shard R C : checksum_key run cp shard <> manifest_key R C.
Proof.
  unfold checksum_key. destruct (manifest_suffix R C) as (a & ->). rewrite <- !app_assoc_str.
  intros E. symmetry in E. revert E.
  eapply (suffix_differ _ _ "_manifest.json" ".sha256" "2"%char); [cbn; lia|..];
    apply (bool_decide_unpack _); by vm_compute.
Qed.
Lemma final_manifest run cp shard sha R C : content_addressed_key run cp shard sha <> manifest_key R C.
Proof.
  unfold content_addressed_key. destruct (manifest_suffix R C) as (a & ->). rewrite <- !app_assoc_str.
  intros E. symmetry in E. revert E.
  eapply (suffix_differ _ _ "_manifest.json" ".bin" "b"%char); [cbn; lia|..];
    apply (bool_decide_unpack _); by vm_compute.
Qed.

Section Calls.
Context `{Sha256}.

Lemma upload_part_calls k id n d : every writer_call (upload_part k id n d).
Proof. apply every_try; [one_call|done]. Qed.
Lemma upload_parts_calls fuel k id b : every writer_call (upload_parts fuel k id b).
Proof.
  revert b. induction fuel as [|fuel IH]; intros b; cbn [upload_parts]; destruct (_ <=? _); try done.
  destruct (take_part _ _ _) as [[[part cs] n]|]; [|done]. apply every_try; [apply upload_part_calls|]. auto.
Qed.
Lemma receive_calls k id data b sum : every writer_call (receive k id data b sum).
Proof.
  revert b sum. induction data as [|[c|e] data IH]; intros b sum; cbn [receive]; try done.
  apply every_try; [apply upload_parts_calls|]. auto.
Qed.
Lemma upload_result_calls k id data : (forall run cp, k <> manifest_key run cp) -> every writer_call (upload_result k id data).
Proof.
  intros N. apply every_try; [apply receive_calls|]. intros r. apply every_try; [|done]. unfold finish_upload.
  apply every_try.
  - unfold final_part. destruct (0 <? _); [|done]. destruct (take_part _ _ _) as [[[part cs] n]|]; [|done].
    apply every_try; [apply upload_part_calls|done].
  - intros b. case_bool_decide; [done|]. one_call.
Qed.

(** A write makes no call that touches a manifest or the counter. *)
Lemma write_calls run cp shard data : every writer_call (write_shard_stream run cp shard data).
Proof.
  split; [split; [done|by intros ? ? []]|]. intros u U. cbn in U. set (k := staging_key run cp shard u).
  assert (N : forall R C, k <> manifest_key R C) by (intros; by apply staging_manifest).
  apply every_try; [apply every_try; [one_call|done]|]. intros id.
  apply every_bind; [by apply upload_result_calls|]. intros [[h n]|].
  - apply every_try; [apply every_object_exists, send_call; by intros ? ? []|]. intros there.
    apply every_try; [destruct there; [done|]; apply every_perform, send_call; intros R C; apply final_manifest|].
    intros _. apply every_try; [one_call|]. intros _.
    apply every_try; [apply every_perform, send_call; intros R C; apply checksum_manifest|done].
  - apply every_bind; [one_call|done].
Qed.
End Calls.

Section Handlers.
Context `{Sha256} `{ManifestJson}.
Context (max_depth : Z) (fuel : nat).

Lemma writer_delta {A} (p : prog A) : every writer_call p -> every (fun R e => delta e = None) p.
Proof. apply every_mono. by intros R e []. Qed.
Lemma writer_no_manifest {A} run cp (p : prog A) : every writer_call p -> every (fun R e => ~ writes (manifest_key run cp) e) p.
Proof. apply every_mono. intros R e [_ N]. apply N. Qed.

Lemma read_manifest_calls run cp : every writer_call (read_manifest run cp).
Proof.
  apply every_try; [apply every_object_exists, send_call; by intros ? ? []|]. intros [|]; [|done].
  apply every_try; [one_call|]. intros d. cbn. by destruct (from_slice d).
Qed.
Lemma read_shard_calls shard cp run : every writer_call (read_shard shard cp run).
Proof.
  apply every_bind; [apply read_manifest_calls|]. intros [[m|]|]; [|done..]. destruct (List.find _ _); [|done].
  apply every_bind; [apply every_try; [one_call|done]|]. by intros [cs|].
Qed.
Lemma ends_with_manifest run cp : ends_with (manifest_key run cp) "_manifest.json" = true.
Proof.
  destruct (manifest_suffix run cp) as (a & ->). unfold ends_with. rewrite units_app, reverse_app.
  apply starts_with_units_spec. by eexists.
Qed.
Lemma delete_shards_calls keys n : every writer_call (delete_shards keys n).
Proof.
  revert n. induction keys as [|k keys IH]; intros n; [done|]. cbn [delete_shards].
  destruct (ends_with k _) eqn:E; [apply IH|]. apply every_try; [|auto].
  apply every_perform, send_call. intros R C. cbn. intros ->. by rewrite ends_with_manifest in E.
Qed.
Lemma abort_calls run cp : every writer_call (abort_checkpoint fuel run cp).
Proof.
  apply every_bind; [|by intros [n|]]. apply every_try; [|intros keys; apply delete_shards_calls].
  apply every_list_pages. intros t. split; [done|]. intros ? ? [].
Qed.

(** A commit writes one key, its manifest's, and deletes none. *)
Lemma commit_calls r :
  every (fun R e => delta e = None /\ (forall k, ~ deletes k e) /\
    forall k, writes k e -> k = manifest_key r.(cr_run_id) r.(cr_checkpoint_id)) (commit_checkpoint r).
Proof.
  split; [by split_and!; [|intros ? []|intros ? []]|]. intros at_ _. cbn [bind].
  apply every_bind; [|intros [key|]; (split; [by split_and!; [|intros ? []|intros ? []]|done])].
  apply every_try; [apply every_object_exists; by split_and!; [|intros ? []|intros ? []]|].
  intros [|]; [done|]. destruct (to_string_pretty _); [|done]. apply every_try; [|done].
  apply every_perform. split_and!; [done|intros ? []|]. by intros k <-.
Qed.

Lemma write_shard_every (P : forall R, effect R -> Prop) stream :
  (forall R (e : effect R), no_manifest e -> P R e) -> every P (write_shard max_depth stream).
Proof.
  intros HP. assert (N : forall R (e : effect R), match e with Send _ => False | _ => True end -> P R e).
  { intros R e S. apply HP. intros run cp W. destruct e; [destruct S|destruct W..]. }
  split; [by apply N|]. intros d _. cbn [bind]. destruct (max_depth <=? d); [done|].
  split; [by apply N|]. intros ? _. cbn [bind].
  destruct stream as [|[c|e] stream]; try (split; [by apply N|done]).
  apply every_bind; [eapply every_mono; [|apply write_calls]; by intros R e [_ W]; apply HP|].
  intros [w|]; (split; [by apply N|]; intros ? _; split; [by apply N|done]).
Qed.

(** The handlers leave the counter as they found it, and no request but a commit of the
    checkpoint writes its manifest, nor any deletes one. *)
Lemma serve_holds r : holds false (serve max_depth fuel r).
Proof.
  assert (W : forall stream, holds false (write_shard max_depth stream)).
  { clear r. intros stream d _. cbn [bind]. destruct (max_depth <=? d); [done|]. split; [done|]. intros ?. cbn [bind negb].
    destruct stream as [|[c|e] stream]; try (split; [done|]; done).
    apply holds_bind; [apply writer_delta, write_calls|]. by intros [r'|] ? _; split. }
  destruct r as [stream|shard cp run|r|run cp|shard cp|]; cbn [serve]; (apply holds_seq; [|done]); auto;
    apply holds_quiet.
  - apply writer_delta, read_shard_calls.
  - eapply every_mono; [|apply commit_calls]. by intros R e [].
  - apply writer_delta, abort_calls.
  - done.
  - by split_and!.
Qed.

Definition commits (run cp : string) (r : rpc) : Prop :=
  match r with CommitCheckpoint r => manifest_key r.(cr_run_id) r.(cr_checkpoint_id) = manifest_key run cp | _ => False end.

Lemma serve_keeps run cp r : ~ commits run cp r -> every (fun R e => ~ writes (manifest_key run cp) e) (serve max_depth fuel r).
Proof.
  intros N. destruct r as [stream|shard cp' run'|r|run' cp'|shard cp'|]; cbn [serve]; (apply every_bind; [|done]).
  - apply write_shard_every. auto.
  - apply writer_no_manifest, read_shard_calls.
  - eapply every_mono; [|apply commit_calls]. intros R e (_ & _ & W) K%W. by apply N.
  - apply writer_no_manifest, abort_calls.
  - done.
  - split; [by intros []|]. intros ? _. split; [by intros []|done].
Qed.
Lemma serve_never_deletes run cp r : every (fun R e => ~ deletes (manifest_key run cp) e) (serve max_depth fuel r).
Proof.
  assert (D : forall R (e : effect R), no_manifest e -> ~ deletes (manifest_key run cp) e).
  { intros R e N. specialize (N run cp). destruct e as [R c| | | | | |]; try by intros []. destruct c; try by intros []. exact N. }
  assert (DW : forall A (p : prog A), every writer_call p -> every (fun R e => ~ deletes (manifest_key run cp) e) p).
  { intros A p. apply every_mono. intros R e [_ N]. auto. }
  destruct r as [stream|shard cp' run'|r|run' cp'|shard cp'|]; cbn [serve]; (apply every_bind; [|done]).
  - by apply write_shard_every.
  - apply DW, read_shard_calls.
  - eapply every_mono; [|apply commit_calls]. by intros R e (_ & W & _).
  - apply DW, abort_calls.
  - done.
  - split; [by intros []|]. intros ? _. split; [by intros []|done].
Qed.
End Handlers.

(** ** Interleaved requests *)

Section Interleaved.
Context {C : Cloud} {CL : CloudLaws C} `{Sha256} `{ManifestJson}.
Context (max_depth : Z) (fuel : nat).

Lemma rest_ignore {A} (p : prog A) q : every writer_call p -> rest_of (ignore p) q -> every writer_call q.
Proof. intros W R. eapply every_rest; [exact R|]. by apply every_bind. Qed.
Lemma spawned_calls q : spawned q -> every writer_call q.
Proof. intros [->|(run & cp & shard & data & R)]; [done|]. eapply rest_ignore; [apply write_calls|exact R]. Qed.

Lemma every_advance {A} P (p : prog A) s : every P p -> every P (advance p s).1.
Proof.
  destruct p as [a|R e k]; [done|]. intros [_ K]. cbn. pose proof (effect_plausible e s) as Pl.
  destruct (do_effect e s) as [r s']. by apply K.
Qed.

(** What every call of every handler preserves holds in every state of the pool. *)
Lemma turns_preserve (P : forall R, effect R -> Prop) (I : state -> Prop) log x y :
  (forall R (e : effect R) s, P R e -> I s -> I (do_effect e s).2) ->
  (forall R (e : effect R), writer_call R e -> P R e) ->
  (forall r, Arrived r ∈ log -> every P (serve max_depth fuel r)) ->
  turns max_depth fuel log x y -> Forall (every P) x.1 -> I x.2 -> Forall (every P) y.1 /\ I y.2.
Proof.
  intros Step Spawn Arr T F Ix. induction T as [|log e x y z T IH E]; [done|].
  destruct IH as [Fy Iy]; [|done..|].
  { intros r A. apply Arr, elem_of_app. by left. }
  destruct E as [r ps s|l p l' s|l l' s|l p l' q s Sp]; cbn in *.
  - split; [|done]. apply Forall_app. split; [done|]. constructor; [|done].
    apply Arr, elem_of_app. right. by apply list_elem_of_singleton.
  - apply Forall_app in Fy as [Fl [Fp Fl']%Forall_cons]. split.
    + apply Forall_app. split; [done|]. constructor; [by apply every_advance|done].
    + destruct p as [a|R e k]; [done|]. destruct Fp as [Pe _]. cbn. specialize (Step _ e s Pe Iy).
      by destruct (do_effect e s).
  - apply Forall_app in Fy as [Fl [_ Fl']%Forall_cons]. split; [|done]. by apply Forall_app.
  - apply Forall_app in Fy as [Fl [_ Fl']%Forall_cons]. split; [|done]. apply Forall_app. split; [done|].
    constructor; [|done]. eapply every_mono; [exact Spawn|]. by apply spawned_calls.
Qed.

(** C12: A committed checkpoint stays committed. However many requests the data plane serves at a
    time, in whatever order their calls interleave, whatever the storage service fails and
    whichever clients hang up: a manifest that is there stays there, and a manifest is
    written by nothing but a commit of its checkpoint. *)
Theorem manifest_stays log s ps s' run cp :
  turns max_depth fuel log ([], s) (ps, s') ->
  let k := manifest_key run cp in
  (is_Some ((seen s).(objects) !! k) -> is_Some ((seen s').(objects) !! k)) /\
  ((forall r, Arrived r ∈ log -> ~ commits run cp r) -> (seen s').(objects) !! k = (seen s).(objects) !! k).
Proof.
  intros T k. split.
  - intros S. destruct (turns_preserve (fun R e => ~ deletes k e) (fun s => is_Some ((seen s).(objects) !! k))
      log ([], s) (ps, s')) as [_ R]; [..|exact T|done|exact S|exact R].
    + intros R e s0 D. by apply effect_keeps_some.
    + intros R e [_ N] D. specialize (N run cp). destruct e as [R c| | | | | |]; try done. by destruct c.
    + intros r _. apply serve_never_deletes.
  - intros N. destruct (turns_preserve (fun R e => ~ writes k e)
      (fun s0 => (seen s0).(objects) !! k = (seen s).(objects) !! k) log ([], s) (ps, s')) as [_ R];
      [..|exact T|done|done|exact R].
    + intros R e s0 D <-. by apply effect_keeps.
    + intros R e [_ W]. apply W.
    + intros r A. by apply serve_keeps, N.
Qed.

(** ** The counter of the requests in progress *)

Definition occupied (bs : list bool) : Z := Z.of_nat (length (filter (fun b => b = true) bs)).
Definition hung_up (e : event) : bool := match e with HungUp _ => true | _ => false end.
(** What was left of the handlers that were dropped *)
Definition dropped_handlers (log : list event) : list (prog unit) :=
  omap (fun e => match e with HungUp p => Some p | _ => None end) log.
Definition hang_ups (log : list event) : Z := Z.of_nat (length (filter (fun e => hung_up e = true) log)).

Lemma occupied_cons b bs : occupied (b :: bs) = (if b then 1 else 0) + occupied bs.
Proof. unfold occupied. rewrite filter_cons. destruct b; cbn [decide]; case_decide; cbn [length]; try lia; done. Qed.
Lemma occupied_app bs cs : occupied (bs ++ cs) = occupied bs + occupied cs.
Proof. induction bs as [|b bs IH]; [done|]. cbn [app]. rewrite !occupied_cons, IH. lia. Qed.
Lemma occupied_bounds bs : 0 <= occupied bs <= Z.of_nat (length bs).
Proof. induction bs as [|b bs IH]; [done|]. rewrite occupied_cons. cbn [length]. destruct b; lia. Qed.
Lemma hang_ups_snoc log e : hang_ups (log ++ [e]) = hang_ups log + (if hung_up e then 1 else 0).
Proof.
  unfold hang_ups. rewrite filter_app, length_app, filter_cons. destruct (hung_up e); case_decide; cbn [length filter list_filter]; try lia; done.
Qed.

Lemma usize_add a d : usize (usize a + d) = usize (a + d).
Proof. unfold usize. by rewrite Zplus_mod_idemp_l. Qed.

(** A call changes the counter by what it changes of the handler's hold. *)
Lemma holds_advance b (p : prog unit) s n : holds b p -> s.(queue_depth) = usize (n + if b then 1 else 0) ->
  exists b', holds b' (advance p s).1 /\ (advance p s).2.(queue_depth) = usize (n + if b' then 1 else 0).
Proof.
  destruct p as [a|R e k]; [by exists b|]. intros Hd D. pose proof (effect_plausible e s) as Pl. cbn [advance holds] in *.
  destruct (delta e) as [d|] eqn:De.
  - destruct Hd as [-> Hd]. destruct e; try discriminate De. cbn in De. simplify_eq. cbn. exists (negb b). split; [apply Hd|].
    rewrite D, usize_add. f_equal. destruct b; cbn; lia.
  - exists b. assert (Q : (do_effect e s).2.(queue_depth) = s.(queue_depth)).
    { destruct e as [R c| | | | | |]; try discriminate De; cbn; unfold on_cloud; try done;
        [by destruct (send c _)|by destruct (new_v4 _)|by destruct (utc_now _)]. }
    destruct (do_effect e s) as [r s']. cbn in *. split; [by apply Hd|]. by rewrite Q.
Qed.

(** A handler either holds a place or it does not. *)
Lemma holds_unique b b' (p : prog unit) (s : state) : holds b p -> holds b' p -> b = b'.
Proof.
  revert b b'. induction p as [a|R e k IH]; intros b b'; cbn [holds]; [congruence|].
  destruct (delta e) as [d|]; [intros [-> _] [E _]; by destruct b, b'|].
  intros H1 H2. pose proof (effect_plausible e s) as Pl. by eapply IH; [apply H1|apply H2].
Qed.
Lemma all_hold_unique bs bs' (ps : list (prog unit)) (s : state) : Forall2 holds bs ps -> Forall2 holds bs' ps -> bs = bs'.
Proof.
  intros F. revert bs'. induction F as [|b p bs ps Hb F IH]; intros bs' F'; inversion F'; subst; [done|].
  f_equal; [by eapply holds_unique|by apply IH].
Qed.

Lemma dropped_snoc log e :
  dropped_handlers (log ++ [e]) = dropped_handlers log ++ match e with HungUp p => [p] | _ => [] end.
Proof. unfold dropped_handlers. rewrite omap_app. by destruct e. Qed.

Lemma turns_balance log x y :
  turns max_depth fuel log x y -> x.1 = [] -> x.2.(queue_depth) = 0 ->
  exists bs lost, Forall2 holds bs y.1 /\ Forall2 holds lost (dropped_handlers log) /\
    y.2.(queue_depth) = usize (occupied bs + occupied lost).
Proof.
  intros T N D. induction T as [x|log e x y z T IH E].
  { exists [], []. rewrite N, D. by split_and!; [constructor|constructor|]. }
  destruct (IH N D) as (bs & lost & F & L & Q). clear IH T. rewrite dropped_snoc.
  destruct E as [r qs t|l p l' t|l l' t|l p l' q t Sp]; cbn [fst snd] in *; rewrite ?app_nil_r.
  - exists (bs ++ [false]), lost. split_and!; [|done|].
    + apply Forall2_app; [done|]. constructor; [apply serve_holds|done].
    + rewrite Q, occupied_app, occupied_cons. apply (f_equal usize). change (occupied []) with 0. lia.
  - apply Forall2_app_inv_r in F as (b1 & b2 & F1 & F2 & ->). apply Forall2_cons_inv_r in F2 as (b & b3 & Hb & F3 & ->).
    rewrite occupied_app, occupied_cons in Q.
    destruct (holds_advance b p t (occupied b1 + occupied b3 + occupied lost) Hb) as (b' & Hb' & Q').
    { rewrite Q. apply (f_equal usize). destruct b; lia. }
    exists (b1 ++ b' :: b3), lost. split_and!; [by apply Forall2_app; [|constructor]|done|].
    rewrite Q', occupied_app, occupied_cons. apply (f_equal usize). destruct b'; lia.
  - apply Forall2_app_inv_r in F as (b1 & b2 & F1 & F2 & ->). apply Forall2_cons_inv_r in F2 as (b & b3 & Hb & F3 & ->).
    cbn in Hb. subst b. exists (b1 ++ b3), lost. split_and!; [by apply Forall2_app|done|].
    rewrite Q, !occupied_app, occupied_cons. apply (f_equal usize). lia.
  - apply Forall2_app_inv_r in F as (b1 & b2 & F1 & F2 & ->). apply Forall2_cons_inv_r in F2 as (b & b3 & Hb & F3 & ->).
    exists (b1 ++ false :: b3), (lost ++ [b]). split_and!.
    + apply Forall2_app; [done|]. constructor; [|done]. by apply holds_quiet, writer_delta, spawned_calls.
    + apply Forall2_app; [done|]. by constructor.
    + rewrite Q, !occupied_app, !occupied_cons. change (occupied []) with 0. apply (f_equal usize). destruct b; lia.
Qed.

(** C13: The counter of the requests in progress, over any history of the pool: it counts the
    handlers in progress that stand between their increment and their decrement, and those
    that were dropped there when their client hung up, each of which keeps its place for
    good; a handler that was dropped before its increment or after its decrement counts for
    nothing. Where each handler stands is no choice of the theorem: it is determined by what
    is left of it. *)
Theorem counter_balance log s ps s' :
  turns max_depth fuel log ([], s) (ps, s') -> s.(queue_depth) = 0 ->
  exists bs lost, Forall2 holds bs ps /\ Forall2 holds lost (dropped_handlers log) /\
    s'.(queue_depth) = usize (occupied bs + occupied lost) /\
    (forall bs' lost', Forall2 holds bs' ps -> Forall2 holds lost' (dropped_handlers log) -> bs' = bs /\ lost' = lost).
Proof.
  intros T D. destruct (turns_balance log _ _ T eq_refl D) as (bs & lost & F & L & Q). exists bs, lost. split_and!; [done..|].
  intros bs' lost' F' L'. split; by eapply all_hold_unique.
Qed.

(** C14: Clients that connect and hang up before their first message use up the service: after
    as many of them as the queue has places no request is in progress and every further
    write is refused, and nothing but a restart gives the places back. *)
Theorem abandoned_writes_block s : s.(queue_depth) = 0 -> 0 <= max_depth < 2 ^ 64 ->
  exists log s', turns max_depth fuel log ([], s) ([], s') /\ hang_ups log = max_depth /\
    (seen s') = seen s /\
    forall stream, exec (write_shard max_depth stream) s' = (inr ResourceExhausted, s').
Proof.
  intros D M.
  assert (N : forall n : nat, Z.of_nat n <= max_depth ->
    exists log, turns max_depth fuel log ([], s) ([], set_depth (Z.of_nat n) s) /\ hang_ups log = Z.of_nat n).
  { induction n as [|n IH]; intros L.
    - exists []. replace (set_depth (Z.of_nat 0) s) with s by (destruct s; cbn in *; by subst). by split; [constructor|].
    - destruct IH as (log & T & E); [lia|].
      set (s1 := set_depth (Z.of_nat n) s) in *. set (r := WriteShard []).
      exists (((((log ++ [Arrived r]) ++ [Served]) ++ [Served]) ++ [HungUp (Call (FetchAdd (-1)) (fun _ => Ret tt))]) ++ [Served]). split.
      2: { rewrite !hang_ups_snoc, E. cbn [hung_up r]. lia. }
      eapply turns_snoc; [eapply turns_snoc; [eapply turns_snoc; [eapply turns_snoc; [eapply turns_snoc; [exact T|]|]|]|]|].
      + apply (turn_arrives _ _ r []).
      + apply (turn_calls _ _ [] _ []).
      + cbn. destruct (Z.leb_spec max_depth (Z.of_nat n)); [lia|]. apply (turn_calls _ _ [] _ []).
      + cbn. apply (turn_hangs_up _ _ [] _ [] (Ret tt)). by left.
      + cbn. replace (set_depth (Z.of_nat (S n)) s) with (set_depth (usize (Z.of_nat n + 1)) s1).
        * apply (turn_answered _ _ [] []).
        * unfold s1, usize. rewrite Z.mod_small by lia. unfold set_depth. cbn. f_equal. lia. }
  destruct (N (Z.to_nat max_depth)) as (log & T & E); [lia|]. rewrite Z2Nat.id in T, E by lia.
  exists log, (set_depth max_depth s). split_and!; [done|done|done|]. intros stream. cbn.
  by destruct (Z.leb_spec max_depth max_depth); [|lia].
Qed.
End Interleaved.

(** ** A codec for manifests that can be computed *)
Module PlainJson.
#[export] Instance shard_eq_dec : EqDecision manifest_shard.
Proof. solve_decision. Defined.
#[export] Instance shard_countable : Countable manifest_shard.
Proof.
  refine (inj_countable' (fun s => (ms_shard_id s, ms_rank s, ms_size_bytes s, ms_sha256 s, ms_storage_key s))
    (fun t => let '(a, b, c, d, e) := t in ManifestShard a b c d e) _). by intros [].
Defined.
#[export] Instance manifest_eq_dec : EqDecision manifest.
Proof. solve_decision. Defined.
#[export] Instance manifest_countable : Countable manifest.
Proof.
  refine (inj_countable' (fun m => (mf_checkpoint_id m, mf_run_id m, mf_step m, mf_created_at m, mf_num_shards m,
                                    mf_total_bytes m, mf_shards m, mf_metadata m))
    (fun t => let '(a, b, c, d, e, f, g, h) := t in Manifest a b c d e f g h) _). by intros [].
Defined.

Fixpoint to_bytes (p : positive) : bytes :=
  match p with xH => [] | xO p => Byte.x00 :: to_bytes p | xI p => Byte.x01 :: to_bytes p end.
Fixpoint of_bytes (l : bytes) : positive :=
  match l with [] => xH | Byte.x00 :: l => xO (of_bytes l) | _ :: l => xI (of_bytes l) end.
Lemma of_to_bytes p : of_bytes (to_bytes p) = p.
Proof. induction p as [p IH|p IH|]; cbn; by rewrite ?IH. Qed.

#[export] Instance json : ManifestJson := {|
  to_string_pretty := fun m => Some (to_bytes (encode m)); from_slice := fun b => decode (of_bytes b)
|}.
#[export] Instance json_laws : ManifestJsonLaws json.
Proof. split. intros m _. eexists. split; [done|]. cbn. by rewrite of_to_bytes, decode_encode. Qed.
End PlainJson.

(** ** Witnesses *)

#[local] Existing Instances Memory.cloud Memory.cloud_laws Memory.cloud_up Memory.cloud_up_laws.
#[local] Existing Instances PlainDigest.digest PlainDigest.digest_laws PlainJson.json PlainJson.json_laws.

(** Two requests whose calls interleave: an upload that arrives during a commit *)
Definition sample_commit : commit_request := CommitRequest "c1" "r1" 50 [] ∅.
Definition sample_upload : rpc := WriteShard [inl (ShardChunk "rank-0" "r1/c1" 0 sample_bytes true)].

Definition turn_of (n : nat) (x : list (prog unit) * state) : list (prog unit) * state :=
  match x.1 !! n with
  | Some p => (<[n := (advance p x.2).1]> x.1, (advance p x.2).2)
  | None => x
  end.
Lemma turn_of_turns n ps s log x0 : (n < length ps)%nat ->
  turns 8 9 log x0 (ps, s) -> turns 8 9 (log ++ [Served]) x0 (turn_of n (ps, s)).
Proof.
  intros L T. eapply turns_snoc; [exact T|]. unfold turn_of. cbn [fst snd].
  destruct (lookup_lt_is_Some_2 ps n L) as [p E]. rewrite E.
  rewrite <- (take_drop_middle ps n p E) at 1. rewrite insert_take_drop by done. apply turn_calls.
Qed.

(** A history of the two requests *)
Definition sample_log : list event :=
  [Arrived (CommitCheckpoint sample_commit); Served; Arrived sample_upload; Served; Served].
Definition sample_pool : list (prog unit) * state :=
  let s := sample_state ∅ [] in
  let x := turn_of 0 ([serve 8 9 (CommitCheckpoint sample_commit)], s) in
  turn_of 1 (turn_of 1 (x.1 ++ [serve 8 9 sample_upload], x.2)).
Lemma sample_interleaving : turns 8 9 sample_log ([], sample_state ∅ []) sample_pool.
Proof.
  change sample_log with ((((([] ++ [Arrived (CommitCheckpoint sample_commit)]) ++ [Served]) ++ [Arrived sample_upload])
    ++ [Served]) ++ [Served]).
  unfold sample_pool. cbn zeta.
  assert (H : turns 8 9 (([] ++ [Arrived (CommitCheckpoint sample_commit)]) ++ [Served]) ([], sample_state ∅ [])
    (turn_of 0 ([serve 8 9 (CommitCheckpoint sample_commit)], sample_state ∅ []))).
  { apply turn_of_turns; [cbn; lia|]. eapply turns_snoc; [apply turns_nil|]. apply (turn_arrives _ _ _ []). }
  destruct (turn_of 0 _) as [ps s] eqn:E. cbn [fst snd].
  assert (Lp : length ps = 1%nat).
  { unfold turn_of in E. cbn [fst snd lookup list_lookup] in E. injection E as <- _. done. }
  assert (H2 : turns 8 9 ((([] ++ [Arrived (CommitCheckpoint sample_commit)]) ++ [Served]) ++ [Arrived sample_upload])
    ([], sample_state ∅ []) (ps ++ [serve 8 9 sample_upload], s)).
  { eapply turns_snoc; [exact H|]. apply turn_arrives. }
  assert (L1 : (1 < length (ps ++ [serve 8 9 sample_upload]))%nat) by (rewrite length_app, Lp; cbn; lia).
  pose proof (turn_of_turns 1 _ _ _ _ L1 H2) as H3.
  destruct (turn_of 1 (ps ++ [serve 8 9 sample_upload], s)) as [ps' s'] eqn:E'.
  apply turn_of_turns; [|exact H3].
  unfold turn_of in E'. destruct ((ps ++ [serve 8 9 sample_upload], s).1 !! 1%nat); injection E' as <- _;
    cbn [fst]; rewrite ?length_insert, length_app, Lp; cbn; lia.
Qed.

Lemma manifest_stays_witness :
  (seen sample_pool.2).(objects) !! manifest_key "r2" "c1" = None /\ length sample_pool.1 = 2%nat.
Proof.
  split; [|by vm_compute].
  pose proof (manifest_stays 8 9 sample_log (sample_state ∅ []) sample_pool.1 sample_pool.2 "r2" "c1") as H.
  rewrite <- surjective_pairing in H. destruct (H sample_interleaving) as [_ K]. rewrite K; [done|].
  intros r I. unfold sample_log in I. repeat (apply elem_of_cons in I as [I|I]; [simplify_eq; by vm_compute|]).
  by apply elem_of_nil in I.
Defined.

(** The client of the upload hangs up. *)
Lemma counter_balance_witness :
  exists p q bs lost, sample_pool.1 = [p; q] /\ sample_pool.2.(queue_depth) = 1 /\
    Forall2 holds bs [p; Ret tt] /\ Forall2 holds lost [q] /\ 1 = usize (occupied bs + occupied lost).
Proof.
  pose proof sample_interleaving as T. assert (L : length sample_pool.1 = 2%nat) by by vm_compute.
  assert (D : sample_pool.2.(queue_depth) = 1) by by vm_compute.
  destruct sample_pool as [[|p [|q [|]]] s]; try discriminate L. cbn [fst snd] in *.
  pose proof (turns_snoc 8 9 _ _ _ _ _ T (turn_hangs_up 8 9 [p] q [] (Ret tt) s (or_introl eq_refl))) as T'.
  destruct (counter_balance 8 9 _ (sample_state ∅ []) _ _ T' eq_refl) as (bs & lost & F & Fl & Q & _).
  rewrite D in Q. by exists p, q, bs, lost.
Defined.

Lemma abandoned_writes_block_witness :
  exists log s', turns 2 9 log ([], sample_state ∅ []) ([], s') /\ hang_ups log = 2 /\
    exec (write_shard 2 [inl (ShardChunk "rank-0" "r1/c1" 0 sample_bytes true)]) s' = (inr ResourceExhausted, s').
Proof.
  destruct (abandoned_writes_block 2 9 (sample_state ∅ [])) as (log & s' & T & N & _ & R); [done|done|].
  exists log, s'. split; [exact T|]. split; [exact N|apply R].
Defined.
