(* ===== verification/DataPlaneProps.v ===== *)
(** * What the data plane's handlers do to the bucket

    Abort and collection of orphans, the commit and the reader of [DataPlane], run one at a
    time against a storage service that may fail, or that is up; and a write that is served
    with the service up. *)

From Stdlib Require Import Ascii.
From S2P Require Import Prelude Dict JsString ObjectStorage ShardWriter DataPlane.

(** ** Deletion *)

Section Deletion.
Context (listing : view -> string -> option string -> list string) (named : string -> option string).

(** The pages together are the listing, if there is fuel for them. *)
Lemma list_pages_wp is_up fuel prefix token acc v :
  wp listing named is_up (list_pages fuel prefix token acc)
    (fun r v' => v' = v /\
      match r with
      | Some ks => ks = acc ++ listing v prefix token
      | None => is_up = true -> (fuel <= length (listing v prefix token))%nat
      end) v.
Proof.
  revert token acc. induction fuel as [|fuel IH]; intros token acc; cbn [list_pages].
  { split; [done|]. intros _. lia. }
  apply wp_try, wp_send. intros [p|] v' A; cbn in A.
  - destruct A as [-> A]. case_bool_decide as T.
    + destruct A as (Ne & _ & L). eapply wp_mono; [apply IH|]. intros r v' [-> R]. split; [done|].
      destruct r as [ks|]; [by rewrite R, L, app_assoc|]. intros Up. specialize (R Up). rewrite L, length_app.
      destruct (omap id (contents p)); [done|]. cbn [length]. lia.
    + split; [done|]. by rewrite A.
  - destruct is_up; [by destruct A as [[] _]|]. split; [|done]. destruct A as [->|(r & -> & _)]; done.
Qed.

(** Deleting some keys: whatever is answered no other key is touched, and all of them are
    gone if none of the requests fails. *)
Definition removed (is_up : bool) (P : string -> Prop) (o : gmap string bytes) (n : Z) (r : option Z) (v' : view) : Prop :=
  (forall k, ~ P k -> v'.(objects) !! k = o !! k) /\
  match r with
  | Some m => m = n /\ forall k, P k -> v'.(objects) !! k = None
  | None => is_up = false
  end.

Lemma delete_wp is_up k v :
  wp listing named is_up (delete_object k)
    (fun r v' => (forall k', k' <> k -> v'.(objects) !! k' = v.(objects) !! k') /\
      match r with Some _ => v'.(objects) = delete k v.(objects) | None => is_up = false end) v.
Proof.
  apply wp_send. intros [[]|] v' A; cbn in A.
  - subst v'. cbn. split; [|done]. intros k' D. by rewrite lookup_delete_ne.
  - destruct is_up; [by destruct A as [[] _]|]. split; [|done]. intros k' D.
    destruct A as [->|(r & ->)]; [done|]. cbn. by rewrite lookup_delete_ne.
Qed.

Lemma delete_keys_wp is_up keys n v :
  wp listing named is_up (delete_keys keys n)
    (removed is_up (fun k => k ∈ keys) v.(objects) (foldl (fun n _ => u32 (n + 1)) n keys)) v.
Proof.
  revert n v. induction keys as [|key keys IH]; intros n v; cbn [delete_keys foldl].
  { cbn [wp]. split; [done|]. split; [done|]. intros k I. by apply elem_of_nil in I. }
  apply wp_try. eapply wp_mono; [apply delete_wp|]. intros [[]|] v1 [K R].
  - eapply wp_mono; [apply IH|]. intros r v' [K' R']. split.
    + intros k N. apply not_elem_of_cons in N as [D N]. by rewrite K', K.
    + destruct r as [m|]; [|done]. destruct R' as [-> R']. split; [done|]. intros k I.
      destruct (decide (k ∈ keys)) as [I'|N]; [by apply R'|]. apply elem_of_cons in I as [->|I]; [|done].
      rewrite K', R by done. apply lookup_delete_eq.
  - split; [|done]. intros k N. apply not_elem_of_cons in N as [D N]. by apply K.
Qed.

Lemma delete_shards_keys is_up keys n Q v :
  wp listing named is_up (delete_keys (filter (fun k => ends_with k "_manifest.json" = false) keys) n) Q v ->
  wp listing named is_up (delete_shards keys n) Q v.
Proof.
  revert n v. induction keys as [|k keys IH]; intros n v; [done|]. cbn [delete_shards]. rewrite filter_cons.
  destruct (ends_with k "_manifest.json"); case_decide; try done; [apply IH|].
  cbn [delete_keys]. intros W r v' O. specialize (W r v' O). destruct r; [by apply IH|done].
Qed.

Lemma count_u32 {A} (l : list A) n : 0 <= n < 2 ^ 32 -> foldl (fun n _ => u32 (n + 1)) n l = u32 (n + Z.of_nat (length l)).
Proof.
  revert n. induction l as [|x l IH]; intros n L; cbn [foldl length].
  { unfold u32. by rewrite Z.add_0_r, Z.mod_small. }
  rewrite IH by (unfold u32; apply Z.mod_pos_bound; lia). unfold u32. rewrite Zplus_mod_idemp_l. f_equal. lia.
Qed.
End Deletion.

Section Garbage.
Context {C : Cloud} {CL : CloudLaws C}.

(** What an abort removes *)
Definition aborted (run cp k : string) : Prop :=
  starts_with k (run +:+ "/" +:+ cp +:+ "/") = true /\ ends_with k "_manifest.json" = false.
#[export] Instance aborted_dec run cp k : Decision (aborted run cp k).
Proof. unfold aborted. apply _. Defined.

Lemma delete_checkpoint_wp is_up fuel run cp v :
  wp listing source_named is_up (delete_checkpoint_shards fuel run cp)
    (fun r v' => (forall k, ~ aborted run cp k -> v'.(objects) !! k = v.(objects) !! k) /\
      match r with
      | Some n => (forall k, aborted run cp k -> v'.(objects) !! k = None) /\
          n = u32 (Z.of_nat (size (filter (fun e => aborted run cp e.1) v.(objects))))
      | None => is_up = true -> (fuel <= size v.(objects))%nat
      end) v.
Proof.
  apply wp_try. eapply wp_mono; [apply list_pages_wp|].
  set (prefix := run +:+ "/" +:+ cp +:+ "/"). destruct (listing_complete v prefix) as [N L].
  intros [ks|] v1 [-> R].
  - cbn [app] in R. subst ks. apply delete_shards_keys.
    set (keys := filter _ _). eapply wp_mono; [apply delete_keys_wp|]. intros r v' [K R].
    assert (M : forall k, k ∈ keys <-> aborted run cp k /\ is_Some (v.(objects) !! k)).
    { intros k. unfold keys, aborted. rewrite list_elem_of_filter, L. tauto. }
    split.
    + intros k A. apply K. intros [A' _]%M. done.
    + destruct r as [n|]; [|by subst is_up]. destruct R as [-> R]. split.
      * intros k A. destruct (decide (k ∈ keys)) as [I|I]; [by apply R|]. rewrite K by done.
        apply eq_None_not_Some. intros S. apply I, M. done.
      * rewrite count_u32, Z.add_0_l by done. f_equal. f_equal.
        transitivity (size (list_to_set keys : gset string)).
        { symmetry. apply size_list_to_set. unfold keys. by apply NoDup_filter. }
        rewrite <- (size_dom (D := gset string)). f_equal. apply set_eq. intros k.
        rewrite elem_of_list_to_set, M, elem_of_dom. split.
        -- intros [A [d S]]. exists d. by apply map_lookup_filter_Some.
        -- intros [d [S A]%map_lookup_filter_Some]. by split; [|exists d].
  - split; [done|]. intros Up. specialize (R Up).
    transitivity (length (listing v prefix None)); [exact R|].
    rewrite <- (size_dom (D := gset string)), <- (size_list_to_set (C := gset string)) by done.
    apply subseteq_size. intros k. rewrite elem_of_list_to_set, L, elem_of_dom. by intros [].
Qed.

(** C21: Aborting a checkpoint removes its objects and nothing else. Whatever the storage
    service answers, an abort leaves every manifest and every object outside of the
    checkpoint; one that succeeds has removed all others of the checkpoint and reports how
    many; and while the service is up it succeeds, however the listing is paged. *)
Theorem abort_exact fuel run cp (s : state) :
  let '(r, s') := exec (abort_checkpoint fuel run cp) s in
  let o := (seen s).(objects) in let o' := (seen s').(objects) in
  (forall k, ~ aborted run cp k -> o' !! k = o !! k) /\
  (forall a, r = inl a ->
     a = AbortResponse true (u32 (Z.of_nat (size (filter (fun e => aborted run cp e.1) o)))) /\
     forall k, aborted run cp k -> o' !! k = None) /\
  (forall (U : CloudUp C), CloudUpLaws C U -> up s.(cloud) -> (size o < fuel)%nat -> exists a, r = inl a).
Proof.
  unfold abort_checkpoint. rewrite exec_bind.
  destruct (exec (delete_checkpoint_shards fuel run cp) s) as [r s'] eqn:E.
  pose proof (exec_wp _ _ s (delete_checkpoint_wp false fuel run cp (seen s))) as W. rewrite E in W. cbn in W.
  destruct W as [K W]. destruct r as [n|]; cbn [exec]; cbn beta iota zeta.
  - destruct W as [R ->]. split_and!; [done|by intros a [= <-]|eauto].
  - split_and!; [done|done|]. intros U UL Up F.
    destruct (exec_wp_up _ _ s Up (delete_checkpoint_wp true fuel run cp (seen s))) as [[_ W'] _].
    rewrite E in W'. cbn in W'. specialize (W' eq_refl). lia.
Qed.

Lemma collect_groups_wp is_up run gs n v :
  wp listing source_named is_up (collect_groups run gs n)
    (fun r v' =>
      let doomed := filter (fun g => existsb (fun k => String.eqb k (manifest_key run g.1)) g.2 = false) gs ≫= snd in
      (forall k, k ∉ doomed -> v'.(objects) !! k = v.(objects) !! k) /\
      match r with
      | Some m => (forall k, k ∈ doomed -> v'.(objects) !! k = None) /\ m = foldl (fun n _ => u32 (n + 1)) n doomed
      | None => is_up = false
      end) v.
Proof.
  revert n v. induction gs as [|[cp keys] gs IH]; intros n v; cbn [collect_groups].
  { cbn. split; [done|]. split; [|done]. intros k I. by apply elem_of_nil in I. }
  rewrite filter_cons. destruct (existsb (fun k => String.eqb k (manifest_key run cp)) keys) eqn:E;
    [rewrite decide_False by (cbn [fst snd]; by rewrite E); apply IH|rewrite decide_True by done].
  apply wp_try. eapply wp_mono; [apply delete_keys_wp|]. intros [m|] v1 [K R].
  - destruct R as [-> R]. eapply wp_mono; [apply IH|]. cbn zeta. intros r v' [K' R'].
    set (doomed := filter _ gs ≫= snd) in *. rewrite bind_cons. cbn [snd]. split.
    + intros k N. apply not_elem_of_app in N as [N1 N2]. by rewrite K', K.
    + destruct r as [m|]; [|done]. destruct R' as [R' ->]. split; [|by rewrite foldl_app].
      intros k I. destruct (decide (k ∈ doomed)) as [I'|N]; [by apply R'|].
      apply elem_of_app in I as [I|I]; [|done]. rewrite K' by done. by apply R.
  - rewrite bind_cons. cbn [snd]. split; [|done]. intros k N. apply not_elem_of_app in N as [N1 _]. by apply K.
Qed.

Lemma split_units_free sep l : Forall (Forall (fun c => c <> sep)) (split_units sep l).
Proof.
  induction l as [|c l IH]; cbn [split_units]; [by repeat constructor|].
  destruct (Ascii.eqb_spec c sep) as [->|N]; [by constructor|].
  destruct (split_units sep l) as [|w ws]; [by repeat constructor|].
  apply Forall_cons in IH as [W F]. constructor; [by constructor|done].
Qed.
Lemma checkpoint_part_free k cp : checkpoint_part k = Some cp -> slash_free cp.
Proof.
  unfold checkpoint_part, split. intros E.
  pose proof (split_units_free "/" (units k)) as F.
  destruct (split_units "/" (units k)) as [|a [|b [|c l]]]; try done. cbn in E. injection E as <-.
  apply Forall_cons in F as [_ [F _]%Forall_cons]. unfold slash_free. by rewrite units_of_units.
Qed.
Lemma checkpoint_part_manifest run cp : slash_free run -> slash_free cp -> checkpoint_part (manifest_key run cp) = Some cp.
Proof.
  intros R F. unfold checkpoint_part, manifest_key, split. rewrite !units_app.
  change (units "/") with ["/"%char]. change (units "/_manifest.json") with ("/"%char :: units "_manifest.json").
  cbn [app]. rewrite (split_units_word "/" (units run)) by done. rewrite (split_units_word "/" (units cp)) by done.
  cbn [fmap list_fmap]. rewrite of_units_units.
  pose proof (split_units_nonempty "/" (units "_manifest.json")). by destruct (split_units _ (units "_manifest.json")).
Qed.

(** The objects of a run's checkpoint directories that have no manifest *)
Definition orphaned (run : string) (o : gmap string bytes) (k : string) : Prop :=
  starts_with k (run +:+ "/") = true /\
  match checkpoint_part k with Some cp => o !! manifest_key run cp = None | None => False end.
#[export] Instance orphaned_dec run o k : Decision (orphaned run o k).
Proof. unfold orphaned. destruct (checkpoint_part k); apply _. Defined.

Lemma doomed_orphaned run keys o k :
  slash_free run -> (forall k, k ∈ keys <-> is_Some (o !! k) /\ starts_with k (run +:+ "/") = true) ->
  k ∈ (filter (fun g => existsb (fun k => String.eqb k (manifest_key run g.1)) g.2 = false) (by_checkpoint keys) ≫= snd) <->
  is_Some (o !! k) /\ orphaned run o k.
Proof.
  intros F L. rewrite list_elem_of_bind. set (part := fun k => default "" (checkpoint_part k)).
  set (dirs := filter (fun k => in_checkpoint_dir k = true) keys).
  assert (G : forall k0 cp, k0 ∈ filter (fun k => part k = cp) dirs <->
            (is_Some (o !! k0) /\ starts_with k0 (run +:+ "/") = true) /\ checkpoint_part k0 = Some cp).
  { intros k0 cp. unfold dirs. rewrite !list_elem_of_filter, L. unfold in_checkpoint_dir, part.
    destruct (checkpoint_part k0) as [c|]; cbn; split; try (by intuition congruence). }
  split.
  - intros ([cp g] & Ik & [M I]%list_elem_of_filter). cbn [fst snd] in *. apply group_by_elem in I as [-> _].
    apply G in Ik as ([S P] & Ck). split; [done|]. split; [done|]. rewrite Ck.
    apply eq_None_not_Some. intros S'. apply not_true_iff_false in M. apply M, existsb_exists.
    exists (manifest_key run cp). rewrite String.eqb_refl. split; [|done]. apply list_elem_of_In, G.
    pose proof (checkpoint_part_free _ _ Ck). split; [|by apply checkpoint_part_manifest]. split; [done|].
    apply starts_with_spec. exists (cp +:+ "/_manifest.json"). unfold manifest_key. by rewrite app_assoc_str.
  - intros (S & P & O). destruct (checkpoint_part k) as [cp|] eqn:Ck; [|done].
    assert (Ik : k ∈ filter (fun k => part k = cp) dirs) by (by apply G).
    exists (cp, filter (fun k => part k = cp) dirs). split; [exact Ik|]. apply list_elem_of_filter. cbn [fst snd]. split.
    + apply not_true_iff_false. intros (m & Im & E)%existsb_exists. apply String.eqb_eq in E as ->.
      apply list_elem_of_In, G in Im as ([[d S'] _] & _). by rewrite O in S'.
    + apply group_by_elem. split; [done|]. intros E. rewrite E in Ik. by apply elem_of_nil in Ik.
Qed.

(** C15: The collector removes the checkpoint directories without a manifest and nothing else:
    what it touches is in one, whatever is answered, and when it succeeds none of it is
    left and the number it reports is theirs; it succeeds while the service is up. *)
Theorem orphans_exact fuel run (s : state) : slash_free run ->
  let '(r, s') := exec (collect_orphans fuel run) s in
  let o := (seen s).(objects) in let o' := (seen s').(objects) in
  (forall k, ~ orphaned run o k -> o' !! k = o !! k) /\
  (forall n, r = Some n ->
     n = u32 (Z.of_nat (size (filter (fun e => orphaned run o e.1) o))) /\ forall k, orphaned run o k -> o' !! k = None) /\
  (forall (U : CloudUp C), CloudUpLaws C U -> up s.(cloud) -> (size o < fuel)%nat -> is_Some r).
Proof.
  intros F. set (o := (seen s).(objects)).
  destruct (listing_complete (seen s) (run +:+ "/")) as [N L]. fold o in L.
  assert (W : forall is_up, wp listing source_named is_up (collect_orphans fuel run)
    (fun r v' => (forall k, ~ orphaned run o k -> v'.(objects) !! k = o !! k) /\
      match r with
      | Some n => n = u32 (Z.of_nat (size (filter (fun e => orphaned run o e.1) o))) /\
          forall k, orphaned run o k -> v'.(objects) !! k = None
      | None => is_up = true -> (fuel <= size o)%nat
      end) (seen s)).
  { intros is_up. apply wp_try. eapply wp_mono; [apply list_pages_wp|]. intros [ks|] v1 [-> R].
    - cbn [app] in R. subst ks. eapply wp_mono; [apply collect_groups_wp|]. cbn zeta. intros r v' [K R].
      set (doomed := filter _ _ ≫= snd) in *.
      assert (D : forall k, k ∈ doomed <-> is_Some (o !! k) /\ orphaned run o k) by (intros; by apply doomed_orphaned).
      split; [intros k Nk; apply K; by rewrite D; intros []|]. destruct r as [n|]; [|by subst is_up].
      destruct R as [R ->]. split.
      + rewrite count_u32, Z.add_0_l by done. f_equal. f_equal.
        transitivity (size (list_to_set doomed : gset string)).
        { symmetry. apply size_list_to_set. unfold doomed.
          assert (Sub : filter (fun g => existsb (fun k => String.eqb k (manifest_key run g.1)) g.2 = false)
                          (by_checkpoint (listing (seen s) (run +:+ "/") None)) ⊆+ by_checkpoint (listing (seen s) (run +:+ "/") None))
            by apply sublist_submseteq, sublist_filter.
          rewrite (group_pick _ _ _ Sub). by do 2 apply NoDup_filter. }
        rewrite <- (size_dom (D := gset string)). f_equal. apply set_eq. intros k.
        rewrite elem_of_list_to_set, D, elem_of_dom. split.
        * intros [[d S] A]. exists d. by apply map_lookup_filter_Some.
        * intros [d [S A]%map_lookup_filter_Some]. by split; [exists d|].
      + intros k O. destruct (decide (is_Some (o !! k))) as [S|S]; [by apply R, D|].
        rewrite K by (rewrite D; tauto). by apply eq_None_not_Some.
    - split; [done|]. intros Up. specialize (R Up).
      transitivity (length (listing (seen s) (run +:+ "/") None)); [exact R|].
      rewrite <- (size_dom (D := gset string)), <- (size_list_to_set (C := gset string)) by done.
      apply subseteq_size. intros k. rewrite elem_of_list_to_set, L, elem_of_dom. by intros []. }
  destruct (exec (collect_orphans fuel run) s) as [r s'] eqn:E.
  pose proof (exec_wp _ _ s (W false)) as [K R]. rewrite E in K, R. cbn in K, R. split; [exact K|]. split.
  - intros n ->. exact R.
  - intros U UL Up Fu. destruct (exec_wp_up _ _ s Up (W true)) as [[_ R'] _]. rewrite E in R'. cbn in R'.
    destruct r; [by eexists|]. specialize (R' eq_refl). lia.
Qed.
End Garbage.

(** ** Reading and committing *)

Lemma pieces_spec fuel n d : 0 < n -> (length d <= fuel)%nat ->
  concat (pieces fuel n d) = d /\ Forall (fun p => 0 < len p <= n) (pieces fuel n d) /\
  forall i p, pieces fuel n d !! i = Some p -> (S i < length (pieces fuel n d))%nat -> len p = n.
Proof.
  intros Hn. revert d. induction fuel as [|fuel IH]; intros d L.
  { destruct d; [|cbn in L; lia]. by split_and!; [|constructor|]. }
  destruct d as [|b d]; [by split_and!; [|constructor|]|]. cbn [pieces].
  set (t := take (Z.to_nat n) (b :: d)). set (rest := drop (Z.to_nat n) (b :: d)).
  assert (Lt : len t = Z.min n (len (b :: d))) by (unfold len, t in *; rewrite length_take; lia).
  assert (Lr : (length rest <= fuel)%nat) by (unfold rest; rewrite length_drop; cbn [length] in *; lia).
  destruct (IH rest Lr) as (C & F & I). cbn [concat length]. split_and!.
  - rewrite C. apply take_drop.
  - constructor; [|done]. rewrite Lt. unfold len in *. cbn [length]. lia.
  - intros [|i] p E S; cbn in E.
    + injection E as <-. rewrite Lt. apply Z.min_l.
      destruct (Z.le_gt_cases n (len (b :: d))) as [|G]; [done|]. exfalso.
      assert (rest = []) as Er by (apply drop_ge; unfold len in G; lia). rewrite Er in S.
      destruct fuel; cbn in S; lia.
    + eapply I; [exact E|]. lia.
Qed.

Lemma chunks_spec n d : 0 < n ->
  concat (chunks n d) = d /\ Forall (fun p => 0 < len p <= n) (chunks n d) /\
  forall i p, chunks n d !! i = Some p -> (S i < length (chunks n d))%nat -> len p = n.
Proof. intros Hn. by apply pieces_spec. Qed.

Lemma stream_of_data shard cp cs : map k_data (stream_of shard cp cs) = cs.
Proof.
  unfold stream_of. change (map k_data ?l) with (k_data <$> l). rewrite fmap_imap.
  generalize (fun i => Z.of_nat i =? Z.of_nat (length cs) - 1). generalize (fun i => Z.of_nat i * 4 * 1024 * 1024).
  induction cs as [|c cs IH]; intros f g; [done|]. cbn. f_equal. apply (IH (f ∘ S) (g ∘ S)).
Qed.

Section Sequential.
Context `{ManifestJson}.
Context (listing : view -> string -> option string -> list string) (named : string -> option string).

(** A commit leaves the manifest that is there, or puts its own. *)
Definition committed_as (r : commit_request) (o : gmap string bytes) (o' : gmap string bytes) : Prop :=
  let k := manifest_key r.(cr_run_id) r.(cr_checkpoint_id) in
  exists json, o' = <[k := json]> o /\
    (o !! k = Some json \/ exists at_, to_string_pretty (commit_manifest r at_) = Some json).

Lemma commit_wp is_up r v :
  (forall at_, is_Some (to_string_pretty (commit_manifest r at_))) ->
  wp listing named is_up (commit_checkpoint r)
    (fun resp v' =>
      let k := manifest_key r.(cr_run_id) r.(cr_checkpoint_id) in
      (resp = CommitResponse true k /\ committed_as r v.(objects) v'.(objects) /\
        (is_up = true -> is_Some (v.(objects) !! k) -> v'.(objects) = v.(objects))) \/
      (is_up = false /\ resp = CommitResponse false "" /\ forall k', k' <> k -> v'.(objects) !! k' = v.(objects) !! k')) v.
Proof.
  intros J. set (k := manifest_key _ _). intros at_ v0 ->. cbn [bind].
  apply wp_bind, wp_try. eapply wp_mono; [apply exists_wp|]. intros [[]|] v1; [| |done].
  - intros [-> [json E]]. cbn [wp]. intros ? v2 ->. cbn [bind wp]. left. split; [done|].
    split; [|done]. exists json. split; [by rewrite insert_id|]. by left.
  - intros [-> N]. unfold write_manifest. cbn [commit_manifest mf_run_id mf_checkpoint_id]. destruct (J at_) as [json E].
    cbn [negb]. rewrite E. apply wp_try, wp_send. intros [[]|] v2 A; cbn in A; cbn [wp]; intros ? v3 ->; cbn [bind wp].
    + subst v2. left. split; [done|]. split; [exists json; split; [done|]; right; eauto|].
      intros Up [d S]. cbn in N. unfold k in S. by rewrite N in S.
    + destruct is_up; [by destruct A as [[] _]|]. right. split_and!; [done|done|]. intros k' D.
      destruct A as [->|(_ & ->)]; [done|]. cbn. by rewrite lookup_insert_ne.
Qed.

(** Reading back, when the manifest and the object are there *)
Lemma read_shard_wp shard cp run m json meta body v :
  v.(objects) !! manifest_key run cp = Some json -> from_slice json = Some m ->
  List.find (fun s => String.eqb s.(ms_shard_id) shard) m.(mf_shards) = Some meta ->
  v.(objects) !! meta.(ms_storage_key) = Some body ->
  wp listing named true (read_shard shard cp run)
    (fun r v' => r = inl (stream_of shard cp (chunks read_chunk_size body)) /\ v' = v) v.
Proof.
  intros E J F B. apply wp_bind, wp_try. eapply wp_mono; [apply exists_wp|]. intros [[]|] v1; [| |done].
  2: { intros [-> N]. specialize (N eq_refl). congruence. }
  intros [-> _]. cbn [negb]. apply wp_try, wp_send. intros [data|] v2 A; cbn in A.
  2: { destruct A as [A _]. destruct A. by exists json. }
  destruct A as [A ->]. rewrite E in A. injection A as <-. rewrite J. cbn [wp]. rewrite F.
  apply wp_bind, wp_try, wp_send. intros [data|] v3 A; cbn in A.
  2: { destruct A as [A _]. destruct A. by exists body. }
  destruct A as [A ->]. rewrite B in A. injection A as <-. by cbn [wp].
Qed.
End Sequential.

Section Commit.
Context {C : Cloud} {CL : CloudLaws C} `{ManifestJson}.

(** C22: Committing is idempotent: the manifest is the commit point. A commit that is answered
    with success has left a manifest under its key, its own or the one that was there; a
    commit that is refused has touched nothing else; and while the service is up every
    commit succeeds and a second one, whatever it lists, changes nothing. *)
Theorem commit_idempotent r r2 (s : state) :
  (forall at_, is_Some (to_string_pretty (commit_manifest r at_))) ->
  (forall at_, is_Some (to_string_pretty (commit_manifest r2 at_))) ->
  let k := manifest_key r.(cr_run_id) r.(cr_checkpoint_id) in
  k = manifest_key r2.(cr_run_id) r2.(cr_checkpoint_id) ->
  let '(a, s1) := exec (commit_checkpoint r) s in
  let '(a2, s2) := exec (commit_checkpoint r2) s1 in
  (if a.(co_success) then a = CommitResponse true k /\ committed_as r (seen s).(objects) (seen s1).(objects)
   else forall k', k' <> k -> (seen s1).(objects) !! k' = (seen s).(objects) !! k') /\
  (forall (U : CloudUp C), CloudUpLaws C U -> up s.(cloud) ->
     a.(co_success) = true /\ a2 = CommitResponse true k /\ (seen s2).(objects) = (seen s1).(objects)).
Proof.
  intros J J2 k E2. destruct (exec (commit_checkpoint r) s) as [a s1] eqn:E.
  destruct (exec (commit_checkpoint r2) s1) as [a2 s2] eqn:E'. split.
  - pose proof (exec_wp _ _ s (commit_wp listing source_named false r (seen s) J)) as W. rewrite E in W. cbn in W.
    by destruct W as [(-> & K & _)|(_ & -> & K)].
  - intros U UL Up. destruct (exec_wp_up _ _ s Up (commit_wp listing source_named true r (seen s) J)) as [W Up1].
    rewrite E in W, Up1. cbn in W, Up1. destruct W as [(-> & (json & O & _) & _)|[? _]]; [|done]. split; [done|].
    destruct (exec_wp_up _ _ s1 Up1 (commit_wp listing source_named true r2 (seen s1) J2)) as [W2 _]. rewrite E' in W2. cbn in W2.
    destruct W2 as [(-> & _ & K)|[? _]]; [|done]. rewrite <- E2. split; [done|]. apply K; [done|].
    rewrite <- E2, O. fold k. rewrite lookup_insert_eq. by eexists.
Qed.
End Commit.

(** ** A write, served *)

Section WriteHandler.
Context {C : Cloud} {CL : CloudLaws C} `{SL : Sha256Laws} {U : CloudUp C} {UL : CloudUpLaws C U}.

Lemma exec_depth {A} (p : prog A) s : every (fun R e => delta e = None) p -> (exec p s).2.(queue_depth) = s.(queue_depth).
Proof.
  revert s. induction p as [a|R e k IH]; intros s E; [done|]. destruct E as [D E]. cbn [exec].
  pose proof (effect_plausible e s) as Pl.
  assert (Q : (do_effect e s).2.(queue_depth) = s.(queue_depth)).
  { destruct e as [R c| | | | | |]; try discriminate D; cbn; unfold on_cloud; try done;
      [by destruct (send c _)|by destruct (new_v4 _)|by destruct (utc_now _)]. }
  destruct (do_effect e s) as [r s']. cbn in *. rewrite <- Q. by apply IH, E.
Qed.

Lemma feed_same shard id (cs : list (Z * bytes * bool)) :
  feed shard id (map (fun c => inl (ShardChunk shard id c.1.1 c.1.2 c.2)) cs) = map (fun c => inl c.1.2) cs.
Proof. induction cs as [|[[o d] l] cs IH]; [done|]. cbn. rewrite !String.eqb_refl. cbn. by f_equal. Qed.
Lemma received_all {A} (f : A -> bytes) (cs : list A) :
  received (map (fun c => inl (f c)) cs) = Some (concat (map f cs)).
Proof. induction cs as [|c cs IH]; [done|]. cbn [map]. by rewrite received_cons, IH. Qed.

Lemma cut_slash_word w l : Forall (fun c => c <> "/"%char) w -> cut_slash (w ++ "/"%char :: l) = Some (w, l).
Proof.
  induction w as [|c w IH]; intros F; [done|]. apply Forall_cons in F as [N F]. cbn [app cut_slash].
  apply Ascii.eqb_neq in N as ->. by rewrite IH.
Qed.
Lemma split_composite run cp : slash_free run -> split_checkpoint_id (run +:+ "/" +:+ cp) = (run, cp).
Proof.
  intros F. unfold split_checkpoint_id. rewrite !units_app. change (units "/") with ["/"%char]. cbn [app].
  rewrite cut_slash_word by done. by rewrite !of_units_units.
Qed.

(** A shard that the service has room for, while the storage is up and nothing is under
    its key *)
Lemma write_shard_ok max_depth run cp shard (cs : list (Z * bytes * bool)) (s : state) :
  slash_free run -> up s.(cloud) -> 0 <= s.(queue_depth) < max_depth -> max_depth < 2 ^ 64 ->
  let body := concat (map (fun c => c.1.2) cs) in
  0 < len body <= max_copy_size -> plain_names run cp shard ->
  let key := content_addressed_key run cp shard (sha256_hex body) in
  (seen s).(objects) !! key = None ->
  exists uuid s', is_uuid uuid /\
    exec (write_shard max_depth (map (fun c => inl (ShardChunk shard (run +:+ "/" +:+ cp) c.1.1 c.1.2 c.2)) cs)) s =
      (inl (WriteShardResponse shard (len body) (sha256_hex body) true), s') /\
    up s'.(cloud) /\ s'.(queue_depth) = s.(queue_depth) /\
    (seen s').(objects) = <[checksum_key run cp shard := bytes_of (sha256_hex body)]>
      (delete (staging_key run cp shard uuid) (<[key := body]> (seen s).(objects))).
Proof.
  intros F Up D M body L P key N. unfold write_shard. cbn [perform bind exec do_effect].
  destruct (Z.leb_spec max_depth s.(queue_depth)); [lia|]. cbn [bind exec do_effect].
  set (s1 := set_depth _ s). destruct cs as [|[[o d] l] cs]; [exfalso; unfold body, len in L; cbn in L; lia|].
  cbn [map fst snd k_checkpoint_id k_shard_id k_data]. rewrite split_composite by done. cbn [fst snd]. rewrite feed_same.
  set (data := inl d :: map (fun c => inl c.1.2) cs).
  assert (R : received data = Some body).
  { unfold data. change (inl d :: _) with (map (fun c : Z * bytes * bool => inl (B := string) c.1.2) ((o, d, l) :: cs)).
    by rewrite received_all. }
  rewrite exec_bind. pose proof (exec_depth (write_shard_stream run cp shard data) s1) as Q.
  destruct (exec_wp_up _ _ s1 Up (write_wp listing source_named source_plain run cp shard true data (seen s1))) as [W Up2].
  destruct (exec (write_shard_stream run cp shard data) s1) as [r s2]. cbn [fst snd] in *.
  destruct W as (uuid & Uu & W). destruct r as [r|].
  - destruct W as (body' & kept & R' & Ne & -> & K & O). rewrite R in R'. injection R' as <-.
    cbn [w_storage_key w_shard_id w_total_bytes w_sha256_checksum] in *. fold key in K, O.
    change (seen s1) with (seen s) in *. destruct K as [->|[K|[? _]]]; [|by rewrite N in K|done].
    exists uuid. eexists. split; [done|]. cbn. split; [done|]. split; [exact Up2|]. split; [|exact O].
    rewrite Q by apply writer_delta, write_calls. unfold s1. cbn. rewrite usize_add. unfold usize.
    replace (s.(queue_depth) + 1 + -1) with s.(queue_depth) by lia. apply Z.mod_small. lia.
  - destruct W as (_ & _ & W). specialize (W eq_refl body R).
    assert (Nb : body <> []) by (intros E; rewrite E in L; unfold len in L; cbn in L; lia). specialize (W Nb).
    unfold too_many, max_parts, MULTIPART_PART_SIZE, max_copy_size in *. destruct W as [W|[_ [W|W]]]; [lia|lia|done].
Qed.
End WriteHandler.

(** ** Witnesses *)

#[local] Existing Instances Memory.cloud Memory.cloud_laws Memory.cloud_up Memory.cloud_up_laws.
#[local] Existing Instances PlainDigest.digest PlainDigest.digest_laws PlainJson.json PlainJson.json_laws.

(** A committed and an uncommitted checkpoint of two runs *)
Definition sample_objects : gmap string bytes :=
  list_to_map (map (fun k => (k, sample_bytes))
    ["r1/c1/sha256-00-rank-0.bin"; "r1/c1/rank-0.sha256"; "r1/c1/_manifest.json"; "r1/c2/sha256-00-rank-0.bin";
     "r1/c2/.multipart-rank-1-0"; "r2/c1/sha256-00-rank-0.bin"; "r1/note"]).

Lemma abort_exact_witness :
  exists a s', exec (abort_checkpoint 9 "r1" "c1") (sample_state sample_objects []) = (inl a, s') /\
    ab_shards_deleted a = 2 /\ (seen s').(objects) !! "r1/c1/rank-0.sha256" = None /\
    (seen s').(objects) !! "r1/c1/_manifest.json" = Some sample_bytes.
Proof.
  pose proof (abort_exact 9 "r1" "c1" (sample_state sample_objects [])) as H.
  destruct (exec _ _) as [r s']. cbn zeta in H. destruct H as (K & R & Up).
  destruct (Up _ Memory.cloud_up_laws eq_refl ltac:(by apply Nat.ltb_lt; vm_compute)) as [a ->].
  destruct (R a eq_refl) as [Ea Rm]. exists a, s'. split; [reflexivity|]. split; [rewrite Ea; by vm_compute|]. split.
  - apply Rm. split; by vm_compute.
  - rewrite K; [by vm_compute|]. intros [_ E]. by vm_compute in E.
Defined.

Lemma orphans_exact_witness :
  exists s', exec (collect_orphans 9 "r1") (sample_state sample_objects []) = (Some 2, s') /\
    (seen s').(objects) !! "r1/c2/sha256-00-rank-0.bin" = None /\
    (seen s').(objects) !! "r1/c1/rank-0.sha256" = Some sample_bytes.
Proof.
  pose proof (orphans_exact 9 "r1" (sample_state sample_objects []) ltac:(by apply (bool_decide_unpack _); vm_compute)) as H.
  destruct (exec _ _) as [r s']. cbn zeta in H. destruct H as (K & R & Up).
  destruct (Up _ Memory.cloud_up_laws eq_refl ltac:(by apply Nat.ltb_lt; vm_compute)) as [n ->].
  destruct (R n eq_refl) as [En Rm]. exists s'. assert (n = 2) as -> by (rewrite En; by vm_compute).
  split; [reflexivity|]. split.
  - apply Rm. apply (bool_decide_unpack _). by vm_compute.
  - rewrite K; [by vm_compute|]. apply (bool_decide_unpack _). by vm_compute.
Defined.

Lemma commit_idempotent_witness :
  let '(a, s1) := exec (commit_checkpoint (CommitRequest "c1" "r1" 50 [] ∅)) (sample_state ∅ []) in
  let '(a2, s2) := exec (commit_checkpoint (CommitRequest "c1" "r1" 60 [] ∅)) s1 in
  a.(co_success) = true /\ a2 = CommitResponse true "r1/c1/_manifest.json" /\ (seen s2).(objects) = (seen s1).(objects).
Proof.
  pose proof (commit_idempotent (CommitRequest "c1" "r1" 50 [] ∅) (CommitRequest "c1" "r1" 60 [] ∅) (sample_state ∅ [])
    ltac:(by eexists) ltac:(by eexists) eq_refl) as H.
  destruct (exec _ _) as [a s1]. destruct (exec _ _) as [a2 s2]. destruct H as [_ H].
  exact (H _ Memory.cloud_up_laws eq_refl).
Defined.
