(* ===== verification/Transfer.v ===== *)
(** * A checkpoint through both programs

    [Checkpointing] takes what the data plane answers as an argument; here it is what the
    handlers of [DataPlane] answer. [python-controlplane/src/controlplane/api/rest.py] and
    [api/grpc_client.py] on one side, [rust-dataplane] on the other: the upload of a shard,
    the commit with the keys the control plane computes, and the download. The encoding of
    a message is an interface with bounds on its length. *)

From Stdlib Require Import Ascii.
From S2P Require Import Prelude Dict JsString JsNum Types ControlPlane Html Host StorageBrowser Retention Heartbeat Workers Recovery.
From S2P Require Import Checkpointing.
From S2P Require Import ObjectStorage ShardWriter DataPlane DataPlaneProps.

Import Coordinator.

(** ** The gRPC client *)

(** The length of an encoded message: its data and little more *)
Class Protobuf : Type := { encoded_len : shard_chunk -> Z }.
Definition envelope (c : shard_chunk) : Z := 64 + 4 * (str_length c.(k_shard_id) + str_length c.(k_checkpoint_id)).
Class ProtobufLaws (P : Protobuf) : Prop := {
  encoded_len_bounds c : c.(k_data) <> [] -> len c.(k_data) < encoded_len c <= len c.(k_data) + envelope c
}.
(** What a channel without options accepts *)
Definition max_receive_message_length : Z := 4 * 1024 * 1024.

(** [write_shard] of the client: an error, or the result if it is a success *)
Definition client_write (r : write_response + status) : option Checkpointing.write_result :=
  match r with
  | inl w => if wr_success w
             then Some (Checkpointing.WriteResult (wr_total_bytes w) (wr_sha256_checksum w) true) else None
  | inr _ => None
  end.
(** The messages of [chunk_iterator], with the identifiers of [upload_shard] *)
Definition messages (run cp shard : string) (body : bytes) : list (shard_chunk + string) :=
  map (fun c => inl (ShardChunk shard (run +:+ "/" +:+ cp) (ch_offset c) (ch_data c) (ch_last c))) (chunk_iterator body).
Definition proto_shard (i : shard_info) : manifest_shard :=
  ManifestShard (sh_id i) (sh_rank i) (sh_size i) (sh_sha256 i) (sh_key i).

Section Loop.
Context `{Cloud} `{Sha256} `{ManifestJson}.
Context (max_depth : Z) (fuel : nat).

Record system : Type := System { plane_side : store; data_side : state }.

(** What [_abort_failed_checkpoint] asks of the data plane *)
Definition abort_side (failed : bool) (run cp : string) (d : state) : state :=
  if failed then snd (exec (abort_checkpoint fuel run cp) d) else d.

(** [POST /api/runs/{run_id}/checkpoints/{checkpoint_id}/shards/{shard_id}] *)
Definition put_shard (now : Z) (run cp shard : string) (rank : Z) (body : bytes) (x : system) : reply * system :=
  match upload_shard true run cp shard rank body x.(plane_side) with
  | inl rep => (rep, x)
  | inr _ =>
      let '(r, d) := exec (DataPlane.write_shard max_depth (messages run cp shard body)) x.(data_side) in
      let result := client_write r in
      let '(rep, s) := upload_settled now result run cp shard rank x.(plane_side) in
      (rep, System s (abort_side (bool_decide (result = None)) run cp d))
  end.

(** [POST /api/runs/{run_id}/commit] *)
Definition commit_shards (now : Z) (run : string) (x : system) : reply * system :=
  match Checkpointing.commit_run true run x.(plane_side) with
  | inl rep => (rep, x)
  | inr (Checkpointing.CommitCheckpoint run cp, step, infos) =>
      let '(r, d) := exec (commit_checkpoint (CommitRequest cp run step (map proto_shard infos) ∅)) x.(data_side) in
      let '(rep, s) := commit_settled now (Some r.(co_success)) run cp x.(plane_side) in
      (rep, System s (abort_side (negb r.(co_success)) run cp d))
  | inr _ => (Reply 500 [], x)
  end.

(** [download_shard]: the content, or a status. What the client raises is not caught. *)
Inductive download : Type := Content (body : bytes) | Refused (status_code : Z).
Definition received_messages `{Protobuf} (r : list shard_chunk + status) : download :=
  match r with
  | inr _ => Refused 500
  | inl msgs =>
      if forallb (fun m => encoded_len m <=? max_receive_message_length) msgs then
        match msgs with [] => Refused 404 | _ => Content (concat (map k_data msgs)) end
      else Refused 500
  end.
Definition download_shard `{Protobuf} (run cp shard : string) (x : system) : download * system :=
  let '(r, d) := exec (DataPlane.read_shard shard cp run) x.(data_side) in
  (received_messages r, System x.(plane_side) d).

(** The shards of a checkpoint, one after the other *)
Record part : Type := Part { p_shard : string; p_rank : Z; p_body : bytes }.
Definition put_shards (now : Z) (run cp : string) (ps : list part) (x : system) : list reply * system :=
  foldl (fun acc p => let '(rep, x) := put_shard now run cp (p_shard p) (p_rank p) (p_body p) acc.2 in
                      (acc.1 ++ [rep], x)) ([], x) ps.
End Loop.

(** ** Keys of one checkpoint *)

Lemma content_key_inj run cp s s' h h' :
  (16 <= length (units h))%nat -> (16 <= length (units h'))%nat ->
  content_addressed_key run cp s h = content_addressed_key run cp s' h' -> s = s'.
Proof.
  intros L L' E%(f_equal units). unfold content_addressed_key in E. rewrite !units_app in E.
  apply app_inv_head in E. apply app_inv_head in E. apply app_inv_head in E. apply app_inv_head in E.
  rewrite !(str_slice_prefix 16), !units_of_units in E by lia.
  apply app_inj_1 in E as [_ E]; [|rewrite !length_take_le by done; done].
  apply app_inv_head in E. apply app_inv_tail in E. by apply units_inj.
Qed.
Lemma in_dir (run cp rest : string) : starts_with (run +:+ "/" +:+ cp +:+ "/" +:+ rest) (run +:+ "/" +:+ cp +:+ "/") = true.
Proof. apply starts_with_spec. exists rest. by rewrite !app_assoc_str. Qed.

(** The control plane computes the key under which the data plane has put the shard. *)
Lemma keys_agree run cp sha shard : storage_key run cp sha shard = content_addressed_key run cp shard sha.
Proof. done. Qed.

Section EndToEnd.
Context {C : Cloud} {CL : CloudLaws C} `{SL : Sha256Laws} {U : CloudUp C} {UL : CloudUpLaws C U} `{JL : ManifestJsonLaws}.
Context (max_depth : Z) (fuel : nat).

(** What the data plane answers to a shard *)
Definition upload_of (p : part) : Checkpointing.upload :=
  Checkpointing.Upload (p_shard p) (p_rank p) (p_body p)
    (Checkpointing.WriteResult (len (p_body p)) (sha256_hex (p_body p)) true).
Definition key_of (run cp : string) (p : part) : string := content_addressed_key run cp (p_shard p) (sha256_hex (p_body p)).

(** The data plane can take a shard. *)
Definition ready (d : state) : Prop := up d.(cloud) /\ 0 <= d.(queue_depth) < max_depth /\ max_depth < 2 ^ 64.

Lemma messages_body run cp shard body :
  exists cs : list (Z * bytes * bool), concat (map (fun c => c.1.2) cs) = body /\
    messages run cp shard body = map (fun c => inl (ShardChunk shard (run +:+ "/" +:+ cp) c.1.1 c.1.2 c.2)) cs.
Proof.
  exists (map (fun c => (ch_offset c, ch_data c, ch_last c)) (chunk_iterator body)). rewrite map_map. split.
  - cbn [fst snd]. unfold chunk_iterator.
    by destruct (chunks_from_spec (length body) 0 body ltac:(lia) ltac:(lia)) as [E _].
  - unfold messages. by rewrite map_map.
Qed.

Lemma put_shard_ok now run cp p info st d :
  checkpoints (st_coord st) !! cp = Some info -> c_run info = run -> slash_free run -> ready d ->
  0 < len (p_body p) <= max_copy_size -> plain_names run cp (p_shard p) -> (seen d).(objects) !! key_of run cp p = None ->
  exists uuid d', is_uuid uuid /\
    put_shard max_depth fuel now run cp (p_shard p) (p_rank p) (p_body p) (System st d) =
      (let '(rep, st') := transfer now run cp (upload_of p) st in (rep, System st' d')) /\
    ready d' /\
    (seen d').(objects) = <[checksum_key run cp (p_shard p) := bytes_of (sha256_hex (p_body p))]>
      (delete (staging_key run cp (p_shard p) uuid) (<[key_of run cp p := p_body p]> (seen d).(objects))).
Proof.
  intros E R F (Up & D & M) L P N. destruct (messages_body run cp (p_shard p) (p_body p)) as (cs & B & Ms).
  destruct (write_shard_ok max_depth run cp (p_shard p) cs d F Up D M) as (uuid & d' & Uu & W & Up' & Q & O);
    rewrite ?B; [done..|]. rewrite B in W, O.
  exists uuid, d'. split; [done|]. split; [|split; [unfold ready; by rewrite Q|exact O]].
  unfold put_shard, transfer. cbn [plane_side data_side upload_of Checkpointing.u_shard Checkpointing.u_rank Checkpointing.u_body Checkpointing.u_result].
  assert (Ad : upload_shard true run cp (p_shard p) (p_rank p) (p_body p) st = inr (Checkpointing.WriteShard run cp (p_shard p) (p_rank p))).
  { unfold upload_shard. cbn [negb]. rewrite E, R, String.eqb_refl. cbn [negb]. rewrite bool_decide_false; [done|].
    intros Em. rewrite Em in L. unfold len in L. cbn in L. lia. }
  rewrite Ad, Ms, W. cbn [client_write wr_success wr_total_bytes wr_sha256_checksum].
  rewrite bool_decide_false by done. by destruct (upload_settled _ _ _ _ _ _ _).
Qed.

(** What the data plane holds after some shards of a checkpoint *)
Record holding (run cp : string) (o : gmap string bytes) (ps : list part) (d : state) : Prop := {
  ho_ready : ready d;
  ho_shards p : p ∈ ps -> (seen d).(objects) !! key_of run cp p = Some (p_body p);
  ho_others k : starts_with k (run +:+ "/" +:+ cp +:+ "/") = false -> (seen d).(objects) !! k = o !! k;
  ho_free shard sha : shard ∉ map p_shard ps -> (16 <= length (units sha))%nat ->
    (seen d).(objects) !! content_addressed_key run cp shard sha = None;
  ho_manifest : (seen d).(objects) !! manifest_key run cp = None
}.

Lemma sha_long body : (16 <= length (units (sha256_hex body)))%nat.
Proof. unfold sha256_hex. destruct (sha_hex_digits (sha_update sha_new body)) as [-> _]. lia. Qed.

Lemma holding_snoc run cp o ps p uuid d d' :
  is_uuid uuid -> p_shard p ∉ map p_shard ps -> holding run cp o ps d -> ready d' ->
  (seen d').(objects) = <[checksum_key run cp (p_shard p) := bytes_of (sha256_hex (p_body p))]>
      (delete (staging_key run cp (p_shard p) uuid) (<[key_of run cp p := p_body p]> (seen d).(objects))) ->
  holding run cp o (ps ++ [p]) d'.
Proof.
  intros Uu N [Rd Sh Ot Fr Mf] Rd' O. split; [done|..].
  - intros q [I|I%list_elem_of_singleton]%elem_of_app; rewrite O.
    + assert (p_shard q <> p_shard p) by (intros E; apply N; rewrite <- E; by apply list_elem_of_fmap_2).
      rewrite lookup_insert_ne by (symmetry; apply final_checksum).
      rewrite lookup_delete_ne by by apply staging_final.
      rewrite lookup_insert_ne; [by apply Sh|]. intros E. apply content_key_inj in E; [done|apply sha_long..].
    + subst q. rewrite lookup_insert_ne by (symmetry; apply final_checksum).
      rewrite lookup_delete_ne by by apply staging_final. apply lookup_insert_eq.
  - intros k Hk. rewrite O.
    assert (Ne : forall rest, run +:+ "/" +:+ cp +:+ "/" +:+ rest <> k) by (intros rest <-; by rewrite in_dir in Hk).
    rewrite lookup_insert_ne by (apply (Ne (p_shard p +:+ ".sha256"))).
    rewrite lookup_delete_ne by (apply (Ne (".multipart-" +:+ p_shard p +:+ "-" +:+ uuid))).
    rewrite lookup_insert_ne by
      (apply (Ne ("sha256-" +:+ str_slice 0 (Some 16) (sha256_hex (p_body p)) +:+ "-" +:+ p_shard p +:+ ".bin"))).
    by apply Ot.
  - intros shard sha Ns Ls. rewrite map_app in Ns. apply not_elem_of_app in Ns as [Ns Np].
    rewrite O, lookup_insert_ne by (symmetry; apply final_checksum).
    rewrite lookup_delete_ne by by apply staging_final.
    rewrite lookup_insert_ne; [by apply Fr|]. intros E. apply content_key_inj in E; [|apply sha_long|done].
    apply Np. cbn. rewrite E. by left.
  - rewrite O, lookup_insert_ne by apply checksum_manifest. rewrite lookup_delete_ne by by apply staging_manifest.
    rewrite lookup_insert_ne by apply final_manifest. done.
Qed.

Lemma accepted_part p : 0 < len (p_body p) -> accepted (upload_of p).
Proof. intros L. split; [|done]. cbn. intros E. rewrite E in L. unfold len in L. cbn in L. lia. Qed.

Lemma put_shards_ok now run cp ps info st d o :
  checkpoints (st_coord st) !! cp = Some info -> c_run info = run -> infos cp st = [] -> slash_free run -> url_plain run -> url_plain cp ->
  NoDup (map p_shard ps) -> Forall (fun p => 0 < len (p_body p) <= max_copy_size /\ url_plain (p_shard p)) ps -> holding run cp o [] d ->
  exists d', put_shards max_depth fuel now run cp ps (System st d) =
      (let '(reps, st') := transfers now run cp (map upload_of ps) st in (reps, System st' d')) /\
    holding run cp o ps d'.
Proof.
  intros E R I F Pr Pc. induction ps as [|p ps IH] using rev_ind; intros N L H.
  { exists d. split; done. }
  rewrite map_app in N. apply NoDup_app in N as (N & Np & _). apply Forall_app in L as [L [[Lp Pp] _]%Forall_cons].
  destruct (IH N L H) as (d1 & Eq & H1). unfold put_shards, transfers in *. rewrite map_app, !foldl_app. cbn [foldl map].
  rewrite Eq. pose proof (transfers_spec now run cp (map upload_of ps) info st) as T.
  unfold transfers in T. destruct (foldl _ _ (map upload_of ps)) as [reps st1].
  assert (Acc : Forall accepted (map upload_of ps)).
  { apply Forall_fmap. eapply Forall_impl; [exact L|]. intros q [Lq _]. apply accepted_part. cbn in Lq. lia. }
  destruct (T Acc E R I) as (_ & _ & _ & Cp & _ & _). cbn [fst snd].
  assert (E1 : exists info1, checkpoints (st_coord st1) !! cp = Some info1 /\ c_run info1 = run).
  { rewrite Cp. case_bool_decide; [by exists info|]. rewrite lookup_insert_eq. by eexists. }
  destruct E1 as (info1 & E1 & R1).
  assert (Nn : p_shard p ∉ map p_shard ps) by (intros Ip; apply (Np _ Ip); cbn; by left).
  destruct (put_shard_ok now run cp p info1 st1 d1 E1 R1 F (ho_ready _ _ _ _ _ H1) Lp (conj Pr (conj Pc Pp))) as (uuid & d2 & Uu & P & Rd & O).
  { apply (ho_free _ _ _ _ _ H1); [done|apply sha_long]. }
  exists d2. rewrite P. destruct (transfer now run cp (upload_of p) st1) as [rep st2]. split; [done|].
  by eapply holding_snoc.
Qed.

Lemma find_part ps p (f : part -> manifest_shard) :
  (forall q, ms_shard_id (f q) = p_shard q) -> NoDup (map p_shard ps) -> p ∈ ps ->
  List.find (fun s => String.eqb (ms_shard_id s) (p_shard p)) (map f ps) = Some (f p).
Proof.
  intros Fs N I. induction ps as [|q ps IH]; [by apply elem_of_nil in I|]. cbn [map List.find]. rewrite Fs.
  cbn in N. apply NoDup_cons in N as [Nq N]. destruct (String.eqb_spec (p_shard q) (p_shard p)) as [E|D].
  - apply elem_of_cons in I as [->|I]; [done|]. destruct Nq. rewrite E. by apply list_elem_of_fmap_2.
  - apply elem_of_cons in I as [->|I]; [done|]. by apply IH.
Qed.

Lemma total_fits (l : list manifest_shard) n : 0 <= n < 2 ^ 64 -> 0 <= foldl (fun n s => u64 (n + ms_size_bytes s)) n l < 2 ^ 64.
Proof. revert n. induction l as [|s l IH]; intros n Hn; [done|]. cbn. apply IH. by apply Z.mod_pos_bound. Qed.

(** What the client makes of the shard that the data plane streams *)
Lemma received_spec `{PL : ProtobufLaws} cp shard body :
  0 < len body ->
  let r := received_messages (inl (stream_of shard cp (chunks read_chunk_size body))) in
  (len body + 64 + 4 * (str_length shard + str_length cp) <= max_receive_message_length -> r = Content body) /\
  (max_receive_message_length <= len body -> r = Refused 500).
Proof.
  intros L. unfold received_messages.
  assert (Pos : 0 < read_chunk_size) by done. destruct (chunks_spec read_chunk_size body Pos) as (Cc & Fo & Full).
  set (cs := chunks read_chunk_size body) in *.
  assert (M : forall m, m ∈ stream_of shard cp cs -> k_shard_id m = shard /\ k_checkpoint_id m = cp /\
            exists c, k_data m = c /\ c ∈ cs).
  { intros m (i & Em)%list_elem_of_lookup. unfold stream_of in Em. rewrite list_lookup_imap in Em.
    apply fmap_Some in Em as (c & Ec & ->). split; [done|]. split; [done|]. exists c. split; [done|].
    by eapply list_elem_of_lookup_2. }
  assert (Ne : forall c, c ∈ cs -> c <> []).
  { intros c I ->. rewrite Forall_forall in Fo. specialize (Fo _ I). unfold len in Fo. cbn in Fo. lia. }
  split.
  - intros S. replace (forallb _ _) with true; [|symmetry; apply forallb_forall].
    + rewrite stream_of_data, Cc. destruct (stream_of shard cp cs) as [|m ms] eqn:Es; [|done]. exfalso.
      assert (cs = []) as E0 by (rewrite <- (stream_of_data shard cp cs), Es; done).
      rewrite E0 in Cc. cbn in Cc. rewrite <- Cc in L. unfold len in L. cbn in L. lia.
    + intros m I%list_elem_of_In. destruct (M m I) as (Ms & Mc & c & Md & Ic). apply Z.leb_le.
      pose proof (encoded_len_bounds m) as B. rewrite Md in B. specialize (B (Ne c Ic)).
      unfold envelope in B. rewrite Ms, Mc in B.
      assert (len c <= len body); [|lia]. rewrite <- Cc. clear -Ic.
      induction cs as [|x cs IH]; [by apply elem_of_nil in Ic|]. cbn [concat]. rewrite len_app.
      pose proof (len_nonneg x). pose proof (len_nonneg (concat cs)).
      apply elem_of_cons in Ic as [->|Ic]; [lia|]. specialize (IH Ic). lia.
  - intros S. replace (forallb _ _) with false; [done|]. symmetry. apply not_true_iff_false. rewrite forallb_forall. intros A.
    destruct cs as [|c cs'] eqn:Ecs; [cbn in Cc; rewrite <- Cc in L; unfold len in L; cbn in L; lia|].
    assert (Lc : len c = read_chunk_size).
    { destruct cs' as [|c' cs'].
      - cbn in Cc. rewrite app_nil_r in Cc. subst c. apply Forall_cons in Fo as [Fo _].
        unfold max_receive_message_length, read_chunk_size in *. lia.
      - apply (Full 0%nat c); [done|cbn; lia]. }
    set (m := ShardChunk shard cp 0 c (0 =? Z.of_nat (length (c :: cs')) - 1)).
    assert (I : m ∈ stream_of shard cp (c :: cs')) by (unfold stream_of; cbn [imap]; left).
    apply list_elem_of_In, A, Z.leb_le in I.
    pose proof (encoded_len_bounds m) as B. cbn [m k_data] in B.
    assert (c <> []) as Nc by (apply Ne; left). specialize (B Nc). rewrite Lc in B.
    unfold max_receive_message_length, read_chunk_size in *. lia.
Qed.

(** A checkpoint that is committed in the control plane and whole in the data plane *)
Record stored (run id : string) (step at_ : Z) (ps : list part) (x : system) : Prop := {
  st_record : checkpoints (st_coord x.(plane_side)) !! id = Some (Checkpoint run step CCOMMITTED at_);
  st_manifest : exists json m, (seen x.(data_side)).(objects) !! manifest_key run id = Some json /\
    from_slice json = Some m /\ mf_shards m = map (fun p => proto_shard (stored_upload run id (upload_of p))) ps;
  st_bodies p : p ∈ ps -> (seen x.(data_side)).(objects) !! key_of run id p = Some (p_body p);
  st_distinct : NoDup (map p_shard ps)
}.

(** Its shards are streamed back. *)
Lemma stored_read run id step at_ ps x p : stored run id step at_ ps x -> up (cloud (data_side x)) -> p ∈ ps ->
  exists d, exec (DataPlane.read_shard (p_shard p) id run) x.(data_side) =
      (inl (stream_of (p_shard p) id (chunks read_chunk_size (p_body p))), d) /\
    seen d = seen x.(data_side) /\ up d.(cloud) /\ d.(queue_depth) = (data_side x).(queue_depth).
Proof.
  intros [_ (json & m & O & Fs & Sh) B N] Up Ip.
  pose proof (exec_depth (DataPlane.read_shard (p_shard p) id run) x.(data_side)) as Q.
  destruct (exec_wp_up _ _ x.(data_side) Up (read_shard_wp listing source_named (p_shard p) id run m json
      (proto_shard (stored_upload run id (upload_of p))) (p_body p) (seen x.(data_side)) O Fs
      ltac:(rewrite Sh; by apply (find_part ps p (fun x => proto_shard (stored_upload run id (upload_of x)))))
      (B p Ip))) as [[W V] Up'].
  destruct (exec _ _) as [r d]. cbn [fst snd] in *. exists d. subst r. split_and!; [done..|]. apply Q.
  eapply every_mono; [|apply read_shard_calls]. by intros R e [].
Qed.

(** The run takes a checkpoint, and the name is free for one. *)
Record healthy (run : string) (x : system) : Prop := {
  he_agrees : agrees (st_coord x.(plane_side));
  he_running : state_of (st_coord x.(plane_side)) run = Some RUNNING;
  he_closed : no_upload run (st_coord x.(plane_side));
  he_ready : ready x.(data_side)
}.
Definition unused (run id : string) (x : system) : Prop :=
  checkpoints (st_coord x.(plane_side)) !! id = None /\ infos id x.(plane_side) = [] /\
  forall k, starts_with k (run +:+ "/" +:+ id +:+ "/") = true -> (seen x.(data_side)).(objects) !! k = None.
Definition part_ok (p : part) : Prop :=
  0 < len (p_body p) <= max_copy_size /\ 0 <= p_rank p < 2 ^ 32 /\ url_plain (p_shard p).

(** What a checkpoint leaves alone *)
Record beside (run id : string) (cp : checkpoint) (x x' : system) : Prop := {
  be_checkpoints : checkpoints (st_coord x'.(plane_side)) = <[id := cp]> (checkpoints (st_coord x.(plane_side)));
  be_infos id' : id' <> id -> infos id' x'.(plane_side) = infos id' x.(plane_side);
  be_objects k : starts_with k (run +:+ "/" +:+ id +:+ "/") = false ->
    (seen x'.(data_side)).(objects) !! k = (seen x.(data_side)).(objects) !! k
}.

Lemma abort_frames now run cp message s :
  let s' := abort_failed_checkpoint now run cp message s in
  (forall id, id <> cp -> infos id s' = infos id s) /\ recovering s'.(ctl) = recovering s.(ctl).
Proof.
  unfold abort_failed_checkpoint. destruct (set_run_error _ _ _ _). split; [|done]. intros id D.
  unfold infos. cbn. by rewrite lookup_delete_ne.
Qed.
Lemma transfer_frames now run cp u s :
  let s' := snd (transfer now run cp u s) in
  (forall id, id <> cp -> infos id s' = infos id s) /\ recovering s'.(ctl) = recovering s.(ctl).
Proof.
  unfold transfer, upload_settled. destruct (upload_shard _ _ _ _ _ _ _); [done|].
  destruct (Checkpointing.wr_success _); cbn [negb]; [|apply abort_frames].
  unfold infos. destruct (update_checkpoint_state _ _ _); (split; [|done]); intros id D; cbn; by rewrite lookup_insert_ne.
Qed.
Lemma commit_frames now result run cp s :
  let s' := snd (commit_settled now result run cp s) in
  (forall id, id <> cp -> infos id s' = infos id s) /\ recovering s'.(ctl) = recovering s.(ctl).
Proof.
  destruct result as [[]|]; [|apply abort_frames..]. cbn [commit_settled].
  assert (F : forall id, id <> cp -> default [] (delete cp (shards s) !! id) = default [] (shards s !! id))
    by (intros; by rewrite lookup_delete_ne).
  destruct (update_checkpoint_state _ _ _) as [c|]; [|by split].
  destruct (transition_run c run COMMITTED now) as [[] c1]; [by split..|].
  destruct (transition_run c1 run RUNNING now) as [[] c2]; by split.
Qed.
Lemma transfers_infos now run cp us s id : id <> cp -> infos id (snd (transfers now run cp us s)) = infos id s.
Proof.
  intros D. unfold transfers. induction us as [|u us IH] using rev_ind; [done|]. rewrite foldl_app. cbn [foldl].
  destruct (foldl _ _ us) as [reps s1]. cbn [fst snd] in *. rewrite <- IH.
  pose proof (transfer_frames now run cp u s1) as [F _]. destruct (transfer _ _ _ _ s1). by apply F.
Qed.

(** The commit of the shards that the data plane holds *)
Lemma commit_holding run id step ps o d (D : NoDup (map p_shard ps)) : Forall part_ok ps -> 0 <= step < 2 ^ 64 -> holding run id o ps d ->
  let infs := map proto_shard (map (stored_upload run id) (map upload_of ps)) in
  exists d', exec (commit_checkpoint (CommitRequest id run step infs ∅)) d = (CommitResponse true (manifest_key run id), d') /\
    ready d' /\ (forall k, k <> manifest_key run id -> (seen d').(objects) !! k = (seen d).(objects) !! k) /\
    exists json m, (seen d').(objects) !! manifest_key run id = Some json /\ from_slice json = Some m /\ mf_shards m = infs.
Proof.
  intros L St0 H infs. set (req := CommitRequest id run step infs ∅).
  assert (Fits : forall at_, exists json, to_string_pretty (commit_manifest req at_) = Some json /\
                   from_slice json = Some (commit_manifest req at_)).
  { intros at_. apply json_round_trip. split_and!; cbn; try lia; try by apply Z.mod_pos_bound.
    - by apply total_fits.
    - by apply total_fits.
    - unfold infs. rewrite !map_map. apply Forall_fmap. eapply Forall_impl; [exact L|]. intros p (Lp & Rp & _). cbn.
      split; [done|]. unfold max_copy_size in Lp. lia. }
  destruct (exec_wp_up _ _ d (proj1 (ho_ready _ _ _ _ _ H)) (commit_wp listing source_named true req (seen d)
    (fun at_ => ltac:(destruct (Fits at_) as (j & -> & _); by eexists)))) as [W Up2].
  pose proof (exec_depth (commit_checkpoint req) d) as Q.
  destruct (exec (commit_checkpoint req) d) as [resp d2]. cbn [fst snd] in *.
  destruct W as [(-> & (json & O & Js) & _)|[? _]]; [|done].
  change (manifest_key (cr_run_id req) (cr_checkpoint_id req)) with (manifest_key run id) in Js, O |- *.
  rewrite (ho_manifest _ _ _ _ _ H) in Js. destruct Js as [Js|(at_ & Js)]; [done|].
  destruct (Fits at_) as (json' & J' & Fs). rewrite Js in J'. injection J' as <-.
  exists d2. split; [done|]. split; [|split; [|exists json, (commit_manifest req at_); split_and!; try done]].
  - split; [done|]. rewrite Q; [apply (ho_ready _ _ _ _ _ H)|]. eapply every_mono; [|apply commit_calls]. by intros R0 e0 [].
  - intros k Nk. rewrite O. by apply lookup_insert_ne.
  - rewrite O. apply lookup_insert_eq.
Qed.

(** Trigger, uploads and commit *)
Lemma checkpoint_stored e run step ps x :
  healthy run x -> unused run (fresh_id e) x -> slash_free run -> url_plain run -> url_plain (fresh_id e) -> 0 <= step < 2 ^ 64 ->
  ps <> [] -> NoDup (map p_shard ps) -> Forall part_ok ps ->
  let id := fresh_id e in
  let '(rep0, a) := trigger_checkpoint x.(plane_side).(ctl).(svc) e run (Some step) in
  let '(reps, x1) := put_shards max_depth fuel (now e) run id ps
                       (System (set_ctl (set_svc a x.(plane_side).(ctl)) x.(plane_side)) x.(data_side)) in
  let '(rep, x2) := commit_shards fuel (now e) run x1 in
  rep0 = Reply 200 [(run, "checkpoint_started")] /\ reps = map (fun _ => Reply 200 []) ps /\
  rep = Reply 200 [(run, "checkpoint_committed")] /\
  healthy run x2 /\ stored run id step (now e) ps x2 /\
  beside run id (Checkpoint run step CCOMMITTED (now e)) x x2.
Proof.
  destruct x as [st d]. intros [A S N Rd] (Fr & I & Clean) F Pr Pi St0 Ne Nd L id. cbn [plane_side data_side] in *.
  assert (Ls : Forall (fun p => 0 < len (p_body p) <= max_copy_size /\ url_plain (p_shard p)) ps)
    by (eapply Forall_impl; [exact L|by intros p (? & ? & ?)]).
  pose proof (cycle_spec e run step (map upload_of ps) st A S N Fr I) as Cy. fold id in Cy, Fr, I, Clean.
  assert (St : exists r, kv (st_coord st) !! run = Some r /\ r_state r = RUNNING).
  { unfold state_of in S. destruct (kv (st_coord st) !! run) as [r|]; [|done]. exists r. split; [done|]. by injection S. }
  destruct St as (r & K & Sr). destruct (trigger_spec st.(ctl).(svc) e run step r A K Sr) as (c & Tr & _ & _ & C0).
  rewrite Tr in *. cbn beta iota zeta in Cy |- *. set (st0 := set_ctl _ st) in *.
  destruct (put_shards_ok (now e) run id ps (Checkpoint run step CPENDING (now e)) st0 d (seen d).(objects))
    as (d1 & Eq & H1); [|done..| |].
  { cbn. rewrite C0. apply lookup_insert_eq. }
  { split; [done|by intros p I0%elem_of_nil|done| |].
    - intros shard sha _ _. apply Clean. unfold content_addressed_key.
      apply (in_dir run id ("sha256-" +:+ str_slice 0 (Some 16) sha +:+ "-" +:+ shard +:+ ".bin")).
    - apply Clean. apply (in_dir run id "_manifest.json"). }
  rewrite Eq. clear Eq. pose proof (transfers_infos (now e) run id (map upload_of ps) st0) as If.
  destruct (transfers (now e) run id (map upload_of ps) st0) as [reps st1].
  specialize (Cy ltac:(by destruct ps)).
  assert (Acc : Forall accepted (map upload_of ps)).
  { apply Forall_fmap. eapply Forall_impl; [exact Ls|]. intros q [Lq _]. apply accepted_part. cbn in Lq. lia. }
  specialize (Cy Acc). pose proof (commit_frames (now e) (Some true) run id st1) as [Ic _].
  destruct (commit_settled (now e) (Some true) run id st1) as [rep2 st2] eqn:Cs.
  destruct Cy as (_ & -> & Cm & -> & A2 & S2 & N2 & C2 & _ & _).
  unfold commit_shards. cbn [plane_side data_side]. rewrite Cm.
  destruct (commit_holding run id step ps _ d1 Nd L St0 H1) as (d2 & -> & Rd2 & Ot & json & m & O & Fs & Sh).
  cbn [co_success negb abort_side]. rewrite Cs.
  split; [done|]. split; [by rewrite map_map|]. split; [done|]. split; [done|]. split.
  - split; cbn [plane_side data_side]; [rewrite C2; apply lookup_insert_eq| | |done].
    + exists json, m. by rewrite Sh, !map_map.
    + intros p Ip. rewrite Ot by apply final_manifest. by apply (ho_shards _ _ _ _ _ H1).
  - split; cbn [plane_side data_side]; [done| |].
    + intros id' D. transitivity (infos id' st1); [by apply Ic|exact (If id' D)].
    + intros k Nk. rewrite <- (ho_others _ _ _ _ _ H1 k Nk). apply Ot. intros ->.
      by rewrite (in_dir run id "_manifest.json" : starts_with (manifest_key run id) _ = true) in Nk.
Qed.

(** C6: A checkpoint from the trainer's trigger to its restart, through both programs. On a
    running run, with the data plane up and nothing yet stored for the checkpoint, run,
    checkpoint and shards having plain names, as those that are generated: the trigger, the
    upload of any shards of up to 5 GiB and the commit are answered 200; the
    checkpoint is COMMITTED and the run RUNNING again; the data plane streams every shard
    back, byte for byte; and the download hands it to the trainer if it fits one message of
    the channel, and fails with a 500 from 4 MiB on, since the data plane cuts what it
    reads into messages that are larger than the channel accepts. *)
Theorem checkpoint_end_to_end `{PL : ProtobufLaws} e run step ps x :
  healthy run x -> unused run (fresh_id e) x -> slash_free run -> url_plain run -> url_plain (fresh_id e) -> 0 <= step < 2 ^ 64 ->
  ps <> [] -> NoDup (map p_shard ps) -> Forall part_ok ps ->
  let id := fresh_id e in
  let '(rep0, a) := trigger_checkpoint x.(plane_side).(ctl).(svc) e run (Some step) in
  let '(reps, x1) := put_shards max_depth fuel (now e) run id ps
                       (System (set_ctl (set_svc a x.(plane_side).(ctl)) x.(plane_side)) x.(data_side)) in
  let '(rep, x2) := commit_shards fuel (now e) run x1 in
  rep0 = Reply 200 [(run, "checkpoint_started")] /\ reps = map (fun _ => Reply 200 []) ps /\
  rep = Reply 200 [(run, "checkpoint_committed")] /\
  state_of (st_coord x2.(plane_side)) run = Some RUNNING /\
  checkpoints (st_coord x2.(plane_side)) =
    <[id := Checkpoint run step CCOMMITTED (now e)]> (checkpoints (st_coord x.(plane_side))) /\
  ready x2.(data_side) /\
  forall p, p ∈ ps ->
    (exists msgs, fst (exec (DataPlane.read_shard (p_shard p) id run) x2.(data_side)) = inl msgs /\
       concat (map k_data msgs) = p_body p) /\
    (len (p_body p) + 64 + 4 * (str_length (p_shard p) + str_length id) <= max_receive_message_length ->
       fst (download_shard run id (p_shard p) x2) = Content (p_body p)) /\
    (max_receive_message_length <= len (p_body p) -> fst (download_shard run id (p_shard p) x2) = Refused 500).
Proof.
  intros H Un F Pr Pi St0 Ne Nd L id. pose proof (checkpoint_stored e run step ps x H Un F Pr Pi St0 Ne Nd L) as Cy.
  cbv zeta in Cy. fold id in Cy. destruct (trigger_checkpoint _ e run (Some step)) as [rep0 a].
  destruct (put_shards _ _ _ _ _ _ _) as [reps x1]. destruct (commit_shards _ _ _ _) as [rep x2]. destruct Cy as (-> & -> & -> & H2 & S2 & B2).
  split_and!; [done|done|done|apply H2|apply B2|apply H2..|]. intros p Ip.
  destruct (stored_read _ _ _ _ _ _ p S2 (proj1 (he_ready _ _ H2)) Ip) as (d & E & _). unfold download_shard. rewrite E.
  rewrite Forall_forall in L. destruct (L p Ip) as [Lp _]. cbn [fst]. split.
  - eexists. split; [done|]. rewrite stream_of_data. by destruct (chunks_spec read_chunk_size (p_body p) eq_refl) as [Cc _].
  - apply received_spec. lia.
Qed.
End EndToEnd.

(** ** Witness *)

Module PlainProtobuf.
#[export] Instance protobuf : Protobuf := {| encoded_len := fun c => len c.(k_data) + envelope c |}.
#[export] Instance protobuf_laws : ProtobufLaws protobuf.
Proof. split. intros c _. cbn. unfold envelope, str_length. lia. Qed.
End PlainProtobuf.

#[local] Existing Instances Memory.cloud Memory.cloud_laws Memory.cloud_up Memory.cloud_up_laws.
#[local] Existing Instances PlainDigest.digest PlainDigest.digest_laws PlainJson.json PlainJson.json_laws.
#[local] Existing Instances PlainProtobuf.protobuf PlainProtobuf.protobuf_laws.

Definition sample_parts : list part := [Part "rank-0" 0 [Byte.x68; Byte.x69]; Part "rank-1" 1 [Byte.x21]].

Definition sample_system : @system Memory.cloud :=
  System (sample_store RUNNING {[ "c1" := Checkpoint "r1" 100 CCOMMITTED 1 ]}) (sample_state ∅ []).
Lemma sample_healthy : healthy 8 "r1" sample_system.
Proof.
  split; [apply sample_store_agrees|reflexivity| |by split_and!].
  intros id cp E _. cbn in E. apply lookup_singleton_Some in E as [_ <-]. discriminate.
Qed.
Lemma sample_unused id : id <> "c1" -> unused "r1" id sample_system.
Proof. intros D. split_and!; [|done|intros k _; apply lookup_empty]. cbn. by rewrite lookup_singleton_ne. Qed.

Lemma checkpoint_end_to_end_witness :
  let '(_, a) := trigger_checkpoint sample_system.(plane_side).(ctl).(svc) (Env 7 "c2") "r1" (Some 150) in
  let '(_, x1) := put_shards 8 9 7 "r1" "c2" sample_parts
    (System (set_ctl (set_svc a sample_system.(plane_side).(ctl)) sample_system.(plane_side)) sample_system.(data_side)) in
  let '(rep, x2) := commit_shards 9 7 "r1" x1 in
  rep = Reply 200 [("r1", "checkpoint_committed")] /\
  fst (download_shard "r1" "c2" "rank-0" x2) = Content [Byte.x68; Byte.x69].
Proof.
  pose proof (checkpoint_end_to_end 8 9 (Env 7 "c2") "r1" 150 sample_parts sample_system) as H.
  cbn [now fresh_id] in *. cbv zeta in *. destruct (trigger_checkpoint _ _ _ _) as [rep0 a].
  destruct (put_shards _ _ _ _ _ _ _) as [reps x1]. destruct (commit_shards _ _ _ _) as [rep x2].
  destruct H as (_ & _ & R & _ & _ & _ & P).
  - apply sample_healthy.
  - by apply sample_unused.
  - apply (bool_decide_unpack _). by vm_compute.
  - apply (bool_decide_unpack _). by vm_compute.
  - apply (bool_decide_unpack _). by vm_compute.
  - by split.
  - discriminate.
  - apply (bool_decide_unpack _). by vm_compute.
  - repeat constructor; try done; apply (bool_decide_unpack _); by vm_compute.
  - split; [exact R|]. apply (P (Part "rank-0" 0 [Byte.x68; Byte.x69])); [left|by vm_compute].
Defined.
