(* ===== verification/Trainer.v ===== *)
(** * The trainer: [training-harness/train.py] and [python-controlplane/src/sdk/client.py]

    The process that trains a model under the control plane: it finds or creates its run,
    restores the newest committed checkpoint, trains, saves a checkpoint through both
    programs at every interval, and completes the run. Each request is a point where the
    rest of the system moves on (heartbeats, other users) and where the process may be
    killed, before the server has seen the request or after; what a killed process leaves
    behind is what the next one starts from. PyTorch is an interface; the batches of an
    epoch, the clock, the fresh identifiers and the signal that asks to stop are arguments.
    Modelled is the process of rank 0, the only one that saves, with the runtime client;
    the loading functions take any rank. *)

From Stdlib Require Import Ascii.
From S2P Require Import Prelude Dict JsString JsNum Types ControlPlane Html Host StorageBrowser Retention Heartbeat Workers Recovery.
From S2P Require Import Checkpointing.
From S2P Require Import ObjectStorage ShardWriter DataPlane DataPlaneProps Transfer.

Import Coordinator.

(** ** PyTorch *)

(** The parameters of the model with the state of the optimizer, one step of the optimizer
    on a batch with its loss, and the serialization of a checkpoint's dictionary *)
Class Torch : Type := {
  params : Type;
  batch : Type;
  optimize : params -> batch -> num * params;
  torch_save : Z -> num -> params -> bytes;
  torch_load : bytes -> option params
}.
Class TorchLaws (T : Torch) : Prop := {
  torch_round_trip step loss ps : torch_load (torch_save step loss ps) = Some ps
}.

(** ** Requests and exceptions *)

(** What ends a call: an error of the server with its status, an exception of the trainer,
    a kill of the process, or the bound on the epochs, which is not one of the program *)
Inductive exn : Type := SDKError (status_code : Z) | RuntimeError | ZeroDivisionError | Killed | Unfinished.
Definition fatal (e : exn) : bool := match e with Killed | Unfinished => true | _ => false end.

(** What becomes of the process at a request *)
Inductive fate : Type := Lives | KilledBefore | KilledAfter.

Section Trainer.
Context `{Cloud} `{Sha256} `{ManifestJson} `{Protobuf} `{Torch}.
Context (max_depth : Z) (fuel : nat).
(** The clock and a fresh identifier at each request, what else happens in the system
    before it, and the fate of the process *)
Context (tick : nat -> env) (noise : nat -> system -> system) (fates : nat -> fate).

(** Both programs, the requests so far, [/shared/run_id], and the step that the heartbeat
    thread reports *)
Record world : Type := World { sys : system; ticks : nat; shared_run_id : option string; reported : Z }.
Definition run_at (x : system) (w : world) : world := World x (S w.(ticks)) w.(shared_run_id) w.(reported).

Definition sdk (A : Type) : Type := world -> (exn + A) * world.
Definition ret {A} (a : A) : sdk A := fun w => (inr a, w).
Definition raise {A} (e : exn) : sdk A := fun w => (inl e, w).
Definition andThen {A B} (m : sdk A) (f : A -> sdk B) : sdk B :=
  fun w => match m w with (inr a, w) => f a w | (inl e, w) => (inl e, w) end.
(** [try ... except Exception as exc] *)
Definition try_except {A} (m : sdk A) (handler : exn -> sdk A) : sdk A :=
  fun w => match m w with
           | (inl e, w) => if fatal e then (inl e, w) else handler e w
           | r => r
           end.
Notation "'let@' x := m 'in' k" := (andThen m (fun x => k)) (at level 10, x name, m at level 100, k at level 200).

Definition request {A} (f : env -> system -> (exn + A) * system) : sdk A :=
  fun w =>
    let x := noise w.(ticks) w.(sys) in
    match fates w.(ticks) with
    | KilledBefore => (inl Killed, run_at x w)
    | KilledAfter => (inl Killed, run_at (snd (f (tick w.(ticks)) x)) w)
    | Lives => let '(r, x) := f (tick w.(ticks)) x in (r, run_at x w)
    end.

(** [_handle_response] *)
Definition handle_response {A} (rep : reply) (v : A) : exn + A :=
  if 400 <=? rep.(status_code) then inl (SDKError rep.(status_code)) else inr v.

Definition with_service (a : service) (x : system) : system :=
  System (set_ctl (set_svc a x.(plane_side).(ctl)) x.(plane_side)) x.(data_side).
Definition service_of (x : system) : service := x.(plane_side).(ctl).(svc).
Definition coord_of (x : system) : Coordinator.t := st_coord x.(plane_side).

(** ** [RuntimeClient] *)

(** [POST /api/runs], and the start of the run *)
Definition create_run : sdk string :=
  request (fun e x =>
    (inr (fresh_id e), with_service (Service (snd (Coordinator.create_run (coord_of x) (fresh_id e) (now e))) (restarts (service_of x))) x)).
Definition start_run : sdk string :=
  let@ run := create_run in
  request (fun e x => let '(rep, a) := ControlPlane.start_run (service_of x) e run in (handle_response rep run, with_service a x)).
Definition get_run_status (run : string) : sdk run_state :=
  request (fun _ x => (match state_of (coord_of x) run with Some s => inr s | None => inl (SDKError 404) end, x)).
Definition complete_run (run : string) : sdk unit :=
  request (fun e x => let '(rep, a) := ControlPlane.complete_run (service_of x) e run in (handle_response rep tt, with_service a x)).
Definition resume (run : string) : sdk unit :=
  request (fun e x => let '(rep, a) := resume_run (service_of x) e run in (handle_response rep tt, with_service a x)).
Definition checkpoint (run : string) (step : Z) : sdk string :=
  request (fun e x => let '(rep, a) := trigger_checkpoint (service_of x) e run (Some step) in
                      (handle_response rep (fresh_id e), with_service a x)).
Definition commit_checkpoint (run : string) : sdk unit :=
  request (fun e x => let '(rep, x) := commit_shards fuel (now e) run x in (handle_response rep tt, x)).
Definition list_checkpoints (run : string) : sdk (list (string * Coordinator.checkpoint)) :=
  request (fun _ x => (match kv (coord_of x) !! run with
                       | Some _ => inr (Recovery.list_checkpoints run (coord_of x))
                       | None => inl (SDKError 404)
                       end, x)).
Definition register_worker (run : string) (rank : Z) : sdk string :=
  request (fun e x =>
    let p := x.(plane_side).(ctl) in
    (inr (fresh_id e),
     System (set_ctl (set_reg (snd (Workers.register_worker run (Some rank) (fresh_id e) (now e) p.(reg))) p) x.(plane_side)) x.(data_side))).
(** The endpoint [worker_heartbeat] *)
Definition worker_heartbeat (worker : string) (step now : Z) (x : system) : reply * system :=
  let p := x.(plane_side).(ctl) in
  let beat :=
    let '(updated, r, c) := Workers.update_worker_heartbeat worker step now p.(reg) (p_coord p) in
    (Reply (match updated with Some _ => 200 | None => 404 end) [],
     System (set_ctl (set_reg r (set_coord c p)) x.(plane_side)) x.(data_side)) in
  match map_get worker p.(reg).(Workers.index) with
  | Some known => if bool_decide (known.(Workers.i_status) ∈ [Workers.SUPERSEDED; Workers.DEREGISTERED]) then (Reply 409 [], x) else beat
  | None => beat
  end.
Definition heartbeat (worker : string) (step : Z) : sdk unit :=
  request (fun e x => let '(rep, x) := worker_heartbeat worker step (now e) x in (handle_response rep tt, x)).
Definition save_shard (run cp shard : string) (data : bytes) (rank : Z) : sdk unit :=
  request (fun e x => let '(rep, x) := put_shard max_depth fuel (now e) run cp shard rank data x in (handle_response rep tt, x)).
Definition load_shard (run cp shard : string) : sdk bytes :=
  request (fun _ x => let '(r, x) := download_shard run cp shard x in
                      (match r with Content body => inr body | Refused code => inl (SDKError code) end, x)).

(** ** [train.py] *)

(** The worker and the step that the heartbeat thread reports; one turn of its loop, which
    registers the worker again where the control plane does not know it *)
Record heartbeat_thread : Type := HeartbeatThread { worker_id : string; thread_step : Z }.
Definition send_heartbeat (run : string) (rank : Z) (h : heartbeat_thread) : sdk heartbeat_thread :=
  try_except
    (let@ _ := heartbeat h.(worker_id) h.(thread_step) in ret h)
    (fun e =>
       match e with
       | SDKError 404 =>
           try_except
             (let@ worker := register_worker run rank in ret (HeartbeatThread worker h.(thread_step)))
             (fun _ => ret h)
       | _ => ret h
       end).

Definition shard_of_rank (rank : Z) : string := "rank-" +:+ dec rank.

Definition save_checkpoint_runtime (ps : params) (step : Z) (loss : num) (rank : Z) (run : string) : sdk unit :=
  let shard_data := torch_save step loss ps in
  try_except
    (let@ checkpoint_id := checkpoint run step in
     let@ _ := save_shard run checkpoint_id (shard_of_rank rank) shard_data rank in
     commit_checkpoint run)
    (fun _ => raise RuntimeError).

(** The parameters and the step to start from *)
Definition load_checkpoint_runtime (ps : params) (rank : Z) (run : string) : sdk (params * Z) :=
  try_except
    (let@ checkpoints := list_checkpoints run in
     match newest (filter (fun e => c_state e.2 = CCOMMITTED) checkpoints) with
     | None => ret (ps, 0)
     | Some (checkpoint_id, latest) =>
         let@ shard_bytes :=
           try_except (load_shard run checkpoint_id (shard_of_rank rank))
             (fun e => if negb (rank =? 0) then load_shard run checkpoint_id "rank-0" else raise e) in
         match torch_load shard_bytes with
         | Some ps => ret (ps, c_step latest)
         | None => raise RuntimeError
         end
     end)
    (fun _ => raise RuntimeError).

Definition RESUMABLE_RUN_STATES : list run_state := [RUNNING; COMMITTED; CHECKPOINTING; FAILED; RECOVERING].
Definition publish_shared_run_id (run : string) : sdk unit :=
  fun w => (inr tt, World w.(sys) w.(ticks) (Some run) w.(reported)).

(** The part of [_get_or_create_run_id] for rank 0: [env_run_id] is the variable [RUN_ID],
    and [None] of a run that was looked up means that it cannot be resumed. *)
Definition resumable_run (old_run_id : string) : sdk (option string) :=
  try_except
    (let@ state := get_run_status old_run_id in
     if bool_decide (state ∈ RESUMABLE_RUN_STATES) then
       let@ _ := (if bool_decide (state ∈ [FAILED; COMMITTED; CHECKPOINTING]) then resume old_run_id else ret tt) in
       ret (Some old_run_id)
     else ret None)
    (fun e => match e with SDKError 404 => ret None | _ => raise RuntimeError end).
Definition get_or_create_run_id (env_run_id : string) : sdk string :=
  let run_id := trim env_run_id in
  if bool_decide (run_id <> "") then ret run_id else
  let@ old := (fun w => match trim (default "" w.(shared_run_id)) with
                        | EmptyString => ret None w
                        | old_run_id => resumable_run old_run_id w
                        end) in
  match old with
  | Some run => ret run
  | None => let@ run := start_run in let@ _ := publish_shared_run_id run in ret run
  end.

(** The arguments that the loop reads *)
Record args : Type := Args { steps : Z; checkpoint_every : Z; log_every : Z }.
(** The variables of the loop *)
Record process : Type := Process {
  model : params; step : Z; last_successful_checkpoint_step : option Z; running_loss : num
}.

(** [a] are the arguments, [epochs] the batches that the data loader yields in each pass,
    and [stop] whether [_STOP_REQUESTED] is set at a step. *)
Section Run.
Context (a : args) (epochs : nat -> list batch) (stop : Z -> bool) (run : string).

Definition update_step (n : Z) : sdk unit := fun w => (inr tt, World w.(sys) w.(ticks) w.(shared_run_id) n).

(** The body of the loop over the batches, after its test *)
Definition iteration (b : batch) (t : process) : sdk process :=
  let '(loss, ps) := optimize t.(model) b in
  let step := t.(step) + 1 in
  let running := JsNum.add t.(running_loss) loss in
  let@ _ := update_step step in
  if a.(log_every) =? 0 then raise ZeroDivisionError else
  let running := if step mod a.(log_every) =? 0 then of_Z 0 else running in
  if (0 <? a.(checkpoint_every)) && (step mod a.(checkpoint_every) =? 0) then
    let@ _ := save_checkpoint_runtime ps step loss 0 run in
    ret (Process ps step (Some step) running)
  else ret (Process ps step t.(last_successful_checkpoint_step) running).

Fixpoint for_batches (bs : list batch) (t : process) : sdk process :=
  match bs with
  | [] => ret t
  | b :: bs =>
      if (a.(steps) <=? t.(step)) || stop t.(step) then ret t
      else let@ t := iteration b t in for_batches bs t
  end.

(** The outer loop; [bound] bounds the epochs. *)
Fixpoint while_epochs (bound n : nat) (t : process) : sdk process :=
  if (t.(step) <? a.(steps)) && negb (stop t.(step)) then
    match bound with
    | O => raise Unfinished
    | S bound => let@ t := for_batches (epochs n) t in while_epochs bound (S n) t
    end
  else ret t.

(** The final checkpoint, and the completion, whose failure is only logged *)
Definition finish (t : process) : sdk process :=
  let@ _ := (if bool_decide (t.(last_successful_checkpoint_step) = Some t.(step)) then ret tt
             else save_checkpoint_runtime t.(model) t.(step) t.(running_loss) 0 run) in
  let@ _ := try_except (complete_run run) (fun _ => ret tt) in
  ret t.

(** What follows the choice of the run; a new heartbeat thread reports step 0. *)
Definition training (bound : nat) (ps : params) : sdk process :=
  let@ _ := register_worker run 0 in
  let@ _ := update_step 0 in
  let@ r := load_checkpoint_runtime ps 0 run in
  let@ _ := try_except (resume run) (fun _ => raise RuntimeError) in
  let start_step := r.2 in
  let@ t := while_epochs bound 0
              (Process r.1 start_step (if 0 <? start_step then Some start_step else None) (of_Z 0)) in
  finish t.
End Run.

(** [train]: [ps] are the parameters of the model as it is built. *)
Definition train (a : args) (epochs : nat -> list batch) (stop : Z -> bool) (env_run_id : string) (bound : nat) (ps : params) :
    sdk process :=
  let@ run := get_or_create_run_id env_run_id in
  training a epochs stop run bound ps.
End Trainer.
