(* ===== verification/TrainerProps.v ===== *)
(** * The trainer across its crashes

    What a killed trainer leaves in the two programs and what the next one makes of it:
    the properties of [Trainer]. *)

From Stdlib Require Import Ascii.
From S2P Require Import Prelude Dict JsString JsNum Types ControlPlane Html Host StorageBrowser Retention Heartbeat Workers Recovery.
From S2P Require Import Checkpointing.
From S2P Require Import ObjectStorage ShardWriter DataPlane DataPlaneProps Transfer Trainer.

Import Coordinator.

Notation "'let@' x := m 'in' k" := (andThen m (fun x => k)) (at level 10, x name, m at level 100, k at level 200).

(** ** Directories of checkpoints *)

Lemma dir_disjoint run id id' k : slash_free id -> slash_free id' ->
  starts_with k (run +:+ "/" +:+ id +:+ "/") = true -> starts_with k (run +:+ "/" +:+ id' +:+ "/") = true -> id = id'.
Proof.
  intros F F' [r E]%starts_with_spec [r' E']%starts_with_spec. rewrite E in E'. apply (f_equal units) in E'.
  rewrite !units_app in E'. rewrite <- !app_assoc in E'. apply app_inv_head, app_inv_head in E'.
  pose proof (cut_slash_word (units id) (units r) F) as C. pose proof (cut_slash_word (units id') (units r') F') as C'.
  change (units "/") with ["/"%char] in E'. cbn [app] in E'. rewrite E', C' in C. injection C as C _. by apply units_inj.
Qed.

Lemma nonempty_case {A} (s : string) (x : A) (f : string -> A) : s <> "" ->
  match s with EmptyString => x | String ch rest => f (String ch rest) end = f s.
Proof. by destruct s. Qed.

(** The states that the trainer meets *)
Ltac member := apply (bool_decide_unpack _); by vm_compute.
Ltac cases_in I := repeat (apply elem_of_cons in I as [->|I]; [first [member|done]|]); by apply elem_of_nil in I.
Lemma starts_resumable s : s ∈ [FAILED; RECOVERING; RUNNING] -> s ∈ RESUMABLE_RUN_STATES.
Proof. intros I. cases_in I. Qed.
Lemma starts_unmoved s : s ∈ [FAILED; RECOVERING; RUNNING] -> s ∉ [FAILED; COMMITTED; CHECKPOINTING] -> s ∈ [RECOVERING; RUNNING].
Proof. intros [->|I]%elem_of_cons N; [|done]. destruct N. member. Qed.

Lemma rank0_plain : url_plain "rank-0".
Proof. apply (bool_decide_unpack _). by vm_compute. Qed.

Section Frames.
Context {C : Cloud} {CL : CloudLaws C} `{SL : Sha256Laws} {U : CloudUp C} {UL : CloudUpLaws C U} `{JL : ManifestJsonLaws}.
Context (max_depth : Z) (run : string).

(** What does not change beyond a checkpoint *)
Record beyond (id : string) (x x' : system) : Prop := {
  by_checkpoints id' : id' <> id -> checkpoints (coord_of x') !! id' = checkpoints (coord_of x) !! id';
  by_infos id' : id' <> id -> infos id' x'.(plane_side) = infos id' x.(plane_side);
  by_objects k : starts_with k (run +:+ "/" +:+ id +:+ "/") = false ->
    (seen x'.(data_side)).(objects) !! k = (seen x.(data_side)).(objects) !! k
}.

Lemma beyond_refl id x : beyond id x x.
Proof. by split. Qed.
Lemma beyond_trans id x y z : beyond id x y -> beyond id y z -> beyond id x z.
Proof. intros [A B D] [A' B' D']. split; intros; by rewrite ?A', ?B', ?D', ?A, ?B, ?D. Qed.
Lemma beyond_plane id a x : checkpoints (coord a) = checkpoints (coord_of x) -> beyond id x (with_service a x).
Proof. intros E. split; [|done|done]. intros id' _. unfold coord_of, with_service, st_coord, p_coord. cbn. by rewrite E. Qed.

(** An object of another checkpoint's directory *)
Lemma other_dir id id' rest : id' <> id -> slash_free id -> slash_free id' ->
  starts_with (run +:+ "/" +:+ id' +:+ "/" +:+ rest) (run +:+ "/" +:+ id +:+ "/") = false.
Proof.
  intros D F F'. apply not_true_iff_false. intros S. apply D. symmetry.
  eapply dir_disjoint; [exact F|exact F'|exact S|]. apply in_dir.
Qed.

Lemma unused_beyond id id' x x' : id' <> id -> slash_free id -> slash_free id' ->
  beyond id x x' -> unused run id' x -> unused run id' x'.
Proof.
  intros D F F' [A B O] (Un & I & Cl). unfold coord_of in A. split_and!; [by rewrite (A id' D)|by rewrite (B id' D)|].
  intros k S. pose proof S as [r E]%starts_with_spec. rewrite O; [by apply Cl|].
  rewrite E. rewrite !app_assoc_str. by apply other_dir.
Qed.

Lemma stored_beyond id id' step at_ ps x x' : id' <> id -> slash_free id -> slash_free id' ->
  beyond id x x' -> stored run id' step at_ ps x -> stored run id' step at_ ps x'.
Proof.
  intros D F F' [A B O] [R (json & m & M & Fs & Sh) Bo N]. split; [|exists json, m; split_and!; try done| |done].
  - unfold coord_of in A. by rewrite A.
  - rewrite O; [done|]. by apply (other_dir id id' "_manifest.json").
  - intros p I. rewrite O; [by apply Bo|].
    by apply (other_dir id id' ("sha256-" +:+ str_slice 0 (Some 16) (sha256_hex (p_body p)) +:+ "-" +:+ p_shard p +:+ ".bin")).
Qed.

(** What the rest of the system may do while the run is trained: everything that keeps the
    run's state, the checkpoints and the objects, as heartbeats and reads do *)
Record quiet (x x' : system) : Prop := {
  q_agrees : agrees (coord_of x) -> agrees (coord_of x');
  q_state : state_of (coord_of x') run = state_of (coord_of x) run;
  q_checkpoints : checkpoints (coord_of x') = checkpoints (coord_of x);
  q_infos id : infos id x'.(plane_side) = infos id x.(plane_side);
  q_idle : run ∉ recovering x.(plane_side).(ctl) -> run ∉ recovering x'.(plane_side).(ctl);
  q_objects : (seen x'.(data_side)).(objects) = (seen x.(data_side)).(objects);
  q_ready : ready max_depth x.(data_side) -> ready max_depth x'.(data_side)
}.
Lemma quiet_beyond id x x' : quiet x x' -> beyond id x x'.
Proof. intros [_ _ E I _ O _]. split; intros; [by rewrite E|by rewrite I|by rewrite O]. Qed.

(** The requests of a heartbeat thread are quiet. *)
Lemma beat_state worker step now s c id :
  state_of (snd (Workers.update_worker_heartbeat worker step now s c)) id = state_of c id.
Proof.
  unfold Workers.update_worker_heartbeat. repeat (case_match; try done). cbn. unfold Workers.update_run_step, state_of.
  match goal with E : kv _ !! ?k = Some _ |- _ =>
    rewrite E; cbn; destruct (decide (id = k)) as [->|]; [by rewrite lookup_insert_eq, E|by rewrite lookup_insert_ne] end.
Qed.
Lemma heartbeat_quiet worker step now x : quiet x (snd (worker_heartbeat worker step now x)).
Proof.
  unfold worker_heartbeat. pose proof (update_worker_heartbeat_agrees worker step now (reg x.(plane_side).(ctl)) (coord_of x)) as A.
  pose proof (beat_state worker step now (reg x.(plane_side).(ctl)) (coord_of x) run) as St.
  pose proof (heartbeat_checkpoints worker step now (reg x.(plane_side).(ctl)) (coord_of x)) as E.
  unfold coord_of, st_coord in *. destruct (Workers.update_worker_heartbeat _ _ _ _ _) as [[o r] c]. cbn [fst snd] in *.
  repeat case_match; by split.
Qed.
Lemma registration_quiet r x : quiet x (System (set_ctl (set_reg r x.(plane_side).(ctl)) x.(plane_side)) x.(data_side)).
Proof. by split. Qed.
Lemma quiet_trans x y z : quiet x y -> quiet y z -> quiet x z.
Proof.
  intros [A B D E F G H] [A' B' D' E' F' G' H']. split; intros; [auto|congruence|congruence|by rewrite E'|auto|congruence|auto].
Qed.

(** A heartbeat of an active worker *)
Lemma heartbeat_renews worker step t s c i : Workers.ok s -> map_get worker s.(Workers.index) = Some i -> Workers.active i ->
  let '(o, s', _) := Workers.update_worker_heartbeat worker step t s c in
  is_Some o /\ (exists u, map_get worker s'.(Workers.index) = Some u /\ Workers.active u /\ u.(Workers.i_step) = step) /\
  exists id l, tracked worker id l s'.(Workers.lease_mgr) /\ l.(is_alive) = true /\ l.(last_heartbeat) = t.
Proof.
  intros O I A. destruct (Workers.ok_record s O worker i I) as (r & Er & _). destruct (Workers.ok_monitored s O worker i I A) as (id & l & T & Al).
  unfold Workers.update_worker_heartbeat. rewrite I, bool_decide_true by exact A. unfold Workers.heartbeat. rewrite Er. cbn.
  split; [done|]. split; [eexists; split; [apply map_get_set_eq|done]|]. exists id, (touch t step l).
  split; [|done]. apply Workers.record_heartbeat_tracked; [apply O|]. exists l. by rewrite decide_True.
Qed.
(** A worker that is not active is not found. *)
Lemma heartbeat_refused worker step t s c : (forall i, map_get worker s.(Workers.index) = Some i -> ~ Workers.active i) ->
  Workers.update_worker_heartbeat worker step t s c = (None, s, c).
Proof.
  intros N. unfold Workers.update_worker_heartbeat. destruct (map_get _ _) as [i|] eqn:E; [|done].
  rewrite bool_decide_false; [done|]. by apply N.
Qed.

(** C40: A turn of the heartbeat thread, in a registry that is in step: an active worker's lease
    is renewed and its step recorded; a worker that is superseded or deregistered is refused,
    and the thread goes on reporting for it; one that the control plane has forgotten or
    declared dead is registered again under a new identifier, as the only active worker of
    its rank, whose heartbeats are accepted. *)
Theorem heartbeat_thread_turn (tick : nat -> env) (rank : Z) (h : heartbeat_thread) (w : world) :
  let s := w.(sys).(plane_side).(ctl).(reg) in
  let fresh := fresh_id (tick (S w.(ticks))) in
  Workers.ok s -> map_get fresh s.(Workers.index) = None ->
  let '(r, w') := send_heartbeat tick (fun _ x => x) (fun _ => Lives) run rank h w in
  let s' := w'.(sys).(plane_side).(ctl).(reg) in
  Workers.ok s' /\
  match Workers.i_status <$> map_get h.(worker_id) s.(Workers.index) with
  | Some Workers.ACTIVE => r = inr h /\
      (exists i, map_get h.(worker_id) s'.(Workers.index) = Some i /\ Workers.active i /\ i.(Workers.i_step) = h.(thread_step)) /\
      exists id l, tracked h.(worker_id) id l s'.(Workers.lease_mgr) /\ l.(is_alive) = true /\
        l.(last_heartbeat) = now (tick w.(ticks))
  | Some (Workers.SUPERSEDED | Workers.DEREGISTERED) => r = inr h /\ w'.(sys) = w.(sys)
  | Some Workers.DEAD | None => r = inr (HeartbeatThread fresh h.(thread_step)) /\
      (forall v i, map_get v s'.(Workers.index) = Some i /\ Workers.active i /\ i.(Workers.i_run) = run /\ i.(Workers.i_rank) = rank <->
         v = fresh /\ i = Workers.Info run rank Workers.ACTIVE 0) /\
      forall n t c, is_Some (fst (fst (Workers.update_worker_heartbeat fresh n t s' c)))
  end.
Proof.
  intros s fresh O Fr. pose proof (Workers.update_worker_heartbeat_ok (worker_id h) (thread_step h) (now (tick (ticks w))) s (p_coord w.(sys).(plane_side).(ctl)) O) as Ob.
  unfold send_heartbeat, heartbeat, andThen, try_except, request, worker_heartbeat. fold s.
  assert (New : (forall i, map_get h.(worker_id) s.(Workers.index) = Some i -> ~ Workers.active i) ->
    let s' := snd (Workers.register_worker run (Some rank) fresh (now (tick (S (ticks w)))) s) in
    Workers.update_worker_heartbeat (worker_id h) (thread_step h) (now (tick (ticks w))) s (p_coord w.(sys).(plane_side).(ctl)) =
      (None, s, p_coord w.(sys).(plane_side).(ctl)) /\ Workers.ok s' /\
    (forall v i, map_get v s'.(Workers.index) = Some i /\ Workers.active i /\ i.(Workers.i_run) = run /\ i.(Workers.i_rank) = rank <->
       v = fresh /\ i = Workers.Info run rank Workers.ACTIVE 0) /\
    forall n t c, is_Some (fst (fst (Workers.update_worker_heartbeat fresh n t s' c)))).
  { intros N s'. pose proof (Workers.register_worker_ok run (Some rank) fresh (now (tick (S (ticks w)))) s O Fr) as O'.
    destruct (Workers.registration_takes_over run rank fresh (now (tick (S (ticks w)))) s O Fr) as (G & _ & Un & _). fold s' in O', G, Un.
    split_and!; [by apply heartbeat_refused|done| |].
    - intros v i. split; [|by intros [-> ->]]. intros (E & A & R & K). assert (v = fresh) as -> by by apply (Un v i).
      rewrite G in E. by injection E as <-.
    - intros n t c. apply Workers.heartbeat_accepted; [done|]. by eexists. }
  destruct (map_get (worker_id h) (Workers.index s)) as [known|] eqn:E; cbn [fmap option_fmap option_map].
  2: { destruct New as (-> & O' & Un & Ac); [by intros|]. split; [exact O'|]. by split. }
  destruct (Workers.i_status known) eqn:St.
  - rewrite bool_decide_false by member. pose proof (heartbeat_renews (worker_id h) (thread_step h) (now (tick (ticks w))) s
      (p_coord w.(sys).(plane_side).(ctl)) known O E St) as Rn.
    destruct (Workers.update_worker_heartbeat _ _ _ _ _) as [[[o|] r] c]; [|by destruct Rn as ([] & _)].
    destruct Rn as (_ & Upd & Ls). split; [exact Ob|]. by split.
  - rewrite bool_decide_false by member. destruct New as (-> & O' & Un & Ac); [intros i [= <-] A; by rewrite A in St|].
    split; [exact O'|]. by split.
  - rewrite bool_decide_true by member. split; [exact O|done].
  - rewrite bool_decide_true by member. split; [exact O|done].
Qed.
End Frames.

(** ** Surviving a kill *)

Section Crashes.
Context {C : Cloud} {CL : CloudLaws C} `{SL : Sha256Laws} {U : CloudUp C} {UL : CloudUpLaws C U} `{JL : ManifestJsonLaws}.
Context `{PL : ProtobufLaws} `{TL : TorchLaws}.
Context (max_depth : Z) (fuel : nat) (tick : nat -> env) (noise : nat -> system -> system) (fates : nat -> fate) (run : string).
(** The requests that are considered: identifiers of a bounded length repeat in the end. *)
Context (horizon : nat).

(** The checkpoint of rank 0, and that it fits one message *)
Definition shard0 (n : Z) (loss : num) (ps : params) : part := Part "rank-0" 0 (torch_save n loss ps).
Definition fits (id : string) (n : Z) (loss : num) (ps : params) : Prop :=
  0 < len (torch_save n loss ps) /\
  len (torch_save n loss ps) + 64 + 4 * (str_length "rank-0" + str_length id) <= max_receive_message_length.

(** The surroundings of a training run *)
Record surroundings : Prop := {
  su_run : slash_free run;
  su_plain : url_plain run /\ forall n, url_plain (fresh_id (tick n));
  su_named : trim run = run /\ run <> "";
  su_ids n : slash_free (fresh_id (tick n));
  su_distinct m n : (m < horizon)%nat -> (n < horizon)%nat -> fresh_id (tick m) = fresh_id (tick n) -> m = n;
  su_noise n x : quiet max_depth run x (noise n x);
  su_fits k n loss ps : (k < horizon)%nat -> fits (fresh_id (tick k)) n loss ps
}.

(** A committed checkpoint of the run holds these parameters, and it is the newest. *)
Definition kept (n : Z) (ps : params) (x : system) : Prop :=
  exists id at_ loss, stored run id n at_ [shard0 n loss ps] x /\ slash_free id /\ fits id n loss ps.
Definition newest_kept (n : Z) (ps : params) (x : system) : Prop :=
  exists id at_ loss, stored run id n at_ [shard0 n loss ps] x /\ slash_free id /\ fits id n loss ps /\
    forall id' cp, checkpoints (coord_of x) !! id' = Some cp -> c_run cp = run -> c_state cp = CCOMMITTED ->
      id' = id \/ c_step cp < n.
(** What a restart can go back to: the parameters after [c] steps, or the beginning *)
Definition backed (c : Z) (ps : params) (x : system) : Prop :=
  0 < c /\ newest_kept c ps x \/
  c = 0 /\ forall id cp, checkpoints (coord_of x) !! id = Some cp -> c_run cp = run -> c_state cp <> CCOMMITTED.

(** Whatever may be lost by a kill is still there. *)
Record survives (c : Z) (ps : params) (w : world) : Prop := {
  sv_agrees : agrees (coord_of w.(sys));
  sv_state : exists s, state_of (coord_of w.(sys)) run = Some s /\ handled s = true;
  sv_idle : run ∉ recovering w.(sys).(plane_side).(ctl);
  sv_ready : ready max_depth w.(sys).(data_side);
  sv_backed : backed c ps w.(sys);
  sv_free n : (w.(ticks) <= n < horizon)%nat -> unused run (fresh_id (tick n)) w.(sys);
  sv_shared : w.(shared_run_id) = Some run
}.
(** *** Calls that either succeed or are killed *)

(** [m] takes the world to one with [Q], unless the process is killed at one of its
    requests, which leaves a world with [crash]. *)
Definition goes {A} (crash : world -> Prop) (m : sdk A) (Q : A -> world -> Prop) (w : world) : Prop :=
  match m w with
  | (inr a, w') => (w.(ticks) <= w'.(ticks))%nat /\ Q a w'
  | (inl e, w') => e = Killed /\ (exists n, (w.(ticks) <= n)%nat /\ w'.(ticks) = S n /\ fates n <> Lives) /\ crash w'
  end.

Lemma goes_ret {A} crash (a : A) Q w : Q a w -> goes crash (ret a) Q w.
Proof. done. Qed.
Lemma goes_bind {A B} crash (m : sdk A) (f : A -> sdk B) Q w :
  goes crash m (fun a => goes crash (f a) Q) w -> goes crash (andThen m f) Q w.
Proof.
  unfold goes, andThen. destruct (m w) as [[e|a] w']; [done|]. intros [L G]. destruct (f a w') as [[e|b] w2].
  - destruct G as (-> & (n & Hn & F) & K). split_and!; [done|exists n; split; [lia|done]|done].
  - destruct G as [L2 q]. split; [lia|done].
Qed.
Lemma goes_try {A} crash (m : sdk A) h Q w : goes crash m Q w -> goes crash (try_except m h) Q w.
Proof. unfold goes, try_except. destruct (m w) as [[e|a] w']; [|done]. by intros (-> & M & K). Qed.
Lemma goes_mono {A} (crash crash' : world -> Prop) (m : sdk A) (Q Q' : A -> world -> Prop) w :
  goes crash m Q w -> (forall w, crash w -> crash' w) -> (forall a w, Q a w -> Q' a w) -> goes crash' m Q' w.
Proof. unfold goes. destruct (m w) as [[e|a] w']; [intros (-> & M & K) H _|intros [L q] _ H]; auto. Qed.
Lemma goes_request {A} (crash : world -> Prop) (f : env -> system -> (exn + A) * system) (Q : A -> world -> Prop) w :
  let x := noise w.(ticks) w.(sys) in let y := snd (f (tick w.(ticks)) x) in
  crash (run_at x w) -> crash (run_at y w) ->
  (exists a, fst (f (tick w.(ticks)) x) = inr a /\ Q a (run_at y w)) ->
  goes crash (request tick noise fates f) Q w.
Proof.
  intros x y K K' (a & E & q). unfold goes, request. fold x. destruct (fates w.(ticks)) eqn:F.
  2-3: by split_and!; [|exists w.(ticks); rewrite F|].
  unfold y in q. destruct (f _ x) as [r z]. cbn in *. subst r. split; [lia|done].
Qed.
Lemma goes_update {A} crash n (f : unit -> sdk A) Q w :
  goes crash (f tt) Q (World w.(sys) w.(ticks) w.(shared_run_id) n) -> goes crash (andThen (update_step n) f) Q w.
Proof. done. Qed.

(** *** What the rest of the system does before a request *)

Context (Su : surroundings).

Definition heard (w : world) : world := World (noise w.(ticks) w.(sys)) w.(ticks) w.(shared_run_id) w.(reported).
Definition in_state (s : run_state) (x : system) : Prop := state_of (coord_of x) run = Some s.

Lemma goes_call {A} (crash : world -> Prop) (f : env -> system -> (exn + A) * system) (Q : A -> world -> Prop) w :
  let w1 := heard w in let y := snd (f (tick w.(ticks)) w1.(sys)) in
  crash (run_at w1.(sys) w1) -> crash (run_at y w1) ->
  (exists a, fst (f (tick w.(ticks)) w1.(sys)) = inr a /\ Q a (run_at y w1)) ->
  goes crash (request tick noise fates f) Q w.
Proof. exact (goes_request crash f Q w). Qed.

Lemma stored_same id n at_ l x x' : checkpoints (coord_of x') = checkpoints (coord_of x) ->
  (seen x'.(data_side)).(objects) = (seen x.(data_side)).(objects) -> stored run id n at_ l x -> stored run id n at_ l x'.
Proof.
  intros E O [R (json & m & M & Fs) B N]. split; [|exists json, m; by rewrite O|by rewrite O|done].
  unfold coord_of in E. by rewrite E.
Qed.
Lemma kept_same n ps x x' : checkpoints (coord_of x') = checkpoints (coord_of x) ->
  (seen x'.(data_side)).(objects) = (seen x.(data_side)).(objects) -> kept n ps x -> kept n ps x'.
Proof. intros E O (id & at_ & loss & S & F). exists id, at_, loss. split; [by eapply stored_same|exact F]. Qed.
Lemma kept_beyond id n ps x x' : slash_free id -> beyond run id x x' ->
  (forall cp, checkpoints (coord_of x) !! id = Some cp -> c_state cp <> CCOMMITTED) -> kept n ps x -> kept n ps x'.
Proof.
  intros F B N (id' & at_ & loss & S & F' & Fi). exists id', at_, loss. split; [|done].
  eapply (stored_beyond run id id'); [|done..|exact S]. intros ->. by apply (N _ (st_record _ _ _ _ _ _ S)).
Qed.
Lemma backed_beyond id c ps x x' : slash_free id -> beyond run id x x' ->
  (forall cp, checkpoints (coord_of x) !! id = Some cp -> c_state cp <> CCOMMITTED) ->
  (forall cp, checkpoints (coord_of x') !! id = Some cp -> c_state cp <> CCOMMITTED) -> backed c ps x -> backed c ps x'.
Proof.
  intros F B N N' [[Po (id' & at_ & loss & S & F' & Fi & Mx)]|[-> Z]].
  - left. split; [done|]. exists id', at_, loss.
    assert (D : id' <> id) by (intros ->; by apply (N _ (st_record _ _ _ _ _ _ S))).
    split_and!; [by eapply stored_beyond|done|exact Fi|]. intros id2 cp E R Cm.
    destruct (decide (id2 = id)) as [->|D2]; [by destruct (N' _ E)|]. rewrite (by_checkpoints _ _ _ _ B) in E by done.
    by eapply Mx.
  - right. split; [done|]. intros id2 cp E R. destruct (decide (id2 = id)) as [->|D2]; [by apply N'|].
    rewrite (by_checkpoints _ _ _ _ B) in E by done. by eapply Z.
Qed.

(** A request that changes nothing beyond one checkpoint, which is not committed *)
Lemma survives_beyond k c ps w x' : (k <= w.(ticks))%nat -> survives c ps w ->
  let id := fresh_id (tick k) in
  agrees (coord_of x') -> (exists s, state_of (coord_of x') run = Some s /\ handled s = true) ->
  run ∉ recovering x'.(plane_side).(ctl) -> ready max_depth x'.(data_side) -> beyond run id w.(sys) x' ->
  (forall cp, checkpoints (coord_of w.(sys)) !! id = Some cp -> c_state cp <> CCOMMITTED) ->
  (forall cp, checkpoints (coord_of x') !! id = Some cp -> c_state cp <> CCOMMITTED) ->
  survives c ps (run_at x' w).
Proof.
  intros K [A St I R B F Sh] id A' St' I' R' By N N'. split; [done|done|done|done| | |exact Sh]; cbn [sys run_at ticks].
  - eapply backed_beyond; [apply (su_ids Su)|exact By|exact N|exact N'|exact B].
  - intros n Hn. cbn in Hn. eapply (unused_beyond run id); [|apply (su_ids Su)..|exact By|apply F; lia].
    intros E%(su_distinct Su); lia.
Qed.

(** A request that leaves the checkpoints and the objects as they are *)
Lemma survives_same c ps w x' : survives c ps w -> agrees (coord_of x') ->
  (exists s, state_of (coord_of x') run = Some s /\ handled s = true) ->
  run ∉ recovering x'.(plane_side).(ctl) -> ready max_depth x'.(data_side) ->
  checkpoints (coord_of x') = checkpoints (coord_of w.(sys)) -> x'.(plane_side).(shards) = w.(sys).(plane_side).(shards) ->
  (seen x'.(data_side)).(objects) = (seen w.(sys).(data_side)).(objects) -> survives c ps (run_at x' w).
Proof.
  intros [A St I R B F Sh] A' St' I' R' E Es Eo. split; [done|done|done|done| | |exact Sh]; cbn [sys run_at ticks].
  - destruct B as [[Po (id & at_ & loss & S & Fl & Fi & Mx)]|[-> Z]]; [left|right; by rewrite E]. split; [done|].
    exists id, at_, loss. rewrite E. split_and!; [by eapply stored_same|done|exact Fi|done].
  - intros n Hn. cbn in Hn. destruct (F n ltac:(lia)) as (N & If & Cl). unfold unused, infos, coord_of in *. by rewrite E, Es, Eo.
Qed.

Lemma quiet_upload x x' : quiet max_depth run x x' -> no_upload run (coord_of x) -> no_upload run (coord_of x').
Proof. intros Q N id cp. rewrite (q_checkpoints _ _ _ _ Q). apply N. Qed.
Lemma quiet_backed c ps x x' : quiet max_depth run x x' -> backed c ps x -> backed c ps x'.
Proof.
  intros Q. assert (E : checkpoints (coord_of x') = checkpoints (coord_of x)) by apply Q.
  intros [[Po (id & at_ & loss & S & F & Fi & Mx)]|[-> Z]]; [left|right; by rewrite E]. split; [done|].
  exists id, at_, loss. split_and!; [|done|exact Fi|by rewrite E]. eapply stored_same; [exact E|apply Q|exact S].
Qed.
Lemma quiet_unused id x x' : quiet max_depth run x x' -> unused run id x -> unused run id x'.
Proof.
  intros Q (N & I & Cl). assert (E : checkpoints (coord_of x') = checkpoints (coord_of x)) by apply Q.
  unfold unused. rewrite (q_infos _ _ _ _ Q), (q_objects _ _ _ _ Q). unfold coord_of in E. by rewrite E.
Qed.
Lemma survives_heard c ps w : survives c ps w -> survives c ps (heard w).
Proof.
  intros [A St I R B F Sh]. pose proof (su_noise Su w.(ticks) w.(sys)) as Q. split; cbn [heard sys ticks shared_run_id].
  - by apply Q.
  - by rewrite (q_state _ _ _ _ Q).
  - by apply Q.
  - by apply Q.
  - by eapply quiet_backed.
  - intros n Hn. eapply quiet_unused; [exact Q|by apply F].
  - done.
Qed.
Lemma survives_run c ps w : survives c ps w -> survives c ps (run_at w.(sys) w).
Proof. intros [A St I R B F Sh]. split; try done. intros n Hn. apply F. cbn in Hn. lia. Qed.

Lemma free_name c ps w k : survives c ps w -> (w.(ticks) <= k < horizon)%nat -> checkpoints (coord_of w.(sys)) !! fresh_id (tick k) = None.
Proof. intros S K. by destruct (sv_free _ _ _ S k K) as [E _]. Qed.

(** A request to the coordinator alone *)
Lemma survives_service c ps w a : survives c ps w -> agrees (coord a) ->
  checkpoints (coord a) = checkpoints (coord_of w.(sys)) ->
  (exists s, state_of (coord a) run = Some s /\ handled s = true) ->
  survives c ps (run_at (with_service a w.(sys)) w).
Proof.
  intros S A E St. eapply survives_same; [exact S|exact A|exact St|by apply S|by apply S|exact E|done|done].
Qed.

(** *** A checkpoint, one request at a time *)

(** After the trigger *)
Record triggered (n c : Z) (ps : params) (id : string) (x0 : system) (w : world) : Prop := {
  tr_survives : survives c ps w;
  tr_state : in_state CHECKPOINTING w.(sys);
  tr_checkpoint : exists at_, checkpoints (coord_of w.(sys)) !! id = Some (Checkpoint run n CPENDING at_);
  tr_closed : no_upload run (coord_of w.(sys));
  tr_infos : infos id w.(sys).(plane_side) = [];
  tr_clean k : starts_with k (run +:+ "/" +:+ id +:+ "/") = true -> (seen w.(sys).(data_side)).(objects) !! k = None;
  tr_beyond : beyond run id x0 w.(sys)
}.
(** After the upload of its shard *)
Record uploaded (n c : Z) (ps : params) (p : part) (id : string) (x0 : system) (w : world) : Prop := {
  up_survives : survives c ps w;
  up_state : in_state CHECKPOINTING w.(sys);
  up_checkpoint : exists at_, checkpoints (coord_of w.(sys)) !! id = Some (Checkpoint run n CIN_PROGRESS at_);
  up_only id' cp : checkpoints (coord_of w.(sys)) !! id' = Some cp -> c_run cp = run -> c_state cp = CIN_PROGRESS -> id' = id;
  up_infos : infos id w.(sys).(plane_side) = [stored_upload run id (upload_of p)];
  up_holding : exists o, holding max_depth run id o [p] w.(sys).(data_side);
  up_beyond : beyond run id x0 w.(sys)
}.

Lemma triggered_heard n c ps id x0 w : triggered n c ps id x0 w -> triggered n c ps id x0 (heard w).
Proof.
  intros [S St (at_ & E) N I Cl B]. pose proof (su_noise Su w.(ticks) w.(sys)) as Q. split; cbn [heard sys ticks].
  - by apply survives_heard.
  - unfold in_state. by rewrite (q_state _ _ _ _ Q).
  - exists at_. by rewrite (q_checkpoints _ _ _ _ Q).
  - by eapply quiet_upload.
  - by rewrite (q_infos _ _ _ _ Q).
  - by rewrite (q_objects _ _ _ _ Q).
  - eapply beyond_trans; [exact B|]. by apply (quiet_beyond max_depth).
Qed.
Lemma uploaded_heard n c ps p id x0 w : uploaded n c ps p id x0 w -> uploaded n c ps p id x0 (heard w).
Proof.
  intros [S St (at_ & E) N I (o & [Rd Sh Ot Fr Mf]) B]. pose proof (su_noise Su w.(ticks) w.(sys)) as Q. split; cbn [heard sys ticks].
  - by apply survives_heard.
  - unfold in_state. by rewrite (q_state _ _ _ _ Q).
  - exists at_. by rewrite (q_checkpoints _ _ _ _ Q).
  - by rewrite (q_checkpoints _ _ _ _ Q).
  - by rewrite (q_infos _ _ _ _ Q).
  - exists o. assert (E' := q_objects _ _ _ _ Q). split; [by apply Q|by rewrite E'..].
  - eapply beyond_trans; [exact B|]. by apply (quiet_beyond max_depth).
Qed.

Lemma service_run_state x s : in_state s x -> exists r, kv (coord_of x) !! run = Some r /\ r_state r = s.
Proof. unfold in_state, state_of. destruct (kv _ !! run) as [r|]; [|done]. intros [= <-]. by exists r. Qed.

Lemma trigger_step n c ps w : (w.(ticks) < horizon)%nat ->
  survives c ps w -> in_state RUNNING w.(sys) -> no_upload run (coord_of w.(sys)) ->
  let id := fresh_id (tick w.(ticks)) in
  let '(rep, a) := trigger_checkpoint (service_of w.(sys)) (tick w.(ticks)) run (Some n) in
  rep = Reply 200 [(run, "checkpoint_started")] /\ triggered n c ps id w.(sys) (run_at (with_service a w.(sys)) w).
Proof.
  intros Hz S St N id. destruct (service_run_state _ _ St) as (r & K & Sr).
  destruct (trigger_spec (service_of w.(sys)) (tick w.(ticks)) run n r (sv_agrees _ _ _ S) K Sr) as (cc & -> & A & K' & E).
  split; [done|]. fold id in E. set (a := Service cc _). set (x := with_service a w.(sys)).
  destruct (sv_free _ _ _ S w.(ticks) ltac:(lia)) as (Fr & I & Cl). fold id in Fr, I, Cl.
  assert (By : beyond run id w.(sys) x).
  { split; [|done|done]. intros id' D. change (coord_of x) with cc. rewrite E. by apply lookup_insert_ne. }
  assert (Cs : state_of cc run = Some CHECKPOINTING) by (unfold state_of; by rewrite K').
  assert (Ex : checkpoints (coord_of x) !! id = Some (Checkpoint run n CPENDING (now (tick w.(ticks))))).
  { change (coord_of x) with cc. rewrite E. apply lookup_insert_eq. }
  split; cbn [run_at sys ticks].
  - eapply (survives_beyond w.(ticks)); [done|exact S|exact A|by exists CHECKPOINTING|by apply S|by apply S|exact By| |].
    + intros cp. fold id. unfold coord_of. by rewrite Fr.
    + intros cp. fold id. rewrite Ex. by intros [= <-].
  - exact Cs.
  - by eexists.
  - intros id' cp. change (coord_of x) with cc. rewrite E. destruct (decide (id' = id)) as [->|D].
    + rewrite lookup_insert_eq. by intros [= <-].
    + rewrite lookup_insert_ne by done. apply N.
  - exact I.
  - exact Cl.
  - exact By.
Qed.

Lemma upload_step n c ps p k x0 w : (k < w.(ticks))%nat -> p_shard p = "rank-0" -> part_ok p ->
  let id := fresh_id (tick k) in triggered n c ps id x0 w ->
  let '(rep, x) := put_shard max_depth fuel (now (tick w.(ticks))) run id (p_shard p) (p_rank p) (p_body p) w.(sys) in
  rep = Reply 200 [] /\ uploaded n c ps p id x0 (run_at x w).
Proof.
  intros K Ps (Lp & _ & Pp) id [S St (at_ & E) N I Cl By]. set (e := tick w.(ticks)). set (d := w.(sys).(data_side)).
  destruct (put_shard_ok max_depth fuel (now e) run id p _ w.(sys).(plane_side) d E eq_refl (su_run Su) (sv_ready _ _ _ S) Lp
    (conj (proj1 (su_plain Su)) (conj (proj2 (su_plain Su) k) Pp)))
    as (uuid & d' & Uu & Pu & Rd & O).
  { apply Cl. apply (in_dir run id ("sha256-" +:+ str_slice 0 (Some 16) (sha256_hex (p_body p)) +:+ "-" +:+ p_shard p +:+ ".bin")). }
  assert (Ow : w.(sys) = System w.(sys).(plane_side) d) by (unfold d; by destruct w.(sys)). rewrite <- Ow in Pu. rewrite Pu. clear Pu.
  pose proof (transfer_frames (now e) run id (upload_of p) w.(sys).(plane_side)) as [Fi Fr].
  destruct (transfer_spec (now e) run id (upload_of p) [] _ w.(sys).(plane_side) (accepted_part p (proj1 Lp)) E eq_refl I)
    as (cc & s' & Tr & Sc & Kc & Fc & Cc & Ic & _).
  rewrite Tr in Fi, Fr |- *. cbn [fst snd] in Fi, Fr. split; [done|]. set (x := System s' d').
  assert (Hd : holding max_depth run id (seen d).(objects) [p] d').
  { apply (holding_snoc max_depth run id _ [] p uuid d d'); [done|apply not_elem_of_nil| |done|exact O].
    split; [apply S|by intros q I0%elem_of_nil|done| |].
    - intros shard sha _ _. apply Cl. apply (in_dir run id ("sha256-" +:+ str_slice 0 (Some 16) sha +:+ "-" +:+ shard +:+ ".bin")).
    - apply Cl. apply (in_dir run id "_manifest.json"). }
  assert (Cx : checkpoints (coord_of x) = <[id := Checkpoint run n CIN_PROGRESS at_]> (checkpoints (coord_of w.(sys)))).
  { unfold coord_of, x. cbn [plane_side]. by rewrite Sc, Cc. }
  assert (Stx : in_state CHECKPOINTING x).
  { unfold in_state, state_of, coord_of, x. cbn [plane_side]. rewrite Sc, Kc. exact St. }
  assert (Bx : beyond run id w.(sys) x).
  { split; [intros id' D; rewrite Cx; by apply lookup_insert_ne|exact Fi|exact (ho_others _ _ _ _ _ _ Hd)]. }
  split; cbn [run_at sys ticks].
  - eapply (survives_beyond k); [lia|exact S| |by exists CHECKPOINTING| |exact Rd|exact Bx| |].
    + unfold coord_of, x. cbn [plane_side]. rewrite Sc. by apply (agrees_kv (coord_of w.(sys))), S.
    + unfold x. cbn [plane_side]. rewrite Fr. apply S.
    + fold id. intros cp Ecp. rewrite E in Ecp. by injection Ecp as <-.
    + fold id. intros cp. rewrite Cx, lookup_insert_eq. by intros [= <-].
  - exact Stx.
  - exists at_. rewrite Cx. apply lookup_insert_eq.
  - intros id' cp. rewrite Cx. destruct (decide (id' = id)) as [|D]; [done|]. rewrite lookup_insert_ne by done.
    intros E' R' S'. by destruct (N id' cp E' R').
  - exact Ic.
  - by eexists.
  - by eapply beyond_trans.
Qed.

Lemma backed_steps c ps x id cp : backed c ps x ->
  checkpoints (coord_of x) !! id = Some cp -> c_run cp = run -> c_state cp = CCOMMITTED -> c_step cp <= c.
Proof.
  intros [[Po (id' & at_ & loss & S & _ & _ & Mx)]|[-> Z]] E R Cm; [|by destruct (Z id cp E R)].
  destruct (Mx id cp E R Cm) as [->|]; [|lia]. pose proof (st_record _ _ _ _ _ _ S) as E'. unfold coord_of in E.
  rewrite E' in E. by injection E as <-.
Qed.

Lemma commit_step n c ps loss ps' k x0 w : (k < w.(ticks))%nat -> (k < horizon)%nat -> 0 <= c < n -> n < 2 ^ 64 ->
  let id := fresh_id (tick k) in uploaded n c ps (shard0 n loss ps') id x0 w ->
  let '(rep, x) := commit_shards fuel (now (tick w.(ticks))) run w.(sys) in
  rep = Reply 200 [(run, "checkpoint_committed")] /\ survives n ps' (run_at x w) /\
  in_state RUNNING x /\ no_upload run (coord_of x) /\ beyond run id x0 x /\ kept n ps' x.
Proof.
  intros K Hk Cn Ln id [S St (at_ & E) On I (o & Hd) By]. set (e := tick w.(ticks)). set (p := shard0 n loss ps').
  destruct (service_run_state _ _ St) as (r & Kr & Sr). destruct (su_fits Su k n loss ps' Hk) as [Lp Fm]. fold id in Fm.
  assert (Po : part_ok p).
  { split; [|split; [cbn; lia|exact rank0_plain]]. split; [exact Lp|]. cbn. assert (0 <= str_length "rank-0" + str_length id) by (unfold str_length; lia).
    unfold max_receive_message_length, max_copy_size in *. lia. }
  assert (Cm : Checkpointing.commit_run true run w.(sys).(plane_side) =
               inr (Checkpointing.CommitCheckpoint run id, n, [stored_upload run id (upload_of p)])).
  { unfold Checkpointing.commit_run. change (st_coord (plane_side (sys w))) with (coord_of (sys w)). rewrite Kr.
    rewrite (active_cp_unique run _ id _ E eq_refl eq_refl) by (intros id' cp'; apply On). cbn [negb]. by rewrite I. }
  unfold commit_shards. rewrite Cm.
  destruct (commit_holding max_depth run id n [p] o (data_side (sys w)) (NoDup_singleton _) (Forall_cons_2 _ _ _ Po (Forall_nil_2 _)) ltac:(lia) Hd)
    as (d & Ex & Rd & Ot & json & m & Mk & Fs & Sh). cbn [map] in Ex, Sh |- *. rewrite Ex. cbn [co_success negb abort_side].
  pose proof (commit_spec (now e) run id _ r (plane_side (sys w)) (sv_agrees _ _ _ S) Kr Sr E) as Cs.
  pose proof (commit_frames (now e) (Some true) run id (plane_side (sys w))) as [Fi Fr].
  destruct (commit_settled _ _ _ _ _) as [rep s']. cbn [snd] in Fi, Fr. destruct Cs as (-> & A & Sx & Cx & _ & _).
  split; [done|]. set (x := System s' d). change (st_coord s') with (coord_of x) in A, Sx, Cx.
  cbn [with_state c_run c_step c_created] in Cx. change (st_coord (plane_side (sys w))) with (coord_of (sys w)) in Cx.
  assert (Bx : beyond run id w.(sys) x).
  { split; [intros id' D; rewrite Cx; by apply lookup_insert_ne|exact Fi|]. intros k' Nk. apply Ot. intros ->.
    by rewrite (in_dir run id "_manifest.json" : starts_with (manifest_key run id) _ = true) in Nk. }
  assert (Sd : stored run id n at_ [p] x).
  { split; [|exists json, m; split_and!; try done| |repeat constructor; apply not_elem_of_nil].
    - change (st_coord (plane_side x)) with (coord_of x). rewrite Cx. apply lookup_insert_eq.
    - intros q Iq. cbn [x data_side]. rewrite Ot by apply final_manifest. by apply (ho_shards _ _ _ _ _ _ Hd). }
  assert (Fi' : fits id n loss ps') by (by split).
  split_and!; [|done| |by eapply beyond_trans|by exists id, at_, loss; split_and!; [|apply (su_ids Su)|]].
  - split; cbn [run_at sys ticks shared_run_id]; [done|by exists RUNNING| |done| | |apply S].
    + unfold x. cbn [plane_side]. rewrite Fr. apply S.
    + left. split; [lia|]. exists id, at_, loss. split_and!; [done|apply (su_ids Su)|done|]. intros id' cp.
      rewrite Cx. destruct (decide (id' = id)) as [|D]; [by left|]. rewrite lookup_insert_ne by done. intros E' R' C'. right.
      pose proof (backed_steps _ _ _ _ _ (sv_backed _ _ _ S) E' R' C'). lia.
    + intros j Hj. eapply (unused_beyond run id); [|apply (su_ids Su)..|exact Bx|apply (sv_free _ _ _ S); lia].
      intros Ej%(su_distinct Su); lia.
  - intros id' cp. rewrite Cx. destruct (decide (id' = id)) as [->|D].
    + rewrite lookup_insert_eq. by intros [= <-].
    + rewrite lookup_insert_ne by done. intros E' R' Ip. by destruct (D (On id' cp E' R' Ip)).
Qed.

Lemma kept_heard n ps w : kept n ps w.(sys) -> kept n ps (heard w).(sys).
Proof.
  pose proof (su_noise Su w.(ticks) w.(sys)) as Q. apply kept_same; apply Q.
Qed.

Lemma save_goes (crash : world -> Prop) n c ps loss ps' w : (w.(ticks) < horizon)%nat ->
  survives c ps w -> in_state RUNNING w.(sys) -> no_upload run (coord_of w.(sys)) -> 0 <= c < n -> n < 2 ^ 64 ->
  (forall w', reported w' = reported w -> survives c ps w' \/ survives n ps' w' -> crash w') ->
  goes crash (save_checkpoint_runtime max_depth fuel tick noise fates ps' n loss 0 run)
    (fun _ w' => survives n ps' w' /\ in_state RUNNING w'.(sys) /\ no_upload run (coord_of w'.(sys)) /\
       reported w' = reported w /\ ticks w' = (ticks w + 3)%nat /\ kept n ps' w'.(sys) /\ forall m q, kept m q w.(sys) -> kept m q w'.(sys)) w.
Proof.
  intros Hz S St N Cn Ln Cr. apply goes_try, goes_bind. pose proof (su_noise Su w.(ticks) w.(sys)) as Q.
  assert (S1 : survives c ps (heard w)) by by apply survives_heard.
  assert (St1 : in_state RUNNING (heard w).(sys)) by (unfold in_state; cbn [heard sys]; by rewrite (q_state _ _ _ _ Q)).
  pose proof (trigger_step n c ps (heard w) Hz S1 St1 (quiet_upload _ _ Q N)) as Tr. cbv zeta in Tr.
  set (id := fresh_id (tick (ticks (heard w)))) in *. unfold Trainer.checkpoint. apply goes_call.
  { apply Cr; [done|]. left. by apply survives_run. }
  { change (ticks w) with (ticks (heard w)). destruct (trigger_checkpoint _ _ _ _) as [rep a].
    apply Cr; [done|]. left. apply Tr. }
  change (ticks w) with (ticks (heard w)). destruct (trigger_checkpoint _ _ _ _) as [rep a]. destruct Tr as [-> Tr].
  exists id. split; [done|]. cbn [snd]. set (w1 := run_at _ (heard w)) in *.
  apply triggered_heard in Tr. apply goes_bind. unfold save_shard.
  pose proof (upload_step n c ps (shard0 n loss ps') (ticks w) (heard w).(sys) (heard w1) (Nat.lt_succ_diag_r _) eq_refl) as Up.
  destruct (su_fits Su (ticks w) n loss ps' Hz) as [Lp Fm].
  assert (Po : part_ok (shard0 n loss ps')).
  { split; [|split; [cbn; lia|exact rank0_plain]]. split; [exact Lp|]. cbn.
    assert (0 <= str_length "rank-0" + str_length (fresh_id (tick (ticks w)))) by (unfold str_length; lia).
    unfold max_receive_message_length, max_copy_size in *. lia. }
  specialize (Up Po Tr). cbv zeta in Up. change (shard_of_rank 0) with (p_shard (shard0 n loss ps')).
  apply goes_call.
  { apply Cr; [done|]. left. apply survives_run. apply Tr. }
  { cbn [p_shard p_rank p_body shard0] in Up |- *. change (ticks w1) with (ticks (heard w1)).
    destruct (put_shard _ _ _ _ _ _ _ _ _) as [rep x]. apply Cr; [done|]. left. apply Up. }
  cbn [p_shard p_rank p_body shard0] in Up |- *. change (ticks w1) with (ticks (heard w1)).
  change (fresh_id (tick (ticks w))) with id in Up.
  destruct (put_shard _ _ _ _ _ _ _ _ _) as [rep x]. destruct Up as [-> Up]. exists tt. split; [done|]. cbn [snd].
  set (w2 := run_at x (heard w1)) in *. apply uploaded_heard in Up. unfold commit_checkpoint.
  pose proof (commit_step n c ps loss ps' (ticks w) (heard w).(sys) (heard w2) ltac:(cbn; lia) Hz Cn Ln Up) as Cm. cbv zeta in Cm.
  apply goes_call.
  { apply Cr; [done|]. left. apply survives_run, Up. }
  { change (ticks w2) with (ticks (heard w2)). destruct (commit_shards _ _ _ _) as [rep y]. apply Cr; [done|]. right. apply Cm. }
  change (ticks w2) with (ticks (heard w2)). destruct (commit_shards _ _ _ _) as [rep y].
  destruct Cm as (-> & S3 & St3 & N3 & B3 & K3). exists tt. split; [done|]. cbn [snd]. split_and!; [done..|cbn; lia|done|].
  intros m q Kq. eapply (kept_beyond id); [apply (su_ids Su)|exact B3| |by apply kept_heard].
  intros cp. unfold id. by rewrite (free_name _ _ _ _ S1 (conj (le_n _) Hz)).
Qed.

(** ** The loop *)

Context (a : args) (epochs : nat -> list batch) (stop : Z -> bool).
Context (Steps : 0 < a.(steps) < 2 ^ 64) (Interval : 0 < a.(checkpoint_every)) (Logs : a.(log_every) <> 0).

Definition after_batches (bs : list batch) (ps : params) : params := foldl (fun ps b => snd (optimize ps b)) ps bs.
(** The first batches that the data loader yields *)
Definition fed (bs : list batch) : Prop := exists n, bs `prefix_of` concat (map epochs (seq 0 n)).
(** The parameters at a step, [c0] steps having been done before *)
Definition at_step (c0 : Z) (ps0 : params) (bs : list batch) (n : Z) : params :=
  after_batches (take (Z.to_nat (n - c0)) bs) ps0.

(** A process at the loop: its model, and the checkpoints it has saved *)
Record underway (c0 : Z) (ps0 : params) (bs : list batch) (t : process) (w : world) : Prop := {
  un_step : t.(step) = c0 + Z.of_nat (length bs);
  un_bound : 0 <= c0 /\ t.(step) <= a.(steps);
  un_model : t.(model) = after_batches bs ps0;
  un_running : in_state RUNNING w.(sys);
  un_closed : no_upload run (coord_of w.(sys));
  un_reported : w.(reported) <= t.(step);
  un_budget : (w.(ticks) + 3 * Z.to_nat (a.(steps) - t.(step)) + 1 <= horizon)%nat;
  un_newest : exists c, c0 <= c <= t.(step) /\ survives c (at_step c0 ps0 bs c) w /\
    t.(last_successful_checkpoint_step) = (if 0 <? c then Some c else None) /\
    forall n, c < n <= t.(step) -> n mod a.(checkpoint_every) <> 0;
  un_kept n : c0 < n <= t.(step) -> n mod a.(checkpoint_every) = 0 -> kept n (at_step c0 ps0 bs n) w.(sys)
}.

(** What a kill leaves: a completed run, or one that can go on from a checkpoint not more
    than an interval back *)
Definition completed (c0 : Z) (ps0 : params) (w : world) : Prop :=
  in_state COMPLETED w.(sys) /\ exists bs, fed bs /\ let n := c0 + Z.of_nat (length bs) in
    n <= a.(steps) /\ (a.(steps) <= n \/ stop n = true) /\ kept n (after_batches bs ps0) w.(sys).
Definition wrecked (c0 : Z) (ps0 : params) (w : world) : Prop :=
  completed c0 ps0 w \/
  exists bs c, fed bs /\ c0 <= c <= Z.min (c0 + Z.of_nat (length bs)) a.(steps) /\ w.(reported) <= c + a.(checkpoint_every) /\
    survives c (at_step c0 ps0 bs c) w.

Lemma interval_bound k c s : 0 < k -> (forall n, c < n <= s -> n mod k <> 0) -> s < c + k.
Proof.
  intros K N. destruct (Z.lt_ge_cases s (c + k)) as [|G]; [done|]. exfalso. apply (N (k * (c / k + 1))).
  - pose proof (Z.div_mod c k ltac:(lia)). pose proof (Z.mod_pos_bound c k K). lia.
  - rewrite Z.mul_comm. apply Z.mod_mul. lia.
Qed.
Lemma survives_reported c ps w n : survives c ps w -> survives c ps (World w.(sys) w.(ticks) w.(shared_run_id) n).
Proof. intros [A St I R B F Sh]. by split. Qed.
Lemma at_step_app c0 ps0 bs bs' n : n <= c0 + Z.of_nat (length bs) -> at_step c0 ps0 (bs ++ bs') n = at_step c0 ps0 bs n.
Proof. intros L. unfold at_step. rewrite take_app_le by lia. done. Qed.
Lemma at_step_all c0 ps0 bs : at_step c0 ps0 bs (c0 + Z.of_nat (length bs)) = after_batches bs ps0.
Proof. unfold at_step. by rewrite take_ge by lia. Qed.
Lemma fed_prefix bs bs' : bs `prefix_of` bs' -> fed bs' -> fed bs.
Proof. intros Pr [n Pn]. exists n. by etransitivity. Qed.

Lemma iteration_goes c0 ps0 bs b t w : underway c0 ps0 bs t w -> t.(step) < a.(steps) -> fed (bs ++ [b]) ->
  goes (wrecked c0 ps0) (iteration max_depth fuel tick noise fates a run b t) (underway c0 ps0 (bs ++ [b])) w.
Proof.
  intros [Ust [C0 _] Um Ur Uc Up Ubg (c & Cc & S & Ul & Un) Uk] Lt Fe. unfold iteration.
  destruct (optimize (model t) b) as [loss ps] eqn:O. cbv zeta. apply goes_update.
  set (n := step t + 1). set (w1 := World _ _ _ n).
  assert (Ps : after_batches (bs ++ [b]) ps0 = ps) by (unfold after_batches in *; rewrite foldl_app; cbn; by rewrite <- Um, O).
  assert (Ln : n = c0 + Z.of_nat (length (bs ++ [b]))) by (rewrite length_app; cbn; lia).
  assert (Cn : c < n <= c + a.(checkpoint_every)) by (pose proof (interval_bound _ c (step t) Interval Un); lia).
  assert (At : forall m, m <= step t -> at_step c0 ps0 (bs ++ [b]) m = at_step c0 ps0 bs m) by (intros; apply at_step_app; lia).
  assert (S1 : survives c (at_step c0 ps0 (bs ++ [b]) c) w1) by (rewrite At by lia; by apply survives_reported).
  assert (An : at_step c0 ps0 (bs ++ [b]) n = ps) by (rewrite Ln, <- Ps; apply at_step_all).
  destruct (Z.eqb_spec (log_every a) 0) as [|_]; [done|]. destruct (Z.ltb_spec 0 (checkpoint_every a)) as [_|]; [|lia].
  destruct (Z.eqb_spec (n mod checkpoint_every a) 0) as [M|M]; cbn [andb].
  - apply goes_bind. eapply goes_mono; [apply (save_goes (wrecked c0 ps0) n c _ loss ps w1 ltac:(cbn; lia) S1 Ur Uc)|done|]; [lia|lia| |].
    + intros w' Rw Sv. right. exists (bs ++ [b]). destruct Sv as [Sv|Sv]; [exists c|exists n]; rewrite Rw;
        (split_and!; [done|lia|lia|cbn; lia|]); [done|by rewrite An].
    + intros _ w' (S' & R' & N' & Rw & Tk & Kn & Km). apply goes_ret. split; cbn [step model last_successful_checkpoint_step].
      * exact Ln.
      * lia.
      * done.
      * done.
      * done.
      * rewrite Rw. cbn. lia.
      * rewrite Tk. cbn. lia.
      * exists n. split; [lia|]. split; [by rewrite An|]. split; [by destruct (Z.ltb_spec 0 n); [|lia]|lia].
      * intros m Hm Mm. destruct (Z.eq_dec m n) as [->|D]; [by rewrite An|]. rewrite At by lia. by apply Km, Uk; [lia|].
  - apply goes_ret. split; cbn [step model last_successful_checkpoint_step].
    + exact Ln.
    + lia.
    + done.
    + done.
    + done.
    + cbn. lia.
    + cbn. lia.
    + exists c. split; [lia|]. split; [done|]. split; [done|]. intros m Hm. destruct (Z.eq_dec m n) as [->|]; [done|]. apply Un. lia.
    + intros m Hm Mm. assert (m <> n) by (by intros ->). rewrite At by lia. by apply Uk; [lia|].
Qed.

(** The loops end because the steps run out, or because the process was asked to stop. *)
Definition over (t : process) : Prop := a.(steps) <= t.(step) \/ stop t.(step) = true.

Lemma for_batches_goes c0 ps0 bs1 bs t w : underway c0 ps0 bs t w -> fed (bs ++ bs1) ->
  goes (wrecked c0 ps0) (for_batches max_depth fuel tick noise fates a stop run bs1 t)
    (fun t' w' => exists bs2, bs2 `prefix_of` bs1 /\ underway c0 ps0 (bs ++ bs2) t' w' /\ (bs2 = bs1 \/ over t')) w.
Proof.
  revert bs t w. induction bs1 as [|b bs1 IH]; intros bs t w Un Fe; cbn [for_batches].
  { apply goes_ret. exists []. rewrite app_nil_r. split_and!; [done|done|by left]. }
  assert (Stop : over t -> goes (wrecked c0 ps0) (ret t)
    (fun t' w' => exists bs2, bs2 `prefix_of` b :: bs1 /\ underway c0 ps0 (bs ++ bs2) t' w' /\ (bs2 = b :: bs1 \/ over t')) w).
  { intros O. apply goes_ret. exists []. rewrite app_nil_r. split_and!; [apply prefix_nil|done|by right]. }
  destruct (Z.leb_spec (steps a) (step t)) as [L|L]; [apply Stop; by left|]. cbn [orb].
  destruct (stop (step t)) eqn:St; [apply Stop; by right|].
  assert (E : bs ++ b :: bs1 = (bs ++ [b]) ++ bs1) by (by rewrite <- app_assoc).
  apply goes_bind. eapply goes_mono; [apply iteration_goes; [exact Un|exact L|]|done|].
  { eapply fed_prefix; [|exact Fe]. rewrite E. by apply prefix_app_r. }
  intros t' w' Un'. eapply goes_mono; [apply IH; [exact Un'|by rewrite <- E]|done|].
  intros t2 w2 (bs2 & Pr & U2 & O). exists (b :: bs2). split_and!; [by apply prefix_cons| |].
  - by rewrite <- app_assoc in U2.
  - destruct O as [->|O]; [by left|by right].
Qed.

Lemma while_goes c0 ps0 bound n t w : (forall i, epochs i <> []) ->
  underway c0 ps0 (concat (map epochs (seq 0 n))) t w -> a.(steps) - t.(step) <= Z.of_nat bound ->
  goes (wrecked c0 ps0) (while_epochs max_depth fuel tick noise fates a epochs stop run bound n t)
    (fun t' w' => exists bs, fed bs /\ underway c0 ps0 bs t' w' /\ over t') w.
Proof.
  intros Ne. revert n t w. induction bound as [|bound IH]; intros n t w Un B; cbn [while_epochs].
  all: assert (Stop : over t -> goes (wrecked c0 ps0) (ret t) (fun t' w' => exists bs, fed bs /\ underway c0 ps0 bs t' w' /\ over t') w)
    by (intros O; apply goes_ret; eexists; split_and!; [by exists n|exact Un|exact O]).
  all: destruct (Z.ltb_spec (step t) (steps a)) as [L|L]; [|apply Stop; by left]; cbn [andb].
  all: destruct (stop (step t)) eqn:St; cbn [negb]; [apply Stop; by right|].
  { lia. }
  assert (E : concat (map epochs (seq 0 (S n))) = concat (map epochs (seq 0 n)) ++ epochs n).
  { rewrite seq_S, map_app, concat_app. cbn. by rewrite app_nil_r. }
  apply goes_bind. eapply goes_mono; [apply for_batches_goes; [exact Un|]|done|].
  { rewrite <- E. by exists (S n). }
  intros t' w' (bs2 & Pr & U2 & [->|O]).
  - rewrite <- E in U2. apply IH; [exact U2|]. pose proof (un_step _ _ _ _ _ Un) as E1. pose proof (un_step _ _ _ _ _ U2) as E2.
    rewrite E, length_app in E2. specialize (Ne n). destruct (epochs n); [done|]. cbn in E2. lia.
  - assert (F : fed (concat (map epochs (seq 0 n)) ++ bs2)) by (exists (S n); rewrite E; by apply prefix_app).
    destruct bound as [|bound]; cbn [while_epochs]; destruct O as [O|O].
    all: try (replace (step t' <? steps a) with false by (symmetry; by apply Z.ltb_ge)); rewrite ?O, ?andb_false_r; cbn [negb andb].
    all: try rewrite andb_false_r; apply goes_ret; eexists; split_and!; [exact F|exact U2|first [by left|by right]].
Qed.

(** ** The end of a training *)

Lemma resume_checkpoints x e : checkpoints (coord (snd (resume_run (service_of x) e run))) = checkpoints (coord_of x).
Proof.
  change (coord_of x) with (coord (service_of x)). unfold resume_run. destruct (kv _ !! run) as [r|]; [|done].
  destruct (r_state r); cbn [snd coord]; try done;
    match goal with |- context [transition_run ?c ?i ?s ?n] =>
      pose proof (transition_checkpoints c i s n) as E; by destruct (transition_run c i s n) end.
Qed.

Lemma kept_plane w a0 n q : checkpoints (coord a0) = checkpoints (coord_of w.(sys)) ->
  kept n q w.(sys) -> kept n q (with_service a0 w.(sys)).
Proof.
  intros E. by apply kept_same.
Qed.

Lemma finish_goes c0 ps0 bs t w : fed bs -> underway c0 ps0 bs t w -> over t -> stop 0 = false ->
  goes (wrecked c0 ps0) (finish max_depth fuel tick noise fates run t)
    (fun t' w' => t' = t /\ in_state COMPLETED w'.(sys) /\ kept t.(step) t.(model) w'.(sys) /\
       forall n, c0 < n <= t.(step) -> n mod a.(checkpoint_every) = 0 -> kept n (at_step c0 ps0 bs n) w'.(sys)) w.
Proof.
  intros Fe [Ust [C0 Ub] Um Ur Uc Up Ubg (c & Cc & S & Ul & Un) Uk] O St0. pose proof (interval_bound _ c (step t) Interval Un) as Bn.
  assert (Pos : 0 < step t) by (destruct O as [O|O]; [lia|]; destruct (Z.eq_dec (step t) 0) as [E|]; [by rewrite E, St0 in O|lia]).
  assert (An : at_step c0 ps0 bs (step t) = model t) by (rewrite Ust, Um; apply at_step_all).
  unfold finish. apply goes_bind.
  apply (goes_mono (wrecked c0 ps0) (wrecked c0 ps0) _ (fun _ w' => survives (step t) (model t) w' /\ in_state RUNNING w'.(sys) /\
    reported w' <= step t /\ kept (step t) (model t) w'.(sys) /\
    forall n, c0 < n <= t.(step) -> n mod a.(checkpoint_every) = 0 -> kept n (at_step c0 ps0 bs n) w'.(sys))); [|done|].
  - rewrite Ul. case_bool_decide as L.
    + apply goes_ret. destruct (Z.ltb_spec 0 c) as [Pc|]; [|done]. injection L as ->. rewrite An in S. split_and!; try done.
      destruct (sv_backed _ _ _ S) as [[_ (id & at_ & loss & Sd & F & Fi & _)]|[E _]]; [|lia]. by exists id, at_, loss.
    + assert (c <> step t) by (intros ->; apply L; by destruct (Z.ltb_spec 0 (step t)); [|lia]).
      eapply goes_mono; [apply (save_goes (wrecked c0 ps0) (step t) c _ (running_loss t) (model t) w ltac:(lia) S Ur Uc)|done|]; [lia|lia| |].
      * intros w' Rw Sv. right. exists bs. destruct Sv as [Sv|Sv]; [exists c|exists (step t)]; rewrite Rw;
          (split_and!; [done|lia|lia|lia|]); [done|by rewrite An].
      * intros _ w' (S' & R' & N' & Rw & _ & Kn & Km). split_and!; [done|done|lia|done|]. intros m Hm Mm. by apply Km, Uk.
  - intros _ w1 (S1 & R1 & Rp & K1 & Ks). apply goes_bind, goes_try. apply survives_heard in S1 as Sh.
    assert (Rh : in_state RUNNING (heard w1).(sys)).
    { unfold in_state. cbn [heard sys]. by rewrite (q_state _ _ _ _ (su_noise Su _ _)). }
    destruct (service_run_state _ _ Rh) as (r & Kr & Sr).
    pose proof (transition_run_spec (coord_of (sys (heard w1))) run COMPLETED (now (tick (ticks w1))) r (sv_agrees _ _ _ Sh) Kr) as Tr.
    rewrite Sr, bool_decide_true in Tr by (repeat constructor).
    unfold complete_run. apply goes_call.
    { right. exists bs, (step t). split_and!; [done|lia|lia|cbn; lia|]. rewrite An. by apply survives_run. }
    all: unfold ControlPlane.complete_run, transition_endpoint; change (coord (service_of ?x)) with (coord_of x);
      destruct (transition_run _ _ _ _) as [res cc]; destruct Tr as (A & Ec & _ & -> & Kc).
    all: assert (Cd : in_state COMPLETED (with_service (Service cc (restarts (service_of (sys (heard w1))))) (sys (heard w1))))
      by (unfold in_state, state_of; change (coord_of (with_service (Service cc ?r) ?x)) with cc; by rewrite Kc).
    all: assert (Kp : forall n q, kept n q w1.(sys) -> kept n q (with_service (Service cc (restarts (service_of (sys (heard w1))))) (sys (heard w1))))
      by (intros n q Kq; eapply kept_plane; [exact Ec|by apply kept_heard]).
    { left. split; [exact Cd|]. exists bs. cbv zeta. rewrite <- Ust, <- Um. split_and!; [done|done|exact O|by apply Kp]. }
    exists tt. split; [done|]. apply goes_ret. split; [done|]. split; [exact Cd|]. split; [by apply Kp|].
    intros n Hn Mn. by apply Kp, Ks.
Qed.

(** ** The start of a training *)

Definition base (c : Z) (ps built : params) : params := if 0 <? c then ps else built.
Lemma survives_base c ps built w : survives c ps w -> survives c (base c ps built) w.
Proof.
  unfold base. intros [A St I R B F Sh]. split; try done. destruct (Z.ltb_spec 0 c); [done|].
  destruct B as [[? _]|B]; [lia|by right].
Qed.
Lemma wrecked_start c ps w : 0 <= c <= a.(steps) -> survives c ps w -> w.(reported) <= c + a.(checkpoint_every) -> wrecked c ps w.
Proof. intros Hc S R. right. exists [], c. split_and!; [by exists 0%nat|lia|cbn; lia|done|]. unfold at_step. by rewrite take_nil. Qed.

(** A request that only reads *)
Lemma read_goes {A} (crash : world -> Prop) (v : world -> A) (f : env -> system -> (exn + A) * system) c ps (Q : A -> world -> Prop) w :
  survives c ps w -> (forall e w, survives c ps w -> f e w.(sys) = (inr (v w), w.(sys))) ->
  (forall w', survives c ps w' -> reported w' = reported w -> crash w') ->
  Q (v (heard w)) (run_at (heard w).(sys) (heard w)) -> goes crash (request tick noise fates f) Q w.
Proof.
  intros S E Cr q. apply survives_heard in S as Sh. apply goes_call.
  - apply Cr; [by apply survives_run|done].
  - rewrite (E (tick (ticks w)) (heard w) Sh). apply Cr; [by apply survives_run|done].
  - rewrite (E (tick (ticks w)) (heard w) Sh). by exists (v (heard w)).
Qed.

Lemma heard_state s w : in_state s w.(sys) -> in_state s (heard w).(sys).
Proof. unfold in_state. cbn [heard sys]. by rewrite (q_state _ _ _ _ (su_noise Su _ _)). Qed.
(** The checkpoints are those of another state. *)
Definition same_checkpoints (w w' : world) : Prop := checkpoints (coord_of w'.(sys)) = checkpoints (coord_of w.(sys)).
Lemma heard_checkpoints w : same_checkpoints w (heard w).
Proof. apply (q_checkpoints _ _ _ _ (su_noise Su _ _)). Qed.
Lemma same_upload w w' : same_checkpoints w w' -> no_upload run (coord_of w.(sys)) -> no_upload run (coord_of w'.(sys)).
Proof. intros E N id cp L. apply (N id cp). by rewrite <- E. Qed.
#[local] Instance same_checkpoints_trans : Transitive same_checkpoints.
Proof. intros x y z E E'. unfold same_checkpoints. by rewrite E', E. Qed.
#[local] Instance same_checkpoints_refl : Reflexive same_checkpoints.
Proof. done. Qed.

(** One request to resume takes a FAILED run to RECOVERING and the others to RUNNING. *)
Definition resumed (s : run_state) : run_state := match s with FAILED => RECOVERING | _ => RUNNING end.
Lemma resumed_started s : s ∈ [FAILED; RECOVERING; RUNNING] -> resumed s ∈ [FAILED; RECOVERING; RUNNING] /\ resumed s ∈ [RECOVERING; RUNNING].
Proof. intros I. split; cases_in I. Qed.
Lemma resume_goes (crash : world -> Prop) c ps s w :
  survives c ps w -> in_state s w.(sys) -> s ∈ [FAILED; RECOVERING; RUNNING] ->
  (forall w', survives c ps w' -> reported w' = reported w -> crash w') ->
  goes crash (resume tick noise fates run) (fun _ w' => survives c ps w' /\ in_state (resumed s) w'.(sys) /\
    same_checkpoints w w' /\ reported w' = reported w /\ ticks w' = S (ticks w)) w.
Proof.
  intros S St Is Cr. apply survives_heard in S as Sh. apply heard_state in St. pose proof (heard_checkpoints w) as Eh.
  set (w1 := heard w) in *. destruct (service_run_state _ _ St) as (r & Kr & Sr).
  pose proof (resume_run_acted (service_of w1.(sys)) (tick w.(ticks)) run r (sv_agrees _ _ _ Sh) Kr) as Ac.
  pose proof (resume_checkpoints w1.(sys) (tick w.(ticks))) as Ec.
  unfold resume. apply goes_call; [apply Cr; [by apply survives_run|done]|..].
  all: change (service_of (sys (heard w))) with (service_of w1.(sys));
    destruct (resume_run _ _ _) as [rep a1]; cbn [snd fst] in *; destruct Ac as (A1 & _ & Ac).
  all: assert (Ta : rep = Reply 200 [(run, "run_resumed")] /\ state_of (coord a1) run = Some (resumed s)) by
    (rewrite Sr in Ac; rewrite !elem_of_cons in Is; destruct Is as [->|[->|[->|Is%elem_of_nil]]]; done).
  all: destruct Ta as [-> Ts].
  all: assert (S2 : survives c ps (run_at (with_service a1 w1.(sys)) w1))
    by (apply survives_service; [done..|]; exists (resumed s); split; [exact Ts|by destruct s]).
  - apply Cr; [exact S2|done].
  - exists tt. split; [done|]. split_and!; [exact S2|exact Ts| |done|done].
    etransitivity; [exact Eh|]. exact Ec.
Qed.

(** A run that a process of the trainer starts from: its states, and the checkpoint at step
    [c], if any, to go back to. Whether a checkpoint of the run is still being uploaded is
    nothing that the trainer looks at, and not part of it. *)
Record startable (c : Z) (ps : params) (w : world) : Prop := {
  sa_survives : survives c ps w;
  sa_state : exists s, in_state s w.(sys) /\ s ∈ [FAILED; RECOVERING; RUNNING];
  sa_reported : w.(reported) <= c + a.(checkpoint_every)
}.
Definition chosen (w : world) : Prop := exists s, in_state s w.(sys) /\ s ∈ [RECOVERING; RUNNING].

Lemma choice_goes c ps w : 0 <= c <= a.(steps) -> startable c ps w ->
  goes (wrecked c ps) (get_or_create_run_id tick noise fates "")
    (fun id w' => id = run /\ startable c ps w' /\ chosen w' /\ same_checkpoints w w' /\ (ticks w' <= ticks w + 2)%nat) w.
Proof.
  intros Hc [S (s & St & Is) R]. unfold get_or_create_run_id. rewrite bool_decide_false by (by intros []).
  assert (Cr : forall w', survives c ps w' -> reported w' = reported w -> wrecked c ps w')
    by (intros w' S' Rw; apply wrecked_start; [done|done|by rewrite Rw]).
  cut (goes (wrecked c ps) (resumable_run tick noise fates run) (fun o w' => o = Some run /\ startable c ps w' /\ chosen w' /\
    same_checkpoints w w' /\ (ticks w' <= ticks w + 2)%nat) w).
  { intros G. apply goes_bind. unfold goes at 1. rewrite (sv_shared _ _ _ S). cbn [default from_option id].
    destruct (su_named Su) as [-> Ne]. rewrite (nonempty_case run _ (fun o => resumable_run tick noise fates o w)) by done.
    eapply goes_mono; [exact G|done|]. intros o w' [-> Sa]. by apply goes_ret. }
  apply goes_try, goes_bind. unfold get_run_status.
  eapply (read_goes _ (fun w => default CREATED (state_of (coord_of w.(sys)) run))); [exact S| |exact Cr|].
  { intros e w0 S0'. destruct (sv_state _ _ _ S0') as (s0 & -> & _). done. }
  apply heard_state in St. pose proof (heard_checkpoints w) as Eh. apply survives_heard in S.
  unfold in_state in St. rewrite St. cbn [default from_option id].
  rewrite bool_decide_true by by apply starts_resumable. apply goes_bind.
  case_bool_decide as Mv.
  - eapply goes_mono; [apply (resume_goes (wrecked c ps) c ps s); [by apply survives_run|exact St|exact Is|]|done|].
    { intros w' S' Rw. by apply Cr. }
    intros _ w' (S' & St' & N' & Rw & Tk). apply goes_ret. split; [done|].
    split; [split|split; [|split]]; [done| |rewrite Rw; exact R| |by etransitivity|rewrite Tk; cbn; lia].
    all: exists (resumed s); split; [done|]; by apply resumed_started.
  - apply goes_ret, goes_ret. split; [done|]. split; [split|split; [|split]]; [by apply survives_run|by exists s|exact R| |exact Eh|cbn; lia].
    exists s. split; [exact St|]. by apply starts_unmoved.
Qed.

Lemma register_survives c ps w id n : survives c ps w ->
  let p := w.(sys).(plane_side).(ctl) in
  survives c ps (run_at (System (set_ctl (set_reg (snd (Workers.register_worker run (Some 0) id n p.(reg))) p) w.(sys).(plane_side)) w.(sys).(data_side)) w).
Proof.
  intros S p. eapply survives_same; [exact S|apply S|apply S|apply S|apply S|done..].
Qed.

Lemma register_goes c ps w : 0 <= c <= a.(steps) -> startable c ps w -> chosen w ->
  goes (wrecked c ps) (register_worker tick noise fates run 0)
    (fun _ w' => startable c ps w' /\ chosen w' /\ same_checkpoints w w' /\ ticks w' = S (ticks w)) w.
Proof.
  intros Hc [S St R] (s & Ss & Is). apply survives_heard in S as Sh. apply heard_state in Ss. pose proof (heard_checkpoints w) as Eh.
  assert (Cr : forall w', survives c ps w' -> reported w' = reported w -> wrecked c ps w')
    by (intros w' S' Rw; apply wrecked_start; [done|done|by rewrite Rw]).
  pose proof (register_survives c ps (heard w) (fresh_id (tick (ticks w))) (now (tick (ticks w))) Sh) as Sr.
  unfold register_worker. apply goes_call; [apply Cr; [by apply survives_run|done]|by apply Cr|].
  eexists. split; [done|]. split; [|split; [by exists s|split; [exact Eh|done]]]. split; [exact Sr|exists s|exact R]. split; [exact Ss|by right].
Qed.

(** The checkpoint that the trainer loads is the one it can go back to. *)
Lemma newest_backed c ps x : backed c ps x ->
  match newest (committed run (coord_of x)) with
  | Some (id, cp) => 0 < c /\ c_step cp = c /\ exists at_ loss, stored run id c at_ [shard0 c loss ps] x /\ fits id c loss ps
  | None => c = 0
  end.
Proof.
  intros B. pose proof (newest_spec (committed run (coord_of x))) as Nw.
  destruct B as [[Po (id & at_ & loss & S & _ & Fi & Mx)]|[-> Z]].
  - assert (I : (id, Checkpoint run c CCOMMITTED at_) ∈ committed run (coord_of x)) by (apply committed_elem; split_and!; [apply S|done|done]).
    destruct (newest _) as [[id' cp]|]; [|by rewrite Nw in I; apply elem_of_nil in I].
    destruct Nw as [I' Mn]. apply committed_elem in I' as (E & R & Cm). specialize (Mn _ I). cbn in Mn.
    destruct (Mx id' cp E R Cm) as [->|]; [|lia]. pose proof (st_record _ _ _ _ _ _ S) as E'. unfold coord_of in E.
    rewrite E' in E. injection E as <-. split; [done|]. split; [done|]. by exists at_, loss.
  - destruct (newest _) as [[id' cp]|]; [|done]. destruct Nw as [I' _]. apply committed_elem in I' as (E & R & Cm). by destruct (Z id' cp E R).
Qed.

(** A read of a shard leaves the bucket as it is. *)
Lemma survives_read c ps w d : survives c ps w -> seen d = seen w.(sys).(data_side) -> up d.(cloud) ->
  d.(queue_depth) = w.(sys).(data_side).(queue_depth) -> survives c ps (run_at (System w.(sys).(plane_side) d) w).
Proof.
  intros S V Up Q. eapply survives_same; [exact S|apply S|apply S|apply S| |done|done|cbn; by rewrite V].
  destruct (sv_ready _ _ _ S) as (_ & D & M). unfold ready. cbn. rewrite Q. split; [done|by split].
Qed.

Lemma load_goes c ps built w : 0 <= c <= a.(steps) -> startable c ps w -> chosen w ->
  goes (wrecked c ps) (load_checkpoint_runtime tick noise fates built 0 run)
    (fun r w' => r = (base c ps built, c) /\ startable c ps w' /\ chosen w' /\ same_checkpoints w w' /\ reported w' = reported w /\
       (ticks w' <= ticks w + 2)%nat) w.
Proof.
  intros Hc [S St R] (s & Ss & Is).
  assert (Cr : forall w', survives c ps w' -> reported w' = reported w -> wrecked c ps w')
    by (intros w' S' Rw; apply wrecked_start; [done|done|by rewrite Rw]).
  apply goes_try, goes_bind. unfold list_checkpoints.
  eapply (read_goes _ (fun w => Recovery.list_checkpoints run (coord_of w.(sys)))); [exact S| |exact Cr|].
  { intros e w0 Sv. destruct (sv_state _ _ _ Sv) as (s0 & E & _). destruct (service_run_state _ _ E) as (r & -> & _). done. }
  apply heard_state in Ss. pose proof (heard_checkpoints w) as Eh. apply survives_heard in S.
  set (w1 := heard w) in *. change (filter _ _) with (committed run (coord_of (sys w1))).
  pose proof (newest_backed c ps _ (sv_backed _ _ _ S)) as Nb. unfold base.
  assert (S1 : survives c ps (run_at (sys w1) w1)) by by apply survives_run.
  destruct (newest _) as [[id cp]|].
  2: { subst c. apply goes_ret. split; [done|]. split; [|split; [by exists s|split; [exact Eh|split; [done|cbn; lia]]]].
       split; [done|exists s; split; [done|by right]|done]. }
  destruct Nb as (Po & Ec & at_ & loss & Sd & [Ln Fi]). destruct (Z.ltb_spec 0 c); [|lia].
  apply goes_bind, goes_try. change (shard_of_rank 0) with (p_shard (shard0 c loss ps)). unfold load_shard.
  set (w2 := run_at (sys w1) w1) in *. apply survives_heard in S1 as S2.
  apply (heard_state s w2) in Ss. pose proof (heard_checkpoints w2) as Eh2.
  assert (Sd2 : stored run id c at_ [shard0 c loss ps] (sys (heard w2))).
  { pose proof (su_noise Su (ticks w2) (sys w2)) as Q. eapply stored_same; [apply Q|apply Q|exact Sd]. }
  destruct (stored_read _ _ _ _ _ _ (shard0 c loss ps) Sd2 (proj1 (sv_ready _ _ _ S2)) ltac:(by left)) as (d & Rs & V & Up & Q).
  destruct (received_spec id (p_shard (shard0 c loss ps)) (p_body (shard0 c loss ps)) Ln) as [Rc _].
  pose proof (survives_read c ps (heard w2) d S2 V Up Q) as S3.
  apply goes_call; [by apply Cr; [apply survives_run|]|..]; unfold download_shard; rewrite Rs.
  { by apply Cr. }
  cbn [fst snd]. rewrite Rc by exact Fi. exists (torch_save c loss ps). split; [done|].
  rewrite torch_round_trip, Ec. apply goes_ret. split; [done|].
  split; [|split; [exists s; split; [exact Ss|exact Is]|split; [etransitivity; [exact Eh|exact Eh2]|split; [done|cbn; lia]]]].
  split; [exact S3|exists s; split; [exact Ss|by right]|exact R].
Qed.

(** ** A process of the trainer *)

(** A training that went through: its model comes from the batches that were fed, every
    interval and the last step have a checkpoint, and the run is completed. *)
Definition trained (c0 : Z) (ps0 : params) (t : process) (w : world) : Prop :=
  exists bs, fed bs /\ t.(step) = c0 + Z.of_nat (length bs) /\ t.(model) = after_batches bs ps0 /\ t.(step) <= a.(steps) /\ over t /\
    in_state COMPLETED w.(sys) /\ kept t.(step) t.(model) w.(sys) /\
    forall n, c0 < n <= t.(step) -> n mod a.(checkpoint_every) = 0 -> kept n (at_step c0 ps0 bs n) w.(sys).

(** [train] in two parts: what comes before the loop, and the loop with what follows it *)
Definition begin (built : params) : sdk (string * process) :=
  let@ id := get_or_create_run_id tick noise fates "" in
  let@ _ := register_worker tick noise fates id 0 in
  let@ _ := update_step 0 in
  let@ r := load_checkpoint_runtime tick noise fates built 0 id in
  let@ _ := try_except (resume tick noise fates id) (fun _ => raise RuntimeError) in
  ret (id, Process r.1 r.2 (if 0 <? r.2 then Some r.2 else None) (of_Z 0)).
Definition proceed (bound : nat) (x : string * process) : sdk process :=
  let@ t := while_epochs max_depth fuel tick noise fates a epochs stop x.1 bound 0 x.2 in
  finish max_depth fuel tick noise fates x.1 t.
Lemma train_begin bound built w :
  train max_depth fuel tick noise fates a epochs stop "" bound built w = andThen (begin built) (proceed bound) w.
Proof.
  unfold train, training, begin, proceed, andThen. destruct (get_or_create_run_id _ _ _ _ w) as [[e|id] w1]; [done|].
  destruct (register_worker _ _ _ _ _ w1) as [[e|wk] w2]; [done|]. unfold update_step.
  destruct (load_checkpoint_runtime _ _ _ _ _ _ _) as [[e|r] w3]; [done|].
  by destruct (try_except _ _ w3) as [[e|u] w4].
Qed.

(** The process as it enters its loop with the checkpoint at step [c] restored *)
Definition restored (c : Z) (ps built : params) : process :=
  Process (base c ps built) c (if 0 <? c then Some c else None) (of_Z 0).

Lemma begin_goes c ps built w : 0 <= c <= a.(steps) -> startable c ps w ->
  goes (wrecked c (base c ps built)) (begin built)
    (fun x w' => x = (run, restored c ps built) /\ survives c (base c ps built) w' /\ in_state RUNNING w'.(sys) /\
      same_checkpoints w w' /\ reported w' = 0 /\ (ticks w' <= ticks w + 6)%nat) w.
Proof.
  intros Hc [S St R]. set (ps0 := base c ps built).
  assert (Bb : base c ps0 built = ps0) by (unfold ps0, base; by destruct (0 <? c)).
  assert (Sa : startable c ps0 w) by (split; [by apply survives_base|done..]).
  unfold begin. apply goes_bind. eapply goes_mono; [apply (choice_goes c ps0 w); [lia|exact Sa]|done|]. intros id w1 (-> & Sa1 & Ch1 & E1 & T1).
  apply goes_bind. eapply goes_mono; [apply (register_goes c ps0 w1); [lia|exact Sa1|exact Ch1]|done|]. intros id w2 (Sa2 & Ch2 & E2 & T2).
  apply goes_update. set (w3 := World _ _ _ 0).
  assert (Sa3 : startable c ps0 w3) by (destruct Sa2 as [S2 St2 R2]; split; [by apply survives_reported|exact St2|unfold w3; cbn; lia]).
  apply goes_bind. eapply goes_mono; [apply (load_goes c ps0 built w3); [lia|exact Sa3|exact Ch2]|done|]. intros r w4 (-> & Sa4 & Ch4 & E4 & R4' & T4).
  rewrite Bb. cbn [fst snd]. destruct Sa4 as [S4 _ R4]. destruct Ch4 as (s & Ss & Is).
  apply goes_bind. eapply goes_mono; [apply goes_try, (resume_goes (wrecked c ps0) c ps0 s w4 S4 Ss); [by right|]|done|].
  { intros w' S' Rw. apply wrecked_start; [lia|done|by rewrite Rw]. }
  intros _ w5 (S5 & St5 & E5 & R5 & T5). apply goes_ret.
  assert (Rn : resumed s = RUNNING) by (by destruct s; apply (bool_decide_pack _) in Is).
  split; [done|]. split; [exact S5|]. split; [by rewrite <- Rn|]. split; [|split; [by rewrite R5, R4'|unfold w3 in T4; cbn in T4; lia]].
  etransitivity; [exact E1|]. etransitivity; [exact E2|]. etransitivity; [exact E4|exact E5].
Qed.

Lemma train_goes c ps built bound w : 0 <= c <= a.(steps) -> startable c ps w -> no_upload run (coord_of w.(sys)) -> (forall i, epochs i <> []) ->
  a.(steps) - c <= Z.of_nat bound -> stop 0 = false -> (w.(ticks) + 3 * Z.to_nat (a.(steps) - c) + 7 <= horizon)%nat ->
  goes (wrecked c (base c ps built)) (train max_depth fuel tick noise fates a epochs stop "" bound built)
    (trained c (base c ps built)) w.
Proof.
  intros Hc Sa N Ne Bd St0 Hz. set (ps0 := base c ps built). unfold goes. rewrite train_begin. fold (goes (wrecked c ps0) (andThen (begin built) (proceed bound)) (trained c ps0) w).
  apply goes_bind. eapply goes_mono; [apply (begin_goes c ps built w); [lia|exact Sa]|done|].
  intros x w5 (-> & S5 & St5 & E5 & R5 & T5). fold ps0 in S5. apply (same_upload _ _ E5) in N. unfold proceed. cbn [fst snd]. apply goes_bind.
  eapply goes_mono; [apply (while_goes c ps0 bound 0); [exact Ne| |cbn; lia]|done|].
  - cbn [seq map concat restored]. split; cbn [step model last_successful_checkpoint_step length restored]; [lia|lia|done|done|done|rewrite R5; lia|lia| |lia].
    exists c. split; [lia|]. split; [unfold at_step; by rewrite take_nil|]. split; [done|lia].
  - intros t w6 (bs & Fe & Un & O). eapply goes_mono; [apply (finish_goes c ps0 bs t w6 Fe Un O St0)|done|].
    intros t' w7 (-> & Cd & Kf & Ks). exists bs. destruct Un as [Us [_ Ub] Um _ _ _ _ _ _]. split_and!; done.
Qed.

(** *** The monitor declares the killed worker *)

(** What the declaration of a dead worker does to the run: [Recovery.on_worker_failure] with
    the callback of [lifespan] *)
Definition declared (v : supervisor) (auto : bool) (now : Z) (w : world) : world :=
  let s := w.(sys).(plane_side) in
  World (System (set_ctl (on_worker_failure now auto (Lifespan.restart_callback v auto) run s.(ctl)) s) w.(sys).(data_side))
    w.(ticks) w.(shared_run_id) w.(reported).

Lemma aborted_state cp : c_state (Recovery.aborted cp) = CCOMMITTED -> Recovery.aborted cp = cp.
Proof. unfold Recovery.aborted, open_state. by destruct cp as [r n [] d]. Qed.
Lemma aborted_closed cp : c_state (Recovery.aborted cp) <> CIN_PROGRESS.
Proof. unfold Recovery.aborted, open_state. by destruct cp as [r n [] d]. Qed.

(** A kill that the monitor notices leaves a run that a new process can start from. *)
Lemma declared_startable c ps w v auto now : survives c ps w -> w.(reported) <= c + a.(checkpoint_every) ->
  startable c ps (declared v auto now w) /\ no_upload run (coord_of (declared v auto now w).(sys)).
Proof.
  intros [A (s & St & Hs) I Rd B F Sh] R. set (p := w.(sys).(plane_side).(ctl)) in *.
  destruct (on_worker_failure_spec now auto (Lifespan.restart_callback v auto) (restart_callback_frames v auto) run p s A St I)
    as [Er H]. rewrite Hs in H. destruct H as [A' St' _ Ec _ _]. fold (recovers auto (Lifespan.restart_callback v auto)) in St'.
  set (x := (declared v auto now w).(sys)). change (p_coord (on_worker_failure _ _ _ run p)) with (coord_of x) in A', St', Ec.
  change (p_coord p) with (coord_of w.(sys)) in Ec.
  assert (Look : forall id, checkpoints (coord_of x) !! id =
    (fun cp => if decide (c_run cp = run) then Recovery.aborted cp else cp) <$> checkpoints (coord_of w.(sys)) !! id) by (intros id; by rewrite Ec, lookup_fmap).
  assert (Com : forall id cp, checkpoints (coord_of x) !! id = Some cp -> c_run cp = run -> c_state cp = CCOMMITTED ->
            checkpoints (coord_of w.(sys)) !! id = Some cp).
  { intros id cp E Rr Cm. rewrite Look in E. destruct (checkpoints (coord_of w.(sys)) !! id) as [cp0|]; [|done]. cbn in E.
    injection E as <-. case_decide; [|done]. by rewrite (aborted_state cp0 Cm). }
  assert (Run : forall s0 : run_state, s0 = (if recovers auto (Lifespan.restart_callback v auto) then RECOVERING else FAILED) ->
            handled s0 = true /\ s0 ∈ [FAILED; RECOVERING; RUNNING]) by (intros s0 ->; destruct (recovers _ _); (split; [done|member])).
  destruct (Run _ eq_refl) as [Hd Is]. split; [split; cbn [declared reported]; [|by eexists|done]|].
  - split; cbn [declared ticks shared_run_id]; [exact A'|by eexists|change (run ∉ recovering (on_worker_failure now auto (Lifespan.restart_callback v auto) run p)); by rewrite Er|exact Rd| | |exact Sh].
    + destruct B as [[Po (id & at_ & loss & S & Fl & Fi & Mx)]|[-> Z]].
      * left. split; [done|]. exists id, at_, loss. split_and!; [|done|exact Fi|]; [destruct S as [Rc M Bo N]; split; try done|].
        { change (checkpoints (coord_of x) !! id = Some (Checkpoint run c CCOMMITTED at_)). rewrite Look. unfold coord_of. rewrite Rc. cbn.
          by rewrite decide_True. }
        intros id' cp E Rr Cm. by apply (Mx id' cp (Com id' cp E Rr Cm)).
      * right. split; [done|]. intros id cp E Rr Cm. by apply (Z id cp (Com id cp E Rr Cm)).
    + intros n Hn. destruct (F n Hn) as (N & If & Cl). split_and!; [|done|done].
      change (checkpoints (coord_of x) !! fresh_id (tick n) = None). rewrite Look. unfold coord_of. by rewrite N.
  - intros id cp E Rr. change (checkpoints (coord_of x) !! id = Some cp) in E. rewrite Look in E.
    destruct (checkpoints (coord_of w.(sys)) !! id) as [cp0|]; [|done]. cbn in E. injection E as <-.
    case_decide as D; [apply aborted_closed|done].
Qed.

(** *** The theorems *)

(** C3: A training that is not killed goes through: from a run that can be started and has no
    upload open, with a newest checkpoint at step [c] or none, the process restores that checkpoint, trains until the
    steps run out or it is asked to stop, and leaves the run COMPLETED, with a committed
    and complete checkpoint at every interval and at the last step, each holding the
    parameters that as many steps of the optimizer make. *)
Theorem training_completes c ps built bound w :
  0 <= c <= a.(steps) -> startable c ps w -> no_upload run (coord_of w.(sys)) -> (forall i, epochs i <> []) -> a.(steps) - c <= Z.of_nat bound ->
  stop 0 = false -> (w.(ticks) + 3 * Z.to_nat (a.(steps) - c) + 7 <= horizon)%nat -> (forall n, fates n = Lives) ->
  exists t w', train max_depth fuel tick noise fates a epochs stop "" bound built w = (inr t, w') /\
    trained c (base c ps built) t w'.
Proof.
  intros Hc Sa Nu Ne Bd St0 Hz Li. pose proof (train_goes c ps built bound w Hc Sa Nu Ne Bd St0 Hz) as G. unfold goes in G.
  destruct (train _ _ _ _ _ _ _ _ _ _ _ w) as [[e|t] w'].
  - destruct G as (_ & (n & _ & _ & N) & _). by destruct (N (Li n)).
  - exists t, w'. split; [done|]. apply G.
Qed.

(** C2: A training that is killed at any of its requests, before the server has seen it or after,
    fails with nothing but the kill, and loses at most one interval: unless the run has been
    completed already, there is a committed and complete checkpoint, at most an interval
    behind the step that the process reported last, and once the monitor has declared the
    worker dead, whatever the run's state, a new process can start from it, with no upload
    left open. *)
Theorem killed_training_resumes v auto later c ps built bound w e w' :
  0 <= c <= a.(steps) -> startable c ps w -> no_upload run (coord_of w.(sys)) -> (forall i, epochs i <> []) -> a.(steps) - c <= Z.of_nat bound ->
  stop 0 = false -> (w.(ticks) + 3 * Z.to_nat (a.(steps) - c) + 7 <= horizon)%nat ->
  train max_depth fuel tick noise fates a epochs stop "" bound built w = (inl e, w') ->
  e = Killed /\
  (completed c (base c ps built) w' \/
   exists bs c', fed bs /\ c <= c' <= Z.min (c + Z.of_nat (length bs)) a.(steps) /\
     w'.(reported) - c' <= a.(checkpoint_every) /\
     startable c' (at_step c (base c ps built) bs c') (declared v auto later w') /\
     no_upload run (coord_of (declared v auto later w').(sys))).
Proof.
  intros Hc Sa Nu Ne Bd St0 Hz E. pose proof (train_goes c ps built bound w Hc Sa Nu Ne Bd St0 Hz) as G. unfold goes in G.
  rewrite E in G. destruct G as (-> & _ & [Cd|(bs & c' & Fe & Hb & R & S)]); (split; [done|]); [by left|right].
  exists bs, c'. split; [done|]. split; [lia|]. split; [lia|]. apply declared_startable; [done|lia].
Qed.
End Crashes.

(** ** Generations of the trainer *)

Section Generations.
Context {C : Cloud} {CL : CloudLaws C} `{SL : Sha256Laws} {U : CloudUp C} {UL : CloudUpLaws C U} `{JL : ManifestJsonLaws}.
Context `{PL : ProtobufLaws} `{TL : TorchLaws}.
Context (max_depth : Z) (fuel : nat) (tick : nat -> env) (noise : nat -> system -> system) (fates : nat -> fate) (run : string).
Context (horizon : nat).
(** The model that each process builds, the batches that it is given, and when the monitor
    declares it dead *)
Context (a : args) (v : supervisor) (auto : bool).
Context (built : nat -> params) (epochs : nat -> nat -> list batch) (later : nat -> Z) (bound : nat).

(** A process after the other: the container of a killed trainer is started again, after the
    monitor has noticed, until a run is completed. *)
Fixpoint lives (generations g : nat) (w : world) : world :=
  match generations with
  | O => w
  | S generations =>
      match train max_depth fuel tick noise fates a (epochs g) (fun _ => false) "" bound (built g) w with
      | (inl Killed, w') =>
          if bool_decide (state_of (coord_of w'.(sys)) run = Some COMPLETED) then w'
          else lives generations (S g) (declared run v auto (later g) w')
      | (_, w') => w'
      end
  end.

(** Parameters that [n] steps of the optimizer make out of a model that some process built *)
Definition made (n : Z) (ps : params) : Prop :=
  exists g bs, n = Z.of_nat (length bs) /\ ps = after_batches bs (built g).

Context (Su : surroundings max_depth tick noise run horizon).
Context (Steps : 0 < a.(steps) < 2 ^ 64) (Interval : 0 < a.(checkpoint_every)) (Logs : a.(log_every) <> 0).

Lemma base_made g c ps : 0 <= c -> (0 < c -> made c ps) -> made c (base c ps (built g)).
Proof.
  intros Po M. unfold base. destruct (Z.ltb_spec 0 c) as [L|L]; [by apply M|]. exists g, []. split; [cbn; lia|done].
Qed.
Lemma made_after c ps bs : made c ps -> made (c + Z.of_nat (length bs)) (after_batches bs ps).
Proof.
  intros (g & bs0 & -> & ->). exists g, (bs0 ++ bs). split; [rewrite length_app; lia|].
  unfold after_batches. by rewrite foldl_app.
Qed.
Lemma made_at_step c ps bs c' : c <= c' <= c + Z.of_nat (length bs) -> made c ps -> made c' (at_step c ps bs c').
Proof.
  intros Hc M. unfold at_step. replace c' with (c + Z.of_nat (length (take (Z.to_nat (c' - c)) bs))) at 1
    by (rewrite length_take; lia). by apply made_after.
Qed.

Definition finished (w : world) : Prop :=
  in_state run COMPLETED w.(sys) /\ exists ps, made a.(steps) ps /\ kept run a.(steps) ps w.(sys).

Lemma completed_finished g c ps w : made c ps ->
  completed run a (epochs g) (fun _ => false) c ps w -> finished w.
Proof.
  intros M [Cd (bs & _ & Le & [Ge|[=]] & K)]. split; [done|]. eexists.
  replace a.(steps) with (c + Z.of_nat (length bs)) by lia. split; [by apply made_after|exact K].
Qed.
Lemma trained_finished g c ps t w : made c ps ->
  trained run a (epochs g) (fun _ => false) c ps t w -> finished w.
Proof.
  intros M (bs & Fe & Us & Um & Le & [Ge|[=]] & Cd & K & _). apply (completed_finished g c ps); [done|].
  split; [done|]. exists bs. cbv zeta. rewrite <- Us, <- Um. split_and!; [done|done|by left|exact K].
Qed.

(** C1: Kills do not keep a training from its end: when the kills stop after some request, and
    enough processes are started one after the other, the run is COMPLETED, and the
    committed checkpoint at its last step holds what exactly that many steps of the
    optimizer make of a model that one of the processes built: no step is lost or done
    twice, wherever the processes were killed. *)
Theorem training_outlives_kills last generations c ps w :
  0 <= c <= a.(steps) -> startable max_depth tick run horizon a c ps w -> no_upload run (coord_of w.(sys)) -> (0 < c -> made c ps) ->
  (forall g i, epochs g i <> []) -> a.(steps) <= Z.of_nat bound ->
  (forall n, (last <= n)%nat -> fates n = Lives) -> (w.(ticks) <= last)%nat -> (last < w.(ticks) + generations)%nat ->
  (last + 3 * Z.to_nat a.(steps) + 7 <= horizon)%nat ->
  finished (lives generations 0 w).
Proof.
  intros Hc Sa Nu M Ne Bd Li Hw Hg Hz. generalize O as g. revert c ps w Hc Sa Nu M Hw Hg.
  induction generations as [|generations IH]; intros c ps w Hc Sa Nu M Hw Hg g; [lia|]. cbn [lives].
  pose proof (train_goes max_depth fuel tick noise fates run horizon Su a (epochs g) (fun _ => false) Steps Interval Logs
                c ps (built g) bound w Hc Sa Nu (Ne g) ltac:(lia) eq_refl ltac:(lia)) as G.
  pose proof (base_made g c ps (proj1 Hc) M) as Mb. unfold goes in G.
  destruct (train _ _ _ _ _ _ _ _ _ _ _ w) as [[e|t] w'].
  - destruct G as (-> & (n & Hn & Tn & N) & Wr). assert (n < last)%nat by (apply Nat.lt_nge; intros L; by apply N, Li).
    destruct Wr as [Cd|(bs & c' & Fe & Hb & R & S)].
    + rewrite bool_decide_true by apply Cd. by apply (completed_finished g c (base c ps (built g))).
    + case_bool_decide as Co.
      * destruct (sv_state _ _ _ _ _ _ _ S) as (s & Es & Hs). by rewrite Es in Co; injection Co as ->.
      * destruct (declared_startable max_depth tick run horizon a c' _ w' v auto (later g) S ltac:(lia)) as [Sd Nd].
        apply (IH c' (at_step c (base c ps (built g)) bs c')); [lia|exact Sd|exact Nd| |cbn; lia|cbn; lia].
        intros _. apply made_at_step; [lia|exact Mb].
  - by apply (trained_finished g c (base c ps (built g)) t); [|apply G].
Qed.
End Generations.

(** ** Witnesses *)

Module Steps.
(** A model of one byte that counts its steps *)
#[export] Instance torch : Torch := {|
  params := Byte.byte;
  batch := unit;
  optimize p _ := (of_Z 1, default p (Byte.of_N (Byte.to_N p + 1)));
  torch_save _ _ p := [p];
  torch_load b := match b with [p] => Some p | _ => None end
|}.
#[export] Instance torch_laws : TorchLaws torch.
Proof. by split. Qed.
End Steps.

#[local] Existing Instances Memory.cloud Memory.cloud_laws Memory.cloud_up Memory.cloud_up_laws.
#[local] Existing Instances PlainDigest.digest PlainDigest.digest_laws PlainJson.json PlainJson.json_laws.
#[local] Existing Instances PlainProtobuf.protobuf PlainProtobuf.protobuf_laws Steps.torch Steps.torch_laws.

Definition sample_tick (n : nat) : env := Env (Z.of_nat n) (if (n <? 32)%nat then dec (Z.of_nat n) else "x").
(** The worker of the first process reports between its requests. *)
Definition sample_noise (n : nat) (x : system) : system := snd (worker_heartbeat "2" (Z.of_nat n) (Z.of_nat n) x).
Definition sample_args : args := Args 3 2 1.
Definition sample_built (_ : nat) : params := Byte.x00.
Definition sample_epochs (_ : nat) : list batch := [tt; tt].
Definition sample_world : @world Memory.cloud := World (System (sample_store FAILED ∅) (sample_state ∅ [])) 0 (Some "r1") 0.
(** The eighth request commits the checkpoint at step 2: the process is killed before its answer. *)
Definition sample_fates (n : nat) : fate := if (n =? 7)%nat then KilledAfter else Lives.

Lemma sample_ids n : (n < 32)%nat -> slash_free (fresh_id (sample_tick n)) /\ str_length (fresh_id (sample_tick n)) <= 2 /\
  forall m, (m < 32)%nat -> fresh_id (sample_tick m) = fresh_id (sample_tick n) -> m = n.
Proof.
  intros L.
  assert (All : Forall (fun n => Forall (fun c => c <> "/"%char) (units (fresh_id (sample_tick n))) /\
      str_length (fresh_id (sample_tick n)) <= 2 /\
      Forall (fun m => fresh_id (sample_tick m) = fresh_id (sample_tick n) -> m = n) (seq 0 32)) (seq 0 32))
    by (apply (bool_decide_unpack _); by vm_compute).
  rewrite Forall_forall in All. destruct (All n) as (F & Le & D); [apply elem_of_seq; lia|]. split_and!; [exact F|exact Le|].
  intros m Lm. rewrite Forall_forall in D. apply D, elem_of_seq. lia.
Qed.
Lemma sample_plain n : url_plain (fresh_id (sample_tick n)).
Proof.
  unfold sample_tick. destruct (Nat.ltb_spec n 32) as [L|L]; [|apply (bool_decide_unpack _); by vm_compute].
  assert (All : Forall (fun n => url_plain (dec (Z.of_nat n))) (seq 0 32)) by (apply (bool_decide_unpack _); by vm_compute).
  rewrite Forall_forall in All. apply All, elem_of_seq. lia.
Qed.
Lemma sample_surroundings : surroundings 8 sample_tick sample_noise "r1" 32.
Proof.
  split; [by repeat constructor|split; [apply (bool_decide_unpack _); by vm_compute|apply sample_plain]|done| |intros m n Lm Ln; by apply sample_ids|intros; apply heartbeat_quiet|].
  - intros n. destruct (Nat.lt_ge_cases n 32) as [L|L]; [by apply sample_ids|]. unfold sample_tick.
    destruct (Nat.ltb_spec n 32); [lia|by repeat constructor].
  - intros k n loss ps L. destruct (sample_ids k L) as (_ & Le & _). split; [done|].
    change (len (torch_save n loss ps)) with 1. change (str_length "rank-0") with 6. unfold max_receive_message_length. lia.
Qed.
Lemma sample_startable : startable 8 sample_tick "r1" 32 sample_args 0 Byte.x00 sample_world.
Proof.
  split; [|exists FAILED; split; [reflexivity|left]|done].
  split; [apply sample_store_agrees|by exists FAILED|apply not_elem_of_empty|by split_and!| |by intros|done].
  right. split; [done|]. intros id cp E. discriminate E.
Qed.

Lemma sample_closed : no_upload "r1" (coord_of sample_world.(sys)).
Proof. intros id cp E. discriminate E. Qed.

Lemma training_completes_witness : exists t w',
  train 8 9 sample_tick sample_noise (fun _ => Lives) sample_args sample_epochs (fun _ => false) "" 3 Byte.x00 sample_world = (inr t, w') /\
  trained "r1" sample_args sample_epochs (fun _ => false) 0 Byte.x00 t w'.
Proof.
  apply (training_completes 8 9 sample_tick sample_noise (fun _ => Lives) "r1" 32 sample_surroundings sample_args sample_epochs
    (fun _ => false) ltac:(done) ltac:(done) ltac:(done) 0 Byte.x00 Byte.x00 3 sample_world).
  - done.
  - apply sample_startable.
  - apply sample_closed.
  - done.
  - done.
  - done.
  - apply Nat.leb_le. reflexivity.
  - done.
Defined.

Lemma sample_killed : exists w',
  train 8 9 sample_tick sample_noise sample_fates sample_args sample_epochs (fun _ => false) "" 3 Byte.x00 sample_world = (inl Killed, w').
Proof.
  assert (E : fst (train 8 9 sample_tick sample_noise sample_fates sample_args sample_epochs (fun _ => false) "" 3 Byte.x00 sample_world) =
    inl Killed) by (vm_compute; reflexivity).
  destruct (train _ _ _ _ _ _ _ _ _ _ _ _) as [r w']. exists w'. by rewrite <- E.
Qed.
Lemma killed_training_resumes_witness : exists w',
  train 8 9 sample_tick sample_noise sample_fates sample_args sample_epochs (fun _ => false) "" 3 Byte.x00 sample_world = (inl Killed, w') /\
  (completed "r1" sample_args sample_epochs (fun _ => false) 0 (base 0 Byte.x00 Byte.x00) w' \/
   exists bs c', fed sample_epochs bs /\ 0 <= c' <= Z.min (0 + Z.of_nat (length bs)) 3 /\ w'.(reported) - c' <= 2 /\
     startable 8 sample_tick "r1" 32 sample_args c' (at_step 0 (base 0 Byte.x00 Byte.x00) bs c') (declared "r1" sample_supervisor true 9 w') /\
     no_upload "r1" (coord_of (declared "r1" sample_supervisor true 9 w').(sys))).
Proof.
  pose proof (fun w' : @world Memory.cloud => killed_training_resumes 8 9 sample_tick sample_noise sample_fates "r1" 32 sample_surroundings sample_args
    sample_epochs (fun _ => false) ltac:(done) ltac:(done) ltac:(done) sample_supervisor true 9 0 Byte.x00 Byte.x00 3 sample_world Killed w'
    ltac:(done) sample_startable sample_closed ltac:(done) ltac:(done) ltac:(done) ltac:(apply Nat.leb_le; reflexivity)) as H.
  destruct sample_killed as [w' E]. exists w'. split; [exact E|]. exact (proj2 (H w' E)).
Defined.

Lemma training_outlives_kills_witness :
  finished "r1" sample_args sample_built
    (lives 8 9 sample_tick sample_noise sample_fates "r1" sample_args sample_supervisor true sample_built (fun _ => sample_epochs)
       (fun _ => 9) 3 9 0 sample_world).
Proof.
  apply (training_outlives_kills 8 9 sample_tick sample_noise sample_fates "r1" 32 sample_args sample_supervisor true sample_built
    (fun _ => sample_epochs) (fun _ => 9) 3 sample_surroundings ltac:(done) ltac:(done) ltac:(done) 8 9 0 Byte.x00).
  - done.
  - apply sample_startable.
  - apply sample_closed.
  - done.
  - done.
  - done.
  - intros n L. unfold sample_fates. destruct (Nat.eqb_spec n 7); [lia|done].
  - apply Nat.leb_le. reflexivity.
  - apply Nat.leb_le. reflexivity.
  - apply Nat.leb_le. reflexivity.
Defined.

(** The killed process has committed its checkpoint, and the next goes on from step 2. *)
Example sample_lives :
  let r := train 8 9 sample_tick sample_noise sample_fates sample_args sample_epochs (fun _ => false) "" 3 Byte.x00 sample_world in
  (fst r, reported (snd r), map (fun e => c_step e.2) (committed "r1" (coord_of (sys (snd r))))) = (inl Killed, 2, [2]) /\
  let w := lives 8 9 sample_tick sample_noise sample_fates "r1" sample_args sample_supervisor true sample_built (fun _ => sample_epochs)
             (fun _ => 9) 3 9 0 sample_world in
  (ticks w, state_of (coord_of (sys w)) "r1", map (fun e => c_step e.2) (committed "r1" (coord_of (sys w)))) = (17%nat, Some COMPLETED, [2; 3]).
Proof. vm_compute. done. Qed.

(** A control plane that has lost its workers *)
Lemma heartbeat_thread_turn_witness :
  let '(r, w') := send_heartbeat sample_tick (fun _ x => x) (fun _ => Lives) "r1" 0 (HeartbeatThread "w0" 3) sample_world in
  r = inr (HeartbeatThread "1" 3) /\
  forall n t c, is_Some (fst (fst (Workers.update_worker_heartbeat "1" n t w'.(sys).(plane_side).(ctl).(reg) c))).
Proof.
  pose proof (heartbeat_thread_turn "r1" sample_tick 0 (HeartbeatThread "w0" 3) sample_world Workers.empty_registry_ok eq_refl) as H.
  destruct (send_heartbeat _ _ _ _ _ _ _) as [r w']. destruct H as (_ & R & _ & Ac). split; [exact R|exact Ac].
Defined.
