(* ===== verification/CheckpointBrowser.v ===== *)
(** * The checkpoint browser: [frontend/src/pages/CheckpointBrowser.tsx]

    The checkpoints of every run, the newest first, with expandable rows. One request
    lists the runs; then one request per run, all awaited together. *)

From S2P Require Import Prelude JsString JsNum Html Types Host Async Design Ui.

(** ** State *)

(** [expanded] is the state of the mounted [CheckpointRow]s, by row key. *)
Record page : Type := Page {
  checkpoints : list checkpoint_info;
  loading : bool;
  error : option string;
  expanded_rows : gset string
}.
Definition init_page : page := Page [] true None ∅.

Inductive msg : Type :=
| Poll
| RunsSettled (o : outcome (list run_status))
(** [Promise.all]: every checkpoint request has settled; in the order of the runs *)
| CheckpointsSettled (os : list (outcome (list checkpoint_info)))
| ToggleRow (id : string).

Inductive effect : Type :=
| FetchRuns
| FetchCheckpoints (run_ids : list string).

(** ** Fetching *)
Section Fetching.
Context `{Intl}.

(** [async (r) => { try ... catch { return []; } }] *)
Definition run_checkpoints (o : outcome (list checkpoint_info)) : list checkpoint_info :=
  match o with
  | inl _ => []
  | inr res =>
      if res_ok res then match res_json res with inr l => l | inl _ => [] end else []
  end.

Definition created_ms (c : checkpoint_info) : option Z := date_ms c.(ck_created_at).

(** [new Date(b.created_at).getTime() - new Date(a.created_at).getTime() > 0]; an
    invalid date gives [NaN], which the sort reads as equal. *)
Definition newer (a b : checkpoint_info) : bool :=
  match created_ms a, created_ms b with Some x, Some y => x <? y | _, _ => false end.

Definition set_error (e : option string) (p : page) : page :=
  Page p.(checkpoints) p.(loading) e p.(expanded_rows).
Definition set_loaded (p : page) : page :=
  Page p.(checkpoints) false p.(error) p.(expanded_rows).
(** Rows whose key is gone are unmounted with their state. *)
Definition set_checkpoints (l : list checkpoint_info) (p : page) : page :=
  Page l p.(loading) p.(error)
    (filter (fun k => k ∈ map checkpoint_id l) p.(expanded_rows)).

(** [fetchAll] between its two awaits. A failure ends the handler. *)
Definition runs_settled (o : outcome (list run_status)) : M (page * list effect) unit :=
  catch
    (let* res := await o in
     check_ok res ("Runs: " +:+ dec (res_status res)) ;;
     let* runs := await (res_json res) in
     emit (FetchCheckpoints (map run_id runs)))
    (fun e => on (set_error (Some (message_or "Failed to fetch" e))) ;; on set_loaded).

(** and after the second *)
Definition checkpoints_settled (os : list (outcome (list checkpoint_info))) :
    M (page * list effect) unit :=
  on (set_checkpoints (stable_sort newer (concat (map run_checkpoints os)))) ;;
  on (set_error None) ;;
  on set_loaded.

Definition toggle (id : string) (p : page) : page :=
  Page p.(checkpoints) p.(loading) p.(error)
    (if bool_decide (id ∈ p.(expanded_rows)) then p.(expanded_rows) ∖ {[id]}
     else {[id]} ∪ p.(expanded_rows)).

Definition update (g : msg) (p : page) : page * list effect :=
  match g with
  | Poll => (p, [FetchRuns])
  | RunsSettled o => handle (runs_settled o) p
  | CheckpointsSettled os => handle (checkpoints_settled os) p
  | ToggleRow id => (toggle id p, [])
  end.

Definition mount : page * list effect := (init_page, [FetchRuns]).
End Fetching.

(** ** View *)
Section View.
Context `{Intl} `{MathLib}.
#[local] Abbreviation node := (node msg).

Definition CheckpointRow (p : page) (ckpt : checkpoint_info) : node :=
  let expanded := bool_decide (ckpt.(checkpoint_id) ∈ p.(expanded_rows)) in
  El "CheckpointRow" [Key ckpt.(checkpoint_id)]
    (El "tr" [cls "hover:bg-surface-2/50 transition-colors cursor-pointer";
              OnClick (ToggleRow ckpt.(checkpoint_id))]
       [El "td" [cls "table-cell text-txt-3"]
          [El "span" [cls "inline-block w-4 text-txt-3/50 mr-1"]
             [(if expanded then Txt "▾" else Txt "▸")];
           El "span" [cls "font-mono text-txt-2 text-xs"]
             [Txt (shortId ckpt.(checkpoint_id) 16)]];
        El "td" [cls "table-cell text-txt-3 font-mono text-xs"]
          [Txt (str_slice 0 (Some 12) ckpt.(ck_run_id))];
        El "td" [cls "table-cell text-txt-2 font-mono"] [Txt (locale_int ckpt.(ck_step))];
        El "td" [cls "table-cell"] [CkptBadge ckpt.(ck_state)];
        El "td" [cls "table-cell text-txt-2"] [Txt (dec ckpt.(num_shards))];
        El "td" [cls "table-cell text-txt-2"] [Txt (formatBytes (of_Z ckpt.(total_bytes)))];
        El "td" [cls "table-cell text-txt-3 text-xs"] [Txt (formatDate ckpt.(ck_created_at))]] ::
     when expanded (
       El "tr" []
         [El "td" [Attr "colSpan" "7"; cls "px-4 py-4 bg-surface-0"]
            [El "div" [cls "pl-5"]
               [El "h4" [cls "text-2xs font-semibold text-txt-3 uppercase tracking-wider mb-2.5"]
                  [Txt "Shard Details (";
                   Txt (dec (Z.of_nat (length ckpt.(shard_ids))));
                   Txt " shards)"];
                (if bool_decide (ckpt.(shard_ids) = []) then El "p" [cls "text-sm text-txt-3"] [Txt "No shard data available."] else 
                   El "div" [cls "grid grid-cols-1 sm:grid-cols-2 lg:grid-cols-3 gap-2"]
                     (imap (fun idx shardId => 
                        El "div" [Key shardId;
                                  cls "bg-surface-2 border border-line rounded-lg px-3 py-2 flex items-center justify-between"]
                          [El "div" []
                             [El "p" [cls "text-xs font-mono text-txt-2"] [Txt (shortId shardId 20)];
                              El "p" [cls "text-2xs text-txt-3"] [Txt "Shard "; Txt (dec (Z.of_nat idx))]];
                           El "span" [cls "text-2xs text-txt-3"]
                             [Txt "~";
                              Txt (formatBytes (div (of_Z ckpt.(total_bytes)) (max (of_Z ckpt.(num_shards)) (of_Z 1))))]]) ckpt.(shard_ids)))]]]) ++
     []).

Definition totalBytes (p : page) : num :=
  foldl (fun s c => add s (of_Z c.(total_bytes))) (of_Z 0) p.(checkpoints).
Definition committedCount (p : page) : Z :=
  Z.of_nat (length (filter (fun c => ck_state c = CCOMMITTED) p.(checkpoints))).
Definition totalShards (p : page) : num :=
  foldl (fun s c => add s (of_Z c.(num_shards))) (of_Z 0) p.(checkpoints).

(** [!error] *)
Definition no_error (e : option string) : bool :=
  match e with Some t => (t =? "")%string | None => true end.

Definition CheckpointBrowser (p : page) : node :=
  let checkpoints := p.(checkpoints) in
  let totalBytes := totalBytes p in
  let committedCount := committedCount p in
  let totalShards := totalShards p in
  El "div" []
    (SectionHeader "Checkpoint Browser" (Some "Browse and inspect checkpoints across all training runs.") [] ::
     when_text p.(error) (fun error => ErrorBanner error) ++
     El "div" [cls "grid grid-cols-1 md:grid-cols-4 gap-3 mb-6"]
       [MetricCard "Total Checkpoints" (dec (Z.of_nat (length checkpoints))) None None;
        MetricCard "Committed" (dec committedCount) None (Some "text-ok");
        MetricCard "Total Shards" (to_string totalShards) None None;
        MetricCard "Total Storage" (formatBytes totalBytes) None None] ::
     when p.(loading) (Loading "Loading checkpoints...") ++
     when ((negb (p.(loading)) && bool_decide (checkpoints = [])) && no_error p.(error)) (EmptyState "No checkpoints found across any run." []) ++
     when (negb (p.(loading)) && negb (bool_decide (checkpoints = []))) (
       El "div" [cls "card overflow-hidden"]
         [El "table" [cls "min-w-full"]
            [El "thead" []
               [El "tr" [cls "border-b border-line"]
                  [El "th" [cls "table-header"] [Txt "Checkpoint ID"];
                   El "th" [cls "table-header"] [Txt "Run"];
                   El "th" [cls "table-header"] [Txt "Step"];
                   El "th" [cls "table-header"] [Txt "State"];
                   El "th" [cls "table-header"] [Txt "Shards"];
                   El "th" [cls "table-header"] [Txt "Size"];
                   El "th" [cls "table-header"] [Txt "Created"]]];
             El "tbody" [cls "divide-y divide-line-subtle"]
               (map (CheckpointRow p) checkpoints)]]) ++
     []).
End View.

(** ** What is listed *)

Lemma toggle_elem (i j : string) (X : gset string) :
  bool_decide (j ∈ (if bool_decide (i ∈ X) then X ∖ {[i]} else {[i]} ∪ X))
  = xorb (bool_decide (i = j)) (bool_decide (j ∈ X)).
Proof.
  destruct (decide (i ∈ X)) as [D|D];
    [rewrite (bool_decide_eq_true_2 (i ∈ X) D)|rewrite (bool_decide_eq_false_2 (i ∈ X) D)].
  - rewrite (bool_decide_ext (j ∈ X ∖ {[i]}) (j ∈ X /\ ~ i = j)).
    + rewrite bool_decide_and, bool_decide_not. do 2 case_bool_decide; by subst.
    + rewrite elem_of_difference, elem_of_singleton.
      split; intros [A B]; (split; [exact A|congruence]).
  - rewrite (bool_decide_ext (j ∈ {[i]} ∪ X) (i = j \/ j ∈ X)).
    + rewrite bool_decide_or. do 2 case_bool_decide; by subst.
    + rewrite elem_of_union, elem_of_singleton.
      split; (intros [->|A]; [by left|by right]).
Qed.

Section Listing.
Context `{Intl}.

Definition dated (c : checkpoint_info) : Prop := is_Some (created_ms c).
Definition time_of (c : checkpoint_info) : Z := default 0 (created_ms c).

Lemma newer_time a b : dated a -> dated b -> newer a b = (time_of a <? time_of b).
Proof. intros [x Ex] [y Ey]. unfold newer, time_of. by rewrite Ex, Ey. Qed.

Lemma checkpoints_settled_spec os p :
  fst (update (CheckpointsSettled os) p) =
    Page (stable_sort newer (concat (map run_checkpoints os))) false None
      (filter (fun k => k ∈ map checkpoint_id (stable_sort newer (concat (map run_checkpoints os))))
         p.(expanded_rows)).
Proof. done. Qed.

(** The page lists exactly the checkpoints of the runs whose request succeeded: a
    run whose request fails contributes none and shows no error. When their dates are
    valid they are listed the newest first, and those of the same instant in the order
    of their runs. *)
Theorem checkpoint_listing (os : list (outcome (list checkpoint_info))) (p : page) :
  let p' := fst (update (CheckpointsSettled os) p) in
  let fetched := concat (map run_checkpoints os) in
  Permutation p'.(checkpoints) fetched /\
  p'.(error) = None /\ p'.(loading) = false /\
  (Forall dated fetched ->
   StronglySorted (fun a b => time_of b <= time_of a) p'.(checkpoints) /\
   forall t, filter (fun c => time_of c = t) p'.(checkpoints) = filter (fun c => time_of c = t) fetched).
Proof.
  intros p' fetched. subst p'. rewrite checkpoints_settled_spec. cbn [checkpoints error loading].
  split_and!; [apply stable_sort_perm|done|done|]. intros D.
  pose proof (fun t => stable_sort_spec newer time_of dated newer_time _ t D) as S.
  split; [apply (S 0)|intros t; apply S].
Qed.

(** A failure to list the runs keeps the checkpoints on display and shows its
    message; a row stays expanded across refreshes for as long as its checkpoint is
    listed; a click on a row changes that row only. *)
Theorem checkpoint_browser_state (p : page) :
  (forall o, match fetch_result (fun r => "Runs: " +:+ dec (res_status r)) o with
             | inl e =>
                 update (RunsSettled o) p
                 = (Page p.(checkpoints) false (Some (message_or "Failed to fetch" e)) p.(expanded_rows), [])
             | inr runs => update (RunsSettled o) p = (p, [FetchCheckpoints (map run_id runs)])
             end) /\
  (forall os id, let p' := fst (update (CheckpointsSettled os) p) in
     id ∈ p'.(expanded_rows) <-> id ∈ p.(expanded_rows) /\ id ∈ map checkpoint_id p'.(checkpoints)) /\
  (forall i j, let p' := fst (update (ToggleRow i) p) in
     p'.(checkpoints) = p.(checkpoints) /\
     bool_decide (j ∈ p'.(expanded_rows)) = xorb (bool_decide (i = j)) (bool_decide (j ∈ p.(expanded_rows)))).
Proof.
  split_and!.
  - intros [e|r]; [done|].
    unfold update, handle, run, runs_settled, catch, bind, await, fetch_result, check_ok.
    destruct (res_ok r); [|done]. by destruct (res_json r).
  - intros os id. cbv zeta. rewrite checkpoints_settled_spec. cbn [expanded_rows checkpoints].
    rewrite elem_of_filter. tauto.
  - intros i j. split; [done|]. cbn [update fst toggle expanded_rows].
    apply toggle_elem.
Qed.
End Listing.

Lemma checkpoint_listing_witness :
  let c i t := CheckpointInfo i "run" 50 CCOMMITTED 2 1024 t [] in
  let os := [inr (Response 200 "OK" (inr [c "a" "100"; c "b" "300"])); inl NotAnError;
             inr (Response 200 "OK" (inr [c "d" "200"; c "e" "300"]))] in
  map checkpoint_id (fst (update (CheckpointsSettled os) init_page)).(checkpoints)
    = ["b"; "e"; "d"; "a"] /\
  filter (fun x => time_of x = 300) (fst (update (CheckpointsSettled os) init_page)).(checkpoints)
    = [c "b" "300"; c "e" "300"].
Proof.
  intros c os. split; [vm_compute; reflexivity|].
  destruct (checkpoint_listing (H := plain_intl) os init_page) as (_ & _ & _ & S).
  destruct S as [_ S]; [|rewrite S; vm_compute; reflexivity].
  repeat constructor; eexists; vm_compute; reflexivity.
Defined.
