(* ===== verification/LogStream.v ===== *)
(** * The log panel: [frontend/src/components/LogStream.tsx]

    The last lines of the containers with the notable ones highlighted, following the
    newest line until the user scrolls away. *)

From Stdlib Require Import Ascii.
From S2P Require Import Prelude JsString JsNum Html Types Host Design Ui Regex LogParser.

(** ** Lines *)

Record log_entry : Type := LogEntry { container : string; line : string }.

Definition CONTAINER_COLORS (name : string) : option string :=
  if (name =? "ckpt-worker-0")%string then Some "text-ok"
  else if (name =? "ckpt-worker-1")%string then Some "text-ok"
  else if (name =? "ckpt-controlplane")%string then Some "text-info"
  else if (name =? "ckpt-dataplane")%string then Some "text-recover"
  else if (name =? "ckpt-etcd")%string then Some "text-brand-violet"
  else if (name =? "ckpt-minio")%string then Some "text-warn"
  else None.

(** [.]: any character but a line terminator *)
Definition not_newline (c : chr) : bool := negb ((code c =? 10) || (code c =? 13)).

(** Each pattern with its alternatives. *)
Definition HIGHLIGHT_PATTERNS : list (list (list item)) :=
  [[[LitI (units "checkpoint"); Star not_newline; LitI (units "committed")]];
   [[LitI (units "checkpoint saved")]];
   [[LitI (units "heartbeat"); Star not_newline; LitI (units "timeout")]];
   [[Lit (units "FAILED")]; [Lit (units "RECOVERING")]];
   [[LitI (units "restored from checkpoint")]];
   [[Lit (units "step="); Plus is_digit false; Star not_newline; Lit (units "loss=")]]].

Definition isHighlighted (l : string) : bool :=
  existsb (existsb (fun r => test r (units l))) HIGHLIGHT_PATTERNS.

Definition MAX_LINES : Z := 150.

(** ** State

    The panel with the scroll position of its container. The height of the content and
    of the container is the browser's layout. *)
Class Layout : Type := {
  scrollHeight : list log_entry -> Z;
  clientHeight : list log_entry -> Z
}.
#[export] Instance plain_layout : Layout :=
  {| scrollHeight l := 20 * Z.of_nat (length l); clientHeight _ := 100 |}.

Record stream : Type := Stream {
  lines : list log_entry;
  userScrolled : bool;
  scrollTop : Z;
  (** the follow effect has to run: [lines] or [userScrolled] changed *)
  follow_due : bool
}.

Definition init_stream : stream := Stream [] false 0 true.

Inductive event : Type :=
(** a message of the event source, [None] when its data does not parse *)
| Message (m : option log_entry)
(** the effects of the last render run *)
| Flush
(** the user moves the container; a scroll event follows *)
| Drag (top : Z)
| ScrollEvent
| ClickLatest.

Section Component.
Context `{Layout}.

(** The largest scroll position: assignments are clamped to it. *)
Definition bottom (l : list log_entry) : Z := Z.max 0 (scrollHeight l - clientHeight l).
Definition scroll_to (top : Z) (s : stream) : stream :=
  Stream s.(lines) s.(userScrolled) (Z.max 0 (Z.min top (bottom s.(lines)))) s.(follow_due).

Definition setLines (f : list log_entry -> list log_entry) (s : stream) : stream :=
  Stream (f s.(lines)) s.(userScrolled) s.(scrollTop) true.
(** Setting the value it has does not render again. *)
Definition setUserScrolled (b : bool) (s : stream) : stream :=
  Stream s.(lines) b s.(scrollTop) (s.(follow_due) || xorb b s.(userScrolled)).

(** [es.onmessage] *)
Definition on_message (m : option log_entry) (s : stream) : stream :=
  match m with
  | Some data => setLines (fun prev => Slice.push_capped MAX_LINES prev data) s
  | None => s
  end.

(** [useEffect(..., [lines, userScrolled])] *)
Definition follow_effect (s : stream) : stream :=
  let s' := if negb s.(userScrolled) then scroll_to (scrollHeight s.(lines)) s else s in
  if s.(follow_due) then Stream s'.(lines) s'.(userScrolled) s'.(scrollTop) false else s.

Definition handleScroll (s : stream) : stream :=
  let atBottom := scrollHeight s.(lines) - s.(scrollTop) - clientHeight s.(lines) <? 40 in
  setUserScrolled (negb atBottom) s.

(** The handler of the button. *)
Definition click_latest (s : stream) : stream :=
  scroll_to (scrollHeight s.(lines)) (setUserScrolled false s).

Definition step (e : event) (s : stream) : stream :=
  match e with
  | Message m => on_message m s
  | Flush => follow_effect s
  | Drag top => scroll_to top s
  | ScrollEvent => handleScroll s
  | ClickLatest => click_latest s
  end.

Definition history (es : list event) : stream := foldl (fun s e => step e s) init_stream es.
End Component.

(** ** View *)

Definition log_row (i : nat) (l : log_entry) : node event :=
  let color := default "text-txt-3" (CONTAINER_COLORS l.(container)) in
  let bold := isHighlighted l.(line) in
  let label := replace "ckpt-" "" l.(container) in
  El "div" [Key (dec (Z.of_nat i));
            cls ("flex gap-1.5 " +:+ (if bold then "bg-surface-2 rounded px-1 -mx-1" else ""))]
    [El "span" [cls (color +:+ " flex-shrink-0 w-[72px] truncate")]
       [Txt "[";
        Txt label;
        Txt "]"];
     El "span" [cls ("text-txt-3 break-all " +:+ (if bold then "text-txt-1 font-medium" else ""))]
       [Txt (l.(line))]].

Definition LogStream (active : bool) (s : stream) : node event :=
  El "div" [cls "card overflow-hidden"]
    (El "div" [cls "panel-header"]
       (El "span" [cls "panel-tag"] [Txt "stdout"] ::
        El "h4" [cls "panel-title"] [Txt "Live Logs"] ::
        when (active && negb (bool_decide (s.(lines) = []))) (
          El "div" [cls "ml-auto flex items-center gap-1"]
            [El "div" [cls "w-1.5 h-1.5 rounded-full bg-ok animate-pulse"] [];
             El "span" [cls "text-xs text-txt-3"] [Txt "streaming"]]) ++
        []) ::
     El "div" [cls "px-3.5 py-2 border-b border-line-subtle"]
       [El "p" [cls "text-xs text-txt-3 leading-relaxed"]
          [Txt "Real-time output from Docker containers. Look for";
           Txt " ";
           El "span" [cls "text-txt-2 font-medium"] [Txt "checkpoint committed"];
           Txt ",";
           Txt " ";
           El "span" [cls "text-txt-2 font-medium"] [Txt "heartbeat timeout"];
           Txt ", and";
           Txt " ";
           El "span" [cls "text-txt-2 font-medium"] [Txt "restored from checkpoint"];
           Txt " messages."]] ::
     El "div" [Attr "ref" "containerRef"; OnScroll ScrollEvent;
               cls "bg-surface-0 font-mono text-xs leading-relaxed max-h-72 overflow-y-auto p-2.5 space-y-px"]
       ((if bool_decide (s.(lines) = []) then [El "div" [cls "text-txt-3 text-center py-6"] [Txt "Waiting for log output..."]] else imap log_row s.(lines)) ++
        El "div" [Attr "ref" "bottomRef"] [] ::
        []) ::
     when (s.(userScrolled) && negb (bool_decide (s.(lines) = []))) (
       El "button" [OnClick ClickLatest;
                    cls "w-full py-1.5 text-xs text-brand-violet bg-surface-2 hover:bg-surface-3 border-t border-line-subtle transition-colors cursor-pointer"]
         [Txt "Scroll to latest logs"]) ++
     []).

(** ** Following the newest line *)

(** Heights are not negative. *)
Class LayoutLaws (L : Layout) : Prop := {
  scrollHeight_nonneg l : 0 <= scrollHeight l;
  clientHeight_nonneg l : 0 <= clientHeight l
}.
#[export] Instance plain_layout_laws : LayoutLaws plain_layout.
Proof. split; intros l; cbn; lia. Qed.

Definition message_of (e : event) : option log_entry := match e with Message m => m | _ => None end.

Section Follow.
Context `{LayoutLaws}.

Lemma scroll_to_end s : scrollTop (scroll_to (scrollHeight (lines s)) s) = bottom (lines s).
Proof.
  unfold scroll_to, bottom. cbn [scrollTop].
  pose proof (scrollHeight_nonneg (lines s)). pose proof (clientHeight_nonneg (lines s)). lia.
Qed.

Lemma step_lines e s :
  lines (step e s) = match message_of e with
                     | Some m => Slice.push_capped MAX_LINES (lines s) m
                     | None => lines s
                     end.
Proof.
  destruct e as [[m|]| | | |]; try done. cbn [step message_of]. unfold follow_effect.
  destruct (follow_due s); [|done]. by destruct (negb (userScrolled s)).
Qed.

Lemma history_lines es : lines (history es) = Slice.last_n 150 (omap message_of es).
Proof.
  unfold history. rewrite <- (app_nil_l (omap _ _)).
  change (lines (foldl (fun s e => step e s) init_stream es)) with
    (lines (foldl (fun s e => step e s) init_stream es)).
  assert (G : forall A s, lines s = Slice.last_n 150 A ->
    lines (foldl (fun s e => step e s) s es) = Slice.last_n 150 (A ++ omap message_of es)).
  { induction es as [|e es IH]; intros A s E; cbn [foldl]; [by rewrite app_nil_r|].
    destruct (message_of e) as [m|] eqn:M.
    - rewrite (IH (A ++ [m])).
      + cbn [omap list_omap]. by rewrite M, <- app_assoc.
      + rewrite step_lines, M, E. by apply (Slice.push_capped_snoc MAX_LINES).
    - rewrite (IH A); [|by rewrite step_lines, M]. cbn [omap list_omap]. by rewrite M. }
  by apply G.
Qed.

Lemma flush_due s :
  follow_due s = true ->
  scrollTop (step Flush s) = (if userScrolled s then scrollTop s else bottom (lines s)) /\
  userScrolled (step Flush s) = userScrolled s.
Proof.
  intros D. cbn [step]. unfold follow_effect. rewrite D.
  destruct (userScrolled s) eqn:U; cbn [negb scrollTop userScrolled scroll_to]; [done|].
  split; [apply (scroll_to_end s)|done].
Qed.

Lemma log_row_offers i l : offers (log_row i l) = [].
Proof. reflexivity. Qed.

(** Whatever happened before, the panel holds the last 150 lines that arrived. A new
    line is scrolled into view unless the user has scrolled away; then it leaves the
    view where it is. The button to the latest lines is offered exactly then; it goes
    to the end and resumes following. *)
Theorem log_stream_follow (es : list event) (m : log_entry) (active : bool) :
  let s := history es in
  let arrived := step Flush (step (Message (Some m)) s) in
  let clicked := step Flush (step ClickLatest s) in
  lines s = Slice.last_n 150 (omap message_of es) /\
  userScrolled arrived = userScrolled s /\
  scrollTop arrived = (if userScrolled s then scrollTop s else bottom (lines arrived)) /\
  offers (LogStream active s)
    = (if userScrolled s && negb (bool_decide (lines s = [])) then [ClickLatest] else []) /\
  userScrolled clicked = false /\ scrollTop clicked = bottom (lines s).
Proof.
  cbv zeta. generalize (history_lines es). set (s := history es). intros Hl.
  destruct (flush_due (step (Message (Some m)) s) eq_refl) as [T U].
  split_and!; [done|done| | | |].
  - rewrite (step_lines Flush). exact T.
  - unfold LogStream. rewrite offers_el, offers_list_cons, offers_el.
    rewrite !offers_list_cons, !offers_list_app, !offers_list_when.
    destruct active, (bool_decide (lines s = [])), (userScrolled s); cbn [andb negb app];
      rewrite ?offers_el, ?offers_list_app, ?(offers_list_imap_nil _ _ log_row_offers); done.
  - cbn [step]. unfold follow_effect. by destruct (follow_due (click_latest s)).
  - cbn [step]. unfold follow_effect, click_latest.
    destruct (follow_due _); cbn [userScrolled scroll_to setUserScrolled negb].
    + apply (scroll_to_end (setUserScrolled false s)).
    + apply (scroll_to_end (setUserScrolled false s)).
Qed.
End Follow.

(** ** Highlighting *)

Lemma highlighted i r rs l :
  HIGHLIGHT_PATTERNS !! i = Some rs -> r ∈ rs -> test r (units l) = true -> isHighlighted l = true.
Proof.
  intros Hi Hr T. unfold isHighlighted. apply existsb_exists. exists rs. split.
  - apply list_elem_of_In. by eapply list_elem_of_lookup_2.
  - apply existsb_exists. exists r. split; [by apply list_elem_of_In|done].
Qed.

Lemma digits_newline w : Forall (fun c => is_digit c = true) w -> Forall (fun c => not_newline c = true) w.
Proof.
  intros F. eapply Forall_impl; [exact F|]. cbn. unfold is_digit, not_newline. cbv zeta.
  intros c Hc. bool_hyps. destruct (Z.eqb_spec (code c) 10), (Z.eqb_spec (code c) 13); (done || lia).
Qed.

(** Every training step and every saved checkpoint the workers log is highlighted,
    whatever the prefix of the line. A restored checkpoint is not: the pattern meant
    for it expects a text the trainer does not print. *)
Theorem worker_lines_highlighted (pre : string) (r : log_record) (H : printable r) :
  (is_Some (point_of r) \/ is_Some (checkpoint_of r) -> isHighlighted (log_line (pre, r)) = true) /\
  isHighlighted (log_line ("2024-05-01 10:01:00 [INFO] rank=1 ",
    LogRestore "ckpt-0a1b2c3d" 50 44730472 "0.22")) = false.
Proof.
  split; [|vm_compute; reflexivity]. intros K.
  destruct r as [step total loss rate|step loss size sha time|]; [| |by destruct K as [[]|[]]].
  - destruct H as ([Hs _] & Ht & _). destruct (dec_run step Hs) as [Ns Fs], (dec_run total Ht) as [_ Ft].
    eapply (highlighted 5); [done|by left|].
    unfold log_line. cbn [fst snd record_units]. rewrite units_app, units_of_units. apply test_found.
    unfold step_units, checkpoint_units.
    rewrite match_lit. apply plus_found; [done|done|].
    rewrite !app_assoc, <- (app_assoc _ (units loss)), <- (app_assoc _ (units loss ++ _)).
    change (units "  loss=") with (units "  " ++ units "loss=").
    rewrite (app_assoc _ (units "  ")), <- (app_assoc _ (units "loss=")).
    apply star_found; [|by rewrite match_lit].
    repeat (apply Forall_app; split); try (by repeat constructor). by apply digits_newline.
  - eapply (highlighted 1); [done|by left|].
    unfold log_line. cbn [fst snd record_units]. rewrite units_app, units_of_units. apply test_found.
    unfold step_units, checkpoint_units.
    change (units "Checkpoint saved (runtime): step=")
      with (units "Checkpoint saved" ++ units " (runtime): step=").
    rewrite <- app_assoc, (match_lit_i (units "checkpoint saved")) by reflexivity. done.
Qed.

Lemma log_stream_follow_witness :
  let e t := LogEntry "ckpt-worker-0" t in
  let es := map (fun t => Message (Some (e t))) ["1"; "2"; "3"; "4"; "5"; "6"; "7"; "8"] ++
            [Flush; ScrollEvent; Drag 0; ScrollEvent] in
  userScrolled (history es) = true /\
  offers (LogStream true (history es)) = [ClickLatest] /\
  scrollTop (step Flush (step (Message (Some (e "9"))) (history es))) = 0.
Proof.
  intros e es.
  destruct (log_stream_follow (L := plain_layout) es (e "9") true) as (_ & _ & T & O & _).
  split; [reflexivity|]. split; [exact O|exact T].
Defined.

Lemma worker_lines_highlighted_witness :
  printable (LogStep 10 500 "2.3026" "4.5") /\
  isHighlighted (log_line ("2024-05-01 10:00:00 [INFO] rank=0 ", LogStep 10 500 "2.3026" "4.5")) = true.
Proof.
  assert (P : printable (LogStep 10 500 "2.3026" "4.5")) by (repeat constructor; by vm_compute).
  split; [exact P|]. apply (worker_lines_highlighted _ _ P). left. by eexists.
Defined.
