(* ===== verification/LossChart.v ===== *)
(** * The training loss chart: [frontend/src/components/TrainingLossChart.tsx]

    The loss curve with a dot for each checkpoint, for the kill and for each recovery;
    a dot is drawn at the loss of the training point closest to its step. The data comes
    from the log parser. *)

From S2P Require Import Prelude JsString JsNum Html Types Host Design Ui LogParser.

(** [closest] starts as the first point; a strictly closer one replaces it. *)
Definition closer (step : Z) (p closest : loss_point) : bool :=
  Z.abs (p.(lp_step) - step) <? Z.abs (closest.(lp_step) - step).

Definition findLoss (lossHistory : list loss_point) (step : Z) : option num :=
  match lossHistory with
  | [] => None
  | first :: _ =>
      let closest := foldl (fun closest p => if closer step p closest then p else closest) first lossHistory in
      Some closest.(lp_loss)
  end.

Section View.
Context {M : Type}.
#[local] Abbreviation node := (node M).

Definition LossTooltip (active : bool) (payload : list loss_point) : list node :=
  match active, payload with
  | true, d :: _ => [
  El "div" [cls "bg-surface-3 border border-line-emphasis rounded-lg px-3 py-2 shadow-xl text-xs"]
    [El "p" [cls "text-txt-3 mb-1"] [Txt "Step "; Txt (dec d.(lp_step))];
     El "p" [cls "font-mono text-ok"] [Txt "loss: "; Txt (to_fixed 4 d.(lp_loss))];
     El "p" [cls "font-mono text-txt-3"] [Txt (to_fixed 1 d.(lp_stepsPerSec)); Txt " steps/s"]]]
  | _, _ => []
  end.

Definition checkpoint_dot (findLoss : Z -> option num) (cp : checkpoint_marker) : list node :=
  when_some (findLoss cp.(cm_step)) (fun loss =>
  El "ReferenceDot" [Key ("cp-" +:+ dec cp.(cm_step)); Attr "x" (dec cp.(cm_step));
                     Attr "y" (to_string loss); Attr "r" "5"; Attr "fill" "#3b82f6";
                     Attr "stroke" "#1e3a5f"; Attr "strokeWidth" "1"] []).

Definition kill_dot (findLoss : Z -> option num) (killStep : Z) : list node :=
  when_some (findLoss killStep) (fun loss =>
  El "ReferenceDot" [Attr "x" (dec killStep); Attr "y" (to_string loss); Attr "r" "7";
                     Attr "fill" "#ef4444"; Attr "stroke" "#7f1d1d"; Attr "strokeWidth" "2"] []).

Definition recovery_dot (findLoss : Z -> option num) (rm : recovery_marker) : list node :=
  when_some (findLoss rm.(rm_step)) (fun loss =>
  El "ReferenceDot" [Key ("rm-" +:+ dec rm.(rm_step)); Attr "x" (dec rm.(rm_step));
                     Attr "y" (to_string loss); Attr "r" "6"; Attr "fill" "#8b5cf6";
                     Attr "stroke" "#4c1d95"; Attr "strokeWidth" "1"] []).

Definition no_data : node :=
    El "div" [cls "card p-5"]
      [El "div" [cls "panel-header mb-0"]
         [El "span" [cls "panel-tag"] [Txt "loss"];
          El "h4" [cls "panel-title"] [Txt "Training Loss"]];
       El "p" [cls "text-sm text-txt-3 mt-3 text-center py-6"]
         [Txt "Waiting for training data..."]].

Definition plot (lossHistory : list loss_point) (checkpointMarkers : list checkpoint_marker)
    (recoveryMarkers : list recovery_marker) (killStep : option Z) : node :=
  let findLoss := findLoss lossHistory in
  El "LineChart" [Attr "data" "{lossHistory}";
                  Attr "margin" "{ top: 5, right: 10, left: 0, bottom: 0 }"]
    (El "CartesianGrid" [Attr "strokeDasharray" "3 3";
                         Attr "stroke" "var(--color-line-subtle, #333)"] [] ::
     El "XAxis" [Attr "dataKey" "step";
                 Attr "tick" "{ fill: 'var(--color-txt-3, #888)', fontSize: 10 }";
                 Flag "tickLine" false; Flag "axisLine" false] [] ::
     El "YAxis" [Attr "tick" "{ fill: 'var(--color-txt-3, #888)', fontSize: 10 }";
                 Flag "tickLine" false; Flag "axisLine" false; Attr "domain" "['auto', 'auto']";
                 Attr "width" "40"] [] ::
     El "Tooltip" [Attr "content" "<LossTooltip />"] [] ::
     El "Line" [Attr "type" "monotone"; Attr "dataKey" "loss"; Attr "stroke" "#10b981";
                Attr "strokeWidth" "2"; Flag "dot" false;
                Attr "activeDot" "{ r: 4, fill: '#10b981' }"; Flag "isAnimationActive" false] [] ::
     (checkpointMarkers ≫= checkpoint_dot findLoss) ++
     (match killStep with Some k => kill_dot findLoss k | None => [] end) ++
     (recoveryMarkers ≫= recovery_dot findLoss) ++
     []).

Definition legend (recoveryMarkers : list recovery_marker) (killStep : option Z) : node :=
  El "div" [cls "flex flex-wrap items-center gap-x-4 gap-y-1 mt-2 text-xs text-txt-3"]
    (El "span" [cls "flex items-center gap-1"]
       [El "span" [cls "w-2 h-2 rounded-full bg-[#10b981]"] [];
        Txt " Loss"] ::
     El "span" [cls "flex items-center gap-1"]
       [El "span" [cls "w-2 h-2 rounded-full bg-[#3b82f6]"] [];
        Txt " Checkpoint"] ::
     when_some killStep (fun killStep =>
       El "span" [cls "flex items-center gap-1"]
         [El "span" [cls "w-2 h-2 rounded-full bg-[#ef4444]"] [];
          Txt " Kill"]) ++
     when (negb (bool_decide (length recoveryMarkers = 0%nat))) (
       El "span" [cls "flex items-center gap-1"]
         [El "span" [cls "w-2 h-2 rounded-full bg-[#8b5cf6]"] [];
          Txt " Recovery"]) ++
     []).

Definition TrainingLossChart (lossHistory : list loss_point)
    (checkpointMarkers : list checkpoint_marker) (recoveryMarkers : list recovery_marker)
    (killStep : option Z) : node :=
  if bool_decide (length lossHistory = 0%nat) then no_data
  else
  El "div" [cls "card p-5"]
    [El "div" [cls "panel-header"]
       [El "span" [cls "panel-tag"] [Txt "loss"];
        El "h4" [cls "panel-title"] [Txt "Training Loss"]];
     El "p" [cls "text-xs text-txt-3 mt-1 mb-3"]
       [Txt "Synthetic workload — loss shows training is progressing. Dots mark checkpoints and events."];
     El "div" [cls "h-[200px]"]
       [El "ResponsiveContainer" [Attr "width" "100%"; Attr "height" "100%"]
          [plot lossHistory checkpointMarkers recoveryMarkers killStep]];
     legend recoveryMarkers killStep].
End View.

(** ** The loss at a step *)

Lemma closer_ge step p q : closer step p q = false -> Z.abs (lp_step q - step) <= Z.abs (lp_step p - step).
Proof. unfold closer. intros H. bool_hyps. lia. Qed.
Lemma closer_lt step p q : closer step p q = true -> Z.abs (lp_step p - step) < Z.abs (lp_step q - step).
Proof. unfold closer. intros H. by bool_hyps. Qed.

(** The scan: [p] is the first closest point of [pre ++ p :: post]. *)
Definition first_closest (step : Z) (p : loss_point) (l : list loss_point) : Prop :=
  exists pre post, l = pre ++ p :: post /\
    Forall (fun q => Z.abs (lp_step p - step) < Z.abs (lp_step q - step)) pre /\
    Forall (fun q => Z.abs (lp_step p - step) <= Z.abs (lp_step q - step)) post.

Lemma first_closest_snoc step p l q :
  first_closest step p l -> first_closest step (if closer step q p then q else p) (l ++ [q]).
Proof.
  intros (pre & post & -> & A & B). destruct (closer step q p) eqn:C.
  - apply closer_lt in C. exists (pre ++ p :: post), []. split_and!; [done| |constructor].
    apply Forall_app. split; [eapply Forall_impl; [exact A|cbn; lia]|].
    constructor; [done|]. eapply Forall_impl; [exact B|cbn; lia].
  - apply closer_ge in C. exists pre, (post ++ [q]). split_and!.
    + by rewrite <- app_assoc.
    + done.
    + apply Forall_app. split; [done|]. by constructor.
Qed.

(** A dot is drawn at the loss of the training point closest to its step, the
    earliest of the closest ones; there is one whenever the curve has a point. *)
Theorem findLoss_closest (lossHistory : list loss_point) (step : Z) :
  match findLoss lossHistory step with
  | None => lossHistory = []
  | Some loss => exists p, first_closest step p lossHistory /\ loss = p.(lp_loss)
  end.
Proof.
  destruct lossHistory as [|first l]; [done|]. cbn [findLoss].
  set (scan := fun closest p => if closer step p closest then p else closest).
  exists (foldl scan first (first :: l)). split; [|done]. cbn [foldl].
  replace (scan first first) with first.
  2: { unfold scan. by destruct (closer step first first). }
  induction l as [|q l IH] using rev_ind.
  - by exists [], [].
  - rewrite foldl_app. cbn [foldl]. apply (first_closest_snoc step _ (first :: l) q). exact IH.
Qed.

(** ** Keys of the dots *)
Section Keys.
Context {M : Type}.

Lemma dots_keys {A} (f : A -> list (node M)) (key : A -> string) l :
  (forall a, sibling_keys (f a) = [key a]) -> sibling_keys (l ≫= f) = map key l.
Proof.
  intros H. induction l as [|a l IH]; [done|].
  change ((a :: l) ≫= f) with (f a ++ (l ≫= f)). rewrite sibling_keys_app, H, IH. done.
Qed.

Lemma dots_leaves {A} (f : A -> list (node M)) l :
  (forall a, Forall keys_ok (f a)) -> Forall keys_ok (l ≫= f).
Proof.
  intros H. induction l as [|a l IH]; [constructor|].
  change ((a :: l) ≫= f) with (f a ++ (l ≫= f)). by apply Forall_app.
Qed.

Lemma nodup_prefixed {A} (p : string) (step : A -> Z) (l : list A) :
  NoDup (map (fun a => p +:+ dec (step a)) l) <-> NoDup (map step l).
Proof.
  rewrite <- (map_map step (fun z => p +:+ dec z)). split.
  - apply NoDup_fmap_1.
  - apply NoDup_fmap_2. intros a b E. apply (f_equal units) in E. rewrite !units_app in E.
    apply app_inv_head in E. by apply dec_inj, units_inj.
Qed.

Lemma plot_keys (hist : list loss_point) cps rms kill :
  hist <> [] ->
  keys_ok (plot (M := M) hist cps rms kill) <-> NoDup (map cm_step cps) /\ NoDup (map rm_step rms).
Proof.
  intros Ne. assert (F : forall s, exists l, findLoss hist s = Some l).
  { intros s. destruct hist; [done|]. by eexists. }
  unfold plot. cbv zeta. rewrite keys_ok_el. cbn [sibling_keys omap].
  set (C := cps ≫= _). set (K := match kill with Some _ => _ | None => _ end). set (R := rms ≫= _).
  assert (KC : sibling_keys C = map (fun c => "cp-" +:+ dec (cm_step c)) cps).
  { apply dots_keys. intros c. destruct (F (cm_step c)) as [x E]. unfold checkpoint_dot. by rewrite E. }
  assert (KR : sibling_keys R = map (fun c => "rm-" +:+ dec (rm_step c)) rms).
  { apply dots_keys. intros c. destruct (F (rm_step c)) as [x E]. unfold recovery_dot. by rewrite E. }
  assert (KK : sibling_keys K = [] /\ Forall keys_ok K).
  { subst K. destruct kill as [k|]; [|by split]. destruct (F k) as [x E]. unfold kill_dot. rewrite E.
    split; [done|]. repeat constructor. }
  assert (LC : Forall keys_ok C).
  { apply dots_leaves. intros c. destruct (F (cm_step c)) as [x E]. unfold checkpoint_dot. rewrite E. repeat constructor. }
  assert (LR : Forall keys_ok R).
  { apply dots_leaves. intros c. destruct (F (rm_step c)) as [x E]. unfold recovery_dot. rewrite E. repeat constructor. }
  clearbody C K R. destruct KK as [KK LK].
  match goal with |- NoDup ?l /\ _ <-> _ => replace l with (sibling_keys C ++ sibling_keys R) end.
  - rewrite KC, KR, NoDup_app, !nodup_prefixed. split; [tauto|]. intros [N1 N2]. split_and!; [done| |done| ].
    + intros x Hx Hy. apply list_elem_of_fmap in Hx as (a & -> & _).
      apply list_elem_of_fmap in Hy as (b & E & _). discriminate.
    + repeat (apply Forall_cons; split; [by apply keys_okb_ok|]).
      repeat (apply Forall_app; split); done.
  - unfold sibling_keys in *. cbn. rewrite !omap_app, KK, app_nil_r. done.
Qed.
End Keys.

(** The chart's dots have distinct keys exactly when no step was saved twice and
    none was restored twice. A recovery that both workers log gives two dots the same
    key. *)
Theorem chart_keys (hist : list loss_point) (cps : list checkpoint_marker)
    (rms : list recovery_marker) (kill : option Z) (H : hist <> []) :
  (keys_ok (TrainingLossChart (M := unit) hist cps rms kill)
   <-> NoDup (map cm_step cps) /\ NoDup (map rm_step rms)) /\
  (forall id1 id2 z1 z2 t1 t2,
     let log := [("rank=0 ", LogStep 50 500 "1.0" "4.0"); ("rank=0 ", LogRestore id1 50 z1 t1);
                 ("rank=1 ", LogRestore id2 50 z2 t2)] in
     Forall well_printed log ->
     let p := useLogParser (map (fun l => Some (log_line l)) log) in
     ~ keys_ok (TrainingLossChart (M := unit) p.(lossHistory) p.(checkpointMarkers) p.(recoveryMarkers) kill)).
Proof.
  assert (G : forall h cs rs, h <> [] -> keys_ok (TrainingLossChart (M := unit) h cs rs kill)
      <-> NoDup (map cm_step cs) /\ NoDup (map rm_step rs)).
  { intros h cs rs Ne. rewrite <- (plot_keys (M := unit) h cs rs kill Ne).
    unfold TrainingLossChart. rewrite bool_decide_eq_false_2 by by destruct h.
    generalize (plot (M := unit) h cs rs kill) as P. intros P.
    assert (LK : keys_ok (legend (M := unit) rs kill)).
    { unfold legend. destruct kill, rs; apply keys_okb_ok; reflexivity. }
    rewrite !keys_ok_el, !Forall_cons, !keys_ok_el, !Forall_cons, !keys_ok_el, !Forall_cons.
    split; [tauto|]. intros HP.
    assert (KP : NoDup (sibling_keys [P])).
    { unfold sibling_keys. cbn. destruct (node_key P); [apply NoDup_singleton|constructor]. }
    split_and!; first [done|constructor]. }
  split; [by apply G|]. intros id1 id2 z1 z2 t1 t2 log W p.
  assert (E : p = Parsed [LossPoint 50 (parse_float "1.0") (parse_float "4.0")] []
    [RecoveryMarker id1 50 z1 (parse_float t1); RecoveryMarker id2 50 z2 (parse_float t2)] ({[50]} ∪ ∅ ∪ ∅)).
  { subst p. exact (parse_log log [] [] [] ∅ W). }
  rewrite E. cbn [lossHistory checkpointMarkers recoveryMarkers]. rewrite G by done.
  intros [_ N]. apply NoDup_cons in N as [N _]. apply N. by left.
Qed.

Lemma chart_keys_witness :
  let hist := [LossPoint 50 (of_Z 1) (of_Z 4)] in
  let rm i := RecoveryMarker i 50 1024 (of_Z 1) in
  ~ keys_ok (TrainingLossChart (M := unit) hist [] [rm "a"; rm "b"] None) /\
  keys_ok (TrainingLossChart (M := unit) hist [CheckpointMarker 50 (of_Z 1) 1024 "9f8e" (of_Z 1)] [rm "a"] None).
Proof.
  intros hist rm.
  assert (Ne : hist <> []) by discriminate.
  split.
  - intros K. apply (chart_keys hist [] [rm "a"; rm "b"] None Ne) in K as [_ K].
    apply NoDup_cons in K as [K _]. apply K. left.
  - apply (chart_keys hist _ [rm "a"] None Ne). split; apply NoDup_singleton.
Defined.
