(* ===== verification/HealthPage.v ===== *)
(** * The health page: [frontend/src/pages/HealthPage.tsx]

    The health of the control plane and its workers, refreshed every five seconds. The
    three responses arrive together; their bodies are read one after the other, and each
    is stored before the next is read. *)

From S2P Require Import Prelude JsString JsNum Html Types Host Async Design Ui.

(** ** State *)

(** [Record<string, number>] *)
Abbreviation lag_table := (gmap string num).

Record page : Type := Page {
  health : option health_status;
  workers : list worker_info;
  lags : lag_table;
  loading : bool;
  error : option string
}.
Definition init_page : page := Page None [] ∅ true None.

(** The body of the lags response: an object with a [lags] field, or the table itself. *)
Record lags_body : Type := LagsBody { lb_lags : option lag_table; lb_self : lag_table }.

Inductive msg : Type :=
| Poll
| Responses (o : exn + response health_status * response (list worker_info) * response lags_body)
| ReadHealth (b : exn + health_status) (w : response (list worker_info)) (l : response lags_body)
| ReadWorkers (b : exn + list worker_info) (l : response lags_body)
| ReadLags (b : exn + lags_body).

(** Requests, and bodies to be read next. *)
Inductive effect : Type :=
| FetchAll
| NextHealth (h : response health_status) (w : response (list worker_info)) (l : response lags_body)
| NextWorkers (w : response (list worker_info)) (l : response lags_body)
| NextLags (l : response lags_body).

(** ** Fetching *)

Definition set_health (h : health_status) (p : page) : page :=
  Page (Some h) p.(workers) p.(lags) p.(loading) p.(error).
Definition set_workers (w : list worker_info) (p : page) : page :=
  Page p.(health) w p.(lags) p.(loading) p.(error).
Definition set_lags (l : lag_table) (p : page) : page :=
  Page p.(health) p.(workers) l p.(loading) p.(error).
Definition set_error (e : option string) (p : page) : page :=
  Page p.(health) p.(workers) p.(lags) p.(loading) e.
Definition set_loaded (p : page) : page :=
  Page p.(health) p.(workers) p.(lags) false p.(error).

(** [fetchAll] is one [try] block; each part below is what it does between two awaits. A
    throw in any of them ends in the same [catch] and [finally]. *)
Definition guarded (m : M (page * list effect) unit) : M (page * list effect) unit :=
  catch m (fun e => on (set_error (Some (message_or "Failed to fetch health data" e))) ;; on set_loaded).

Definition responses_settled
    (o : exn + response health_status * response (list worker_info) * response lags_body) :
    M (page * list effect) unit :=
  guarded
    (let* rs := await o in
     let '(healthRes, workersRes, lagsRes) := rs in
     check_ok healthRes ("Health: " +:+ dec (res_status healthRes)) ;;
     check_ok workersRes ("Workers: " +:+ dec (res_status workersRes)) ;;
     check_ok lagsRes ("Lags: " +:+ dec (res_status lagsRes)) ;;
     emit (NextHealth healthRes workersRes lagsRes)).

Definition health_read b w l : M (page * list effect) unit :=
  guarded (let* h := await b in on (set_health h) ;; emit (NextWorkers w l)).
Definition workers_read b l : M (page * list effect) unit :=
  guarded (let* w := await b in on (set_workers w) ;; emit (NextLags l)).
Definition lags_read b : M (page * list effect) unit :=
  guarded
    (let* lagsData := await b in
     on (set_lags (default lagsData.(lb_self) lagsData.(lb_lags))) ;;
     on (set_error None) ;;
     on set_loaded).

Definition update (g : msg) (p : page) : page * list effect :=
  match g with
  | Poll => (p, [FetchAll])
  | Responses o => handle (responses_settled o) p
  | ReadHealth b w l => handle (health_read b w l) p
  | ReadWorkers b l => handle (workers_read b l) p
  | ReadLags b => handle (lags_read b) p
  end.
Definition mount : page * list effect := (init_page, [FetchAll]).
Definition run_messages (ms : list msg) (p : page) : page := foldl (fun p m => fst (update m p)) p ms.

(** ** View *)

Record health_config : Type := HealthConfig { hc_label : string; hc_dot : string; hc_border : string }.
Definition HEALTH_CONFIG (s : health_level) : health_config :=
  match s with
  | HEALTHY => HealthConfig "All Systems Operational" "bg-ok" "border-l-ok"
  | DEGRADED => HealthConfig "Degraded Performance" "bg-warn" "border-l-warn"
  | UNHEALTHY => HealthConfig "System Unhealthy" "bg-err" "border-l-err"
  end.

Definition lagColor (lag : num) : string :=
  if ltb lag (of_Z 5) then "text-ok" else if ltb lag (of_Z 30) then "text-warn" else "text-err".
Definition lagBarColor (lag : num) : string :=
  if ltb lag (of_Z 5) then "bg-ok" else if ltb lag (of_Z 30) then "bg-warn" else "bg-err".

Section View.
Context `{Intl}.
#[local] Abbreviation node := (node msg).

Definition lag_percent (lag : num) : num := min (of_Z 100) (mul (div lag (of_Z 60)) (of_Z 100)).
Definition LagIndicator (lag : num) : node :=
  let pct := lag_percent lag in
  El "div" [cls "h-1 w-20 bg-surface-3 rounded-full overflow-hidden"]
    [El "div" [cls ("h-1 rounded-full " +:+ lagBarColor lag +:+ " transition-all");
               Attr "width" (to_string pct +:+ "%")] []].

Definition worker_card (p : page) (w : worker_info) : node :=
  let lag := default (of_Z 0) (p.(lags) !! w.(worker_id)) in
  let isActive := (w.(status) =? "ACTIVE")%string || (w.(status) =? "active")%string in
  El "div" [Key (w.(worker_id)); cls "card p-4"]
    [El "div" [cls "flex items-center justify-between mb-3"]
       [El "div" []
          [El "p" [cls "text-sm font-semibold text-txt-1"] [Txt "Worker "; Txt (dec w.(rank))];
           El "p" [cls "text-2xs font-mono text-txt-3 mt-0.5"]
             [(if (16 <? str_length w.(worker_id)) then Txt (str_slice 0 (Some 16) w.(worker_id) +:+ ellipsis) else Txt (w.(worker_id)))]];
        El "span" [cls ("badge " +:+ (if isActive then "bg-ok-muted text-ok" else "bg-err-muted text-err"))]
          [El "span" [cls ("w-1.5 h-1.5 rounded-full " +:+ default "bg-muted" (WORKER_DOT w.(status)))] [];
           Txt (w.(status))]];
     El "div" [cls "grid grid-cols-3 gap-3 text-xs"]
       [El "div" []
          [El "span" [cls "text-2xs text-txt-3"] [Txt "Step"];
           El "p" [cls "text-txt-1 font-mono mt-0.5"] [Txt (locale_int w.(wk_current_step))]];
        El "div" []
          [El "span" [cls "text-2xs text-txt-3"] [Txt "Heartbeat"];
           El "p" [cls "text-txt-1 mt-0.5"] [Txt (formatTime w.(last_heartbeat))]];
        El "div" []
          [El "span" [cls "text-2xs text-txt-3"] [Txt "Lag"];
           El "p" [cls ("font-medium mt-0.5 " +:+ lagColor lag)] [Txt (to_fixed 1 lag); Txt "s"]]];
     El "div" [cls "mt-3 flex items-center justify-between"]
       [El "span" [cls "text-2xs text-txt-3"] [Txt "Heartbeat lag"];
        LagIndicator lag]].

Definition status_banner (health : health_status) : node :=
  let cfg := HEALTH_CONFIG health.(hs_status) in
  El "div" [cls ("card overflow-hidden mb-6 border-l-2 " +:+ cfg.(hc_border))]
    [El "div" [cls "p-5"]
       [El "div" [cls "flex items-center gap-3 mb-4"]
          [El "div" [cls ("w-2.5 h-2.5 rounded-full " +:+ cfg.(hc_dot))] [];
           El "h3" [cls "text-base font-semibold text-txt-1"] [Txt (cfg.(hc_label))]];
        El "div" [cls "grid grid-cols-2 md:grid-cols-4 gap-4"]
          [El "div" []
             [El "span" [cls "text-2xs font-medium text-txt-3 uppercase tracking-wider"]
                [Txt "Version"];
              El "p" [cls "text-sm text-txt-1 font-mono mt-0.5"] [Txt (health.(version))]];
           El "div" []
             [El "span" [cls "text-2xs font-medium text-txt-3 uppercase tracking-wider"]
                [Txt "Uptime"];
              El "p" [cls "text-sm text-txt-1 mt-0.5"]
                [Txt (formatUptime health.(uptime_seconds))]];
           El "div" []
             [El "span" [cls "text-2xs font-medium text-txt-3 uppercase tracking-wider"]
                [Txt "Active Runs"];
              El "p" [cls "text-sm text-txt-1 mt-0.5"] [Txt (dec health.(active_runs))]];
           El "div" []
             [El "span" [cls "text-2xs font-medium text-txt-3 uppercase tracking-wider"]
                [Txt "etcd"];
              El "p" [cls ("text-sm mt-0.5 font-medium " +:+ (if health.(etcd_connected) then "text-ok" else "text-err"))]
                [(if health.(etcd_connected) then Txt "Connected" else Txt "Disconnected")]]]]].

Definition HealthPage (p : page) : node :=
  if p.(loading) then Loading "Loading health data..."
  else
  El "div" []
    (SectionHeader "System Health" (Some "Monitor workers, heartbeat status, and system health indicators.") [] ::
     when_text p.(error) (fun error => ErrorBanner error) ++
     when_some p.(health) status_banner ++
     El "div" [cls "mb-4 flex items-center justify-between"]
       [El "h3" [cls "text-sm font-semibold text-txt-1"]
          [Txt "Workers (";
           Txt (dec (Z.of_nat (length p.(workers))));
           Txt ")"]] ::
     when (bool_decide (length p.(workers) = 0%nat)) (El "div" [cls "text-center py-12 text-sm text-txt-3"] [Txt "No workers registered."]) ++
     El "div" [cls "grid grid-cols-1 md:grid-cols-2 lg:grid-cols-3 gap-3"]
       (map (worker_card p) p.(workers)) ::
     []).
End View.

(** ** History *)

Definition health_of (m : msg) : option health_status :=
  match m with ReadHealth (inr h) _ _ => Some h | _ => None end.
Definition workers_of (m : msg) : option (list worker_info) :=
  match m with ReadWorkers (inr w) _ => Some w | _ => None end.
Definition lags_of (m : msg) : option lag_table :=
  match m with ReadLags (inr b) => Some (default b.(lb_self) b.(lb_lags)) | _ => None end.
(** The end of a refresh, with its error. *)
Definition refresh_end (m : msg) : option (option string) :=
  let failed e := Some (Some (message_or "Failed to fetch health data" e)) in
  match m with
  | Responses (inl e) | ReadHealth (inl e) _ _ | ReadWorkers (inl e) _ | ReadLags (inl e) => failed e
  | Responses (inr (h, w, l)) =>
      if negb (res_ok h) then failed (Error ("Health: " +:+ dec (res_status h)))
      else if negb (res_ok w) then failed (Error ("Workers: " +:+ dec (res_status w)))
      else if negb (res_ok l) then failed (Error ("Lags: " +:+ dec (res_status l)))
      else None
  | ReadLags (inr _) => Some None
  | _ => None
  end.

Lemma health_update_writes m p :
  fst (update m p) =
    Page (from_option Some p.(health) (health_of m)) (default p.(workers) (workers_of m))
      (default p.(lags) (lags_of m)) (match refresh_end m with Some _ => false | None => p.(loading) end)
      (default p.(error) (refresh_end m)).
Proof.
  destruct p as [h ws ls ld er].
  destruct m as [|[e|[[rh rw] rl]]|[e|h'] w l|[e|w'] l|[e|b]]; try done.
  cbn [update refresh_end]. unfold handle, run, responses_settled, guarded, catch, bind, await, check_ok.
  destruct (res_ok rh); [|done]. destruct (res_ok rw); [|done]. by destruct (res_ok rl).
Qed.

(** After any history the page holds the health, the workers and the lags last read,
    each on its own: a refresh that fails half-way leaves the new health beside the old
    workers. It shows an error exactly when the last finished refresh failed, and
    nothing but a spinner until one has finished. *)
Theorem health_page_history (ms : list msg) :
  let p := run_messages ms init_page in
  p.(health) = last (omap health_of ms) /\
  p.(workers) = default [] (last (omap workers_of ms)) /\
  p.(lags) = default ∅ (last (omap lags_of ms)) /\
  p.(error) = default None (last (omap refresh_end ms)) /\
  p.(loading) = bool_decide (omap refresh_end ms = []).
Proof.
  unfold run_messages.
  pose proof (fun V get w H => last_write (V := V) (fun m p => fst (update m p)) get w H ms init_page) as L.
  cbv zeta. split_and!.
  - rewrite (L _ health (fun m => Some <$> health_of m)).
    + rewrite last_omap_map. by destruct (last (omap health_of ms)).
    + intros m s. rewrite health_update_writes. by destruct (health_of m).
  - rewrite (L _ workers workers_of); [done|]. intros m s. by rewrite health_update_writes.
  - rewrite (L _ lags lags_of); [done|]. intros m s. by rewrite health_update_writes.
  - rewrite (L _ error refresh_end); [done|]. intros m s. by rewrite health_update_writes.
  - rewrite (L _ loading (fun m => (fun _ => false) <$> refresh_end m)).
    + rewrite last_omap_map. apply last_write_flag.
    + intros m s. rewrite health_update_writes. by destruct (refresh_end m).
Qed.
