(* ===== verification/PerformancePage.v ===== *)
(** * The performance page: [frontend/src/pages/PerformancePage.tsx]

    Metrics of the control plane, refreshed every ten seconds. The performance series is
    optional: when its request is refused the metrics are shown without it. *)

From S2P Require Import Prelude JsString JsNum Html Types Host Async Design Ui.

(** ** Data *)

Record latency_point : Type := LatencyPoint { lp_index : Z; lp_save : num; lp_restore : num }.
Record performance_data : Type := PerformanceData {
  latency : list latency_point;
  pd_total_checkpoint_bytes : Z;
  checkpoint_count : Z
}.

Record page : Type := Page {
  metrics : option metrics_summary;
  perfData : option performance_data;
  loading : bool;
  error : option string
}.
Definition init_page : page := Page None None true None.

(** [fetchData] awaits both responses, then the body of each. *)
Inductive msg : Type :=
| Poll
| Responses (o : exn + response metrics_summary * response performance_data)
| ReadMetrics (b : exn + metrics_summary) (perf : response performance_data)
| ReadPerf (b : exn + performance_data).

Inductive effect : Type :=
| FetchBoth
| NextMetrics (m : response metrics_summary) (perf : response performance_data)
| NextPerf (perf : response performance_data).

(** ** Fetching *)

Definition set_metrics (m : metrics_summary) (p : page) : page :=
  Page (Some m) p.(perfData) p.(loading) p.(error).
Definition set_perf (d : performance_data) (p : page) : page :=
  Page p.(metrics) (Some d) p.(loading) p.(error).
Definition set_error (e : option string) (p : page) : page :=
  Page p.(metrics) p.(perfData) p.(loading) e.
Definition set_loaded (p : page) : page := Page p.(metrics) p.(perfData) false p.(error).

(** The [catch] and [finally] that every part of [fetchData] ends in when it throws. *)
Definition guarded (m : M (page * list effect) unit) : M (page * list effect) unit :=
  catch m (fun e => on (set_error (Some (message_or "Failed to fetch metrics" e))) ;; on set_loaded).

Definition responses_settled (o : exn + response metrics_summary * response performance_data) :
    M (page * list effect) unit :=
  guarded
    (let* (metricsRes, perfRes) := await o in
     check_ok metricsRes ("Metrics: " +:+ dec (res_status metricsRes) +:+ " " +:+ res_statusText metricsRes) ;;
     emit (NextMetrics metricsRes perfRes)).

(** [setError(null)], and [finally] *)
Definition done_fetching : M (page * list effect) unit := on (set_error None) ;; on set_loaded.

Definition metrics_read (b : exn + metrics_summary) (perfRes : response performance_data) :
    M (page * list effect) unit :=
  guarded
    (let* m := await b in
     on (set_metrics m) ;;
     if res_ok perfRes then emit (NextPerf perfRes) else done_fetching).

Definition perf_read (b : exn + performance_data) : M (page * list effect) unit :=
  guarded (let* d := await b in on (set_perf d) ;; done_fetching).

Definition update (g : msg) (p : page) : page * list effect :=
  match g with
  | Poll => (p, [FetchBoth])
  | Responses o => handle (responses_settled o) p
  | ReadMetrics b perf => handle (metrics_read b perf) p
  | ReadPerf b => handle (perf_read b) p
  end.
Definition mount : page * list effect := (init_page, [FetchBoth]).
Definition run_messages (ms : list msg) (p : page) : page := foldl (fun p m => fst (update m p)) p ms.

(** ** View *)

(** [total > 0 ? Math.round((n / total) * 100) : 0] *)
Definition percent (n total : Z) : num :=
  if 0 <? total then round (mul (div (of_Z n) (of_Z total)) (of_Z 100)) else of_Z 0.

(** An entry of the chart library's tooltip payload *)
Record payload_entry : Type := PayloadEntry { pl_name : string; pl_value : num; pl_color : string }.

Section View.
Context `{MathLib}.
#[local] Abbreviation node := (node msg).

Definition UtilBar (label : string) (pct : num) (color : string) : node :=
  let barColor := if gtb pct (of_Z 80) then "bg-err" else if gtb pct (of_Z 60) then "bg-warn" else color in
  El "div" []
    [El "div" [cls "flex justify-between text-xs mb-1.5"]
       [El "span" [cls "text-txt-2"] [Txt label];
        El "span" [cls "text-txt-3 font-mono"] [Txt (to_string pct); Txt "%"]];
     El "div" [cls "w-full h-1.5 bg-surface-3 rounded-full overflow-hidden"]
       [El "div" [cls ("h-1.5 rounded-full " +:+ barColor +:+ " transition-all");
                  Attr "width" (to_string pct +:+ "%")] []]].

Definition DarkTooltip (active : bool) (payload : list payload_entry) (label : string) : list node :=
  if negb active || bool_decide (length payload = 0%nat) then [] else [
  El "div" [cls "bg-surface-3 border border-line-emphasis rounded-lg px-3 py-2 shadow-xl text-xs"]
    (El "p" [cls "text-txt-3 mb-1"] [Txt "#"; Txt label] ::
     map (fun p => 
       El "p" [Key (pl_name p); Attr "color" (pl_color p); cls "font-mono"]
         [Txt (pl_name p);
          Txt ": ";
          Txt (to_fixed 2 (pl_value p));
          Txt "s"]) payload ++
     [])].

Definition metric_cards (metrics : metrics_summary) : node :=
  El "div" [cls "grid grid-cols-2 md:grid-cols-3 lg:grid-cols-6 gap-3 mb-6"]
    [MetricCard "Total Runs" (dec metrics.(total_runs)) None None;
     MetricCard "Active Runs" (dec metrics.(ms_active_runs)) None (Some "text-brand-violet");
     MetricCard "Total Checkpoints" (dec metrics.(total_checkpoints)) None None;
     MetricCard "Checkpoint Size" (formatBytes (of_Z metrics.(total_checkpoint_bytes))) None None;
     MetricCard "Active Workers" (dec metrics.(ms_active_workers) +:+ " / " +:+ dec metrics.(total_workers)) None None;
     MetricCard "Success Rate" (to_fixed 1 (mul metrics.(checkpoint_success_rate) (of_Z 100)) +:+ "%") None (Some (if geb metrics.(checkpoint_success_rate) (lit 95 2) then "text-ok" else (if geb metrics.(checkpoint_success_rate) (lit 8 1) then "text-warn" else "text-err")))].

Definition latency_card (p : page) : node :=
  let latencyData := match p.(perfData) with Some d => d.(latency) | None => [] end in
  let hasLatencyData := 0 <? Z.of_nat (length latencyData) in
  El "div" [cls "card p-5 mb-6"]
    [El "h3" [cls "text-sm font-semibold text-txt-1 mb-4"] [Txt "Checkpoint Latency Over Time"];
     (if hasLatencyData then 
        El "Fragment" []
          [El "div" [cls "h-64"]
             [El "ResponsiveContainer" [Attr "width" "100%"; Attr "height" "100%"]
                [El "LineChart" [Attr "data" "{latencyData}"]
                   [El "CartesianGrid" [Attr "strokeDasharray" "3 3"; Attr "stroke" "#1e1e28"] [];
                    El "XAxis" [Attr "dataKey" "index"; Attr "tick" "{ fill: '#55556a', fontSize: 10 }";
                                Attr "stroke" "#1e1e28"] [];
                    El "YAxis" [Attr "tick" "{ fill: '#55556a', fontSize: 10 }"; Attr "stroke" "#1e1e28";
                                Attr "unit" "s"] [];
                    El "Tooltip" [Attr "content" "<DarkTooltip />"] [];
                    El "Line" [Attr "type" "monotone"; Attr "dataKey" "save"; Attr "name" "Save";
                               Attr "stroke" "#818cf8"; Attr "strokeWidth" "1.5"; Flag "dot" false] [];
                    El "Line" [Attr "type" "monotone"; Attr "dataKey" "restore"; Attr "name" "Restore";
                               Attr "stroke" "#34d399"; Attr "strokeWidth" "1.5"; Flag "dot" false] []]]];
           El "div" [cls "flex items-center gap-5 mt-3"]
             [El "span" [cls "flex items-center gap-1.5 text-2xs text-txt-3"]
                [El "span" [cls "w-3 h-0.5 bg-brand-blue inline-block rounded"] [];
                 Txt " Save Latency"];
              El "span" [cls "flex items-center gap-1.5 text-2xs text-txt-3"]
                [El "span" [cls "w-3 h-0.5 bg-ok inline-block rounded"] [];
                 Txt " Restore Latency"]]] else 
        El "div" [cls "h-64 flex items-center justify-center text-txt-3 text-sm"]
          [Txt "No checkpoint latency data yet. Trigger a checkpoint to see metrics."])].

Definition no_throughput : node :=
        El "div" [cls "h-24 flex items-center justify-center text-txt-3 text-sm"]
          [Txt "No throughput data yet. Complete a checkpoint cycle to see metrics."].

Definition throughput_card (p : page) : node :=
  El "div" [cls "card p-5 mb-6"]
    [El "h3" [cls "text-sm font-semibold text-txt-1 mb-4"] [Txt "Throughput"];
     match p.(perfData) with
             | Some perfData =>
                 if 0 <? perfData.(checkpoint_count) then
             El "div" [cls "grid grid-cols-2 gap-4"]
               [El "div" []
                  [El "p" [cls "text-2xs font-medium text-txt-3 uppercase tracking-wider"]
                     [Txt "Total Data Written"];
                   El "p" [cls "text-2xl font-semibold text-txt-1 mt-1 font-mono"]
                     [Txt (formatBytes (of_Z perfData.(pd_total_checkpoint_bytes)))]];
                El "div" []
                  [El "p" [cls "text-2xs font-medium text-txt-3 uppercase tracking-wider"]
                     [Txt "Checkpoints Completed"];
                   El "p" [cls "text-2xl font-semibold text-txt-1 mt-1 font-mono"]
                     [Txt (dec perfData.(checkpoint_count))]]]
                 else no_throughput
             | None => no_throughput
             end].

Definition external_links : node :=
  El "div" [cls "grid grid-cols-1 md:grid-cols-2 gap-3 mb-6"]
    [El "a" [Attr "href" "http://localhost:3001"; Attr "target" "_blank";
             Attr "rel" "noopener noreferrer";
             cls "card p-4 hover:border-brand-violet/30 transition-colors group cursor-pointer"]
       [El "div" [cls "flex items-center justify-between"]
          [El "div" []
             [El "h4" [cls "text-sm font-semibold text-txt-1 group-hover:text-brand-blue transition-colors"]
                [Txt "Grafana Dashboards"];
              El "p" [cls "text-2xs text-txt-3 mt-1"]
                [Txt "Full metrics dashboards with custom panels"]];
           El "svg" [cls "w-4 h-4 text-txt-3 group-hover:text-brand-violet transition-colors";
                     Attr "fill" "none"; Attr "viewBox" "0 0 24 24"; Attr "stroke" "currentColor"]
             [El "path" [Attr "strokeLinecap" "round"; Attr "strokeLinejoin" "round";
                         Attr "strokeWidth" "2";
                         Attr "d" "M10 6H6a2 2 0 00-2 2v10a2 2 0 002 2h10a2 2 0 002-2v-4M14 4h6m0 0v6m0-6L10 14"] []]];
        El "p" [cls "text-2xs text-txt-3 font-mono mt-2"] [Txt "localhost:3001"]];
     El "a" [Attr "href" "http://localhost:16686"; Attr "target" "_blank";
             Attr "rel" "noopener noreferrer";
             cls "card p-4 hover:border-brand-violet/30 transition-colors group cursor-pointer"]
       [El "div" [cls "flex items-center justify-between"]
          [El "div" []
             [El "h4" [cls "text-sm font-semibold text-txt-1 group-hover:text-brand-blue transition-colors"]
                [Txt "Jaeger Tracing"];
              El "p" [cls "text-2xs text-txt-3 mt-1"]
                [Txt "Distributed trace viewer for checkpoint operations"]];
           El "svg" [cls "w-4 h-4 text-txt-3 group-hover:text-brand-violet transition-colors";
                     Attr "fill" "none"; Attr "viewBox" "0 0 24 24"; Attr "stroke" "currentColor"]
             [El "path" [Attr "strokeLinecap" "round"; Attr "strokeLinejoin" "round";
                         Attr "strokeWidth" "2";
                         Attr "d" "M10 6H6a2 2 0 00-2 2v10a2 2 0 002 2h10a2 2 0 002-2v-4M14 4h6m0 0v6m0-6L10 14"] []]];
        El "p" [cls "text-2xs text-txt-3 font-mono mt-2"] [Txt "localhost:16686"]]].

Definition utilisation_card (p : page) : node :=
  El "div" [cls "card p-5"]
    [El "h3" [cls "text-sm font-semibold text-txt-1 mb-4"] [Txt "Resource Utilization"];
     match p.(metrics) with
             | Some metrics =>
           El "div" [cls "space-y-4"]
             [UtilBar "Workers Active" (percent metrics.(ms_active_workers) metrics.(total_workers)) "bg-brand-violet";
              UtilBar "Checkpoint Success" (round (mul metrics.(checkpoint_success_rate) (of_Z 100))) "bg-ok";
              UtilBar "Active Runs" (percent metrics.(ms_active_runs) metrics.(total_runs)) "bg-brand-violet"]
             | None =>
           El "div" [cls "text-txt-3 text-sm"] [Txt "No resource data available."]
             end].

Definition PerformancePage (p : page) : node :=
  if p.(loading) then Loading "Loading metrics..."
  else
  El "div" []
    (SectionHeader "Performance Metrics" (Some "Checkpoint save/restore throughput, latency, and resource utilization.") [] ::
     when_text p.(error) (fun error => ErrorBanner error) ++
     when_some p.(metrics) metric_cards ++
     latency_card p ::
     throughput_card p ::
     external_links ::
     utilisation_card p ::
     []).
End View.

(** ** History *)

Definition metrics_of (m : msg) : option metrics_summary :=
  match m with ReadMetrics (inr x) _ => Some x | _ => None end.
Definition perf_of (m : msg) : option performance_data :=
  match m with ReadPerf (inr d) => Some d | _ => None end.
(** The end of a refresh, with its error. *)
Definition refresh_end (m : msg) : option (option string) :=
  let failed e := Some (Some (message_or "Failed to fetch metrics" e)) in
  match m with
  | Responses (inl e) | ReadMetrics (inl e) _ | ReadPerf (inl e) => failed e
  | Responses (inr (r, _)) =>
      if res_ok r then None
      else failed (Error ("Metrics: " +:+ dec (res_status r) +:+ " " +:+ res_statusText r))
  | ReadMetrics (inr _) perf => if res_ok perf then None else Some None
  | ReadPerf (inr _) => Some None
  | Poll => None
  end.

Lemma performance_update_writes m p :
  fst (update m p) =
    Page (from_option Some p.(metrics) (metrics_of m)) (from_option Some p.(perfData) (perf_of m))
      (match refresh_end m with Some _ => false | None => p.(loading) end)
      (default p.(error) (refresh_end m)).
Proof.
  destruct p as [x d ld er].
  destruct m as [|[e|[r pr]]|[e|x'] pr|[e|d']]; try done; cbn [update refresh_end];
    unfold handle, run, responses_settled, metrics_read, guarded, catch, bind, await, check_ok.
  - by destruct (res_ok r).
  - cbn. by destruct (res_ok pr).
Qed.

(** After any history the page holds the metrics and the performance series last
    read. A series whose request is refused is no failure and keeps the one before; any
    other failure is shown until a refresh succeeds. *)
Theorem performance_page_history (ms : list msg) :
  let p := run_messages ms init_page in
  p.(metrics) = last (omap metrics_of ms) /\
  p.(perfData) = last (omap perf_of ms) /\
  p.(error) = default None (last (omap refresh_end ms)) /\
  p.(loading) = bool_decide (omap refresh_end ms = []).
Proof.
  unfold run_messages.
  pose proof (fun V get w H => last_write (V := V) (fun m p => fst (update m p)) get w H ms init_page) as L.
  cbv zeta. split_and!.
  - rewrite (L _ metrics (fun m => Some <$> metrics_of m)).
    + rewrite last_omap_map. by destruct (last (omap metrics_of ms)).
    + intros m s. rewrite performance_update_writes. by destruct (metrics_of m).
  - rewrite (L _ perfData (fun m => Some <$> perf_of m)).
    + rewrite last_omap_map. by destruct (last (omap perf_of ms)).
    + intros m s. rewrite performance_update_writes. by destruct (perf_of m).
  - rewrite (L _ error refresh_end); [done|]. intros m s. by rewrite performance_update_writes.
  - rewrite (L _ loading (fun m => (fun _ => false) <$> refresh_end m)).
    + rewrite last_omap_map. apply last_write_flag.
    + intros m s. rewrite performance_update_writes. by destruct (refresh_end m).
Qed.

(** ** Colors *)

Lemma red_bar_classes `{MathLib} label pct color :
  gtb pct (of_Z 80) = true ->
  classes (UtilBar label pct color) =
    ["flex justify-between text-xs mb-1.5"; "text-txt-2"; "text-txt-3 font-mono";
     "w-full h-1.5 bg-surface-3 rounded-full overflow-hidden"; "h-1.5 rounded-full bg-err transition-all"].
Proof. intros R. unfold UtilBar. rewrite R. reflexivity. Qed.

(** The bar of the success rate warns when it should not: at every rate from 95.0%
    to 100.0% the metric card is green and the bar below has the color of an error, not
    the green it is given. *)
Theorem success_bar_color `{MathLib} (p : page) (m : metrics_summary) (permille : Z)
    (Hp : 950 <= permille <= 1000) (Hm : p.(metrics) = Some m)
    (Hr : m.(checkpoint_success_rate) = lit permille 3) :
  let bar color := "h-1.5 rounded-full " +:+ color +:+ " transition-all" in
  "metric-value text-ok" ∈ classes (metric_cards m) /\
  exists pct, In (UtilBar "Checkpoint Success" pct "bg-ok")
      (match utilisation_card p with El _ _ [_; El _ _ bars] => bars | _ => [] end) /\
    bar "bg-err" ∈ classes (UtilBar "Checkpoint Success" pct "bg-ok") /\
    bar "bg-ok" ∉ classes (UtilBar "Checkpoint Success" pct "bg-ok").
Proof.
  intros bar.
  assert (T : forallb (fun n => let r := lit (950 + Z.of_nat n) 3 in
      geb r (lit 95 2) && gtb (round (mul r (of_Z 100))) (of_Z 80)) (seq 0 51) = true)
    by (vm_compute; reflexivity).
  rewrite forallb_forall in T. specialize (T (Z.to_nat (permille - 950))).
  rewrite Z2Nat.id in T by lia. replace (950 + (permille - 950)) with permille in T by lia.
  apply andb_prop in T as [T1 T2]; [|apply in_seq; lia]. rewrite <- Hr in T1, T2. split.
  - unfold metric_cards. rewrite T1. eapply class_in_child; [do 5 right; by left|].
    unfold MetricCard. eapply class_in_child; [right; by left|]. by left.
  - exists (round (mul m.(checkpoint_success_rate) (of_Z 100))). split_and!.
    + unfold utilisation_card. rewrite Hm. right. by left.
    + rewrite (red_bar_classes _ _ _ T2). apply (bool_decide_eq_true_1 _). vm_compute. reflexivity.
    + rewrite (red_bar_classes _ _ _ T2). apply (bool_decide_eq_true_1 _). vm_compute. reflexivity.
Qed.

Lemma success_bar_color_witness :
  let m := MetricsSummary 1 1 1 1024 2 2 (lit 1000 3) in
  m.(checkpoint_success_rate) = of_Z 1 /\ "metric-value text-ok" ∈ classes (metric_cards (H := reference_math) m).
Proof.
  intros m. assert (Hp : 950 <= 1000 <= 1000) by lia. split; [vm_compute; reflexivity|].
  exact (proj1 (success_bar_color (H := reference_math) (Page (Some m) None false None) m 1000 Hp eq_refl eq_refl)).
Defined.
