(* ===== verification/Panels.v ===== *)
(** * Small panels: containers, host, latest checkpoint, model and theme

    [frontend/src/components/ContainerStatus.tsx], [SystemInfo.tsx], [CheckpointProof.tsx],
    [TrainingInfo.tsx] and [ThemeToggle.tsx]. The first two show what [usePolling] last
    read ([Hooks]); the theme is a class of the document that the toggles write. *)

From S2P Require Import Prelude JsString JsNum Html Types Host Async Design Ui LogParser.

(** ** [ContainerStatus] *)
Record container_info : Type := ContainerInfo {
  ct_name : string; ct_image : string; ct_status : string; ct_state : string; ct_ports : string
}.

(** ** [SystemInfo] *)
Record system_data : Type := SystemData {
  sys_hostname : string; sys_os : string; sys_arch : string; sys_cpu : string; cpu_count : Z;
  memory_total : string; memory_available : string; sys_disk : string; sys_uptime : string;
  docker_version : string; container_count : Z; python_version : string
}.
Definition system_rows (data : system_data) : list (string * string) :=
  [("Hostname", data.(sys_hostname));
   ("OS", data.(sys_os));
   ("CPU", data.(sys_cpu) +:+ " (" +:+ dec data.(cpu_count) +:+ " cores)");
   ("Memory", data.(memory_total) +:+ " total");
   ("Disk", data.(sys_disk));
   ("Uptime", data.(sys_uptime));
   ("Docker", data.(docker_version));
   ("Containers", dec data.(container_count) +:+ " running")].

(** ** [TrainingInfo] *)
Definition layers : list (string * string) :=
  [("Input", "784");
   ("Hidden", "256");
   ("Hidden", "256");
   ("Hidden", "256");
   ("Output", "10")].
Definition stats : list (string * string) :=
  [("Parameters", "202K");
   ("Loss fn", "CrossEntropy");
   ("Optimizer", "Adam");
   ("Dataset", "1024 samples");
   ("Workers", "2 (DDP)");
   ("Ckpt interval", "50 steps")].

Section View.
Context {M : Type}.
#[local] Abbreviation node := (node M).

Definition container_row (c : container_info) : node :=
  let isRunning := (c.(ct_state) =? "running")%string in
  El "div" [Key (c.(ct_name)); cls "flex items-center gap-2 px-3.5 py-1.5 text-sm"]
    [El "div" [cls ("w-1.5 h-1.5 rounded-full flex-shrink-0 " +:+ (if isRunning then "bg-ok" else "bg-err"))] [];
     El "span" [cls "font-mono text-txt-2 truncate flex-1"] [Txt (c.(ct_name))];
     El "span" [cls ("text-xs " +:+ (if isRunning then "text-txt-3" else "text-err"))]
       [Txt (c.(ct_status))]].

(** [containers && containers.length > 0 ? rows : placeholder] *)
Definition container_rows (containers : option (list container_info)) : list node :=
  match containers with
  | Some (c :: cs) => map container_row (c :: cs)
  | _ =>
      [El "div" [cls "px-3 py-4 text-sm text-txt-3 text-center"]
         [Txt "Waiting for container data..."]]
  end.

Definition ContainerStatus (containers : option (list container_info)) : node :=
  El "div" [cls "card overflow-hidden"]
    [El "div" [cls "panel-header"]
       [El "span" [cls "panel-tag"] [Txt "docker ps"];
        El "h4" [cls "panel-title"] [Txt "Infrastructure"]];
     El "div" [cls "px-3.5 py-2 border-b border-line-subtle"]
       [El "p" [cls "text-xs text-txt-3 leading-relaxed"]
          [Txt "Live Docker containers on the server. When you kill a worker, watch its status change from";
           Txt " ";
           El "span" [cls "text-ok"] [Txt "running"];
           Txt " to ";
           El "span" [cls "text-err"] [Txt "exited"];
           Txt " and back."]];
     El "div" [cls "divide-y divide-line-subtle max-h-64 overflow-y-auto"]
       (container_rows containers)].

Definition SystemInfo_view (data : system_data) : node :=
      El "div" [cls "card overflow-hidden"]
        [El "div" [cls "panel-header"]
           [El "span" [cls "panel-tag"] [Txt "uname"];
            El "h4" [cls "panel-title"] [Txt "Host System"]];
         El "div" [cls "p-2.5 space-y-0.5 font-mono text-xs"]
           (map (fun row => 
              El "div" [Key (row.1); cls "flex gap-2"]
                [El "span" [cls "text-txt-3 w-[72px] flex-shrink-0 text-right"] [Txt (row.1)];
                 El "span" [cls "text-txt-2"] [Txt (row.2)]]) (system_rows data))].

Definition SystemInfo (data : option system_data) : node :=
  match data with
  | None =>
      El "div" [cls "card p-3"]
        [El "div" [cls "flex items-center gap-2 mb-2"]
           [El "span" [cls "panel-tag"] [Txt "uname"];
            El "h4" [cls "panel-title"] [Txt "Host System"]];
         El "p" [cls "text-xs text-txt-3 text-center py-2"] [Txt "Loading system info..."]]
  | Some data => SystemInfo_view data
  end.

Definition no_checkpoint : node :=
  El "div" [cls "px-3.5 py-4"]
    [El "p" [cls "text-sm text-txt-3 text-center"] [Txt "No checkpoints yet..."]].

Definition checkpoint_card `{MathLib} (latest : checkpoint_marker) : node :=
  El "AnimatePresence" [Attr "mode" "wait"]
    [El "motion.div" [Key (dec latest.(cm_step) +:+ "-" +:+ latest.(cm_sha256));
                      Attr "initial" "{ opacity: 0, y: 6 }"; Attr "animate" "{ opacity: 1, y: 0 }";
                      Attr "transition" "{ duration: 0.3 }"; cls "px-3.5 py-3 space-y-2.5"]
       [El "div" [cls "grid grid-cols-2 gap-x-4 gap-y-1.5 text-sm"]
          [El "div" [cls "flex justify-between"]
             [El "span" [cls "text-txt-3"] [Txt "Step"];
              El "span" [cls "font-mono font-semibold text-txt-1"] [Txt (dec latest.(cm_step))]];
           El "div" [cls "flex justify-between"]
             [El "span" [cls "text-txt-3"] [Txt "Loss"];
              El "span" [cls "font-mono font-semibold text-ok"]
                [Txt (to_fixed 4 latest.(cm_loss))]];
           El "div" [cls "flex justify-between"]
             [El "span" [cls "text-txt-3"] [Txt "Size"];
              El "span" [cls "font-mono text-txt-2"]
                [Txt (formatBytes (of_Z latest.(cm_sizeBytes)))]];
           El "div" [cls "flex justify-between"]
             [El "span" [cls "text-txt-3"] [Txt "Save time"];
              El "span" [cls "font-mono text-txt-2"]
                [Txt (to_fixed 2 latest.(cm_saveTime));
                 Txt "s"]]];
        El "div" [cls "bg-surface-2 rounded-md px-2.5 py-1.5"]
          [El "p" [cls "text-xs text-txt-3 mb-0.5"] [Txt "SHA-256"];
           El "p" [cls "font-mono text-xs text-txt-2 break-all"] [Txt (latest.(cm_sha256))]];
        El "p" [cls "text-xs text-txt-3 leading-relaxed"]
          [Txt "Contains 202K model parameters serialized as PyTorch tensors. The SHA-256 hash proves data integrity — if even one bit changed, the hash would be completely different."]]].

Definition CheckpointProof `{MathLib} (checkpointMarkers : list checkpoint_marker) : node :=
  El "div" [cls "card overflow-hidden"]
    [El "div" [cls "panel-header"]
       [El "span" [cls "panel-tag"] [Txt "proof"];
        El "h4" [cls "panel-title"] [Txt "Latest Checkpoint"]];
     match last checkpointMarkers with
             | None => no_checkpoint
             | Some latest => checkpoint_card latest
             end].

Definition layer_view (i : nat) (layer : string * string) : node :=
  El "div" [Key (dec (Z.of_nat i)); cls "flex items-center gap-1"]
    (El "div" [cls "flex flex-col items-center"]
       [El "div" [cls ("px-2 py-1 rounded-md text-xs font-mono font-semibold border " +:+ (if (bool_decide (i = 0%nat)) then "border-info/30 bg-info-muted text-info" else (if (bool_decide (i = (length layers - 1)%nat)) then "border-ok/30 bg-ok-muted text-ok" else "border-line bg-surface-2 text-txt-2")))]
          [Txt (layer.2)];
        El "span" [cls "text-2xs text-txt-3 mt-0.5"] [Txt (layer.1)]] ::
     when (bool_decide (i < length layers - 1)%nat) (
       El "svg" [cls "w-3 h-3 text-txt-3 flex-shrink-0 -mt-3"; Attr "fill" "none";
                 Attr "stroke" "currentColor"; Attr "viewBox" "0 0 24 24"]
         [El "path" [Attr "strokeLinecap" "round"; Attr "strokeLinejoin" "round"; Attr "strokeWidth" "2";
                     Attr "d" "M9 5l7 7-7 7"] []])).

Definition stat_view (stat : string * string) : node :=
  El "div" [Key (stat.1); cls "py-1"]
    [El "p" [cls "text-xs text-txt-3"] [Txt (stat.1)];
     El "p" [cls "text-sm font-semibold text-txt-1"] [Txt (stat.2)]].

Definition TrainingInfo : node :=
  El "div" [cls "card p-4"]
    [El "div" [cls "panel-header"]
       [El "span" [cls "panel-tag"] [Txt "model"];
        El "h4" [cls "panel-title"] [Txt "What's Training"]];
     El "div" [cls "mt-3 mb-3 flex items-center justify-center gap-1 overflow-x-auto"]
       (imap layer_view layers);
     El "div" [cls "grid grid-cols-3 gap-2 text-center"]
       (map stat_view stats);
     El "p" [cls "text-xs text-txt-3 mt-2 leading-relaxed"]
       [Txt "A real MLP neural network training on synthetic MNIST-like data using PyTorch Distributed Data Parallel across 2 CPU workers."]].
End View.

(** ** [ThemeToggle]

    The document's [dark] class and the stored theme are shared; every mounted toggle
    keeps its own [dark], read from the document when it mounts. *)
Record theme : Type := Theme { dark_class : bool; stored : option string; toggles : list bool }.

Inductive theme_msg : Type := Toggle.

(** The script in the head of [index.html] *)
Definition load_page (stored : option string) : theme :=
  Theme (bool_decide (stored = Some "dark")) stored [].

Definition mount_toggle (t : theme) : theme :=
  Theme t.(dark_class) t.(stored) (t.(toggles) ++ [t.(dark_class)]).
Definition unmount_toggle (i : nat) (t : theme) : theme :=
  Theme t.(dark_class) t.(stored) (delete i t.(toggles)).

(** [toggle] of the [i]-th mounted toggle *)
Definition toggle (i : nat) (t : theme) : theme :=
  match t.(toggles) !! i with
  | None => t
  | Some dark =>
      let next := negb dark in
      Theme next (Some (if next then "dark" else "light")) (<[i := next]> t.(toggles))
  end.

Inductive theme_event : Type := MountToggle | UnmountToggle (i : nat) | ClickToggle (i : nat).
Definition theme_step (e : theme_event) (t : theme) : theme :=
  match e with
  | MountToggle => mount_toggle t
  | UnmountToggle i => unmount_toggle i t
  | ClickToggle i => toggle i t
  end.
Definition theme_run (es : list theme_event) (t : theme) : theme := foldl (fun t e => theme_step e t) t es.

Definition ThemeToggle (dark : bool) : node theme_msg :=
  El "button" [OnClick Toggle;
               cls "flex items-center justify-center w-8 h-8 rounded-xl text-txt-2 hover:text-txt-1 hover:bg-surface-3 transition-all duration-200 cursor-pointer";
               Attr "title" (if dark then "Switch to light mode" else "Switch to dark mode");
               Attr "aria-label" (if dark then "Switch to light mode" else "Switch to dark mode")]
    [(if dark then 
        El "svg" [cls "w-4 h-4"; Attr "fill" "none"; Attr "stroke" "currentColor";
                  Attr "viewBox" "0 0 24 24"; Attr "strokeWidth" "2"; Attr "strokeLinecap" "round";
                  Attr "strokeLinejoin" "round"]
          [El "circle" [Attr "cx" "12"; Attr "cy" "12"; Attr "r" "5"] [];
           El "path" [Attr "d" "M12 1v2M12 21v2M4.22 4.22l1.42 1.42M18.36 18.36l1.42 1.42M1 12h2M21 12h2M4.22 19.78l1.42-1.42M18.36 5.64l1.42-1.42"] []] else 
        El "svg" [cls "w-4 h-4"; Attr "fill" "none"; Attr "stroke" "currentColor";
                  Attr "viewBox" "0 0 24 24"; Attr "strokeWidth" "2"; Attr "strokeLinecap" "round";
                  Attr "strokeLinejoin" "round"]
          [El "path" [Attr "d" "M21 12.79A9 9 0 1 1 11.21 3 7 7 0 0 0 21 12.79z"] []])].

(** ** Properties *)

(** The document and the stored theme agree. *)
Definition theme_saved (t : theme) : Prop := t.(dark_class) = bool_decide (t.(stored) = Some "dark").

Lemma theme_step_saved e t : theme_saved t -> theme_saved (theme_step e t).
Proof.
  intros S. destruct e as [| |i]; [exact S|exact S|]. cbn [theme_step]. unfold toggle.
  destruct (toggles t !! i) as [[]|]; [done|done|exact S].
Qed.

Lemma theme_run_saved es t : theme_saved t -> theme_saved (theme_run es t).
Proof.
  revert t. induction es as [|e es IH]; intros t S; [done|]. by apply IH, theme_step_saved.
Qed.

(** The theme survives a reload: whatever the toggles did, loading the page again
    gives the theme on display. A click on a toggle that shows the document's theme
    switches it; a toggle that was mounted before another one was clicked shows the old
    theme, and its next click leaves the document as it is. *)
Theorem theme_persists (st : option string) (es : list theme_event) :
  let t := theme_run es (load_page st) in
  (load_page t.(stored)).(dark_class) = t.(dark_class) /\
  (forall i, t.(toggles) !! i = Some t.(dark_class) ->
     (toggle i t).(dark_class) = negb t.(dark_class)) /\
  (forall i j, i <> j -> t.(toggles) !! i = Some t.(dark_class) -> t.(toggles) !! j = Some t.(dark_class) ->
     let t' := toggle j t in (toggle i t').(dark_class) = t'.(dark_class)).
Proof.
  intros t. pose proof (theme_run_saved es (load_page st) eq_refl) as S. fold t in S. split_and!.
  - by rewrite S.
  - intros i E. unfold toggle. by rewrite E.
  - intros i j N Ei Ej. cbv zeta. unfold toggle at 2 3. rewrite Ej. cbn [dark_class].
    unfold toggle. cbn [toggles]. by rewrite list_lookup_insert_ne, Ei.
Qed.

(** ** Views *)

(** What a checkpoint panel shows is the marker that was added last. *)
Lemma checkpoint_proof_latest `{MathLib} (ms : list checkpoint_marker) (m : checkpoint_marker) :
  CheckpointProof (M := unit) (ms ++ [m]) =
    El "div" [cls "card overflow-hidden"]
      [El "div" [cls "panel-header"]
         [El "span" [cls "panel-tag"] [Txt "proof"];
          El "h4" [cls "panel-title"] [Txt "Latest Checkpoint"]];
       checkpoint_card m].
Proof. unfold CheckpointProof. by rewrite last_snoc. Qed.

(** Containers are listed with distinct keys when their names are distinct. *)
Lemma container_keys (cs : list container_info) :
  NoDup (map ct_name cs) -> NoDup (sibling_keys (container_rows (M := unit) (Some cs))).
Proof.
  intros N. destruct cs as [|c cs]; [constructor|]. cbn [container_rows].
  by rewrite (sibling_keys_map _ ct_name).
Qed.

Lemma static_panel_keys (data : system_data) :
  keys_ok (SystemInfo_view (M := unit) data) /\ keys_ok (TrainingInfo (M := unit)).
Proof. split; apply keys_okb_ok; vm_compute; reflexivity. Qed.

Lemma theme_persists_witness :
  let t := theme_run [MountToggle; MountToggle] (load_page (Some "dark")) in
  let t' := toggle 1 t in
  (toggle 0 t).(dark_class) = negb t.(dark_class) /\ (toggle 0 t').(dark_class) = t'.(dark_class).
Proof.
  pose proof (theme_persists (Some "dark") [MountToggle; MountToggle]) as (_ & C & D).
  split; [apply C; reflexivity | apply (D 0%nat 1%nat); [discriminate | reflexivity | reflexivity]].
Defined.
