(* ===== verification/Visitors.v ===== *)
(** * Visitors and the activity feed

    [frontend/src/components/VisitorStats.tsx] and [ActivityFeed.tsx] with the endpoints
    they poll, [demo_visitor_ping] and [demo_activity_feed] of [api/rest.py]. A browser
    tab keeps its session identifier in [sessionStorage]; the server keeps the visitors it
    heard of lately and the feed. The country lookup of an address is an argument; times
    are the floating-point seconds of [time.time()]. *)

From S2P Require Import Prelude Dict JsString JsNum Html Async.

Record geo : Type := Geo { g_country : string; g_code : string; g_flag : string }.
Record country_info : Type := CountryInfo { country : string; country_code : string; flag : string; count : Z }.
Record activity_item : Type := ActivityItem { ai_message : string; ai_flag : string; timestamp : num }.
Record visitor_data : Type := VisitorData {
  session_id : string; total_visitors : Z; countries : list country_info; activity : list activity_item
}.

(** ** The endpoints *)
Module Server.

Record visitor : Type := Visitor { v_geo : geo; last_seen : num; v_ip : string }.
(** [_VISITORS] and [_ACTIVITY_FEED] *)
Record t : Type := Server { visitors : dict string visitor; feed : list activity_item }.

(** [insert(0, ...)], then [pop()] beyond 50 *)
Definition add_activity (message fl : string) (now : num) (s : t) : t :=
  let l := ActivityItem message fl now :: feed s in
  Server (visitors s) (if 50 <? Z.of_nat (length l) then removelast l else l).

Definition fresh (now : num) (v : visitor) : bool := negb (gtb (sub now (last_seen v)) (of_Z 45)).
Definition clean_stale_visitors (now : num) (s : t) : t :=
  Server (filter (fun e => fresh now e.2 = true) (visitors s)) (feed s).

(** [v["country_code"] or "XX"] *)
Definition code_of (v : visitor) : string :=
  if String.eqb (g_code (v_geo v)) "" then "XX" else g_code (v_geo v).
(** A country's entry is made from its first visitor and counts all of them. *)
Definition country_entry (g : string * list visitor) : country_info :=
  match g.2 with
  | v :: _ => CountryInfo (g_country (v_geo v)) g.1 (g_flag (v_geo v)) (Z.of_nat (length g.2))
  | [] => CountryInfo "" g.1 "" 0
  end.
Definition country_counts (vs : list visitor) : list country_info :=
  stable_sort (fun a b => count a <? count b) (map country_entry (group_by code_of vs)).

(** [uuid] is the identifier made up for a request without one. *)
Definition demo_visitor_ping (session uuid : string) (g : geo) (ip : string) (now : num) (s : t) : visitor_data * t :=
  let sid := if String.eqb session "" then uuid else session in
  let is_new := negb (map_has sid (visitors s)) in
  let s := Server (map_set sid (Visitor g now ip) (visitors s)) (feed s) in
  let s := if is_new
           then add_activity ("Someone from " +:+ g_country g +:+ " is watching the demo") (g_flag g) now s else s in
  let s := clean_stale_visitors now s in
  (VisitorData sid (Z.of_nat (length (visitors s))) (country_counts (map snd (visitors s))) (take 20 (feed s)), s).

Definition demo_activity_feed (now : num) (s : t) : list activity_item * t :=
  let s := clean_stale_visitors now s in (take 20 (feed s), s).
End Server.

(** ** [VisitorStats] *)
Module Stats.

(** The component with the tab's [sessionStorage] entry *)
Record t : Type := Stats { data : option visitor_data; session : string; storage : option string }.

(** [getSessionId]: an absent or empty entry is replaced. *)
Definition getSessionId (storage : option string) (uuid : string) : string * option string :=
  match storage with
  | Some id => if String.eqb id "" then (uuid, Some uuid) else (id, storage)
  | None => (uuid, Some uuid)
  end.

(** The ref keeps its first value. *)
Definition mount (storage : option string) (uuid : string) : t :=
  let '(id, storage) := getSessionId storage uuid in Stats None id storage.

(** [ping] from its [await fetch] on *)
Definition ping (o : outcome visitor_data) : M t unit :=
  catch
    (let* res := await o in
     if res_ok res then
       let* d := await (res_json res) in
       modify (fun s => Stats (Some d) (session_id d) (Some (session_id d)))
     else ret tt)
    (fun _ => ret tt).
End Stats.

(** ** [ActivityFeed] *)
Module Feed.

Definition poll (o : outcome (list activity_item)) : M (list activity_item) unit :=
  catch
    (let* res := await o in
     if res_ok res then let* items := await (res_json res) in modify (fun _ => items) else ret tt)
    (fun _ => ret tt).

(** [now] is [Date.now()], in milliseconds. *)
Definition timeAgo (now ts : num) : string :=
  let seconds := floor (sub (div now (of_Z 1000)) ts) in
  if ltb seconds (of_Z 5) then "just now"
  else if ltb seconds (of_Z 60) then to_string seconds +:+ "s ago"
  else if ltb seconds (of_Z 3600) then to_string (floor (div seconds (of_Z 60))) +:+ "m ago"
  else to_string (floor (div seconds (of_Z 3600))) +:+ "h ago".
End Feed.

Section Views.
Context {M : Type}.
#[local] Abbreviation node := (node M).

Definition country_badge (c : country_info) : node :=
  El "span" [Key (country_code c);
             cls "inline-flex items-center gap-1 px-1.5 py-0.5 bg-surface-3 rounded text-xs text-txt-2";
             Attr "title" (country c +:+ ": " +:+ dec (count c))]
    (El "span" [cls "text-sm"] [Txt (flag c)] ::
     when (1 <? count c) (El "span" [cls "text-xs text-txt-3"] [Txt (dec (count c))])).

Definition VisitorStats_view (d : visitor_data) : node :=
  El "div" [cls "card overflow-hidden"]
    (El "div" [cls "panel-header"]
       [El "span" [cls "panel-tag"] [Txt "live"];
        El "h4" [cls "panel-title"] [Txt "Watching Now"];
        El "span" [cls "ml-auto flex items-center gap-1.5"]
          [El "span" [cls "w-1.5 h-1.5 rounded-full bg-ok animate-pulse"] [];
           El "span" [cls "text-sm font-mono font-semibold text-txt-1"] [Txt (dec (total_visitors d))]]] ::
     when (negb (bool_decide (countries d = [])))
       (El "div" [cls "px-3 py-2 flex flex-wrap gap-1.5"] (map country_badge (countries d)))).

(** Nothing is shown before the first answer. *)
Definition VisitorStats (s : Stats.t) : list node := when_some (Stats.data s) VisitorStats_view.

Definition activity_row (now : num) (i : nat) (item : activity_item) : node :=
  El "div" [Key (to_string (timestamp item) +:+ "-" +:+ dec (Z.of_nat i));
            cls "flex items-start gap-2 px-3.5 py-2 text-xs"]
    [El "span" [cls "text-sm flex-shrink-0 mt-px"] [Txt (ai_flag item)];
     El "span" [cls "text-txt-2 flex-1"] [Txt (ai_message item)];
     El "span" [cls "text-xs text-txt-3 flex-shrink-0 whitespace-nowrap"] [Txt (Feed.timeAgo now (timestamp item))]].

Definition activity_rows (now : num) (items : list activity_item) : node :=
  match items with
  | [] => El "div" [cls "px-3 py-4 text-sm text-txt-3 text-center"] [Txt "No activity yet..."]
  | _ :: _ => El "div" [cls "divide-y divide-line-subtle"] (imap (activity_row now) (take 15 items))
  end.

Definition ActivityFeed (now : num) (items : list activity_item) : node :=
  El "div" [cls "card overflow-hidden"]
    [El "div" [cls "panel-header"]
       [El "span" [cls "panel-tag"] [Txt "feed"];
        El "h4" [cls "panel-title"] [Txt "Activity"]];
     El "div" [cls "px-3.5 py-2 border-b border-line-subtle"]
       [El "p" [cls "text-xs text-txt-3 leading-relaxed"]
          [Txt "Recent visitor activity and kill events from people using this demo around the world."]];
     El "div" [cls "max-h-48 overflow-y-auto"] [activity_rows now items]].
End Views.

Lemma activity_keys (now : num) (items : list activity_item) : keys_ok (ActivityFeed (M := unit) now items).
Proof.
  unfold ActivityFeed. rewrite !keys_ok_el. split; [constructor|].
  apply Forall_cons. split; [by apply keys_okb_ok|]. apply Forall_cons. split; [by apply keys_okb_ok|].
  apply Forall_singleton. rewrite keys_ok_el. split; [destruct items; constructor|]. apply Forall_singleton.
  destruct items as [|x items]; [by apply keys_okb_ok|]. unfold activity_rows. rewrite keys_ok_el. split.
  - apply (sibling_keys_indexed _ (fun i a => to_string (timestamp a) +:+ "-" +:+ dec (Z.of_nat i))); [done|].
    intros i j a b E. apply dash_dec_inj in E; lia.
  - generalize (take 15 (x :: items)). intros l. unfold activity_row. apply Forall_forall. intros r Hr.
    apply elem_of_lookup_imap in Hr as (i & a & -> & _). by apply keys_okb_ok.
Qed.

(** ** The server over time *)
Import Server.

Inductive op : Type :=
| Ping (session uuid : string) (g : geo) (ip : string) (now : num)
| Poll (now : num)
| Post (message fl : string) (now : num).

Definition op_time (o : op) : num := match o with Ping _ _ _ _ n | Poll n | Post _ _ n => n end.
Definition step (s : Server.t) (o : op) : Server.t :=
  match o with
  | Ping session uuid g ip now => snd (demo_visitor_ping session uuid g ip now s)
  | Poll now => snd (demo_activity_feed now s)
  | Post m fl now => add_activity m fl now s
  end.
Definition run (ops : list op) (s : Server.t) : Server.t := foldl step s ops.

(** The session a ping is counted for, and whether it is announced *)
Definition op_session (o : op) : option string :=
  match o with Ping session uuid _ _ _ => Some (if String.eqb session "" then uuid else session) | _ => None end.
Definition announced (s : Server.t) (o : op) : bool :=
  match op_session o with Some sid => negb (map_has sid (visitors s)) | None => false end.

(** The item an operation posts *)
Definition posts (s : Server.t) (o : op) : option activity_item :=
  match o with
  | Ping _ _ g _ now =>
      if announced s o
      then Some (ActivityItem ("Someone from " +:+ g_country g +:+ " is watching the demo") (g_flag g) now) else None
  | Poll _ => None
  | Post m fl now => Some (ActivityItem m fl now)
  end.
Fixpoint posted (ops : list op) (s : Server.t) : list activity_item :=
  match ops with [] => [] | o :: ops => option_list (posts s o) ++ posted ops (step s o) end.

(** ** The feed *)

Lemma removelast_take {A} (l : list A) : removelast l = take (length l - 1) l.
Proof.
  induction l as [|x l IH]; [done|]. destruct l as [|y l]; [done|].
  change (removelast (x :: y :: l)) with (x :: removelast (y :: l)). rewrite IH. cbn [length].
  by replace (S (S (length l)) - 1)%nat with (S (S (length l) - 1)) by lia.
Qed.

Lemma add_activity_feed m fl now s : (length (feed s) <= 50)%nat ->
  feed (add_activity m fl now s) = take 50 (ActivityItem m fl now :: feed s).
Proof.
  intros H. unfold add_activity. cbn [feed length]. destruct (50 <? _) eqn:E; bool_hyps.
  - rewrite removelast_take. cbn [length]. f_equal. lia.
  - rewrite take_ge; [done|]. cbn [length]. lia.
Qed.

Lemma step_feed s o : (length (feed s) <= 50)%nat ->
  feed (step s o) = take 50 (option_list (posts s o) ++ feed s).
Proof.
  intros H. assert (E : take 50 (feed s) = feed s) by (apply take_ge; lia).
  destruct o as [session uuid g ip now|now|m fl now]; cbn [step posts announced op_session].
  - unfold demo_visitor_ping, clean_stale_visitors. cbn [snd feed].
    set (sid := if String.eqb session "" then uuid else session). destruct (negb (map_has sid (visitors s))).
    + by rewrite add_activity_feed.
    + exact (eq_sym E).
  - exact (eq_sym E).
  - by apply add_activity_feed.
Qed.

Lemma take_app_take {A} n (l k : list A) : take n (l ++ take n k) = take n (l ++ k).
Proof. rewrite !take_app, take_take. f_equal. f_equal. lia. Qed.

(** the feed is the last fifty items posted, the newest first, whatever the
    visitors do in between; what the panel lists after a poll is the newest fifteen of
    them, each row with a key of its own. *)
Theorem activity_newest_first (ops : list op) (s : Server.t) (now now' : num) :
  (length (feed s) <= 50)%nat ->
  feed (run ops s) = take 50 (rev (posted ops s) ++ feed s) /\
  let items := fst (demo_activity_feed now (run ops s)) in
  take 15 items = take 15 (rev (posted ops s) ++ feed s) /\
  keys_ok (ActivityFeed (M := unit) now' items).
Proof.
  intros H.
  assert (F : feed (run ops s) = take 50 (rev (posted ops s) ++ feed s)).
  { revert s H. induction ops as [|o ops IH]; intros s H; [symmetry; by apply take_ge|].
    cbn [run foldl posted]. pose proof (step_feed s o H) as E. fold (run ops (step s o)).
    rewrite IH by (rewrite E, length_take; lia). rewrite E, take_app_take, rev_app_distr, <- app_assoc.
    do 2 f_equal. by destruct (posts s o). }
  split; [done|]. cbn [demo_activity_feed fst clean_stale_visitors feed]. rewrite F, !take_take.
  split; [f_equal; lia|]. apply activity_keys.
Qed.

(** ** The counts *)

Definition total_count (cs : list country_info) : Z := foldr (fun c n => count c + n) 0 cs.

Lemma total_count_perm cs cs' : cs ≡ₚ cs' -> total_count cs = total_count cs'.
Proof. unfold total_count. intros P. induction P; cbn [foldr]; lia. Qed.

Lemma country_entry_code g : country_code (country_entry g) = g.1.
Proof. unfold country_entry. by destruct g.2. Qed.

Lemma country_total vs : total_count (country_counts vs) = Z.of_nat (length vs).
Proof.
  unfold country_counts. rewrite (total_count_perm _ _ (stable_sort_perm _ _)).
  rewrite <- (group_by_perm code_of vs) at 2. induction (group_by code_of vs) as [|g d IH]; [done|].
  change ((g :: d) ≫= snd) with (g.2 ++ (d ≫= snd)). rewrite length_app. cbn [map total_count foldr].
  unfold total_count in IH. rewrite IH. unfold country_entry. destruct g as [k [|v vs']]; cbn; lia.
Qed.

Lemma country_codes vs : NoDup (map country_code (country_counts vs)).
Proof.
  unfold country_counts. rewrite stable_sort_perm, map_map.
  erewrite map_ext; [apply group_by_nodup|]. intros g. apply country_entry_code.
Qed.

Lemma country_elem vs c : c ∈ country_counts vs ->
  count c = Z.of_nat (length (filter (fun v => code_of v = country_code c) vs)) /\ 0 < count c.
Proof.
  unfold country_counts. rewrite stable_sort_perm. intros ([k g] & -> & I)%list_elem_of_fmap.
  rewrite country_entry_code. cbn [fst]. apply group_by_elem in I as [-> N].
  unfold country_entry. cbn [snd]. destruct (filter _ vs) as [|v l]; [done|]. cbn. lia.
Qed.

Lemma country_sorted vs : StronglySorted (fun a b => count b <= count a) (country_counts vs).
Proof.
  apply (stable_sort_spec _ count (fun _ => True) (fun a b _ _ => eq_refl) _ 0). by apply Forall_true.
Qed.

Lemma visitor_stats_keys d :
  NoDup (map country_code (countries d)) -> keys_ok (VisitorStats_view (M := unit) d).
Proof.
  intros N. unfold VisitorStats_view. rewrite keys_ok_el. split.
  { unfold when. by case_bool_decide; repeat constructor. }
  apply Forall_cons. split; [by apply keys_okb_ok|]. unfold when. case_bool_decide; [constructor|].
  apply Forall_singleton. rewrite keys_ok_el. rewrite (sibling_keys_map _ country_code) by done. split; [done|].
  apply Forall_forall. intros n (c & -> & _)%list_elem_of_fmap. apply keys_okb_ok. unfold country_badge, when.
  by destruct (1 <? count c).
Qed.

(** every answer to a ping is consistent: it names the session of the request, the
    counts of the countries add up to the number of visitors, each country appears once
    with the number of its visitors, which is positive, the most visited first; the panel
    that shows it has distinct keys. *)
Theorem visitor_counts session uuid g ip now s :
  let '(d, s') := demo_visitor_ping session uuid g ip now s in
  session_id d = (if String.eqb session "" then uuid else session) /\
  total_visitors d = Z.of_nat (length (visitors s')) /\
  total_count (countries d) = total_visitors d /\
  NoDup (map country_code (countries d)) /\
  Forall (fun c => 0 < count c /\
            count c = Z.of_nat (length (filter (fun v => code_of v = country_code c) (map snd (visitors s')))))
    (countries d) /\
  StronglySorted (fun a b => count b <= count a) (countries d) /\
  keys_ok (VisitorStats_view (M := unit) d).
Proof.
  unfold demo_visitor_ping. cbn zeta. set (s' := clean_stale_visitors now _). cbn [session_id total_visitors countries].
  split_and!; [done|done| | | | |].
  - by rewrite country_total, length_map.
  - apply country_codes.
  - apply Forall_forall. intros c Hc. apply country_elem in Hc as [-> ?]. done.
  - apply country_sorted.
  - apply visitor_stats_keys, country_codes.
Qed.

(** ** One visitor per tab *)

(** A visitor seen at [t] is not stale at [t']. *)
Definition close (t t' : num) : Prop := gtb (sub t' t) (of_Z 45) = false.

(** How often the session is announced *)
Fixpoint joins (sid : string) (ops : list op) (s : Server.t) : nat :=
  match ops with
  | [] => 0
  | o :: ops =>
      (if bool_decide (op_session o = Some sid) && announced s o then 1 else 0) + joins sid ops (step s o)
  end.

(** The session is tracked since one of the times [ts]. *)
Definition present (ts : list num) (sid : string) (s : Server.t) : Prop :=
  exists v, map_get sid (visitors s) = Some v /\ last_seen v ∈ ts.

Lemma clean_get now sid s v : NoDup (map fst (visitors s)) ->
  map_get sid (visitors s) = Some v -> fresh now v = true ->
  map_get sid (visitors (clean_stale_visitors now s)) = Some v.
Proof.
  intros N G F. cbn. apply elem_map_get.
  - clear G. induction (visitors s) as [|e l IH]; [constructor|]. cbn [map] in N. apply NoDup_cons in N as [Ne N].
    rewrite filter_cons. case_decide; [|by apply IH]. cbn [map]. apply NoDup_cons. split; [|by apply IH].
    intros I. apply Ne. apply list_elem_of_fmap in I as (x & -> & I%list_elem_of_filter). apply list_elem_of_fmap. exists x. tauto.
  - apply list_elem_of_filter. split; [done|]. by apply map_get_elem.
Qed.

Lemma clean_nodup now s : NoDup (map fst (visitors s)) -> NoDup (map fst (visitors (clean_stale_visitors now s))).
Proof.
  intros N. cbn. induction (visitors s) as [|e l IH]; [constructor|]. cbn [map] in N. apply NoDup_cons in N as [Ne N].
  rewrite filter_cons. case_decide; [|by apply IH]. cbn [map]. apply NoDup_cons. split; [|by apply IH].
  intros I. apply Ne. apply list_elem_of_fmap in I as (x & -> & I%list_elem_of_filter). apply list_elem_of_fmap. exists x. tauto.
Qed.

(** The visitors a ping leaves before the stale ones are removed *)
Lemma ping_visitors session uuid g ip now s :
  let sid := if String.eqb session "" then uuid else session in
  visitors (step s (Ping session uuid g ip now)) =
  filter (fun e => fresh now e.2 = true) (map_set sid (Visitor g now ip) (visitors s)).
Proof. cbn [step]. unfold demo_visitor_ping. cbn zeta. by destruct (negb _). Qed.

Lemma step_nodup s o : NoDup (map fst (visitors s)) -> NoDup (map fst (visitors (step s o))).
Proof.
  intros N. destruct o as [session uuid g ip now|now|m fl now].
  - rewrite ping_visitors. apply (clean_nodup now (Server (map_set _ (Visitor g now ip) (visitors s)) [])).
    by apply map_set_nodup.
  - by apply (clean_nodup now).
  - done.
Qed.

Lemma fresh_close now v : close (last_seen v) now -> fresh now v = true.
Proof. unfold close, fresh. by intros ->. Qed.

Lemma step_present ts sid s o :
  NoDup (map fst (visitors s)) -> Forall (fun t => close t (op_time o)) (op_time o :: ts) ->
  present ts sid s \/ op_session o = Some sid -> present (op_time o :: ts) sid (step s o).
Proof.
  intros N F H. pose proof F as F'. rewrite Forall_forall in F'. destruct o as [session uuid g ip now|now|m fl now].
  - set (id := if String.eqb session "" then uuid else session). cbn [op_time op_session] in *. fold id in H.
    assert (P : exists v, map_get sid (map_set id (Visitor g now ip) (visitors s)) = Some v /\ last_seen v ∈ now :: ts).
    { rewrite map_get_set. destruct (decide (id = sid)) as [->|Hid].
      - eexists. split; [done|by left].
      - destruct H as [(v & G & T)|[= ?]]; [|done]. exists v. split; [done|by right]. }
    destruct P as (v & G & T). exists v. split; [|done]. rewrite ping_visitors. fold id.
    apply (clean_get now sid (Server (map_set id (Visitor g now ip) (visitors s)) [])); [by apply map_set_nodup|done|].
    by apply fresh_close, F'.
  - destruct H as [(v & G & T)|]; [|done]. exists v. split; [|by right]. apply clean_get; [done|done|].
    apply fresh_close, F'. by right.
  - destruct H as [(v & G & T)|]; [|done]. exists v. split; [done|by right].
Qed.

Lemma joins_present sid ops s ts :
  NoDup (map fst (visitors s)) -> present ts sid s ->
  (forall t t', t ∈ ts ++ map op_time ops -> t' ∈ map op_time ops -> close t t') ->
  joins sid ops s = 0%nat.
Proof.
  revert s ts. induction ops as [|o ops IH]; intros s ts N P C; [done|]. cbn [joins].
  replace (bool_decide (op_session o = Some sid) && announced s o) with false.
  - apply (IH _ (op_time o :: ts)); [by apply step_nodup| |].
    + apply step_present; [done| |by left]. apply Forall_forall. intros t Ht. apply C; [|by left].
      apply elem_of_app. apply elem_of_cons in Ht as [->|Ht]; [right; by left|by left].
    + intros t t' Ht Ht'. apply C; [|by right]. cbn [map app] in Ht |- *.
      rewrite elem_of_app. rewrite elem_of_cons, elem_of_app in Ht. rewrite elem_of_cons. tauto.
  - case_bool_decide as E; [|done]. unfold announced. rewrite E. destruct P as (v & G & _).
    unfold map_has. by rewrite G.
Qed.

(** a tab is announced at most once. In a history in which no two operations are
    more than 45 seconds apart, a session is announced by at most one of its pings,
    however many it sends and whatever the other visitors do, and by none if it was
    tracked from the start. *)
Theorem visitor_joins_once sid ops s :
  NoDup (map fst (visitors s)) ->
  (forall t t', t ∈ map op_time ops -> t' ∈ map op_time ops -> close t t') ->
  (joins sid ops s <= 1)%nat.
Proof.
  revert s. induction ops as [|o ops IH]; intros s N C; [cbn; lia|]. cbn [joins].
  assert (C' : forall t t', t ∈ map op_time ops -> t' ∈ map op_time ops -> close t t').
  { intros t t' Ht Ht'. apply C; by right. }
  case_bool_decide as E; cbn [andb].
  - rewrite (joins_present sid ops (step s o) [op_time o]).
    + by destruct (announced s o); cbn; lia.
    + by apply step_nodup.
    + apply step_present; [done| |by right]. apply Forall_singleton. apply C; by left.
    + intros t t' Ht Ht'. apply C; [|by right]. cbn [app] in Ht. by apply elem_of_cons in Ht as [->|Ht]; [left|right].
  - by apply IH; [apply step_nodup|].
Qed.

(** ** The panel *)

(** The answers that arrived *)
Definition answers {A} (os : list (outcome A)) : list A :=
  omap (fun o => match o with inr r => if res_ok r then match res_json r with inr d => Some d | inl _ => None end else None
                 | inl _ => None end) os.

Lemma ping_settles (o : outcome visitor_data) s :
  Async.run (Stats.ping o) s =
  match answers [o] with [d] => Stats.Stats (Some d) (session_id d) (Some (session_id d)) | _ => s end.
Proof.
  unfold Async.run, Stats.ping, catch, bind, await. destruct o as [e|r]; [done|]. cbn.
  destruct (res_ok r); [|done]. by destruct (res_json r).
Qed.

(** the panel shows the last answer that arrived, and nothing before the first; a
    failed ping changes nothing. The session it pings with is always the one in
    [sessionStorage], so that a reload of the tab goes on with the same session. *)
Theorem visitor_panel_history (os : list (outcome visitor_data)) (storage : option string) (uuid : string) :
  uuid <> "" -> Forall (fun d => session_id d <> "") (answers os) ->
  let s := foldl (fun s o => Async.run (Stats.ping o) s) (Stats.mount storage uuid) os in
  Stats.data s = last (answers os) /\
  Stats.storage s = Some (Stats.session s) /\
  (forall uuid', Stats.session (Stats.mount (Stats.storage s) uuid') = Stats.session s).
Proof.
  intros Hu F.
  enough (H : let s := foldl (fun s o => Async.run (Stats.ping o) s) (Stats.mount storage uuid) os in
    Stats.data s = last (answers os) /\ Stats.storage s = Some (Stats.session s) /\ Stats.session s <> "").
  { cbn zeta in *. destruct H as (D & S & Ne). split_and!; [done|done|]. intros uuid'. rewrite S.
    unfold Stats.mount at 1, Stats.getSessionId. apply String.eqb_neq in Ne. by rewrite Ne. }
  induction os as [|o os IH] using rev_ind.
  - cbn. unfold Stats.mount, Stats.getSessionId. destruct storage as [id|]; [|done].
    destruct (String.eqb_spec id ""); done.
  - cbn zeta in *. rewrite foldl_app. cbn [foldl]. rewrite ping_settles.
    assert (E : answers (os ++ [o]) = answers os ++ answers [o]) by (unfold answers; by rewrite omap_app).
    rewrite E in F |- *. apply Forall_app in F as [F1 F2]. destruct (IH F1) as (D & S & Ne).
    destruct (answers [o]) as [|d [|d' l]] eqn:A.
    + by rewrite app_nil_r.
    + rewrite last_snoc. split_and!; [done|done|]. apply Forall_cons in F2 as [F2 _]. exact F2.
    + exfalso. unfold answers in A. destruct o as [e|r]; [discriminate A|]. cbn in A.
      destruct (res_ok r), (res_json r); discriminate A.
Qed.

(** ** At a concrete input *)

Definition sample_ops : list op :=
  [Ping "" "s1" (Geo "Spain" "ES" "es") "a" (of_Z 100); Post "Worker killed" "es" (of_Z 104);
   Ping "s2" "" (Geo "Local" "" "pc") "b" (of_Z 106); Ping "s1" "" (Geo "Spain" "ES" "es") "a" (of_Z 115); Poll (of_Z 116)].

Lemma activity_newest_first_witness :
  map ai_message (feed (run sample_ops (Server [] []))) =
    ["Someone from Local is watching the demo"; "Worker killed"; "Someone from Spain is watching the demo"] /\
  feed (run sample_ops (Server [] [])) = take 50 (rev (posted sample_ops (Server [] [])) ++ []).
Proof.
  split; [vm_compute; reflexivity|].
  exact (proj1 (activity_newest_first sample_ops (Server [] []) (of_Z 116) (of_Z 116000) ltac:(cbn; lia))).
Defined.

Lemma visitor_joins_once_witness : joins "s1" sample_ops (Server [] []) = 1%nat /\ (joins "s1" sample_ops (Server [] []) <= 1)%nat.
Proof.
  split; [vm_compute; reflexivity|]. apply visitor_joins_once; [constructor|].
  assert (T : forallb (fun t => forallb (fun t' => negb (gtb (sub t' t) (of_Z 45))) (map op_time sample_ops))
                (map op_time sample_ops) = true) by (vm_compute; reflexivity).
  intros t t' Ht Ht'. rewrite forallb_forall in T. apply list_elem_of_In in Ht, Ht'. specialize (T t Ht).
  rewrite forallb_forall in T. specialize (T t' Ht'). unfold close. by destruct (gtb _ _).
Defined.

Lemma visitor_panel_history_witness :
  let os := [inl NotAnError; inr (Response 200 "OK" (inr (VisitorData "s9" 1 [] []))); inr (Response 502 "" (inl NotAnError))] in
  let s := foldl (fun s o => Async.run (Stats.ping o) s) (Stats.mount None "s9") os in
  Stats.data s = Some (VisitorData "s9" 1 [] []) /\ Stats.storage s = Some "s9".
Proof.
  pose proof (visitor_panel_history [inl NotAnError; inr (Response 200 "OK" (inr (VisitorData "s9" 1 [] [])));
    inr (Response 502 "" (inl NotAnError))] None "s9" ltac:(discriminate) ltac:(repeat constructor; discriminate)) as (D & S & _).
  split; [exact D|exact S].
Defined.
