(* ===== verification/Kill.v ===== *)
(** * The kill of the demonstration: [demo_kill_worker] of [api/rest.py]

    The endpoint behind the console's kill buttons, from the name of a container to the
    reply, over the control plane and the activity feed. What it does to the control plane
    is [Recovery.demo_kill], a step of its histories; here are the commands to docker and
    their failures, the feed, and how the kill composes with the trainer that comes back and
    with the checkpoint that was being written. The results of docker, the supervised run,
    the runs as the coordinator lists them and the country of the caller are arguments. *)

From Stdlib Require Import Ascii.
From stdpp Require Import sorting.
From S2P Require Import Prelude Dict JsString JsNum Types ControlPlane Heartbeat Workers Recovery Checkpointing ObjectStorage ShardWriter DataPlane DataPlaneProps Transfer Trainer TrainerProps Visitors.

Import Coordinator.

(** ** The endpoint *)

Definition ALLOWED_CONTAINERS : list string := ["ckpt-worker-0"; "ckpt-worker-1"].

(** [subprocess.run]: an exit status with the two outputs, a [FileNotFoundError] or a
    [TimeoutExpired] *)
Inductive ran : Type := Exited (returncode : Z) (stdout stderr : string) | NotFound | Expired.
Record command : Type := Docker { verb : string; container : string }.

(** [str.strip] on ASCII *)
Definition blank (c : chr) : bool := let k := code c in ((9 <=? k) && (k <=? 13)) || ((28 <=? k) && (k <=? 32)).
Definition strip (s : string) : string := of_units (reverse (drop_while blank (reverse (drop_while blank (units s))))).

(** The control plane, the feed, the commands that were run and the tasks that sleep: each
    restarts its containers after five seconds *)
Record site : Type := Site { control : plane; activity : Server.t; issued : list command; tasks : list (list command) }.
Inductive kill_reply : Type := HTTPException (status : Z) | Killed (killed : string) (success : bool) (output : string).

Definition run_docker (verb name : string) (w : site) : site :=
  Site w.(control) w.(activity) (w.(issued) ++ [Docker verb name]) w.(tasks).
Definition other_worker (name : string) : string := if String.eqb name "ckpt-worker-0" then "ckpt-worker-1" else "ckpt-worker-0".
(** For the allowed containers the first occurrence is the only one. *)
Definition worker_label (name : string) : string := replace "ckpt-" "" name.

Definition demo_kill_worker (container_name : string) (first second : ran) (supervised : option string)
    (runs : list (string * run)) (now : Z) (g : geo) (clock : num) (w : site) : kill_reply * site :=
  if bool_decide (container_name ∉ ALLOWED_CONTAINERS) then (HTTPException 400, w)
  else
    let w := run_docker "kill" container_name w in
    match first with
    | NotFound => (HTTPException 503, w)
    | Expired => (HTTPException 504, w)
    | Exited returncode stdout stderr =>
        if negb (returncode =? 0) then (Killed container_name false (strip stderr), w)
        else
          let other := other_worker container_name in
          let w := run_docker "kill" other w in
          match second with
          | NotFound => (HTTPException 503, w)
          | Expired => (HTTPException 504, w)
          | Exited _ _ _ =>
              let p := demo_kill supervised runs container_name now w.(control) in
              let f := Server.add_activity
                ("Someone from " +:+ g_country g +:+ " just killed " +:+ worker_label container_name +:+ "!") (g_flag g) clock w.(activity) in
              (Killed container_name true (strip stdout),
               Site p f w.(issued) (w.(tasks) ++ [[Docker "start" container_name; Docker "start" other]]))
          end
    end.
(** A task that wakes up, where docker can be run *)
Definition wake (w : site) : site :=
  match w.(tasks) with
  | [] => w
  | t :: ts => Site w.(control) w.(activity) (w.(issued) ++ t) ts
  end.

(** ** What the endpoint does *)

(** [p'] is [p] after the kill of [run]. *)
Record kill_of (run : string) (r : Coordinator.run) (name : string) (now : Z) (p p' : plane) : Prop := {
  ko_consistent : consistent p';
  ko_runs : kv (p_coord p') = <[run := Run FAILED (r_step r) now (r_last_checkpoint r) (Some ("Worker " +:+ name +:+ " killed (demo)"))]> (kv (p_coord p));
  ko_checkpoints : checkpoints (p_coord p') = checkpoints (p_coord p);
  ko_index w i : map_get w (Workers.index (reg p')) = Some i -> Workers.i_run i = run -> ~ Workers.active i;
  ko_records w i : map_get (run, w) (Workers.records (reg p')) = Some i -> ~ Workers.active i;
  ko_leases w id l : Heartbeat.tracked w id l (Workers.lease_mgr (reg p')) -> Heartbeat.l_run l <> run;
  ko_others : Workers.demoted (reg p) (reg p');
  ko_recovery : targets p' = targets p /\ restarts (svc p') = restarts (svc p) /\ in_flight p' = in_flight p;
  ko_unseen v auto t : let '(p'', dead) := Lifespan.poll v auto t p' in
    state_of (p_coord p'') run = Some FAILED /\ Forall (fun d => d.2 <> run) dead
}.

Lemma kill_of_fail run r name now p : consistent p -> kv (p_coord p) !! run = Some r -> FAILED ∈ Fsm.VALID_TRANSITIONS (r_state r) ->
  kill_of run r name now p (fail_killed run name now p).
Proof.
  intros C K V. pose proof (fail_killed_killed run r name now p C K V) as Kl.
  destruct C as [O A R]. destruct (fail_killed_coord run r name now p A K V) as (_ & C' & K' & T & Rs & F & _).
  destruct (fail_killed_reg run name now p O) as (D & I & L).
  split; try done; [apply Kl|apply (inactive_everywhere run _ (cs_ok _ (kl_consistent _ _ Kl)) I)|].
  intros v auto t. pose proof (killed_poll v auto t run _ Kl) as P. destruct (Lifespan.poll _ _ _ _) as [p'' dead].
  destruct P as [Kl' F']. split; [apply Kl'|done].
Qed.

(** C16: The kill endpoint, on every branch. An unknown container is refused before docker is
    asked; where docker is missing, late or fails, the control plane is left as it is, also
    when the first container is dead already. Otherwise both containers have been killed
    and will be started again, the feed has one more entry, and of the runs that can fail
    and are supervised (without supervision: have an active worker) the one updated last is
    FAILED with its error: no worker of it is active, none has a lease, and no later scan
    declares one or touches the run; its checkpoints, open ones included, and the other
    runs are as they were. *)
Theorem demo_kill_outcome name first second sup runs now g clock w :
  consistent w.(control) -> runs ≡ₚ map_to_list (kv (p_coord w.(control))) ->
  let '(rep, w') := demo_kill_worker name first second sup runs now g clock w in
  let p := w.(control) in let p' := w'.(control) in
  let commanded n := Site p w.(activity) (w.(issued) ++ take n [Docker "kill" name; Docker "kill" (other_worker name)]) w.(tasks) in
  if bool_decide (name ∉ ALLOWED_CONTAINERS) then rep = HTTPException 400 /\ w' = w
  else match first with
  | NotFound => rep = HTTPException 503 /\ w' = commanded 1%nat
  | Expired => rep = HTTPException 504 /\ w' = commanded 1%nat
  | Exited code out err =>
      if negb (code =? 0) then rep = Killed name false (strip err) /\ w' = commanded 1%nat
      else match second with
      | NotFound => rep = HTTPException 503 /\ w' = commanded 2%nat
      | Expired => rep = HTTPException 504 /\ w' = commanded 2%nat
      | Exited _ _ _ =>
          rep = Killed name true (strip out) /\ w'.(issued) = (commanded 2%nat).(issued) /\
          w'.(tasks) = w.(tasks) ++ [[Docker "start" name; Docker "start" (other_worker name)]] /\
          (exists item, head (Server.feed w'.(activity)) = Some item /\ ai_flag item = g_flag g) /\
          ((p' = p /\ forall e, e ∈ runs -> killable sup (reg p) e = false) \/
           exists run r, kv (p_coord p) !! run = Some r /\ killable sup (reg p) (run, r) = true /\
             (forall e, e ∈ runs -> killable sup (reg p) e = true -> r_updated e.2 <= r_updated r) /\ kill_of run r name now p p')
      end
  end.
Proof.
  intros C Pm. unfold demo_kill_worker. case_bool_decide as Al; [done|].
  destruct first as [code out err| |]; [|done..]. destruct (Z.eqb_spec code 0) as [_|_]; cbn [negb]; [|done].
  assert (Two : forall x y, (issued w ++ [x]) ++ [y] = issued w ++ [x; y]) by (intros; by rewrite <- app_assoc).
  destruct second as [code2 out2 err2| |]; unfold run_docker; cbn; rewrite Two; [|done..].
  split_and!; [done..| |].
  - unfold Server.add_activity. cbn. eexists (ActivityItem _ _ _). split; [|done]. case_match; [|done]. by destruct (Server.feed (activity w)).
  - destruct (demo_kill_choice sup runs name now (control w)) as [[-> N]|([run r] & -> & I & Ke & Mx)]; [by left|right].
    rewrite Pm, elem_of_map_to_list in I. exists run, r. split_and!; [done..|].
    apply kill_of_fail; [done|exact I|]. by apply (killable_state sup (reg (control w)) (run, r)).
Qed.

(** ** The trainer that comes back *)

Section Resumed.
Context {C : Cloud} {CL : CloudLaws C} `{SL : Sha256Laws} {U : CloudUp C} {UL : CloudUpLaws C U} `{JL : ManifestJsonLaws}.
Context `{PL : ProtobufLaws} `{TL : TorchLaws}.
Context (max_depth : Z) (fuel : nat) (tick : nat -> env) (noise : nat -> system -> system) (fates : nat -> fate) (run : string).
Context (horizon : nat) (Su : surroundings max_depth tick noise run horizon).
Context (a : args).

(** The kill finds the run in the file that names the supervised one. *)
Definition demo_killed (runs : list (string * Coordinator.run)) (name : string) (now : Z) (w : world) : world :=
  let s := w.(sys).(plane_side) in
  World (System (set_ctl (demo_kill w.(shared_run_id) runs name now s.(ctl)) s) w.(sys).(data_side))
    w.(ticks) w.(shared_run_id) w.(reported).

(** What the kill does to the supervised run, in every state that the trainer can leave it in *)
Lemma demo_killed_state c ps runs name now w : survives max_depth tick run horizon c ps w ->
  runs ≡ₚ map_to_list (kv (coord_of w.(sys))) ->
  let p := w.(sys).(plane_side).(ctl) in let p' := demo_kill w.(shared_run_id) runs name now p in
  agrees (p_coord p') /\ state_of (p_coord p') run = Some FAILED /\ checkpoints (p_coord p') = checkpoints (p_coord p) /\
  recovering p' = recovering p.
Proof.
  intros [A (s & St & Hs) I Rd B F Sh] Pm. cbn zeta. rewrite Sh. set (p := w.(sys).(plane_side).(ctl)).
  change (coord_of w.(sys)) with (p_coord p) in *. unfold state_of in St. destruct (kv (p_coord p) !! run) as [r|] eqn:K; [|done].
  injection St as Sr. destruct (demo_kill_choice (Some run) runs name now p) as [[-> N]|([id r'] & -> & Ie & Ke & _)].
  - assert (Ir : (run, r) ∈ runs) by (by rewrite Pm, elem_of_map_to_list). specialize (N _ Ir). unfold killable in N.
    cbn [fst snd] in N. rewrite String.eqb_refl, andb_true_r in N. apply bool_decide_eq_false in N. split_and!; [done| |done..].
    unfold state_of. rewrite K. cbn. f_equal. rewrite Sr in *. destruct s; try done; exfalso; apply N; member.
  - rewrite Pm, elem_of_map_to_list in Ie. destruct (killable_state _ _ _ Ke) as [_ V]. unfold killable in Ke.
    apply andb_true_iff in Ke as [_ Ei]. apply String.eqb_eq in Ei. cbn in Ei, V. subst id.
    destruct (fail_killed_coord run r' name now p A Ie V) as (A' & C' & K' & _ & _ & _ & R').
    split_and!; [done| |done..]. unfold state_of. cbn [fst]. by rewrite K', lookup_insert_eq.
Qed.

Lemma demo_killed_startable c ps runs name now w : survives max_depth tick run horizon c ps w ->
  runs ≡ₚ map_to_list (kv (coord_of w.(sys))) -> w.(reported) <= c + a.(checkpoint_every) ->
  startable max_depth tick run horizon a c ps (demo_killed runs name now w) /\
  in_state run FAILED (demo_killed runs name now w).(sys) /\ same_checkpoints w (demo_killed runs name now w).
Proof.
  intros S Pm Rp. destruct (demo_killed_state c ps runs name now w S Pm) as (A' & St & Ec & Er).
  set (w1 := demo_killed runs name now w). change (p_coord (demo_kill _ _ _ _ _)) with (coord_of w1.(sys)) in A', St, Ec.
  change (p_coord (ctl (plane_side (sys w)))) with (coord_of w.(sys)) in Ec. split_and!; [|exact St|exact Ec].
  split; [|exists FAILED; split; [exact St|by left]|exact Rp].
  destruct S as [A St0 I Rd B F Sh]. split; [exact A'|by exists FAILED|by unfold w1; cbn; rewrite Er|exact Rd| | |exact Sh].
  - destruct B as [[Po (id & at_ & loss & Sd & Fl & Fi & Mx)]|[-> Z]]; [left|right; by rewrite Ec]. split; [done|].
    exists id, at_, loss. rewrite Ec. split_and!; [|done|exact Fi|done]. by eapply stored_same.
  - intros n Hn. destruct (F n Hn) as (N1 & If & Cl). split_and!; [|exact If|exact Cl].
    change (checkpoints (coord_of w1.(sys)) !! fresh_id (tick n) = None). by rewrite Ec.
Qed.

Context (epochs : nat -> list batch) (stop : Z -> bool).
Context (Steps : 0 < a.(steps) < 2 ^ 64) (Interval : 0 < a.(checkpoint_every)) (Logs : a.(log_every) <> 0).

(** A process that is not killed before its loop *)
Lemma train_enters fates' epochs' c ps built bound w : 0 <= c <= a.(steps) -> startable max_depth tick run horizon a c ps w ->
  (forall n, fates' n = Lives) ->
  exists w', train max_depth fuel tick noise fates' a epochs' stop "" bound built w =
      proceed max_depth fuel tick noise fates' a epochs' stop bound (run, restored c ps built) w' /\
    in_state run RUNNING w'.(sys) /\ same_checkpoints w w'.
Proof.
  intros Hc Sa Li. pose proof (begin_goes max_depth tick noise fates' run horizon Su a epochs' stop Interval c ps built w Hc Sa) as G.
  rewrite train_begin. unfold goes, andThen in *. destruct (begin _ _ _ _ w) as [[e|x] w'].
  - destruct G as (_ & (n & _ & _ & N) & _). by destruct (N (Li n)).
  - destruct G as (_ & -> & _ & St & E & _). by exists w'.
Qed.

(** C8: The kill of the demonstration while a trainer is at work, at any of its requests.
    Unless the run has been completed, there is a committed and complete checkpoint at most
    an interval behind the step reported last; the run is FAILED, and the container that
    comes back resumes it without waiting for the monitor: whether a checkpoint was being
    uploaded or not, it enters its loop at the step of that checkpoint and with its
    parameters, the run RUNNING again. The kill leaves the records of the checkpoints as they
    are: unlike the recovery it does not abort an upload. Where none was open, the
    container, if it is not killed again, trains to the end. *)
Theorem demo_kill_resumes runs name later c ps built bound w e w' :
  0 <= c <= a.(steps) -> startable max_depth tick run horizon a c ps w -> no_upload run (coord_of w.(sys)) ->
  (forall i, epochs i <> []) -> a.(steps) - c <= Z.of_nat bound ->
  stop 0 = false -> (w.(ticks) + 3 * Z.to_nat (a.(steps) - c) + 7 <= horizon)%nat ->
  train max_depth fuel tick noise fates a epochs stop "" bound built w = (inl e, w') ->
  runs ≡ₚ map_to_list (kv (coord_of w'.(sys))) ->
  completed run a epochs stop c (base c ps built) w' \/
  exists bs c', fed epochs bs /\ c <= c' <= Z.min (c + Z.of_nat (length bs)) a.(steps) /\ w'.(reported) - c' <= a.(checkpoint_every) /\
    let ps' := at_step c (base c ps built) bs c' in let w1 := demo_killed runs name later w' in
    in_state run FAILED w1.(sys) /\ same_checkpoints w' w1 /\
    forall fates' epochs' built' bound', (forall n, fates' n = Lives) ->
      (exists w2, train max_depth fuel tick noise fates' a epochs' stop "" bound' built' w1 =
           proceed max_depth fuel tick noise fates' a epochs' stop bound' (run, restored c' ps' built') w2 /\
         in_state run RUNNING w2.(sys) /\ same_checkpoints w1 w2) /\
      (no_upload run (coord_of w'.(sys)) -> (forall i, epochs' i <> []) -> a.(steps) - c' <= Z.of_nat bound' ->
       (w'.(ticks) + 3 * Z.to_nat (a.(steps) - c') + 7 <= horizon)%nat ->
       exists t w2, train max_depth fuel tick noise fates' a epochs' stop "" bound' built' w1 = (inr t, w2) /\
         trained run a epochs' stop c' (base c' ps' built') t w2).
Proof.
  intros Hc Sa Nu Ne Bd St0 Hz E Pm.
  pose proof (train_goes max_depth fuel tick noise fates run horizon Su a epochs stop Steps Interval Logs c ps built bound w Hc Sa Nu Ne Bd St0 Hz) as G.
  unfold goes in G. rewrite E in G. destruct G as (_ & _ & [Cd|(bs & c' & Fe & Hb & R & S)]); [by left|right].
  exists bs, c'. split; [done|]. split; [lia|]. split; [lia|]. cbv zeta. set (ps' := at_step _ _ _ c').
  destruct (demo_killed_startable c' ps' runs name later w' S Pm ltac:(lia)) as (Sk & Fk & Ek).
  assert (Hc' : 0 <= c' <= a.(steps)) by lia. split; [exact Fk|]. split; [exact Ek|]. intros fates' epochs' built' bound' Li.
  split; [apply (train_enters _ _ c' ps'); [exact Hc'|exact Sk|exact Li]|]. intros Nu' Ne' Bd' Hz'.
  pose proof (train_goes max_depth fuel tick noise fates' run horizon Su a epochs' stop Steps Interval Logs c' ps' built' bound'
    (demo_killed runs name later w') Hc' Sk (same_upload run _ _ Ek Nu') Ne' Bd' St0 Hz') as G'. unfold goes in G'.
  destruct (train _ _ _ _ _ _ _ _ _ _ _ (demo_killed _ _ _ _)) as [[e'|t] w2].
  - destruct G' as (_ & (n & _ & _ & N) & _). by destruct (N (Li n)).
  - exists t, w2. split; [done|]. apply G'.
Qed.
End Resumed.

(** ** The upload that stays open *)

(** A commit goes to the open checkpoint with the largest step. *)
Lemma active_cp_largest run c old cp :
  checkpoints c !! old = Some cp -> c_run cp = run -> c_state cp = CIN_PROGRESS ->
  (forall id cp', checkpoints c !! id = Some cp' -> c_run cp' = run -> c_state cp' = CIN_PROGRESS -> id = old \/ c_step cp' < c_step cp) ->
  active_cp run c = Some (old, cp).
Proof.
  intros E R S Mx. unfold active_cp. set (l := Recovery.list_checkpoints run c).
  assert (I : (old, cp) ∈ l) by by apply list_checkpoints_elem. apply list_elem_of_split in I as (l1 & l2 & El).
  pose proof (listed_ascending run c) as As. fold l in As. rewrite El in As |- *.
  rewrite rev_app_distr. cbn [rev]. rewrite <- app_assoc, filter_app, filter_none; [cbn [app]; by rewrite filter_cons_True|].
  apply Forall_forall. intros [id cp'] Ix%list_elem_of_In%in_rev%list_elem_of_In S'.
  assert (Il : (id, cp') ∈ l) by (rewrite El; apply elem_of_app; right; by right).
  pose proof (list_checkpoints_nodup run c) as N. fold l in N. apply list_checkpoints_elem in Il as [E' R'].
  destruct (Mx id cp' E' R' S') as [->|Lt].
  - rewrite El, map_app in N. cbn [map fst] in N. apply NoDup_app in N as (_ & _ & N). apply NoDup_cons in N as [N _].
    apply N. change old with ((old, cp').1). by apply list_elem_of_fmap_2.
  - apply StronglySorted_app_1_r in As. apply StronglySorted_inv in As as [_ As]. rewrite Forall_forall in As.
    specialize (As _ Ix). cbn in As, Lt. lia.
Qed.

Lemma transfer_others now run cp u s old : old <> cp -> infos old (snd (transfer now run cp u s)) = infos old s.
Proof.
  intros N. unfold transfer. destruct (upload_shard _ _ _ _ _ _ _); [done|]. unfold upload_settled.
  destruct (negb _).
  - unfold abort_failed_checkpoint. destruct (set_run_error _ _ _ _). unfold infos. cbn. by rewrite lookup_delete_ne.
  - destruct (update_checkpoint_state _ _ _); unfold infos; cbn; by rewrite lookup_insert_ne.
Qed.
Lemma transfers_others now run cp us s old : old <> cp -> infos old (snd (transfers now run cp us s)) = infos old s.
Proof.
  intros N. unfold transfers. induction us as [|u us IH] using rev_ind; [done|]. rewrite foldl_app. cbn [foldl].
  destruct (foldl _ _ us) as [reps s1]. cbn [fst snd] in *. rewrite <- IH, <- (transfer_others now run cp u s1 old N).
  by destruct (transfer _ _ _ _ _).
Qed.

(** Resuming a run that recovers *)
Lemma resumes a t run r : agrees (coord a) -> kv (coord a) !! run = Some r -> r_state r = FAILED \/ r_state r = RECOVERING ->
  let '(rep, a') := resume_run a t run in
  agrees (coord a') /\ checkpoints (coord a') = checkpoints (coord a) /\ rep = Reply 200 [(run, "run_resumed")] /\
  exists r', kv (coord a') !! run = Some r' /\ r_state r' = match r_state r with FAILED => RECOVERING | _ => RUNNING end.
Proof.
  intros A K St. unfold resume_run. rewrite K.
  assert (T : forall target, target ∈ Fsm.VALID_TRANSITIONS (r_state r) -> let '(res, c') := transition_run (coord a) run target (ControlPlane.now t) in
    agrees c' /\ checkpoints c' = checkpoints (coord a) /\ exists r', res = Ok r' /\ kv c' !! run = Some r' /\ r_state r' = target).
  { intros target V. pose proof (transition_run_spec (coord a) run target (ControlPlane.now t) r A K) as T.
    destruct (transition_run _ _ _ _) as [res c']. destruct T as (A' & C' & _ & T). rewrite bool_decide_true in T by done.
    destruct T as [-> T]. split_and!; [done..|]. by eexists. }
  destruct St as [E|E]; rewrite E in *.
  - specialize (T RECOVERING ltac:(member)). destruct (transition_run _ _ _ _) as [res c']. destruct T as (A' & C' & r' & -> & K' & R').
    split_and!; [done..|]. by exists r'.
  - specialize (T RUNNING ltac:(member)). destruct (transition_run _ _ _ _) as [res c']. destruct T as (A' & C' & r' & -> & K' & R').
    split_and!; [done..|]. by exists r'.
Qed.

(** C27: A checkpoint that was being uploaded when its run was killed, and a later one of an
    earlier step: the run is resumed as the trainer does it, the new checkpoint is triggered
    and uploaded, and the commit asks the data plane for the manifest of the old one, with
    the shards that had arrived before the kill. *)
Theorem killed_upload_committed s run r old n at_ runs name t1 t2 t3 e m us :
  consistent s.(ctl) -> kv (st_coord s) !! run = Some r -> r_state r = CHECKPOINTING ->
  checkpoints (st_coord s) !! old = Some (Checkpoint run n CIN_PROGRESS at_) -> infos old s <> [] ->
  (forall id cp, checkpoints (st_coord s) !! id = Some cp -> c_run cp = run -> c_state cp = CIN_PROGRESS -> id = old) ->
  runs ≡ₚ map_to_list (kv (st_coord s)) -> m < n ->
  checkpoints (st_coord s) !! fresh_id e = None -> infos (fresh_id e) s = [] -> us <> [] -> Forall accepted us ->
  let p1 := demo_kill (Some run) runs name t1 s.(ctl) in
  let '(_, a2) := resume_run p1.(svc) t2 run in
  let '(rep3, a3) := resume_run a2 t3 run in
  let '(rep4, a4) := trigger_checkpoint a3 e run (Some m) in
  let '(reps, s5) := transfers (ControlPlane.now e) run (fresh_id e) us (set_ctl (set_svc a4 p1) s) in
  rep3 = Reply 200 [(run, "run_resumed")] /\ rep4 = Reply 200 [(run, "checkpoint_started")] /\ reps = map (fun _ => Reply 200 []) us /\
  commit_run true run s5 = inr (Checkpointing.CommitCheckpoint run old, n, infos old s) /\
  infos (fresh_id e) s5 = map (stored_upload run (fresh_id e)) us.
Proof.
  intros Cs K Sr Eo Io Uq Pm Lt Fr If Ne Acc. cbn zeta. set (p := s.(ctl)) in *. change (st_coord s) with (p_coord p) in *.
  assert (Kl : demo_kill (Some run) runs name t1 p = fail_killed run name t1 p).
  { destruct (demo_kill_choice (Some run) runs name t1 p) as [[_ N]|([id r'] & -> & _ & Ke & _)].
    - specialize (N (run, r) ltac:(by rewrite Pm, elem_of_map_to_list)). unfold killable in N. cbn [fst snd] in N.
      by rewrite String.eqb_refl, Sr in N.
    - unfold killable in Ke. apply andb_true_iff in Ke as [_ Ei]. apply String.eqb_eq in Ei. cbn in Ei. by subst id. }
  rewrite Kl. assert (V : FAILED ∈ Fsm.VALID_TRANSITIONS (r_state r)) by (rewrite Sr; member).
  destruct (fail_killed_coord run r name t1 p (cs_agrees _ Cs) K V) as (A1 & C1 & K1 & _). set (p1 := fail_killed run name t1 p) in *.
  assert (Kr : kv (p_coord p1) !! run = Some (Run FAILED (r_step r) t1 (r_last_checkpoint r) (Some ("Worker " +:+ name +:+ " killed (demo)"))))
    by (by rewrite K1, lookup_insert_eq).
  pose proof (resumes p1.(svc) t2 run _ A1 Kr ltac:(by left)) as R2. destruct (resume_run (svc p1) t2 run) as [rep2 a2].
  destruct R2 as (A2 & C2 & _ & r2 & K2 & S2). cbn [r_state] in S2.
  pose proof (resumes a2 t3 run r2 A2 K2 ltac:(by right)) as R3. rewrite S2 in R3. destruct (resume_run a2 t3 run) as [rep3 a3].
  destruct R3 as (A3 & C3 & R3 & r3 & K3 & S3).
  destruct (trigger_spec a3 e run m r3 A3 K3 S3) as (c & -> & A4 & K4 & C4).
  set (s4 := set_ctl _ s). set (id := fresh_id e) in *. assert (Ec : checkpoints (st_coord s4) = <[id := Checkpoint run m CPENDING (ControlPlane.now e)]> (checkpoints (p_coord p))).
  { cbn. by rewrite C4, C3, C2, <- C1. }
  pose proof (transfers_spec (ControlPlane.now e) run id us _ s4 Acc ltac:(by rewrite Ec, lookup_insert_eq) eq_refl If) as T.
  pose proof (fun x => transfers_others (ControlPlane.now e) run id us s4 x) as To.
  destruct (transfers _ _ _ us s4) as [reps s5]. destruct T as (-> & K5 & _ & C5 & L5 & _). rewrite bool_decide_false in C5 by done.
  rewrite Ec, insert_insert_eq in C5. split_and!; [exact R3|done|done| |exact L5].
  assert (No : old <> id) by (intros ->; by rewrite Eo in Fr).
  unfold commit_run. rewrite K5. change (st_coord s4) with c. rewrite K4.
  rewrite (active_cp_largest run (st_coord s5) old (Checkpoint run n CIN_PROGRESS at_)); [|by rewrite C5, lookup_insert_ne|done|done|].
  - cbn [negb]. rewrite To by done. change (infos old s4) with (infos old s). by destruct (infos old s).
  - intros id' cp' E' R' S'. rewrite C5 in E'. destruct (decide (id = id')) as [<-|Ni].
    + rewrite lookup_insert_eq in E'. injection E' as <-. by right.
    + rewrite lookup_insert_ne in E' by done. left. by eapply Uq.
Qed.

(** ** At concrete inputs *)

Definition sample_site : site := Site sample_plane (Server.Server [] []) [] [].
Lemma sample_plane_consistent : consistent sample_plane.
Proof. destruct sample_plane_ready as [O A I _ _]. by split. Qed.

Lemma demo_kill_outcome_witness :
  let '(rep, w') := demo_kill_worker "ckpt-worker-1" (Exited 0 "ckpt-worker-1" "") (Exited 1 "" "No such container") (Some "r1")
    (map_to_list (kv (p_coord sample_plane))) 60 (Geo "Local" "" "") (of_Z 0) sample_site in
  rep = Killed "ckpt-worker-1" true "ckpt-worker-1" /\
  exists run r, killable (Some "r1") (reg sample_plane) (run, r) = true /\ kill_of run r "ckpt-worker-1" 60 sample_plane w'.(control).
Proof.
  pose proof (demo_kill_outcome "ckpt-worker-1" (Exited 0 "ckpt-worker-1" "") (Exited 1 "" "No such container") (Some "r1")
    (map_to_list (kv (p_coord sample_plane))) 60 (Geo "Local" "" "") (of_Z 0) sample_site sample_plane_consistent (reflexivity _)) as H.
  destruct (demo_kill_worker _ _ _ _ _ _ _ _ _) as [rep w']. cbv zeta in H. rewrite bool_decide_false in H by (intros N; apply N; by right; left).
  cbn [Z.eqb negb] in H. destruct H as (R & _ & _ & _ & [[_ N]|(run & r & _ & K & _ & O)]).
  - exfalso. revert N. rewrite <- Forall_forall. intros N%Forall_inv. revert N. vm_compute. discriminate.
  - split; [exact R|]. exists run, r. exact (conj K O).
Defined.

Definition open_store : store :=
  Store (Plane (Service (Coord {[ "r1" := Run CHECKPOINTING 100 0 None None ]} {[ "c1" := Checkpoint "r1" 100 CIN_PROGRESS 1 ]} ∅) ∅)
           (Registry [] [] [] [] init_manager) ∅ [] None)
    {[ "c1" := [stored_info "r1" "c1" "rank-0" 0 sample_result] ]} ∅ [].

Lemma killed_upload_committed_witness :
  let us := [Upload "rank-0" 0 [sample_byte] sample_result; Upload "rank-1" 1 [sample_byte] sample_result] in
  let p1 := demo_kill (Some "r1") (map_to_list (kv (st_coord open_store))) "ckpt-worker-0" 5 open_store.(ctl) in
  let '(_, a2) := resume_run p1.(svc) (Env 6 "") "r1" in
  let '(rep3, a3) := resume_run a2 (Env 7 "") "r1" in
  let '(_, a4) := trigger_checkpoint a3 (Env 8 "c2") "r1" (Some 50) in
  let '(_, s5) := transfers 8 "r1" "c2" us (set_ctl (set_svc a4 p1) open_store) in
  rep3 = Reply 200 [("r1", "run_resumed")] /\
  commit_run true "r1" s5 = inr (Checkpointing.CommitCheckpoint "r1" "c1", 100, [stored_info "r1" "c1" "rank-0" 0 sample_result]).
Proof.
  pose proof (killed_upload_committed open_store "r1" (Run CHECKPOINTING 100 0 None None) "c1" 100 1
    (map_to_list (kv (st_coord open_store))) "ckpt-worker-0" 5 (Env 6 "") (Env 7 "") (Env 8 "c2") 50
    [Upload "rank-0" 0 [sample_byte] sample_result; Upload "rank-1" 1 [sample_byte] sample_result]) as H.
  cbn [ControlPlane.now fresh_id] in *. cbv zeta in *. destruct (resume_run _ (Env 6 "") _) as [rep2 a2].
  destruct (resume_run a2 _ _) as [rep3 a3]. destruct (trigger_checkpoint _ _ _ _) as [rep4 a4].
  destruct (transfers _ _ _ _ _) as [reps s5]. destruct H as (R & _ & _ & Cm & _);
    [split; [apply empty_registry_ok|by intros id m ?|done]|reflexivity|reflexivity|reflexivity|discriminate| |reflexivity|done|reflexivity|reflexivity|discriminate|by repeat constructor|].
  - intros id cp E _ _. cbn in E. by apply lookup_singleton_Some in E as [<- _].
  - split; [exact R|exact Cm].
Defined.

(** With equal steps, as when the trainer saves the checkpoint again that it was saving, the
    order of the store decides. *)
Example same_step_either :
  let again old new :=
    let s := Store (Plane (Service (Coord {[ "r1" := Run CHECKPOINTING 100 0 None None ]} {[ old := Checkpoint "r1" 100 CIN_PROGRESS 1 ]} ∅) ∅)
               (Registry [] [] [] [] init_manager) ∅ [] None) {[ old := [stored_info "r1" old "rank-0" 0 sample_result] ]} ∅ [] in
    let p1 := demo_kill (Some "r1") (map_to_list (kv (st_coord s))) "ckpt-worker-0" 5 s.(ctl) in
    let a3 := snd (resume_run (snd (resume_run p1.(svc) (Env 6 "") "r1")) (Env 7 "") "r1") in
    let a4 := snd (trigger_checkpoint a3 (Env 8 new) "r1" (Some 100)) in
    let us := [Upload "rank-0" 0 [sample_byte] sample_result] in
    match commit_run true "r1" (snd (transfers 8 "r1" new us (set_ctl (set_svc a4 p1) s))) with
    | inr (Checkpointing.CommitCheckpoint _ id, _, _) => id
    | _ => ""
    end in
  again "c1" "c2" = again "c2" "c1".
Proof. vm_compute. reflexivity. Qed.

#[local] Existing Instances Memory.cloud Memory.cloud_laws Memory.cloud_up Memory.cloud_up_laws.
#[local] Existing Instances PlainDigest.digest PlainDigest.digest_laws PlainJson.json PlainJson.json_laws.
#[local] Existing Instances PlainProtobuf.protobuf PlainProtobuf.protobuf_laws Steps.torch Steps.torch_laws.

(** The process is killed after its commit at step 2, and the one that comes back goes on
    from there to the end. *)
Lemma demo_kill_resumes_witness : exists w',
  train 8 9 sample_tick sample_noise sample_fates sample_args sample_epochs (fun _ => false) "" 3 Byte.x00 sample_world = (inl Trainer.Killed, w') /\
  (completed "r1" sample_args sample_epochs (fun _ => false) 0 (base 0 Byte.x00 Byte.x00) w' \/
   exists ps c' w2, 0 <= c' <= 3 /\ w'.(reported) - c' <= 2 /\
     train 8 9 sample_tick sample_noise (fun _ => Lives) sample_args sample_epochs (fun _ => false) "" 3 Byte.x00
       (demo_killed (map_to_list (kv (coord_of w'.(sys)))) "ckpt-worker-0" 9 w') =
     proceed 8 9 sample_tick sample_noise (fun _ => Lives) sample_args sample_epochs (fun _ => false) 3 ("r1", restored c' ps Byte.x00) w2 /\
     in_state "r1" RUNNING w2.(sys)).
Proof.
  pose proof (fun w' : @world Memory.cloud => demo_kill_resumes 8 9 sample_tick sample_noise sample_fates "r1" 32 sample_surroundings sample_args
    sample_epochs (fun _ => false) ltac:(done) ltac:(done) ltac:(done) (map_to_list (kv (coord_of w'.(sys)))) "ckpt-worker-0" 9 0 Byte.x00 Byte.x00 3
    sample_world Trainer.Killed w' ltac:(done) sample_startable sample_closed ltac:(done) ltac:(done) ltac:(done) ltac:(apply Nat.leb_le; reflexivity)) as H.
  destruct sample_killed as [w' E]. exists w'. split; [exact E|]. destruct (H w' E (reflexivity _)) as [Cd|(bs & c' & _ & Hb & R & G)]; [by left|right].
  destruct G as (_ & _ & G). destruct (G (fun _ => Lives) sample_epochs Byte.x00 3%nat (fun _ => eq_refl)) as ((w2 & T & St & _) & _).
  eexists _, c', w2. split; [change (steps sample_args) with 3 in Hb; lia|]. split; [exact R|]. split; [exact T|exact St].
Defined.
