(* ===== verification/Walkthrough.v ===== *)
(** * The walkthrough of a recovery: [frontend/src/components/DemoWalkthrough.tsx]

    A banner that narrates the run: what it says is decided by the step of the walkthrough,
    the state of the run and the summary of the last recovery. *)

From S2P Require Import Prelude JsString JsNum Html Types.

(** ** Data *)

Record recovery_summary : Type := Summary {
  detectTime : num; recoverTime : num; restoredStep : Z; rs_currentStep : Z; checkpointLoss : num
}.

Inductive color_name : Type := COk | CInfo | CErr | CRecover | CWarn.
#[export] Instance color_name_eq_dec : EqDecision color_name.
Proof. solve_decision. Defined.

(** [elapsed?: number | null]: absent, or nullable *)
Record content : Type := Content {
  wc_step : string; wc_title : string; wc_body : string;
  action : option string; elapsed : option (option num); color : color_name
}.

(** ** What the banner says *)

Definition getContent (walkthroughStep : Z) (runState : run_state) (elapsed : option num)
    (recoverySummary : option recovery_summary) : content :=
  match recoverySummary with
  | Some r =>
    Content "Done" "Recovery Complete: Zero Data Lost"
      ("Detected crash in " +:+ to_fixed 1 r.(detectTime) +:+ "s, recovered in " +:+ to_fixed 1 r.(recoverTime) +:+ "s total.")
      None None COk
  | None =>
  if 3 <=? walkthroughStep then
    if bool_decide (runState = FAILED) then
    Content "2/3" "Crash Detected!"
      "The worker stopped sending heartbeats. The system noticed it's gone. Recovery is about to start. The system will restart the container and load the last saved checkpoint from storage."
      None (Some elapsed) CErr
    else if bool_decide (runState = RECOVERING) then
    Content "2/3" "Recovering..."
      "The crashed worker is restarting. It's loading the last saved checkpoint from object storage right now. When it finishes, training will resume from the exact step it was saved at. No work lost."
      None (Some elapsed) CRecover
    else
    Content "2/3" "Crash Detected!"
      "The kill signal was just sent to the worker container. Waiting for the system to detect the failure and begin recovery..."
      None (Some elapsed) CErr
  else if 1 <=? walkthroughStep then
    Content "1/3" "Checkpoints Are Being Saved"
      "Every 50 training steps, the system saves a snapshot of the entire model: all 202K parameters, the optimizer state, and the current step. The blue dots on the loss chart are checkpoints. Kill a worker above whenever you're ready."
      None None CInfo
  else
    Content "1/3" "Training Has Started"
      "Two real Docker containers are training a neural network together right now. Watch the loss chart: the green line going down means the model is learning. Checkpoints will start saving automatically every 50 steps."
      None None COk
  end.

Definition BG (c : color_name) : string :=
  match c with
  | COk => "border-ok bg-ok-muted/50"
  | CInfo => "border-info bg-info-muted/50"
  | CErr => "border-err bg-err-muted/50"
  | CRecover => "border-recover bg-recover-muted/50"
  | CWarn => "border-warn bg-warn-muted/50"
  end.

Definition TEXT (c : color_name) : string :=
  match c with
  | COk => "text-ok"
  | CInfo => "text-info"
  | CErr => "text-err"
  | CRecover => "text-recover"
  | CWarn => "text-warn"
  end.

Definition progressPct (currentStep : Z) (recoverySummary : option recovery_summary) : Z :=
  match recoverySummary with
  | Some _ => 100
  | None => if 3 <=? currentStep then 66 else if 1 <=? currentStep then 33 else 10
  end.

(** ** View *)

Section View.
Context {M : Type}.
#[local] Abbreviation node := (node M).

(** [content.elapsed !== undefined && content.elapsed !== null] *)
Definition shown_elapsed (content : content) : option num :=
  match content.(elapsed) with Some (Some e) => Some e | _ => None end.

Definition recovery_proof (recoverySummary : recovery_summary) : node :=
  El "div" [cls "mt-4 space-y-3"]
    [El "div" [cls "grid grid-cols-2 gap-3"]
       [El "div" [cls "bg-surface-1/60 rounded-lg px-3.5 py-3 border border-info/20"]
          [El "div" [cls "flex items-center gap-1.5 mb-2"]
             [El "span" [cls "w-2 h-2 rounded-full bg-info"] [];
              El "span" [cls "text-xs font-bold text-info uppercase tracking-wider"]
                [Txt "Saved"]];
           El "div" [cls "space-y-1"]
             [El "div" [cls "flex justify-between items-baseline"]
                [El "span" [cls "text-xs text-txt-3"] [Txt "Step"];
                 El "span" [cls "text-sm font-mono font-bold text-txt-1"]
                   [Txt (dec recoverySummary.(restoredStep))]];
              El "div" [cls "flex justify-between items-baseline"]
                [El "span" [cls "text-xs text-txt-3"] [Txt "Loss"];
                 El "span" [cls "text-sm font-mono font-bold text-txt-1"]
                   [Txt (to_fixed 4 recoverySummary.(checkpointLoss))]]]];
        El "div" [cls "bg-surface-1/60 rounded-lg px-3.5 py-3 border border-ok/20"]
          [El "div" [cls "flex items-center gap-1.5 mb-2"]
             [El "span" [cls "w-2 h-2 rounded-full bg-ok"] [];
              El "span" [cls "text-xs font-bold text-ok uppercase tracking-wider"]
                [Txt "Restored"]];
           El "div" [cls "space-y-1"]
             [El "div" [cls "flex justify-between items-baseline"]
                [El "span" [cls "text-xs text-txt-3"] [Txt "Step"];
                 El "span" [cls "text-sm font-mono font-bold text-txt-1"]
                   [Txt (dec recoverySummary.(restoredStep))]];
              El "div" [cls "flex justify-between items-baseline"]
                [El "span" [cls "text-xs text-txt-3"] [Txt "Loss"];
                 El "span" [cls "text-sm font-mono font-bold text-txt-1"]
                   [Txt (to_fixed 4 recoverySummary.(checkpointLoss))]]]]];
     El "div" [cls "bg-surface-1/40 rounded-lg px-3.5 py-2.5 border border-line/30"]
       [El "p" [cls "text-sm text-txt-2 leading-relaxed"]
          [El "span" [cls "text-ok font-semibold"] [Txt "Same step, same loss."];
           Txt " ";
           Txt "The model was restored to the exact state it was saved at. If the checkpoint had failed, loss would reset to";
           Txt " ";
           El "span" [cls "font-mono text-err"] [Txt "~2.3"];
           Txt " ";
           Txt "(random weights). Look at the chart: training continued from";
           Txt " ";
           El "span" [cls "font-mono text-ok"]
             [Txt (to_fixed 4 recoverySummary.(checkpointLoss))];
           Txt ", not ";
           El "span" [cls "font-mono text-err"] [Txt "2.3"];
           Txt "."]]].

Definition action_callout (content : content) (action : string) : node :=
  El "div" [cls "mt-3 flex items-center gap-2"]
    [El "span" [cls "relative flex h-2 w-2"]
       [El "span" [cls ("animate-ping absolute inline-flex h-full w-full rounded-full opacity-75 " +:+ (if bool_decide (content.(color) = CErr) then "bg-err" else "bg-ok"))] [];
        El "span" [cls ("relative inline-flex rounded-full h-2 w-2 " +:+ (if bool_decide (content.(color) = CErr) then "bg-err" else "bg-ok"))] []];
     El "span" [cls ("text-sm font-semibold " +:+ TEXT content.(color))] [Txt action]].

Definition DemoWalkthrough (currentStep : Z) (runState : run_state) (elapsedSinceKill : option num)
    (recoverySummary : option recovery_summary) : node :=
  let content := getContent currentStep runState elapsedSinceKill recoverySummary in
  let progressPct := progressPct currentStep recoverySummary in
  El "AnimatePresence" [Attr "mode" "wait"]
    [El "motion.div" [Key (content.(wc_title)); Attr "initial" "{ opacity: 0, y: -6 }";
                      Attr "animate" "{ opacity: 1, y: 0 }"; Attr "exit" "{ opacity: 0, y: 6 }";
                      Attr "transition" "{ duration: 0.3 }";
                      cls ("rounded-xl border-l-4 p-5 " +:+ BG content.(color))]
       (El "div" [cls "flex items-center gap-2 mb-3"]
          [El "span" [cls ("text-xs font-bold " +:+ TEXT content.(color))]
             [Txt "Step ";
              Txt (content.(wc_step))];
           El "div" [cls "flex-1 h-1 bg-surface-3/50 rounded-full overflow-hidden"]
             [El "motion.div" [cls ("h-full rounded-full " +:+ (if bool_decide (content.(color) = COk) then "bg-ok" else (if bool_decide (content.(color) = CErr) then "bg-err" else (if bool_decide (content.(color) = CRecover) then "bg-recover" else (if bool_decide (content.(color) = CInfo) then "bg-info" else "bg-warn")))));
                               Attr "width" (dec progressPct +:+ "%");
                               Attr "transition" "{ duration: 0.5, ease: 'easeOut' }"] []]] ::
        El "div" [cls "flex items-center gap-3 mb-1 flex-wrap"]
          (El "h3" [cls ("text-lg font-bold " +:+ TEXT content.(color))]
             [Txt (content.(wc_title))] ::
           when_some (shown_elapsed content) (fun elapsed =>
             El "span" [cls "inline-flex items-center gap-1.5 px-3 py-1 rounded-full bg-surface-3/60 border border-line/40 text-txt-1 font-mono text-sm font-bold tabular-nums animate-pulse"]
               [El "svg" [cls "w-3.5 h-3.5"; Attr "fill" "none"; Attr "stroke" "currentColor";
                          Attr "viewBox" "0 0 24 24"]
                  [El "path" [Attr "strokeLinecap" "round"; Attr "strokeLinejoin" "round";
                              Attr "strokeWidth" "2"; Attr "d" "M12 8v4l3 3m6-3a9 9 0 11-18 0 9 9 0 0118 0z"] []];
                Txt (to_fixed 1 elapsed);
                Txt "s"])) ::
        El "p" [cls "text-sm text-txt-2 leading-relaxed"] [Txt (content.(wc_body))] ::
        when_some recoverySummary recovery_proof ++
        when_text content.(action) (action_callout content))].
End View.

(** ** What the banner can say *)

(** No content asks for an action, and none has the color of a warning. *)
Lemma walkthrough_content (step : Z) (s : run_state) (e : option num) (r : option recovery_summary) :
  action (getContent step s e r) = None /\ color (getContent step s e r) <> CWarn /\
  (shown_elapsed (getContent step s e r) = match r with None => if 3 <=? step then e else None | Some _ => None end).
Proof.
  unfold getContent. destruct r as [r|]; [done|]. destruct (3 <=? step).
  - destruct s; (split_and!; [done|done|by destruct e]).
  - destruct (1 <=? step); done.
Qed.

(** The banner claims that step and loss are the same whatever the summary says: both of
    its columns show the restored step and the checkpoint's loss, and the step training
    went on from is not looked at. *)
Theorem walkthrough_same_step (r : recovery_summary) (step : Z) (s : run_state) (e : option num) (k : Z) :
  "Same step, same loss." ∈ text (recovery_proof (M := unit) r) /\
  DemoWalkthrough (M := unit) step s e (Some r)
  = DemoWalkthrough step s e (Some (Summary r.(detectTime) r.(recoverTime) r.(restoredStep) k r.(checkpointLoss))).
Proof.
  split; [|done]. apply list_elem_of_In. unfold recovery_proof.
  generalize (to_fixed 4 r.(checkpointLoss)), (dec r.(restoredStep)). intros loss at_step.
  cbn. repeat first [left; reflexivity|right].
Qed.
