(* ===== verification/Architecture.v ===== *)
(** * The architecture diagram: [frontend/src/components/ArchitectureDiagram.tsx]

    A static picture of the services, which the landing page shows. *)

From S2P Require Import Prelude JsString JsNum Html.

Section View.
Context {M : Type}.
#[local] Abbreviation node := (node M).

Definition ServiceBox (label sub color : string) : node :=
  El "div" [cls ("rounded-lg border px-3 py-2 text-center " +:+ color +:+ " min-w-[110px]")]
    [El "div" [cls "text-xs font-semibold"] [Txt label];
     El "div" [cls "text-2xs opacity-60"] [Txt sub]].

(** [direction?: 'right' | 'down'] *)
Inductive direction : Type := Right | Down.
Definition Arrow (d : direction) : node :=
  match d with
  | Down =>
      El "div" [cls "flex justify-center py-1"]
        [El "div" [cls "w-px h-6 bg-line-emphasis relative"]
           [El "div" [cls "absolute -bottom-1 left-1/2 -translate-x-1/2 w-0 h-0 border-l-[4px] border-l-transparent border-r-[4px] border-r-transparent border-t-[5px] border-t-line-emphasis"] []]]
  | Right =>
      El "div" [cls "flex items-center px-1"]
        [El "div" [cls "h-px w-6 bg-line-emphasis relative"]
           [El "div" [cls "absolute -right-1 top-1/2 -translate-y-1/2 w-0 h-0 border-t-[4px] border-t-transparent border-b-[4px] border-b-transparent border-l-[5px] border-l-line-emphasis"] []]]
  end.

Definition ArchitectureDiagram : node :=
  El "div" [cls "card p-6 overflow-x-auto"]
    [El "div" [cls "flex items-center justify-center gap-0 flex-wrap"]
       [El "div" [cls "flex flex-col gap-2"]
          [ServiceBox "Worker 0" "PyTorch DDP" "border-ok/20 bg-ok-muted text-ok";
           ServiceBox "Worker 1" "PyTorch DDP" "border-ok/20 bg-ok-muted text-ok"];
        Arrow Right;
        El "div" [cls "flex flex-col items-center gap-1"]
          [ServiceBox "Control Plane" "Python / FastAPI" "border-info/20 bg-info-muted text-info";
           Arrow Down;
           ServiceBox "etcd" "Coordination" "border-brand-violet/20 bg-brand-violet/10 text-brand-violet"];
        Arrow Right;
        El "div" [cls "flex flex-col items-center gap-1"]
          [ServiceBox "Data Plane" "Rust / gRPC" "border-recover/20 bg-recover-muted text-recover";
           Arrow Down;
           ServiceBox "MinIO" "S3 Storage" "border-warn/20 bg-warn-muted text-warn"];
        Arrow Right;
        El "div" [cls "flex flex-col gap-2"]
          [ServiceBox "Prometheus" "Metrics" "border-err/20 bg-err-muted text-err";
           ServiceBox "Grafana" "Dashboards" "border-err/20 bg-err-muted text-err";
           ServiceBox "Jaeger" "Tracing" "border-err/20 bg-err-muted text-err"]];
     El "div" [cls "flex justify-center mt-3"]
       [El "div" [cls "text-2xs text-txt-3 bg-surface-3 rounded-full px-3 py-0.5"]
          [Txt "Connected via OpenTelemetry Collector"]]].

(** The diagram holds no handler. *)
Lemma offers_ArchitectureDiagram : offers ArchitectureDiagram = [].
Proof. reflexivity. Qed.
End View.
