(* ===== verification/Landing.v ===== *)
(** * The landing page: [frontend/src/pages/LandingPage.tsx]

    The presentation of the project with its numbered sections and a list of questions of
    which at most one is open. *)

From Stdlib Require Import Ascii.
From S2P Require Import Prelude JsString JsNum Html Types Host Design Ui Architecture.

(** ** Data *)

Definition TOTAL : Z := 9.

Record tech_item : Type := Tech { tech_label : string; tech_color : string }.
Definition TECH_STACK : list tech_item :=
  [Tech "Rust" "bg-recover/10 text-recover border-recover/20";
   Tech "Python" "bg-info/10 text-info border-info/20";
   Tech "TypeScript" "bg-info/10 text-info border-info/20";
   Tech "PyTorch" "bg-err/10 text-err border-err/20";
   Tech "React" "bg-brand-violet/10 text-brand-violet border-brand-violet/20";
   Tech "gRPC" "bg-ok/10 text-ok border-ok/20";
   Tech "FastAPI" "bg-ok/10 text-ok border-ok/20";
   Tech "etcd" "bg-brand-violet/10 text-brand-violet border-brand-violet/20";
   Tech "MinIO / S3" "bg-warn/10 text-warn border-warn/20";
   Tech "Docker" "bg-info/10 text-info border-info/20";
   Tech "Kubernetes" "bg-info/10 text-info border-info/20";
   Tech "Prometheus" "bg-err/10 text-err border-err/20";
   Tech "Grafana" "bg-recover/10 text-recover border-recover/20";
   Tech "Jaeger" "bg-warn/10 text-warn border-warn/20";
   Tech "OpenTelemetry" "bg-surface-3 text-txt-2 border-line"].

Record qa : Type := Qa { question : string; answer : string }.
Definition QA_ITEMS : list qa :=
  [Qa "What would you do differently if you started over?"
      ("I'd start with the state machine and etcd coordination layer before writing a single line of training code. I spent a lot of time debugging timing issues because I built the training loop first and bolted coordination on later. The state machine is the heart of the system. Everything else flows from " +:+ dquote +:+ "what state is the run in right now?" +:+ dquote +:+ " Starting there would have saved me weeks.");
   Qa "How does this compare to what companies like Meta actually use?"
      "The architecture pattern is the same: control plane / data plane split, async checkpointing, content-addressed storage. But at a different scale. Meta's systems handle thousands of GPUs across data centers with dedicated hardware for checkpoint storage. My original deployment ran on a single 4-vCPU VPS with 2 CPU-only workers; the paid VPS is now stopped and the real stack runs locally. The engineering principles are identical though: atomic commits, heartbeat-based failure detection, manifest-driven recovery. I built this to prove I understand the architecture, not to compete with their scale.";
   Qa "What was the hardest bug you ran into?"
      "Worker rank incrementing after kill/restart cycles. After killing and restarting workers, PyTorch DDP would assign new ranks (0,1 → 2,3 → 5,6) instead of reusing the old ones. The frontend was matching workers by rank index, so after a kill cycle the UI would show the wrong workers. I had to redesign the frontend to sort workers by active status and most recent heartbeat instead of relying on rank numbers.";
   Qa "Why not just use an existing checkpoint library?"
      "Libraries like PyTorch's built-in checkpointing just serialize model weights to a file. They don't handle the hard parts: When do you save? How do you coordinate multiple workers? What if the save itself fails? How do you detect a dead worker? How do you resume from the right checkpoint? I wanted to build the full coordination system, the orchestration layer that makes checkpointing actually reliable in a distributed setting.";
   Qa "How would this work at real scale, thousands of GPUs?"
      "The architecture scales horizontally. The control plane would need to be replicated for availability (multiple FastAPI instances behind a load balancer, with etcd handling consensus). The Rust data plane already handles concurrent shard uploads, so you'd run multiple data plane instances close to storage. The biggest change would be sharding strategy. Instead of one shard per rank, you'd want hierarchical checkpointing where each node saves locally first, then async-uploads to durable storage. The state machine and coordination protocol wouldn't change at all.";
   Qa "What did you learn from building this?"
      ("The biggest lesson was that distributed systems fail in ways you can't predict, so you have to design for failure from the start, not as an afterthought. I also learned that the " +:+ dquote +:+ "boring" +:+ dquote +:+ " parts (state machines, heartbeats, retry logic) are what make the system actually work. The flashy parts (Rust, gRPC, streaming) are implementation details. If your coordination is wrong, nothing else matters.")].

Record service : Type := Svc { svc_name : string; svc_tech : string; svc_color : string; svc_bg : string }.
Definition services : list service :=
  [Svc "Control Plane" "Python + FastAPI" "text-info" "bg-info-muted";
   Svc "Data Plane" "Rust + gRPC" "text-recover" "bg-recover-muted";
   Svc "Worker 0" "PyTorch DDP" "text-ok" "bg-ok-muted";
   Svc "Worker 1" "PyTorch DDP" "text-ok" "bg-ok-muted";
   Svc "etcd" "Coordination" "text-brand-violet" "bg-brand-violet/10";
   Svc "MinIO" "S3 Storage" "text-warn" "bg-warn-muted";
   Svc "Prometheus" "Metrics" "text-err" "bg-err-muted";
   Svc "Grafana" "Dashboards" "text-err" "bg-err-muted";
   Svc "Jaeger" "Tracing" "text-warn" "bg-warn-muted";
   Svc "OTEL" "Telemetry" "text-txt-2" "bg-surface-3";
   Svc "Frontend" "React + Vite" "text-brand-violet" "bg-brand-violet/10"].

(** ** State: the index of the open question *)

Inductive msg : Type := SetOpenQA (o : option nat).
Definition init_landing : option nat := None.
Definition update (m : msg) (openQA : option nat) : option nat :=
  match m with SetOpenQA o => o end.

(** ** View *)

Section View.
#[local] Abbreviation node := (node msg).

Definition SectionCounter (num total : Z) (label : string) : node :=
  El "div" [cls "section-counter"]
    [El "span" [cls "divider"] [Txt "["];
     El "span" [cls "num"] [Txt (pad_start 2 "0"%char (dec num))];
     El "span" [cls "divider"] [Txt "/"];
     El "span" [] [Txt (pad_start 2 "0"%char (dec total))];
     El "span" [cls "divider"] [Txt "]"];
     El "span" [cls "divider"] [Txt "·"];
     El "span" [cls "label"] [Txt label]].

(** An entry of the list of questions *)
Definition qa_item (openQA : option nat) (i : nat) (item : qa) : node :=
  let isOpen := bool_decide (openQA = Some i) in
  El "div" [Key (dec (Z.of_nat i)); cls "card overflow-hidden"]
    (El "button" [OnClick (SetOpenQA (if isOpen then None else Some i));
                  cls "w-full flex items-center justify-between gap-4 p-5 text-left cursor-pointer hover:bg-surface-2/50 transition-colors"]
       [El "span" [cls "text-base font-semibold text-txt-1"] [Txt (item.(question))];
        El "svg" [cls ("w-5 h-5 text-txt-3 flex-shrink-0 transition-transform duration-200 " +:+ (if isOpen then "rotate-180" else ""));
                  Attr "fill" "none"; Attr "stroke" "currentColor"; Attr "viewBox" "0 0 24 24"]
          [El "path" [Attr "strokeLinecap" "round"; Attr "strokeLinejoin" "round";
                      Attr "strokeWidth" "2"; Attr "d" "M19 9l-7 7-7-7"] []]] ::
     when isOpen (
       El "div" [cls "px-5 pb-5 pt-0"]
         [El "p" [cls "text-base text-txt-2 leading-relaxed"] [Txt (item.(answer))]])).

Definition hero : node :=
  El "section" [cls "relative overflow-hidden"]
    [El "div" [cls "absolute inset-0 flex items-center justify-center pointer-events-none"]
       [El "div" [cls "w-[800px] h-[500px] bg-brand-violet/[0.07] rounded-full blur-[120px]"] []];
     El "div" [cls "absolute inset-0 bg-grid opacity-60"] [];
     El "div" [cls "relative max-w-4xl mx-auto px-5 pt-16 md:pt-32 pb-16 text-center"]
       [El "p" [cls "text-sm font-semibold text-brand-violet uppercase tracking-widest mb-6"]
          [Txt "A Portfolio Project by ";
           El "a" [Attr "href" "https://www.tasfiqj.com/"; Attr "target" "_blank";
                   Attr "rel" "noopener noreferrer"; cls "underline hover:opacity-80"]
             [Txt "Tasfiq Jasimuddin"]];
        El "h1" [cls "text-4xl sm:text-5xl lg:text-6xl font-extrabold text-txt-1 tracking-tight leading-[1.1]"]
          [Txt "I asked myself: what happens";
           El "br" [] [];
           El "span" [cls "gradient-text"] [Txt "when a machine crashes mid-training?"]];
        El "p" [cls "mt-8 text-xl text-txt-2 max-w-2xl mx-auto leading-relaxed"]
          [Txt "Training AI models can take hours or days across many machines. If one machine dies, all progress is lost.";
           Txt " ";
           El "span" [cls "text-txt-1 font-medium"]
             [Txt "This is my answer: a fault-tolerant checkpoint runtime I designed and built from scratch"];
           Txt " that saves progress automatically and recovers instantly."];
        El "div" [cls "mt-10 flex flex-col sm:flex-row items-stretch sm:items-center justify-center gap-4"]
          [El "Link" [Attr "to" "/demo";
                      cls "btn-primary cursor-pointer inline-flex items-center justify-center gap-2 px-8 py-3.5 text-base font-semibold rounded-lg transition-colors duration-150 w-full sm:w-auto"]
             [Txt "Open the Simulation";
              El "svg" [cls "w-4 h-4"; Attr "fill" "none"; Attr "stroke" "currentColor";
                        Attr "viewBox" "0 0 24 24"]
                [El "path" [Attr "strokeLinecap" "round"; Attr "strokeLinejoin" "round";
                            Attr "strokeWidth" "2"; Attr "d" "M13 7l5 5m0 0l-5 5m5-5H6"] []]];
           El "Link" [Attr "to" "/how-it-works";
                      cls "btn-primary cursor-pointer inline-flex items-center justify-center gap-2 px-8 py-3.5 text-base font-semibold rounded-lg transition-colors duration-150 w-full sm:w-auto"]
             [Txt "How I Built It";
              El "svg" [cls "w-4 h-4"; Attr "fill" "none"; Attr "stroke" "currentColor";
                        Attr "viewBox" "0 0 24 24"]
                [El "path" [Attr "strokeLinecap" "round"; Attr "strokeLinejoin" "round";
                            Attr "strokeWidth" "2"; Attr "d" "M13 7l5 5m0 0l-5 5m5-5H6"] []]]]]].

Definition origin : node :=
  El "section" [Attr "id" "why-i-built-this"; cls "max-w-4xl mx-auto px-5 pt-12 pb-16"]
    [SectionCounter 1 TOTAL "Origin";
     El "h2" [cls "text-3xl sm:text-4xl font-bold text-txt-1 mb-4"] [Txt "Why I Built This"];
     El "p" [cls "text-base text-txt-3 mb-10 max-w-xl"]
       [Txt "The problem that made me want to build something real"];
     El "div" [cls "grid grid-cols-1 md:grid-cols-2 gap-6"]
       [El "div" [cls "card p-6 border-err/20"]
          [El "div" [cls "flex items-center gap-3 mb-4"]
             [El "div" [cls "w-10 h-10 rounded-xl bg-err-muted flex items-center justify-center"]
                [El "svg" [cls "w-5 h-5 text-err"; Attr "fill" "none"; Attr "stroke" "currentColor";
                           Attr "viewBox" "0 0 24 24"]
                   [El "path" [Attr "strokeLinecap" "round"; Attr "strokeLinejoin" "round";
                               Attr "strokeWidth" "2"; Attr "d" "M6 18L18 6M6 6l12 12"] []]];
              El "h3" [cls "text-lg font-bold text-err"] [Txt "The Problem I Kept Seeing"]];
           El "div" [cls "space-y-3 text-base text-txt-2 leading-relaxed"]
             [El "p" []
                [Txt "I was reading about how Meta and Google train models across thousands of GPUs, and the same problem kept coming up: ";
                 El "span" [cls "text-err font-medium"]
                   [Txt "hardware fails all the time at scale."]];
              El "p" []
                [Txt "Imagine writing a 50-page essay for 8 hours, then your computer crashes and you never saved. You start from page 1. That's what happens during AI training when a machine dies without checkpointing."];
              El "p" [cls "text-txt-3 text-sm"]
                [Txt "At scale, a single failure can waste thousands of dollars in compute time."]]];
        El "div" [cls "card p-6 border-ok/20"]
          [El "div" [cls "flex items-center gap-3 mb-4"]
             [El "div" [cls "w-10 h-10 rounded-xl bg-ok-muted flex items-center justify-center"]
                [El "svg" [cls "w-5 h-5 text-ok"; Attr "fill" "none"; Attr "stroke" "currentColor";
                           Attr "viewBox" "0 0 24 24"]
                   [El "path" [Attr "strokeLinecap" "round"; Attr "strokeLinejoin" "round";
                               Attr "strokeWidth" "2"; Attr "d" "M5 13l4 4L19 7"] []]];
              El "h3" [cls "text-lg font-bold text-ok"] [Txt "What I Built to Solve It"]];
           El "div" [cls "space-y-3 text-base text-txt-2 leading-relaxed"]
             [El "p" []
                [Txt "So I built a system that automatically saves a snapshot of everything the AI has learned, every 50 training steps. Like hitting";
                 Txt " ";
                 El "span" [cls "text-ok font-medium"] [Txt "Ctrl+S every few seconds."]];
              El "p" []
                [Txt "When a machine crashes, the system detects it through missed heartbeats, restarts the machine, loads the last save from object storage, and";
                 Txt " ";
                 El "span" [cls "text-ok font-medium"] [Txt "picks up right where it left off."]];
              El "p" [cls "text-txt-3 text-sm"]
                [Txt "Zero data loss. Automatic recovery. No human intervention needed."]]]]].

Definition engineering : node :=
  El "section" [Attr "id" "engineering"; cls "max-w-4xl mx-auto px-5 py-16"]
    [SectionCounter 2 TOTAL "Engineering";
     El "h2" [cls "text-3xl sm:text-4xl font-bold text-txt-1 mb-4"]
       [Txt "My Engineering Decisions"];
     El "p" [cls "text-base text-txt-3 mb-12 max-w-xl"]
       [Txt "Why I made each technical choice, not just what I used"];
     El "div" [cls "space-y-6"]
       [El "div" [cls "card p-6"]
          [El "div" [cls "flex items-start gap-4"]
             [El "div" [cls "w-10 h-10 rounded-xl bg-recover-muted flex items-center justify-center flex-shrink-0 mt-0.5"]
                [El "span" [cls "text-recover font-bold text-sm"] [Txt "1"]];
              El "div" []
                [El "h3" [cls "text-lg font-bold text-txt-1 mb-2"]
                   [Txt "I split the system into a Control Plane and Data Plane"];
                 El "p" [cls "text-base text-txt-2 leading-relaxed"]
                   [Txt "I chose this because it mirrors how real infrastructure at companies like Meta works. The ";
                    El "span" [cls "text-info font-medium"] [Txt "Control Plane"];
                    Txt " (Python/FastAPI) is the brain. It decides";
                    Txt " ";
                    El "em" [] [Txt "when"];
                    Txt " to save, tracks which machines are alive via etcd leases, and manages the training lifecycle through an 8-state machine. The ";
                    El "span" [cls "text-recover font-medium"] [Txt "Data Plane"];
                    Txt " (Rust) does the heavy lifting. It";
                    Txt " ";
                    El "em" [] [Txt "actually moves"];
                    Txt " checkpoint data to S3 storage via gRPC streaming as fast as possible. Separating these concerns means each can be optimized independently."]]]];
        El "div" [cls "card p-6"]
          [El "div" [cls "flex items-start gap-4"]
             [El "div" [cls "w-10 h-10 rounded-xl bg-recover-muted flex items-center justify-center flex-shrink-0 mt-0.5"]
                [El "span" [cls "text-recover font-bold text-sm"] [Txt "2"]];
              El "div" []
                [El "h3" [cls "text-lg font-bold text-txt-1 mb-2"]
                   [Txt "I wrote the Data Plane in Rust for speed and safety"];
                 El "p" [cls "text-base text-txt-2 leading-relaxed"]
                   [Txt "I could have done everything in Python, but the bottleneck in checkpointing is I/O: moving gigabytes of model weights to storage. Rust gives me zero-overhead async I/O via Tokio and memory safety without a garbage collector. The result: checkpoint data streams to S3 storage via gRPC at near-wire speed, with SHA-256 checksums verifying every byte. If a write fails, built-in retry logic with exponential backoff and jitter handles it automatically."]]]];
        El "div" [cls "card p-6"]
          [El "div" [cls "flex items-start gap-4"]
             [El "div" [cls "w-10 h-10 rounded-xl bg-recover-muted flex items-center justify-center flex-shrink-0 mt-0.5"]
                [El "span" [cls "text-recover font-bold text-sm"] [Txt "3"]];
              El "div" []
                [El "h3" [cls "text-lg font-bold text-txt-1 mb-2"]
                   [Txt "I used an 8-state machine to coordinate everything"];
                 El "p" [cls "text-base text-txt-2 leading-relaxed"]
                   [Txt "The hardest part wasn't writing the training loop. It was coordinating everything around it. The system tracks every training run through 8 possible states:";
                    Txt " ";
                    El "code" [cls "text-xs bg-surface-3 px-1.5 py-0.5 rounded text-txt-2 font-mono"]
                      [Txt "CREATED → RUNNING → CHECKPOINTING → COMMITTED"];
                    Txt " ";
                    Txt "in a loop. When something goes wrong:";
                    Txt " ";
                    El "code" [cls "text-xs bg-surface-3 px-1.5 py-0.5 rounded text-txt-2 font-mono"]
                      [Txt "FAILED → RECOVERING → RUNNING"];
                    Txt ". This state machine lives in etcd (a distributed key-value store), so every component always knows exactly what's happening, even across multiple machines."]]]];
        El "div" [cls "card p-6"]
          [El "div" [cls "flex items-start gap-4"]
             [El "div" [cls "w-10 h-10 rounded-xl bg-recover-muted flex items-center justify-center flex-shrink-0 mt-0.5"]
                [El "span" [cls "text-recover font-bold text-sm"] [Txt "4"]];
              El "div" []
                [El "h3" [cls "text-lg font-bold text-txt-1 mb-2"]
                   [Txt "I built and validated the real stack"];
                 El "p" [cls "text-base text-txt-2 leading-relaxed"]
                   [Txt "The full 11-container system previously ran on a Hetzner VPS, where I exercised real PyTorch workers, checkpoint files, failure detection, and recovery. I’m retiring that paid backend server to avoid an ongoing hosting bill. The hosted Simulation now runs entirely in your browser; the same real Docker stack is still available on the Try Locally page."]]]]];
     El "div" [cls "mt-10 flex justify-center"]
       [El "Link" [Attr "to" "/how-it-works";
                   cls "btn-primary cursor-pointer inline-flex items-center gap-2 px-8 py-3.5 text-base font-semibold rounded-lg transition-colors duration-150"]
          [Txt "Exhaustive Details";
           El "svg" [cls "w-4 h-4"; Attr "fill" "none"; Attr "stroke" "currentColor";
                     Attr "viewBox" "0 0 24 24"]
             [El "path" [Attr "strokeLinecap" "round"; Attr "strokeLinejoin" "round";
                         Attr "strokeWidth" "2"; Attr "d" "M13 7l5 5m0 0l-5 5m5-5H6"] []]]]].

Definition simulation_flow : node :=
  El "section" [cls "max-w-4xl mx-auto px-5 py-16"]
    [SectionCounter 3 TOTAL "Simulation";
     El "h2" [cls "text-3xl sm:text-4xl font-bold text-txt-1 mb-4"]
       [Txt "Explore the Recovery Flow in Your Browser"];
     El "p" [cls "text-base text-txt-3 mb-12 max-w-xl"]
       [Txt "A browser-only walkthrough of the real system's failure and recovery sequence. No backend is contacted."];
     El "div" [cls "grid grid-cols-1 md:grid-cols-3 gap-5"]
       [El "div" [cls "card p-6 space-y-4 text-center"]
          [El "div" [cls "w-12 h-12 mx-auto rounded-2xl bg-ok-muted flex items-center justify-center"]
             [El "span" [cls "text-ok font-bold text-lg"] [Txt "1"]];
           El "h3" [cls "text-lg font-bold text-txt-1"] [Txt "Training Starts"];
           El "p" [cls "text-base text-txt-2 leading-relaxed"]
             [Txt "Two simulated workers begin a representative training run. You'll see the step counter climb and checkpoint events appear every 50 steps."]];
        El "div" [cls "card p-6 space-y-4 text-center"]
          [El "div" [cls "w-12 h-12 mx-auto rounded-2xl bg-err-muted flex items-center justify-center"]
             [El "span" [cls "text-err font-bold text-lg"] [Txt "2"]];
           El "h3" [cls "text-lg font-bold text-txt-1"] [Txt "You Simulate a Crash"];
           El "p" [cls "text-base text-txt-2 leading-relaxed"]
             [Txt "Click the failure control to advance the browser simulation. It models the same event that a real";
              Txt " ";
              El "code" [cls "text-xs bg-surface-3 px-1 py-0.5 rounded text-txt-3 font-mono"]
                [Txt "docker kill"];
              Txt " ";
              Txt "produced when the hosted stack was online, without touching a server."]];
        El "div" [cls "card p-6 space-y-4 text-center"]
          [El "div" [cls "w-12 h-12 mx-auto rounded-2xl bg-info-muted flex items-center justify-center"]
             [El "span" [cls "text-info font-bold text-lg"] [Txt "3"]];
           El "h3" [cls "text-lg font-bold text-txt-1"] [Txt "It Recovers Itself"];
           El "p" [cls "text-base text-txt-2 leading-relaxed"]
             [Txt "The simulation visualizes heartbeat expiry, restart, checkpoint restore, and resumed training. Run the Docker stack locally to execute that recovery path against real containers."]]];
     El "div" [cls "text-center mt-10"]
       [El "Link" [Attr "to" "/demo";
                   cls "btn-primary cursor-pointer inline-flex items-center gap-2 px-8 py-3.5 text-base font-semibold rounded-lg"]
          [Txt "Try It Yourself";
           El "svg" [cls "w-4 h-4"; Attr "fill" "none"; Attr "stroke" "currentColor";
                     Attr "viewBox" "0 0 24 24"]
             [El "path" [Attr "strokeLinecap" "round"; Attr "strokeLinejoin" "round";
                         Attr "strokeWidth" "2"; Attr "d" "M13 7l5 5m0 0l-5 5m5-5H6"] []]]]].

Definition infrastructure : node :=
  El "section" [cls "max-w-4xl mx-auto px-5 py-16"]
    [SectionCounter 4 TOTAL "Infrastructure";
     El "h2" [cls "text-3xl sm:text-4xl font-bold text-txt-1 mb-4"]
       [Txt "The Public Site No Longer Needs the Paid Backend"];
     El "p" [cls "text-base text-txt-3 mb-10 max-w-xl"]
       [Txt "This system previously ran on a Hetzner VPS. I’m retiring that paid backend server to avoid ongoing cost; the public site is now backend-free, while the real stack remains runnable locally."];
     El "div" [cls "card p-6 space-y-6"]
       [El "div" [cls "flex flex-col sm:flex-row items-start sm:items-center gap-4 pb-5 border-b border-line"]
          [El "div" [cls "flex items-center gap-3"]
             [El "div" [cls "w-3 h-3 rounded-full bg-warn"] [];
              El "span" [cls "text-base font-semibold text-txt-1"]
                [Txt "Hosted Backend Being Retired"]];
           El "div" [cls "flex flex-wrap gap-2 text-sm"]
             [El "span" [cls "bg-surface-3 text-txt-2 px-2.5 py-1 rounded-lg font-mono"]
                [Txt "Previously: Hetzner CPX31"];
              El "span" [cls "bg-surface-3 text-txt-2 px-2.5 py-1 rounded-lg font-mono"]
                [Txt "Public demo: browser-only"];
              El "span" [cls "bg-surface-3 text-txt-2 px-2.5 py-1 rounded-lg font-mono"]
                [Txt "Real stack: local Docker"]]];
        El "div" [cls "grid grid-cols-2 sm:grid-cols-3 lg:grid-cols-4 gap-3"]
          (map (fun svc => 
             El "div" [Key (svc.(svc_name)); cls (svc.(svc_bg) +:+ " rounded-xl px-3 py-2.5")]
               [El "p" [cls ("text-sm font-semibold " +:+ svc.(svc_color))] [Txt (svc.(svc_name))];
                El "p" [cls "text-xs text-txt-3 mt-0.5"] [Txt (svc.(svc_tech))]]) services);
        El "p" [cls "text-sm text-txt-3 text-center"]
          [Txt "These are the 11 services in the project. They are not running behind this hosted page; follow Try Locally to launch them together with Docker Compose on your own machine."]]].

Definition architecture : node :=
  El "section" [Attr "id" "architecture"; cls "max-w-4xl mx-auto px-5 py-16"]
    [SectionCounter 5 TOTAL "Architecture";
     El "h2" [cls "text-3xl sm:text-4xl font-bold text-txt-1 mb-4"] [Txt "System Architecture"];
     El "p" [cls "text-base text-txt-3 mb-10 max-w-xl"]
       [Txt "How I connected the 11 services together"];
     ArchitectureDiagram].

Definition reliability : node :=
  El "section" [cls "max-w-4xl mx-auto px-5 py-16"]
    [SectionCounter 6 TOTAL "Reliability";
     El "h2" [cls "text-3xl sm:text-4xl font-bold text-txt-1 mb-4"]
       [Txt "Designing for Failure, Not Perfection"];
     El "p" [cls "text-base text-txt-3 mb-12 max-w-xl"]
       [Txt "The question I kept asking was: what if THIS part fails?"];
     El "div" [cls "grid grid-cols-1 md:grid-cols-2 gap-6"]
       [El "div" [cls "card p-6"]
          [El "div" [cls "flex items-center gap-3 mb-3"]
             [El "div" [cls "w-9 h-9 rounded-lg bg-info-muted flex items-center justify-center"]
                [El "svg" [cls "w-4.5 h-4.5 text-info"; Attr "fill" "none";
                           Attr "stroke" "currentColor"; Attr "viewBox" "0 0 24 24";
                           Attr "strokeWidth" "2"]
                   [El "path" [Attr "strokeLinecap" "round"; Attr "strokeLinejoin" "round";
                               Attr "d" "M9 12l2 2 4-4m5.618-4.016A11.955 11.955 0 0112 2.944a11.955 11.955 0 01-8.618 3.04A12.02 12.02 0 003 9c0 5.591 3.824 10.29 9 11.622 5.176-1.332 9-6.03 9-11.622 0-1.042-.133-2.052-.382-3.016z"] []]];
              El "h3" [cls "text-base font-bold text-txt-1"] [Txt "Atomic Checkpoint Commits"]];
           El "p" [cls "text-sm text-txt-2 leading-relaxed"]
             [Txt ("What if the system crashes halfway through saving a checkpoint? I solved this with the manifest pattern: all data shards are written first, and a manifest file is written last as the " +:+ dquote +:+ "commit signal." +:+ dquote +:+ " If the manifest doesn't exist, the checkpoint is incomplete and gets ignored. No half-written saves, ever.")]];
        El "div" [cls "card p-6"]
          [El "div" [cls "flex items-center gap-3 mb-3"]
             [El "div" [cls "w-9 h-9 rounded-lg bg-err-muted flex items-center justify-center"]
                [El "svg" [cls "w-4.5 h-4.5 text-err"; Attr "fill" "none";
                           Attr "stroke" "currentColor"; Attr "viewBox" "0 0 24 24";
                           Attr "strokeWidth" "2"]
                   [El "path" [Attr "strokeLinecap" "round"; Attr "strokeLinejoin" "round";
                               Attr "d" "M4.318 6.318a4.5 4.5 0 000 6.364L12 20.364l7.682-7.682a4.5 4.5 0 00-6.364-6.364L12 7.636l-1.318-1.318a4.5 4.5 0 00-6.364 0z"] []]];
              El "h3" [cls "text-base font-bold text-txt-1"]
                [Txt "Heartbeat-Based Failure Detection"]];
           El "p" [cls "text-sm text-txt-2 leading-relaxed"]
             [Txt "How do you know a machine is dead vs. just slow? Each worker sends heartbeats to etcd with a TTL lease. If heartbeats stop, the lease expires and the control plane knows that worker is gone. Not guessing, not polling, just a clean timeout. This is the same pattern used in production Kubernetes clusters."]];
        El "div" [cls "card p-6"]
          [El "div" [cls "flex items-center gap-3 mb-3"]
             [El "div" [cls "w-9 h-9 rounded-lg bg-warn-muted flex items-center justify-center"]
                [El "svg" [cls "w-4.5 h-4.5 text-warn"; Attr "fill" "none";
                           Attr "stroke" "currentColor"; Attr "viewBox" "0 0 24 24";
                           Attr "strokeWidth" "2"]
                   [El "path" [Attr "strokeLinecap" "round"; Attr "strokeLinejoin" "round";
                               Attr "d" "M7 21h10a2 2 0 002-2V9.414a1 1 0 00-.293-.707l-5.414-5.414A1 1 0 0012.586 3H7a2 2 0 00-2 2v14a2 2 0 002 2z"] []]];
              El "h3" [cls "text-base font-bold text-txt-1"] [Txt "Content-Addressed Storage"]];
           El "p" [cls "text-sm text-txt-2 leading-relaxed"]
             [Txt "What if the same shard gets uploaded twice? Each file is named by its SHA-256 hash, so identical data always maps to the same key. This makes writes idempotent: if a retry re-uploads the same shard, it just overwrites with identical content. No duplicates, no corruption, no wasted storage."]];
        El "div" [cls "card p-6"]
          [El "div" [cls "flex items-center gap-3 mb-3"]
             [El "div" [cls "w-9 h-9 rounded-lg bg-recover-muted flex items-center justify-center"]
                [El "svg" [cls "w-4.5 h-4.5 text-recover"; Attr "fill" "none";
                           Attr "stroke" "currentColor"; Attr "viewBox" "0 0 24 24";
                           Attr "strokeWidth" "2"]
                   [El "path" [Attr "strokeLinecap" "round"; Attr "strokeLinejoin" "round";
                               Attr "d" "M13 17h8m0 0V9m0 8l-8-8-4 4-6-6"] []]];
              El "h3" [cls "text-base font-bold text-txt-1"] [Txt "Backpressure & Flow Control"]];
           El "p" [cls "text-sm text-txt-2 leading-relaxed"]
             [Txt "What if checkpoints come in faster than storage can handle? The Rust data plane uses a bounded queue. If the queue fills up, it pushes back on the control plane to slow down instead of crashing with out-of-memory errors. This is the same pattern used in TCP flow control and production message queues."]]]].

Definition proof : node :=
  El "section" [cls "max-w-4xl mx-auto px-5 py-16"]
    [SectionCounter 7 TOTAL "Proof";
     El "div" [cls "card p-8 border-brand-violet/20"]
       [El "h2" [cls "text-2xl font-bold text-txt-1 text-center mb-3"]
          [Txt "What is simulated, and what is real?"];
        El "p" [cls "text-base text-txt-3 text-center mb-6"]
          [Txt "The public Simulation is intentionally browser-only. Run the project locally for real execution:"];
        El "div" [cls "grid grid-cols-1 sm:grid-cols-2 gap-4"]
          [El "div" [cls "flex items-start gap-3"]
             [El "svg" [cls "w-5 h-5 text-ok flex-shrink-0 mt-0.5"; Attr "fill" "none";
                        Attr "stroke" "currentColor"; Attr "viewBox" "0 0 24 24"]
                [El "path" [Attr "strokeLinecap" "round"; Attr "strokeLinejoin" "round";
                            Attr "strokeWidth" "2"; Attr "d" "M5 13l4 4L19 7"] []];
              El "p" [cls "text-base text-txt-2"]
                [El "span" [cls "text-txt-1 font-medium"] [Txt "Simulation:"];
                 Txt " representative training, checkpoint, failure, and recovery events generated in your browser"]];
           El "div" [cls "flex items-start gap-3"]
             [El "svg" [cls "w-5 h-5 text-ok flex-shrink-0 mt-0.5"; Attr "fill" "none";
                        Attr "stroke" "currentColor"; Attr "viewBox" "0 0 24 24"]
                [El "path" [Attr "strokeLinecap" "round"; Attr "strokeLinejoin" "round";
                            Attr "strokeWidth" "2"; Attr "d" "M5 13l4 4L19 7"] []];
              El "p" [cls "text-base text-txt-2"]
                [El "span" [cls "text-txt-1 font-medium"] [Txt "Local Docker:"];
                 Txt " real MinIO checkpoint shards and SHA-256 hashes appear as the workers write them"]];
           El "div" [cls "flex items-start gap-3"]
             [El "svg" [cls "w-5 h-5 text-ok flex-shrink-0 mt-0.5"; Attr "fill" "none";
                        Attr "stroke" "currentColor"; Attr "viewBox" "0 0 24 24"]
                [El "path" [Attr "strokeLinecap" "round"; Attr "strokeLinejoin" "round";
                            Attr "strokeWidth" "2"; Attr "d" "M5 13l4 4L19 7"] []];
              El "p" [cls "text-base text-txt-2"]
                [El "span" [cls "text-txt-1 font-medium"] [Txt "Local Docker:"];
                 Txt " inspect real";
                 Txt " ";
                 El "code" [cls "text-xs bg-surface-3 px-1 py-0.5 rounded font-mono"]
                   [Txt "docker ps"];
                 Txt " output and watch a killed worker stop and recover"]];
           El "div" [cls "flex items-start gap-3"]
             [El "svg" [cls "w-5 h-5 text-ok flex-shrink-0 mt-0.5"; Attr "fill" "none";
                        Attr "stroke" "currentColor"; Attr "viewBox" "0 0 24 24"]
                [El "path" [Attr "strokeLinecap" "round"; Attr "strokeLinejoin" "round";
                            Attr "strokeWidth" "2"; Attr "d" "M5 13l4 4L19 7"] []];
              El "p" [cls "text-base text-txt-2"]
                [El "span" [cls "text-txt-1 font-medium"] [Txt "No hidden backend:"];
                 Txt " the hosted page does not contact Hetzner or any replacement compute server"]]]]].

Definition questions (openQA : option nat) : node :=
  El "section" [cls "max-w-4xl mx-auto px-5 py-16"]
    [SectionCounter 8 TOTAL "Q&A";
     El "h2" [cls "text-3xl sm:text-4xl font-bold text-txt-1 mb-4"]
       [Txt "Questions I'd Want to Ask"];
     El "p" [cls "text-base text-txt-3 mb-10 max-w-xl"]
       [Txt "If I were reading someone's project, these are the questions I'd have"];
     El "div" [cls "space-y-3"]
       (imap (qa_item openQA) QA_ITEMS)].

Definition stack : node :=
  El "section" [cls "max-w-4xl mx-auto px-5 py-16"]
    [SectionCounter 9 TOTAL "Stack";
     El "h2" [cls "text-3xl sm:text-4xl font-bold text-txt-1 mb-3"] [Txt "Tech Stack"];
     El "p" [cls "text-base text-txt-3 mb-8"] [Txt "Technologies I used across the system"];
     El "div" [cls "flex flex-wrap justify-center gap-2"]
       (map (fun tech => 
          El "span" [Key (tech.(tech_label));
                     cls ("inline-flex items-center px-4 py-2 rounded-full text-sm font-medium border " +:+ tech.(tech_color))]
            [Txt (tech.(tech_label))]) TECH_STACK)].

Definition footer_cta : node :=
  El "section" [cls "max-w-4xl mx-auto px-5 py-20 text-center"]
    [El "div" [cls "space-y-6"]
       [El "h2" [cls "text-3xl font-bold text-txt-1"] [Txt "Want to see it break and recover?"];
        El "p" [cls "text-base text-txt-2 max-w-md mx-auto"]
          [Txt "Explore the recovery sequence safely in your browser, or run the real containers on your machine."];
        El "div" [cls "flex flex-col sm:flex-row items-center justify-center gap-3"]
          [El "Link" [Attr "to" "/demo";
                      cls "btn-primary cursor-pointer inline-flex items-center gap-2 px-8 py-3.5 text-base font-semibold rounded-lg transition-colors duration-150"]
             [Txt "Open Simulation";
              El "svg" [cls "w-4 h-4"; Attr "fill" "none"; Attr "stroke" "currentColor";
                        Attr "viewBox" "0 0 24 24"]
                [El "path" [Attr "strokeLinecap" "round"; Attr "strokeLinejoin" "round";
                            Attr "strokeWidth" "2"; Attr "d" "M13 7l5 5m0 0l-5 5m5-5H6"] []]];
           El "a" [Attr "href" "https://github.com/TasfiqJ/checkpoint-runtime";
                   Attr "target" "_blank"; Attr "rel" "noopener noreferrer";
                   cls "btn-ghost cursor-pointer inline-flex items-center gap-2 px-6 py-3.5 text-base font-semibold rounded-lg transition-colors duration-150"]
             [El "svg" [cls "w-5 h-5"; Attr "fill" "currentColor"; Attr "viewBox" "0 0 24 24"]
                [El "path" [Attr "d" "M12 0c-6.626 0-12 5.373-12 12 0 5.302 3.438 9.8 8.207 11.387.599.111.793-.261.793-.577v-2.234c-3.338.726-4.033-1.416-4.033-1.416-.546-1.387-1.333-1.756-1.333-1.756-1.089-.745.083-.729.083-.729 1.205.084 1.839 1.237 1.839 1.237 1.07 1.834 2.807 1.304 3.492.997.107-.775.418-1.305.762-1.604-2.665-.305-5.467-1.334-5.467-5.931 0-1.311.469-2.381 1.236-3.221-.124-.303-.535-1.524.117-3.176 0 0 1.008-.322 3.301 1.23.957-.266 1.983-.399 3.003-.404 1.02.005 2.047.138 3.006.404 2.291-1.552 3.297-1.23 3.297-1.23.653 1.653.242 2.874.118 3.176.77.84 1.235 1.911 1.235 3.221 0 4.609-2.807 5.624-5.479 5.921.43.372.823 1.102.823 2.222v3.293c0 .319.192.694.801.576 4.765-1.589 8.199-6.086 8.199-11.386 0-6.627-5.373-12-12-12z"] []];
              Txt "View Source Code"]];
        El "p" [cls "text-sm text-txt-3"]
          [Txt "Built by ";
           El "a" [Attr "href" "https://www.tasfiqj.com/"; Attr "target" "_blank";
                   Attr "rel" "noopener noreferrer"; cls "underline hover:opacity-80 text-txt-2"]
             [Txt "Tasfiq Jasimuddin"]]]].

Definition LandingPage (openQA : option nat) : node :=
  El "div" [cls "min-h-screen bg-surface-0"]
    [hero; origin; engineering; simulation_flow; infrastructure; architecture; reliability; proof; questions openQA; stack; footer_cta].
End View.

(** ** The questions *)

(** The messages of the page: a header that is closed opens its answer, an open one
    closes it. *)
Lemma landing_offers (o : option nat) :
  offers (LandingPage o) = map (fun i => SetOpenQA (if bool_decide (o = Some i) then None else Some i)) (seq 0 (length QA_ITEMS)).
Proof.
  assert (Q : forall n, In n [hero; origin; engineering; simulation_flow; infrastructure; architecture; reliability;
                              proof; stack; footer_cta] -> offers n = []).
  { intros n Hn. repeat (destruct Hn as [<-|Hn]; [vm_compute; reflexivity|]). destruct Hn. }
  unfold LandingPage. rewrite offers_el, !offers_list_cons. rewrite !Q by (cbn; tauto).
  unfold questions. rewrite !offers_el, !offers_list_cons, offers_el. cbn. repeat (case_bool_decide; cbn); reflexivity.
Qed.

(** The open answers, by index *)
Definition open_answers (o : option nat) : list nat :=
  filter (fun i => o = Some i) (seq 0 (length QA_ITEMS)).

(** A sequence of clicks on headers of the page as it is then shown *)
Inductive clicks : option nat -> list nat -> option nat -> Prop :=
| clicks_nil o : clicks o [] o
| clicks_cons o i m ks o' :
    offers (LandingPage o) !! i = Some m -> clicks (update m o) ks o' -> clicks o (i :: ks) o'.

(** the questions are an accordion. After any clicks on the headers at most one
    answer is open, and it is the one of the last header clicked: it is open if the
    answer was closed before that click, and nothing is open otherwise. *)
Theorem accordion (ks : list nat) (i : nat) (o o' o'' : option nat) :
  clicks init_landing ks o -> clicks o [i] o' ->
  o' = (if bool_decide (o = Some i) then None else Some i) /\
  (length (open_answers o') <= 1)%nat /\ (i < length QA_ITEMS)%nat /\
  (clicks o' [i] o'' -> o'' = if bool_decide (o = Some i) then Some i else None).
Proof.
  assert (One : forall a j b, clicks a [j] b -> b = (if bool_decide (a = Some j) then None else Some j) /\ (j < length QA_ITEMS)%nat).
  { intros a j b H. inversion H as [|? ? m ? ? E H']; subst. inversion H'; subst.
    rewrite landing_offers, list_lookup_fmap in E. destruct (seq 0 _ !! j) as [k|] eqn:S; [|done].
    apply lookup_seq in S as [-> L]. injection E as <-. split; [|done]. by destruct (bool_decide _). }
  intros _ H. destruct (One _ _ _ H) as [-> L]. split_and!; [done| |done|].
  - unfold open_answers. case_bool_decide.
    + rewrite filter_none; [cbn; lia|]. by apply Forall_true.
    + assert (N : NoDup (filter (fun j => Some i = Some j) (seq 0 (length QA_ITEMS)))) by apply NoDup_filter, NoDup_seq.
      destruct (filter _ _) as [|x [|y l]] eqn:E; cbn; [lia|lia|]. exfalso.
      assert (X : forall z, z ∈ x :: y :: l -> z = i) by (intros z Hz; rewrite <- E in Hz; by apply list_elem_of_filter in Hz as [[= ->] _]).
      rewrite (X x), (X y) in N by (repeat constructor). apply NoDup_cons in N as [N _]. apply N. by left.
  - intros H2. destruct (One _ _ _ H2) as [-> _]. destruct (bool_decide_reflect (o = Some i)) as [E|E].
    + by rewrite bool_decide_false.
    + by rewrite bool_decide_true.
Qed.

Lemma accordion_witness :
  clicks init_landing [2%nat; 4%nat] (Some 4%nat) /\ (length (open_answers (Some 4%nat)) <= 1)%nat.
Proof.
  assert (H : clicks (Some 2%nat) [4%nat] (Some 4%nat)).
  { eapply clicks_cons; [rewrite landing_offers; reflexivity|]. apply clicks_nil. }
  assert (H0 : clicks init_landing [2%nat] (Some 2%nat)).
  { eapply clicks_cons; [rewrite landing_offers; reflexivity|]. apply clicks_nil. }
  split.
  - eapply clicks_cons; [rewrite landing_offers; reflexivity|exact H].
  - exact (proj1 (proj2 (accordion [2%nat] 4 (Some 2%nat) (Some 4%nat) None H0 H))).
Defined.
