(* ===== verification/HowItWorks.v ===== *)
(** * The how-it-works page: [frontend/src/pages/HowItWorksPage.tsx]

    A static explanation of the system. Its table of run states is compared with the state
    machine in [Site]. *)

From S2P Require Import Prelude JsString JsNum Html.

(** The text of a code block, line by line *)
Fixpoint lines (l : list string) : string :=
  match l with
  | [] => ""
  | [s] => s
  | s :: l' => s +:+ newline +:+ lines l'
  end.

(** ** Tables *)

Record fsm_row : Type := FsmRow { fsm_row_state : string; fsm_row_meaning : string; fsm_row_next : string }.
Definition fsm_rows : list fsm_row :=
  [FsmRow "CREATED" "Run registered, not started yet" "RUNNING, CANCELLED";
   FsmRow "RUNNING" "Training is actively happening" "CHECKPOINTING, FAILED, COMPLETED, CANCELLED";
   FsmRow "CHECKPOINTING" "Saving model bytes to storage" "COMMITTED, FAILED, RUNNING";
   FsmRow "COMMITTED" "Checkpoint saved successfully" "RUNNING, COMPLETED, FAILED";
   FsmRow "FAILED" "Worker died or heartbeat timed out" "RECOVERING, CANCELLED";
   FsmRow "RECOVERING" "Loading checkpoint, about to resume" "RUNNING, FAILED, CANCELLED";
   FsmRow "COMPLETED" "Training finished all steps (terminal)" "none";
   FsmRow "CANCELLED" "Manually stopped (terminal)" "none"].

Record docker_row : Type := DockerRow { docker_name : string; docker_port : string; docker_desc : string }.
Definition docker_rows : list docker_row :=
  [DockerRow "ckpt-etcd" "2379" "Coordination store for leases, run state, metadata";
   DockerRow "ckpt-minio" "9000" "S3-compatible object storage for checkpoint files";
   DockerRow "ckpt-dataplane" "50051" "Rust gRPC server, writes/reads shards to MinIO";
   DockerRow "ckpt-controlplane" "8000" "Python REST API, orchestrates everything";
   DockerRow "ckpt-worker-0" "--" "PyTorch DDP worker rank 0 (saves checkpoints)";
   DockerRow "ckpt-worker-1" "--" "PyTorch DDP worker rank 1 (trains in parallel)";
   DockerRow "ckpt-frontend" "3000" "React dashboard and this page you're reading";
   DockerRow "ckpt-otel" "4317" "OpenTelemetry Collector, receives and routes telemetry";
   DockerRow "ckpt-prometheus" "9091" "Time-series database for metrics";
   DockerRow "ckpt-grafana" "3001" "Dashboard UI for metrics visualization";
   DockerRow "ckpt-jaeger" "16686" "Distributed tracing UI"].

(** ** View *)

Section View.
Context {M : Type}.
#[local] Abbreviation node := (node M).

Definition Section_ (title : string) (children : list node) : node :=
  El "section" [cls "space-y-4"]
    (El "h2" [cls "text-lg font-semibold text-txt-1 border-b border-line pb-3"] [Txt title] ::
     children).

Definition SubSection (title : string) (children : list node) : node :=
  El "div" [cls "space-y-2"]
    (El "h3" [cls "text-sm font-semibold text-txt-1"] [Txt title] ::
     children).

Definition P (children : list node) : node :=
  El "p" [cls "text-sm text-txt-2 leading-relaxed"]
    (children).

Definition Strong (children : list node) : node :=
  El "strong" [cls "text-txt-1 font-medium"]
    (children).

Definition Code (children : list node) : node :=
  El "code" [cls "text-xs font-mono bg-surface-3 text-brand-blue px-1.5 py-0.5 rounded"]
    (children).

Definition CodeBlock (children : string) : node :=
  El "pre" [cls "bg-surface-0 border border-line rounded-lg p-3.5 text-[11px] font-mono text-txt-2 overflow-x-auto leading-relaxed"]
    [Txt children].

Definition BulletList (items : list string) : node :=
  El "ul" [cls "space-y-1.5 ml-4"]
    (imap (fun i item => 
       El "li" [Key (dec (Z.of_nat i)); cls "text-sm text-txt-2 leading-relaxed flex gap-2"]
         [El "span" [cls "text-txt-3 mt-1.5 flex-shrink-0 text-[8px]"] [Txt "●"];
          El "span" [] [Txt item]]) items).

Definition Step (n : Z) (title : string) (children : list node) : node :=
  El "div" [cls "space-y-2.5 pl-4 border-l-2 border-brand-violet/20"]
    (El "div" [cls "flex items-center gap-2.5"]
       [El "span" [cls "w-6 h-6 rounded-md bg-brand-violet/15 text-brand-violet text-xs font-semibold flex items-center justify-center flex-shrink-0"]
          [Txt (dec n)];
        El "h3" [cls "text-sm font-semibold text-txt-1"] [Txt title]] ::
     children).

Definition TechChoice (tech reason : string) : node :=
  El "div" [cls "card p-4"]
    [El "h4" [cls "text-xs font-semibold text-brand-violet mb-1.5"] [Txt tech];
     El "p" [cls "text-xs text-txt-2 leading-relaxed"] [Txt reason]].

Definition fsm_row_view (row : fsm_row) : node :=
  El "tr" [Key (row.(fsm_row_state)); cls "border-b border-line-subtle"]
    [El "td" [cls "table-cell font-mono text-brand-violet"] [Txt (row.(fsm_row_state))];
     El "td" [cls "table-cell"] [Txt (row.(fsm_row_meaning))];
     El "td" [cls "table-cell font-mono text-txt-3"] [Txt (row.(fsm_row_next))]].

Definition docker_row_view (row : docker_row) : node :=
  El "tr" [Key (row.(docker_name)); cls "border-b border-line-subtle"]
    [El "td" [cls "table-cell font-mono text-brand-violet"] [Txt (row.(docker_name))];
     El "td" [cls "table-cell font-mono text-txt-3"] [Txt (row.(docker_port))];
     El "td" [cls "table-cell"] [Txt (row.(docker_desc))]].

Definition the_problem : node :=
  Section_ "The Problem: Why This Exists"
    [P
       [Txt "You're training a neural network across 2 machines. It takes 1,000 steps. At step 850, one machine crashes. The operating system killed it because it ran out of memory. Or the network dropped. Or someone tripped over a power cable. Doesn't matter, it's dead."];
     P
       [Txt "Without checkpointing, you start over from step 0. All 850 steps of work? Gone. The model weights, the optimizer momentum, the learning rate schedule. All of it was in RAM, and RAM is empty after a crash."];
     P
       [Txt "Now imagine this at scale. OpenAI, Google, Meta, NVIDIA, Microsoft. They train models on ";
        Strong [Txt "thousands"];
        Txt " of GPUs for ";
        Strong [Txt "weeks"];
        Txt ". A single GPU failure every few hours is normal. Without checkpointing, large-scale training is literally impossible."];
     P
       [Txt "This system solves that. Every 50 training steps, it saves the model's brain (the weights and optimizer state) to storage. When a machine dies, the new machine loads the last save and picks up right where the dead one left off."]].

Definition two_planes : node :=
  Section_ "The Architecture: Two Planes"
    [P
       [Txt "The system is split into two halves. This is the same pattern used at companies like OpenAI and Anyscale for their training infrastructure."];
     SubSection "Control Plane (Python / FastAPI)"
       [P
          [Txt "The brain. It doesn't touch any training data. It only manages ";
           Strong [Txt "state"];
           Txt ": who's alive, who's dead, what step are we on, is a checkpoint in progress."];
        BulletList
          ["Written in Python because it coordinates with PyTorch workers (also Python)";
           "Runs a FastAPI REST server on port 8000";
           "Talks to etcd (a distributed key-value store) to track worker leases and run state";
           "Talks to the Rust data plane over gRPC to trigger checkpoint writes and reads";
           "Manages an 8-state lifecycle state machine for each training run"]];
     SubSection "Data Plane (Rust / Tokio / gRPC)"
       [P
          [Txt "The muscle. It handles the actual bytes: receiving checkpoint data over gRPC, computing SHA-256 checksums, and writing to MinIO (S3-compatible object storage)."];
        BulletList
          ["Written in Rust for speed. No garbage collector pauses during large uploads.";
           "Uses Tokio async runtime for concurrent I/O (multiple shards uploading at once)";
           "Exposes a gRPC server on port 50051 using the tonic framework";
           "Implements backpressure: if the upload queue is full, it tells the control plane to slow down";
           "Retries failed S3 uploads with exponential backoff + jitter (random delay to prevent thundering herd)"]];
     SubSection "Why Split Them?"
       [P
          [Txt "Python is great for orchestration but slow at I/O-heavy work. Rust is great at I/O but overkill for managing state machines. By splitting them, each part uses the best tool for the job. The control plane can be restarted without interrupting an in-progress upload, and the data plane can be scaled independently."]]].

Definition checkpoint_saves_1 : node :=
  Step 1 "Worker serializes the model"
    [P
       [Txt "The PyTorch worker on rank 0 calls ";
        Code [Txt "torch.save()"];
        Txt " to convert the model weights and optimizer state into raw bytes. This is a ";
        Code [Txt "state_dict"];
        Txt ", a Python dictionary where keys are layer names and values are tensors."];
     CodeBlock
       (lines
          ["state = {";
           ("    " +:+ dquote +:+ "model_state_dict" +:+ dquote +:+ ": model.state_dict(),");
           ("    " +:+ dquote +:+ "optimizer_state_dict" +:+ dquote +:+ ": optimizer.state_dict(),");
           ("    " +:+ dquote +:+ "step" +:+ dquote +:+ ": 100,");
           ("    " +:+ dquote +:+ "loss" +:+ dquote +:+ ": 0.234,");
           "}";
           "buffer = io.BytesIO()";
           "torch.save(state, buffer)";
           "shard_data = buffer.getvalue()  # raw bytes, ~3.8 MB"])].

Definition checkpoint_saves_2 : node :=
  Step 2 "Worker tells the control plane: 'start a checkpoint'"
    [P [Txt "The worker sends an HTTP POST request to the control plane:"];
     CodeBlock
       (lines
          ["POST /api/runs/{run_id}/checkpoint";
           ("Body: {" +:+ dquote +:+ "step" +:+ dquote +:+ ": 100}");
           "";
           ("Response: {" +:+ dquote +:+ "checkpoint_id" +:+ dquote +:+ ": " +:+ dquote +:+ "ckpt-a1b2c3d4" +:+ dquote +:+ "}")]);
     P
       [Txt "The control plane changes the run's state from ";
        Code [Txt "RUNNING"];
        Txt " to";
        Txt " ";
        Code [Txt "CHECKPOINTING"];
        Txt ". This is stored in etcd so all services know a checkpoint is in progress."]].

Definition checkpoint_saves_3 : node :=
  Step 3 "Worker uploads the bytes through the control plane to the data plane"
    [P [Txt "The worker sends the raw bytes to the control plane via HTTP:"];
     CodeBlock
       (lines
          ["POST /api/runs/{run_id}/checkpoints/{checkpoint_id}/shards/rank-0";
           "Content-Type: application/octet-stream";
           "Body: <3.8 MB of raw bytes>"]);
     P
       [Txt "The control plane doesn't store these bytes. It immediately forwards them to the Rust data plane over gRPC using ";
        Strong [Txt "streaming"];
        Txt ". The bytes are split into 4 MB chunks and sent one at a time:"];
     CodeBlock
       (lines
          ["// Python control plane -> Rust data plane (gRPC)";
           "WriteShard(stream of ShardChunk messages)";
           "";
           "Each ShardChunk = {";
           ("    checkpoint_id: " +:+ dquote +:+ "run-xyz/ckpt-a1b2c3d4" +:+ dquote +:+ ",  // composite encoding!");
           ("    shard_id: " +:+ dquote +:+ "rank-0" +:+ dquote +:+ ",");
           "    data: <4 MB chunk>,";
           "    chunk_index: 0,";
           "    total_chunks: 1,";
           "}"]);
     P
       [Txt "Notice the ";
        Code [Txt "checkpoint_id"];
        Txt " field. The gRPC proto doesn't have a separate ";
        Code [Txt "run_id"];
        Txt " field, so the Python side encodes both as";
        Txt " ";
        Code [Txt ("" +:+ dquote +:+ "run_id/checkpoint_id" +:+ dquote +:+ "")];
        Txt ". The Rust side splits on ";
        Code [Txt "/"];
        Txt " to recover both values. This is a real integration detail that took debugging to get right."]].

Definition checkpoint_saves_4 : node :=
  Step 4 "Rust data plane writes to MinIO with content-addressed keys"
    [P [Txt "The Rust service receives the bytes, computes a SHA-256 hash, and uploads to MinIO:"];
     CodeBlock
       (lines
          ["// Rust data plane";
           "let hash = sha256(all_chunks);";
           "let storage_key = format!(";
           ("    " +:+ dquote +:+ "{run_id}/{checkpoint_id}/sha256-{hash_prefix}-{shard_id}.bin" +:+ dquote +:+ "");
           ");";
           ("// Example: " +:+ dquote +:+ "run-xyz/ckpt-a1b2/sha256-a1b2c3d4e5f6a7b8-rank-0.bin" +:+ dquote +:+ "");
           "";
           "s3_client.put_object(bucket, storage_key, bytes).await?;";
           "";
           "// Also writes a checksum sidecar file:";
           ("// " +:+ dquote +:+ "run-xyz/ckpt-a1b2/rank-0.sha256" +:+ dquote +:+ " containing the full hash")]);
     P
       [Txt "The key contains the hash. This means if you upload the exact same bytes twice, you get the exact same key, so it's ";
        Strong [Txt "deduplicated automatically"];
        Txt ". This is called content-addressed storage."]].

Definition checkpoint_saves_5 : node :=
  Step 5 "Worker tells the control plane: 'commit this checkpoint'"
    [P [Txt "After all shards are uploaded, the worker sends:"];
     CodeBlock
       "POST /api/runs/{run_id}/commit";
     P
       [Txt "The control plane tells the Rust data plane to write a ";
        Code [Txt "_manifest.json"];
        Txt " file:"];
     CodeBlock
       (lines
          ["// Written to MinIO: run-xyz/ckpt-a1b2/_manifest.json";
           "{";
           ("    " +:+ dquote +:+ "checkpoint_id" +:+ dquote +:+ ": " +:+ dquote +:+ "ckpt-a1b2c3d4" +:+ dquote +:+ ",");
           ("    " +:+ dquote +:+ "run_id" +:+ dquote +:+ ": " +:+ dquote +:+ "run-xyz" +:+ dquote +:+ ",");
           ("    " +:+ dquote +:+ "step" +:+ dquote +:+ ": 100,");
           ("    " +:+ dquote +:+ "created_at" +:+ dquote +:+ ": " +:+ dquote +:+ "2026-03-06T14:35:42Z" +:+ dquote +:+ ",");
           ("    " +:+ dquote +:+ "num_shards" +:+ dquote +:+ ": 1,");
           ("    " +:+ dquote +:+ "total_bytes" +:+ dquote +:+ ": 3985408,");
           ("    " +:+ dquote +:+ "shards" +:+ dquote +:+ ": [{");
           ("        " +:+ dquote +:+ "shard_id" +:+ dquote +:+ ": " +:+ dquote +:+ "rank-0" +:+ dquote +:+ ",");
           ("        " +:+ dquote +:+ "size_bytes" +:+ dquote +:+ ": 3985408,");
           ("        " +:+ dquote +:+ "sha256" +:+ dquote +:+ ": " +:+ dquote +:+ "a1b2c3d4e5f6a7b8..." +:+ dquote +:+ ",");
           ("        " +:+ dquote +:+ "storage_key" +:+ dquote +:+ ": " +:+ dquote +:+ "run-xyz/ckpt-a1b2/sha256-a1b2c3d4e5f6a7b8-rank-0.bin" +:+ dquote +:+ "");
           "    }]";
           "}"]);
     P
       [Txt "The manifest is the ";
        Strong [Txt "atomic commit point"];
        Txt ". If the manifest file exists in MinIO, the checkpoint is complete. If it doesn't exist, the checkpoint failed and the shard files are garbage. This is how databases work too: write the data first, then write a commit record."];
     P
       [Txt "The run state transitions: ";
        Code [Txt "CHECKPOINTING "; Txt "→"; Txt " COMMITTED "; Txt "→"; Txt " RUNNING"];
        Txt ". Training continues."]].

Definition checkpoint_saves : node :=
  Section_ "What Happens When a Checkpoint Saves"
    [P
       [Txt "Let's say training is at step 100 and it's time to save. Here's every single thing that happens, in order:"];
     checkpoint_saves_1;
     checkpoint_saves_2;
     checkpoint_saves_3;
     checkpoint_saves_4;
     checkpoint_saves_5].

Definition worker_dies_1 : node :=
  Step 1 "The container is killed"
    [P
       [Txt "In the local setup, call ";
        Code [Txt "POST /api/demo/kill-worker/ckpt-worker-0"];
        Txt " on";
        Code [Txt " localhost:8000"];
        Txt ". The endpoint stops both DDP workers, marks the run failed, and schedules the same restart path used by the original hosted interface:"];
     CodeBlock
       ("subprocess.run([" +:+ dquote +:+ "docker" +:+ dquote +:+ ", " +:+ dquote +:+ "kill" +:+ dquote +:+ ", " +:+ dquote +:+ "ckpt-worker-0" +:+ dquote +:+ "])");
     P
       [Txt "This sends SIGKILL to the container. The process is dead instantly. No graceful shutdown, no cleanup, just like a real hardware failure."]].

Definition worker_dies_2 : node :=
  Step 2 "The control plane detects the death (5-15 seconds)"
    [P
       [Txt "Every worker sends a heartbeat to etcd every 5 seconds. Each heartbeat renews a";
        Strong [Txt " lease"];
        Txt " with a 10-second TTL (time to live). When the worker dies, the heartbeats stop. After 10 seconds, the etcd lease expires."];
     P
       [Txt "The control plane's HeartbeatManager polls every 3 seconds. When it sees the expired lease, it transitions the run state:"];
     CodeBlock
       (lines
          ["RUNNING -> FAILED";
           "";
           ("// Log: " +:+ dquote +:+ "Worker ckpt-worker-0 heartbeat timeout, marking run as FAILED" +:+ dquote +:+ "")])].

Definition worker_dies_3 : node :=
  Step 3 "The container auto-restarts (3 seconds after kill)"
    [P [Txt "Back when the kill happened, the control plane also scheduled an auto-restart:"];
     CodeBlock
       (lines
          ["async def _restart():";
           "    await asyncio.sleep(5)";
           ("    subprocess.run([" +:+ dquote +:+ "docker" +:+ dquote +:+ ", " +:+ dquote +:+ "start" +:+ dquote +:+ ", " +:+ dquote +:+ "ckpt-worker-0" +:+ dquote +:+ "])");
           "";
           "asyncio.create_task(_restart())"]);
     P
       [Txt "Why not use Docker's built-in ";
        Code [Txt "restart: always"];
        Txt " policy? Because on Docker Desktop for Windows, ";
        Code [Txt "docker kill"];
        Txt " does NOT trigger the restart policy. This is a real Docker Desktop bug. The workaround is this manual restart."]].

Definition worker_dies_4 : node :=
  Step 4 "The restarted worker finds the old run"
    [P [Txt "When the worker starts, it checks for an existing run ID in a shared volume:"];
     CodeBlock
       (lines
          ["# Worker startup (train.py)";
           ("run_id = read_file(" +:+ dquote +:+ "/shared/run_id" +:+ dquote +:+ ")  # from previous run");
           "status = GET /api/runs/{run_id}";
           "";
           ("if status.state in (" +:+ dquote +:+ "FAILED" +:+ dquote +:+ ", " +:+ dquote +:+ "RECOVERING" +:+ dquote +:+ "):");
           "    # This is OUR old run, resume it";
           "    POST /api/runs/{run_id}/resume"]);
     P
       [Txt "The control plane transitions: ";
        Code [Txt "FAILED "; Txt "→"; Txt " RECOVERING "; Txt "→"; Txt " RUNNING"]]].

Definition worker_dies_5 : node :=
  Step 5 "The worker loads the last checkpoint from MinIO"
    [P
       [Txt "The worker asks the control plane for the list of checkpoints, finds the last one with state ";
        Code [Txt "COMMITTED"];
        Txt ", and downloads the shard bytes:"];
     CodeBlock
       (lines
          ["GET /api/runs/{run_id}/checkpoints";
           ("-> [{checkpoint_id: " +:+ dquote +:+ "ckpt-a1b2" +:+ dquote +:+ ", step: 100, state: " +:+ dquote +:+ "COMMITTED" +:+ dquote +:+ "}, ...]");
           "";
           "GET /api/runs/{run_id}/checkpoints/ckpt-a1b2/shards/rank-0";
           "-> <3.8 MB of raw bytes>  (fetched from MinIO via Rust data plane)"]);
     P [Txt "The worker deserializes the bytes back into PyTorch tensors:"];
     CodeBlock
       (lines
          ["state = torch.load(io.BytesIO(shard_bytes))";
           ("model.load_state_dict(state[" +:+ dquote +:+ "model_state_dict" +:+ dquote +:+ "])");
           ("optimizer.load_state_dict(state[" +:+ dquote +:+ "optimizer_state_dict" +:+ dquote +:+ "])");
           ("start_step = state[" +:+ dquote +:+ "step" +:+ dquote +:+ "]  # 100, not 0!")])].

Definition worker_dies_6 : node :=
  Step 6 "Training resumes from step 100"
    [P
       [Txt "The training loop starts from ";
        Code [Txt "step=100"];
        Txt " instead of ";
        Code [Txt "step=0"];
        Txt ". The model weights are exactly where they were before the crash. The optimizer momentum is restored. No work was lost."];
     CodeBlock
       (lines
          [("# Log: " +:+ dquote +:+ "Restored from checkpoint: step=100, loss=0.234" +:+ dquote +:+ "");
           "# Training continues: step=101, step=102, step=103..."])].

Definition worker_dies : node :=
  Section_ "What Happens When a Worker Dies"
    [P
       [Txt "The hosted Simulation illustrates this sequence entirely in the browser; it does not call a backend. When you run the real Docker stack locally and kill a worker, here's every single thing that happens:"];
     worker_dies_1;
     worker_dies_2;
     worker_dies_3;
     worker_dies_4;
     worker_dies_5;
     worker_dies_6].

Definition state_machine : node :=
  Section_ "The State Machine: 8 States"
    [P
       [Txt "Every training run has a state. The control plane enforces that only valid transitions happen. You can't go from ";
        Code [Txt "COMPLETED"];
        Txt " to ";
        Code [Txt "RUNNING"];
        Txt ", for example. Here are all the states:"];
     El "div" [cls "card overflow-x-auto"]
       [El "table" [cls "w-full text-xs min-w-[500px]"]
          [El "thead" []
             [El "tr" [cls "border-b border-line"]
                [El "th" [cls "table-header"] [Txt "State"];
                 El "th" [cls "table-header"] [Txt "Meaning"];
                 El "th" [cls "table-header"] [Txt "Next States"]]];
           El "tbody" [cls "text-txt-2"]
             (map fsm_row_view fsm_rows)]];
     P
       [Txt "The normal loop is: ";
        Code
          [Txt "RUNNING ";
           Txt "→";
           Txt " CHECKPOINTING ";
           Txt "→";
           Txt " COMMITTED ";
           Txt "→";
           Txt " RUNNING"];
        Txt " (repeat)."];
     P
       [Txt "The failure/recovery path is: ";
        Code
          [Txt "RUNNING ";
           Txt "→";
           Txt " FAILED ";
           Txt "→";
           Txt " RECOVERING ";
           Txt "→";
           Txt " RUNNING"];
        Txt "."];
     P
       [Txt "All transitions are stored in etcd with timestamps, so you get a full audit trail of everything that happened during training."]].

Definition etcd : node :=
  Section_ "etcd: The Coordination Layer"
    [P
       [Txt "etcd is a distributed key-value store. Think of it as a shared dictionary that multiple services can read and write to, with strong consistency guarantees (if you write a value, everyone sees it immediately)."];
     P [Txt "This system uses etcd for three things:"];
     BulletList
       ["Worker leases: each worker holds a lease with a 10-second TTL. If the worker stops renewing it, the lease expires and the control plane knows the worker is dead.";
        "Run state: the current state (RUNNING, FAILED, etc.) and metadata (current step, run ID) are stored in etcd keys.";
        "Checkpoint metadata: which checkpoints exist, what step they're at, and whether they're committed."];
     P
       [Txt "Why etcd instead of a regular database? Because etcd has built-in lease TTLs. You create a lease, attach it to a key, and if the lease isn't renewed within the TTL, the key is automatically deleted. This is exactly what we need for heartbeat-based failure detection, no custom timer code needed."]].

Definition minio : node :=
  Section_ "MinIO: The Storage Layer"
    [P
       [Txt "MinIO is an open-source S3-compatible object store. It speaks the exact same API as Amazon S3, so the Rust data plane uses the AWS S3 SDK to talk to it. If you swapped MinIO for real S3, you'd change one environment variable and everything would still work."];
     P [Txt "File layout in the bucket:"];
     CodeBlock
       (lines
          ["checkpoints/";
           "└── run-abc123/";
           "    ├── ckpt-001/";
           "    │   ├── sha256-a1b2c3d4e5f6a7b8-rank-0.bin  (3.8 MB, model weights)";
           "    │   ├── rank-0.sha256                         (64 bytes, checksum)";
           "    │   └── _manifest.json                        (commit proof)";
           "    └── ckpt-002/";
           "        ├── sha256-f7e8d9c0b1a2f3e4-rank-0.bin  (3.8 MB)";
           "        ├── rank-0.sha256";
           "        └── _manifest.json"]);
     P
       [Txt "The ";
        Code [Txt ".bin"];
        Txt " files contain the actual model weights. The filename includes the first 16 characters of the SHA-256 hash of the contents. The ";
        Code [Txt ".sha256"];
        Txt " file contains the full 64-character hash for verification. The ";
        Code [Txt "_manifest.json"];
        Txt " is the commit record that proves the checkpoint completed successfully."]].

Definition observability : node :=
  Section_ "Observability: Metrics, Traces, Dashboards"
    [P
       [Txt "The system exports telemetry data through OpenTelemetry, which feeds into three backends:"];
     SubSection "Prometheus (Metrics)"
       [P
          [Txt "Numbers over time. The control plane exports metrics in Prometheus format at";
           Txt " ";
           Code [Txt "/api/metrics/prometheus"];
           Txt ":"];
        BulletList
          ["controlplane_checkpoints_total: how many checkpoints have been created";
           "controlplane_checkpoint_duration_seconds: how long each checkpoint save takes";
           "controlplane_worker_heartbeat_lag_seconds: how stale each worker's last heartbeat is";
           "controlplane_active_workers: how many workers are currently alive"]];
     SubSection "Grafana (Dashboards)"
       [P
          [Txt "Visualizes Prometheus metrics as graphs and charts. There's a pre-built dashboard showing checkpoint throughput, worker health, and recovery timelines. Accessible on port 3001."]];
     SubSection "Jaeger (Distributed Tracing)"
       [P
          [Txt "Traces show the path of a single request across multiple services. When a checkpoint saves, you can see the trace: Worker ";
           Txt "→";
           Txt " Control Plane ";
           Txt "→";
           Txt " Rust Data Plane ";
           Txt "→";
           Txt " MinIO, with timing for each hop. This is how you debug latency issues in distributed systems. Accessible on port 16686."]]].

Definition ddp : node :=
  Section_ "PyTorch DDP: How the Workers Train"
    [P
       [Txt "DDP stands for Distributed Data Parallel. It's PyTorch's built-in way to train one model across multiple machines. Each worker has a full copy of the model. Each worker gets a different slice of the training data. After computing gradients, all workers sync their gradients using ";
        Strong [Txt "all-reduce"];
        Txt " (every worker sends its gradients to every other worker, and they all average them)."];
     P
       [Txt "This system uses the ";
        Code [Txt "gloo"];
        Txt " backend (CPU-only) instead of ";
        Code [Txt "nccl"];
        Txt " (GPU). The previous Hetzner deployment and the default local Docker stack are CPU-only, so gloo works over regular TCP. The public site no longer relies on the paid VPS, which is being retired. To switch to GPU training, you'd change one line: ";
        Code [Txt ("backend=" +:+ dquote +:+ "nccl" +:+ dquote +:+ "")];
        Txt "."];
     P
       [Txt "Only rank-0 (the first worker) saves checkpoints. The other workers don't need to save because in DDP with gloo, all workers have identical model weights after each all-reduce step. When recovering, non-rank-0 workers fall back to loading rank-0's shard, and they'll get the same weights."]].

Definition docker_stack : node :=
  Section_ "The Docker Stack: 11 Services"
    [P [Txt "Everything runs in Docker Compose. Here's every single container:"];
     El "div" [cls "card overflow-x-auto"]
       [El "table" [cls "w-full text-xs min-w-[500px]"]
          [El "thead" []
             [El "tr" [cls "border-b border-line"]
                [El "th" [cls "table-header"] [Txt "Container"];
                 El "th" [cls "table-header"] [Txt "Port"];
                 El "th" [cls "table-header"] [Txt "What It Does"]]];
           El "tbody" [cls "text-txt-2"]
             (map docker_row_view docker_rows)]]].

Definition tech_choices : node :=
  Section_ "Why These Technology Choices"
    [El "div" [cls "grid gap-3"]
       [TechChoice "Rust for the Data Plane"
          "Checkpoint data can be gigabytes. Rust has zero-cost abstractions, no garbage collector pauses, and async I/O via Tokio. A Python data plane would add seconds of GC latency during large uploads.";
        TechChoice "gRPC for Control-Data communication"
          "gRPC supports streaming: the control plane can send checkpoint bytes as a stream of chunks instead of buffering the entire thing in memory. It also generates type-safe client/server code from .proto files.";
        TechChoice "etcd for coordination"
          "Built-in lease TTLs make heartbeat-based failure detection trivial. Strong consistency means all services see the same state. Used in production by Kubernetes itself.";
        TechChoice "MinIO for storage"
          "API-compatible with Amazon S3. Runs locally in Docker for development. Switch to real S3 by changing one environment variable. No vendor lock-in.";
        TechChoice "FastAPI for the Control Plane"
          "Async Python with type hints. Auto-generates OpenAPI docs. Plays well with the PyTorch ecosystem (same language as the training workers).";
        TechChoice "Content-addressed storage keys"
          "The filename includes the SHA-256 hash of the content. Upload the same bytes twice? Same filename, automatic deduplication. Verify data integrity? Recompute the hash and compare."]].

Definition header : node :=
  El "header" []
       [El "h1" [cls "text-3xl font-bold text-txt-1 tracking-tight"] [Txt "How It Works"];
        El "p" [cls "text-sm text-txt-2 mt-2 leading-relaxed"]
          [Txt "This is a full on YAP fest covering every itty bitty detail of how this project works. For all the nerds out there."]].

Definition footer : node :=
  El "footer" [cls "text-center pb-8 pt-4"]
       [El "p" [cls "text-xs text-txt-3"]
          [Txt "Built with Rust, Python, React, gRPC, etcd, MinIO, Docker, Prometheus, Grafana, and Jaeger."]].

Definition HowItWorksPage : node :=
  El "div" [cls "max-w-3xl mx-auto space-y-12 py-4"]
    [header;
     the_problem;
     two_planes;
     checkpoint_saves;
     worker_dies;
     state_machine;
     etcd;
     minio;
     observability;
     ddp;
     docker_stack;
     tech_choices;
     footer].
End View.
