(* ===== verification/TryLocally.v ===== *)
(** * The try-locally page: [frontend/src/pages/TryLocallyPage.tsx]

    Instructions for running the Docker stack. Every code block is a component with a copy
    button: its state and its timers, which nothing cancels, are modelled; the blocks of
    the page are numbered in document order. *)

From Stdlib Require Import Ascii.
From S2P Require Import Prelude JsString JsNum Html HowItWorks.

(** ** Data *)

Definition TOTAL : Z := 7.

Record service : Type := Sv { sv_name : string; sv_port : string; sv_desc : string; sv_color : string; sv_tech : string }.
Definition SERVICES : list service :=
  [Sv "Frontend" "3000" "Operator console you're looking at" "border-l-info" "React + Vite";
   Sv "Control Plane" "8000" "REST API, SSE streams, orchestration" "border-l-info" "Python / FastAPI";
   Sv "Data Plane" "50051" "gRPC streaming checkpoint I/O" "border-l-recover" "Rust / Tokio";
   Sv "Worker 0" "—" "PyTorch DDP training (rank 0)" "border-l-ok" "PyTorch";
   Sv "Worker 1" "—" "PyTorch DDP training (rank 1)" "border-l-ok" "PyTorch";
   Sv "MinIO" "9001" "S3-compatible object storage console" "border-l-warn" "MinIO";
   Sv "etcd" "2379" "Distributed coordination & leases" "border-l-brand-violet" "etcd";
   Sv "Prometheus" "9091" "Metrics collection & queries" "border-l-err" "Prometheus";
   Sv "Grafana" "3001" "Dashboards for checkpoint metrics" "border-l-recover" "Grafana";
   Sv "Jaeger" "16686" "Distributed tracing UI" "border-l-warn" "Jaeger";
   Sv "OTel Collector" "4317" "Telemetry pipeline aggregator" "border-l-surface-4" "OpenTelemetry"].

(** ** The copy button

    The state of one block, the times at which its timers are due, and what it wrote to
    the clipboard. *)
Record block : Type := Block { is_copied : bool; timers : list Z; clipboard : option string }.
Definition init_block : block := Block false [] None.

(** [children.replace(/\n$/, '')]: the newline before the end of the text *)
Definition strip_newline (text : string) : string :=
  match last (units text) with
  | Some c => if code c =? 10 then of_units (removelast (units text)) else text
  | None => text
  end.

Definition handleCopy (children : string) (now : Z) (b : block) : block :=
  Block true (b.(timers) ++ [now + 2000]) (Some (strip_newline children)).

(** A block of the given text: a click, or the timer that was started first fires. *)
Inductive block_step (children : string) : Z -> block -> block -> Prop :=
| copy_click now b : block_step children now b (handleCopy children now b)
| copy_timer now b t ts :
    b.(timers) = t :: ts -> t <= now -> block_step children now b (Block false ts b.(clipboard)).

(** A history with the times of its steps. *)
Inductive block_run (children : string) : block -> list Z -> block -> Prop :=
| run_nil b : block_run children b [] b
| run_snoc b0 ts b now b' :
    block_run children b0 ts b -> Forall (fun t => t <= now) ts ->
    block_step children now b b' -> block_run children b0 (ts ++ [now]) b'.

(** ** View *)

Inductive msg : Type := Copy (i : nat).

Section View.
#[local] Abbreviation node := (node msg).

Definition SectionCounter (num total : Z) (label : string) : node :=
  El "div" [cls "section-counter"]
    [El "span" [cls "divider"] [Txt "["];
     El "span" [cls "num"] [Txt (pad_start 2 "0"%char (dec num))];
     El "span" [cls "divider"] [Txt "/"];
     El "span" [] [Txt (pad_start 2 "0"%char (dec total))];
     El "span" [cls "divider"] [Txt "]"];
     El "span" [cls "divider"] [Txt "·"];
     El "span" [cls "label"] [Txt label]].

Definition CodeBlock (i : nat) (copied : bool) (label : option string) (children : string) : node :=
  let labelled := match label with Some l => negb (l =? "")%string | None => false end in
  El "div" [cls "relative group"]
    (when_text label (fun label =>
       El "div" [cls "flex items-center gap-2 px-4 py-2 bg-[#0a0a12] border border-b-0 border-line rounded-t-xl"]
         [El "span" [cls "w-2.5 h-2.5 rounded-full bg-err/60"] [];
          El "span" [cls "w-2.5 h-2.5 rounded-full bg-warn/60"] [];
          El "span" [cls "w-2.5 h-2.5 rounded-full bg-ok/60"] [];
          El "span" [cls "text-2xs text-txt-3 font-mono ml-2"] [Txt label]]) ++
     El "pre" [cls ("bg-[#0a0a12] text-[#e2e8f0] border border-line " +:+ (if labelled then "rounded-b-xl" else "rounded-xl") +:+ " px-5 py-4 font-mono text-sm leading-relaxed overflow-x-auto")]
       [Txt children] ::
     El "button" [OnClick (Copy i);
                  cls "absolute top-3 right-3 px-2.5 py-1 text-2xs font-mono rounded-lg bg-surface-3/80 text-txt-3 opacity-0 group-hover:opacity-100 transition-opacity cursor-pointer hover:text-txt-1"]
       [Txt (if copied then "✓ copied" else "copy")] ::
     []).

Definition TerminalBlock (title : string) (children : list node) : node :=
  El "div" []
    [El "div" [cls "flex items-center gap-2 px-4 py-2.5 bg-[#0a0a12] border border-b-0 border-line rounded-t-xl"]
       [El "span" [cls "w-2.5 h-2.5 rounded-full bg-err/60"] [];
        El "span" [cls "w-2.5 h-2.5 rounded-full bg-warn/60"] [];
        El "span" [cls "w-2.5 h-2.5 rounded-full bg-ok/60"] [];
        El "span" [cls "text-2xs text-txt-3 font-mono ml-2"] [Txt title]];
     El "div" [cls "bg-[#0a0a12] text-[#e2e8f0] border border-line rounded-b-xl px-5 py-4 font-mono text-xs sm:text-sm leading-relaxed overflow-x-auto"]
       (children)].

Definition hero : node :=
  El "section" [cls "relative overflow-hidden"]
    [El "div" [cls "absolute inset-0 flex items-center justify-center pointer-events-none"]
       [El "div" [cls "w-[800px] h-[500px] bg-brand-violet/[0.07] rounded-full blur-[120px]"] []];
     El "div" [cls "relative max-w-4xl mx-auto px-5 pt-8 md:pt-24 pb-16 text-center"]
       [El "p" [cls "text-sm font-semibold text-brand-violet uppercase tracking-widest mb-6"]
          [Txt "Prove it's real"];
        El "h1" [cls "text-4xl sm:text-5xl lg:text-6xl font-extrabold text-txt-1 tracking-tight leading-[1.1]"]
          [Txt "Don't take my word for it";
           El "br" [] [];
           El "span" [cls "gradient-text"] [Txt "— run it yourself."]];
        El "p" [cls "mt-8 text-xl text-txt-2 max-w-2xl mx-auto leading-relaxed"]
          [Txt "The hosted page at";
           Txt " ";
           El "Link" [Attr "to" "/demo"; cls "text-brand-violet font-medium hover:underline"]
             [Txt "ckpt.tasfiqj.com"];
           Txt " ";
           Txt "now provides a clearly labelled browser-only simulation. The paid Hetzner backend is being retired to avoid ongoing cost. This guide shows how to run the ";
           El "span" [cls "text-txt-1 font-medium"] [Txt "real 11-container Docker stack"];
           Txt " on your own machine in about two minutes."]]].

Definition prerequisites (copied : nat -> bool) : node :=
  El "section" [cls "max-w-4xl mx-auto px-5 pt-12 pb-16"]
    [SectionCounter 1 TOTAL "Prerequisites";
     El "h2" [cls "text-3xl sm:text-4xl font-bold text-txt-1 mb-4"]
       [Txt "Two things. That's it."];
     El "p" [cls "text-base text-txt-3 mb-10 max-w-xl"]
       [Txt "Everything else is containerized. No Python, no Rust, no Node — Docker handles all of it."];
     El "div" [cls "grid grid-cols-1 sm:grid-cols-2 gap-4"]
       [El "div" [cls "card p-6"]
          [El "div" [cls "flex items-center gap-3 mb-4"]
             [El "div" [cls "w-10 h-10 rounded-xl bg-info-muted flex items-center justify-center"]
                [El "svg" [cls "w-5 h-5 text-info"; Attr "fill" "none"; Attr "stroke" "currentColor";
                           Attr "viewBox" "0 0 24 24"]
                   [El "path" [Attr "strokeLinecap" "round"; Attr "strokeLinejoin" "round";
                               Attr "strokeWidth" "2";
                               Attr "d" "M5 12h14M5 12a2 2 0 01-2-2V6a2 2 0 012-2h14a2 2 0 012 2v4a2 2 0 01-2 2M5 12a2 2 0 00-2 2v4a2 2 0 002 2h14a2 2 0 002-2v-4a2 2 0 00-2-2"] []]];
              El "div" []
                [El "h3" [cls "text-lg font-bold text-txt-1"] [Txt "Docker"];
                 El "p" [cls "text-2xs text-txt-3"] [Txt "with Docker Compose"]]];
           CodeBlock 0%nat (copied 0%nat) None
             (lines ["docker --version"; "docker compose version"]);
           El "p" [cls "text-sm text-txt-3 mt-3"]
             [El "a" [Attr "href" "https://docs.docker.com/get-docker/"; Attr "target" "_blank";
                      Attr "rel" "noopener noreferrer"; cls "text-info hover:underline"]
                [Txt "Get Docker →"]]];
        El "div" [cls "card p-6"]
          [El "div" [cls "flex items-center gap-3 mb-4"]
             [El "div" [cls "w-10 h-10 rounded-xl bg-recover-muted flex items-center justify-center"]
                [El "svg" [cls "w-5 h-5 text-recover"; Attr "fill" "none";
                           Attr "stroke" "currentColor"; Attr "viewBox" "0 0 24 24"]
                   [El "path" [Attr "strokeLinecap" "round"; Attr "strokeLinejoin" "round";
                               Attr "strokeWidth" "2";
                               Attr "d" "M8 9l3 3-3 3m5 0h3M5 20h14a2 2 0 002-2V6a2 2 0 00-2-2H5a2 2 0 00-2 2v12a2 2 0 002 2z"] []]];
              El "div" []
                [El "h3" [cls "text-lg font-bold text-txt-1"] [Txt "Git"];
                 El "p" [cls "text-2xs text-txt-3"] [Txt "to clone the repo"]]];
           CodeBlock 1%nat (copied 1%nat) None
             "git --version";
           El "p" [cls "text-sm text-txt-3 mt-3"]
             [El "a" [Attr "href" "https://git-scm.com/downloads"; Attr "target" "_blank";
                      Attr "rel" "noopener noreferrer"; cls "text-recover hover:underline"]
                [Txt "Get Git →"]]]]].

Definition launch (copied : nat -> bool) : node :=
  El "section" [cls "max-w-4xl mx-auto px-5 py-16"]
    [SectionCounter 2 TOTAL "Launch";
     El "h2" [cls "text-3xl sm:text-4xl font-bold text-txt-1 mb-4"]
       [Txt "Three lines. Eleven containers."];
     El "p" [cls "text-base text-txt-3 mb-10 max-w-xl"]
       [Txt "Copy, paste, go make coffee. The first build takes a few minutes (Rust compilation), subsequent launches are instant."];
     El "div" [cls "space-y-4"]
       [CodeBlock 2%nat (copied 2%nat) (Some "Terminal")
          (lines ["git clone https://github.com/TasfiqJ/checkpoint-runtime.git"; "cd checkpoint-runtime"; "docker compose up --build -d"]);
        El "p" [cls "text-base text-txt-2 leading-relaxed"]
          [Txt "That's it. Docker pulls the base images, builds the Rust data plane from source, installs the Python control plane, compiles the React frontend, and wires everything together with a shared network. ";
           El "span" [cls "text-txt-1 font-medium"]
             [Txt "No environment variables, no config files, no setup scripts."]];
        TerminalBlock "What you'll see"
          [El "div" [cls "space-y-0.5"]
             [El "p" []
                [El "span" [cls "text-ok"] [Txt "✔"];
                 Txt " Container ckpt-etcd ";
                 El "span" [cls "text-ok"] [Txt "Started"]];
              El "p" []
                [El "span" [cls "text-ok"] [Txt "✔"];
                 Txt " Container ckpt-minio ";
                 El "span" [cls "text-ok"] [Txt "Started"]];
              El "p" []
                [El "span" [cls "text-ok"] [Txt "✔"];
                 Txt " Container ckpt-dataplane ";
                 El "span" [cls "text-ok"] [Txt "Started"]];
              El "p" []
                [El "span" [cls "text-ok"] [Txt "✔"];
                 Txt " Container ckpt-controlplane ";
                 El "span" [cls "text-ok"] [Txt "Started"]];
              El "p" []
                [El "span" [cls "text-ok"] [Txt "✔"];
                 Txt " Container ckpt-worker-0 ";
                 El "span" [cls "text-ok"] [Txt "Started"]];
              El "p" []
                [El "span" [cls "text-ok"] [Txt "✔"];
                 Txt " Container ckpt-worker-1 ";
                 El "span" [cls "text-ok"] [Txt "Started"]];
              El "p" []
                [El "span" [cls "text-ok"] [Txt "✔"];
                 Txt " Container ckpt-frontend ";
                 El "span" [cls "text-ok"] [Txt "Started"]];
              El "p" []
                [El "span" [cls "text-ok"] [Txt "✔"];
                 Txt " Container ckpt-prometheus ";
                 El "span" [cls "text-ok"] [Txt "Started"]];
              El "p" []
                [El "span" [cls "text-ok"] [Txt "✔"];
                 Txt " Container ckpt-grafana ";
                 El "span" [cls "text-ok"] [Txt "Started"]];
              El "p" []
                [El "span" [cls "text-ok"] [Txt "✔"];
                 Txt " Container ckpt-jaeger ";
                 El "span" [cls "text-ok"] [Txt "Started"]];
              El "p" []
                [El "span" [cls "text-ok"] [Txt "✔"];
                 Txt " Container ckpt-otel ";
                 El "span" [cls "text-ok"] [Txt "Started"]]]]]].

Definition fleet (copied : nat -> bool) : node :=
  El "section" [cls "max-w-4xl mx-auto px-5 py-16"]
    [SectionCounter 3 TOTAL "The Fleet";
     El "h2" [cls "text-3xl sm:text-4xl font-bold text-txt-1 mb-4"]
       [Txt "11 containers. Here's what each one does."];
     El "p" [cls "text-base text-txt-3 mb-10 max-w-xl"]
       [Txt "This is the same stack that previously ran on my Hetzner server in Virginia. That paid backend is being retired; locally, every service maps to localhost."];
     El "div" [cls "grid grid-cols-1 sm:grid-cols-2 lg:grid-cols-3 gap-3"]
       (map (fun svc => 
          El "div" [Key (svc.(sv_name)); cls ("card px-4 py-3.5 border-l-4 " +:+ svc.(sv_color))]
            [El "div" [cls "flex items-center justify-between mb-1"]
               (El "h4" [cls "text-sm font-bold text-txt-1"] [Txt (svc.(sv_name))] ::
                when (negb (svc.(sv_port) =? "—")%string) (
                  El "span" [cls "text-2xs font-mono text-brand-violet bg-brand-violet/10 px-1.5 py-0.5 rounded"]
                    [Txt ":";
                     Txt (svc.(sv_port))]));
             El "p" [cls "text-2xs text-txt-3 leading-relaxed"] [Txt (svc.(sv_desc))];
             El "p" [cls "text-2xs text-txt-3/60 mt-1 font-mono"] [Txt (svc.(sv_tech))]]) SERVICES);
     El "div" [cls "mt-6"]
       [CodeBlock 3%nat (copied 3%nat) (Some "Verify everything's running")
          "docker compose ps"]].

Definition dashboard : node :=
  El "section" [cls "max-w-4xl mx-auto px-5 py-16"]
    [SectionCounter 4 TOTAL "Dashboard";
     El "h2" [cls "text-3xl sm:text-4xl font-bold text-txt-1 mb-4"]
       [Txt "Verify the local stack. It's alive."];
     El "p" [cls "text-base text-txt-3 mb-10 max-w-xl"]
       [Txt "The workers started training the moment the containers came up. By the time you open your browser, checkpoints are already being saved."];
     El "div" [cls "space-y-6"]
       [El "div" [cls "card p-6 border-ok/20"]
          [El "div" [cls "flex items-start gap-4"]
             [El "div" [cls "w-10 h-10 rounded-xl bg-ok-muted flex items-center justify-center flex-shrink-0 mt-0.5"]
                [El "span" [cls "text-ok font-bold text-sm"] [Txt "1"]];
              El "div" []
                [El "h3" [cls "text-lg font-bold text-txt-1 mb-2"] [Txt "Open your browser"];
                 El "p" [cls "text-base text-txt-2 leading-relaxed"]
                   [Txt "Go to";
                    Txt " ";
                    El "code" [cls "text-sm bg-surface-3 px-2 py-0.5 rounded text-brand-violet font-mono"]
                      [Txt "http://localhost:3000"]];
                 El "p" [cls "text-sm text-txt-3 mt-2"]
                   [Txt "You'll land on the same frontend served at ckpt.tasfiqj.com. Its ";
                    El "span" [cls "text-txt-1 font-medium"] [Txt "Simulation"];
                    Txt " page remains browser-only; use the local endpoints below to inspect the real containers."]]]];
        El "div" [cls "card p-6 border-info/20"]
          [El "div" [cls "flex items-start gap-4"]
             [El "div" [cls "w-10 h-10 rounded-xl bg-info-muted flex items-center justify-center flex-shrink-0 mt-0.5"]
                [El "span" [cls "text-info font-bold text-sm"] [Txt "2"]];
              El "div" []
                [El "h3" [cls "text-lg font-bold text-txt-1 mb-2"]
                   [Txt "Check the real local run"];
                 El "p" [cls "text-base text-txt-2 leading-relaxed"]
                   [Txt "Open ";
                    El "code" [cls "text-sm bg-surface-3 px-2 py-0.5 rounded text-brand-violet font-mono"]
                      [Txt "http://localhost:8000/api/runs"];
                    Txt " ";
                    Txt "to see the training step advance, then inspect MinIO for checkpoint files written by the local workers."]]]];
        El "div" [cls "card p-6 border-brand-violet/20"]
          [El "div" [cls "flex items-start gap-4"]
             [El "div" [cls "w-10 h-10 rounded-xl bg-brand-violet/10 flex items-center justify-center flex-shrink-0 mt-0.5"]
                [El "span" [cls "text-brand-violet font-bold text-sm"] [Txt "3"]];
              El "div" []
                [El "h3" [cls "text-lg font-bold text-txt-1 mb-2"] [Txt "Watch the local proof"];
                 El "p" [cls "text-base text-txt-2 leading-relaxed"]
                   [Txt "Use Docker logs, Grafana, Jaeger, and MinIO on localhost to inspect real";
                    Txt " ";
                    El "code" [cls "text-2xs bg-surface-3 px-1 py-0.5 rounded text-txt-3 font-mono"]
                      [Txt "stdout"];
                    Txt ", checkpoint files with SHA-256 hashes, container status, and telemetry from your machine.";
                    Txt " ";
                    El "span" [cls "text-txt-1 font-medium"]
                      [Txt "That local evidence is not mocked."]]]]]]].

Definition break_it (copied : nat -> bool) : node :=
  El "section" [cls "max-w-4xl mx-auto px-5 py-16"]
    [SectionCounter 5 TOTAL "Break It";
     El "h2" [cls "text-3xl sm:text-4xl font-bold text-txt-1 mb-4"]
       [Txt "Now stop a local worker. On purpose."];
     El "p" [cls "text-base text-txt-3 mb-10 max-w-xl"]
       [Txt "This is the whole point. You're about to prove that the system can recover from a real container crash with zero data loss."];
     El "div" [cls "space-y-6"]
       [El "div" [cls "card p-6 border-err/30 bg-err-muted/5"]
          [El "div" [cls "flex items-start gap-4"]
             [El "div" [cls "w-10 h-10 rounded-xl bg-err-muted flex items-center justify-center flex-shrink-0 mt-0.5"]
                [El "svg" [cls "w-5 h-5 text-err"; Attr "fill" "none"; Attr "stroke" "currentColor";
                           Attr "viewBox" "0 0 24 24"]
                   [El "path" [Attr "strokeLinecap" "round"; Attr "strokeLinejoin" "round";
                               Attr "strokeWidth" "2";
                               Attr "d" "M18.364 18.364A9 9 0 005.636 5.636m12.728 12.728A9 9 0 015.636 5.636m12.728 12.728L5.636 5.636"] []]];
              El "div" []
                [El "h3" [cls "text-lg font-bold text-err mb-2"] [Txt "Kill a worker container"];
                 El "p" [cls "text-base text-txt-2 leading-relaxed"]
                   [Txt "Wait until the run has created at least 2 checkpoints, then call the local demo endpoint. It stops both DDP workers, marks the run ";
                    El "span" [cls "text-err font-medium"] [Txt "FAILED"];
                    Txt ", and schedules the tested restart and recovery path."]]]];
        CodeBlock 4%nat (copied 4%nat) (Some "macOS / Linux terminal")
          "curl -X POST http://localhost:8000/api/demo/kill-worker/ckpt-worker-0";
        CodeBlock 5%nat (copied 5%nat) (Some "Windows PowerShell")
          "Invoke-RestMethod -Method Post -Uri http://localhost:8000/api/demo/kill-worker/ckpt-worker-0";
        El "div" [cls "grid grid-cols-1 md:grid-cols-3 gap-3"]
          [El "div" [cls "card px-4 py-4 text-center"]
             [El "div" [cls "w-8 h-8 rounded-full bg-err mx-auto mb-2 flex items-center justify-center"]
                [El "span" [cls "text-white text-xs font-bold"] [Txt "!"]];
              El "p" [cls "text-sm font-semibold text-err mb-1"] [Txt "FAILED"];
              El "p" [cls "text-2xs text-txt-3"]
                [Txt "Heartbeat timeout. System detects the crash."]];
           El "div" [cls "card px-4 py-4 text-center"]
             [El "div" [cls "w-8 h-8 rounded-full bg-recover mx-auto mb-2 flex items-center justify-center"]
                [El "svg" [cls "w-4 h-4 text-white animate-spin"; Attr "fill" "none";
                           Attr "viewBox" "0 0 24 24"]
                   [El "circle" [cls "opacity-25"; Attr "cx" "12"; Attr "cy" "12"; Attr "r" "10";
                                 Attr "stroke" "currentColor"; Attr "strokeWidth" "4"] [];
                    El "path" [cls "opacity-75"; Attr "fill" "currentColor";
                               Attr "d" "M4 12a8 8 0 018-8V0C5.373 0 0 5.373 0 12h4z"] []]];
              El "p" [cls "text-sm font-semibold text-recover mb-1"] [Txt "RECOVERING"];
              El "p" [cls "text-2xs text-txt-3"] [Txt "Loading last checkpoint from S3."]];
           El "div" [cls "card px-4 py-4 text-center"]
             [El "div" [cls "w-8 h-8 rounded-full bg-ok mx-auto mb-2 flex items-center justify-center"]
                [El "svg" [cls "w-4 h-4 text-white"; Attr "fill" "none";
                           Attr "stroke" "currentColor"; Attr "viewBox" "0 0 24 24"]
                   [El "path" [Attr "strokeLinecap" "round"; Attr "strokeLinejoin" "round";
                               Attr "strokeWidth" "3"; Attr "d" "M5 13l4 4L19 7"] []]];
              El "p" [cls "text-sm font-semibold text-ok mb-1"] [Txt "RESUMED"];
              El "p" [cls "text-2xs text-txt-3"] [Txt "Training continues. Zero data lost."]]];
        El "p" [cls "text-base text-txt-2 leading-relaxed"]
          [Txt "Open ";
           El "code" [cls "text-xs bg-surface-3 px-1 py-0.5 rounded text-brand-violet font-mono"]
             [Txt "http://localhost:3000/runs"];
           Txt " ";
           Txt "to watch the local operator console, or inspect the control-plane and worker logs. The restored step should match the latest committed checkpoint, and training should continue from there."]]].

Definition under_the_hood (copied : nat -> bool) : node :=
  El "section" [cls "max-w-4xl mx-auto px-5 py-16"]
    [SectionCounter 6 TOTAL "Under the Hood";
     El "h2" [cls "text-3xl sm:text-4xl font-bold text-txt-1 mb-4"]
       [Txt "Peek behind the curtain."];
     El "p" [cls "text-base text-txt-3 mb-10 max-w-xl"]
       [Txt "The frontend is just the tip of the iceberg. Here's how to see what's actually happening inside each layer of the system."];
     El "div" [cls "space-y-6"]
       [El "div" [cls "card p-6"]
          [El "h3" [cls "text-lg font-bold text-txt-1 mb-2"] [Txt "Watch real-time logs"];
           El "p" [cls "text-sm text-txt-3 mb-4"]
             [Txt "See heartbeats, checkpoint commits, failure detection, and recovery in real time."];
           CodeBlock 6%nat (copied 6%nat) (Some "Terminal")
             (lines ["# Control plane orchestration"; "docker logs -f ckpt-controlplane"; ""; "# Training worker output"; "docker logs -f ckpt-worker-0"; ""; "# Rust data plane (checkpoint I/O)"; "docker logs -f ckpt-dataplane"])];
        El "div" [cls "card p-6"]
          [El "h3" [cls "text-lg font-bold text-txt-1 mb-2"] [Txt "Query the REST API directly"];
           El "p" [cls "text-sm text-txt-3 mb-4"]
             [Txt "The control plane exposes everything. Hit it with curl and see raw JSON."];
           CodeBlock 7%nat (copied 7%nat) (Some "Terminal")
             (lines ["# List all training runs"; "curl http://localhost:8000/api/runs | python -m json.tool"; ""; "# Get active workers"; "curl http://localhost:8000/api/workers"; ""; "# Browse checkpoint storage"; "curl http://localhost:8000/api/demo/storage"])];
        El "div" [cls "card p-6"]
          [El "h3" [cls "text-lg font-bold text-txt-1 mb-2"] [Txt "Full observability stack"];
           El "p" [cls "text-sm text-txt-3 mb-4"]
             [Txt "Prometheus, Grafana, and Jaeger are all running and collecting real telemetry."];
           El "div" [cls "grid grid-cols-1 sm:grid-cols-3 gap-3"]
             [El "a" [Attr "href" "http://localhost:3001"; Attr "target" "_blank";
                      Attr "rel" "noopener noreferrer";
                      cls "card px-4 py-3 text-center hover:shadow-glow-sm transition-shadow group cursor-pointer"]
                [El "p" [cls "text-sm font-semibold text-txt-1 group-hover:text-brand-violet transition-colors"]
                   [Txt "Grafana"];
                 El "p" [cls "text-2xs text-txt-3"] [Txt "localhost:3001"];
                 El "p" [cls "text-2xs text-txt-3 mt-1"]
                   [Txt "Checkpoint throughput, shard latency, queue depth"]];
              El "a" [Attr "href" "http://localhost:16686"; Attr "target" "_blank";
                      Attr "rel" "noopener noreferrer";
                      cls "card px-4 py-3 text-center hover:shadow-glow-sm transition-shadow group cursor-pointer"]
                [El "p" [cls "text-sm font-semibold text-txt-1 group-hover:text-brand-violet transition-colors"]
                   [Txt "Jaeger"];
                 El "p" [cls "text-2xs text-txt-3"] [Txt "localhost:16686"];
                 El "p" [cls "text-2xs text-txt-3 mt-1"]
                   [Txt "Distributed traces across all services"]];
              El "a" [Attr "href" "http://localhost:9001"; Attr "target" "_blank";
                      Attr "rel" "noopener noreferrer";
                      cls "card px-4 py-3 text-center hover:shadow-glow-sm transition-shadow group cursor-pointer"]
                [El "p" [cls "text-sm font-semibold text-txt-1 group-hover:text-brand-violet transition-colors"]
                   [Txt "MinIO"];
                 El "p" [cls "text-2xs text-txt-3"] [Txt "localhost:9001"];
                 El "p" [cls "text-2xs text-txt-3 mt-1"]
                   [Txt "Browse real checkpoint files in S3"]]]];
        El "div" [cls "card p-6"]
          [El "h3" [cls "text-lg font-bold text-txt-1 mb-2"]
             [Txt "Inspect checkpoint storage directly"];
           El "p" [cls "text-sm text-txt-3 mb-4"]
             [Txt "Each checkpoint is a real set of files in MinIO: a ";
              El "code" [cls "text-2xs bg-surface-3 px-1 py-0.5 rounded text-ok font-mono"]
                [Txt ".bin"];
              Txt " shard, a ";
              El "code" [cls "text-2xs bg-surface-3 px-1 py-0.5 rounded text-txt-3 font-mono"]
                [Txt ".sha256"];
              Txt " checksum, and a ";
              El "code" [cls "text-2xs bg-surface-3 px-1 py-0.5 rounded text-warn font-mono"]
                [Txt "_manifest.json"];
              Txt " that acts as the atomic commit point."];
           TerminalBlock "MinIO file listing"
             [El "p" []
                [El "span" [cls "text-ok"] [Txt "$"];
                 Txt " docker exec ckpt-minio mc ls local/checkpoints/ --recursive"];
              El "p" [cls "text-txt-3 mt-2"]
                [Txt "[2026-03-08 04:12:08]  3.8MiB  a1b2c3d4/f5e6d7c8/sha256-913e9c9d6b30-rank-0.bin"];
              El "p" [cls "text-txt-3"]
                [Txt "[2026-03-08 04:12:08]     64B  a1b2c3d4/f5e6d7c8/rank-0.sha256"];
              El "p" [cls "text-txt-3"]
                [Txt "[2026-03-08 04:12:08]    488B  a1b2c3d4/f5e6d7c8/_manifest.json"];
              El "p" [cls "text-txt-3"]
                [Txt "[2026-03-08 04:13:24]  3.8MiB  a1b2c3d4/g9h0i1j2/sha256-edb9b9d6055e-rank-0.bin"];
              El "p" [cls "text-txt-3"]
                [Txt "[2026-03-08 04:13:24]     64B  a1b2c3d4/g9h0i1j2/rank-0.sha256"];
              El "p" [cls "text-txt-3"]
                [Txt "[2026-03-08 04:13:24]    488B  a1b2c3d4/g9h0i1j2/_manifest.json"];
              El "p" [cls "text-txt-3 mt-1"] [Txt "..."]]]]].

Definition clean_up (copied : nat -> bool) : node :=
  El "section" [cls "max-w-4xl mx-auto px-5 py-16"]
    [SectionCounter 7 TOTAL "Clean Up";
     El "h2" [cls "text-3xl sm:text-4xl font-bold text-txt-1 mb-4"]
       [Txt "Done? One command to clean up."];
     El "p" [cls "text-base text-txt-3 mb-10 max-w-xl"]
       [Txt "This removes all containers, networks, and volumes. Nothing left behind."];
     CodeBlock 8%nat (copied 8%nat) (Some "Terminal")
       "docker compose down -v";
     El "p" [cls "text-base text-txt-2 mt-6 leading-relaxed"]
       [Txt "That's it — all 11 containers, the MinIO checkpoint data, the etcd state, the Prometheus metrics. Gone. Your machine is exactly how it was before you started."]].

Definition preview : node :=
  El "section" [cls "max-w-4xl mx-auto px-5 py-16 text-center"]
    [El "div" [cls "card p-8 sm:p-12 border-brand-violet/20"]
       [El "h2" [cls "text-2xl sm:text-3xl font-bold text-txt-1 mb-4"]
          [Txt "Want a quick preview first?"];
        El "p" [cls "text-base text-txt-2 mb-8 max-w-lg mx-auto"]
          [Txt "Open the browser-only Simulation to explore the sequence without a backend. Return to this guide whenever you want to run the real Docker stack locally."];
        El "div" [cls "flex flex-col sm:flex-row items-center justify-center gap-4"]
          [El "Link" [Attr "to" "/demo";
                      cls "btn-primary cursor-pointer inline-flex items-center gap-2 px-8 py-3.5 text-base font-semibold rounded-lg"]
             [Txt "Open Simulation";
              El "svg" [cls "w-4 h-4"; Attr "fill" "none"; Attr "stroke" "currentColor";
                        Attr "viewBox" "0 0 24 24"]
                [El "path" [Attr "strokeLinecap" "round"; Attr "strokeLinejoin" "round";
                            Attr "strokeWidth" "2"; Attr "d" "M13 7l5 5m0 0l-5 5m5-5H6"] []]];
           El "Link" [Attr "to" "/";
                      cls "btn-ghost cursor-pointer inline-flex items-center gap-2 px-6 py-3 text-base font-medium"]
             [Txt "Back to Home"]]]].

Definition TryLocallyPage (copied : nat -> bool) : node :=
  El "div" [cls "min-h-screen bg-surface-0"]
    [hero; prerequisites copied; launch copied; fleet copied; dashboard; break_it copied; under_the_hood copied; clean_up copied; preview].
End View.

(** ** The copy button over time *)

(** What holds in every history that ends at [now]: the timers are due in order, at most
    two seconds ahead, and a block that says "copied" still has one to take it back. *)
Record block_ok (children : string) (now : Z) (b : block) : Prop := {
  bo_sorted : StronglySorted Z.le b.(timers);
  bo_due : Forall (fun t => t <= now + 2000) b.(timers);
  bo_pending : b.(is_copied) = true -> b.(timers) <> [];
  bo_clipboard : b.(timers) <> [] -> b.(clipboard) = Some (strip_newline children)
}.

Lemma sorted_snoc (l : list Z) x : StronglySorted Z.le l -> Forall (fun t => t <= x) l -> StronglySorted Z.le (l ++ [x]).
Proof.
  intros S. induction S as [|y l S IH F]; intros B; [repeat constructor|].
  apply Forall_cons in B as [By B]. cbn. constructor; [by apply IH|]. apply Forall_app. split; [done|]. by constructor.
Qed.

Lemma block_run_ok children b0 ts b :
  block_ok children 0 b0 -> Forall (fun t => 0 <= t) ts -> block_run children b0 ts b ->
  block_ok children (default 0 (last ts)) b.
Proof.
  intros O P R. induction R as [b|b0 ts b now b' R IH F S]; [done|]. rewrite last_snoc. cbn.
  apply Forall_app in P as [P Pn]. apply Forall_cons in Pn as [Pn _]. destruct (IH O P) as [So Du Pe Cl].
  assert (Le : default 0 (last ts) <= now).
  { destruct (last ts) as [t|] eqn:L; [|done]. cbn. apply last_Some in L as (l & ->).
    apply Forall_app in F as [_ F]. by apply Forall_cons in F as [? _]. }
  destruct S as [now b|now b t ts' E Ht].
  - split; cbn.
    + apply sorted_snoc; [done|]. eapply Forall_impl; [exact Du|]. cbn. lia.
    + apply Forall_app. split; [|by constructor]. eapply Forall_impl; [exact Du|]. cbn. lia.
    + intros _ N. by apply app_nil in N as [_ ?].
    + done.
  - rewrite E in *. apply StronglySorted_inv in So as [So _]. apply Forall_cons in Du as [_ Du]. split; cbn.
    + done.
    + eapply Forall_impl; [exact Du|]. cbn. lia.
    + done.
    + intros _. by apply Cl.
Qed.

(** The pending timers fire in order. *)
Lemma timers_drain children l c k now : StronglySorted Z.le l -> Forall (fun t => now <= t) l ->
  (l = [] -> c = false) ->
  forall b0 ts, block_run children b0 ts (Block c l k) -> Forall (fun t => t <= now) ts ->
  block_run children b0 (ts ++ l) (Block false [] k).
Proof.
  intros S. revert c now. induction S as [|t l S IH F]; intros c now Fn C b0 ts R Ft.
  - rewrite app_nil_r. by rewrite C in R.
  - apply Forall_cons in Fn as [Ln Fn].
    replace (ts ++ t :: l) with ((ts ++ [t]) ++ l) by (by rewrite <- app_assoc).
    apply (IH false t); [exact F|done| |].
    + apply (run_snoc _ _ _ (Block c (t :: l) k)); [done| |].
      * eapply Forall_impl; [exact Ft|]. cbn. lia.
      * change k with (clipboard (Block c (t :: l) k)) at 2. by eapply copy_timer; [reflexivity|].
    + apply Forall_app. split; [|by constructor]. eapply Forall_impl; [exact Ft|]. cbn. lia.
Qed.

(** the copy button. However the clicks and the timers of a block interleave, the
    button says "copied" only while one of its timers is pending, and the confirmation
    ends: every timer is due within two seconds, and with no further click the pending
    timers, fired in order, leave the button as it was at first and the clipboard as it
    is. After a click the clipboard holds the text of the block without its last newline.
    The confirmation of a click does not always last two seconds: the timer of an earlier
    click takes it back. *)
Theorem copy_button children ts b :
  Forall (fun t => 0 <= t) ts -> block_run children init_block ts b ->
  (b.(is_copied) = true ->
     b.(clipboard) = Some (strip_newline children) /\ b.(timers) <> []) /\
  Forall (fun t => t <= default 0 (last ts) + 2000) b.(timers) /\
  block_run children b b.(timers) (Block false [] b.(clipboard)) /\
  exists b', block_run children init_block [0; 1900; 2000] b' /\
    b'.(is_copied) = false /\ 1900 + 2000 ∈ b'.(timers).
Proof.
  intros P R. pose proof (block_run_ok children init_block ts b) as O.
  destruct O as [So Du Pe Cl]; [by repeat constructor|done|done|]. split_and!.
  - intros C. specialize (Pe C). split; [by apply Cl|done].
  - done.
  - destruct b as [c l k]. cbn in *. destruct l as [|t l].
    + destruct c; [by destruct (Pe eq_refl)|]. constructor.
    + apply (timers_drain children (t :: l) c k t So) with (ts := []); [|done|constructor..].
      apply StronglySorted_inv in So as [_ F]. by constructor.
  - exists (Block false [3900] (Some (strip_newline children))). split_and!; [|done|by left].
    apply (run_snoc children init_block [0; 1900] (Block true [2000; 3900] (Some (strip_newline children)))).
    + apply (run_snoc children init_block [0] (Block true [2000] (Some (strip_newline children)))).
      * apply (run_snoc children init_block [] init_block); [constructor..|]. apply copy_click.
      * repeat constructor. lia.
      * apply copy_click.
    + repeat constructor; lia.
    + by eapply copy_timer; [reflexivity|].
Qed.

Lemma copy_button_witness :
  block_run "git clone" init_block [40] (Block true [2040] (Some "git clone")) /\
  (Block true [2040] (Some "git clone")).(clipboard) = Some (strip_newline "git clone").
Proof.
  assert (R : block_run "git clone" init_block [40] (Block true [2040] (Some "git clone"))).
  { apply (run_snoc "git clone" init_block [] init_block); [constructor|constructor|]. apply (copy_click "git clone" 40 init_block). }
  split; [exact R|].
  apply (copy_button "git clone" [40] (Block true [2040] (Some "git clone")) ltac:(repeat constructor; lia) R). reflexivity.
Defined.

(** The buttons of the page are those of its blocks, each with its own. *)
Lemma copy_buttons (copied : nat -> bool) : offers (TryLocallyPage copied) = map Copy (seq 0 9).
Proof. vm_compute. reflexivity. Qed.
