(* ===== verification/Benchmarks.v ===== *)
(** * The benchmarks page: [frontend/src/pages/BenchmarksPage.tsx]

    Published measurements of two writers. The theorem checks the columns of changes
    against the columns of measurements, as decimal numbers. *)

From S2P Require Import Prelude JsString JsNum Html.

(** ** Data *)

Definition RESULTS_BASE : string :=
  "https://github.com/TasfiqJ/checkpoint-runtime/blob/main/benchmarks/results/shard-size-matrix".

Record shard_result : Type := ShardResult {
  shard_size : string;
  bufferedThroughput : string; streamingThroughput : string; throughputDelta : string;
  bufferedP95 : string; streamingP95 : string; latencyDelta : string
}.
Definition shardResults : list shard_result :=
  [ShardResult "1 MiB" "3.223" "3.177" "-1.42%" "101.70 ms" "131.60 ms" "+29.40%";
   ShardResult "16 MiB" "47.093" "43.508" "-7.61%" "294.65 ms" "516.60 ms" "+75.33%";
   ShardResult "64 MiB" "123.785" "111.762" "-9.71%" "1,338.25 ms" "1,538.70 ms" "+14.98%";
   ShardResult "256 MiB" "179.038" "137.025" "-23.47%" "7,137.20 ms" "7,581.50 ms" "+6.23%"].

Definition artifacts : list (string * string) :=
  [("buffered-1mib-k6-summary.json", "1686ec99a359eab000be040f6cd36e641fae927e64d75d838cb715fbd0359e70");
   ("streaming-1mib-k6-summary.json", "fa8eb2729f3631114ef84dcd223b5037421e4dbfe8dbf0231605e408b9ebed23");
   ("buffered-16mib-k6-summary.json", "3f7a32b0598a06aade9910295de263097ece678fa66e883504e80a5dd13170a9");
   ("streaming-16mib-k6-summary.json", "996174256166e70557537328650c3ac8a9cbd879b83f61fe65698bf8af4dfa7f");
   ("buffered-64mib-k6-summary.json", "286edc325fb2c88974880cb7b170a0f071c687b92e9d7c594331a56a136cb83d");
   ("streaming-64mib-k6-summary.json", "6c3c3bd0f888f0aebfb8a5c68dcf4b443a41bae778138b367b3cef74d1a1db72");
   ("buffered-256mib-k6-summary.json", "4777a14e22b3ddae75a64a7ab69c053beada9f27a412769a3d413cfd4e823208");
   ("streaming-256mib-k6-summary.json", "c6d58701d8f411aff05e9f7f830aa8fccee326c9992b1f4cb16af9f85a106044")].

(** ** View *)

Section View.
Context {M : Type}.
#[local] Abbreviation node := (node M).

Definition ExternalLinkIcon : node :=
  El "svg" [cls "h-4 w-4 flex-none"; Attr "fill" "none"; Attr "viewBox" "0 0 24 24";
            Attr "stroke" "currentColor"; Attr "strokeWidth" "1.8"]
    [El "path" [Attr "strokeLinecap" "round"; Attr "strokeLinejoin" "round";
                Attr "d" "M13.5 6H18m0 0v4.5M18 6l-7.5 7.5M8.25 7.5H6.75A2.25 2.25 0 004.5 9.75v7.5a2.25 2.25 0 002.25 2.25h7.5a2.25 2.25 0 002.25-2.25v-1.5"] []].

Definition shard_row (row : shard_result) : node :=
  El "tr" [Key (row.(shard_size)); cls "border-b border-line-subtle last:border-0"]
    [El "td" [cls "table-cell font-semibold text-txt-1"] [Txt (row.(shard_size))];
     El "td" [cls "table-cell text-right font-mono text-txt-2"] [Txt (row.(bufferedThroughput))];
     El "td" [cls "table-cell text-right font-mono text-txt-2"]
       [Txt (row.(streamingThroughput))];
     El "td" [cls "table-cell text-right font-mono font-semibold text-err"]
       [Txt (row.(throughputDelta))];
     El "td" [cls "table-cell text-right font-mono text-txt-2"] [Txt (row.(bufferedP95))];
     El "td" [cls "table-cell text-right font-mono text-txt-2"] [Txt (row.(streamingP95))];
     El "td" [cls "table-cell text-right font-mono font-semibold text-err"]
       [Txt (row.(latencyDelta))]].

Definition artifact_link (filename sha256 : string) : node :=
  El "a" [Key filename; Attr "href" (RESULTS_BASE +:+ "/" +:+ filename); Attr "target" "_blank";
          Attr "rel" "noopener noreferrer"; cls "card group p-4 hover:border-brand-violet/40"]
    [El "div" [cls "flex items-start justify-between gap-3"]
       [El "span" [cls "break-all font-mono text-xs font-semibold text-txt-1 group-hover:text-brand-violet"]
          [Txt filename];
        ExternalLinkIcon];
     El "p" [cls "mt-3 text-2xs font-semibold uppercase tracking-wider text-txt-3"]
       [Txt "SHA-256"];
     El "p" [cls "mt-1 break-all font-mono text-[11px] leading-relaxed text-txt-2"] [Txt sha256]].

(** A stage of the pipeline, after an arrow except for the first *)
Definition pipeline_stage (index : nat) (label : string) : node :=
  El "div" [Key label; cls "contents"]
    (when (0 <? Z.of_nat index) (El "span" [cls "text-err"] [Txt "→"]) ++
     El "span" [cls "rounded-lg border border-line bg-surface-2 px-3 py-2"] [Txt label] ::
     []).

Definition header : node :=
  El "header" []
    [El "div" [cls "section-counter"]
       [El "span" [cls "num"] [Txt "04"];
        El "span" [cls "divider"] [Txt "/"];
        El "span" [cls "label"] [Txt "Measured evidence"]];
     El "h1" [cls "page-header"] [Txt "Benchmarks"];
     El "p" [cls "page-subtitle max-w-3xl"]
       [Txt "The streaming optimization lost. This page publishes the result, the raw artifacts, and the design cost that likely explains it."]].

Definition retracted : node :=
  El "section" [cls "rounded-2xl border border-err/30 bg-err-muted p-5 sm:p-6"]
    [El "div" [cls "flex flex-col items-start gap-3 sm:flex-row"]
       [El "span" [cls "badge bg-err/15 text-err"] [Txt "Retracted"];
        El "div" []
          [El "h2" [cls "text-lg font-semibold text-txt-1"]
             [Txt "The earlier +63% throughput / -45% p95 figures were not measured."];
           El "p" [cls "mt-2 text-sm leading-relaxed text-txt-2"]
             [Txt "They were unmeasured projections for a proposed design and have been retracted. No baseline run was recorded for those claims."]]]].

Definition recovery_measurement : node :=
  El "section" [cls "space-y-4"]
    [El "div" []
       [El "p" [cls "text-xs font-semibold uppercase tracking-widest text-brand-violet"]
          [Txt "Recovery measurement"];
        El "h2" [cls "mt-1 text-2xl font-semibold text-txt-1"]
          [Txt "Failure recovery, measured over 10 kill trials"]];
     El "div" [cls "grid gap-3 sm:grid-cols-3"]
       [El "div" [cls "card p-5"]
          [El "p" [cls "metric-label"] [Txt "Kill trials"];
           El "p" [cls "metric-value"] [Txt "10"]];
        El "div" [cls "card p-5"]
          [El "p" [cls "metric-label"] [Txt "Worst case"];
           El "p" [cls "metric-value text-recover"] [Txt "9.689s"]];
        El "div" [cls "card p-5 sm:col-span-1"]
          [El "p" [cls "metric-label"] [Txt "Recovery hold"];
           El "p" [cls "metric-value"] [Txt "~6s"]]];
     El "div" [cls "card border-recover/25 bg-recover-muted p-5"]
       [El "p" [cls "text-sm leading-relaxed text-txt-2"]
          [Txt "Roughly six seconds is a deliberate ";
           El "code" [cls "rounded bg-surface-3 px-1.5 py-0.5 font-mono text-xs text-recover"]
             [Txt "RECOVERING"];
           Txt " hold. Restarting a dead process is the orchestrator's job; the runtime detects the failure and coordinates recovery after a replacement process is available."]]].

Definition shard_matrix : node :=
  El "section" [cls "space-y-4"]
    [El "div" [cls "flex flex-col justify-between gap-2 sm:flex-row sm:items-end"]
       [El "div" []
          [El "p" [cls "text-xs font-semibold uppercase tracking-widest text-brand-violet"]
             [Txt "Shard-size A/B"];
           El "h2" [cls "mt-1 text-2xl font-semibold text-txt-1"]
             [Txt "Streaming was slower at every tested size"]];
        El "span" [cls "badge w-fit bg-err-muted text-err"] [Txt "No crossover"]];
     El "div" [cls "card overflow-x-auto"]
       [El "table" [cls "w-full min-w-[920px] text-sm"]
          [El "thead" []
             [El "tr" [cls "border-b border-line"]
                [El "th" [Attr "rowSpan" "2"; cls "table-header align-bottom"] [Txt "Shard"];
                 El "th" [Attr "colSpan" "3"; cls "table-header text-center"]
                   [Txt "Throughput (MiB/s)"];
                 El "th" [Attr "colSpan" "3"; cls "table-header text-center"]
                   [Txt "p95 latency"]];
              El "tr" [cls "border-b border-line"]
                [El "th" [cls "table-header text-right"] [Txt "Buffered"];
                 El "th" [cls "table-header text-right"] [Txt "Streaming"];
                 El "th" [cls "table-header text-right"] [Txt "Change"];
                 El "th" [cls "table-header text-right"] [Txt "Buffered"];
                 El "th" [cls "table-header text-right"] [Txt "Streaming"];
                 El "th" [cls "table-header text-right"] [Txt "Change"]]];
           El "tbody" []
             (map shard_row shardResults)]];
     El "p" [cls "text-sm leading-relaxed text-txt-2"]
       [Txt "Negative throughput changes mean the streaming build moved fewer bytes per second; positive latency changes mean its p95 was worse. There is no shard size in this matrix where streaming outperformed buffered."]].

Definition why_it_lost : node :=
  El "section" [cls "card overflow-hidden"]
    [El "div" [cls "border-b border-line px-5 py-4 sm:px-6"]
       [El "p" [cls "text-xs font-semibold uppercase tracking-widest text-brand-violet"]
          [Txt "Why the pipeline lost"];
        El "h2" [cls "mt-1 text-xl font-semibold text-txt-1"]
          [Txt "Content addressing adds a promotion step"]];
     El "div" [cls "grid gap-6 p-5 sm:p-6 lg:grid-cols-[1fr_1.25fr]"]
       [El "div" [cls "flex flex-wrap items-center gap-2 font-mono text-xs text-txt-2"]
          (imap pipeline_stage ["5 MiB parts"; "staging object"; "server-side copy"; "final hash key"]);
        El "p" [cls "text-sm leading-relaxed text-txt-2"]
          [Txt "The final object key contains the SHA-256 digest, which is unknown until the full shard has arrived. The streaming path therefore writes multipart data to a staging key, then performs a server-side copy to the content-addressed key and deletes the staging object. That extra write-promotion path likely outweighs the gains from hashing and uploading in parallel."]]].

Definition raw_evidence : node :=
  El "section" [cls "space-y-4"]
    [El "div" [cls "flex flex-col justify-between gap-3 sm:flex-row sm:items-end"]
       [El "div" []
          [El "p" [cls "text-xs font-semibold uppercase tracking-widest text-brand-violet"]
             [Txt "Raw evidence"];
           El "h2" [cls "mt-1 text-2xl font-semibold text-txt-1"]
             [Txt "Eight k6 JSON summaries"]];
        El "a" [Attr "href" (RESULTS_BASE +:+ "/README.md"); Attr "target" "_blank";
                Attr "rel" "noopener noreferrer";
                cls "inline-flex items-center gap-2 text-sm font-medium text-brand-violet hover:text-brand-blue"]
          [Txt "Matrix methodology ";
           ExternalLinkIcon]];
     El "div" [cls "grid gap-3 lg:grid-cols-2"]
       (map (fun a => artifact_link a.1 a.2) artifacts)].

Definition BenchmarksPage : node :=
  El "div" [cls "mx-auto max-w-6xl space-y-10 pb-12"]
    [header; retracted; recovery_measurement; shard_matrix; why_it_lost; raw_evidence].
End View.

(** ** The published columns *)

(** A decimal number in a cell: its digits as an integer, and how many follow the point *)
Definition decimal (cell : string) : Z * Z :=
  let cs := filter (fun c => is_digit c = true \/ code c = 46) (units cell) in
  let digits := filter (fun c => is_digit c = true) cs in
  let '(_, after) := span (fun c => negb (code c =? 46)) cs in
  let v := default 0 (radix_value 10 digits) in
  (if starts_with cell "-" then - v else v, Z.of_nat (length after) - 1).

(** [delta] percent is what rounding to [dd] decimals can give for the change from [b] to
    [s], where both are rounded to the same decimals. *)
Definition change_fits (b s : Z) (delta dd : Z) : bool :=
  (2 * 100 * 10 ^ dd * ((2 * s - 1) - (2 * b + 1)) <=? (2 * delta + 1) * (2 * b + 1)) &&
  ((2 * delta - 1) * (2 * b - 1) <=? 2 * 100 * 10 ^ dd * ((2 * s + 1) - (2 * b - 1))).

(** The published changes are those of the published measurements, up to rounding, and at
    every size the streaming writer has the lower throughput and the higher latency. *)
Theorem published_deltas (r : shard_result) :
  In r shardResults ->
  let '(b, bd) := decimal r.(bufferedThroughput) in let '(s, sd) := decimal r.(streamingThroughput) in
  let '(d, dd) := decimal r.(throughputDelta) in
  let '(lb, lbd) := decimal r.(bufferedP95) in let '(ls, lsd) := decimal r.(streamingP95) in
  let '(ld, ldd) := decimal r.(latencyDelta) in
  bd = sd /\ lbd = lsd /\ s < b /\ lb < ls /\ change_fits b s d dd = true /\ change_fits lb ls ld ldd = true.
Proof. intros H. repeat (destruct H as [<-|H]; [vm_compute; auto 10|]). destruct H. Qed.
