(* ===== verification/App.v ===== *)
(** * The application shell: [frontend/src/App.tsx]

    Navigation, the routes and their restriction to local hosts, and the scroll position
    kept for every path. Matching a location against the route patterns is the router's
    and is not modelled. *)

From Stdlib Require Import Ascii.
From S2P Require Import Prelude JsString JsNum Html Types Host Design Ui.

(** ** Navigation items *)

Record nav_item : Type := NavItem {
  nav_to : string; nav_label : string; nav_highlight : bool; nav_icon : string
}.

Definition desktopNavItems : list nav_item :=
  [NavItem "/how-it-works" "How It Works" false "M9.663 17h4.673M12 3v1m6.364 1.636l-.707.707M21 12h-1M4 12H3m3.343-5.657l-.707-.707m2.828 9.9a5 5 0 117.072 0l-.548.547A3.374 3.374 0 0014 18.469V19a2 2 0 11-4 0v-.531c0-.895-.356-1.754-.988-2.386l-.548-.547z";
   NavItem "/demo" "Simulation" true "M14.752 11.168l-3.197-2.132A1 1 0 0010 9.87v4.263a1 1 0 001.555.832l3.197-2.132a1 1 0 000-1.664z";
   NavItem "/try-locally" "Try Locally" false "M8 9l3 3-3 3m5 0h3M5 20h14a2 2 0 002-2V6a2 2 0 00-2-2H5a2 2 0 00-2 2v12a2 2 0 002 2z";
   NavItem "/benchmarks" "Benchmarks" false "M3 13.5h4.5V21H3v-7.5zm6.75-6h4.5V21h-4.5V7.5zm6.75-4.5H21v18h-4.5V3z"].

Definition mobileNavItems : list nav_item :=
  [NavItem "/" "Home" false ""; NavItem "/how-it-works" "How It Works" false "";
   NavItem "/demo" "Simulation" false ""; NavItem "/try-locally" "Try Locally" false "";
   NavItem "/benchmarks" "Benchmarks" false ""].

Definition isActive (pathname path : string) : bool :=
  if (path =? "/")%string then (pathname =? "/")%string
  else if (path =? "/runs")%string
  then (pathname =? "/runs")%string || starts_with pathname "/runs/"
  else starts_with pathname path.

(** ** State

    The component with the parts of the window it reads and writes. [max_scroll] is how
    far each page can be scrolled: the browser clamps the position when another page
    replaces the document. *)
Class Pages : Type := { max_scroll : string -> Z }.

Record app : Type := App {
  pathname : string;
  menuOpen : bool;
  scrollPositions : gmap string Z;
  prevPath : string;
  scrollY : Z;
  (** [document.body.style.overflow] is [hidden] *)
  overflow_hidden : bool;
  (** the effect of [[location.pathname]] has to run *)
  path_changed : bool;
  (** [window.innerHeight], which [MenuCurve] shows: read when it mounts and on [resize] *)
  menuHeight : num
}.

Definition init_app (path : string) (y : Z) (innerHeight : num) : app :=
  App path false ∅ path y false true innerHeight.

Inductive event : Type :=
(** the router commits another location *)
| Navigate (path : string)
(** the effects of the last commit run *)
| Effects
(** the user scrolls the window *)
| ScrollWindow (y : Z)
| ToggleMenu
| CloseMenu
| Resize (innerHeight : num).

Section Component.
Context `{Pages}.

Definition clamp (path : string) (y : Z) : Z := Z.max 0 (Z.min y (max_scroll path)).

Definition set_menu (b : bool) (a : app) : app :=
  App a.(pathname) b a.(scrollPositions) a.(prevPath) a.(scrollY) a.(overflow_hidden)
    a.(path_changed) a.(menuHeight).

(** [useEffect(..., [location.pathname])] *)
Definition scroll_effect (a : app) : app :=
  let positions := <[a.(prevPath) := a.(scrollY)]> a.(scrollPositions) in
  let saved := positions !! a.(pathname) in
  App a.(pathname) false positions a.(pathname) (clamp a.(pathname) (default 0 saved))
    a.(overflow_hidden) false a.(menuHeight).

(** [useEffect(..., [menuOpen])], once no other update is pending *)
Definition menu_effect (a : app) : app :=
  App a.(pathname) a.(menuOpen) a.(scrollPositions) a.(prevPath) a.(scrollY) a.(menuOpen)
    a.(path_changed) a.(menuHeight).

Definition step (e : event) (a : app) : app :=
  match e with
  | Navigate path =>
      App path a.(menuOpen) a.(scrollPositions) a.(prevPath) (clamp path a.(scrollY))
        a.(overflow_hidden) (a.(path_changed) || negb (path =? a.(pathname))%string) a.(menuHeight)
  | Effects => menu_effect (if a.(path_changed) then scroll_effect a else a)
  | ScrollWindow y =>
      App a.(pathname) a.(menuOpen) a.(scrollPositions) a.(prevPath) (clamp a.(pathname) y)
        a.(overflow_hidden) a.(path_changed) a.(menuHeight)
  | ToggleMenu => set_menu (negb a.(menuOpen)) a
  | CloseMenu => set_menu false a
  | Resize h =>
      App a.(pathname) a.(menuOpen) a.(scrollPositions) a.(prevPath) a.(scrollY)
        a.(overflow_hidden) a.(path_changed) h
  end.
Definition steps (es : list event) (a : app) : app := foldl (fun a e => step e a) a es.
End Component.

(** ** Routes *)

Definition LOCAL_RUNTIME_HOSTS : list string := ["localhost"; "127.0.0.1"; "::1"].

Section View.
#[local] Abbreviation node := (node event).

Definition localOperatorRoute (hostname : string) (element : node) : node :=
  if bool_decide (hostname ∈ LOCAL_RUNTIME_HOSTS)
  then El "Suspense" []
         [El "div" [Attr "slot" "fallback"; cls "card p-6 text-sm text-txt-3"]
            [Txt "Loading the local operator console…"];
          element]
  else El "Navigate" [Attr "to" "/demo"; Flag "replace" true] [].

Inductive access : Type := Public | Operator.
Definition routes : list (string * access * string) :=
  [("/", Public, "LandingPage"); ("/how-it-works", Public, "HowItWorksPage");
   ("/demo", Public, "DemoPage"); ("/try-locally", Public, "TryLocallyPage");
   ("/runs", Operator, "RunsPage"); ("/runs/:id", Operator, "RunDetailPage");
   ("/checkpoints", Operator, "CheckpointBrowser"); ("/health", Operator, "HealthPage");
   ("/performance", Operator, "PerformancePage"); ("/benchmarks", Public, "BenchmarksPage")].

Definition route_body (hostname : string) (r : string * access * string) : node :=
  let '(_, acc, page) := r in
  match acc with
  | Public => El page [] []
  | Operator => localOperatorRoute hostname (El page [] [])
  end.
Definition route_element (hostname : string) (r : string * access * string) : node :=
  El "Route" [Attr "path" r.1.1] [route_body hostname r].

(** ** View *)

Definition curve_initial (h : num) : string :=
  "M100 0 L200 0 L200 " +:+ to_string h +:+ " L100 " +:+ to_string h +:+ " Q-100 "
  +:+ to_string (div h (of_Z 2)) +:+ " 100 0".
Definition curve_target (h : num) : string :=
  "M100 0 L200 0 L200 " +:+ to_string h +:+ " L100 " +:+ to_string h +:+ " Q100 "
  +:+ to_string (div h (of_Z 2)) +:+ " 100 0".

Definition MenuCurve (h : num) : node :=
  El "svg" [cls "absolute top-0 -left-[99px] w-[100px] h-full";
            Attr "style" "{ fill: 'rgb(var(--surface-1))', stroke: 'none' }"]
    [El "motion.path" [Attr "variants.initial.d" (curve_initial h); Attr "variants.enter.d" (curve_target h); Attr "variants.exit.d" (curve_initial h);
                       Attr "initial" "initial"; Attr "animate" "enter"; Attr "exit" "exit"] []].

Definition desktop_item (a : app) (item : nav_item) : node :=
  let active := isActive a.(pathname) item.(nav_to) in
  El "Link" [Key (item.(nav_to)); Attr "to" (item.(nav_to));
             cls ("relative flex items-center gap-1.5 px-3 py-2 text-xs font-medium rounded-xl transition-all duration-200 cursor-pointer " +:+ (if active then "text-txt-1 bg-surface-4/80" else (if item.(nav_highlight) then "text-brand-pink hover:text-brand-violet hover:bg-surface-3/60" else "text-txt-3 hover:text-txt-1 hover:bg-surface-3/60")))]
    (El "svg" [cls "w-3.5 h-3.5 flex-shrink-0"; Attr "fill" "none"; Attr "stroke" "currentColor";
               Attr "viewBox" "0 0 24 24"; Attr "strokeWidth" "1.8"; Attr "strokeLinecap" "round";
               Attr "strokeLinejoin" "round"]
       [El "path" [Attr "d" (item.(nav_icon))] []] ::
     El "span" [] [Txt (item.(nav_label))] ::
     when (item.(nav_highlight) && negb (active)) (
       El "span" [cls "absolute -top-0.5 -right-0.5 w-1.5 h-1.5 rounded-full bg-brand-pink animate-pulse"] []) ++
     []).

Definition desktop_nav (a : app) : node :=
  El "nav" [cls "hidden md:flex fixed top-4 left-1/2 -translate-x-1/2 z-50 glass-strong px-2 py-1.5 items-center gap-1 shadow-glow-sm"]
    (El "Link" [Attr "to" "/";
                cls "flex items-center px-3 py-2 text-xs font-medium rounded-xl transition-all duration-200 text-txt-3 hover:text-txt-1 hover:bg-surface-3/60"]
       [El "svg" [cls "w-3.5 h-3.5 flex-shrink-0 mr-1.5"; Attr "fill" "none";
                  Attr "stroke" "currentColor"; Attr "viewBox" "0 0 24 24"; Attr "strokeWidth" "1.8";
                  Attr "strokeLinecap" "round"; Attr "strokeLinejoin" "round"]
          [El "path" [Attr "d" "M3 12l2-2m0 0l7-7 7 7M5 10v10a1 1 0 001 1h3m10-11l2 2m-2-2v10a1 1 0 01-1 1h-3m-6 0a1 1 0 001-1v-4a1 1 0 011-1h2a1 1 0 011 1v4a1 1 0 001 1m-6 0h6"] []];
        El "span" [] [Txt "Home"]] ::
     map (desktop_item a) desktopNavItems ++
     El "a" [Attr "href" "https://www.tasfiqj.com/"; Attr "target" "_blank";
             Attr "rel" "noopener noreferrer";
             cls "flex items-center gap-1.5 px-3 py-2 text-xs font-medium rounded-xl transition-all duration-200 text-txt-3 hover:text-txt-1 hover:bg-surface-3/60"]
       [El "svg" [cls "w-3.5 h-3.5 flex-shrink-0"; Attr "fill" "none"; Attr "stroke" "currentColor";
                  Attr "viewBox" "0 0 24 24"; Attr "strokeWidth" "1.8"; Attr "strokeLinecap" "round";
                  Attr "strokeLinejoin" "round"]
          [El "path" [Attr "d" "M16 7a4 4 0 11-8 0 4 4 0 018 0zM12 14a7 7 0 00-7 7h14a7 7 0 00-7-7z"] []];
        El "span" [] [Txt "About Me"]] ::
     El "ThemeToggle" [] [] ::
     []).

Definition mobile_item (a : app) (i : nat) (item : nav_item) : node :=
  El "motion.div" [Key (item.(nav_to)); Attr "custom" (dec (Z.of_nat i));
                   Attr "variants" "LINK_SLIDE"; Attr "initial" "initial"; Attr "animate" "enter";
                   Attr "exit" "exit"; cls "relative flex items-center"]
    [El "motion.div" [Attr "variants" "INDICATOR_SCALE";
                      Attr "animate" (if isActive a.(pathname) item.(nav_to) then "open" else "closed");
                      cls "absolute -left-5 w-2.5 h-2.5 rounded-full bg-brand-violet"] [];
     El "Link" [Attr "to" (item.(nav_to)); OnClick CloseMenu;
                cls ("text-[2.75rem] leading-tight font-serif font-light transition-colors " +:+ (if isActive a.(pathname) item.(nav_to) then "text-txt-1" else "text-txt-3 hover:text-txt-1"))]
       [Txt (item.(nav_label))]].

Definition menu_backdrop (a : app) : node :=
  El "motion.div" [Key "backdrop"; Attr "initial" "{ opacity: 0 }"; Attr "animate" "{ opacity: 1 }";
                   Attr "exit" "{ opacity: 0 }";
                   Attr "transition" "{ duration: 0.5, ease: [0.76, 0, 0.24, 1] }";
                   OnClick CloseMenu; cls "fixed inset-0 z-30 bg-black/40"] [].

Definition menu_panel (a : app) : node :=
  El "motion.nav" [Key "panel"; Attr "variants" "MENU_SLIDE"; Attr "initial" "initial";
                   Attr "animate" "enter"; Attr "exit" "exit";
                   cls "fixed right-0 top-0 z-40 w-[80vw] max-w-[380px] bg-surface-1";
                   Attr "style" "{ height: '100dvh' }"]
    [El "div" [cls "h-full flex flex-col justify-between px-10 pt-28 pb-10"]
       [El "div" []
          [El "p" [cls "uppercase text-[11px] tracking-[0.15em] text-txt-3 mb-10 pb-3 border-b border-line"]
             [Txt "Navigation"];
           El "div" [cls "flex flex-col gap-4"]
             (imap (mobile_item a) mobileNavItems ++
              El "motion.div" [Attr "custom" (dec (Z.of_nat (length mobileNavItems)));
                               Attr "variants" "LINK_SLIDE"; Attr "initial" "initial";
                               Attr "animate" "enter"; Attr "exit" "exit";
                               cls "relative flex items-center"]
                [El "a" [Attr "href" "https://www.tasfiqj.com/"; Attr "target" "_blank";
                         Attr "rel" "noopener noreferrer"; OnClick CloseMenu;
                         cls "text-[2.75rem] leading-tight font-serif font-light text-txt-3 hover:text-txt-1 transition-colors flex items-center gap-3"]
                   [Txt "About Me"]] ::
              [])];
        El "div" [cls "flex items-center justify-between"]
          [El "ThemeToggle" [] [];
           El "span" [cls "text-xs text-txt-3 font-mono"] [Txt "Checkpoint Runtime"]]];
     MenuCurve a.(menuHeight)].

Definition mobile_nav (a : app) : node :=
  El "div" [cls "md:hidden"]
    [El "motion.button" [Flag "initial" false;
                         Attr "animate" (if a.(menuOpen) then "open" else "closed");
                         OnClick ToggleMenu;
                         cls "fixed right-4 top-4 z-50 h-14 w-14 rounded-full glass-strong shadow-glow-sm"]
       [El "motion.span" [Attr "variants" "HAMBURGER_VARIANTS.top";
                          cls "absolute block h-0.5 w-5 rounded-full bg-txt-1";
                          Attr "style" "{ y: '-50%', left: '50%', x: '-50%' }"] [];
        El "motion.span" [Attr "variants" "HAMBURGER_VARIANTS.middle";
                          cls "absolute block h-0.5 w-5 rounded-full bg-txt-1";
                          Attr "style" "{ left: '50%', x: '-50%', top: '50%', y: '-50%' }"] [];
        El "motion.span" [Attr "variants" "HAMBURGER_VARIANTS.bottom";
                          cls "absolute block h-0.5 w-2.5 rounded-full bg-txt-1";
                          Attr "style" "{ x: '-50%', y: '50%' }"] []];
     El "AnimatePresence" []
       (when a.(menuOpen) (menu_backdrop a) ++
        when a.(menuOpen) (menu_panel a) ++
        [])].

Definition AppView (hostname : string) (a : app) : node :=
  let isLanding := (a.(pathname) =? "/")%string in
  El "div" [cls "min-h-screen flex flex-col bg-surface-0"]
    [desktop_nav a;
     mobile_nav a;
     El "main" [cls ("flex-1 " +:+ (if isLanding then "" else "pt-20 max-w-[1400px] mx-auto w-full px-4 sm:px-5 py-6"))]
       [El "Routes" []
          (map (route_element hostname) routes)]].
End View.

(** ** Scroll positions *)

Class PagesLaws (P : Pages) : Prop := { max_scroll_nonneg path : 0 <= max_scroll path }.

#[export] Instance plain_pages : Pages :=
  {| max_scroll path := if (path =? "/")%string then 4000 else 900 |}.
#[export] Instance plain_pages_laws : PagesLaws plain_pages.
Proof. split. intros path. cbn. by destruct (path =? "/")%string. Qed.

Section Scroll.
Context `{PagesLaws}.

(** The shell at rest on a page: its effects have run and the position is one the page
    can have. *)
Definition at_rest (a : app) : Prop :=
  a.(path_changed) = false /\ a.(prevPath) = a.(pathname) /\ 0 <= a.(scrollY) <= max_scroll a.(pathname).

Lemma clamp_range path y : 0 <= clamp path y <= max_scroll path.
Proof. unfold clamp. pose proof (max_scroll_nonneg path). lia. Qed.

Lemma clamp_id path y : 0 <= y <= max_scroll path -> clamp path y = y.
Proof. unfold clamp. lia. Qed.

(** Going from a page at rest to another one. *)
Lemma visit_spec a q :
  at_rest a -> q <> a.(pathname) ->
  let a' := step Effects (step (Navigate q) a) in
  at_rest a' /\ a'.(pathname) = q /\ a'.(menuOpen) = false /\ a'.(overflow_hidden) = false /\
  a'.(scrollPositions) = <[a.(pathname) := clamp q a.(scrollY)]> a.(scrollPositions) /\
  a'.(scrollY) = clamp q (default 0 (a.(scrollPositions) !! q)).
Proof.
  intros (R & Pr & Y) N a'. subst a'. cbn [step]. rewrite R.
  replace (q =? pathname a)%string with false by (symmetry; by apply String.eqb_neq).
  cbn [orb negb path_changed]. unfold menu_effect, scroll_effect.
  cbn [pathname menuOpen scrollPositions prevPath scrollY overflow_hidden path_changed menuHeight].
  rewrite Pr, lookup_insert_ne by done. unfold at_rest. cbn [path_changed prevPath pathname scrollY].
  split_and!; try done; apply clamp_range.
Qed.

(** What the user does on a page without leaving it. *)
Definition local (e : event) : bool := match e with Navigate _ => false | _ => true end.

Lemma local_steps es a :
  at_rest a -> forallb local es = true ->
  at_rest (steps es a) /\ (steps es a).(pathname) = a.(pathname) /\
  (steps es a).(scrollPositions) = a.(scrollPositions).
Proof.
  revert a. induction es as [|e es IH]; intros a R L; [done|].
  cbn [forallb] in L. apply andb_prop in L as [Le L]. cbn [steps foldl]. fold (steps es (step e a)).
  assert (K : at_rest (step e a) /\ (step e a).(pathname) = a.(pathname) /\
              (step e a).(scrollPositions) = a.(scrollPositions)).
  { destruct R as (R & Pr & Y). unfold at_rest.
    destruct e; cbn [step]; try done; [|by split_and!; try done; apply clamp_range].
    rewrite R. done. }
  destruct K as (K1 & <- & <-). by apply IH.
Qed.

(** A page that is left and visited again is scrolled to where it was, clamped to
    what the page in between could be scrolled to: the position is saved when the other
    page is already on display. A page visited for the first time starts at its top.
    Either way the menu is closed and the document scrolls. *)
Theorem scroll_restored (a : app) (q : string) (es : list event)
    (Hr : at_rest a) (Hq : q <> a.(pathname)) (Hl : forallb local es = true) :
  let there := step Effects (step (Navigate q) a) in
  let back := step Effects (step (Navigate a.(pathname)) (steps es there)) in
  back.(scrollY) = Z.min a.(scrollY) (max_scroll q) /\
  (a.(scrollPositions) !! q = None -> there.(scrollY) = 0) /\
  back.(menuOpen) = false /\ back.(overflow_hidden) = false.
Proof.
  cbv zeta. set (there := step Effects (step (Navigate q) a)).
  destruct (visit_spec a q Hr Hq) as (R & Pq & _ & _ & Sq & Yq). fold there in R, Pq, Sq, Yq.
  destruct (local_steps es there R Hl) as (R' & P' & S').
  destruct (visit_spec (steps es there) a.(pathname) R') as (_ & _ & M & O & _ & Y); [congruence|].
  destruct Hr as (_ & _ & Ya). pose proof (max_scroll_nonneg q). split_and!; [| |exact M|exact O].
  - rewrite Y, S', Sq, lookup_insert_eq. cbn [from_option id]. unfold clamp. lia.
  - intros E. rewrite Yq, E. cbn [from_option id]. unfold clamp. lia.
Qed.
End Scroll.

Lemma scroll_restored_witness :
  let a := App "/" false ∅ "/" 2500 false false (of_Z 800) in
  (step Effects (step (Navigate "/") (steps [ScrollWindow 100; ToggleMenu]
     (step Effects (step (Navigate "/demo") a))))).(scrollY) = 900.
Proof.
  intros a. assert (R : at_rest a) by (repeat split; vm_compute; discriminate).
  assert (Q : "/demo" <> a.(pathname)) by discriminate.
  exact (proj1 (scroll_restored (P := plain_pages) a "/demo" [ScrollWindow 100; ToggleMenu] R Q eq_refl)).
Defined.

(** ** Active items *)

Lemma starts_with_char n c d p q s :
  units p !! n = Some c -> units q !! n = Some d -> c <> d ->
  starts_with s p = true -> starts_with s q = false.
Proof.
  intros Hp Hq N S. destruct (starts_with s q) eqn:E; [|done]. exfalso. apply N.
  apply starts_with_spec in S as [t ->]. apply starts_with_spec in E as [u E].
  apply (f_equal units) in E. rewrite !units_app in E.
  assert (K : (units p ++ units t) !! n = (units q ++ units u) !! n) by by rewrite E.
  rewrite !lookup_app_l in K by (by eapply lookup_lt_Some). congruence.
Qed.

(** At most one entry of the menu is marked as the current page, wherever the user
    is; at the path of an entry it is that entry. Every page of the operator console is
    reached on a local host only: elsewhere its route leads to the simulation. *)
Theorem navigation (location hostname : string) :
  (length (filter (fun i => isActive location i.(nav_to) = true) mobileNavItems) <= 1)%nat /\
  (forall i, In i mobileNavItems ->
     filter (fun j => isActive i.(nav_to) j.(nav_to) = true) mobileNavItems = [i]) /\
  (hostname ∉ LOCAL_RUNTIME_HOSTS -> forall r, In r routes -> r.1.2 = Operator ->
     route_body hostname r = El "Navigate" [Attr "to" "/demo"; Flag "replace" true] []).
Proof.
  split_and!.
  - set (h := starts_with location "/how-it-works"). set (d := starts_with location "/demo").
    set (t := starts_with location "/try-locally"). set (b := starts_with location "/benchmarks").
    assert (X : forall p q c c', units p !! 1%nat = Some c -> units q !! 1%nat = Some c' -> c <> c' ->
              starts_with location p && starts_with location q = false).
    { intros p q c c' Hp Hq N. destruct (starts_with location p) eqn:E; [|done].
      by rewrite (starts_with_char _ _ _ _ _ _ Hp Hq N E). }
    pose proof (X "/how-it-works" "/demo" _ _ eq_refl eq_refl ltac:(done)) as hd.
    pose proof (X "/how-it-works" "/try-locally" _ _ eq_refl eq_refl ltac:(done)) as ht.
    pose proof (X "/how-it-works" "/benchmarks" _ _ eq_refl eq_refl ltac:(done)) as hb.
    pose proof (X "/demo" "/try-locally" _ _ eq_refl eq_refl ltac:(done)) as dt.
    pose proof (X "/demo" "/benchmarks" _ _ eq_refl eq_refl ltac:(done)) as db.
    pose proof (X "/try-locally" "/benchmarks" _ _ eq_refl eq_refl ltac:(done)) as tb.
    fold h d t b in hd, ht, hb, dt, db, tb.
    unfold mobileNavItems. rewrite !filter_cons, filter_nil. cbn [nav_to]. unfold isActive.
    cbn [String.eqb Ascii.eqb Bool.eqb]. fold h d t b.
    destruct (String.eqb_spec location "/") as [->|]; [vm_compute; lia|].
    clearbody h d t b. destruct h, d, t, b; first [discriminate|vm_compute; lia].
  - intros i Hi. repeat destruct Hi as [<-|Hi]; [vm_compute; reflexivity..|destruct Hi].
  - intros Hh r Hr Ho. repeat destruct Hr as [<-|Hr]; try discriminate Ho; try destruct Hr;
      cbn [route_body]; unfold localOperatorRoute; by rewrite bool_decide_eq_false_2.
Qed.

Lemma navigation_witness :
  ("ckpt.example.org" ∉ LOCAL_RUNTIME_HOSTS) /\
  route_body "ckpt.example.org" ("/runs", Operator, "RunsPage")
    = El "Navigate" [Attr "to" "/demo"; Flag "replace" true] [].
Proof.
  assert (N : "ckpt.example.org" ∉ LOCAL_RUNTIME_HOSTS) by (by apply (bool_decide_eq_true_1 _)).
  split; [exact N|].
  apply (proj2 (proj2 (navigation "/" "ckpt.example.org")) N); [|reflexivity].
  do 4 right. left. reflexivity.
Defined.
