(* ===== verification/Motion.v ===== *)
(** * The animations of the menu: [frontend/src/App.tsx]

    The variants that the elements of the mobile menu name, as data: where a property of
    the element goes, and how. Drawing them is the motion library's. *)

From S2P Require Import Prelude JsString JsNum Html Types Host Design Ui App.

Inductive value : Type := Number (x : num) | Css (s : string) | Frames (l : list string).
Record motion_transition : Type := Transition { duration : num; ease : option (list num); delay : option num }.
Record pose : Type := Pose { target : list (string * value); transition : option motion_transition }.

Definition EASE_CURVE : list num := [lit 76 2; of_Z 0; lit 24 2; of_Z 1].

Definition MENU_SLIDE : list (string * pose) :=
  [("initial", Pose [("x", Css "calc(100% + 100px)")] None);
   ("enter", Pose [("x", Css "0%")] (Some (Transition (lit 8 1) (Some EASE_CURVE) None)));
   ("exit", Pose [("x", Css "calc(100% + 100px)")] (Some (Transition (lit 8 1) (Some EASE_CURVE) None)))].

(** [i] is the index of the link. *)
Definition LINK_SLIDE (i : num) : list (string * pose) :=
  [("initial", Pose [("x", Number (of_Z 80))] None);
   ("enter", Pose [("x", Number (of_Z 0))] (Some (Transition (lit 8 1) (Some EASE_CURVE) (Some (mul (lit 5 2) i)))));
   ("exit", Pose [("x", Number (of_Z 80))] (Some (Transition (lit 8 1) (Some EASE_CURVE) (Some (mul (lit 5 2) i)))))].

Definition INDICATOR_SCALE : list (string * pose) :=
  [("open", Pose [("scale", Number (of_Z 1))] (Some (Transition (lit 3 1) None None)));
   ("closed", Pose [("scale", Number (of_Z 0))] (Some (Transition (lit 4 1) None None)))].

Inductive bar : Type := top | middle | bottom.
Definition HAMBURGER_VARIANTS (b : bar) : list (string * pose) :=
  match b with
  | top =>
      [("open", Pose [("rotate", Frames ["0deg"; "0deg"; "45deg"]); ("top", Frames ["35%"; "50%"; "50%"])] None);
       ("closed", Pose [("rotate", Frames ["45deg"; "0deg"; "0deg"]); ("top", Frames ["50%"; "50%"; "35%"])] None)]
  | middle =>
      [("open", Pose [("rotate", Frames ["0deg"; "0deg"; "-45deg"])] None);
       ("closed", Pose [("rotate", Frames ["-45deg"; "0deg"; "0deg"])] None)]
  | bottom =>
      [("open", Pose [("rotate", Frames ["0deg"; "0deg"; "45deg"]); ("bottom", Frames ["35%"; "50%"; "50%"]); ("left", Css "50%")] None);
       ("closed", Pose [("rotate", Frames ["45deg"; "0deg"; "0deg"]); ("bottom", Frames ["50%"; "50%"; "35%"]);
                        ("left", Css "calc(50% + 10px)")] None)]
  end.

(** ** The variants that the menu names *)

Definition named (name : string) : option (list (string * pose)) :=
  list_to_map (M := gmap string _)
    [("MENU_SLIDE", MENU_SLIDE); ("LINK_SLIDE", LINK_SLIDE (of_Z 0)); ("INDICATOR_SCALE", INDICATOR_SCALE);
     ("HAMBURGER_VARIANTS.top", HAMBURGER_VARIANTS top); ("HAMBURGER_VARIANTS.middle", HAMBURGER_VARIANTS middle);
     ("HAMBURGER_VARIANTS.bottom", HAMBURGER_VARIANTS bottom)] !! name.

Definition attr {M} (name : string) (ps : list (prop M)) : option string :=
  head (omap (fun p => match p with Attr nm v => if String.eqb nm name then Some v else None | _ => None end) ps).
(** The poses that an element asks for, its own or its parent's where it has none *)
Definition asked {M} (inherited : list string) (ps : list (prop M)) : list string :=
  match omap (fun k => attr k ps) ["initial"; "animate"; "exit"] with [] => inherited | l => l end.

(** Every element with variants has each pose that it, or the element around it, asks for. *)
Fixpoint posed {M} (inherited : list string) (n : node M) : bool :=
  match n with
  | Txt _ => true
  | El _ ps kids =>
      let poses := asked inherited ps in
      match attr "variants" ps with
      | Some v => match named v with
                  | Some l => forallb (fun p => existsb (fun e : string * pose => String.eqb e.1 p) l) poses
                  | None => false
                  end
      | None => true
      end && (fix go l := match l with [] => true | k :: l => posed poses k && go l end) kids
  end.

(** The poses of the bars while the menu is open or closed *)
Definition bar_pose (open : bool) (b : bar) : list (string * value) :=
  match list_to_map (M := gmap string _) (HAMBURGER_VARIANTS b) !! (if open then "open" else "closed") with
  | Some p => p.(target)
  | None => []
  end.
Definition frames (k : string) (l : list (string * value)) : option (list string) :=
  match (list_to_map l : gmap string value) !! k with Some (Frames fs) => Some fs | _ => None end.

Lemma item_posed (a : app) i item inherited : posed inherited (mobile_item a i item) = true.
Proof. unfold mobile_item. destruct (isActive _ _); lazy; reflexivity. Qed.

(** In every state of the application the mobile navigation asks for poses that exist: the
    panel slides in and out, each link after the other, and the bars follow the menu. *)
Theorem menu_poses (a : app) : posed [] (mobile_nav a) = true.
Proof.
  unfold mobile_nav, menu_panel, menu_backdrop, MenuCurve. destruct (menuOpen a); [|by vm_compute].
  cbn [mobileNavItems imap]. pose proof (item_posed a) as P. revert P. generalize (mobile_item a). intros f P.
  generalize (curve_initial (menuHeight a)) (curve_target (menuHeight a)). intros c c'.
  cbn -[String.eqb attr asked named]. rewrite !P. vm_compute. reflexivity.
Qed.

(** Closing the menu plays the frames of the bars backwards, so a bar starts each time where
    the last animation has left it. *)
Theorem bars_reverse b k fs : frames k (bar_pose true b) = Some fs -> frames k (bar_pose false b) = Some (rev fs).
Proof.
  assert (A : forallb (fun b => forallb (fun k => bool_decide (frames k (bar_pose false b) = (fun l => rev l) <$> frames k (bar_pose true b)))
    ["rotate"; "top"; "bottom"; "left"]) [top; middle; bottom] = true) by by vm_compute.
  intros E. assert (K : k ∈ ["rotate"; "top"; "bottom"; "left"]).
  { unfold frames in E. destruct (_ !! k) as [v|] eqn:L; [|done]. apply elem_of_list_to_map_2 in L.
    destruct b; cbn in L; repeat (apply elem_of_cons in L as [[= -> _]|L]; [by set_solver|]); by apply elem_of_nil in L. }
  rewrite forallb_forall in A. specialize (A b ltac:(destruct b; cbn; tauto)). rewrite forallb_forall in A.
  specialize (A k ltac:(by apply list_elem_of_In)). apply bool_decide_eq_true in A. by rewrite A, E.
Qed.
