(* ===== verification/Site.v ===== *)
(** * The public site as a whole

    The pages a visitor can open and the shell around them: where their links lead, the
    keys and the section numbers of the static pages, and what the pages say of the
    system against the models of the system. *)

From Stdlib Require Import Ascii.
From S2P Require Import Prelude JsString JsNum Html Types Host Design Ui ControlPlane Simulation SimulationView.
From S2P Require Import Walkthrough Architecture Landing HowItWorks TryLocally Benchmarks App.

(** ** Links *)

(** The paths an element leads to by itself: a [Link], or a [Navigate] that redirects *)
Definition own_links {M} (tag : string) (ps : list (prop M)) : list string :=
  if (tag =? "Link")%string || (tag =? "Navigate")%string
  then omap (fun p => match p with Attr nm v => if (nm =? "to")%string then Some v else None | _ => None end) ps
  else [].
Fixpoint links {M} (n : node M) : list string :=
  match n with
  | Txt _ => []
  | El tag ps kids =>
      own_links tag ps ++ (fix go l := match l with [] => [] | k :: l' => links k ++ go l' end) kids
  end.

Definition public_paths : list string :=
  omap (fun r => match r.1.2 with Public => Some r.1.1 | Operator => None end) routes.

(** Every link leads to a public page. *)
Definition on_site {M} (n : node M) : Prop := Forall (fun p => p ∈ public_paths) (links n).

Lemma on_site_el {M} tag (ps : list (prop M)) kids :
  forallb (fun p => bool_decide (p ∈ public_paths)) (own_links tag ps) = true ->
  Forall on_site kids -> on_site (El tag ps kids).
Proof.
  intros O F. unfold on_site. cbn [links]. apply Forall_app. split.
  - apply Forall_forall. intros p Hp. rewrite forallb_forall in O. apply list_elem_of_In in Hp.
    by apply O, bool_decide_eq_true in Hp.
  - induction F as [|k kids Hk F IH]; [constructor|]. apply Forall_app. by split.
Qed.
Lemma on_site_txt {M} s : on_site (Txt s : node M).
Proof. constructor. Qed.
Lemma on_site_when {M} b (n : node M) : on_site n -> Forall on_site (when b n).
Proof. intros H. unfold when. destruct b; by repeat constructor. Qed.
Lemma on_site_map {M A} (f : A -> node M) l : (forall a, on_site (f a)) -> Forall on_site (map f l).
Proof. intros H. induction l; by constructor. Qed.
Lemma on_site_imap {M A} (f : nat -> A -> node M) l : (forall i a, on_site (f i a)) -> Forall on_site (imap f l).
Proof.
  revert f. induction l as [|a l IH]; intros f H; [constructor|]. rewrite imap_cons. constructor; [done|].
  apply IH. intros i b. apply H.
Qed.

Ltac on_site :=
  repeat first
    [ apply on_site_txt
    | apply on_site_el; [vm_compute; reflexivity|]
    | apply Forall_nil_2
    | apply Forall_cons; split
    | apply Forall_app; split
    | apply on_site_when
    | apply on_site_map; intros ?
    | apply on_site_imap; intros ? ?
    | case_match ].

Section Demo.
Context `{MathLib}.
Lemma demo_on_site s : on_site (DemoPage s).
Proof.
  unfold DemoPage. on_site.
  all: unfold intro_section, hero_section, stages_section, started_section, footer_section, boundary_panel,
         storage_panel, stdout_panel, timeline_panel, workers_panel, worker_card, SimulationPipeline, loss_panel, metrics_panel,
         recovery_banner, recovered_banner; on_site.
Qed.
End Demo.

(** no link of the public site leads anywhere but to a public page: not from the
    pages in any of their states, not from the shell on any host; and every public page
    is in the shell's navigation. *)
Theorem site_links `{MathLib} (openQA : option nat) (copied : nat -> bool) (s : sim) (hostname : string) (a : app) :
  on_site (LandingPage openQA) /\ on_site (HowItWorksPage (M := unit)) /\ on_site (TryLocallyPage copied) /\
  on_site (BenchmarksPage (M := unit)) /\ on_site (DemoPage s) /\ on_site (AppView hostname a) /\
  forall p, p ∈ public_paths -> p ∈ links (desktop_nav a).
Proof.
  assert (L : forall M (n : node M), forallb (fun p => bool_decide (p ∈ public_paths)) (links n) = true -> on_site n).
  { intros M n F. apply Forall_forall. intros p Hp. rewrite forallb_forall in F. apply list_elem_of_In in Hp.
    by apply F, bool_decide_eq_true in Hp. }
  split_and!.
  - apply L. destruct openQA as [[|[|[|[|[|[|n]]]]]]|]; vm_compute; reflexivity.
  - apply L. vm_compute. reflexivity.
  - apply L. vm_compute. reflexivity.
  - apply L. vm_compute. reflexivity.
  - apply demo_on_site.
  - unfold AppView, desktop_nav, mobile_nav, menu_panel, menu_backdrop, MenuCurve, desktopNavItems, mobileNavItems, routes.
    cbn [map imap]. on_site.
    all: unfold desktop_item, mobile_item, route_element, route_body, localOperatorRoute; on_site.
  - assert (E : links (desktop_nav a) = ["/"; "/how-it-works"; "/demo"; "/try-locally"; "/benchmarks"]).
    { unfold desktop_nav, desktopNavItems. cbn [map]. unfold desktop_item. cbn [nav_highlight nav_to].
      repeat match goal with |- context [isActive ?x ?y] => generalize (isActive x y); intros [] end; vm_compute; reflexivity. }
    rewrite E. intros p Hp. apply list_elem_of_In. apply list_elem_of_In in Hp. vm_compute in Hp |- *. tauto.
Qed.

(** ** Section numbers and keys *)

(** The text of the elements of a class, in document order *)
Fixpoint texts_of_class {M} (c : string) (n : node M) : list string :=
  match n with
  | Txt _ => []
  | El _ ps kids =>
      if existsb (fun p => match p with Attr nm v => (nm =? "className")%string && (v =? c)%string | _ => false end) ps
      then text n
      else (fix go l := match l with [] => [] | k :: l' => texts_of_class c k ++ go l' end) kids
  end.

(** The counter of a section of [total]: [[01/09]·label] *)
Definition counter (total : Z) (entry : Z * string) : list string :=
  ["["; pad_start 2 "0"%char (dec entry.1); "/"; pad_start 2 "0"%char (dec total); "]"; "·"; entry.2].
Definition numbered (labels : list string) : list (Z * string) := imap (fun i l => (Z.of_nat i + 1, l)) labels.

(** the static pages are well-formed in every state: sibling keys are distinct, and
    the section counters of the two numbered pages run from 01 to the page's total. *)
Theorem static_pages (openQA : option nat) (copied : nat -> bool) :
  keys_ok (LandingPage openQA) /\ keys_ok (HowItWorksPage (M := unit)) /\ keys_ok (TryLocallyPage copied) /\
  keys_ok (BenchmarksPage (M := unit)) /\
  texts_of_class "section-counter" (LandingPage openQA) =
    numbered ["Origin"; "Engineering"; "Simulation"; "Infrastructure"; "Architecture"; "Reliability"; "Proof"; "Q&A"; "Stack"]
      ≫= counter Landing.TOTAL /\
  texts_of_class "section-counter" (TryLocallyPage copied) =
    numbered ["Prerequisites"; "Launch"; "The Fleet"; "Dashboard"; "Break It"; "Under the Hood"; "Clean Up"]
      ≫= counter TryLocally.TOTAL.
Proof.
  split_and!.
  - apply keys_okb_ok. destruct openQA as [[|[|[|[|[|[|n]]]]]]|]; vm_compute; reflexivity.
  - apply keys_okb_ok. vm_compute. reflexivity.
  - apply keys_okb_ok. vm_compute. reflexivity.
  - apply keys_okb_ok. vm_compute. reflexivity.
  - destruct openQA as [[|[|[|[|[|[|n]]]]]]|]; vm_compute; reflexivity.
  - vm_compute. reflexivity.
Qed.

(** ** The documented state machine *)

Definition parse_state (s : string) : option run_state :=
  head (filter (fun st => run_state_string st = s) all_run_states).
(** The states of a cell: separated by a comma and a space, or "none" *)
Definition parse_next (cell : string) : option (list run_state) :=
  if (cell =? "none")%string then Some []
  else mapM (fun w => parse_state (trim w)) (split "," cell).

(** the state table of the how-it-works page is the transition table of the control
    plane: every run state has exactly one row, the row lists the targets the state
    machine accepts, each once, and "none" stands exactly at the terminal states. *)
Theorem documented_state_machine :
  NoDup (map fsm_row_state fsm_rows) /\
  forall s, exists row next, row ∈ fsm_rows /\ fsm_row_state row = run_state_string s /\
    parse_next (fsm_row_next row) = Some next /\ NoDup next /\
    (forall t, t ∈ next <-> Fsm.can_transition (Fsm.init s) t = true) /\
    (fsm_row_next row = "none" <-> Fsm.is_terminal (Fsm.init s) = true).
Proof.
  split; [by apply (bool_decide_unpack (NoDup _))|]. intros s.
  assert (Row : exists row, row ∈ fsm_rows /\ fsm_row_state row = run_state_string s /\
            exists next, parse_next (fsm_row_next row) = Some next /\
              bool_decide (NoDup next) = true /\
              forallb (fun t => Bool.eqb (bool_decide (t ∈ next)) (Fsm.can_transition (Fsm.init s) t)) all_run_states = true /\
              (fsm_row_next row =? "none")%string = Fsm.is_terminal (Fsm.init s)).
  { destruct (head (filter (fun r => fsm_row_state r = run_state_string s) fsm_rows)) as [row|] eqn:E;
      [|destruct s; vm_compute in E; discriminate E].
    exists row. split_and!.
    - destruct (filter _ _) as [|r l] eqn:F; [discriminate E|]. injection E as ->.
      assert (I : row ∈ row :: l) by (by left). rewrite <- F in I. by apply list_elem_of_filter in I as [_ ?].
    - destruct (filter _ _) as [|r l] eqn:F; [discriminate E|]. injection E as ->.
      assert (I : row ∈ row :: l) by (by left). rewrite <- F in I. by apply list_elem_of_filter in I as [? _].
    - destruct s; vm_compute in E; injection E as <-; eexists; (split_and!; [vm_compute; reflexivity..]). }
  destruct Row as (row & I & N & next & P & D & F & T). exists row, next. split_and!; try done.
  - by apply bool_decide_eq_true in D.
  - intros t. rewrite forallb_forall in F. specialize (F t). rewrite Bool.eqb_true_iff in F.
    rewrite <- F by apply list_elem_of_In, all_run_states_complete. by rewrite bool_decide_eq_true.
  - rewrite <- T. by rewrite String.eqb_eq.
Qed.
